(* ===== verification/_CoqProject ===== *)
-Q . S2P
Prelude.v
TextCodec.v
Standard.v
Memory.v
Environment.v
Loader.v
Session.v
Closure.v
Glue.v
DebugString.v
Loopback.v
Spectrum.v
WlanSwap.v
Prophecy.v
Wlan.v
WlanDebug.v
Decoder.v
FrontEnds.v
FrontEndSpec.v
Lifetimes.v
Tracker.v
TrackerFacts.v
TrackerSpec.v
Json.v
Answer.v
AnswerSpec.v
Server.v
RotatedMarker.v
Icons.v
Handle.v
Helpers.v
Externrefs.v
Pages.v
Run.v
Linking.v
Worklet.v
Processor.v
