(* ===== verification/Prelude.v ===== *)
(** * FutureSDR: the JavaScript of the web front ends, in Rocq

    FutureSDR is a Rust runtime for software-defined radio.  Its browser parts are the
    JavaScript this development models: the glue modules between wasm and the page, as they
    are deployed with the front ends; the audio worklet of the rattlegram example; and the
    map of the ADS-B example.  Everything is translated by hand or, for the import objects,
    entry by entry, into executable definitions; theorems are about these.

    ** How the parts work together

    A page calls the default export of a glue module ([__wbg_init]), which loads a wasm
    module with an object of imports and keeps its exports in [wasm] (Loader); the instance
    works on a memory that is given to it or made for it, and the module's views are reset
    (Session).  Wasm calls
    the imports (the table files); they reach the page's objects through JavaScript values
    and wasm's memory through cached typed arrays (Memory); strings cross by encoders and
    decoders (TextCodec); exceptions and optional objects cross through a table of external
    references, and Rust closures are wrapped into functions (Glue, Closure).  Objects of
    Rust that the page holds are instances of generated classes (Handle).  In the rattlegram
    example this happens in an audio thread that talks to the page over a message port
    (Worklet, Decoder).  The ADS-B page has no wasm: it polls a flowgraph's REST interface
    and drives Leaflet (Tracker), reading whatever JSON the server answers (Json, Answer,
    Server); a plug-in turns Leaflet's markers (RotatedMarker, Icons).

    ** Files

    - Prelude: completion values ([outcome], [run]); the conversions of JavaScript's bitwise
      operators; indexing with integers; [while] with fuel; the monad [M] of stateful code
      that can throw, with [try_catch] and [try_finally], total-correctness triples and
      invariants ([preserves], with a tactic and a hint database of the same name).
    - TextCodec: the codec of examples/rattlegram/assets/text-encoder.js, the operations
      [TextOps] that the glue calls, and the interface [TextCodec] that it relies on, with two
      instances: the polyfill, and the same codec on an engine that has [encodeInto].
    - Standard: the codecs of the Encoding standard, the third instance and the reference to
      which the polyfill is compared.
    - Memory: the cached views ([getUint8ArrayMemory0] ... [getDataViewMemory0]),
      [passStringToWasm0], [getStringFromWasm0], the array helpers and [decodeText], common
      to the seven glue modules.  The linear memory has a generation that changes when it
      grows; a view knows the generation of its buffer and is detached when it is older.
    - Environment: the top level of a glue module, which picks its decoder and encoder from the
      scope, in both generations ([guarded_decoder], [bare_decoder] ...), and the installation
      of the polyfill ([install]) before the processor's glue is evaluated.
    - Loader: [__wbg_load] in its three versions, [__wbg_finalize_init], [initSync] and
      [__wbg_init], asynchronous calls being a beginning and an end.
    - Session: a page with one glue module: instances, their memories ([__wbg_init_memory])
      and the module's views, as a transition system of loading calls that may overlap, wasm
      code and glue code ([page_step]).
    - Closure: the life of one [makeMutClosure] object, in the two versions the glue has, with
      and without a FinalizationRegistry.  A call of the destructor has a beginning and an end
      ([DtorReturns], [DtorThrows]); what the source does after it is done at its end.  The
      fields [rightful] and [calm] are ghosts: they record whether wasm gave up only what it
      held, and whether destructors returned with nothing happening meanwhile.
    - Glue: JavaScript values, the realm, and the pieces the imports are made of
      ([handleError], [addToExternrefTable0], string returns, closures, lent callbacks).
    - DebugString: [debugString] and the part of its regular expression that matters.
    - Loopback, Spectrum, WlanSwap, Prophecy, Wlan, WlanDebug: [__wbg_get_imports] of
      examples/wgpu/dist/loopback-*.js, examples/spectrum/dist/frontend-*.js,
      examples/wlan-swap/dist/frontend-*.js, crates/prophecy/dist/prophecy-*.js,
      examples/wlan/dist/frontend-*.js and examples/wlan_debug/dist/frontend-*.js: all
      entries, in order, in pieces of up to 150 lines of the source ([imports_1] ...), the
      string tables of enumerations, the adapters by which closures call wasm, and what each
      module does of its own when it is loaded.
    - FrontEnds, FrontEndSpec: facts on all entries of the seven modules' tables
      ([module_of]: a module with its views, its table and its version of [makeMutClosure] --
      the six above and the worklet's, whose table is made from the console's methods when the
      module loads), for any invariant that the building blocks keep, and the theorems.
    - Lifetimes: the closures of a realm live as Closure says, whatever imports run and
      whatever host code and wasm do with them.
    - Handle: the classes with a pointer ([WasmDecoder], [MessageSetter],
      [IntoUnderlyingSource] ...), with the copies of the stream classes in one Module per
      front end ([InProphecy] ... [InWlanDebug]).
    - Decoder: examples/rattlegram/worklet/wasm-decoder.js beyond what Memory has: [process],
      [message], and its import object.
    - Helpers: which helper functions each of the seven glue modules has ([InSpectrum] ...
      [InDecoder]), reading through [decodeText], and one record [helpers] through which the
      theorems hold for all of them ([HelpersOk]).
    - Externrefs: the externref table as Rust's heap of JavaScript values: the history of the
      slab ([Allocated], [Dropped]), what Rust [holds], and that imports only [frames] it.
    - Pages: Session with the imports of each module as its code.
    - Run: a page from the end of its loading on as one transition system ([run_step]):
      imports, exports, host functions, lent callbacks, views, and closures that are called,
      dropped, leaked and collected ([collect], of CLOSURE_DTORS).
    - Linking: what the .wasm files beside the glue modules import and export, by name and
      number of parameters, and that the import objects and adapters fit.
    - Worklet: decoder-node.js, decoder-processor.js and both copies of setup-decoder.js of
      examples/rattlegram, and the processor together with the decoder's glue.
    - Processor: the processor with the loading of its wasm module; a refinement of the
      protocol of Worklet.
    - Tracker: examples/adsb/dist/script.js; TrackerFacts: its invariant and its functional
      description; TrackerSpec: the theorems.
    - Json: JSON values and what reading them does (properties, indices, conversions, [in]).
      Answer: [fetch_aircrafts] and [update_aircrafts] of the same script on any answer of
      the server, whose aircraft may lack a field or have it with another type; AnswerSpec:
      that this is Tracker on well-formed registers, and what happens on the others
      ([Order]: what any update keeps).
      Server: the page as it polls a server whose answers to both requests may be anything,
      with the user's gestures, also on markers that an update left behind when it threw.
    - RotatedMarker: examples/adsb/dist/leaflet.rotatedMarker.js.
    - Icons: the map page on top of the plug-in; when Leaflet positions an icon is Leaflet's
      business ([performed]).

    ** What is outside, and how it enters

    Code that is not JavaScript of this repository is a parameter.  The exports of a wasm
    module are the classes [Allocator] (memory), [Exports] and [DecoderExports]; what the
    theorems need of them is in classes of laws ([AllocatorLaws]: a block returned by malloc
    or realloc lies in memory, and realloc keeps its contents; [AllocatorSteps]: exports only
    grow memory; [StackLaws]: exports that return balance the stack
    pointer, and nothing is said of those that do not; [SlabLaws]: a slot that is handed out was free, and a call into
    wasm touches no slot it has not dropped).  The engine and the page's objects are the class [Host]:
    reading and calling a property may run any code, run closures, throw or trap; [HostSafe]
    says that this leaves a realm in good order in good order, as page code cannot reach the
    glue's variables but through the glue; [HostKeeps] and [ExportsKeep] say the same of
    any invariant that the glue's building blocks keep.  Leaflet enters Tracker as a list
    of calls and the classes [LayerGroup] (what is on the map) and [PopupLaws] (when a popup
    closes), Answer as the class [Leaflet] (what each call takes its arguments for, and how far
    it comes where it throws; [LeafletLaws]: it takes finite numbers as they are), Server as the
    class [Clearing] (in which order layers are cleared), RotatedMarker as the two methods it
    saves ([sets_position]), and Icons as the relation [performed]; the locale's date format, [Number.prototype.toString], [ToNumber] of strings and
    [JSON.parse] are functions; [NumberText] says that integers up to [2^53] are written in
    decimal, and [ParsesText] and [sized_response] that an object read from a text has fewer
    properties than that.  The browser's
    answers are the records [browser] (Loader) and [platform] (Worklet).  Each class of laws
    has an instance (Bump, Toy, ArrayToy, DecoderToy, LifeToy, RefToy, [in_group_layer_group],
    [closes_laws], [AnswerSample], [ServerSample]), on which the
    witnesses of the theorems are evaluated.

    ** Groups of theorems

    - Strings: the polyfill is lossless on all strings, total on all octets, and conforms to
      the standard exactly on well-formed strings; what [passStringToWasm0] writes is the
      encoding, within the block it allocated, and [getStringFromWasm0] of every module reads
      it back; on a page Rust always gets UTF-8, in the worklet if the string is well-formed;
      what the generations do where there is no TextDecoder; no decoder exceeds its budget.
    - Everything in a page: in any run of [run_step] the views are fresh, closures only live,
      no environment is freed twice or used after it (in the newer version of
      [makeMutClosure]: as long as destructors are calm), and what Rust holds stays in the
      table.
    - Memory: no getter returns a view of a detached buffer, in Memory for the helpers and in
      Pages for every module and everything that can happen to a page; each module resets
      the views it caches, and its slice functions cut out the elements at the pointer.
    - Ownership: no environment of a closure is used after it is freed, none is freed twice,
      none leaks where there is a FinalizationRegistry, and the two versions agree, for the
      newer one as long as its destructors return and do not call their own function
      ([unref_destructor_unsafe] shows what happens otherwise); all closures of a page keep to this, whatever
      imports run and whenever the page calls them; the same for the classes with a pointer; a lent
      callback is dead after the call; a value that Rust holds by an index of the externref
      table stays there, whatever imports run, until Rust drops it; [process]
      gives back its stack and its result unless an export throws.
    - Imports: every import of every module keeps the realm in good order; those wrapped
      in [handleError] let no exception through; [instanceof] imports always answer; the
      import objects and adapters have the names and parameters the wasm binaries ask for.
    - Loading: one instance per page as long as calls do not overlap, and two if they do, of
      which the glue serves the second only; [initSync] is [__wbg_init] on a module; where
      the versions of [__wbg_load] differ.
    - Worklet: the two threads' protocol keeps the order of results and ends with a decoder;
      the errors of the set-up; a quantum without input stops the decoder; the processor with
      its loading code refines the protocol, and its decoder is used in the instance it was
      made in as long as [node.init] is called once.
    - Map: the page refines a specification that says what is shown of each aircraft after
      any sequence of registers ([display_update]); markers, path lines and layers follow the
      register; an aircraft's icon is where it is and points where it heads, and rotations do
      not accumulate (on IE 9 the last rotation stays); a line is highlighted exactly while its popup is open; the popup's
      figures; the poll's state machine and auto-zoom -- and places where the page does not do
      what it should (markers hidden after a reconnection, no recovery from a flowgraph
      without tracker, zeros shown as unknown, growing lists of handlers).  On any answer at
      all, to either request, reading ends, nothing is left uncaught and the poll recovers --
      except from a flowgraph without a tracker that can be read; a popup of a marker that was
      left behind delays this by one answer; and one aircraft that cannot be read blocks those
      after it.

    ** Bounds and fuel

    Loops that are not structural run by [while] with a fuel computed from the length of the
    input; that it suffices is part of the theorems, which conclude that a result is
    returned.  [debugString] recurses with the engine's stack as its fuel and throws
    RangeError where that is exhausted, as the engine does; a theorem gives the depth that
    suffices.  Integers are in [Z] with the source's conversions ([>>> 0], int32 operators)
    written out; strings are lists of UTF-16 units, memory a list of octets.  Numbers that
    may be fractions are [number]: an integer or a binary64 of the Standard Library's
    [SpecFloat].

    ** Simplifications

    - Import objects are made before a page's first step, not by the loading call (but
      Decoder's are a function of the console at that time); an instance's exports are
      identified with the instance.
    - Tracker's registers and flowgraphs are typed records, and its users click on the markers
      of aircraft; Answer and Server read any JSON instead.  The keys of objects are ASCII
      strings.  Of Leaflet's calls in an update, those with arguments from the server may
      throw; [setPopupContent], [bindPopup], [on] and [removeLayer] throw only what a
      popup's handler throws.
    - The decoder objects that [decodeText] makes are all alike: one [tc_decode].
    - The slab that Rust keeps over the externref table enters as its history; a slot that is
      dropped keeps its value in the table until it is filled again.
    - The promise of [WebAssembly.compile] settles together with the call of [init] that
      awaits it.
    - [WasmDecoder] is the only class with [__wrap]: no code under src/ makes an object of the
      stream classes, whose theorems are about those a later build would hand out.
    - The registry's callback ([collect]) runs when nothing else of its closure does.
    - What the wasm binaries import and export is copied from their sections into Linking;
      their code is not modelled.
    - Not modelled: mermaid.min.js (vendored), the configuration files of Tailwind and
      mermaid, and the Rust code.

    ** What may follow

    The loading calls of Session as steps of Run, which starts where a module has been
    loaded. *)

From Stdlib Require Export ZArith Lia ZifyBool.
From stdpp Require Export base tactics numbers option list strings relations functions.

#[global] Set Default Goal Selector "!".
#[global] Open Scope Z_scope.

(** ** 1. Completion values *)

(** What running a piece of JavaScript yields: a value, or a thrown one. *)
Inductive outcome (E A : Type) : Type :=
  | Ok (a : A)
  | Throw (e : E).
Arguments Ok {E A} a.
Arguments Throw {E A} e.

(** A computation that may also run out of fuel, which is [None]. *)
Abbreviation run E A := (option (outcome E A)).
Abbreviation ret a := (Some (Ok a)).
Abbreviation raise e := (Some (Throw e)).

Definition run_bind {E A B} (f : A → run E B) (r : run E A) : run E B :=
  match r with
  | Some (Ok a) => f a
  | Some (Throw e) => Some (Throw e)
  | None => None
  end.

(** [try { r } catch (e) { h e }] *)
Definition run_catch {E E' A} (h : E → run E' A) (r : run E A) : run E' A :=
  match r with
  | Some (Ok a) => Some (Ok a)
  | Some (Throw e) => h e
  | None => None
  end.

Declare Scope js_scope.
Delimit Scope js_scope with js.
Notation "x '<~' r ; k" := (run_bind (fun x => k) r)
  (at level 20, r at level 100, k at level 200, only parsing) : js_scope.
Notation "' p '<~' r ; k" := (run_bind (fun x => match x with p => k end) r)
  (at level 20, p pattern, r at level 100, k at level 200, only parsing) : js_scope.
#[global] Open Scope js_scope.

Lemma run_bind_ret {E A B} (f : A → run E B) r b :
  run_bind f r = ret b ↔ ∃ a, r = ret a ∧ f a = ret b.
Proof. destruct r as [[]|]; naive_solver. Qed.

Lemma run_bind_raise {E A B} (f : A → run E B) r e :
  run_bind f r = raise e ↔ r = raise e ∨ ∃ a, r = ret a ∧ f a = raise e.
Proof. destruct r as [[]|]; naive_solver. Qed.

Lemma run_bind_assoc {E A B C} (f : A → run E B) (g : B → run E C) r :
  run_bind g (run_bind f r) = run_bind (λ a, run_bind g (f a)) r.
Proof. by destruct r as [[]|]. Qed.

(** ** 2. Number conversions of the bitwise operators (ECMA-262, 7.1.6/7.1.7) *)

Definition ToUint32 (z : Z) : Z := z mod 2 ^ 32.
Definition ToInt32 (z : Z) : Z :=
  let u := ToUint32 z in if u <? 2 ^ 31 then u else u - 2 ^ 32.

(** [a | b], [a & b], [a << n], [a >> n] and [a >>> n] on Numbers that are integers. *)
Definition js_or (a b : Z) : Z := ToInt32 (Z.lor (ToInt32 a) (ToInt32 b)).
Definition js_and (a b : Z) : Z := ToInt32 (Z.land (ToInt32 a) (ToInt32 b)).
Definition js_shl (a n : Z) : Z := ToInt32 (Z.shiftl (ToInt32 a) (ToUint32 n mod 32)).
Definition js_sar (a n : Z) : Z := Z.shiftr (ToInt32 a) (ToUint32 n mod 32).
Definition js_ushr (a n : Z) : Z := Z.shiftr (ToUint32 a) (ToUint32 n mod 32).

Lemma ToUint32_small z : 0 ≤ z < 2 ^ 32 → ToUint32 z = z.
Proof. apply Z.mod_small. Qed.

Lemma ToUint32_range z : 0 ≤ ToUint32 z < 2 ^ 32.
Proof. apply Z.mod_pos_bound. lia. Qed.

Lemma ToInt32_small z : - 2 ^ 31 ≤ z < 2 ^ 31 → ToInt32 z = z.
Proof.
  intros ?. unfold ToInt32, ToUint32.
  destruct (decide (0 ≤ z)).
  - rewrite Z.mod_small by lia. destruct (Z.ltb_spec z (2 ^ 31)); lia.
  - replace (z mod 2 ^ 32) with (z + 2 ^ 32).
    + destruct (Z.ltb_spec (z + 2 ^ 32) (2 ^ 31)); lia.
    + symmetry. rewrite <- (Z.mod_add z 1) by lia. apply Z.mod_small. lia.
Qed.

Lemma ToInt32_range z : - 2 ^ 31 ≤ ToInt32 z < 2 ^ 31.
Proof.
  unfold ToInt32. pose proof (ToUint32_range z).
  destruct (Z.ltb_spec (ToUint32 z) (2 ^ 31)); lia.
Qed.

Lemma ToUint32_ToInt32 z : ToUint32 (ToInt32 z) = ToUint32 z.
Proof.
  unfold ToInt32. destruct (Z.ltb_spec (ToUint32 z) (2 ^ 31)).
  - unfold ToUint32. apply Z.mod_mod. lia.
  - unfold ToUint32. rewrite <- (Z.mod_add _ 1) by lia.
    replace (z mod 2 ^ 32 - 2 ^ 32 + 1 * 2 ^ 32) with (z mod 2 ^ 32) by lia.
    apply Z.mod_mod. lia.
Qed.

Lemma ToUint32_idem z : ToUint32 (ToUint32 z) = ToUint32 z.
Proof. apply ToUint32_small, ToUint32_range. Qed.

Lemma js_ushr_0 z : js_ushr z 0 = ToUint32 z.
Proof. unfold js_ushr. change (ToUint32 0 mod 32) with 0. apply Z.shiftr_0_r. Qed.

Lemma ToUint32_0 n : 0 ≤ n < 32 → ToUint32 n mod 32 = n.
Proof. intros. rewrite ToUint32_small by lia. apply Z.mod_small. lia. Qed.

(** The operators agree with the plain ones where no bit is lost. *)
Lemma js_sar_small a n : 0 ≤ a < 2 ^ 31 → 0 ≤ n < 32 → js_sar a n = a / 2 ^ n.
Proof.
  intros. unfold js_sar. rewrite ToInt32_small, ToUint32_0 by lia.
  apply Z.shiftr_div_pow2. lia.
Qed.

Lemma js_shl_small a n :
  0 ≤ a → 0 ≤ n < 32 → a * 2 ^ n < 2 ^ 31 → js_shl a n = a * 2 ^ n.
Proof.
  intros. unfold js_shl.
  pose proof (Z.pow_pos_nonneg 2 n ltac:(lia) ltac:(lia)).
  assert (a ≤ a * 2 ^ n) by nia.
  rewrite (ToInt32_small a), ToUint32_0 by lia.
  rewrite Z.shiftl_mul_pow2 by lia. apply ToInt32_small. lia.
Qed.

Lemma Z_land_low_bound a n : 0 ≤ n → 0 ≤ Z.land a (Z.ones n) < 2 ^ n.
Proof. intros. rewrite Z.land_ones by lia. apply Z.mod_pos_bound. lia. Qed.

(** Masking with [2^n - 1] is the remainder. *)
Lemma js_and_ones a n : 0 ≤ a < 2 ^ 31 → 0 ≤ n < 31 → js_and a (Z.ones n) = a mod 2 ^ n.
Proof.
  intros. unfold js_and.
  pose proof (Z.pow_pos_nonneg 2 n ltac:(lia) ltac:(lia)).
  pose proof (Z.pow_lt_mono_r 2 n 31 ltac:(lia) ltac:(lia) ltac:(lia)).
  assert (0 ≤ Z.ones n < 2 ^ 31) by (rewrite Z.ones_equiv; lia).
  rewrite (ToInt32_small a), (ToInt32_small (Z.ones n)), Z.land_ones by lia.
  apply ToInt32_small. pose proof (Z.mod_pos_bound a (2 ^ n)). lia.
Qed.

Lemma Z_land_shifted a b n : 0 ≤ n → 0 ≤ b < 2 ^ n → Z.land (Z.shiftl a n) b = 0.
Proof.
  intros ? Hb. apply Z.bits_inj'. intros i ?. rewrite Z.land_spec, Z.bits_0.
  destruct (decide (i < n)).
  - by rewrite Z.shiftl_spec_low by lia.
  - rewrite <- (Z.mod_small b (2 ^ n)) by done.
    by rewrite Z.mod_pow2_bits_high, andb_false_r by lia.
Qed.

(** Or-ing disjoint bits is addition. *)
Lemma Z_lor_add a b n : 0 ≤ n → 0 ≤ b < 2 ^ n → Z.lor (a * 2 ^ n) b = a * 2 ^ n + b.
Proof.
  intros ? Hb. rewrite <- Z.shiftl_mul_pow2 by lia.
  rewrite <- Z.lxor_lor, <- Z.add_nocarry_lxor by (by apply Z_land_shifted).
  done.
Qed.

Lemma js_or_disjoint a b n :
  0 ≤ n → 0 ≤ a → 0 ≤ b < 2 ^ n → a * 2 ^ n + b < 2 ^ 31 →
  js_or (a * 2 ^ n) b = a * 2 ^ n + b.
Proof.
  intros. unfold js_or. assert (0 ≤ a * 2 ^ n) by nia.
  rewrite (ToInt32_small (a * 2 ^ n)), (ToInt32_small b) by nia.
  rewrite Z_lor_add by lia. apply ToInt32_small. lia.
Qed.

(** ** 3. Lists as JavaScript arrays *)

Section js_array.
Context {A : Type}.
Implicit Types (l : list A) (i n : Z).

(** [l.length] *)
Definition Zlen l : Z := Z.of_nat (length l).

(** [l[i]]; [None] stands for [undefined]. *)
Definition Zget l i : option A := if 0 <=? i then l !! Z.to_nat i else None.

(** [l.slice(i)] for [0 <= i] *)
Definition Zdrop i l : list A := drop (Z.to_nat i) l.

Lemma Zlen_nonneg l : 0 ≤ Zlen l.
Proof. unfold Zlen. lia. Qed.
Lemma Zlen_app l1 l2 : Zlen (l1 ++ l2) = Zlen l1 + Zlen l2.
Proof. unfold Zlen. rewrite length_app. lia. Qed.
Lemma Zlen_cons a l : Zlen (a :: l) = 1 + Zlen l.
Proof. unfold Zlen. cbn [length]. lia. Qed.
Lemma Zlen_nil : Zlen (@nil A) = 0.
Proof. done. Qed.

Lemma Zget_app_r l1 l2 i : 0 ≤ i → Zget (l1 ++ l2) (Zlen l1 + i) = Zget l2 i.
Proof.
  intros. unfold Zget, Zlen.
  destruct (Z.leb_spec 0 i), (Z.leb_spec 0 (Z.of_nat (length l1) + i)); try lia.
  rewrite lookup_app_r by lia. f_equal. lia.
Qed.

Lemma Zget_app_head l1 a l2 : Zget (l1 ++ a :: l2) (Zlen l1) = Some a.
Proof. rewrite <- (Z.add_0_r (Zlen l1)). by rewrite Zget_app_r. Qed.

Lemma Zget_Some l i a : Zget l i = Some a → 0 ≤ i < Zlen l.
Proof.
  unfold Zget, Zlen. destruct (Z.leb_spec 0 i); [|done].
  intros ?%lookup_lt_Some. lia.
Qed.

Lemma Zget_is_Some l i : 0 ≤ i < Zlen l → is_Some (Zget l i).
Proof.
  unfold Zget, Zlen. intros. destruct (Z.leb_spec 0 i); [|lia].
  apply lookup_lt_is_Some. lia.
Qed.
End js_array.

Arguments Zlen : simpl never.
Arguments Zget : simpl never.
Arguments Zdrop : simpl never.
Arguments js_or : simpl never.
Arguments js_and : simpl never.
Arguments js_shl : simpl never.
Arguments js_sar : simpl never.
Arguments js_ushr : simpl never.
Arguments ToInt32 : simpl never.
Arguments ToUint32 : simpl never.

(** ** 4. Loops

    [while cond body] makes at most [fuel] tests of [cond].  A body that throws ends the
    loop with the exception. *)

Section while_loop.
Context {E S : Type} (cond : S → bool) (body : S → run E S).

Fixpoint while (fuel : nat) (s : S) : run E S :=
  match fuel with
  | O => None
  | Datatypes.S fuel => if cond s then run_bind (while fuel) (body s) else ret s
  end.

Lemma while_done fuel s : cond s = false → while (Datatypes.S fuel) s = ret s.
Proof. simpl. by intros ->. Qed.

Lemma while_step fuel s s' :
  cond s = true → body s = ret s' → while (Datatypes.S fuel) s = while fuel s'.
Proof. simpl. by intros -> ->. Qed.

Lemma while_throw fuel s e :
  cond s = true → body s = raise e → while (Datatypes.S fuel) s = raise e.
Proof. simpl. by intros -> ->. Qed.

Lemma while_mono fuel fuel' s r :
  (fuel ≤ fuel')%nat → while fuel s = Some r → while fuel' s = Some r.
Proof.
  revert fuel' s. induction fuel as [|fuel IH]; intros [|fuel'] s ?; try done; [lia|].
  simpl. destruct (cond s); [|done]. destruct (body s) as [[]|]; try done.
  apply IH. lia.
Qed.

(** A measure that every iteration decreases bounds the number of iterations. *)
Lemma while_terminates (I : S → Prop) (m : S → nat) :
  (∀ s, I s → cond s = true → is_Some (body s)) →
  (∀ s s', I s → cond s = true → body s = ret s' → I s' ∧ (m s' < m s)%nat) →
  ∀ fuel s, I s → (m s < fuel)%nat → is_Some (while fuel s).
Proof.
  intros Hb Hm fuel. induction fuel as [|fuel IH]; intros s HI ?; [lia|]. simpl.
  destruct (cond s) eqn:Hc; [|by eexists].
  destruct (Hb s) as [[s'|e] Hs]; [done..| |]; rewrite Hs; simpl; [|by eexists].
  destruct (Hm s s') as [??]; [done..|]. apply IH; [done|lia].
Qed.

(** Partial correctness: an invariant of the body holds when the loop ends. *)
Lemma while_invariant (I : S → Prop) (Q : E → Prop) :
  (∀ s s', I s → cond s = true → body s = ret s' → I s') →
  (∀ s e, I s → cond s = true → body s = raise e → Q e) →
  ∀ fuel s r, I s → while fuel s = Some r →
    match r with Ok s' => I s' ∧ cond s' = false | Throw e => Q e end.
Proof.
  intros HI HQ fuel. induction fuel as [|fuel IH]; intros s r Hs; [done|]. simpl.
  destruct (cond s) eqn:Hc; [|by intros [= <-]].
  destruct (body s) as [[s'|e]|] eqn:Hb; simpl; [|intros [= <-]; eauto|done].
  apply IH. eauto.
Qed.
End while_loop.

(** The errors the runtime itself throws; [PlainError] is an instance of [Error] itself. *)
Inductive js_error : Type := RangeError | TypeError | ReferenceError | SyntaxError | PlainError.

Create HintDb js.
Create HintDb preserves.
Create Rewrite HintDb zlen.
#[export] Hint Resolve Zlen_nonneg ToUint32_range ToInt32_range : js.
#[export] Hint Rewrite @Zlen_app @Zlen_cons @Zlen_nil : zlen.

(** Split on the boolean integer comparisons in the goal. *)
Ltac split_Z :=
  repeat match goal with
  | |- context [Z.leb ?a ?b] => destruct (Z.leb_spec a b)
  | |- context [Z.ltb ?a ?b] => destruct (Z.ltb_spec a b)
  | |- context [Z.eqb ?a ?b] => destruct (Z.eqb_spec a b)
  end.

(** [lia] with the defining equations of quotients and remainders. *)
Ltac zdiv := Z.to_euclidean_division_equations; lia.

Ltac zlen := autorewrite with zlen in *; cbn [length] in *.

(** ** 5. Stateful code that can throw

    [M E S A]: from a state, an outcome and the state reached -- kept on a throw too, as
    [finally] needs it; [None] means that a loop inside ran out of fuel. *)

Definition M (E S A : Type) : Type := S → option (outcome E A * S).

Section effects.
Context {E S : Type}.

#[global] Instance M_ret : MRet (M E S) := λ A a s, Some (Ok a, s).
#[global] Instance M_bind : MBind (M E S) := λ A B f m s,
  match m s with
  | Some (Ok a, s') => f a s'
  | Some (Throw e, s') => Some (Throw e, s')
  | None => None
  end.
#[global] Instance M_fmap : FMap (M E S) := λ A B f m, m ≫= λ a, mret (f a).

Definition throw {A} (e : E) : M E S A := λ s, Some (Throw e, s).
Definition get : M E S S := λ s, Some (Ok s, s).
Definition gets {A} (f : S → A) : M E S A := λ s, Some (Ok (f s), s).
Definition modify (f : S → S) : M E S unit := λ s, Some (Ok (), f s).
Definition lift {E' A} (h : E' → E) (r : run E' A) : M E S A := λ s,
  match r with
  | Some (Ok a) => Some (Ok a, s)
  | Some (Throw e) => Some (Throw (h e), s)
  | None => None
  end.

(** [try { m } catch (e) { h e }] *)
Definition try_catch {A} (m : M E S A) (h : E → M E S A) : M E S A := λ s,
  match m s with
  | Some (Throw e, s') => h e s'
  | r => r
  end.

(** [try { m } finally { f }]: a throw of [f] replaces the outcome of [m]. *)
Definition try_finally {A} (m : M E S A) (f : M E S unit) : M E S A := λ s,
  match m s with
  | Some (o, s') =>
      match f s' with
      | Some (Ok _, s'') => Some (o, s'')
      | Some (Throw e, s'') => Some (Throw e, s'')
      | None => None
      end
  | None => None
  end.

Lemma M_bind_ok {A B} (m : M E S A) (f : A → M E S B) s a s' :
  m s = Some (Ok a, s') → (m ≫= f) s = f a s'.
Proof. intros H. unfold mbind, M_bind. by rewrite H. Qed.

Lemma M_bind_throw {A B} (m : M E S A) (f : A → M E S B) s e s' :
  m s = Some (Throw e, s') → (m ≫= f) s = Some (Throw e, s').
Proof. intros H. unfold mbind, M_bind. by rewrite H. Qed.

Lemma M_bind_inv {A B} (m : M E S A) (f : A → M E S B) s b s' :
  (m ≫= f) s = Some (Ok b, s') → ∃ a s1, m s = Some (Ok a, s1) ∧ f a s1 = Some (Ok b, s').
Proof. unfold mbind, M_bind. destruct (m s) as [[[a|e] s1]|]; naive_solver. Qed.

(** Total correctness: from [P], [m] ends, in [Q] if it returns and in [R] if it throws. *)
Definition triple {A} (P : S → Prop) (m : M E S A) (Q : A → S → Prop)
    (R : E → S → Prop) : Prop :=
  ∀ s, P s → ∃ o s', m s = Some (o, s') ∧
    match o with Ok a => Q a s' | Throw e => R e s' end.

Implicit Types (P : S → Prop) (R : E → S → Prop).

Lemma triple_ret {A} P (a : A) (Q : A → S → Prop) R :
  (∀ s, P s → Q a s) → triple P (mret a) Q R.
Proof. intros H s Hs. eexists _, _. split; [done|]. by apply H. Qed.

Lemma triple_throw {A} P e (Q : A → S → Prop) R :
  (∀ s, P s → R e s) → triple P (throw e) Q R.
Proof. intros H s Hs. eexists _, _. split; [done|]. by apply H. Qed.

Lemma triple_gets {A} P (f : S → A) (Q : A → S → Prop) R :
  (∀ s, P s → Q (f s) s) → triple P (gets f) Q R.
Proof. intros H s Hs. eexists _, _. split; [done|]. by apply H. Qed.

Lemma triple_modify P f (Q : unit → S → Prop) R :
  (∀ s, P s → Q () (f s)) → triple P (modify f) Q R.
Proof. intros H s Hs. eexists _, _. split; [done|]. by apply H. Qed.

Lemma triple_bind {A B} P (m : M E S A) (f : A → M E S B) Q' Q R :
  triple P m Q' R → (∀ a, triple (Q' a) (f a) Q R) → triple P (m ≫= f) Q R.
Proof.
  intros Hm Hf s Hs. destruct (Hm s Hs) as (o & s1 & Hms & Ho).
  unfold mbind, M_bind. rewrite Hms. destruct o as [a|e]; [by apply Hf|by eexists _, _].
Qed.

Lemma triple_conseq {A} P P' (m : M E S A) (Q Q' : A → S → Prop) R R' :
  (∀ s, P s → P' s) → triple P' m Q' R' → (∀ a s, Q' a s → Q a s) →
  (∀ e s, R' e s → R e s) → triple P m Q R.
Proof.
  intros HP Hm HQ HR s Hs. destruct (Hm s (HP s Hs)) as (o & s' & ? & Ho).
  exists o, s'. split; [done|]. destruct o; eauto.
Qed.

Lemma triple_pre {A} P P' (m : M E S A) Q R :
  (∀ s, P s → P' s) → triple P' m Q R → triple P m Q R.
Proof. intros ? H. eapply triple_conseq; eauto. Qed.

Lemma triple_try_catch {A} P (m : M E S A) h Q R R' :
  triple P m Q R' → (∀ e, triple (R' e) (h e) Q R) → triple P (try_catch m h) Q R.
Proof.
  intros Hm Hh s Hs. destruct (Hm s Hs) as (o & s1 & Hms & Ho).
  unfold try_catch. rewrite Hms. destruct o as [a|e]; [by eexists _, _|by apply Hh].
Qed.

Lemma triple_try_finally {A} P (m : M E S A) f Q' R' Q R :
  triple P m Q' R' →
  (∀ a, triple (Q' a) f (λ _, Q a) R) → (∀ e, triple (R' e) f (λ _, R e) R) →
  triple P (try_finally m f) Q R.
Proof.
  intros Hm Hq Hr s Hs. destruct (Hm s Hs) as (o & s1 & Hms & Ho).
  unfold try_finally. rewrite Hms. destruct o as [a|e].
  - destruct (Hq a s1 Ho) as ([[]|e'] & s2 & -> & ?); by eexists _, _.
  - destruct (Hr e s1 Ho) as ([[]|e'] & s2 & -> & ?); by eexists _, _.
Qed.

(** [m] keeps the invariant [I], if and however it ends. *)
Definition preserves {A} (I : S → Prop) (m : M E S A) : Prop :=
  ∀ s o s', I s → m s = Some (o, s') → I s'.

Context (I : S → Prop).

Lemma preserves_ret {A} (a : A) : preserves I (mret a).
Proof. intros s o s' ? [= <- <-]. done. Qed.

Lemma preserves_throw {A} e : preserves I (throw (A := A) e).
Proof. intros s o s' ? [= <- <-]. done. Qed.

Lemma preserves_get : preserves I get.
Proof. intros s o s' ? [= <- <-]. done. Qed.

Lemma preserves_gets {A} (f : S → A) : preserves I (gets f).
Proof. intros s o s' ? [= <- <-]. done. Qed.

Lemma preserves_modify f : (∀ s, I s → I (f s)) → preserves I (modify f).
Proof. intros Hf s o s' ? [= <- <-]. auto. Qed.

Lemma preserves_lift {E' A} (h : E' → E) (r : run E' A) : preserves I (lift h r).
Proof. intros s o s' ?. unfold lift. by destruct r as [[]|]; intros [= <- <-]. Qed.

Lemma preserves_bind {A B} (m : M E S A) (f : A → M E S B) :
  preserves I m → (∀ a, preserves I (f a)) → preserves I (m ≫= f).
Proof.
  intros Hm Hf s o s' Hs. unfold mbind, M_bind.
  destruct (m s) as [[[a|e] s1]|] eqn:E1; [|intros [= <- <-]|done];
    specialize (Hm _ _ _ Hs E1); [|done]. by apply Hf.
Qed.

(** The same, when the rest relies on something the result of [m] satisfies. *)
Lemma preserves_bind_post {A B} (P : A → Prop) (m : M E S A) (f : A → M E S B) :
  (∀ s o s', I s → m s = Some (o, s') → I s' ∧ match o with Ok a => P a | Throw _ => True end) →
  (∀ a, P a → preserves I (f a)) → preserves I (m ≫= f).
Proof.
  intros Hm Hf s o s' Hs. unfold mbind, M_bind.
  destruct (m s) as [[[a|e] s1]|] eqn:E1; [|intros [= <- <-]|done];
    destruct (Hm _ _ _ Hs E1) as [Hs1 HP]; [|done]. by apply Hf.
Qed.

Lemma preserves_try_catch {A} (m : M E S A) h :
  preserves I m → (∀ e, preserves I (h e)) → preserves I (try_catch m h).
Proof.
  intros Hm Hh s o s' Hs. unfold try_catch.
  destruct (m s) as [[[a|e] s1]|] eqn:E1; [intros [= <- <-]| |done];
    specialize (Hm _ _ _ Hs E1); [done|]. by apply Hh.
Qed.

Lemma preserves_try_finally {A} (m : M E S A) f :
  preserves I m → preserves I f → preserves I (try_finally m f).
Proof.
  intros Hm Hf s o s' Hs. unfold try_finally.
  destruct (m s) as [[o1 s1]|] eqn:E1; [|done]. specialize (Hm _ _ _ Hs E1).
  destruct (f s1) as [[[?|?] s2]|] eqn:E2; [..|done]; intros [= <- <-];
    exact (Hf _ _ _ Hm E2).
Qed.
End effects.

#[export] Hint Resolve preserves_ret preserves_throw preserves_get preserves_gets
  preserves_lift : preserves.

(** Decompose a [preserves] goal along the structure of the code. *)
Ltac preserves_step :=
  lazymatch goal with
  | |- preserves _ (mbind _ _) => apply preserves_bind; [|intros ?]
  | |- preserves _ (try_catch _ _) => apply preserves_try_catch; [|intros ?]
  | |- preserves _ (try_finally _ _) => apply preserves_try_finally
  | |- preserves _ (match ?x with _ => _ end) => destruct x
  | |- preserves _ (let '(_, _) := ?x in _) => destruct x
  end.
Ltac preserves := repeat (preserves_step || solve [auto with preserves nocore]).
