(* ===== verification/TextCodec.v ===== *)
(** * The UTF-8 polyfill of the rattlegram audio worklet

    [examples/rattlegram/assets/text-encoder.js] overwrites [TextEncoder] and
    [TextDecoder] in the AudioWorklet scope.  A JavaScript string is its list of UTF-16
    code units; octets are integers.  Module [Utf8] holds the reference encoding, module
    [Polyfill] the translated code, and [TextCodec] is the interface through which the
    wasm memory helpers see an encoder and a decoder. *)

From S2P Require Import Prelude.

Abbreviation jsstring := (list Z).

(** ** UTF-16 and UTF-8, from the standard's definitions *)
Module Utf8.

Definition is_high (u : Z) : bool := (0xD800 <=? u) && (u <=? 0xDBFF).
Definition is_low (u : Z) : bool := (0xDC00 <=? u) && (u <=? 0xDFFF).
Arguments is_high : simpl never.
Arguments is_low : simpl never.
Definition unit_ok (u : Z) : Prop := 0 ≤ u < 0x10000.
Definition byte_ok (b : Z) : Prop := 0 ≤ b < 0x100.
Definition pair_cp (u v : Z) : Z := (u - 0xD800) * 0x400 + (v - 0xDC00) + 0x10000.

(** The code points of a string; an unpaired surrogate is a code point by itself. *)
Fixpoint code_points (s : jsstring) : list Z :=
  match s with
  | [] => []
  | u :: s' =>
      match s' with
      | v :: s'' => if is_high u && is_low v then pair_cp u v :: code_points s''
                    else u :: code_points s'
      | [] => [u]
      end
  end.

(** Generalised UTF-8: the byte sequence of one code point, surrogates included. *)
Definition utf8_cp (cp : Z) : list Z :=
  if cp <? 0x80 then [cp]
  else if cp <? 0x800 then [0xC0 + cp / 64; 0x80 + cp mod 64]
  else if cp <? 0x10000 then
    [0xE0 + cp / 4096; 0x80 + cp / 64 mod 64; 0x80 + cp mod 64]
  else [0xF0 + cp / 262144; 0x80 + cp / 4096 mod 64; 0x80 + cp / 64 mod 64;
        0x80 + cp mod 64].

Definition utf8 (s : jsstring) : list Z := flat_map utf8_cp (code_points s).

(** [String.fromCodePoint] for a valid code point. *)
Definition utf16_cp (cp : Z) : jsstring :=
  if cp <? 0x10000 then [cp]
  else [0xD800 + (cp - 0x10000) / 0x400; 0xDC00 + (cp - 0x10000) mod 0x400].

(** A head that is not the first half of a surrogate pair. *)
Definition no_pair (u : Z) (s : jsstring) : Prop :=
  match s with v :: _ => is_high u && is_low v = false | [] => True end.
End Utf8.

(** ** text-encoder.js *)
Module Polyfill.
Import Utf8.

(** [String.prototype.codePointAt] (ECMA-262, 22.1.3.4): [None] is [undefined]. *)
Definition codePointAt (s : jsstring) (i : Z) : option Z :=
  match Zget s i with
  | None => None
  | Some first =>
      if negb (is_high first) || (i + 1 =? Zlen s) then Some first
      else match Zget s (i + 1) with
           | Some second => if is_low second then Some (pair_cp first second)
                            else Some first
           | None => Some first
           end
  end.

(** [String.fromCodePoint] (ECMA-262, 22.1.2.2) on an integer. *)
Definition fromCodePoint (cp : Z) : run js_error jsstring :=
  if (cp <? 0) || (0x10FFFF <? cp) then raise RangeError else ret (utf16_cp cp).

(** The shift and the leading bits chosen by the [if] chain of [encode]; comparisons
    with [undefined] are false, and its conversion to an int32 is 0. *)
Definition lead_of (codePoint : option Z) : Z * Z :=
  match codePoint with
  | None => (0, 0)
  | Some codePoint =>
      if codePoint <=? 0x0000007f then (0, 0x00)
      else if codePoint <=? 0x000007ff then (6, 0xc0)
      else if codePoint <=? 0x0000ffff then (12, 0xe0)
      else if codePoint <=? 0x001fffff then (18, 0xf0)
      else (0, 0)
  end.

(** One turn of [while (c >= 0)]: push a continuation octet. *)
Definition push_cont (codePoint : Z) (st : list Z * Z) : run js_error (list Z * Z) :=
  let '(octets, c) := st in
  ret (octets ++ [js_or 0x80 (js_and (js_sar codePoint c) 0x3f)], c - 6).

Definition push_conts (codePoint : Z) (st : list Z * Z) : run js_error (list Z * Z) :=
  while (λ st, 0 <=? st.2) (push_cont codePoint) 4 st.

(** One turn of [while (i < length)] in [TextEncoder.prototype.encode]. *)
Definition encode_body (string : jsstring) (st : list Z * Z)
    : run js_error (list Z * Z) :=
  let '(octets, i) := st in
  let codePoint := codePointAt string i in
  let '(c, bits) := lead_of codePoint in
  let octets := octets ++ [js_or bits (js_sar (default 0 codePoint) c)] in
  '(octets, _) <~ push_conts (default 0 codePoint) (octets, c - 6);
  let wide := match codePoint with Some cp => 0x10000 <=? cp | None => false end in
  ret (octets, i + (if wide then 2 else 1)).

(** [TextEncoder.prototype.encode]; fuel: one test per code unit and the last one. *)
Definition encode (string : jsstring) : run js_error (list Z) :=
  '(octets, _) <~ while (λ st, st.2 <? Zlen string) (encode_body string)
                        (S (length string)) ([], 0);
  ret octets.

(** [bytesNeeded] and the initial [codePoint] for a leading octet. *)
Definition decode_lead (octet : option Z) : Z * Z :=
  match octet with
  | None => (0, 0)
  | Some octet =>
      if octet <=? 0x7f then (0, js_and octet 0xff)
      else if octet <=? 0xdf then (1, js_and octet 0x1f)
      else if octet <=? 0xef then (2, js_and octet 0x0f)
      else if octet <=? 0xf4 then (3, js_and octet 0x07)
      else (0, 0)
  end.

(** One turn of [while (k < bytesNeeded)]. *)
Definition decode_cont (octets : list Z) (i : Z) (st : Z * Z) : run js_error (Z * Z) :=
  let '(k, codePoint) := st in
  let octet := default 0 (Zget octets (i + k + 1)) in
  ret (k + 1, js_or (js_shl codePoint 6) (js_and octet 0x3f)).

Definition decode_conts (octets : list Z) (i bytesNeeded codePoint : Z)
    : run js_error (Z * Z) :=
  while (λ st, st.1 <? bytesNeeded) (decode_cont octets i) 4 (0, codePoint).

(** One turn of [while (i < octets.length)] in [TextDecoder.prototype.decode]. *)
Definition decode_body (octets : list Z) (st : jsstring * Z)
    : run js_error (jsstring * Z) :=
  let '(string, i) := st in
  let '(bytesNeeded, codePoint) := decode_lead (Zget octets i) in
  if 0 <? Zlen octets - i - bytesNeeded then
    '(_, codePoint) <~ decode_conts octets i bytesNeeded codePoint;
    u <~ fromCodePoint codePoint;
    ret (string ++ u, i + (bytesNeeded + 1))
  else
    let bytesNeeded := Zlen octets - i in
    u <~ fromCodePoint 0xfffd;
    ret (string ++ u, i + (bytesNeeded + 1)).

(** [TextDecoder.prototype.decode]; [None] as argument is a falsy [octets]. *)
Definition decode (octets : option (list Z)) : run js_error jsstring :=
  match octets with
  | None => ret []
  | Some octets =>
      '(string, _) <~ while (λ st, st.2 <? Zlen octets) (decode_body octets)
                            (S (length octets)) ([], 0);
      ret string
  end.
End Polyfill.


(** ** Facts about the reference encoding *)
Section utf8_facts.
Import Utf8.
Implicit Types (s : jsstring) (u v cp : Z).

Lemma code_points_single u s :
  no_pair u s → code_points (u :: s) = u :: code_points s.
Proof. destruct s as [|v s]; simpl; [done|]. by intros ->. Qed.

Lemma code_points_pair u v s :
  is_high u = true → is_low v = true →
  code_points (u :: v :: s) = pair_cp u v :: code_points s.
Proof. simpl. by intros -> ->. Qed.

(** Induction along the code points of a string. *)
Lemma code_points_ind (P : jsstring → Prop) :
  P [] →
  (∀ u s, no_pair u s → P s → P (u :: s)) →
  (∀ u v s, is_high u = true → is_low v = true → P s → P (u :: v :: s)) →
  ∀ s, P s.
Proof.
  intros Hnil Hone Htwo s.
  induction s as [s IH] using (induction_ltof1 _ length); unfold ltof in IH.
  destruct s as [|u [|v s]]; [done|apply Hone; done|].
  destruct (is_high u && is_low v) eqn:Huv.
  - apply andb_prop in Huv as [??]. apply Htwo; [done..|]. apply IH. simpl. lia.
  - apply Hone; [done|]. apply IH. simpl. lia.
Qed.

Lemma pair_cp_range u v :
  is_high u = true → is_low v = true → 0x10000 ≤ pair_cp u v ≤ 0x10FFFF.
Proof. unfold is_high, is_low, pair_cp. intros. lia. Qed.

Lemma code_points_range s : Forall unit_ok s → Forall (λ cp, 0 ≤ cp ≤ 0x10FFFF) (code_points s).
Proof.
  induction s as [|u s ? IH|u v s Hu Hv IH] using code_points_ind; intros Hs.
  - constructor.
  - rewrite code_points_single by done. inv Hs. unfold unit_ok in *.
    constructor; [lia|auto].
  - rewrite code_points_pair by done. inv Hs as [|??? Hs']. inv Hs'.
    pose proof (pair_cp_range u v Hu Hv). constructor; [lia|auto].
Qed.

(** Decoding UTF-16 and encoding it again gives the string back, lone surrogates too. *)
Lemma utf16_code_points s : Forall unit_ok s → flat_map utf16_cp (code_points s) = s.
Proof.
  induction s as [|u s ? IH|u v s Hu Hv IH] using code_points_ind; intros Hs; [done| |].
  - rewrite code_points_single by done. inv Hs as [|?? Hu]. unfold unit_ok in Hu. simpl.
    rewrite IH by done. unfold utf16_cp. by destruct (Z.ltb_spec u 0x10000); [|lia].
  - rewrite code_points_pair by done. inv Hs as [|??? Hs']. inv Hs'. simpl.
    rewrite IH by done. pose proof (pair_cp_range u v Hu Hv). unfold utf16_cp.
    destruct (Z.ltb_spec (pair_cp u v) 0x10000); [lia|]. simpl.
    unfold pair_cp, is_high, is_low in *.
    f_equal; [|f_equal]; [|].
    + replace ((u - 0xD800) * 0x400 + (v - 0xDC00) + 0x10000 - 0x10000)
        with ((v - 0xDC00) + (u - 0xD800) * 0x400) by lia.
      rewrite Z.div_add, Z.div_small by lia. lia.
    + replace ((u - 0xD800) * 0x400 + (v - 0xDC00) + 0x10000 - 0x10000)
        with ((v - 0xDC00) + (u - 0xD800) * 0x400) by lia.
      rewrite Z.mod_add, Z.mod_small by lia. lia.
Qed.

Lemma utf8_cp_bytes cp : 0 ≤ cp ≤ 0x10FFFF → Forall byte_ok (utf8_cp cp).
Proof.
  intros. unfold utf8_cp.
  destruct (Z.ltb_spec cp 0x80), (Z.ltb_spec cp 0x800), (Z.ltb_spec cp 0x10000);
    repeat constructor; unfold byte_ok; zdiv.
Qed.

Lemma utf8_cp_length cp :
  length (utf8_cp cp) = if cp <? 0x80 then 1%nat else if cp <? 0x800 then 2%nat
                        else if cp <? 0x10000 then 3%nat else 4%nat.
Proof. unfold utf8_cp. by split_Z. Qed.

Lemma utf8_bytes s : Forall unit_ok s → Forall byte_ok (utf8 s).
Proof.
  intros Hs%code_points_range. unfold utf8. induction Hs; simpl; [constructor|].
  apply Forall_app. split; [by apply utf8_cp_bytes|done].
Qed.

Lemma utf8_nil : utf8 [] = [].
Proof. done. Qed.

Lemma utf8_single u s : no_pair u s → utf8 (u :: s) = utf8_cp u ++ utf8 s.
Proof. intros. unfold utf8. by rewrite code_points_single. Qed.

Lemma utf8_pair u v s :
  is_high u = true → is_low v = true → utf8 (u :: v :: s) = utf8_cp (pair_cp u v) ++ utf8 s.
Proof. intros. unfold utf8. by rewrite code_points_pair. Qed.

Lemma ascii_no_pair a s : a ≤ 0x7F → no_pair a s.
Proof.
  intros. destruct s as [|v s]; simpl; [done|].
  unfold is_high. by destruct (Z.leb_spec 0xD800 a); [lia|].
Qed.

Lemma utf8_ascii a s : a ≤ 0x7F → utf8 (a :: s) = a :: utf8 s.
Proof.
  intros. rewrite utf8_single by by apply ascii_no_pair.
  unfold utf8_cp. by destruct (Z.ltb_spec a 0x80); [|lia].
Qed.

(** At most three octets per code unit. *)
Lemma utf8_length s : Forall unit_ok s → (length (utf8 s) ≤ 3 * length s)%nat.
Proof.
  induction s as [|u s ? IH|u v s Hu Hv IH] using code_points_ind; intros Hs; [done| |].
  - rewrite utf8_single by done. inv Hs as [|?? Hok]. unfold unit_ok in Hok.
    rewrite length_app, utf8_cp_length. specialize (IH ltac:(done)). simpl.
    split_Z; lia.
  - rewrite utf8_pair by done. inv Hs as [|??? Hs']. inv Hs'.
    rewrite length_app, utf8_cp_length. specialize (IH ltac:(done)). simpl.
    split_Z; lia.
Qed.
End utf8_facts.

(** ** The encoder *)
Section encode_facts.
Import Utf8 Polyfill.
Implicit Types (s pre octets : list Z) (u v cp : Z).

Lemma codePointAt_single pre u s :
  no_pair u s → codePointAt (pre ++ u :: s) (Zlen pre) = Some u.
Proof.
  intros Hnp. unfold codePointAt. rewrite Zget_app_head.
  destruct (negb (is_high u) || _) eqn:Hc; [done|].
  apply orb_false_iff in Hc as [Hh Hlast]. rewrite Zget_app_r by lia.
  destruct s as [|v s]; [done|]. change (Zget (u :: v :: s) 1) with (Some v).
  destruct (is_high u) eqn:Hu; [|done]. simpl in Hnp. rewrite Hu in Hnp.
  simpl in Hnp. by rewrite Hnp.
Qed.

Lemma codePointAt_pair pre u v s :
  is_high u = true → is_low v = true →
  codePointAt (pre ++ u :: v :: s) (Zlen pre) = Some (pair_cp u v).
Proof.
  intros Hu Hv. unfold codePointAt. rewrite Zget_app_head, Hu. simpl.
  destruct (Z.eqb_spec (Zlen pre + 1) (Zlen (pre ++ u :: v :: s))) as [He|_].
  { zlen. pose proof (Zlen_nonneg s). lia. }
  rewrite Zget_app_r by lia. change (Zget (u :: v :: s) 1) with (Some v). cbv iota.
  by rewrite Hv.
Qed.

Lemma cont_octet cp c :
  0 ≤ cp ≤ 0x10FFFF → 0 ≤ c < 31 →
  js_or 0x80 (js_and (js_sar cp c) 0x3f) = 0x80 + cp / 2 ^ c mod 64.
Proof.
  intros. rewrite js_sar_small by lia. change 0x3f with (Z.ones 6).
  assert (0 ≤ cp / 2 ^ c ≤ cp).
  { split; [apply Z.div_pos; lia|]. apply Z.div_le_upper_bound; nia. }
  rewrite js_and_ones by lia. change 0x80 with (1 * 2 ^ 7).
  pose proof (Z.mod_pos_bound (cp / 2 ^ c) (2 ^ 6) ltac:(lia)).
  rewrite js_or_disjoint by lia. done.
Qed.

Lemma push_conts_spec cp octets c :
  0 ≤ cp ≤ 0x10FFFF → c = - 6 ∨ c = 0 ∨ c = 6 ∨ c = 12 →
  push_conts cp (octets, c) =
    ret (octets ++ (if c <? 12 then [] else [0x80 + cp / 4096 mod 64])
                ++ (if c <? 6 then [] else [0x80 + cp / 64 mod 64])
                ++ (if c <? 0 then [] else [0x80 + cp mod 64]), - 6).
Proof.
  intros ? Hc. destruct Hc as [->|[->|[->| ->]]];
    unfold push_conts; simpl; rewrite ?cont_octet by lia; simpl;
    rewrite ?Z.div_1_r, <- ?app_assoc; try done. by rewrite app_nil_r.
Qed.

(** The octets one iteration pushes are the encoding of its code point. *)
Lemma encode_body_cp string octets i cp :
  codePointAt string i = Some cp → 0 ≤ cp ≤ 0x10FFFF →
  encode_body string (octets, i) =
    ret (octets ++ utf8_cp cp, i + (if 0x10000 <=? cp then 2 else 1)).
Proof.
  intros Hcp Hr. unfold encode_body. rewrite Hcp. unfold lead_of, utf8_cp. cbn [default id from_option].
  destruct (Z.leb_spec cp 0x7f) as [?|?];
    [|destruct (Z.leb_spec cp 0x7ff) as [?|?];
      [|destruct (Z.leb_spec cp 0xffff) as [?|?];
        [|destruct (Z.leb_spec cp 0x1fffff) as [?|?]; [|lia]]]];
  destruct (Z.ltb_spec cp 0x80) as [?|?]; try lia;
  destruct (Z.ltb_spec cp 0x800) as [?|?]; try lia;
  destruct (Z.ltb_spec cp 0x10000) as [?|?]; try lia;
  destruct (Z.leb_spec 0x10000 cp) as [?|?]; try lia;
  cbn [Z.sub Z.add Z.opp Z.pos_sub Pos.pred_double run_bind];
  rewrite push_conts_spec by lia; simpl; rewrite (js_sar_small cp) by lia;
  rewrite <- ?app_assoc, ?Z.div_1_r; simpl; repeat f_equal.
  - apply (js_or_disjoint 0 cp 7); lia.
  - apply (js_or_disjoint 3 (cp / 64) 6); zdiv.
  - apply (js_or_disjoint 7 (cp / 4096) 5); zdiv.
  - apply (js_or_disjoint 15 (cp / 262144) 4); zdiv.
Qed.

Lemma encode_loop pre s octets fuel :
  Forall unit_ok s → (length s < fuel)%nat →
  while (λ st, st.2 <? Zlen (pre ++ s)) (encode_body (pre ++ s)) fuel (octets, Zlen pre)
    = ret (octets ++ utf8 s, Zlen (pre ++ s)).
Proof.
  revert pre octets fuel.
  induction s as [|u s Hnp IH|u v s Hu Hv IH] using code_points_ind;
    intros pre octets fuel Hs Hfuel; (destruct fuel as [|fuel]; [lia|]).
  - rewrite app_nil_r, while_done by (simpl; lia). by rewrite utf8_nil, app_nil_r.
  - inv Hs as [|?? Hok]. unfold unit_ok in Hok. simpl in Hfuel.
    erewrite while_step;
      [|simpl; zlen; pose proof (Zlen_nonneg s); lia
       |apply encode_body_cp; [by apply codePointAt_single|lia]].
    destruct (Z.leb_spec 0x10000 u); [lia|].
    replace (Zlen pre + 1) with (Zlen (pre ++ [u])) by (by zlen).
    replace (pre ++ u :: s) with ((pre ++ [u]) ++ s) by by rewrite <- app_assoc.
    rewrite IH by (done || lia). by rewrite utf8_single, app_assoc.
  - inv Hs as [|??? Hs']. inv Hs'. simpl in Hfuel.
    pose proof (pair_cp_range u v Hu Hv).
    erewrite while_step;
      [|simpl; zlen; pose proof (Zlen_nonneg s); lia
       |apply encode_body_cp; [by apply codePointAt_pair|lia]].
    destruct (Z.leb_spec 0x10000 (pair_cp u v)); [|lia].
    replace (Zlen pre + 2) with (Zlen (pre ++ [u; v])) by (by zlen).
    replace (pre ++ u :: v :: s) with ((pre ++ [u; v]) ++ s) by by rewrite <- app_assoc.
    rewrite IH by (done || lia). by rewrite utf8_pair, app_assoc.
Qed.

Lemma encode_spec s : Forall unit_ok s → encode s = ret (utf8 s).
Proof.
  intros Hs. unfold encode. rewrite (encode_loop [] s []) by (done || lia). done.
Qed.
End encode_facts.

(** ** The decoder *)
Section decode_facts.
Import Utf8 Polyfill.
Implicit Types (s pre octets : list Z) (u v cp i : Z).

(** The six payload bits of the octet [k] places after [i]. *)
Definition payload octets i k : Z := default 0 (Zget octets (i + k)) mod 64.

Lemma shift_in a o :
  0 ≤ a < 2 ^ 24 → 0 ≤ o < 0x100 → js_or (js_shl a 6) (js_and o 0x3f) = a * 64 + o mod 64.
Proof.
  intros. rewrite js_shl_small by lia. change 0x3f with (Z.ones 6).
  rewrite js_and_ones by lia. pose proof (Z.mod_pos_bound o (2 ^ 6) ltac:(lia)).
  rewrite js_or_disjoint by lia. done.
Qed.

Lemma octet_range octets i k :
  Forall byte_ok octets → 0 ≤ default 0 (Zget octets (i + k)) < 0x100.
Proof.
  intros Ho. destruct (Zget octets (i + k)) as [o|] eqn:E; simpl; [|lia].
  unfold Zget in E. destruct (0 <=? _); [|done].
  by apply (Forall_lookup_1 _ _ _ _ Ho) in E.
Qed.

Lemma payload_range octets i k : 0 ≤ payload octets i k < 64.
Proof. apply Z.mod_pos_bound. lia. Qed.

Lemma decode_conts_spec octets i n cp0 :
  Forall byte_ok octets → 0 ≤ n ≤ 3 → 0 ≤ cp0 < 0x80 →
  decode_conts octets i n cp0 =
    ret (n, if n =? 0 then cp0
            else if n =? 1 then cp0 * 64 + payload octets i 1
            else if n =? 2 then (cp0 * 64 + payload octets i 1) * 64 + payload octets i 2
            else ((cp0 * 64 + payload octets i 1) * 64 + payload octets i 2) * 64
                 + payload octets i 3).
Proof.
  intros Ho Hn ?. unfold decode_conts.
  pose proof (octet_range octets i 1 Ho). pose proof (octet_range octets i 2 Ho).
  pose proof (octet_range octets i 3 Ho).
  pose proof (payload_range octets i 1). pose proof (payload_range octets i 2).
  unfold payload in *.
  assert (n = 0 ∨ n = 1 ∨ n = 2 ∨ n = 3) as [->|[->|[->| ->]]] by lia; simpl;
    rewrite ?Z.add_0_r, <- ?Z.add_assoc; simpl;
    change (0 + (1 + 1)) with 2; change (0 + (1 + (1 + 1))) with 3; try done;
    rewrite (shift_in cp0) by lia; try done;
    rewrite (shift_in (cp0 * 64 + _)) by lia; try done;
    by rewrite (shift_in ((cp0 * 64 + _) * 64 + _)) by lia.
Qed.

(** [bytesNeeded] as a function of the leading octet. *)
Definition cont_count (octet : Z) : Z :=
  if octet <=? 0x7f then 0 else if octet <=? 0xdf then 1
  else if octet <=? 0xef then 2 else if octet <=? 0xf4 then 3 else 0.

Lemma decode_lead_spec o :
  0 ≤ o < 0x100 →
  decode_lead (Some o) =
    (cont_count o,
     if o <=? 0x7f then o else if o <=? 0xdf then o mod 32
     else if o <=? 0xef then o mod 16 else if o <=? 0xf4 then o mod 8 else 0).
Proof.
  intros. unfold decode_lead, cont_count.
  change 0xff with (Z.ones 8). change 0x1f with (Z.ones 5).
  change 0x0f with (Z.ones 4). change 0x07 with (Z.ones 3).
  rewrite !js_and_ones by lia. split_Z; try done. by rewrite Z.mod_small by lia.
Qed.

Lemma fromCodePoint_ok cp : 0 ≤ cp ≤ 0x10FFFF → fromCodePoint cp = ret (utf16_cp cp).
Proof. intros. unfold fromCodePoint. split_Z; simpl; done || lia. Qed.

Lemma payload_app pre l i k o :
  i = Zlen pre → 0 ≤ k → Zget l k = Some o → payload (pre ++ l) i k = o mod 64.
Proof. intros -> ? Hl. unfold payload. by rewrite Zget_app_r, Hl. Qed.

(** The octets of [utf8_cp cp] carry exactly the bits of [cp]. *)
Definition decoded octets i o : Z :=
  let n := cont_count o in
  let cp0 := if o <=? 0x7f then o else if o <=? 0xdf then o mod 32
             else if o <=? 0xef then o mod 16 else if o <=? 0xf4 then o mod 8 else 0 in
  if n =? 0 then cp0
  else if n =? 1 then cp0 * 64 + payload octets i 1
  else if n =? 2 then (cp0 * 64 + payload octets i 1) * 64 + payload octets i 2
  else ((cp0 * 64 + payload octets i 1) * 64 + payload octets i 2) * 64
       + payload octets i 3.

Ltac no_case := intros; exfalso; zdiv.

Lemma decoded_cp pre suf cp o l :
  0 ≤ cp ≤ 0x10FFFF → utf8_cp cp = o :: l →
  cont_count o = Zlen l ∧ decoded (pre ++ utf8_cp cp ++ suf) (Zlen pre) o = cp.
Proof.
  intros Hcp Hl. unfold decoded.
  assert (Hp : ∀ k x, 0 ≤ k → Zget (utf8_cp cp ++ suf) k = Some x →
    payload (pre ++ utf8_cp cp ++ suf) (Zlen pre) k = x mod 64)
    by (intros; by eapply payload_app).
  revert Hl Hp. unfold utf8_cp, cont_count.
  destruct (Z.ltb_spec cp 0x80) as [?|?];
    [|destruct (Z.ltb_spec cp 0x800) as [?|?];
      [|destruct (Z.ltb_spec cp 0x10000) as [?|?]]]; intros [= <- <-] Hp.
  - destruct (Z.leb_spec cp 0x7f); [|no_case]. done.
  - destruct (Z.leb_spec (0xC0 + cp / 64) 0x7f); [no_case|].
    destruct (Z.leb_spec (0xC0 + cp / 64) 0xdf); [|no_case].
    rewrite (Hp 1 _ ltac:(lia) eq_refl). simpl. split; [done|zdiv].
  - destruct (Z.leb_spec (0xE0 + cp / 4096) 0x7f); [no_case|].
    destruct (Z.leb_spec (0xE0 + cp / 4096) 0xdf); [no_case|].
    destruct (Z.leb_spec (0xE0 + cp / 4096) 0xef); [|no_case].
    rewrite (Hp 1 _ ltac:(lia) eq_refl), (Hp 2 _ ltac:(lia) eq_refl). simpl.
    split; [done|zdiv].
  - destruct (Z.leb_spec (0xF0 + cp / 262144) 0x7f); [no_case|].
    destruct (Z.leb_spec (0xF0 + cp / 262144) 0xdf); [no_case|].
    destruct (Z.leb_spec (0xF0 + cp / 262144) 0xef); [no_case|].
    destruct (Z.leb_spec (0xF0 + cp / 262144) 0xf4); [|no_case].
    rewrite (Hp 1 _ ltac:(lia) eq_refl), (Hp 2 _ ltac:(lia) eq_refl),
      (Hp 3 _ ltac:(lia) eq_refl). simpl.
    split; [done|zdiv].
Qed.

(** One iteration on any octets: what it appends and where it continues. *)
Lemma decode_body_spec octets string i o :
  Forall byte_ok octets → Zget octets i = Some o →
  decode_body octets (string, i) =
    if i + cont_count o <? Zlen octets
    then u <~ fromCodePoint (decoded octets i o);
         ret (string ++ u, i + (cont_count o + 1))
    else ret (string ++ [0xFFFD], Zlen octets + 1).
Proof.
  intros Ho Hget. unfold decode_body.
  assert (Hor : 0 ≤ o < 0x100).
  { pose proof (octet_range octets i 0 Ho) as Hr. by rewrite Z.add_0_r, Hget in Hr. }
  assert (Hn : 0 ≤ cont_count o ≤ 3) by (unfold cont_count; split_Z; lia).
  rewrite Hget, decode_lead_spec by done.
  destruct (Z.ltb_spec 0 (Zlen octets - i - cont_count o)),
    (Z.ltb_spec (i + cont_count o) (Zlen octets)); try lia.
  - rewrite decode_conts_spec; [|done..|split_Z; zdiv]. done.
  - change (fromCodePoint 0xfffd) with (@Some (outcome js_error _) (Ok [0xFFFD])).
    cbn [run_bind]. do 3 f_equal. lia.
Qed.

(** Reading the encoding of one code point. *)
Lemma decode_body_cp pre suf string cp :
  0 ≤ cp ≤ 0x10FFFF → Forall byte_ok (pre ++ utf8_cp cp ++ suf) →
  decode_body (pre ++ utf8_cp cp ++ suf) (string, Zlen pre) =
    ret (string ++ utf16_cp cp, Zlen (pre ++ utf8_cp cp)).
Proof.
  intros Hcp Ho. destruct (utf8_cp cp) as [|o l] eqn:Hl.
  { apply (f_equal length) in Hl. rewrite utf8_cp_length in Hl. revert Hl. by split_Z. }
  destruct (decoded_cp pre suf cp o l Hcp Hl) as [Hn Hd]. rewrite Hl in Hd.
  rewrite (decode_body_spec _ _ _ o) by (done || apply Zget_app_head).
  rewrite Hd, Hn, fromCodePoint_ok by done. cbn [run_bind].
  pose proof (Zlen_nonneg suf).
  destruct (Z.ltb_spec (Zlen pre + Zlen l) (Zlen (pre ++ (o :: l) ++ suf))) as [?|Hlt].
  - do 3 f_equal. zlen. lia.
  - rewrite !Zlen_app, Zlen_cons in Hlt. lia.
Qed.

Lemma utf8_cp_pos cp : 1 ≤ Zlen (utf8_cp cp).
Proof. unfold Zlen. rewrite utf8_cp_length. split_Z; lia. Qed.

Lemma decode_loop pre cps string fuel :
  Forall (λ cp, 0 ≤ cp ≤ 0x10FFFF) cps →
  let octets := pre ++ flat_map utf8_cp cps in
  Forall byte_ok octets → (length cps < fuel)%nat →
  while (λ st, st.2 <? Zlen octets) (decode_body octets) fuel (string, Zlen pre)
    = ret (string ++ flat_map utf16_cp cps, Zlen octets).
Proof.
  intros Hcps. revert pre string fuel.
  induction Hcps as [|cp cps Hcp _ IH]; intros pre string fuel octets Hb Hfuel;
    unfold octets in *; (destruct fuel as [|fuel]; [lia|]); cbn [flat_map length] in *.
  - rewrite app_nil_r, while_done by (simpl; lia). by rewrite app_nil_r.
  - erewrite while_step; [| |by apply decode_body_cp].
    + rewrite (app_assoc pre) in *. rewrite IH by (done || lia). by rewrite app_assoc.
    + cbn [snd]. zlen. pose proof (utf8_cp_pos cp). pose proof (Zlen_nonneg (flat_map utf8_cp cps)). lia.
Qed.

Lemma length_code_points_utf8 s : (length (code_points s) ≤ length (utf8 s))%nat.
Proof.
  unfold utf8. induction (code_points s) as [|cp cps IH]; simpl; [done|].
  rewrite length_app. pose proof (utf8_cp_pos cp). unfold Zlen in *. lia.
Qed.

(** The decoder inverts the encoder on every string, unpaired surrogates included. *)
Lemma decode_utf8 s : Forall unit_ok s → decode (Some (utf8 s)) = ret s.
Proof.
  intros Hs. pose proof (length_code_points_utf8 s). unfold decode.
  pose proof (decode_loop [] (code_points s) [] (S (length (utf8 s)))
    (code_points_range s Hs) (utf8_bytes s Hs) ltac:(lia)) as Hl.
  change ([] ++ flat_map utf8_cp (code_points s)) with (utf8 s) in Hl.
  change (Zlen (@nil Z)) with 0 in Hl.
  rewrite Hl. cbn [run_bind]. by rewrite utf16_code_points.
Qed.

(** On any octets the decoder ends, and the only exception is the [RangeError] of
    [String.fromCodePoint], raised by an F4 lead whose next octet has bits beyond 0F. *)
Definition out_of_unicode octets : Prop :=
  ∃ i, Zget octets i = Some 0xF4 ∧ i + 3 < Zlen octets ∧ 16 ≤ payload octets i 1.

Lemma decoded_range octets i o :
  0 ≤ o < 0x100 → 0 ≤ decoded octets i o ∧
  (0x10FFFF < decoded octets i o → o = 0xF4 ∧ cont_count o = 3 ∧ 16 ≤ payload octets i 1).
Proof.
  intros. unfold decoded.
  pose proof (payload_range octets i 1). pose proof (payload_range octets i 2).
  pose proof (payload_range octets i 3). unfold cont_count. split_Z; try lia; zdiv.
Qed.

Lemma decode_body_total octets string i :
  Forall byte_ok octets → 0 ≤ i < Zlen octets →
  (∃ string' i', decode_body octets (string, i) = ret (string', i') ∧ i < i') ∨
  (decode_body octets (string, i) = raise RangeError ∧ out_of_unicode octets).
Proof.
  intros Ho Hi. destruct (Zget_is_Some octets i Hi) as [o Hget].
  assert (Hor : 0 ≤ o < 0x100).
  { pose proof (octet_range octets i 0 Ho) as Hr. by rewrite Z.add_0_r, Hget in Hr. }
  rewrite (decode_body_spec _ _ _ o) by done.
  assert (0 ≤ cont_count o) by (unfold cont_count; split_Z; lia).
  destruct (decoded_range octets i o Hor) as [Hpos Hbig].
  destruct (Z.ltb_spec (i + cont_count o) (Zlen octets)).
  - unfold fromCodePoint. destruct (Z.ltb_spec (decoded octets i o) 0); [lia|].
    destruct (Z.ltb_spec 0x10FFFF (decoded octets i o)); simpl.
    + right. split; [done|]. destruct Hbig as (-> & Hc & ?); [done|].
      exists i. repeat split; [done|lia|done].
    + left. eexists _, _. split; [done|lia].
  - left. eexists _, _. split; [done|lia].
Qed.

Lemma decode_total octets :
  Forall byte_ok octets →
  (∃ string, decode (Some octets) = ret string) ∨
  (decode (Some octets) = raise RangeError ∧ out_of_unicode octets).
Proof.
  intros Ho. unfold decode.
  set (cond := λ st : jsstring * Z, st.2 <? Zlen octets).
  assert (is_Some (while cond (decode_body octets) (S (length octets)) ([], 0)))
    as [r Hr].
  { apply (while_terminates _ _ (λ st, 0 ≤ st.2) (λ st, Z.to_nat (Zlen octets - st.2))).
    - intros [str i] ? Hc. unfold cond in Hc. cbn [snd] in *.
      destruct (decode_body_total octets str i Ho) as [(?&?&->&?)|[-> ?]]; [lia|by eexists..].
    - intros [str i] [str' i'] ? Hc Hb. unfold cond in Hc. cbn [snd] in *.
      destruct (decode_body_total octets str i Ho) as [(?&?&He&?)|[He ?]]; [lia| |];
        rewrite He in Hb; simplify_eq. lia.
    - cbn [snd]. lia.
    - cbn [snd]. unfold Zlen. lia. }
  rewrite Hr.
  pose proof (while_invariant cond (decode_body octets) (λ st, 0 ≤ st.2)
    (λ e, e = RangeError ∧ out_of_unicode octets)) as Hinv.
  eapply Hinv in Hr; [| | |simpl; lia].
  - destruct r as [[str i]|e]; simpl; [left; by eexists|].
    right. by destruct Hr as [-> ?].
  - intros [str i] [str' i'] ? Hc Hb. unfold cond in Hc. cbn [snd] in *.
    destruct (decode_body_total octets str i Ho) as [(?&?&He&?)|[He ?]]; [lia| |];
      rewrite He in Hb; simplify_eq. lia.
  - intros [str i] e ? Hc Hb. unfold cond in Hc. cbn [snd] in *.
    destruct (decode_body_total octets str i Ho) as [(?&?&He&?)|[He ?]]; [lia| |];
      rewrite He in Hb; by simplify_eq.
Qed.
End decode_facts.

(** ** The interface towards the wasm memory helpers

    What [passStringToWasm0] and [getStringFromWasm0] call.  [tc_encodeInto s room] is what
    [encodeInto] writes into a view of [room] octets, where the encoder has that method: as
    much of the encoding as fits. *)
Class TextOps : Type := {
  tc_encode : jsstring → run js_error (list Z);
  tc_decode : list Z → run js_error jsstring;
  tc_encodeInto : option (jsstring → Z → list Z);
}.

(** What they rely on: [tc_encoding] is the octet sequence the encoder produces and
    [tc_normal] the string that comes back. *)
Class TextCodec : Type := {
  tc_ops :: TextOps;
  tc_encoding : jsstring → list Z;
  tc_normal : jsstring → jsstring;
  tc_encode_ok s : Forall Utf8.unit_ok s → tc_encode s = ret (tc_encoding s);
  tc_decode_ok s : Forall Utf8.unit_ok s → tc_decode (tc_encoding s) = ret (tc_normal s);
  tc_nil : tc_encoding [] = [];
  tc_ascii a s : 0 ≤ a ≤ 0x7F → tc_encoding (a :: s) = a :: tc_encoding s;
  tc_bytes s : Forall Utf8.unit_ok s → Forall Utf8.byte_ok (tc_encoding s);
  tc_length s : Forall Utf8.unit_ok s → Zlen (tc_encoding s) ≤ 3 * Zlen s;
  tc_encodeInto_ok f s room :
    tc_encodeInto = Some f → Forall Utf8.unit_ok s → Zlen (tc_encoding s) ≤ room →
    f s room = tc_encoding s;
}.

Coercion tc_ops : TextCodec >-> TextOps.

(** The polyfill is such a codec, and it is lossless. *)
Definition polyfill_codec : TextCodec.
Proof.
  refine {|
    tc_ops := {| tc_encode := Polyfill.encode;
                 tc_decode octets := Polyfill.decode (Some octets);
                 tc_encodeInto := None |};
    tc_encoding := Utf8.utf8;
    tc_normal s := s;
  |}.
  - apply encode_spec.
  - apply decode_utf8.
  - apply utf8_nil.
  - intros. apply utf8_ascii. lia.
  - apply utf8_bytes.
  - intros s Hs%utf8_length. unfold Zlen. lia.
  - done.
Defined.

(** [encodeInto] of the Encoding standard: whole code points, while they fit. *)
Fixpoint fitting (cps : list Z) (room : Z) : list Z :=
  match cps with
  | [] => []
  | cp :: cps =>
      let octets := Utf8.utf8_cp cp in
      if Zlen octets <=? room then octets ++ fitting cps (room - Zlen octets) else []
  end.

Lemma fitting_all cps room :
  Zlen (flat_map Utf8.utf8_cp cps) ≤ room → fitting cps room = flat_map Utf8.utf8_cp cps.
Proof.
  revert room. induction cps as [|cp cps IH]; intros room Hr; [done|].
  cbn [flat_map fitting] in *. rewrite Zlen_app in Hr.
  pose proof (Zlen_nonneg (flat_map Utf8.utf8_cp cps)).
  rewrite (proj2 (Z.leb_le _ _)) by lia. rewrite IH by lia. done.
Qed.

(** The same codec on an engine that has [encodeInto]. *)
Definition into_codec : TextCodec.
Proof.
  refine {|
    tc_ops := {| tc_encode := Polyfill.encode;
                 tc_decode octets := Polyfill.decode (Some octets);
                 tc_encodeInto := Some (λ s, fitting (Utf8.code_points s)) |};
    tc_encoding := Utf8.utf8;
    tc_normal s := s;
  |}.
  - apply (tc_encode_ok (TextCodec := polyfill_codec)).
  - apply (tc_decode_ok (TextCodec := polyfill_codec)).
  - apply utf8_nil.
  - apply (tc_ascii (TextCodec := polyfill_codec)).
  - apply utf8_bytes.
  - apply (tc_length (TextCodec := polyfill_codec)).
  - intros f s room [= <-] _. apply fitting_all.
Defined.

(** ** Properties *)

(** C4: [TextDecoder.prototype.decode] inverts [TextEncoder.prototype.encode] of the
    worklet's polyfill on every JavaScript string, unpaired surrogates included; the octets
    are the generalised UTF-8 of the code points, each is a byte, and there are at most
    three per UTF-16 unit. *)
Theorem polyfill_roundtrip (s : jsstring) :
  Forall Utf8.unit_ok s →
  ∃ octets, Polyfill.encode s = ret octets ∧ octets = Utf8.utf8 s ∧
    Forall Utf8.byte_ok octets ∧ (length octets ≤ 3 * length s)%nat ∧
    Polyfill.decode (Some octets) = ret s.
Proof.
  intros Hs. exists (Utf8.utf8 s). split_and!; [by apply encode_spec|done| | |].
  - by apply utf8_bytes.
  - by apply utf8_length.
  - by apply decode_utf8.
Qed.

Lemma polyfill_roundtrip_witness :
  ∃ octets, Polyfill.encode [0x41; 0x20AC; 0xD83D; 0xDE00; 0xDC00] = ret octets ∧
    octets = Utf8.utf8 [0x41; 0x20AC; 0xD83D; 0xDE00; 0xDC00] ∧
    Forall Utf8.byte_ok octets ∧ (length octets ≤ 3 * 5)%nat ∧
    Polyfill.decode (Some octets) = ret [0x41; 0x20AC; 0xD83D; 0xDE00; 0xDC00].
Proof.
  apply (polyfill_roundtrip [0x41; 0x20AC; 0xD83D; 0xDE00; 0xDC00]).
  repeat constructor; by vm_compute.
Defined.

(** C31: on arbitrary octets the polyfill's [decode] terminates; it either returns a string
    or throws the [RangeError] of [String.fromCodePoint], and the latter only for an F4
    lead octet followed by an octet whose payload is at least 10 (hexadecimal), that is a
    code point beyond 10FFFF. *)
Theorem polyfill_decode_total (octets : list Z) :
  Forall Utf8.byte_ok octets →
  (∃ string, Polyfill.decode (Some octets) = ret string) ∨
  (Polyfill.decode (Some octets) = raise RangeError ∧ out_of_unicode octets).
Proof. apply decode_total. Qed.

Lemma polyfill_decode_total_witness :
  (∃ string, Polyfill.decode (Some [0xF4; 0x90; 0x80; 0x80]) = ret string) ∨
  (Polyfill.decode (Some [0xF4; 0x90; 0x80; 0x80]) = raise RangeError ∧
   out_of_unicode [0xF4; 0x90; 0x80; 0x80]).
Proof. apply polyfill_decode_total. repeat constructor; by vm_compute. Defined.
