(* ===== verification/Standard.v ===== *)
(** * The text codecs of the Encoding standard

    What a browser's own [TextEncoder] and [TextDecoder('utf-8', {fatal: true, ignoreBOM:
    true})] do, from the Encoding standard: strings are made well-formed before they are
    encoded, and the decoder refuses octets that are no UTF-8.  This is the third instance of
    [TextCodec], and the reference to which the worklet's polyfill is compared. *)

From S2P Require Import Prelude TextCodec.
Import Utf8.

(** ** Encoding *)

Definition surrogate (cp : Z) : bool := is_high cp || is_low cp.

(** The conversion to a USVString: an unpaired surrogate becomes U+FFFD. *)
Definition scalar (cp : Z) : Z := if surrogate cp then 0xFFFD else cp.
Definition scalars (s : jsstring) : list Z := map scalar (code_points s).

(** [s.isWellFormed()] and [s.toWellFormed()] *)
Definition isWellFormed (s : jsstring) : bool := forallb (λ cp, negb (surrogate cp)) (code_points s).
Definition toWellFormed (s : jsstring) : jsstring := flat_map utf16_cp (scalars s).

Definition encode (s : jsstring) : list Z := flat_map utf8_cp (scalars s).

(** ** Decoding: the UTF-8 decoder's handler of one octet, in fatal mode *)

Record decoder : Type := Decoder {
  code_point : Z; bytes_seen : Z; bytes_needed : Z; lower : Z; upper : Z
}.
Definition decoder0 : decoder := Decoder 0 0 0 0x80 0xBF.

Inductive answer : Type := Emit (cp : Z) | Continue (d : decoder) | Error.

Definition handle (d : decoder) (octet : Z) : answer :=
  if bytes_needed d =? 0 then
    if octet <=? 0x7F then Emit octet
    else if (0xC2 <=? octet) && (octet <=? 0xDF)
    then Continue (Decoder (octet - 0xC0) 0 1 (lower d) (upper d))
    else if (0xE0 <=? octet) && (octet <=? 0xEF)
    then Continue (Decoder (octet - 0xE0) 0 2 (if octet =? 0xE0 then 0xA0 else lower d)
                                              (if octet =? 0xED then 0x9F else upper d))
    else if (0xF0 <=? octet) && (octet <=? 0xF4)
    then Continue (Decoder (octet - 0xF0) 0 3 (if octet =? 0xF0 then 0x90 else lower d)
                                              (if octet =? 0xF4 then 0x8F else upper d))
    else Error
  else if negb ((lower d <=? octet) && (octet <=? upper d)) then Error
  else
    let cp := code_point d * 64 + (octet - 0x80) in
    let seen := bytes_seen d + 1 in
    if seen =? bytes_needed d then Emit cp
    else Continue (Decoder cp seen (bytes_needed d) 0x80 0xBF).

(** The octets are handled in turn; an error, also an incomplete sequence at the end, is a
    TypeError. *)
Fixpoint decode_from (d : decoder) (octets : list Z) : run js_error jsstring :=
  match octets with
  | [] => if bytes_needed d =? 0 then ret [] else raise TypeError
  | octet :: octets =>
      match handle d octet with
      | Emit cp => s <~ decode_from decoder0 octets; ret (utf16_cp cp ++ s)
      | Continue d => decode_from d octets
      | Error => raise TypeError
      end
  end.
Definition decode (octets : list Z) : run js_error jsstring := decode_from decoder0 octets.

(** ** Facts *)

Definition is_scalar (cp : Z) : Prop := 0 ≤ cp ≤ 0x10FFFF ∧ surrogate cp = false.

Lemma scalar_is_scalar cp : 0 ≤ cp ≤ 0x10FFFF → is_scalar (scalar cp).
Proof. unfold scalar, is_scalar. by destruct (surrogate cp) eqn:E. Qed.

Lemma scalars_are_scalar s : Forall unit_ok s → Forall is_scalar (scalars s).
Proof.
  intros Hs%code_points_range. apply List.Forall_map.
  eapply List.Forall_impl, Hs. intros cp. apply scalar_is_scalar.
Qed.

Lemma scalars_wellformed s : isWellFormed s = true → scalars s = code_points s.
Proof.
  unfold isWellFormed, scalars. induction (code_points s) as [|cp cps IH]; [done|]. simpl.
  intros [Hcp Hw]%andb_prop. rewrite IH by done. unfold scalar. by destruct (surrogate cp).
Qed.

(** A well-formed string is encoded as the polyfill does. *)
Lemma encode_wellformed s : isWellFormed s = true → encode s = utf8 s.
Proof. intros Hs. unfold encode. by rewrite scalars_wellformed. Qed.

Lemma toWellFormed_id s : Forall unit_ok s → isWellFormed s = true → toWellFormed s = s.
Proof. intros Hu Hs. unfold toWellFormed. rewrite scalars_wellformed by done. by apply utf16_code_points. Qed.

(** The UTF-16 form of scalar values has just these as its code points. *)
Lemma code_points_scalars cps : Forall is_scalar cps → code_points (flat_map utf16_cp cps) = cps.
Proof.
  induction 1 as [|cp cps [Hr Hs] Hcps IH]; [done|]. cbn [flat_map].
  unfold utf16_cp at 1. destruct (Z.ltb_spec cp 0x10000) as [Hlt|Hge].
  - cbn [app]. rewrite code_points_single; [by rewrite IH|].
    unfold no_pair. destruct (flat_map utf16_cp cps); [done|].
    unfold surrogate in Hs. apply orb_false_elim in Hs as [-> _]. done.
  - set (h := 0xD800 + (cp - 0x10000) / 0x400). set (l := 0xDC00 + (cp - 0x10000) mod 0x400).
    assert (is_high h = true) by (unfold is_high, h; zdiv).
    assert (is_low l = true) by (unfold is_low, l; zdiv).
    cbn [app]. rewrite code_points_pair, IH by done. f_equal. unfold pair_cp, h, l. zdiv.
Qed.

Lemma wellformed_scalars cps : Forall is_scalar cps → isWellFormed (flat_map utf16_cp cps) = true.
Proof.
  intros Hc. unfold isWellFormed. rewrite code_points_scalars by done.
  apply forallb_forall. intros cp Hin%list_elem_of_In.
  rewrite list.Forall_forall in Hc. destruct (Hc cp Hin) as [_ ->]. done.
Qed.

(** The state after a leading octet, and the steps of the decoder. *)
Definition lead (octet : Z) : decoder :=
  if octet <=? 0xDF then Decoder (octet - 0xC0) 0 1 0x80 0xBF
  else if octet <=? 0xEF then
    Decoder (octet - 0xE0) 0 2 (if octet =? 0xE0 then 0xA0 else 0x80)
                               (if octet =? 0xED then 0x9F else 0xBF)
  else Decoder (octet - 0xF0) 0 3 (if octet =? 0xF0 then 0x90 else 0x80)
                                  (if octet =? 0xF4 then 0x8F else 0xBF).

Lemma handle_lead octet :
  handle decoder0 octet =
    if octet <=? 0x7F then Emit octet
    else if (0xC2 <=? octet) && (octet <=? 0xF4) then Continue (lead octet) else Error.
Proof. unfold handle, lead. simpl. split_Z; done || lia. Qed.

Lemma handle_more d octet :
  bytes_seen d < bytes_needed d → 0 ≤ bytes_seen d →
  handle d octet =
    if (lower d <=? octet) && (octet <=? upper d) then
      let cp := code_point d * 64 + (octet - 0x80) in
      if bytes_seen d + 1 =? bytes_needed d then Emit cp
      else Continue (Decoder cp (bytes_seen d + 1) (bytes_needed d) 0x80 0xBF)
    else Error.
Proof.
  intros. unfold handle. destruct (Z.eqb_spec (bytes_needed d) 0); [lia|].
  by destruct ((lower d <=? octet) && (octet <=? upper d)).
Qed.

Lemma decode_more d octet l :
  bytes_seen d + 1 < bytes_needed d → 0 ≤ bytes_seen d → lower d ≤ octet ≤ upper d →
  decode_from d (octet :: l) =
    decode_from (Decoder (code_point d * 64 + (octet - 0x80)) (bytes_seen d + 1)
                         (bytes_needed d) 0x80 0xBF) l.
Proof.
  intros. cbn [decode_from]. rewrite handle_more by lia.
  rewrite (proj2 (Z.leb_le _ _)), (proj2 (Z.leb_le _ _)) by lia.
  destruct (Z.eqb_spec (bytes_seen d + 1) (bytes_needed d)); [lia|done].
Qed.

Lemma decode_last d octet l cp :
  bytes_seen d + 1 = bytes_needed d → 0 ≤ bytes_seen d → lower d ≤ octet ≤ upper d →
  code_point d * 64 + (octet - 0x80) = cp →
  decode_from d (octet :: l) = (s <~ decode l; ret (utf16_cp cp ++ s)).
Proof.
  intros. cbn [decode_from]. rewrite handle_more by lia.
  rewrite (proj2 (Z.leb_le _ _)), (proj2 (Z.leb_le _ _)) by lia.
  destruct (Z.eqb_spec (bytes_seen d + 1) (bytes_needed d)); [|lia]. by subst.
Qed.

Lemma decode_lead octet l :
  0xC2 ≤ octet ≤ 0xF4 → decode (octet :: l) = decode_from (lead octet) l.
Proof.
  intros. unfold decode. cbn [decode_from]. rewrite handle_lead. split_Z; done || lia.
Qed.

(** Reading the octets of one scalar value. *)
Lemma decode_cp cp l :
  is_scalar cp →
  decode (utf8_cp cp ++ l) = (s <~ decode l; ret (utf16_cp cp ++ s)).
Proof.
  intros [Hr Hs]. unfold surrogate, is_high, is_low in Hs. unfold utf8_cp.
  destruct (Z.ltb_spec cp 0x80); [|destruct (Z.ltb_spec cp 0x800);
    [|destruct (Z.ltb_spec cp 0x10000)]]; cbn [app].
  - unfold decode. cbn [decode_from]. rewrite handle_lead. by rewrite (proj2 (Z.leb_le _ _)) by lia.
  - rewrite decode_lead by zdiv. unfold lead. rewrite (proj2 (Z.leb_le _ _)) by zdiv.
    apply decode_last; simpl; zdiv.
  - rewrite decode_lead by zdiv. unfold lead.
    rewrite (proj2 (Z.leb_gt _ _)), (proj2 (Z.leb_le _ _)) by zdiv.
    rewrite decode_more; [|done..|simpl; split_Z; zdiv].
    apply decode_last; simpl; zdiv.
  - rewrite decode_lead by zdiv. unfold lead.
    rewrite !(proj2 (Z.leb_gt _ _)) by zdiv.
    rewrite decode_more; [|done..|simpl; split_Z; zdiv].
    rewrite decode_more; [|done..|simpl; zdiv].
    apply decode_last; simpl; zdiv.
Qed.

Lemma decode_scalars cps :
  Forall is_scalar cps → decode (flat_map utf8_cp cps) = ret (flat_map utf16_cp cps).
Proof.
  induction 1 as [|cp cps Hcp _ IH]; [done|]. cbn [flat_map].
  rewrite decode_cp, IH by done. done.
Qed.

(** ** The decoder accepts nothing else *)

Lemma decode_more_inv d l s :
  bytes_seen d < bytes_needed d → 0 ≤ bytes_seen d → decode_from d l = ret s →
  ∃ octet l', l = octet :: l' ∧ lower d ≤ octet ≤ upper d ∧
    let cp := code_point d * 64 + (octet - 0x80) in
    if bytes_seen d + 1 =? bytes_needed d
    then ∃ s', decode l' = ret s' ∧ s = utf16_cp cp ++ s'
    else decode_from (Decoder cp (bytes_seen d + 1) (bytes_needed d) 0x80 0xBF) l' = ret s.
Proof.
  intros Hn H0. destruct l as [|octet l]; cbn [decode_from].
  { destruct (Z.eqb_spec (bytes_needed d) 0); [lia|done]. }
  rewrite handle_more by done.
  destruct ((lower d <=? octet) && (octet <=? upper d)) eqn:Ho; [|done].
  intros Hd. exists octet, l. split_and!; [done|lia|lia|].
  destruct (bytes_seen d + 1 =? bytes_needed d); [|done].
  change (decode_from decoder0 l) with (decode l) in Hd.
  destruct (decode l) as [[s'|e]|]; [|done..]. exists s'. split; [done|]. by injection Hd.
Qed.

Ltac next_octet H :=
  apply decode_more_inv in H as (? & ? & -> & ? & H);
  [cbn [bytes_seen bytes_needed code_point lower upper Z.add Z.eqb Pos.add Pos.eqb Pos.succ] in *|cbn; lia..].

(** What a successful decoding starts with. *)
Lemma decode_inv l s :
  Forall byte_ok l → decode l = ret s →
  l = [] ∧ s = [] ∨
  ∃ cp l' s', is_scalar cp ∧ l = utf8_cp cp ++ l' ∧ decode l' = ret s' ∧ s = utf16_cp cp ++ s'.
Proof.
  intros Hb Hd. destruct l as [|o l]; [left; by injection Hd as <-|right].
  apply List.Forall_cons_iff in Hb as [Ho _]. unfold byte_ok in Ho.
  unfold decode in Hd. cbn [decode_from] in Hd. rewrite handle_lead in Hd.
  destruct (Z.leb_spec o 0x7F).
  - change (decode_from decoder0 l) with (decode l) in Hd.
    destruct (decode l) as [[s'|e]|] eqn:Hl; [|done..]. injection Hd as <-.
    exists o, l, s'. split_and!; [split; [lia|]| |done|done].
    + unfold surrogate, is_high, is_low. lia.
    + unfold utf8_cp. by rewrite (proj2 (Z.ltb_lt _ _)) by lia.
  - destruct ((0xC2 <=? o) && (o <=? 0xF4)) eqn:Hlead; [|done]. unfold lead in Hd.
    destruct (Z.leb_spec o 0xDF); [|destruct (Z.leb_spec o 0xEF)].
    + next_octet Hd. destruct Hd as (s' & Hd & ->).
      eexists _, _, s'. split_and!; [| |exact Hd|reflexivity].
      * split; [lia|]. unfold surrogate, is_high, is_low. lia.
      * unfold utf8_cp. split_Z; try lia. cbn [app]. repeat f_equal; zdiv.
    + destruct (Z.eqb_spec o 0xE0), (Z.eqb_spec o 0xED);
      next_octet Hd; next_octet Hd; destruct Hd as (s' & Hd & ->);
      (eexists _, _, s'; split_and!; [| |exact Hd|reflexivity]);
      solve [split; [lia|unfold surrogate, is_high, is_low; lia]
            |unfold utf8_cp; split_Z; try lia; cbn [app]; repeat f_equal; zdiv].
    + destruct (Z.eqb_spec o 0xF0), (Z.eqb_spec o 0xF4);
      next_octet Hd; next_octet Hd; next_octet Hd; destruct Hd as (s' & Hd & ->);
      (eexists _, _, s'; split_and!; [| |exact Hd|reflexivity]);
      solve [split; [lia|unfold surrogate, is_high, is_low; lia]
            |unfold utf8_cp; split_Z; try lia; cbn [app]; repeat f_equal; zdiv].
Qed.

(** A string is returned only for the UTF-8 of scalar values. *)
Lemma decode_sound l s :
  Forall byte_ok l → decode l = ret s →
  ∃ cps, Forall is_scalar cps ∧ l = flat_map utf8_cp cps ∧ s = flat_map utf16_cp cps.
Proof.
  revert s. induction l as [l IH] using (induction_ltof1 _ length). unfold ltof in IH.
  intros s Hb Hd. destruct (decode_inv l s Hb Hd) as [[-> ->]|(cp & l' & s' & Hcp & -> & Hd' & ->)].
  { by exists []. }
  apply Forall_app in Hb as [_ Hb].
  destruct (IH l') with (s := s') as (cps & Hcps & -> & ->); [|done..|].
  - rewrite length_app. pose proof (utf8_cp_pos cp). unfold Zlen in *. lia.
  - exists (cp :: cps). by split; [constructor|].
Qed.

Lemma decode_from_total d l : (∃ s, decode_from d l = ret s) ∨ decode_from d l = raise TypeError.
Proof.
  revert d. induction l as [|o l IH]; intros d; cbn [decode_from].
  - destruct (bytes_needed d =? 0); [left; by eexists|by right].
  - destruct (handle d o); [|apply IH|by right].
    destruct (IH decoder0) as [[s ->]| ->]; [left; by eexists|by right].
Qed.

Lemma code_points_units cps : Forall is_scalar cps → Forall unit_ok (flat_map utf16_cp cps).
Proof.
  induction 1 as [|cp cps [Hr _] _ IH]; [constructor|]. cbn [flat_map]. apply Forall_app.
  split; [|done]. unfold utf16_cp, unit_ok. split_Z; repeat constructor; zdiv.
Qed.

Lemma decode_fits l s :
  Forall byte_ok l → decode l = ret s →
  Forall unit_ok s ∧ isWellFormed s = true ∧ encode s = l.
Proof.
  intros Hb Hd. destruct (decode_sound l s Hb Hd) as (cps & Hcps & -> & ->).
  split_and!; [by apply code_points_units|by apply wellformed_scalars|].
  rewrite encode_wellformed by by apply wellformed_scalars.
  unfold utf8. by rewrite code_points_scalars.
Qed.

(** The conversion happens once. *)
Lemma encode_toWellFormed s : Forall unit_ok s → encode s = utf8 (toWellFormed s).
Proof.
  intros Hs. unfold encode, utf8, toWellFormed. by rewrite code_points_scalars by by apply scalars_are_scalar.
Qed.

Lemma toWellFormed_wellformed s : Forall unit_ok s → isWellFormed (toWellFormed s) = true.
Proof. intros. by apply wellformed_scalars, scalars_are_scalar. Qed.

Lemma toWellFormed_units s : Forall unit_ok s → Forall unit_ok (toWellFormed s).
Proof. intros. by apply code_points_units, scalars_are_scalar. Qed.

Lemma toWellFormed_length s : Forall unit_ok s → length (toWellFormed s) = length s.
Proof.
  unfold toWellFormed, scalars.
  induction s as [|u s ? IH|u v s Hu Hv IH] using code_points_ind; intros Hs; [done| |].
  - rewrite code_points_single by done. inv Hs as [|?? Hok]. unfold unit_ok in Hok.
    cbn [map flat_map]. rewrite length_app, IH by done.
    unfold scalar, utf16_cp. destruct (surrogate u); split_Z; simpl; lia.
  - rewrite code_points_pair by done. inv Hs as [|??? Hs']. inv Hs'.
    pose proof (pair_cp_range u v Hu Hv). cbn [map flat_map]. rewrite length_app, IH by done.
    assert (surrogate (pair_cp u v) = false) as Hn by (unfold surrogate, is_high, is_low; lia).
    unfold scalar. rewrite Hn. unfold utf16_cp. split_Z; [lia|done].
Qed.

Lemma decode_encode s : Forall unit_ok s → decode (encode s) = ret (toWellFormed s).
Proof. intros. by apply decode_scalars, scalars_are_scalar. Qed.

(** The polyfill on the UTF-8 of scalar values. *)
Lemma polyfill_decode_scalars cps :
  Forall is_scalar cps → Polyfill.decode (Some (flat_map utf8_cp cps)) = ret (flat_map utf16_cp cps).
Proof.
  intros Hcps. rewrite <- (code_points_scalars cps Hcps) at 1. apply decode_utf8.
  by apply code_points_units.
Qed.

Lemma utf8_inj s s' : Forall unit_ok s → Forall unit_ok s' → utf8 s = utf8 s' → s = s'.
Proof.
  intros Hs Hs' He. apply (f_equal (λ l, Polyfill.decode (Some l))) in He.
  rewrite !decode_utf8 in He by done. by injection He.
Qed.

(** What the standard's decoder makes of the polyfill's octets. *)
Lemma decode_utf8_of s :
  Forall unit_ok s → decode (utf8 s) = if isWellFormed s then ret s else raise TypeError.
Proof.
  intros Hs. destruct (isWellFormed s) eqn:Hw.
  - rewrite <- encode_wellformed, decode_encode by done. by rewrite toWellFormed_id.
  - destruct (decode_from_total decoder0 (utf8 s)) as [[s' Hs']|]; [|done].
    destruct (decode_fits _ s' (utf8_bytes s Hs) Hs') as (Hu & Hw' & He).
    rewrite encode_wellformed in He by done. apply utf8_inj in He as ->; [congruence|done..].
Qed.

(** ** The third codec *)

Definition standard_codec : TextCodec.
Proof.
  refine {|
    tc_ops := {| tc_encode s := ret (encode s); tc_decode := decode;
                 tc_encodeInto := Some (λ s, fitting (scalars s)) |};
    tc_encoding := encode;
    tc_normal := toWellFormed;
  |}.
  - done.
  - apply decode_encode.
  - done.
  - intros a s Ha. unfold encode, scalars. rewrite code_points_single by (apply ascii_no_pair; lia).
    assert (surrogate a = false) as Hn by (unfold surrogate, is_high, is_low; lia).
    cbn [map flat_map]. unfold scalar. rewrite Hn. unfold utf8_cp. split_Z; done || lia.
  - intros s Hs. rewrite encode_toWellFormed by done. by apply utf8_bytes, toWellFormed_units.
  - intros s Hs. rewrite encode_toWellFormed by done.
    pose proof (utf8_length _ (toWellFormed_units s Hs)) as Hl.
    rewrite toWellFormed_length in Hl by done. unfold Zlen. lia.
  - intros f s room [= <-] _. apply fitting_all.
Defined.

(** ** Properties *)

(** C25: The polyfill conforms to the standard exactly on well-formed strings.
    [TextEncoder.prototype.encode] of [text-encoder.js] returns the standard's octets when the
    string has no unpaired surrogate; when it has one, the octets are no UTF-8 at all: they
    differ from the standard's and the fatal decoder throws a [TypeError] on them. *)
Theorem polyfill_encode_conforms (s : jsstring) :
  Forall unit_ok s →
  ∃ octets, Polyfill.encode s = ret octets ∧
    if isWellFormed s then octets = encode s ∧ decode octets = ret s
    else octets ≠ encode s ∧ decode octets = raise TypeError.
Proof.
  intros Hs. exists (utf8 s). split; [by apply encode_spec|].
  pose proof (decode_utf8_of s Hs) as Hd. destruct (isWellFormed s) eqn:Hw.
  - by rewrite encode_wellformed.
  - split; [|done]. intros He. rewrite He, decode_encode in Hd by done. done.
Qed.

Lemma polyfill_encode_conforms_witness :
  ∃ octets, Polyfill.encode [0x41; 0xD83D] = ret octets ∧
    if isWellFormed [0x41; 0xD83D] then octets = encode [0x41; 0xD83D] ∧ decode octets = ret [0x41; 0xD83D]
    else octets ≠ encode [0x41; 0xD83D] ∧ decode octets = raise TypeError.
Proof. apply polyfill_encode_conforms. repeat constructor; by vm_compute. Defined.

(** C26: Whatever the standard's fatal decoder accepts, [TextDecoder.prototype.decode] of
    [text-encoder.js] decodes to the same string; that string is well-formed and its encoding
    is the octets given. *)
Theorem polyfill_decode_conforms (octets : list Z) (s : jsstring) :
  Forall byte_ok octets → decode octets = ret s →
  Polyfill.decode (Some octets) = ret s ∧ isWellFormed s = true ∧ encode s = octets.
Proof.
  intros Hb Hd. destruct (decode_fits octets s Hb Hd) as (_ & Hw & He).
  destruct (decode_sound octets s Hb Hd) as (cps & Hcps & -> & ->).
  split_and!; [by apply polyfill_decode_scalars|done..].
Qed.

Lemma polyfill_decode_conforms_witness :
  Polyfill.decode (Some [0x41; 0xE2; 0x82; 0xAC]) = ret [0x41; 0x20AC] ∧
  isWellFormed [0x41; 0x20AC] = true ∧ encode [0x41; 0x20AC] = [0x41; 0xE2; 0x82; 0xAC].
Proof.
  apply polyfill_decode_conforms; [repeat constructor; by vm_compute|by vm_compute].
Defined.
