(* ===== verification/Memory.v ===== *)
(** * Linear memory as the glue sees it: buffers, cached views, the allocator

    The wasm module's memory is an [ArrayBuffer] that [memory.grow] detaches and replaces;
    the glue keeps typed-array views of it in module variables ([cachedUint8ArrayMemory0],
    [cachedDataViewMemory0], ...) and re-creates a view when it finds it detached.  A
    [memory] carries the octets, a generation number that identifies the current buffer,
    and the allocator's own state [S]; a [view] remembers the generation it was made on.
    The allocator ([__wbindgen_malloc] and its kin) is wasm code: class [Allocator] states
    what is relied on, and [bump] is an instance. *)

From S2P Require Import Prelude TextCodec.

(** What glue code throws: an error of the runtime, or a wasm trap. *)
Inductive exn : Type := JsErr (e : js_error) | Trap.

(** ** Slices of an octet list *)
Section slices.
Context {A : Type}.
Implicit Types (l bs : list A).

(** The [n] elements at [p]. *)
Definition slice l (p n : Z) : list A := take (Z.to_nat n) (drop (Z.to_nat p) l).

(** [l] with [bs] written at [p]; what would fall past the end is cut off. *)
Definition splice l (p : Z) bs : list A :=
  take (length l) (take (Z.to_nat p) l ++ bs ++ drop (Z.to_nat p + length bs) l).

Lemma splice_inside l p bs :
  0 ≤ p → p + Zlen bs ≤ Zlen l →
  splice l p bs = take (Z.to_nat p) l ++ bs ++ drop (Z.to_nat p + length bs) l.
Proof.
  unfold Zlen. intros. unfold splice. apply take_ge.
  rewrite !length_app, length_take, length_drop. lia.
Qed.

Lemma Zlen_splice l p bs : 0 ≤ p → p + Zlen bs ≤ Zlen l → Zlen (splice l p bs) = Zlen l.
Proof.
  intros. rewrite splice_inside by done. unfold Zlen in *.
  rewrite !length_app, length_take, length_drop. lia.
Qed.

Lemma slice_splice_eq l p bs :
  0 ≤ p → p + Zlen bs ≤ Zlen l → slice (splice l p bs) p (Zlen bs) = bs.
Proof.
  intros. rewrite splice_inside by done. unfold slice, Zlen in *. rewrite Nat2Z.id.
  rewrite drop_app_length' by (rewrite length_take; lia).
  by rewrite take_app_length.
Qed.

(** A slice that does not meet the written range is unchanged. *)
Lemma slice_splice_ne l p bs q n :
  0 ≤ p → p + Zlen bs ≤ Zlen l → 0 ≤ q → q + n ≤ p ∨ p + Zlen bs ≤ q →
  slice (splice l p bs) q n = slice l q n.
Proof.
  intros Hp Hl Hq Hd. rewrite splice_inside by done. unfold slice, Zlen in *.
  apply list_eq. intros i.
  destruct (decide (i < Z.to_nat n)%nat) as [Hi|Hi];
    [|by rewrite !lookup_take_ge by lia].
  rewrite !lookup_take_lt, !lookup_drop by lia.
  destruct Hd as [Hd|Hd].
  - rewrite lookup_app_l by (rewrite length_take; lia). by rewrite lookup_take_lt by lia.
  - rewrite lookup_app_r by (rewrite length_take; lia). rewrite length_take.
    rewrite lookup_app_r by lia. rewrite lookup_drop. f_equal. lia.
Qed.

Lemma Zlen_slice l p n : 0 ≤ n → 0 ≤ p → p + n ≤ Zlen l → Zlen (slice l p n) = n.
Proof. unfold slice, Zlen. intros. rewrite length_take, length_drop. lia. Qed.

(** Slices can be read piecewise. *)
Lemma slice_split l p n k :
  0 ≤ p → 0 ≤ k ≤ n → slice l p n = slice l p k ++ slice l (p + k) (n - k).
Proof.
  intros. unfold slice.
  rewrite <- (take_drop (Z.to_nat k) (drop (Z.to_nat p) l)) at 1.
  rewrite drop_drop.
  destruct (decide (Z.to_nat k ≤ length (drop (Z.to_nat p) l))%nat) as [Hk|Hk].
  - rewrite take_app. rewrite take_take, length_take.
    f_equal; f_equal; try lia. f_equal; lia.
  - rewrite (drop_ge l (Z.to_nat p + Z.to_nat k)) by (rewrite length_drop in Hk; lia).
    rewrite (drop_ge l (Z.to_nat (p + k))) by (rewrite length_drop in Hk; lia).
    rewrite app_nil_r, !take_nil, app_nil_r, take_take. f_equal. lia.
Qed.

Lemma slice_0 l p : slice l p 0 = [].
Proof. done. Qed.

Lemma slice_full l : slice l 0 (Zlen l) = l.
Proof. unfold slice, Zlen. rewrite Nat2Z.id. by rewrite take_ge. Qed.
End slices.

Arguments slice : simpl never.
Arguments splice : simpl never.

(** ** Buffers and views *)

Record memory (S : Type) : Type := Mem { bytes : list Z; gen : nat; heap : S }.
Arguments Mem {S} bytes gen heap.
Arguments bytes {S} m.
Arguments gen {S} m.
Arguments heap {S} m.

Definition set_bytes {S} (bs : list Z) (m : memory S) : memory S := Mem bs (gen m) (heap m).

(** A typed array (or DataView, with [v_size = 1]) over the buffer of generation [v_gen]:
    [v_count] elements of [v_size] octets from octet [v_off] on. *)
Record view : Type := View { v_gen : nat; v_off : Z; v_size : Z; v_count : Z }.

#[export] Instance view_eq_dec : EqDecision view.
Proof. solve_decision. Defined.

Section views.
Context {S : Type}.
Implicit Types (m : memory S) (v : view).

Definition detached m v : bool := negb (v_gen v =? gen m)%nat.

(** [v.length] and [v.byteLength]: 0 once the buffer is detached. *)
Definition v_length m v : Z := if detached m v then 0 else v_count v.
Definition byteLength m v : Z := v_length m v * v_size v.

(** [new XArray(wasm.memory.buffer)] for elements of [size] octets. *)
Definition whole (size : Z) m : view := View (gen m) 0 size (Zlen (bytes m) / size).

(** The relative-index rule of [subarray] (ECMA-262, 23.2.3.30). *)
Definition rel_index (i n : Z) : Z := if i <? 0 then Z.max (n + i) 0 else Z.min i n.

Definition subarray_view m v (begin end_ : Z) : view :=
  let n := v_length m v in
  let b := rel_index begin n in
  let e := rel_index end_ n in
  View (v_gen v) (v_off v + b * v_size v) (v_size v) (Z.max (e - b) 0).

(** The octets a view shows. *)
Definition view_bytes m v : list Z :=
  if detached m v then [] else slice (bytes m) (v_off v) (v_count v * v_size v).
End views.

(** The module variables that hold views. *)
Inductive cache : Type := U8 | DV | I32 | F32 | U16 | U32.

#[export] Instance cache_eq_dec : EqDecision cache.
Proof. solve_decision. Defined.

Definition elt_size (c : cache) : Z :=
  match c with U8 | DV => 1 | U16 => 2 | I32 | F32 | U32 => 4 end.

(** The state of one glue module. *)
Record glue (S : Type) : Type := Glue {
  mem : memory S;
  caches : cache → option view;
  WASM_VECTOR_LEN : Z
}.
Arguments Glue {S} mem caches WASM_VECTOR_LEN.
Arguments mem {S} g.
Arguments caches {S} g.
Arguments WASM_VECTOR_LEN {S} g.

Definition set_mem {S} (m : memory S) (g : glue S) : glue S :=
  Glue m (caches g) (WASM_VECTOR_LEN g).
Definition set_cache {S} (c : cache) (v : option view) (g : glue S) : glue S :=
  Glue (mem g) (<[c := v]> (caches g)) (WASM_VECTOR_LEN g).
Definition set_veclen {S} (n : Z) (g : glue S) : glue S := Glue (mem g) (caches g) n.

Abbreviation G S A := (M exn (glue S) A).

(** ** The allocator the wasm module exports *)

(** [live m p n]: octets [p .. p+n) of [m] are a block handed out and not yet freed. *)
Class Allocator (S : Type) : Type := {
  wasm_malloc : Z → Z → G S Z;
  wasm_realloc : Z → Z → Z → Z → G S Z;
  wasm_free : Z → Z → Z → G S unit;
  live : memory S → Z → Z → Prop;
  live_bounds m p n : live m p n → 0 ≤ p ∧ 0 ≤ n ∧ p + n ≤ Zlen (bytes m) ∧ p + n ≤ 2 ^ 32;
  live_write m p n bs : live m p n → Zlen bs = Zlen (bytes m) → live (set_bytes bs m) p n;
}.

(** What a call into wasm does to the glue: memory may have grown, and then the old buffer
    is detached; the module variables are untouched. *)
Definition wasm_step {S} (g g' : glue S) : Prop :=
  caches g' = caches g ∧ WASM_VECTOR_LEN g' = WASM_VECTOR_LEN g ∧
  (gen (mem g) ≤ gen (mem g'))%nat ∧ Zlen (bytes (mem g)) ≤ Zlen (bytes (mem g')) ∧
  (gen (mem g) = gen (mem g') → Zlen (bytes (mem g)) = Zlen (bytes (mem g'))).

(** The documented behaviour of the exported functions: [malloc] returns a fresh block as
    an i32, [realloc] moves a block and keeps the common prefix; either may trap. *)
Class AllocatorLaws (S : Type) `{!Allocator S} : Prop := {
  malloc_spec n align g : 0 ≤ n →
    triple (λ g', g' = g) (wasm_malloc n align)
      (λ p g', wasm_step g g' ∧ live (mem g') (ToUint32 p) n)
      (λ e g', wasm_step g g' ∧ e = Trap);
  realloc_spec p old new align g : live (mem g) p old → 0 ≤ new →
    triple (λ g', g' = g) (wasm_realloc p old new align)
      (λ q g', wasm_step g g' ∧ live (mem g') (ToUint32 q) new ∧
         slice (bytes (mem g')) (ToUint32 q) (Z.min old new) =
         slice (bytes (mem g)) p (Z.min old new))
      (λ e g', wasm_step g g' ∧ e = Trap);
}.

(** Whatever its arguments, an allocator function is a call into wasm that calls no import. *)
Class AllocatorSteps (S : Type) `{!Allocator S} : Prop := {
  malloc_step n align g o g' : wasm_malloc n align g = Some (o, g') → wasm_step g g';
  realloc_step p n n' align g o g' : wasm_realloc p n n' align g = Some (o, g') → wasm_step g g';
  free_step p n align g o g' : wasm_free p n align g = Some (o, g') → wasm_step g g';
}.

(** ** The helpers, as in the generated files *)
Section helpers.
Context {S : Type} `{!Allocator S} {TC : TextOps}.

(** [getUint8ArrayMemory0] and its siblings for the other element types: all have the
    test [cached === null || cached.byteLength === 0]. *)
Definition get_typed (c : cache) : G S view :=
  g ← get;
  match caches g c with
  | Some v =>
      if byteLength (mem g) v =? 0
      then let w := whole (elt_size c) (mem g) in
           _ ← modify (set_cache c (Some w)); mret w
      else mret v
  | None =>
      let w := whole (elt_size c) (mem g) in
      _ ← modify (set_cache c (Some w)); mret w
  end.

Definition getUint8ArrayMemory0 : G S view := get_typed U8.
Definition getUint16ArrayMemory0 : G S view := get_typed U16.
Definition getUint32ArrayMemory0 : G S view := get_typed U32.
Definition getInt32Memory0 : G S view := get_typed I32.
Definition getFloat32ArrayMemory0 : G S view := get_typed F32.

(** [getDataViewMemory0]; [has_detached]: the engine has [ArrayBuffer.prototype.detached]
    (otherwise the property is [undefined] and the buffers' identities are compared). *)
Definition getDataViewMemory0 (has_detached : bool) : G S view :=
  g ← get;
  match caches g DV with
  | Some v =>
      if (has_detached && detached (mem g) v)
         || (negb has_detached && negb (v_gen v =? gen (mem g))%nat)
      then let w := whole 1 (mem g) in
           _ ← modify (set_cache DV (Some w)); mret w
      else mret v
  | None =>
      let w := whole 1 (mem g) in
      _ ← modify (set_cache DV (Some w)); mret w
  end.

(** [view.subarray(begin, end)]: a TypeError on a detached buffer. *)
Definition subarray (v : view) (begin end_ : Z) : G S view :=
  m ← gets mem;
  if detached m v then throw (JsErr TypeError) else mret (subarray_view m v begin end_).

(** [view[i] = b] on a Uint8Array: out of range or detached, the store is ignored. *)
Definition view_store (v : view) (i b : Z) : G S unit :=
  modify (λ g, if (0 <=? i) && (i <? v_length (mem g) v)
               then set_mem (set_bytes (splice (bytes (mem g)) (v_off v + i) [b mod 256])
                                       (mem g)) g
               else g).

(** [view.set(buf, offset)] on octet groups of the view's element size. *)
Definition view_set (v : view) (buf : list Z) (offset : Z) : G S unit :=
  m ← gets mem;
  if offset <? 0 then throw (JsErr RangeError)
  else if detached m v then throw (JsErr TypeError)
  else if v_count v <? Zlen buf / v_size v + offset then throw (JsErr RangeError)
  else modify (λ g, set_mem (set_bytes
         (splice (bytes (mem g)) (v_off v + offset * v_size v) buf) (mem g)) g).

(** [DataView.prototype.setInt32(at, x, true)]. *)
Definition setInt32 (v : view) (at_ x : Z) : G S unit :=
  m ← gets mem;
  if detached m v then throw (JsErr TypeError)
  else if (at_ <? 0) || (v_count v <? at_ + 4) then throw (JsErr RangeError)
  else let u := ToUint32 x in
    modify (λ g, set_mem (set_bytes (splice (bytes (mem g)) (v_off v + at_)
      [u mod 256; u / 256 mod 256; u / 65536 mod 256; u / 16777216 mod 256]) (mem g)) g).

(** [encodeString(arg, view)], and [cachedTextEncoder.encodeInto] where the glue patches
    it in; the result is the object's [written].  [encodeInto] writes what fits into the
    view; without it (the polyfill) the string is encoded into an array and copied. *)
Definition encodeString (arg : jsstring) (v : view) : G S Z :=
  match tc_encodeInto with
  | Some encodeInto =>
      m ← gets mem;
      let octets := encodeInto arg (v_length m v) in
      _ ← modify (λ g, set_mem (set_bytes (splice (bytes (mem g)) (v_off v) octets) (mem g)) g);
      mret (Zlen octets)
  | None =>
      buf ← lift JsErr (tc_encode arg);
      _ ← view_set v buf 0;
      mret (Zlen buf)
  end.

(** The [for] loop of [passStringToWasm0]: copy code units up to the first beyond 7F. *)
Fixpoint ascii_loop (arg : jsstring) (mem ptr offset : _) : G S Z :=
  match arg with
  | [] => mret offset
  | code :: arg =>
      if 0x7F <? code then mret offset
      else _ ← view_store mem (ptr + offset) code; ascii_loop arg mem ptr (offset + 1)
  end.

(** The block [if (offset !== len) { ... }] of [passStringToWasm0]. *)
Definition pass_tail (arg : jsstring) (ptr len offset : Z)
    (realloc : Z → Z → Z → Z → G S Z) : G S (Z * Z) :=
  let arg := if offset =? 0 then arg else Zdrop offset arg in
  let len' := offset + Zlen arg * 3 in
  ptr ← realloc ptr len len' 1;
  let ptr := ToUint32 ptr in
  mem ← getUint8ArrayMemory0;
  view ← subarray mem (ptr + offset) (ptr + len');
  written ← encodeString arg view;
  let offset := offset + written in
  ptr ← realloc ptr len' offset 1;
  mret (ToUint32 ptr, offset).

(** [passStringToWasm0(arg, malloc, realloc)]; [realloc] may be left out. *)
Definition passStringToWasm0 (arg : jsstring) (malloc : Z → Z → G S Z)
    (realloc : option (Z → Z → Z → Z → G S Z)) : G S Z :=
  match realloc with
  | None =>
      buf ← lift JsErr (tc_encode arg);
      ptr ← malloc (Zlen buf) 1;
      let ptr := ToUint32 ptr in
      mem ← getUint8ArrayMemory0;
      view ← subarray mem ptr (ptr + Zlen buf);
      _ ← view_set view buf 0;
      _ ← modify (set_veclen (Zlen buf));
      mret ptr
  | Some realloc =>
      let len := Zlen arg in
      ptr ← malloc len 1;
      let ptr := ToUint32 ptr in
      mem ← getUint8ArrayMemory0;
      offset ← ascii_loop arg mem ptr 0;
      '(ptr, offset) ← (if offset =? len then mret (ptr, offset)
                        else pass_tail arg ptr len offset realloc);
      _ ← modify (set_veclen offset);
      mret ptr
  end.

(** [getStringFromWasm0(ptr, len)] *)
Definition getStringFromWasm0 (ptr len : Z) : G S jsstring :=
  let ptr := ToUint32 ptr in
  mem ← getUint8ArrayMemory0;
  view ← subarray mem ptr (ptr + len);
  m ← gets Memory.mem;
  lift JsErr (tc_decode (view_bytes m view)).

(** [getArrayU8FromWasm0], [getArrayU16FromWasm0], [getArrayU32FromWasm0] and
    [getArrayF32FromWasm0]: the fractional part of [ptr / size] is dropped by [subarray]. *)
Definition getArrayU8FromWasm0 (ptr len : Z) : G S view :=
  let ptr := ToUint32 ptr in
  v ← getUint8ArrayMemory0; subarray v (ptr / 1) (ptr / 1 + len).
Definition getArrayU16FromWasm0 (ptr len : Z) : G S view :=
  let ptr := ToUint32 ptr in
  v ← getUint16ArrayMemory0; subarray v (ptr / 2) (ptr / 2 + len).
Definition getArrayU32FromWasm0 (ptr len : Z) : G S view :=
  let ptr := ToUint32 ptr in
  v ← getUint32ArrayMemory0; subarray v (ptr / 4) (ptr / 4 + len).
Definition getArrayF32FromWasm0 (ptr len : Z) : G S view :=
  let ptr := ToUint32 ptr in
  v ← getFloat32ArrayMemory0; subarray v (ptr / 4) (ptr / 4 + len).

(** [passArrayF32ToWasm0(arg, malloc)]; [arg] is the array's octets, four an element. *)
Definition passArrayF32ToWasm0 (arg : list Z) (malloc : Z → Z → G S Z) : G S Z :=
  let length := Zlen arg / 4 in
  ptr ← malloc (length * 4) 4;
  let ptr := ToUint32 ptr in
  v ← getFloat32ArrayMemory0;
  _ ← view_set v arg (ptr / 4);
  _ ← modify (set_veclen length);
  mret ptr.
End helpers.

(** ** What the helpers guarantee *)

Section cache_facts.
Context {S : Type}.
Implicit Types (g : glue S) (m : memory S) (v : view) (c : cache).

(** A cached view was made on this buffer, then it shows all of it, or on an older one. *)
Definition cache_ok g : Prop :=
  ∀ c v, caches g c = Some v → (v_gen v ≤ gen (mem g))%nat ∧
    (v_gen v = gen (mem g) → v = whole (elt_size c) (mem g)).

Lemma whole_eq c m m' :
  gen m = gen m' → Zlen (bytes m) = Zlen (bytes m') →
  whole (elt_size c) m = whole (elt_size c) m'.
Proof. unfold whole. by intros -> ->. Qed.

Lemma cache_ok_wasm_step g g' : wasm_step g g' → cache_ok g → cache_ok g'.
Proof.
  intros (Hc & _ & Hle & _ & Hlen) Hok c v Hv. rewrite Hc in Hv.
  destruct (Hok c v Hv) as [Hg Hw]. split; [lia|]. intros He.
  rewrite Hw by lia. apply whole_eq; [lia|apply Hlen; lia].
Qed.

Lemma cache_ok_set_bytes g bs :
  Zlen bs = Zlen (bytes (mem g)) → cache_ok g → cache_ok (set_mem (set_bytes bs (mem g)) g).
Proof. intros He Hok c v Hv. destruct (Hok c v Hv). unfold whole. simpl. rewrite He. auto. Qed.

Lemma cache_ok_set_veclen g n : cache_ok g → cache_ok (set_veclen n g).
Proof. done. Qed.

Lemma cache_ok_set_cache g c :
  cache_ok g → cache_ok (set_cache c (Some (whole (elt_size c) (mem g))) g).
Proof.
  intros Hok c' v. simpl. destruct (decide (c = c')) as [<-|?].
  - rewrite fn_lookup_insert. intros [= <-]. simpl. auto.
  - rewrite fn_lookup_insert_ne by done. apply Hok.
Qed.

Lemma detached_current m size : detached m (whole size m) = false.
Proof. unfold detached. simpl. by rewrite Nat.eqb_refl. Qed.

Lemma detached_false m v : detached m v = false ↔ v_gen v = gen m.
Proof. unfold detached. destruct (Nat.eqb_spec (v_gen v) (gen m)); naive_solver. Qed.

(** [getUint8ArrayMemory0] and its siblings return a view of all of the current buffer. *)
Lemma get_typed_run c g :
  cache_ok g →
  ∃ g', get_typed c g = Some (Ok (whole (elt_size c) (mem g)), g') ∧ mem g' = mem g ∧
        WASM_VECTOR_LEN g' = WASM_VECTOR_LEN g ∧ cache_ok g'.
Proof.
  intros Hok. unfold get_typed, get, mbind, M_bind, mret, M_ret, modify.
  destruct (caches g c) as [v|] eqn:Hv;
    [destruct (Z.eqb_spec (byteLength (mem g) v) 0) as [Hz|Hz]|].
  - eexists. split; [done|]. split_and!; try done. by apply cache_ok_set_cache.
  - exists g. split_and!; try done. do 3 f_equal.
    apply (Hok c v Hv), detached_false. unfold byteLength, v_length in Hz.
    by destruct (detached (mem g) v).
  - eexists. split; [done|]. split_and!; try done. by apply cache_ok_set_cache.
Qed.

Lemma getDataView_run hd g :
  cache_ok g →
  ∃ g', getDataViewMemory0 hd g = Some (Ok (whole 1 (mem g)), g') ∧ mem g' = mem g ∧
        WASM_VECTOR_LEN g' = WASM_VECTOR_LEN g ∧ cache_ok g'.
Proof.
  intros Hok. unfold getDataViewMemory0, get, mbind, M_bind, mret, M_ret, modify.
  pose proof (cache_ok_set_cache g DV Hok) as Hset.
  destruct (caches g DV) as [v|] eqn:Hv; [|by eexists].
  destruct (Hok DV v Hv) as [_ Hw]. unfold detached.
  destruct (Nat.eqb_spec (v_gen v) (gen (mem g))) as [He|He].
  - specialize (Hw He). cbn [elt_size] in Hw. subst v.
    exists g. by destruct hd.
  - destruct hd; simpl; by eexists.
Qed.

(** Every getter, called now, returns a view of all of the memory as it is. *)
Definition fresh_views (g : glue S) : Prop :=
  (∀ c, ∃ g', get_typed c g = Some (Ok (whole (elt_size c) (mem g)), g') ∧ mem g' = mem g) ∧
  (∀ hd, ∃ g', getDataViewMemory0 hd g = Some (Ok (whole 1 (mem g)), g') ∧ mem g' = mem g).

Lemma fresh_getters g : cache_ok g → fresh_views g.
Proof.
  intros Hok. split.
  - intros c. destruct (get_typed_run c g Hok) as (g'&?&?&?&?). by exists g'.
  - intros hd. destruct (getDataView_run hd g Hok) as (g'&?&?&?&?). by exists g'.
Qed.
End cache_facts.

Section access_facts.
Context {S : Type}.
Implicit Types (g : glue S) (v : view).

Lemma subarray_run v b e g :
  v_gen v = gen (mem g) → 0 ≤ b ≤ e → e ≤ v_count v →
  subarray v b e g = Some (Ok (View (v_gen v) (v_off v + b * v_size v) (v_size v) (e - b)), g).
Proof.
  intros Hg ??. apply detached_false in Hg.
  unfold subarray, gets, mbind, M_bind, mret, M_ret. rewrite Hg.
  do 3 f_equal. unfold subarray_view, rel_index, v_length. rewrite Hg.
  destruct (Z.ltb_spec b 0); [lia|]. destruct (Z.ltb_spec e 0); [lia|].
  rewrite !Z.min_l by lia. f_equal. lia.
Qed.

Lemma view_set_run v buf i g :
  v_gen v = gen (mem g) → 0 ≤ i → Zlen buf / v_size v + i ≤ v_count v →
  view_set v buf i g =
    Some (Ok (), set_mem (set_bytes (splice (bytes (mem g)) (v_off v + i * v_size v) buf)
                                    (mem g)) g).
Proof.
  intros Hg ??. apply detached_false in Hg.
  unfold view_set, gets, mbind, M_bind, modify. rewrite Hg.
  destruct (Z.ltb_spec i 0); [lia|].
  by destruct (Z.ltb_spec (v_count v) (Zlen buf / v_size v + i)); [lia|].
Qed.

(** The leading code units up to 7F, and what follows them. *)
Fixpoint ascii_prefix (s : jsstring) : jsstring :=
  match s with
  | [] => []
  | a :: s => if 0x7F <? a then [] else a :: ascii_prefix s
  end.
Fixpoint ascii_rest (s : jsstring) : jsstring :=
  match s with
  | [] => []
  | a :: s' => if 0x7F <? a then s else ascii_rest s'
  end.

Lemma ascii_split s : s = ascii_prefix s ++ ascii_rest s.
Proof. induction s as [|a s IH]; [done|]. simpl. destruct (0x7F <? a); simpl; congruence. Qed.

Lemma ascii_prefix_bound s :
  Forall Utf8.unit_ok s → Forall (λ a, 0 ≤ a ≤ 0x7F) (ascii_prefix s).
Proof.
  induction 1 as [|a s Ha _ IH]; simpl; [constructor|].
  destruct (Z.ltb_spec 0x7F a); constructor; [unfold Utf8.unit_ok in Ha; lia|done].
Qed.

Lemma tc_encoding_ascii {TC : TextCodec} s :
  Forall Utf8.unit_ok s →
  tc_encoding s = ascii_prefix s ++ tc_encoding (ascii_rest s).
Proof.
  induction 1 as [|a s Ha _ IH]; simpl; [by rewrite tc_nil|].
  destruct (Z.ltb_spec 0x7F a); simpl; [done|].
  rewrite tc_ascii by (unfold Utf8.unit_ok in Ha; lia). by rewrite IH.
Qed.

Lemma splice_nil {A} (l : list A) p : splice l p [] = l.
Proof.
  unfold splice. simpl. rewrite Nat.add_0_r, take_drop. by apply take_ge.
Qed.

Lemma splice_decompose {A} (x y z b : list A) :
  length y = length b → splice (x ++ y ++ z) (Zlen x) b = x ++ b ++ z.
Proof.
  intros Hy. rewrite splice_inside by (zlen; unfold Zlen; lia).
  unfold Zlen. rewrite Nat2Z.id, take_app_length, <- Hy, drop_app.
  rewrite drop_ge by lia. simpl.
  replace (length x + length y - length x)%nat with (length y) by lia.
  by rewrite drop_app_length.
Qed.

Lemma splice_app {A} (l : list A) p b1 b2 :
  0 ≤ p → p + Zlen b1 + Zlen b2 ≤ Zlen l →
  splice (splice l p b1) (p + Zlen b1) b2 = splice l p (b1 ++ b2).
Proof.
  intros Hp Hl.
  assert (∃ x y1 y2 z, l = x ++ y1 ++ y2 ++ z ∧ p = Zlen x ∧ length y1 = length b1 ∧
            length y2 = length b2) as (x & y1 & y2 & z & -> & -> & H1 & H2).
  { exists (take (Z.to_nat p) l), (take (length b1) (drop (Z.to_nat p) l)),
      (take (length b2) (drop (length b1) (drop (Z.to_nat p) l))),
      (drop (length b2) (drop (length b1) (drop (Z.to_nat p) l))).
    unfold Zlen in *. rewrite !take_drop.
    split; [done|]. rewrite !length_take, !length_drop. lia. }
  rewrite splice_decompose by done.
  replace (Zlen x + Zlen b1) with (Zlen (x ++ b1)) by by zlen.
  rewrite (app_assoc x b1), splice_decompose by done.
  rewrite (app_assoc y1), splice_decompose by (rewrite !length_app; lia).
  by rewrite <- !app_assoc.
Qed.

Lemma ascii_loop_run s v ptr offset g :
  Forall Utf8.unit_ok s → v = whole 1 (mem g) → 0 ≤ ptr + offset →
  ptr + offset + Zlen s ≤ Zlen (bytes (mem g)) →
  ascii_loop s v ptr offset g =
    Some (Ok (offset + Zlen (ascii_prefix s)),
          set_mem (set_bytes (splice (bytes (mem g)) (ptr + offset) (ascii_prefix s))
                             (mem g)) g).
Proof.
  intros Hs. revert offset g. induction Hs as [|a s Ha _ IH]; intros offset g -> Hp Hl; simpl.
  - rewrite splice_nil. unfold mret, M_ret. rewrite Z.add_0_r. by destruct g as [[]].
  - unfold Utf8.unit_ok in Ha. destruct (Z.ltb_spec 0x7F a) as [?|?]; simpl.
    { rewrite splice_nil. unfold mret, M_ret. rewrite Z.add_0_r. by destruct g as [[]]. }
    unfold mbind at 1, M_bind at 1, view_store, modify, v_length.
    rewrite detached_current. simpl. rewrite Z.div_1_r. zlen.
    pose proof (Zlen_nonneg s).
    destruct (Z.leb_spec 0 (ptr + offset)); [|lia].
    destruct (Z.ltb_spec (ptr + offset) (Zlen (bytes (mem g)))); [|lia]. simpl.
    rewrite Z.mod_small, Z.add_0_l by lia.
    assert (Hlen : Zlen (splice (bytes (mem g)) (ptr + offset) [a]) = Zlen (bytes (mem g)))
      by (apply Zlen_splice; [lia|zlen; lia]).
    rewrite IH; simpl; [| |lia|lia].
    + f_equal. f_equal; [f_equal; zlen; lia|].
      unfold set_mem, set_bytes. simpl. f_equal. f_equal.
      replace (ptr + (offset + 1)) with (ptr + offset + Zlen [a]) by (zlen; lia).
      rewrite splice_app; [done|lia|].
      assert (Zlen (ascii_prefix s) ≤ Zlen s)
        by (rewrite (ascii_split s) at 2; zlen; pose proof (Zlen_nonneg (ascii_rest s)); lia).
      zlen. lia.
    + unfold whole. simpl. by rewrite Hlen.
Qed.
End access_facts.

Section string_facts.
Context {S : Type} `{!Allocator S} `{!AllocatorLaws S} {TC : TextCodec}.
Implicit Types (g : glue S) (s : jsstring).

(** The non-ASCII tail: encode it into the view reserved for it. *)
Lemma encodeString_run s v g :
  Forall Utf8.unit_ok s → v_gen v = gen (mem g) → v_size v = 1 → 3 * Zlen s ≤ v_count v →
  encodeString s v g =
    Some (Ok (Zlen (tc_encoding s)),
          set_mem (set_bytes (splice (bytes (mem g)) (v_off v) (tc_encoding s)) (mem g)) g).
Proof.
  intros Hs Hg Hsz Hc. unfold encodeString. destruct tc_encodeInto as [f|] eqn:Hf.
  { unfold gets, modify, mbind, M_bind, mret, M_ret, v_length, detached.
    rewrite Hg, Nat.eqb_refl. simpl.
    by rewrite (tc_encodeInto_ok f s _ Hf Hs) by (pose proof (tc_length s Hs); lia). }
  erewrite M_bind_ok; [|by unfold lift; rewrite tc_encode_ok].
  pose proof (tc_length s Hs).
  erewrite M_bind_ok; [|apply view_set_run; rewrite ?Hsz, ?Z.div_1_r; lia || done].
  by rewrite Z.mul_0_l, Z.add_0_r.
Qed.

(** The state after an allocator call: memory of its own, glue variables unchanged. *)
Lemma malloc_run n align g :
  0 ≤ n → cache_ok g → ∃ o g', wasm_malloc n align g = Some (o, g') ∧ cache_ok g' ∧
    match o with Ok p => live (mem g') (ToUint32 p) n | Throw e => e = Trap end.
Proof.
  intros Hn Hok. destruct (malloc_spec n align g Hn g eq_refl) as (o & g' & Hr & Ho).
  exists o, g'. split; [done|].
  destruct o; destruct Ho as [Hw ?]; split; eauto using cache_ok_wasm_step.
Qed.

Lemma realloc_run p old new align g :
  live (mem g) p old → 0 ≤ new → cache_ok g →
  ∃ o g', wasm_realloc p old new align g = Some (o, g') ∧ cache_ok g' ∧
    match o with
    | Ok q => live (mem g') (ToUint32 q) new ∧
              slice (bytes (mem g')) (ToUint32 q) (Z.min old new) =
              slice (bytes (mem g)) p (Z.min old new)
    | Throw e => e = Trap
    end.
Proof.
  intros Hl Hn Hok. destruct (realloc_spec p old new align g Hl Hn g eq_refl) as (o & g' & Hr & Ho).
  exists o, g'. split; [done|].
  destruct o; destruct Ho as [Hw ?]; split; eauto using cache_ok_wasm_step.
Qed.

Lemma slice_prefix {A} (l : list A) p n k : 0 ≤ k ≤ n → slice l p k = take (Z.to_nat k) (slice l p n).
Proof. intros. unfold slice. rewrite take_take. f_equal. lia. Qed.

Lemma slice_prefix_eq {A} (l l' : list A) p p' n k :
  0 ≤ k ≤ n → slice l p n = slice l' p' n → slice l p k = slice l' p' k.
Proof. intros ? He. rewrite (slice_prefix l p n), (slice_prefix l' p' n), He by done. done. Qed.

Lemma slice_splice_after {A} (l pre b : list A) p :
  0 ≤ p → p + Zlen pre + Zlen b ≤ Zlen l → slice l p (Zlen pre) = pre →
  slice (splice l (p + Zlen pre) b) p (Zlen pre + Zlen b) = pre ++ b.
Proof.
  intros Hp Hl He. pose proof (Zlen_nonneg pre). pose proof (Zlen_nonneg b).
  rewrite (slice_split _ p (Zlen pre + Zlen b) (Zlen pre)) by lia.
  replace (Zlen pre + Zlen b - Zlen pre) with (Zlen b) by lia.
  rewrite slice_splice_ne, slice_splice_eq by lia. by rewrite He.
Qed.

Definition string_at g p n s : Prop :=
  ToUint32 p = p ∧ live (mem g) p n ∧ slice (bytes (mem g)) p n = tc_encoding s.

Lemma pass_tail_spec s pre rest g p :
  s = pre ++ rest → Forall Utf8.unit_ok rest → cache_ok g → live (mem g) p (Zlen s) →
  slice (bytes (mem g)) p (Zlen pre) = pre →
  ∃ o g', pass_tail s p (Zlen s) (Zlen pre) wasm_realloc g = Some (o, g') ∧ cache_ok g' ∧
    match o with
    | Ok (q, n) => ToUint32 q = q ∧ live (mem g') q n ∧ slice (bytes (mem g')) q n = pre ++ tc_encoding rest
    | Throw e => e = Trap
    end.
Proof.
  intros Hsplit Hrest Hok Hl Hpre. unfold pass_tail.
  pose proof (Zlen_nonneg pre). pose proof (Zlen_nonneg rest).
  pose proof (Zlen_nonneg (tc_encoding rest)). pose proof (tc_length rest Hrest).
  assert (Hlen : Zlen s = Zlen pre + Zlen rest) by (rewrite Hsplit; by zlen).
  assert (Hdrop : (if Zlen pre =? 0 then s else Zdrop (Zlen pre) s) = rest).
  { subst s. destruct (Z.eqb_spec (Zlen pre) 0).
    - destruct pre; [done|]. zlen. pose proof (Zlen_nonneg pre). lia.
    - unfold Zdrop, Zlen. rewrite Nat2Z.id. apply drop_app_length. }
  rewrite Hdrop. clear Hdrop.
  set (len' := Zlen pre + Zlen rest * 3).
  destruct (realloc_run p (Zlen s) len' 1 g Hl ltac:(lia) Hok)
    as ([q|e] & g1 & Hr1 & Hok1 & Hq1);
    [erewrite M_bind_ok by done|erewrite M_bind_throw by done; by eexists _, _].
  destruct Hq1 as [Hl1 Hs1]. set (q' := ToUint32 q) in *.
  rewrite Z.min_l in Hs1 by lia.
  apply (slice_prefix_eq _ _ _ _ _ (Zlen pre)) in Hs1; [|lia]. rewrite Hpre in Hs1.
  destruct (live_bounds _ _ _ Hl1) as (Hq & _ & Hb1 & _).
  destruct (get_typed_run U8 g1 Hok1) as (g2 & Hr2 & Hm2 & _ & Hok2).
  erewrite M_bind_ok by done. rewrite <- Hm2 in *. clear g1 Hr1 Hok1 Hr2 Hm2.
  erewrite M_bind_ok; [|apply subarray_run; simpl; rewrite ?Z.div_1_r; (done || lia)].
  erewrite M_bind_ok; [|by apply encodeString_run; [..|simpl; lia]].
  cbn [v_off whole]. rewrite Z.add_0_l, Z.mul_1_r.
  set (g3 := set_mem _ g2).
  assert (Hsz : Zlen (splice (bytes (mem g2)) (q' + Zlen pre) (tc_encoding rest))
                = Zlen (bytes (mem g2))) by (apply Zlen_splice; lia).
  assert (Hok3 : cache_ok g3) by (by apply cache_ok_set_bytes).
  assert (Hl3 : live (mem g3) q' len') by (by apply live_write).
  assert (Hs3 : slice (bytes (mem g3)) q' (Zlen pre + Zlen (tc_encoding rest))
                = pre ++ tc_encoding rest) by (apply (slice_splice_after (bytes (mem g2))); [lia|lia|done]).
  assert (Hn : 0 ≤ Zlen pre + Zlen (tc_encoding rest)) by lia.
  destruct (realloc_run q' len' (Zlen pre + Zlen (tc_encoding rest)) 1 g3 Hl3 Hn Hok3)
    as ([r|e] & g4 & Hr4 & Hok4 & Hq4);
    [erewrite M_bind_ok by done|erewrite M_bind_throw by done; by eexists _, _].
  destruct Hq4 as [Hl4 Hs4]. rewrite Z.min_r in Hs4 by lia.
  eexists _, _. split; [done|]. split; [done|].
  split; [apply ToUint32_idem|]. split; [done|]. by rewrite Hs4.
Qed.

Lemma pass_string_spec s g :
  Forall Utf8.unit_ok s → cache_ok g →
  ∃ o g', passStringToWasm0 s wasm_malloc (Some wasm_realloc) g = Some (o, g') ∧
    cache_ok g' ∧
    match o with
    | Ok ptr => string_at g' ptr (WASM_VECTOR_LEN g') s
    | Throw e => e = Trap
    end.
Proof.
  intros Hs Hok. unfold passStringToWasm0.
  destruct (malloc_run (Zlen s) 1 g (Zlen_nonneg s) Hok) as ([p|e] & g1 & Hr1 & Hok1 & Hl1);
    [erewrite M_bind_ok by done|erewrite M_bind_throw by done; by eexists _, _].
  destruct (live_bounds _ _ _ Hl1) as (Hp1 & _ & Hb1 & _).
  destruct (get_typed_run U8 g1 Hok1) as (g2 & Hr2 & Hm2 & _ & Hok2).
  erewrite M_bind_ok by done. rewrite <- Hm2 in *. cbn [elt_size].
  erewrite M_bind_ok; [|by apply ascii_loop_run; [done|done|lia|lia]].
  rewrite !Z.add_0_l, !Z.add_0_r.
  pose proof (ascii_split s) as Hsplit. unfold string_at. rewrite tc_encoding_ascii by done.
  set (pre := ascii_prefix s) in *. set (rest := ascii_rest s) in *.
  assert (Hrest : Forall Utf8.unit_ok rest)
    by (rewrite Hsplit in Hs; by apply Forall_app in Hs as [_ ?]).
  assert (Hlen : Zlen s = Zlen pre + Zlen rest) by (rewrite Hsplit; by zlen).
  pose proof (Zlen_nonneg pre). pose proof (Zlen_nonneg rest).
  set (g3 := set_mem _ g2).
  assert (Hsz : Zlen (splice (bytes (mem g2)) (ToUint32 p) pre) = Zlen (bytes (mem g2)))
    by (apply Zlen_splice; lia).
  assert (Hok3 : cache_ok g3) by by apply cache_ok_set_bytes.
  assert (Hl3 : live (mem g3) (ToUint32 p) (Zlen s)) by by apply live_write.
  assert (Hpre3 : slice (bytes (mem g3)) (ToUint32 p) (Zlen pre) = pre)
    by (apply slice_splice_eq; lia).
  destruct (Z.eqb_spec (Zlen pre) (Zlen s)) as [He|Hne].
  - eexists _, _. split; [done|]. split; [done|]. simpl.
    assert (rest = []) as Hnil by (destruct rest; [done|zlen; pose proof (Zlen_nonneg rest); lia]).
    rewrite Hnil, tc_nil, app_nil_r, He. split; [apply ToUint32_idem|].
    split; [done|]. by rewrite <- He.
  - destruct (pass_tail_spec s pre rest g3 _ Hsplit Hrest Hok3 Hl3 Hpre3)
      as ([[q n]|e] & g4 & Hr4 & Hok4 & Hq4);
      [erewrite M_bind_ok by done|erewrite M_bind_throw by done; by eexists _, _].
    by eexists _, _.
Qed.

(** Without [realloc] the string is encoded in one piece. *)
Lemma pass_string_simple_spec s g :
  Forall Utf8.unit_ok s → cache_ok g →
  ∃ o g', passStringToWasm0 s wasm_malloc None g = Some (o, g') ∧ cache_ok g' ∧
    match o with
    | Ok ptr => string_at g' ptr (WASM_VECTOR_LEN g') s
    | Throw e => e = Trap
    end.
Proof.
  intros Hs Hok. unfold passStringToWasm0.
  erewrite M_bind_ok; [|by unfold lift; rewrite tc_encode_ok].
  set (buf := tc_encoding s). pose proof (Zlen_nonneg buf).
  destruct (malloc_run (Zlen buf) 1 g ltac:(done) Hok) as ([p|e] & g1 & Hr1 & Hok1 & Hl1);
    [erewrite M_bind_ok by done|erewrite M_bind_throw by done; by eexists _, _].
  destruct (live_bounds _ _ _ Hl1) as (Hp1 & _ & Hb1 & _).
  destruct (get_typed_run U8 g1 Hok1) as (g2 & Hr2 & Hm2 & _ & Hok2).
  erewrite M_bind_ok by done. rewrite <- Hm2 in *.
  erewrite M_bind_ok; [|apply subarray_run; simpl; rewrite ?Z.div_1_r; (done || lia)].
  erewrite M_bind_ok; [|apply view_set_run; simpl; rewrite ?Z.div_1_r; (done || lia)].
  cbn [v_off whole v_size]. rewrite Z.add_0_l, Z.mul_1_r, Z.mul_0_l, Z.add_0_r.
  assert (Hsz : Zlen (splice (bytes (mem g2)) (ToUint32 p) buf) = Zlen (bytes (mem g2)))
    by (apply Zlen_splice; lia).
  eexists _, _. split; [done|]. split; [by apply cache_ok_set_veclen, cache_ok_set_bytes|].
  simpl. split; [apply ToUint32_idem|]. split; [by apply live_write|].
  by apply slice_splice_eq.
Qed.

(** Reading a string back. *)
Lemma get_string_spec s g p n :
  Forall Utf8.unit_ok s → cache_ok g → string_at g p n s →
  ∃ g', getStringFromWasm0 p n g = Some (Ok (tc_normal s), g') ∧ mem g' = mem g ∧ cache_ok g'.
Proof.
  intros Hs Hok (Hp & Hl & Hb). unfold getStringFromWasm0. rewrite Hp.
  destruct (live_bounds _ _ _ Hl) as (? & ? & ? & ?).
  destruct (get_typed_run U8 g Hok) as (g2 & Hr2 & Hm2 & _ & Hok2).
  erewrite M_bind_ok by done. rewrite <- Hm2 in *.
  erewrite M_bind_ok; [|apply subarray_run; simpl; rewrite ?Z.div_1_r; (done || lia)].
  erewrite M_bind_ok by done. unfold lift, view_bytes, detached.
  cbn [v_gen v_off v_size v_count whole]. rewrite Nat.eqb_refl. cbn [negb].
  rewrite Z.add_0_l, !Z.mul_1_r. replace (p + n - p) with n by lia.
  rewrite Hb, tc_decode_ok by done. by exists g2.
Qed.
End string_facts.

(** ** What every helper preserves

    Whatever the arguments, out-of-range ones included, and however a helper ends, it only
    refreshes caches -- those that the module declares, [D] -- overwrites octets in place
    and sets [WASM_VECTOR_LEN]. *)
Class HelperClosed {S} (D : cache → Prop) (I : glue S → Prop) : Prop := {
  closed_cache g c : D c → I g → I (set_cache c (Some (whole (elt_size c) (mem g))) g);
  closed_bytes g bs : Zlen bs = Zlen (bytes (mem g)) → I g → I (set_mem (set_bytes bs (mem g)) g);
  closed_veclen g n : I g → I (set_veclen n g);
}.

#[export] Instance cache_ok_closed {S} D : HelperClosed (S := S) D cache_ok.
Proof. split; auto using cache_ok_set_cache, cache_ok_set_bytes. Qed.

#[export] Instance size_closed {S} D n : HelperClosed (S := S) D (λ g, n ≤ Zlen (bytes (mem g))).
Proof. split; simpl; intros; lia. Qed.

Section preservation.
Context {S : Type} `{!Allocator S} {TC : TextOps}.
Context (D : cache → Prop) (I : glue S → Prop) `{!HelperClosed D I}.

Lemma Zlen_splice_any {A} (l bs : list A) p : Zlen (splice l p bs) = Zlen l.
Proof.
  unfold splice, Zlen. rewrite length_take, !length_app, length_take, length_drop. lia.
Qed.

Lemma preserves_set_cache c :
  D c →
  preserves I (g ← get; _ ← modify (set_cache c (Some (whole (elt_size c) (mem g))));
               mret (whole (elt_size c) (mem g)) : G S view).
Proof. intros ? g o g' Hg [= <- <-]. by apply closed_cache. Qed.

Lemma preserves_get_typed c : D c → preserves I (get_typed c).
Proof.
  intros Hc g o g' Hg. pose proof (preserves_set_cache c Hc g) as Hs.
  unfold get_typed, get, mbind, M_bind in *.
  destruct (caches g c) as [v|]; [destruct (_ =? 0)|]; eauto. by intros [= <- <-].
Qed.

Lemma preserves_getDataView hd : D DV → preserves I (getDataViewMemory0 hd).
Proof.
  intros Hc g o g' Hg. pose proof (preserves_set_cache DV Hc g) as Hs.
  unfold getDataViewMemory0, get, mbind, M_bind in *.
  destruct (caches g DV) as [v|]; [destruct (_ || _)|]; eauto. by intros [= <- <-].
Qed.

Lemma preserves_subarray v b e : preserves I (subarray v b e).
Proof. unfold subarray. preserves. Qed.

(** Overwriting octets of the current buffer. *)
Lemma closed_splice g p bs :
  I g → I (set_mem (set_bytes (splice (bytes (mem g)) p bs) (mem g)) g).
Proof. apply (closed_bytes (D := D)), Zlen_splice_any. Qed.

Lemma preserves_view_store v i b : preserves I (view_store v i b).
Proof.
  apply preserves_modify. intros g Hg. destruct (_ && _); [|done]. by apply closed_splice.
Qed.

Lemma preserves_view_set v buf i : preserves I (view_set v buf i).
Proof.
  unfold view_set. preserves. apply preserves_modify. intros g Hg. by apply closed_splice.
Qed.

Lemma preserves_setInt32 v at_ x : preserves I (setInt32 v at_ x).
Proof.
  unfold setInt32. preserves. apply preserves_modify. intros g Hg. by apply closed_splice.
Qed.

Lemma preserves_veclen n : preserves I (modify (set_veclen n) : G S unit).
Proof. apply preserves_modify. intros g. apply (closed_veclen (D := D)). Qed.

Hint Resolve preserves_get_typed preserves_subarray preserves_view_store
  preserves_view_set preserves_setInt32 preserves_veclen : preserves.

Lemma preserves_encodeString s v : preserves I (encodeString s v).
Proof.
  unfold encodeString. preserves. apply preserves_modify. intros g Hg. by apply closed_splice.
Qed.

Lemma preserves_ascii_loop s v ptr offset : preserves I (ascii_loop s v ptr offset).
Proof. revert offset. induction s as [|u s IH]; intros offset; simpl; preserves. Qed.

Hint Resolve preserves_encodeString preserves_ascii_loop : preserves.

Lemma preserves_pass_string s malloc realloc :
  D U8 →
  (∀ n a, preserves I (malloc n a)) →
  (∀ f, realloc = Some f → ∀ p n n' a, preserves I (f p n n' a)) →
  preserves I (passStringToWasm0 s malloc realloc).
Proof.
  intros HU Hm Hr. unfold passStringToWasm0, pass_tail, getUint8ArrayMemory0.
  destruct realloc as [realloc|]; [specialize (Hr realloc eq_refl)|]; preserves.
Qed.

Lemma preserves_passArrayF32 l malloc :
  D F32 → (∀ n a, preserves I (malloc n a)) → preserves I (passArrayF32ToWasm0 l malloc).
Proof. intros HF Hm. unfold passArrayF32ToWasm0, getFloat32ArrayMemory0. preserves. Qed.

Lemma preserves_getString p n : D U8 → preserves I (getStringFromWasm0 p n).
Proof. intros. unfold getStringFromWasm0, getUint8ArrayMemory0. preserves. Qed.

Lemma preserves_getArrays p n :
  (D U8 → preserves I (getArrayU8FromWasm0 p n)) ∧
  (D U16 → preserves I (getArrayU16FromWasm0 p n)) ∧
  (D U32 → preserves I (getArrayU32FromWasm0 p n)) ∧
  (D F32 → preserves I (getArrayF32FromWasm0 p n)).
Proof.
  unfold getArrayU8FromWasm0, getArrayU16FromWasm0, getArrayU32FromWasm0,
    getArrayF32FromWasm0, getUint8ArrayMemory0, getUint16ArrayMemory0,
    getUint32ArrayMemory0, getFloat32ArrayMemory0.
  split_and!; intros; preserves.
Qed.
End preservation.

#[export] Hint Resolve preserves_get_typed preserves_getDataView preserves_subarray
  preserves_view_store preserves_view_set preserves_setInt32 preserves_veclen
  preserves_getString : preserves.

(** The allocator preserves what every call into wasm preserves. *)
Section step_preservation.
Context {S : Type} `{!Allocator S, !AllocatorSteps S}.
Context (I : glue S → Prop) (HI : ∀ g g', wasm_step g g' → I g → I g').

Lemma preserves_malloc n align : preserves I (wasm_malloc n align).
Proof. intros g o g' Hg Hr. eauto using malloc_step. Qed.
Lemma preserves_realloc p n n' align : preserves I (wasm_realloc p n n' align).
Proof. intros g o g' Hg Hr. eauto using realloc_step. Qed.
Lemma preserves_free p n align : preserves I (wasm_free p n align).
Proof. intros g o g' Hg Hr. eauto using free_step. Qed.
End step_preservation.

(** ** A bump allocator: the laws are satisfiable *)
Module Bump.
Definition round_up (p align : Z) : Z := (p + align - 1) / align * align.

(** Make room up to octet [top]: a memory that is too short grows and its buffer is
    replaced. *)
Definition grow_to (top : Z) (m : memory Z) : memory Z :=
  if top <=? Zlen (bytes m) then Mem (bytes m) (gen m) top
  else Mem (bytes m ++ replicate (Z.to_nat (top - Zlen (bytes m))) 0) (S (gen m)) top.

Definition malloc (n align : Z) : G Z Z := λ g,
  let p := Z.max 0 (round_up (heap (mem g)) (Z.max 1 align)) in
  if 2 ^ 32 <=? p + Z.max 0 n then Some (Throw Trap, g)
  else Some (Ok (ToInt32 p), set_mem (grow_to (p + Z.max 0 n) (mem g)) g).

Definition realloc (p old new align : Z) : G Z Z :=
  q ← malloc new align;
  _ ← modify (λ g, set_mem (set_bytes
    (splice (bytes (mem g)) (ToUint32 q) (slice (bytes (mem g)) p (Z.min old new))) (mem g)) g);
  mret q.

Definition live (m : memory Z) (p n : Z) : Prop :=
  0 ≤ p ∧ 0 ≤ n ∧ p + n ≤ heap m ∧ heap m ≤ Zlen (bytes m) ∧ heap m ≤ 2 ^ 32.

#[global, refine] Instance allocator : Allocator Z := {
  wasm_malloc := malloc;
  wasm_realloc := realloc;
  wasm_free _ _ _ := mret ();
  live := live;
}.
Proof.
  - unfold live. lia.
  - unfold live. simpl. lia.
Defined.

Lemma Zlen_grow top m : Zlen (bytes m) ≤ Zlen (bytes (grow_to top m)) ∧ top ≤ Zlen (bytes (grow_to top m)).
Proof.
  unfold grow_to. destruct (Z.leb_spec top (Zlen (bytes m))); simpl; [lia|].
  rewrite Zlen_app. unfold Zlen in *. rewrite length_replicate. lia.
Qed.

Lemma slice_grow top m p n :
  0 ≤ p → 0 ≤ n → p + n ≤ Zlen (bytes m) → slice (bytes (grow_to top m)) p n = slice (bytes m) p n.
Proof.
  intros. unfold grow_to. destruct (top <=? _); [done|]. simpl. unfold slice, Zlen in *.
  rewrite drop_app_le by lia. by rewrite take_app_le by (rewrite length_drop; lia).
Qed.

Lemma wasm_step_refl (g : glue Z) : wasm_step g g.
Proof. unfold wasm_step. split_and!; done || lia. Qed.

Lemma wasm_step_grow top (g : glue Z) : wasm_step g (set_mem (grow_to top (mem g)) g).
Proof.
  pose proof (proj1 (Zlen_grow top (mem g))).
  unfold wasm_step. cbn [set_mem mem caches WASM_VECTOR_LEN]. split_and!; try done;
    unfold grow_to; destruct (top <=? _); simpl; try done; lia.
Qed.

Lemma wasm_step_bytes (g g' : glue Z) bs :
  wasm_step g g' → Zlen bs = Zlen (bytes (mem g')) →
  wasm_step g (set_mem (set_bytes bs (mem g')) g').
Proof.
  intros (?&?&?&?&Hl) He. unfold wasm_step. simpl. rewrite He. by split_and!.
Qed.

Lemma malloc_cases n align g :
  0 ≤ n →
  (malloc n align g = Some (Throw Trap, g)) ∨
  (∃ p, malloc n align g = Some (Ok (ToInt32 p), set_mem (grow_to (p + n) (mem g)) g) ∧
    0 ≤ p ∧ p + n < 2 ^ 32 ∧ ToUint32 (ToInt32 p) = p).
Proof.
  intros. unfold malloc. rewrite (Z.max_r 0 n) by done.
  set (p := Z.max 0 _). destruct (Z.leb_spec (2 ^ 32) (p + n)); [by left|right].
  exists p. split_and!; [done|lia|lia|].
  rewrite ToUint32_ToInt32. apply ToUint32_small. lia.
Qed.

Lemma live_grow p n m : 0 ≤ p → 0 ≤ n → p + n < 2 ^ 32 → live (grow_to (p + n) m) p n.
Proof.
  intros. destruct (Zlen_grow (p + n) m). unfold live.
  assert (heap (grow_to (p + n) m) = p + n) as -> by (unfold grow_to; by case_match).
  lia.
Qed.

#[global] Instance allocator_laws : AllocatorLaws Z.
Proof.
  split.
  - intros n align g Hn _ ->. simpl.
    destruct (malloc_cases n align g Hn) as [->|(p & -> & Hp & Hb & Hu)].
    + eexists _, _. split; [done|]. split; [|done]. by repeat split.
    + eexists _, _. split; [done|]. split; [apply wasm_step_grow|].
      rewrite Hu. by apply live_grow.
  - intros p old new align g Hl Hnew _ ->. simpl. unfold realloc.
    destruct (malloc_cases new align g Hnew) as [Hr|(q & Hr & Hq & Hb & Hu)].
    + erewrite M_bind_throw by done. eexists _, _. split; [done|].
      split; [|done]. by repeat split.
    + erewrite M_bind_ok by done. eexists _, _. split; [done|]. simpl. rewrite Hu.
      destruct Hl as (? & ? & ? & ? & ?). set (k := Z.min old new) in *.
      destruct (Zlen_grow (q + new) (mem g)).
      pose proof (slice_grow (q + new) (mem g) p k ltac:(lia) ltac:(lia) ltac:(lia)) as Hs.
      assert (Hk : Zlen (slice (bytes (grow_to (q + new) (mem g))) p k) = k)
        by (apply Zlen_slice; lia).
      assert (Hsz : Zlen (splice (bytes (grow_to (q + new) (mem g))) q
                      (slice (bytes (grow_to (q + new) (mem g))) p k))
                    = Zlen (bytes (grow_to (q + new) (mem g))))
        by (apply Zlen_splice; lia).
      split; [|split].
      * apply (wasm_step_bytes g (set_mem (grow_to (q + new) (mem g)) g)); [|done].
        apply wasm_step_grow.
      * exact (live_write (Allocator := allocator) _ _ _ _ (live_grow q new _ Hq Hnew Hb) Hsz).
      * cbn [bytes set_bytes mem set_mem]. rewrite <- Hs. rewrite <- Hk at 2. apply slice_splice_eq; lia.
Qed.

#[global] Instance steps : AllocatorSteps Z.
Proof.
  assert (Hm : ∀ n a g o g', malloc n a g = Some (o, g') → wasm_step g g').
  { intros n a g o g'. unfold malloc. destruct (_ <=? _); intros [= <- <-];
      [by apply wasm_step_refl|apply wasm_step_grow]. }
  split; [exact Hm| |].
  - intros p n n' a g o g'. simpl. unfold realloc, modify, mbind, M_bind.
    destruct (malloc n' a g) as [[[q|e] g1]|] eqn:E; [|intros [= <- <-]; eauto|done].
    intros [= <- <-]. apply wasm_step_bytes; [eauto|apply Zlen_splice_any].
  - intros p n a g o g' [= <- <-]. apply wasm_step_refl.
Qed.
End Bump.

(** ** The byte budget of a TextDecoder

    Newer builds replace the decoder before it has decoded [MAX_SAFARI_DECODE_BYTES]
    octets.  [td_id] tells decoder objects apart; [td_log] records, for every call, the
    decoder used and the number of octets. *)
Module DecodeText.
Definition MAX_SAFARI_DECODE_BYTES : Z := 2146435072.

Record text_decoder : Type := TD { td_id : nat; numBytesDecoded : Z; td_log : list (nat * Z) }.

Definition initial : text_decoder := TD 0 0 [].

(** [decodeText(ptr, len)], as far as the counter and the choice of decoder go. *)
Definition decodeText (td : text_decoder) (len : Z) : text_decoder :=
  let n := numBytesDecoded td + len in
  if MAX_SAFARI_DECODE_BYTES <=? n
  then TD (S (td_id td)) len (td_log td ++ [(S (td_id td), len)])
  else TD (td_id td) n (td_log td ++ [(td_id td, len)]).

(** The lengths of the calls that decoder [d] served. *)
Definition served (d : nat) (log : list (nat * Z)) : list Z :=
  map snd (filter (λ c, c.1 = d) log).

Definition total (l : list Z) : Z := foldr Z.add 0 l.

Lemma total_app l1 l2 : total (l1 ++ l2) = total l1 + total l2.
Proof. induction l1 as [|x l1 IH]; simpl; lia. Qed.

Lemma served_snoc d log d' n :
  served d (log ++ [(d', n)]) = served d log ++ (if decide (d' = d) then [n] else []).
Proof.
  unfold served. rewrite list.filter_app, map_app. f_equal. simpl.
  by destruct (decide (d' = d)) as [->|?]; [rewrite filter_cons_True|rewrite filter_cons_False].
Qed.

Definition within_budget (l : list Z) : Prop :=
  total l < MAX_SAFARI_DECODE_BYTES ∨ (length l ≤ 1)%nat.

Definition invariant (td : text_decoder) : Prop :=
  (∀ d, within_budget (served d (td_log td))) ∧
  total (served (td_id td) (td_log td)) = numBytesDecoded td ∧
  (∀ d, (td_id td < d)%nat → served d (td_log td) = []).

Lemma decodeText_invariant td len : 0 ≤ len → invariant td → invariant (decodeText td len).
Proof.
  intros ? (Hb & Ht & Hf). unfold decodeText.
  destruct (Z.leb_spec MAX_SAFARI_DECODE_BYTES (numBytesDecoded td + len)) as [?|Hlt];
    split_and!; simpl; intros; rewrite served_snoc.
  - case_decide as Hd; [|by rewrite app_nil_r].
    subst d. rewrite Hf by lia. right. simpl. lia.
  - rewrite decide_True, Hf by lia. simpl. lia.
  - rewrite decide_False, Hf by lia. done.
  - case_decide as Hd; [|by rewrite app_nil_r].
    subst d. left. rewrite total_app, Ht. simpl. lia.
  - rewrite decide_True, total_app, Ht by done. simpl. lia.
  - rewrite decide_False, app_nil_r by lia. by apply Hf.
Qed.

Lemma fold_invariant lens td :
  Forall (λ n, 0 ≤ n) lens → invariant td → invariant (fold_left decodeText lens td).
Proof.
  intros Hl. revert td. induction Hl; intros td Hi; simpl; [done|].
  by apply IHHl, decodeText_invariant.
Qed.
End DecodeText.

(** ** Properties *)

(** Everything that happens to a glue module: calls into wasm, stores, and the getters. *)
Inductive glue_step {S} (g : glue S) : glue S → Prop :=
  | step_wasm g' : wasm_step g g' → glue_step g g'
  | step_bytes bs : Zlen bs = Zlen (bytes (mem g)) → glue_step g (set_mem (set_bytes bs (mem g)) g)
  | step_veclen n : glue_step g (set_veclen n g)
  | step_get c v g' : get_typed c g = Some (Ok v, g') → glue_step g g'
  | step_dataview hd v g' : getDataViewMemory0 hd g = Some (Ok v, g') → glue_step g g'.

Definition no_caches {S} (g : glue S) : Prop := ∀ c, caches g c = None.

Lemma cache_ok_reachable {S} (g g' : glue S) : no_caches g → rtc glue_step g g' → cache_ok g'.
Proof.
  intros Hn Hr. assert (Hok : cache_ok g) by (intros c v; by rewrite Hn). clear Hn.
  induction Hr as [|g g1 g' Hs _ IH]; [done|]. apply IH. destruct Hs.
  - by eapply cache_ok_wasm_step.
  - by apply cache_ok_set_bytes.
  - by apply cache_ok_set_veclen.
  - destruct (get_typed_run c g Hok) as (?&?&?&?&?). by simplify_eq.
  - destruct (getDataView_run hd g Hok) as (?&?&?&?&?). by simplify_eq.
Qed.

(** C2: from the state [__wbg_finalize_init] leaves (no cached view), however the wasm
    memory grows in between, a getter never returns a view of a detached buffer: the
    typed-array getters and [getDataViewMemory0] -- with or without
    [ArrayBuffer.prototype.detached] -- return a view of all of the current memory. *)
Theorem views_never_stale {S} (g g' : glue S) :
  no_caches g → rtc glue_step g g' →
  (∀ c, ∃ g'', get_typed c g' = Some (Ok (whole (elt_size c) (mem g')), g'') ∧ mem g'' = mem g') ∧
  (∀ hd, ∃ g'', getDataViewMemory0 hd g' = Some (Ok (whole 1 (mem g')), g'') ∧ mem g'' = mem g') ∧
  detached (mem g') (whole 1 (mem g')) = false ∧
  view_bytes (mem g') (whole 1 (mem g')) = bytes (mem g').
Proof.
  intros Hn Hr. pose proof (cache_ok_reachable g g' Hn Hr) as Hok. split_and!.
  - intros c. destruct (get_typed_run c g' Hok) as (g''&?&?&?&?). by exists g''.
  - intros hd. destruct (getDataView_run hd g' Hok) as (g''&?&?&?&?). by exists g''.
  - apply detached_current.
  - unfold view_bytes. rewrite detached_current. unfold whole. simpl.
    rewrite Z.div_1_r, Z.mul_1_r. apply slice_full.
Qed.

Definition glue0 : glue Z := Glue (Mem (replicate 8 0) 0 0) (λ _, None) 0.

Lemma views_never_stale_witness :
  let g' := set_mem (Bump.grow_to 20 (mem glue0)) glue0 in
  (∀ c, ∃ g'', get_typed c g' = Some (Ok (whole (elt_size c) (mem g')), g'') ∧ mem g'' = mem g') ∧
  (∀ hd, ∃ g'', getDataViewMemory0 hd g' = Some (Ok (whole 1 (mem g')), g'') ∧ mem g'' = mem g') ∧
  detached (mem g') (whole 1 (mem g')) = false ∧
  view_bytes (mem g') (whole 1 (mem g')) = bytes (mem g').
Proof.
  apply (views_never_stale glue0); [done|].
  apply rtc_once, step_wasm, Bump.wasm_step_grow.
Defined.

(** C3: [passStringToWasm0], with [realloc] (the ASCII fast path, then the encoder on the
    rest) or without it, leaves at the returned pointer a live block of
    [WASM_VECTOR_LEN] octets that hold exactly the encoding of the whole string; the only
    exception it can raise is a trap of the allocator, never a RangeError of [view.set]. *)
Theorem pass_string_correct {St} `{!Allocator St} `{!AllocatorLaws St} {TC : TextCodec}
    (s : jsstring) (g : glue St) (with_realloc : bool) :
  Forall Utf8.unit_ok s → cache_ok g →
  ∃ o g', passStringToWasm0 s wasm_malloc
            (if with_realloc then Some wasm_realloc else None) g = Some (o, g') ∧
    match o with
    | Ok ptr => live (mem g') ptr (WASM_VECTOR_LEN g') ∧
                slice (bytes (mem g')) ptr (WASM_VECTOR_LEN g') = tc_encoding s
    | Throw e => e = Trap
    end.
Proof.
  intros Hs Hok. destruct with_realloc.
  - destruct (pass_string_spec s g Hs Hok) as (o & g' & ? & _ & Ho). exists o, g'.
    split; [done|]. destruct o; [apply Ho|done].
  - destruct (pass_string_simple_spec s g Hs Hok) as (o & g' & ? & _ & Ho). exists o, g'.
    split; [done|]. destruct o; [apply Ho|done].
Qed.

Lemma pass_string_correct_witness :
  ∃ o g', passStringToWasm0 (TC := polyfill_codec) [0x41; 0xE9; 0x42]
            wasm_malloc (Some wasm_realloc) glue0 = Some (o, g') ∧
    match o with
    | Ok ptr => live (mem g') ptr (WASM_VECTOR_LEN g') ∧
                slice (bytes (mem g')) ptr (WASM_VECTOR_LEN g') =
                tc_encoding (TextCodec := polyfill_codec) [0x41; 0xE9; 0x42]
    | Throw e => e = Trap
    end.
Proof.
  apply (pass_string_correct (TC := polyfill_codec) [0x41; 0xE9; 0x42] glue0 true).
  - repeat constructor; by vm_compute.
  - done.
Defined.

(** A string handed to wasm with [passStringToWasm0] and read back with
    [getStringFromWasm0] from the returned pointer and [WASM_VECTOR_LEN] is the original
    up to the codec's normalisation (none for the worklet's polyfill). *)
Theorem wasm_string_roundtrip {St} `{!Allocator St} `{!AllocatorLaws St} {TC : TextCodec}
    (s : jsstring) (g g' : glue St) (ptr : Z) :
  Forall Utf8.unit_ok s → cache_ok g →
  passStringToWasm0 s wasm_malloc (Some wasm_realloc) g = Some (Ok ptr, g') →
  ∃ g'', getStringFromWasm0 ptr (WASM_VECTOR_LEN g') g' = Some (Ok (tc_normal s), g'') ∧
         mem g'' = mem g'.
Proof.
  intros Hs Hok Hrun. destruct (pass_string_spec s g Hs Hok) as (o & g1 & Hr & Hok1 & Ho).
  rewrite Hr in Hrun. simplify_eq.
  destruct (get_string_spec s g' ptr _ Hs Hok1 Ho) as (g'' & ? & ? & _). by exists g''.
Qed.

Lemma wasm_string_roundtrip_witness :
  ∃ ptr g', passStringToWasm0 (TC := polyfill_codec) [0x41; 0xE9; 0x42]
            wasm_malloc (Some wasm_realloc) glue0 = Some (Ok ptr, g') ∧
  ∃ g'', getStringFromWasm0 (TC := polyfill_codec) ptr (WASM_VECTOR_LEN g') g' =
           Some (Ok [0x41; 0xE9; 0x42], g'') ∧ mem g'' = mem g'.
Proof.
  eexists _, _. split; [vm_compute; reflexivity|].
  eapply (wasm_string_roundtrip (TC := polyfill_codec) [0x41; 0xE9; 0x42] glue0).
  - repeat constructor; by vm_compute.
  - done.
  - vm_compute; reflexivity.
Defined.

(** However strings are decoded, no TextDecoder object is given
    [MAX_SAFARI_DECODE_BYTES] octets or more, unless a single string is that long and the
    decoder serves only it. *)
Theorem decoder_budget (lens : list Z) (d : nat) :
  Forall (λ n, 0 ≤ n) lens →
  DecodeText.within_budget
    (DecodeText.served d (DecodeText.td_log (fold_left DecodeText.decodeText lens DecodeText.initial))).
Proof.
  intros Hl. apply (DecodeText.fold_invariant lens DecodeText.initial Hl).
  repeat split; by try left.
Qed.

Lemma decoder_budget_witness :
  DecodeText.within_budget
    (DecodeText.served 0 (DecodeText.td_log
       (fold_left DecodeText.decodeText [2000000000; 100; 200000000] DecodeText.initial))).
Proof. apply decoder_budget. repeat constructor; by vm_compute. Defined.
