(* ===== verification/Environment.v ===== *)
(** * Evaluating a glue module in a scope

    Before any function of a glue module runs, its top level picks a text decoder and a text
    encoder from the scope the module is evaluated in.  The older generation guards against
    their absence, the newer one does not; in the AudioWorklet [text-encoder.js] is evaluated
    first and overwrites both.  The result of an evaluation is the [TextOps] the string
    helpers of [Memory] work with. *)

From S2P Require Import Prelude TextCodec Standard Memory.

(** ** The scope *)

(** The instances of a scope's TextEncoder: [encode], and [encodeInto] where they have it. *)
Record encoder : Type := Encoder {
  enc_encode : jsstring → run js_error (list Z);
  enc_encodeInto : option (jsstring → Z → list Z);
}.

(** [TextDecoder]: the method [decode] of [new TextDecoder('utf-8', {ignoreBOM: true,
    fatal: true})], where [None] as its argument is [undefined]; [None] as the field, where
    [typeof TextDecoder] is ['undefined'].  Likewise [TextEncoder].  The rest: which names of
    the global object are bound. *)
Record globals : Type := Globals {
  TextDecoder : option (option (list Z) → run js_error jsstring);
  TextEncoder : option encoder;
  globalThis : bool; global_bound : bool; self_bound : bool;
}.

(** ** The top level of a glue module *)

(** [cachedTextDecoder] of the older generation: a placeholder whose [decode] throws where
    there is no TextDecoder; a decoder is tried out. *)
Definition guarded_decoder (sc : globals) : run js_error (list Z → run js_error jsstring) :=
  match TextDecoder sc with
  | Some decode => _ <~ decode None; ret (λ octets, decode (Some octets))
  | None => ret (λ _, raise PlainError)
  end.

(** [cachedTextEncoder] and [encodeString], which uses [encodeInto] where it is a function;
    the placeholder has only [encode]. *)
Definition guarded_encoder (sc : globals) : run js_error encoder :=
  match TextEncoder sc with
  | Some e => ret e
  | None => ret (Encoder (λ _, raise PlainError) None)
  end.

(** The newer generation: naming an unbound class is a ReferenceError; [encodeInto] is patched
    in where the encoder has none (what is patched in is [encodeString] of [Memory]). *)
Definition bare_decoder (sc : globals) : run js_error (list Z → run js_error jsstring) :=
  match TextDecoder sc with
  | Some decode => _ <~ decode None; ret (λ octets, decode (Some octets))
  | None => raise ReferenceError
  end.
Definition bare_encoder (sc : globals) : run js_error encoder :=
  match TextEncoder sc with Some e => ret e | None => raise ReferenceError end.

Definition ops (decode : list Z → run js_error jsstring) (e : encoder) : TextOps :=
  {| tc_encode := enc_encode e; tc_decode := decode; tc_encodeInto := enc_encodeInto e |}.

Inductive generation : Type := Older | Newer.

Definition evaluate (g : generation) (sc : globals) : run js_error TextOps :=
  match g with
  | Older => d <~ guarded_decoder sc; e <~ guarded_encoder sc; ret (ops d e)
  | Newer => d <~ bare_decoder sc; e <~ bare_encoder sc; ret (ops d e)
  end.

(** ** text-encoder.js *)

Inductive root : Type := GlobalThis | Global | Self | This.

(** The argument [window] of the function the file calls. *)
Definition window (sc : globals) : root :=
  if globalThis sc then GlobalThis else if global_bound sc then Global
  else if self_bound sc then Self else This.

(** [globalThis.X = X] in strict mode. *)
Definition assign (sc sc' : globals) : run js_error globals :=
  if globalThis sc then ret sc' else raise ReferenceError.

Definition set_TextEncoder (e : encoder) (sc : globals) : globals :=
  Globals (TextDecoder sc) (Some e) (globalThis sc) (global_bound sc) (self_bound sc).
Definition set_TextDecoder (d : option (list Z) → run js_error jsstring) (sc : globals) : globals :=
  Globals (Some d) (TextEncoder sc) (globalThis sc) (global_bound sc) (self_bound sc).

(** [if (!window.X) window.X = X], after [globalThis.X] was assigned: [window] is then
    [globalThis] (lemma [window_globalThis]) and has the name. *)
Definition if_missing {A} (x : option A) (set : globals → globals) (sc : globals) : globals :=
  match x with Some _ => sc | None => set sc end.

Definition polyfill_encoder : encoder := Encoder Polyfill.encode None.

Definition install (sc : globals) : run js_error globals :=
  let _window := window sc in
  sc <~ assign sc (set_TextEncoder polyfill_encoder sc);
  let sc := if_missing (TextEncoder sc) (set_TextEncoder polyfill_encoder) sc in
  sc <~ assign sc (set_TextDecoder Polyfill.decode sc);
  ret (if_missing (TextDecoder sc) (set_TextDecoder Polyfill.decode) sc).

(** The imports of [decoder-processor.js], in their order. *)
Definition processor_imports (sc : globals) : run js_error TextOps :=
  sc <~ install sc; evaluate Older sc.

(** ** Scopes *)

(** What browsers offer to a page, and what an AudioWorkletGlobalScope may lack. *)
Definition standard_encoder : encoder :=
  Encoder (λ s, ret (Standard.encode s)) (Some (λ s, fitting (Standard.scalars s))).
Definition standard_decoder (octets : option (list Z)) : run js_error jsstring :=
  match octets with Some octets => Standard.decode octets | None => ret [] end.
Definition page_scope : globals :=
  Globals (Some standard_decoder) (Some standard_encoder) true false true.
Definition worklet_scope : globals := Globals None None true false false.

(** ** Facts *)

Lemma ret_inj {E A} (a b : A) : (ret a : run E A) = ret b → a = b.
Proof. by intros [=]. Qed.

Lemma install_spec sc :
  install sc = if globalThis sc
               then ret (set_TextDecoder Polyfill.decode (set_TextEncoder polyfill_encoder sc))
               else raise ReferenceError.
Proof. unfold install, assign. by destruct sc as [? ? [] ? ?]. Qed.

Lemma evaluate_page g : evaluate g page_scope = ret (tc_ops (TextCodec := Standard.standard_codec)).
Proof. by destruct g. Qed.

(** Naming what the scope has, both generations do the same. *)
Lemma evaluate_same sc d e :
  TextDecoder sc = Some d → TextEncoder sc = Some e → evaluate Older sc = evaluate Newer sc.
Proof.
  intros Hd He. unfold evaluate, guarded_decoder, bare_decoder, guarded_encoder, bare_encoder.
  by rewrite Hd, He.
Qed.

(** Reading a string with the placeholder: the view is refreshed, then the error. *)
Lemma getString_placeholder {S} `{!Allocator S} e (g : glue S) p n :
  cache_ok g → 0 ≤ n → ToUint32 p + n ≤ Zlen (bytes (mem g)) →
  ∃ g', getStringFromWasm0 (TC := ops (λ _, raise PlainError) e) p n g =
          Some (Throw (JsErr PlainError), g') ∧ mem g' = mem g ∧ cache_ok g'.
Proof.
  intros Hok Hn Hb. unfold getStringFromWasm0. pose proof (ToUint32_range p).
  destruct (get_typed_run U8 g Hok) as (g2 & Hr2 & Hm2 & _ & Hok2).
  erewrite M_bind_ok by done. rewrite <- Hm2 in *.
  erewrite M_bind_ok; [|apply subarray_run; simpl; rewrite ?Z.div_1_r; (done || lia)].
  erewrite M_bind_ok by done. by exists g2.
Qed.

(** Passing a string does not look at the decoder. *)
Lemma passString_decoder {S} `{!Allocator S} d d' e s malloc realloc :
  passStringToWasm0 (TC := ops d e) s malloc realloc =
  passStringToWasm0 (S := S) (TC := ops d' e) s malloc realloc.
Proof. done. Qed.

Lemma processor_imports_spec sc :
  processor_imports sc =
    if globalThis sc then ret (tc_ops (TextCodec := polyfill_codec)) else raise ReferenceError.
Proof. unfold processor_imports. rewrite install_spec. by destruct (globalThis sc). Qed.

(** ** Properties *)

(** The processor's module graph -- [text-encoder.js], then the glue -- works with the
    polyfill whatever the scope offered before, so that every string handed to wasm is read
    back unchanged; a scope without [globalThis] makes it fail with a ReferenceError, although
    [text-encoder.js] looks for another root. *)
Theorem worklet_uses_polyfill {St} `{!Allocator St, !AllocatorLaws St} (sc : globals)
    (s : jsstring) (g g' : glue St) (ptr : Z) (TO : TextOps) :
  Forall Utf8.unit_ok s → cache_ok g →
  (processor_imports sc = raise ReferenceError ↔ globalThis sc = false) ∧
  (processor_imports sc = ret TO →
   passStringToWasm0 (TC := TO) s wasm_malloc (Some wasm_realloc) g = Some (Ok ptr, g') →
   ∃ g'', getStringFromWasm0 (TC := TO) ptr (WASM_VECTOR_LEN g') g' = Some (Ok s, g'') ∧
          mem g'' = mem g').
Proof.
  intros Hs Hok. rewrite processor_imports_spec. split; [by destruct (globalThis sc)|].
  destruct (globalThis sc); [|done]. intros HT Hp. apply ret_inj in HT as <-.
  destruct (pass_string_spec (TC := polyfill_codec) s g Hs Hok) as (o & g1 & Hr & Hok1 & Ho).
  rewrite Hr in Hp. simplify_eq.
  destruct (get_string_spec (TC := polyfill_codec) s g' ptr _ Hs Hok1 Ho) as (g'' & ? & ? & _).
  by exists g''.
Qed.

Lemma worklet_uses_polyfill_witness :
  ∃ ptr g', passStringToWasm0 (TC := polyfill_codec) [0x41; 0xDC00]
              wasm_malloc (Some wasm_realloc) glue0 = Some (Ok ptr, g') ∧
  (processor_imports worklet_scope = raise ReferenceError ↔ globalThis worklet_scope = false) ∧
  ∃ g'', getStringFromWasm0 (TC := polyfill_codec) ptr (WASM_VECTOR_LEN g') g' =
           Some (Ok [0x41; 0xDC00], g'') ∧ mem g'' = mem g'.
Proof.
  eexists _, _. split; [vm_compute; reflexivity|].
  assert (Forall Utf8.unit_ok [0x41; 0xDC00]) as Hs by (repeat constructor; by vm_compute).
  assert (cache_ok glue0) as Hok by done.
  split.
  - exact (proj1 (worklet_uses_polyfill worklet_scope _ glue0 glue0 0 polyfill_codec Hs Hok)).
  - eapply (proj2 (worklet_uses_polyfill worklet_scope _ glue0 _ _ polyfill_codec Hs Hok)).
    + reflexivity.
    + vm_compute; reflexivity.
Defined.

(** C14: On a page, the octets [passStringToWasm0] leaves for Rust are UTF-8 for every string:
    they decode to the string with its unpaired surrogates replaced.  In the worklet they are
    UTF-8 exactly if the string is well-formed: the polyfill encodes an unpaired surrogate as
    three octets that no UTF-8 decoder accepts. *)
Theorem rust_gets_utf8 {St} `{!Allocator St, !AllocatorLaws St} (page : bool)
    (generation : generation) (sc : globals) (TO : TextOps) (s : jsstring) (g g' : glue St)
    (ptr : Z) :
  (if page then evaluate generation page_scope = ret TO else processor_imports sc = ret TO) →
  Forall Utf8.unit_ok s → cache_ok g →
  passStringToWasm0 (TC := TO) s wasm_malloc (Some wasm_realloc) g = Some (Ok ptr, g') →
  let octets := slice (bytes (mem g')) ptr (WASM_VECTOR_LEN g') in
  Standard.decode octets =
    if page then ret (Standard.toWellFormed s)
    else if Standard.isWellFormed s then ret s else raise TypeError.
Proof.
  intros HT Hs Hok Hp octets. destruct page.
  - rewrite evaluate_page in HT. apply ret_inj in HT as <-.
    destruct (pass_string_spec (TC := Standard.standard_codec) s g Hs Hok)
      as (o & g1 & Hr & _ & Ho).
    rewrite Hr in Hp. simplify_eq. destruct Ho as (_ & _ & Ho). unfold octets. rewrite Ho.
    by apply Standard.decode_encode.
  - rewrite processor_imports_spec in HT. destruct (globalThis sc); [|done].
    apply ret_inj in HT as <-.
    destruct (pass_string_spec (TC := polyfill_codec) s g Hs Hok) as (o & g1 & Hr & _ & Ho).
    rewrite Hr in Hp. simplify_eq. destruct Ho as (_ & _ & Ho). unfold octets. rewrite Ho.
    by apply Standard.decode_utf8_of.
Qed.

Lemma rust_gets_utf8_witness :
  ∃ ptr g', passStringToWasm0 (TC := polyfill_codec) [0x41; 0xDC00]
              wasm_malloc (Some wasm_realloc) glue0 = Some (Ok ptr, g') ∧
  Standard.decode (slice (bytes (mem g')) ptr (WASM_VECTOR_LEN g')) =
    if Standard.isWellFormed [0x41; 0xDC00] then ret [0x41; 0xDC00] else raise TypeError.
Proof.
  eexists _, _. split; [vm_compute; reflexivity|].
  eapply (rust_gets_utf8 false Older worklet_scope polyfill_codec [0x41; 0xDC00] glue0).
  - reflexivity.
  - repeat constructor; by vm_compute.
  - done.
  - vm_compute; reflexivity.
Defined.

(** C32: Where the scope has no TextDecoder, the newer generation of the glue fails when it is
    imported, with a ReferenceError; the older one is imported all the same: it hands strings
    to wasm as with a decoder, and throws an Error when it first has to read one, with the
    memory unchanged. *)
Theorem missing_decoder {St} `{!Allocator St} (sc : globals) (e : encoder) :
  TextDecoder sc = None → TextEncoder sc = Some e →
  evaluate Newer sc = raise ReferenceError ∧
  ∃ TO, evaluate Older sc = ret TO ∧
    (∀ s malloc realloc d, passStringToWasm0 (S := St) (TC := TO) s malloc realloc =
                           passStringToWasm0 (TC := ops d e) s malloc realloc) ∧
    (∀ (g : glue St) p n, cache_ok g → 0 ≤ n → ToUint32 p + n ≤ Zlen (bytes (mem g)) →
       ∃ g', getStringFromWasm0 (TC := TO) p n g = Some (Throw (JsErr PlainError), g') ∧
             mem g' = mem g ∧ cache_ok g').
Proof.
  intros Hd He. unfold evaluate, bare_decoder, guarded_decoder, guarded_encoder.
  rewrite Hd, He. split; [done|]. eexists. split; [reflexivity|]. split; [done|].
  intros. by apply getString_placeholder.
Qed.

Lemma missing_decoder_witness :
  let sc := Globals None (Some standard_encoder) true false false in
  evaluate Newer sc = raise ReferenceError ∧
  ∃ TO, evaluate Older sc = ret TO ∧
    (∀ s malloc realloc d, passStringToWasm0 (S := Z) (TC := TO) s malloc realloc =
                           passStringToWasm0 (TC := ops d standard_encoder) s malloc realloc) ∧
    (∀ (g : glue Z) p n, cache_ok g → 0 ≤ n → ToUint32 p + n ≤ Zlen (bytes (mem g)) →
       ∃ g', getStringFromWasm0 (TC := TO) p n g = Some (Throw (JsErr PlainError), g') ∧
             mem g' = mem g ∧ cache_ok g').
Proof. intros sc. by apply (missing_decoder sc standard_encoder). Defined.
