(* ===== verification/Loader.v ===== *)
(** * Loading the wasm module: [__wbg_load], [__wbg_init], [initSync]

    What the browser provides -- which constructors exist, what [fetch] and the functions of
    [WebAssembly] answer -- is the record [browser].  The repository has three versions of
    [__wbg_load], which differ in when they put an error down to the MIME type: [v1]
    (wasm-decoder, loopback, spectrum, prophecy), [v2] (wlan-swap) and [v3] (wlan,
    wlan_debug); and two of what [__wbg_init] and [initSync] make of their first parameter:
    [as_given] (wasm-decoder) and [parameters] (the others).  The state is that of the module:
    [wasm] and what [__wbg_finalize_init] resets; an asynchronous [__wbg_init] is a [begin] up
    to its first [await] and an [end_] when the module has been loaded.  The memory that is
    handed to the instance, and the cached views, are added in [Session]. *)

From Stdlib Require Import String.
From S2P Require Import Prelude.

(** ** Values *)

Record response : Type := Response {
  r_body : nat;                  (* names the octets *)
  r_ok : bool;
  r_type : string;
  r_content_type : option string
}.

(** Wasm modules and instances are named by numbers. *)
Record loaded : Type := Loaded { instance : nat; module : nat }.

Inductive error : Type := LinkError | CompileError | NetworkError | OtherError.

(** An argument that is not an object literal. *)
Inductive source : Type :=
  | Path (url : string) | Request (url : string) | URL (url : string)
  | Resp (r : response) | Octets (body : nat) | Module (m : nat)
  | Other.                       (* anything else *)

(** The argument of [initSync] and [__wbg_init]: nothing, a source, or an object literal
    with a source and a memory. *)
Inductive input : Type :=
  | Nothing | Source (s : source) | Literal (s : option source) (memory : option nat).

Record browser : Type := Browser {
  has_Response : bool; has_Request : bool; has_URL : bool; has_streaming : bool;
  fetch : string → outcome error response;
  instantiateStreaming : response → outcome error loaded;
  arrayBuffer : response → outcome error nat;
  instantiate_octets : nat → outcome error loaded;
  instantiate_module : nat → outcome error nat;     (* an Instance *)
  compile : nat → outcome error nat                 (* [new WebAssembly.Module] *)
}.

Inductive warning : Type := NotWasmMime (e : error) | DeprecatedParameters.

(** ** [__wbg_load] *)

Definition wasm_mime : string := "application/wasm".

(** Whether the error of [instantiateStreaming] is put down to the MIME type. *)
Definition fallback_v1 (r : response) : bool :=
  negb (bool_decide (r_content_type r = Some wasm_mime)).

(** [EXPECTED_RESPONSE_TYPES] *)
Definition EXPECTED_RESPONSE_TYPES : list string := ["basic"; "cors"; "default"].

Definition fallback_v2 (r : response) : bool :=
  let validResponse := r_ok r && existsb (String.eqb (r_type r)) EXPECTED_RESPONSE_TYPES in
  validResponse && negb (bool_decide (r_content_type r = Some wasm_mime)).

(** [expectedResponseType], a [switch] in the newest version. *)
Definition expectedResponseType (type : string) : bool :=
  if String.eqb type "basic" then true
  else if String.eqb type "cors" then true
  else if String.eqb type "default" then true
  else false.

Definition fallback_v3 (r : response) : bool :=
  let validResponse := r_ok r && expectedResponseType (r_type r) in
  validResponse && negb (bool_decide (r_content_type r = Some wasm_mime)).

Section load.
Context (B : browser) (fallback : response → bool).

Abbreviation L A := (M error (list warning) A).

Definition answer {A} (o : outcome error A) : L A := λ w, Some (o, w).
Definition warn (x : warning) : L unit := modify (λ w, w ++ [x]).

Definition from_octets (r : response) : L loaded :=
  bytes ← answer (arrayBuffer B r); answer (instantiate_octets B bytes).

Definition wbg_load (s : source) : L loaded :=
  match s with
  | Resp r =>
      if has_Response B then
        if has_streaming B
        then match instantiateStreaming B r with
             | Ok l => mret l
             | Throw e =>
                 if fallback r then _ ← warn (NotWasmMime e); from_octets r else throw e
             end
        else from_octets r
      else throw OtherError           (* [instantiate] refuses what is no buffer or module *)
  | Octets b => answer (instantiate_octets B b)
  | Module m => i ← answer (instantiate_module B m); mret (Loaded i m)
  | Path _ | Request _ | URL _ | Other => throw OtherError
  end.

(** [if (typeof x === 'string' || ...) { x = fetch(x); }] and [await x] *)
Definition resolve (s : source) : L source :=
  match s with
  | Path u => r ← answer (fetch B u); mret (Resp r)
  | Request u => if has_Request B then r ← answer (fetch B u); mret (Resp r) else mret s
  | URL u => if has_URL B then r ← answer (fetch B u); mret (Resp r) else mret s
  | s => mret s
  end.
End load.

(** ** The state of the module *)

Record glue_state : Type := GlueState {
  wasm : option nat;             (* the instance whose exports [wasm] is *)
  wbindgen_wasm_module : option nat;
  started : list nat;            (* instances whose [__wbindgen_start] ran, oldest first *)
  caches_null : bool;            (* the cached views are all [null] *)
  warnings : list warning
}.

Definition fresh : glue_state := GlueState None None [] true [].

(** [__wbg_finalize_init(instance, module)] *)
Definition finalize_init (l : loaded) (s : glue_state) : glue_state :=
  GlueState (Some (instance l)) (Some (module l)) (started s ++ [instance l]) true (warnings s).

Definition add_warnings (w : list warning) (s : glue_state) : glue_state :=
  GlueState (wasm s) (wbindgen_wasm_module s) (started s) (caches_null s) (warnings s ++ w).

(** The destructuring of the parameters, with the deprecation warning; an object literal
    that is taken as it is, is no module. *)
Definition parameters (i : input) : option source * list warning :=
  match i with
  | Nothing => (None, [])
  | Source s => (Some s, [DeprecatedParameters])
  | Literal s _ => (s, [])
  end.

Definition as_given (i : input) : option source * list warning :=
  match i with
  | Nothing => (None, [])
  | Source s => (Some s, [])
  | Literal _ _ => (Some Other, [])
  end.

Section init.
Context (B : browser) (fallback : response → bool).
Context (parameters : input → option source * list warning) (default_url : string).

(** [__wbg_init] up to its first [await]: either [wasm] is returned, or the load of a
    source is under way. *)
Inductive begun : Type := Already (i : nat) | Loading (s : source).

Definition begin (i : input) (s : glue_state) : begun * glue_state :=
  match wasm s with
  | Some w => (Already w, s)
  | None =>
      let '(p, w) := parameters i in
      (Loading (default (URL default_url) p), add_warnings w s)
  end.

(** [await __wbg_load(await module_or_path, imports)] *)
Definition fetch_and_load (src : source) : M error (list warning) loaded :=
  src ← resolve B src; wbg_load B fallback src.

(** The rest: resolve, load, finalize; the result is [wasm] or what is thrown. *)
Definition end_ (src : source) (s : glue_state) : outcome error nat * glue_state :=
  match fetch_and_load src [] with
  | Some (Ok l, w) => (Ok (instance l), finalize_init l (add_warnings w s))
  | Some (Throw e, w) => (Throw e, add_warnings w s)
  | None => (Throw OtherError, s)
  end.

(** A call that nothing interrupts. *)
Definition wbg_init (i : input) (s : glue_state) : outcome error nat * glue_state :=
  match begin i s with
  | (Already w, s) => (Ok w, s)
  | (Loading src, s) => end_ src s
  end.

(** [initSync(module, memory)] *)
Definition initSync (i : input) (s : glue_state) : outcome error nat * glue_state :=
  match wasm s with
  | Some w => (Ok w, s)
  | None =>
      let '(p, w) := parameters i in
      let s := add_warnings w s in
      let m := match p with
               | Some (Module m) => Ok m
               | Some (Octets b) => compile B b
               | _ => Throw OtherError
               end in
      match m with
      | Throw e => (Throw e, s)
      | Ok m =>
          match instantiate_module B m with
          | Throw e => (Throw e, s)
          | Ok n => (Ok n, finalize_init (Loaded n m) s)
          end
      end
  end.
End init.

(** ** Facts *)

Lemma fallback_v3_v2 r : fallback_v3 r = fallback_v2 r.
Proof.
  unfold fallback_v3, fallback_v2, expectedResponseType, EXPECTED_RESPONSE_TYPES.
  cbn [existsb]. by repeat case_match.
Qed.

Lemma fallback_v2_v1 r : fallback_v2 r = true → fallback_v1 r = true.
Proof. unfold fallback_v2, fallback_v1. by intros [_ ?]%andb_prop. Qed.

Lemma wbg_load_streaming B fallback r w :
  has_Response B = true → has_streaming B = true →
  wbg_load B fallback (Resp r) w =
  match instantiateStreaming B r with
  | Ok l => Some (Ok l, w)
  | Throw e => if fallback r then from_octets B r (w ++ [NotWasmMime e]) else Some (Throw e, w)
  end.
Proof.
  intros Hr Hs. unfold wbg_load. rewrite Hr, Hs.
  destruct (instantiateStreaming B r); [done|]. by destruct (fallback r).
Qed.

Lemma finalized_wasm l s : wasm (finalize_init l s) = Some (instance l).
Proof. done. Qed.

(** A browser that has everything, where streaming compilation of body 1 fails. *)
Definition sample_browser : browser := Browser true true true true
  (λ u, Ok (Response 0 true "basic" (Some wasm_mime)))
  (λ r, if (r_body r =? 0)%nat then Ok (Loaded 7 3) else Throw CompileError)
  (λ r, Ok (r_body r)) (λ b, Ok (Loaded 8 3)) (λ m, Ok 9%nat) (λ b, Ok 3%nat).

(** The guard at the top of [__wbg_init] does not cover calls that overlap: if a second
    call begins before the first one's load has ended and both succeed, two instances are
    started and [wasm] is the second one. *)
Lemma overlapping_loads (B1 B2 : browser) (fallback : response → bool)
    (params : input → option source * list warning) (url : string) (i j : input)
    (s s1 s2 s3 s4 : glue_state) (b1 b2 : source) (n1 n2 : nat) :
  wasm s = None →
  begin params url i s = (Loading b1, s1) → begin params url j s1 = (Loading b2, s2) →
  end_ B1 fallback b1 s2 = (Ok n1, s3) → end_ B2 fallback b2 s3 = (Ok n2, s4) →
  started s4 = started s ++ [n1; n2].
Proof.
  intros Hw H1 H2 H3 H4. unfold begin in H1, H2. rewrite Hw in H1.
  destruct (params i) as [p w]. injection H1 as _ <-. simpl in H2. rewrite Hw in H2.
  destruct (params j) as [p' w']. injection H2 as _ <-.
  unfold end_ in H3, H4.
  destruct (fetch_and_load B1 fallback b1 []) as [[[l3|e] w3]|]; [|done..]. injection H3 as <- <-.
  destruct (fetch_and_load B2 fallback b2 []) as [[[l4|e] w4]|]; [|done..]. injection H4 as <- <-.
  simpl. by rewrite <- (assoc_L (++)).
Qed.

(** ** Properties *)

(** The two versions of [__wbg_load] treat a response alike -- same result, same
    warnings -- except when streaming instantiation fails on a response that is not a valid
    one (an HTTP error, an opaque response) and has another MIME type: there the newer one
    reports the error, the older one tries to compile the body of the error page. *)
Theorem load_versions_differ_on_invalid (B : browser) (r : response) (w : list warning) :
  has_Response B = true → has_streaming B = true →
  let valid := r_ok r && existsb (String.eqb (r_type r)) EXPECTED_RESPONSE_TYPES in
  match instantiateStreaming B r with
  | Ok l => wbg_load B fallback_v1 (Resp r) w = Some (Ok l, w) ∧
            wbg_load B fallback_v2 (Resp r) w = Some (Ok l, w)
  | Throw e =>
      if valid || bool_decide (r_content_type r = Some wasm_mime)
      then wbg_load B fallback_v2 (Resp r) w = wbg_load B fallback_v1 (Resp r) w
      else wbg_load B fallback_v2 (Resp r) w = Some (Throw e, w) ∧
           wbg_load B fallback_v1 (Resp r) w = from_octets B r (w ++ [NotWasmMime e])
  end.
Proof.
  intros Hr Hs valid. rewrite !wbg_load_streaming by done.
  destruct (instantiateStreaming B r) as [l|e]; [done|].
  unfold fallback_v1, fallback_v2. fold valid.
  by destruct valid, (bool_decide _).
Qed.

Lemma load_versions_differ_on_invalid_witness :
  let r := Response 1 false "basic" (Some "text/html") in
  wbg_load sample_browser fallback_v2 (Resp r) [] = Some (Throw CompileError, []) ∧
  wbg_load sample_browser fallback_v1 (Resp r) [] =
    from_octets sample_browser r ([] ++ [NotWasmMime CompileError]).
Proof.
  intros r. exact (load_versions_differ_on_invalid sample_browser r [] eq_refl eq_refl).
Defined.

(** Initialisation is idempotent: once an [__wbg_init] has succeeded, every further
    [__wbg_init] or [initSync], with whatever argument, returns the same instance, and
    changes nothing -- no second instance is started and no cache is lost. *)
Theorem init_idempotent (B : browser) (fallback : response → bool)
    (params : input → option source * list warning) (url : string) (i j : input)
    (s s' : glue_state) (n : nat) :
  wbg_init B fallback params url i s = (Ok n, s') →
  wasm s' = Some n ∧
  wbg_init B fallback params url j s' = (Ok n, s') ∧ initSync B params j s' = (Ok n, s') ∧
  (wasm s = None → started s' = started s ++ [n] ∧ caches_null s' = true).
Proof.
  unfold wbg_init, begin, initSync. destruct (wasm s) as [w|] eqn:Ew.
  { intros [= <- <-]. by rewrite Ew. }
  destruct (params i) as [p w]. unfold end_.
  destruct (fetch_and_load B fallback _ []) as [[[l|e] w']|]; [|done..]. intros [= <- <-]. done.
Qed.

Lemma init_idempotent_witness :
  ∃ s', wbg_init sample_browser fallback_v2 parameters "frontend_bg.wasm" Nothing fresh = (Ok 7%nat, s') ∧
  wasm s' = Some 7%nat ∧
  wbg_init sample_browser fallback_v2 parameters "frontend_bg.wasm" (Source (Module 3)) s' = (Ok 7%nat, s') ∧
  initSync sample_browser parameters (Source (Module 3)) s' = (Ok 7%nat, s') ∧
  (wasm fresh = None → started s' = started fresh ++ [7%nat] ∧ caches_null s' = true).
Proof.
  eexists. split; [vm_compute; reflexivity|].
  apply (init_idempotent sample_browser fallback_v2 parameters "frontend_bg.wasm" Nothing (Source (Module 3))
           fresh).
  vm_compute; reflexivity.
Defined.

Lemma end_wasm B fallback b s n s' : end_ B fallback b s = (Ok n, s') → wasm s' = Some n.
Proof. unfold end_. destruct (fetch_and_load B fallback b []) as [[[l|e] w]|]; by intros [= <- <-]. Qed.

(** The same for one browser: the instance which the first caller holds is no longer the
    one the glue works on. *)
Theorem overlapping_inits_start_twice (B : browser) (fallback : response → bool)
    (params : input → option source * list warning) (url : string) (i j : input)
    (s s1 s2 s3 s4 : glue_state) (b1 b2 : source) (n1 n2 : nat) :
  wasm s = None →
  begin params url i s = (Loading b1, s1) → begin params url j s1 = (Loading b2, s2) →
  end_ B fallback b1 s2 = (Ok n1, s3) → end_ B fallback b2 s3 = (Ok n2, s4) →
  started s4 = started s ++ [n1; n2] ∧ wasm s3 = Some n1 ∧ wasm s4 = Some n2.
Proof. intros. split_and!; [by eapply overlapping_loads|by eapply end_wasm..]. Qed.
