(* ===== verification/Session.v ===== *)
(** * A page with a glue module: loading, memories and cached views together

    [Loader] says which instance [wasm] is, [Memory] what the glue does with one memory.
    Here both meet: every call of [__wbg_init] or [initSync] gives the instance it creates a
    memory ([__wbg_init_memory]), which the instance exports again as [wasm.memory] -- so the
    wasm modules of the repository are linked, all seven import [memory] -- and
    [__wbg_finalize_init] resets the cached views of the module.  What a module does of its
    own -- the version of [__wbg_load], the views it resets, its default URL, what it makes
    of its parameters -- is a [loading], of which each front end's file defines one. *)

From Stdlib Require Import String.
From S2P Require Import Prelude TextCodec Memory Loader.

(** ** The state *)

(** [control] is the state of [Loader] (whose [caches_null] is not used), [memories] the
    [WebAssembly.Memory] objects of the page in the order of their creation, [exported] the
    memory of each instance; [views] and [veclen] are the module's other variables. *)
Record session (S : Type) : Type := Session {
  control : glue_state;
  memories : list (memory S);
  exported : nat → option nat;
  views : cache → option view;
  veclen : Z
}.
Arguments Session {S}.
Arguments control {S}.
Arguments memories {S}.
Arguments exported {S}.
Arguments views {S}.
Arguments veclen {S}.

Section setters.
Context {S : Type}.
Implicit Types s : session S.

Definition set_control c (s : session S) : session S :=
  Session c (memories s) (exported s) (views s) (veclen s).
Definition set_memories ms (s : session S) : session S :=
  Session (control s) ms (exported s) (views s) (veclen s).
Definition set_exported n k (s : session S) : session S :=
  Session (control s) (memories s) (<[n := Some k]> (exported s)) (views s) (veclen s).
Definition set_views v (s : session S) : session S :=
  Session (control s) (memories s) (exported s) v (veclen s).

(** The memory [wasm.memory] is, as an index. *)
Definition current s : option nat := n ← wasm (control s); exported s n.

(** What the glue's helpers work on: the memory of [wasm], whichever instance calls them. *)
Definition glue_in s : option (glue S) :=
  k ← current s; m ← memories s !! k; Some (Glue m (views s) (veclen s)).

Definition put_glue (g : glue S) s : session S :=
  match current s with
  | Some k => Session (control s) (<[k := mem g]> (memories s)) (exported s) (caches g)
                (WASM_VECTOR_LEN g)
  | None => s
  end.

(** Code of the glue module; [wasm] is [undefined] before the module is loaded. *)
Definition run_glue {A} (m : G S A) s : option (outcome exn A * session S) :=
  match glue_in s with
  | Some g =>
      match m g with
      | Some (o, g') => Some (o, put_glue g' s)
      | None => None
      end
  | None => Some (Throw (JsErr TypeError), s)
  end.
End setters.

(** ** What a module's loading consists of *)

Record loading : Type := Loading_of {
  ld_load : browser → source → M error (list warning) loaded;
  ld_parameters : input → option source * list warning;
  ld_memory : input → option nat → option nat;   (* the parameter [memory] *)
  ld_url : string;
  ld_views : list cache                           (* reset by [__wbg_finalize_init] *)
}.

(** [memory] after the destructuring of the first argument, or as it is given. *)
Definition memory_param (i : input) (memory : option nat) : option nat :=
  match i with Literal _ m => m | _ => memory end.
Definition memory_as_given (i : input) (memory : option nat) : option nat := memory.

(** [cachedX = null; ...] *)
Fixpoint reset (cs : list cache) (v : cache → option view) : cache → option view :=
  match cs with [] => v | c :: cs => reset cs (<[c := None]> v) end.

Section loading.
Context {S : Type} (heap0 : S) (L : loading) (B : browser).
Implicit Types s : session S.

(** [new WebAssembly.Memory({initial: 512, maximum: 65536})] *)
Definition new_memory : memory S := Mem (replicate (Z.to_nat (512 * 65536)) 0) 0 heap0.

(** [imports.wbg.memory = memory || new WebAssembly.Memory(...)]: the memory's index. *)
Definition init_memory (memory : option nat) s : nat * session S :=
  match memory with
  | Some k => (k, s)
  | None => (length (memories s), set_memories (memories s ++ [new_memory]) s)
  end.

(** [__wbg_finalize_init(instance, module)] up to the call of [__wbindgen_start], for an
    instance that imports the memory [k]. *)
Definition finalize (l : loaded) (k : nat) s : session S :=
  set_views (reset (ld_views L) (views s))
    (set_exported (instance l) k (set_control (finalize_init l (control s)) s)).

(** A call of [__wbg_init] that waits for its module. *)
Record pending : Type := Pending { p_source : source; p_memory : nat }.

(** [__wbg_init(module_or_path, memory)] up to its [await]. *)
Definition init_begin (i : input) (memory : option nat) s : (nat + pending) * session S :=
  match begin (ld_parameters L) (ld_url L) i (control s) with
  | (Already w, c) => (inl w, set_control c s)
  | (Loading src, c) =>
      let '(k, s) := init_memory (ld_memory L i memory) (set_control c s) in
      (inr (Pending src k), s)
  end.

(** ... and what follows it. *)
Definition init_end (p : pending) s : outcome error nat * session S :=
  match (src ← resolve B (p_source p); ld_load L B src) [] with
  | Some (Ok l, w) =>
      (Ok (instance l), finalize l (p_memory p) (set_control (add_warnings w (control s)) s))
  | Some (Throw e, w) => (Throw e, set_control (add_warnings w (control s)) s)
  | None => (Throw OtherError, s)
  end.

(** A call of [__wbg_init] that nothing interrupts. *)
Definition init_call (i : input) (memory : option nat) s : outcome error nat * session S :=
  match init_begin i memory s with
  | (inl w, s) => (Ok w, s)
  | (inr p, s) => init_end p s
  end.

(** [initSync(module, memory)] *)
Definition init_sync (i : input) (memory : option nat) s : outcome error nat * session S :=
  match wasm (control s) with
  | Some w => (Ok w, s)
  | None =>
      let '(p, w) := ld_parameters L i in
      let '(k, s) := init_memory (ld_memory L i memory)
                       (set_control (add_warnings w (control s)) s) in
      let m := match p with
               | Some (Module m) => Ok m
               | Some (Octets b) => compile B b
               | _ => Throw OtherError
               end in
      match m with
      | Throw e => (Throw e, s)
      | Ok m =>
          match instantiate_module B m with
          | Throw e => (Throw e, s)
          | Ok n => (Ok n, finalize (Loaded n m) k s)
          end
      end
  end.
End loading.

(** ** What happens to a page *)

(** Wasm code at work on a memory: it may write to it, and grow it. *)
Definition memory_step {S} (m m' : memory S) : Prop :=
  (gen m ≤ gen m')%nat ∧ Zlen (bytes m) ≤ Zlen (bytes m') ∧
  (gen m = gen m' → Zlen (bytes m) = Zlen (bytes m')).

Section page.
Context {S : Type} (heap0 : S) (L : loading).
(** What running the module's code can do to its variables and its memory. *)
Context (code : glue S → glue S → Prop).
Implicit Types (s : session S) (ps : list pending).

(** A memory that a caller passes is one of the page. *)
Definition valid_memory (k : option nat) s : Prop :=
  match k with Some k => (k < length (memories s))%nat | None => True end.

(** A page: the session and the calls of [__wbg_init] that wait.  The browser may answer
    differently every time; an instance it creates is a new one. *)
Inductive page_step : session S * list pending → session S * list pending → Prop :=
  | page_already i memory s ps w s' :
      init_begin heap0 L i memory s = (inl w, s') → page_step (s, ps) (s', ps)
  | page_begin i memory s ps p s' :
      valid_memory (ld_memory L i memory) s →
      init_begin heap0 L i memory s = (inr p, s') → page_step (s, ps) (s', p :: ps)
  | page_end B p s ps1 ps2 o s' :
      init_end L B p s = (o, s') →
      page_step (s, ps1 ++ p :: ps2) (s', ps1 ++ ps2)
  | page_sync B i memory s ps o s' :
      valid_memory (ld_memory L i memory) s →
      init_sync heap0 L B i memory s = (o, s') → page_step (s, ps) (s', ps)
  | page_wasm k m m' s ps :
      memories s !! k = Some m → memory_step m m' →
      page_step (s, ps) (set_memories (<[k := m']> (memories s)) s, ps)
  | page_code g g' s ps :
      glue_in s = Some g → code g g' → page_step (s, ps) (put_glue g' s, ps).

(** Before anything is loaded; the page may have made memories of its own. *)
Definition page0 (ms : list (memory S)) : session S * list pending :=
  (Session fresh ms (λ _, None) (λ _, None) 0, []).

(** *** The invariant *)

(** Views that the module does not declare do not exist. *)
Definition undeclared (v : cache → option view) : Prop := ∀ c, c ∉ ld_views L → v c = None.

Record in_order (x : session S * list pending) : Prop := InOrder {
  io_undeclared : undeclared (views x.1);
  io_views g : glue_in x.1 = Some g → cache_ok g;
  io_unloaded : wasm (control x.1) = None → ∀ c, views x.1 c = None;
  io_loaded n : wasm (control x.1) = Some n →
    ∃ k, exported x.1 n = Some k ∧ (k < length (memories x.1))%nat;
  io_waiting : Forall (λ p, (p_memory p < length (memories x.1))%nat) x.2
}.

Lemma page0_in_order ms : in_order (page0 ms).
Proof. split; done. Qed.

Lemma reset_spec cs v c : reset cs v c = if bool_decide (c ∈ cs) then None else v c.
Proof.
  revert v. induction cs as [|c' cs IH]; intros v; simpl; [done|]. rewrite IH.
  case_bool_decide as H1; case_bool_decide as H2; try done.
  - destruct H2. by right.
  - inv H2; [by rewrite fn_lookup_insert|done].
  - rewrite fn_lookup_insert_ne; [done|]. intros ->. apply H2. by left.
Qed.

Lemma reset_undeclared v : undeclared v → ∀ c, reset (ld_views L) v c = None.
Proof. intros Hu c. rewrite reset_spec. case_bool_decide; auto. Qed.

Lemma glue_in_Some s g :
  glue_in s = Some g ↔
  ∃ k m, current s = Some k ∧ memories s !! k = Some m ∧ g = Glue m (views s) (veclen s).
Proof.
  unfold glue_in. split.
  - destruct (current s) as [k|]; simpl; [|done].
    destruct (memories s !! k) as [m|] eqn:E; simpl; [|done]. intros [= <-]. eauto.
  - intros (k & m & -> & Hm & ->). simpl. by rewrite Hm.
Qed.

(** Views are in order if there are none. *)
Lemma no_views_ok s g : (∀ c, views s c = None) → glue_in s = Some g → cache_ok g.
Proof.
  intros Hv (k & m & _ & _ & ->)%glue_in_Some c v. simpl. by rewrite Hv.
Qed.

Lemma set_control_in_order c s ps :
  wasm c = wasm (control s) → in_order (s, ps) → in_order (set_control c s, ps).
Proof.
  intros Hw [Hu Hv Hn Hl Hp]. split; simpl in *; [done| |by rewrite Hw|by rewrite Hw|done].
  intros g Hg. apply Hv. rewrite <- Hg. unfold glue_in, current. simpl. by rewrite Hw.
Qed.

Lemma init_memory_in_order k s ps k' s' :
  valid_memory k s → init_memory heap0 k s = (k', s') → in_order (s, ps) →
  in_order (s', ps) ∧ (k' < length (memories s'))%nat ∧ control s' = control s.
Proof.
  intros Hk. destruct k as [k|]; simpl; [by intros [= <- <-]|].
  intros [= <- <-] [Hu Hv Hn Hl Hp].
  assert (Hlen : length (memories s ++ [new_memory heap0]) = Datatypes.S (length (memories s)))
    by (rewrite length_app; simpl; lia).
  simpl in *. split_and!; [|simpl; lia|done]. split; simpl; try done.
  - intros g Hg. apply Hv. apply glue_in_Some in Hg as (k & m & Hc & Hm & ->).
    apply glue_in_Some. exists k, m. split_and!; try done.
    unfold current in Hc. simpl in Hc. destruct (wasm (control s)) as [n|] eqn:Hw; [|done].
    destruct (Hl n eq_refl) as (k0 & Hk0 & Hlt). simpl in Hc. rewrite Hk0 in Hc.
    simplify_eq. simpl in Hm. by rewrite lookup_app_l in Hm.
  - intros n Hw. destruct (Hl n Hw) as (k & ? & ?). exists k. split; [done|lia].
  - eapply List.Forall_impl, Hp. simpl. intros. lia.
Qed.

Lemma finalize_in_order l k s ps :
  (k < length (memories s))%nat → in_order (s, ps) → in_order (finalize L l k s, ps).
Proof.
  intros Hk [Hu Hv Hn Hl Hp]. pose proof (reset_undeclared _ Hu) as Hr.
  split; simpl; [by intros c _|intros g; by apply no_views_ok|done| |done].
  intros n [= <-]. exists k. split; [|done]. by rewrite fn_lookup_insert.
Qed.

Lemma put_glue_in_order g g' s ps :
  glue_in s = Some g → cache_ok g' → undeclared (caches g') →
  in_order (s, ps) → in_order (put_glue g' s, ps).
Proof.
  intros (k & m & Hc & Hm & ->)%glue_in_Some Hok Hu' [Hu Hv Hn Hl Hp].
  unfold put_glue. rewrite Hc. unfold current in Hc.
  destruct (wasm (control s)) as [n|] eqn:Hw; [|done]. simpl in Hc, Hl.
  split; simpl; [done| |congruence| |by rewrite length_insert].
  - intros g (k' & m' & Hc' & Hm' & ->)%glue_in_Some. unfold current in Hc'.
    simpl in *. rewrite Hw in Hc'. simpl in Hc'. rewrite Hc in Hc'. simplify_eq.
    rewrite list_lookup_insert_eq in Hm' by (by eapply lookup_lt_Some).
    simplify_eq. by destruct g'.
  - rewrite length_insert. exact Hl.
Qed.

Lemma wasm_in_order k m m' s ps :
  memories s !! k = Some m → memory_step m m' → in_order (s, ps) →
  in_order (set_memories (<[k := m']> (memories s)) s, ps).
Proof.
  intros Hm Hs [Hu Hv Hn Hl Hp]. split; simpl in *; try done.
  - intros g (k' & m2 & Hc & Hm2 & ->)%glue_in_Some. simpl in *.
    destruct (decide (k = k')) as [<-|Hne].
    + rewrite list_lookup_insert_eq in Hm2 by (by eapply lookup_lt_Some). simplify_eq.
      eapply (cache_ok_wasm_step (Glue m (views s) (veclen s))); [|apply Hv, glue_in_Some; eauto].
      destruct Hs as (? & ? & ?). by repeat split.
    + rewrite list_lookup_insert_ne in Hm2 by done. apply Hv, glue_in_Some. eauto.
  - by rewrite length_insert.
  - by rewrite length_insert.
Qed.

Context (Hcode : ∀ g g', code g g' → cache_ok g → undeclared (caches g) →
                         cache_ok g' ∧ undeclared (caches g')).

Lemma step_in_order x y : in_order x → page_step x y → in_order y.
Proof.
  intros Hx Hs. destruct Hs as [i memory s ps w s' Hb|i memory s ps p s' Hk Hb
    |B p s ps1 ps2 o s' He|B i memory s ps o s' Hk Hb|k m m' s ps Hm Hs|g g' s ps Hg Hc].
  - unfold init_begin, begin in Hb. destruct (wasm (control s)) eqn:Hw.
    + injection Hb as _ <-. by apply set_control_in_order.
    + destruct (ld_parameters L i) as [q ws].
      by destruct (init_memory heap0 _ _) as [k s1].
  - unfold init_begin, begin in Hb. destruct (wasm (control s)) eqn:Hw; [done|].
    destruct (ld_parameters L i) as [q ws].
    destruct (init_memory heap0 _ _) as [k s1] eqn:Em. injection Hb as <- <-.
    eapply init_memory_in_order in Em as (Hx1 & Hlt & _);
      [|exact Hk|by apply (set_control_in_order (add_warnings ws (control s)) s ps)].
    destruct Hx1. split; try done. by constructor.
  - destruct Hx as [Hu Hv Hn Hl Hp]. simpl in *. apply Forall_app in Hp as [Hp1 Hp2].
    inv Hp2 as [|?? Hp Hp3].
    assert (Hx : in_order (s, ps1 ++ ps2)) by (split; try done; by apply Forall_app).
    unfold init_end in He.
    destruct ((src ← resolve B (p_source p); ld_load L B src) []) as [[[l|e] w]|];
      injection He as <- <-.
    + apply finalize_in_order; [done|]. by apply set_control_in_order.
    + by apply set_control_in_order.
    + done.
  - unfold init_sync in Hb. destruct (wasm (control s)) eqn:Hw; [by injection Hb as _ <-|].
    destruct (ld_parameters L i) as [q ws].
    destruct (init_memory heap0 _ _) as [k s1] eqn:Em.
    eapply init_memory_in_order in Em as (Hx1 & Hlt & _);
      [|exact Hk|by apply (set_control_in_order (add_warnings ws (control s)) s ps)].
    repeat case_match; simplify_eq; try done; by apply finalize_in_order.
  - by apply (wasm_in_order k m m').
  - destruct (Hcode _ _ Hc) as [Hok Hu'].
    + by eapply io_views.
    + apply glue_in_Some in Hg as (k & m & _ & _ & ->). apply Hx.
    + by apply (put_glue_in_order g).
Qed.

Lemma reachable_in_order ms x : rtc page_step (page0 ms) x → in_order x.
Proof.
  intros Hr. assert (H0 := page0_in_order ms). induction Hr as [|x y z Hs _ IH]; [done|].
  apply IH. by eapply step_in_order.
Qed.
End page.

(** ** The session and [Loader] *)

(** What happens to [wasm] and its kin is what [Loader] says. *)
Section control.
Context {S : Type} (heap0 : S) (L : loading).
Implicit Types s : session S.

Lemma init_memory_control k s : control (init_memory heap0 k s).2 = control s.
Proof. by destruct k. Qed.

Lemma init_begin_control i memory s p s' :
  init_begin heap0 L i memory s = (inr p, s') →
  begin (ld_parameters L) (ld_url L) i (control s) = (Loading (p_source p), control s').
Proof.
  unfold init_begin. destruct (begin _ _ _ _) as [[w|src] c]; [done|].
  pose proof (init_memory_control (ld_memory L i memory) (set_control c s)) as Hc.
  destruct (init_memory _ _ _) as [k s1]. intros [= <- <-]. simpl in Hc. by rewrite Hc.
Qed.

Lemma init_end_control fallback B p s o s' :
  ld_load L = (λ B, wbg_load B fallback) → init_end L B p s = (o, s') →
  end_ B fallback (p_source p) (control s) = (o, control s').
Proof.
  intros HL. unfold init_end, end_, fetch_and_load. rewrite HL.
  destruct (mbind (M := M error (list warning)) _ _ _) as [[[l|e] w]|]; by intros [= <- <-].
Qed.

Lemma init_end_ok B p s n s' :
  init_end L B p s = (Ok n, s') →
  exported s' = <[n := Some (p_memory p)]> (exported s) ∧ wasm (control s') = Some n ∧
  views s' = reset (ld_views L) (views s) ∧ memories s' = memories s ∧ veclen s' = veclen s.
Proof.
  unfold init_end. destruct (mbind (M := M error (list warning)) _ _ _) as [[[l|e] w]|];
    by intros [= <- <-].
Qed.

Lemma init_begin_memory i memory s p s' :
  init_begin heap0 L i memory s = (inr p, s') →
  exported s' = exported s ∧ (length (memories s) ≤ length (memories s'))%nat ∧
  match ld_memory L i memory with
  | Some k => p_memory p = k
  | None => p_memory p = length (memories s) ∧ (p_memory p < length (memories s'))%nat
  end.
Proof.
  unfold init_begin. destruct (begin _ _ _ _) as [[w|src] c]; [done|].
  destruct (ld_memory L i memory) as [k|]; intros [= <- <-]; split_and!; try done;
    simpl; rewrite length_app; simpl; lia.
Qed.
End control.

(** ** Properties *)

(** Two calls of [__wbg_init] that overlap leave a page in which the first instance is
    running but cut off: [wasm] is the second instance, and whatever the glue does -- also
    in imports that the first instance calls -- it does to the second one's memory, which
    is another object unless the callers passed the same [memory]. *)
Theorem overlapping_inits_swap_memory {St} (heap0 : St) (L : loading)
    (fallback : response → bool) (i j : input) (mi mj : option nat) (B1 B2 : browser)
    (s s1 s2 s3 s4 : session St) (p1 p2 : pending) (n1 n2 : nat) :
  ld_load L = (λ B, wbg_load B fallback) → wasm (control s) = None →
  init_begin heap0 L i mi s = (inr p1, s1) → init_begin heap0 L j mj s1 = (inr p2, s2) →
  init_end L B1 p1 s2 = (Ok n1, s3) → init_end L B2 p2 s3 = (Ok n2, s4) → n1 ≠ n2 →
  started (control s4) = started (control s) ++ [n1; n2] ∧
  exported s4 n1 = Some (p_memory p1) ∧ current s4 = Some (p_memory p2) ∧
  (∀ g, glue_in s4 = Some g → memories s4 !! p_memory p2 = Some (mem g)) ∧
  (ld_memory L i mi = None → ld_memory L j mj = None → p_memory p1 ≠ p_memory p2).
Proof.
  intros HL Hw Hb1 Hb2 He1 He2 Hne.
  destruct (init_end_ok L _ _ _ _ _ He1) as (Hx3 & _).
  destruct (init_end_ok L _ _ _ _ _ He2) as (Hx4 & Hw4 & _).
  destruct (init_begin_memory heap0 L _ _ _ _ _ Hb1) as (_ & Hl1 & Hm1).
  destruct (init_begin_memory heap0 L _ _ _ _ _ Hb2) as (_ & _ & Hm2).
  assert (Hc : current s4 = Some (p_memory p2)).
  { unfold current. rewrite Hw4, Hx4. simpl. by rewrite fn_lookup_insert. }
  split_and!; [|by rewrite Hx4, fn_lookup_insert_ne, Hx3, fn_lookup_insert|done| |].
  - eapply (overlapping_loads B1 B2 fallback (ld_parameters L) (ld_url L) i j);
      eauto using init_begin_control, init_end_control.
  - intros g (k & m & Hk & Hm & ->)%glue_in_Some. rewrite Hc in Hk. by simplify_eq.
  - intros Hi Hj. rewrite Hi in Hm1. rewrite Hj in Hm2. lia.
Qed.

Lemma overlapping_inits_swap_memory_witness :
  let L := Loading_of (λ B, wbg_load B fallback_v2) parameters memory_param "frontend_bg.wasm" [DV; U8] in
  let s := (page0 [Mem [1; 2] 0 (); Mem [3; 4] 0 ()]).1 in
  ∃ p1 s1 p2 s2 s3 s4,
    init_begin () L Nothing (Some 0%nat) s = (inr p1, s1) ∧
    init_begin () L (Source (Module 3)) (Some 1%nat) s1 = (inr p2, s2) ∧
    init_end L sample_browser p1 s2 = (Ok 7%nat, s3) ∧
    init_end L sample_browser p2 s3 = (Ok 9%nat, s4) ∧
    started (control s4) = started (control s) ++ [7%nat; 9%nat] ∧
    exported s4 7%nat = Some (p_memory p1) ∧ current s4 = Some (p_memory p2) ∧
    (∀ g, glue_in s4 = Some g → memories s4 !! p_memory p2 = Some (mem g)) ∧
    (ld_memory L Nothing (Some 0%nat) = None → ld_memory L (Source (Module 3)) (Some 1%nat) = None →
     p_memory p1 ≠ p_memory p2).
Proof.
  intros L s. eexists _, _, _, _, _, _.
  do 4 (split; [vm_compute; reflexivity|]).
  eapply (overlapping_inits_swap_memory () L fallback_v2 Nothing (Source (Module 3)) (Some 0%nat)
            (Some 1%nat) sample_browser sample_browser s).
  - reflexivity.
  - reflexivity.
  - vm_compute; reflexivity.
  - vm_compute; reflexivity.
  - vm_compute; reflexivity.
  - vm_compute; reflexivity.
  - done.
Defined.
