(* ===== verification/Closure.v ===== *)
(** * Closures handed from wasm to JavaScript

    [makeMutClosure] wraps a wasm closure environment (pointer [a], vtable [b]) in a
    JavaScript function [real].  The environment must be destroyed exactly once: by the
    wasm side when it drops its handle, by the last invocation to end if the handle was
    dropped meanwhile, or by the FinalizationRegistry [CLOSURE_DTORS] when [real] is
    garbage.  Two versions of the code are in the repository: [original] (prophecy,
    spectrum, wgpu, wlan-swap), where [__wbindgen_cb_drop] reads [real.original], and
    [unref] (wlan, wlan_debug), with [real._wbg_cb_unref].

    The destructor is wasm code: while it runs, it may call anything, also [real] again, and
    it may throw.  So its call has a beginning and an end here, and the statements that
    follow it in the source are executed at its end, if it returns. *)

From S2P Require Import Prelude.

(** The object [state = { a, b, cnt, dtor }]; [dtor] never changes. *)
Record cstate : Type := CS { a : Z; b : Z; cnt : Z }.

(** What happens to the environment: the shim [f] runs with it, the destructor export is
    called, or [__wbindgen_cb_drop] returns [true], which makes the caller destroy it. *)
Inductive effect : Type := Shim (a b : Z) | Dtor (a b : Z) | Handed (a : Z).

(** The part in which the versions differ: leaving [real] with the saved [a], and dropping
    the wasm side's handle, each up to the call of the destructor, if there is one; and what
    is done to [state] when the destructor has returned, before
    [CLOSURE_DTORS.unregister(state)]. *)
Record version : Type := Version {
  v_exit : Z → cstate → cstate * list effect;
  v_drop : cstate → cstate * list effect;
  v_done : cstate → cstate
}.

Module Original.
(** The [finally] block of [real]. *)
Definition exit (saved : Z) (s : cstate) : cstate * list effect :=
  let cnt := cnt s - 1 in
  if cnt =? 0 then (CS (a s) (b s) cnt, [Dtor saved (b s)])
  else (CS saved (b s) cnt, []).

(** [__wbindgen_cb_drop] *)
Definition cb_drop (s : cstate) : cstate * list effect :=
  if cnt s =? 1 then (CS 0 (b s) (cnt s - 1), [Handed (a s)])
  else (CS (a s) (b s) (cnt s - 1), []).

Definition version : version := Version exit cb_drop (λ s, s).
End Original.

Module Unref.
(** [real._wbg_cb_unref]: [state.a = 0] comes after the call of the destructor. *)
Definition cb_unref (s : cstate) : cstate * list effect :=
  let cnt := cnt s - 1 in
  (CS (a s) (b s) cnt, if cnt =? 0 then [Dtor (a s) (b s)] else []).
Definition cb_unref_done (s : cstate) : cstate := CS 0 (b s) (cnt s).

(** The [finally] block of [real]. *)
Definition exit (saved : Z) (s : cstate) : cstate * list effect :=
  cb_unref (CS saved (b s) (cnt s)).

Definition version : version := Version exit cb_unref cb_unref_done.
End Unref.

(** ** The life of one closure *)

(** What is going on with a closure: an invocation with its [const a], or its destructor. *)
Inductive frame : Type := Running (saved : Z) | Destroying.

Record conf : Type := Conf {
  st : cstate;
  frames : list frame;   (* innermost first *)
  registered : bool;     (* [state] is in [CLOSURE_DTORS] *)
  held : bool;           (* the wasm side still holds its handle *)
  dropped : bool;        (* it gave the handle up with a drop (not with a forget) *)
  alive : bool;          (* [real] has not been collected *)
  rightful : bool;       (* wasm gave its handle up only while it held it *)
  calm : bool;           (* nothing happened while the destructor ran, and it returned *)
  log : list effect      (* newest first *)
}.

(** [makeMutClosure(arg0, arg1, dtor, f)]; where the engine has no FinalizationRegistry,
    [CLOSURE_DTORS.register] does nothing. *)
Definition makeMutClosure (has_registry : bool) (arg0 arg1 : Z) : conf :=
  Conf (CS arg0 arg1 1) [] has_registry true false true true true [].

Inductive action : Type :=
  | Enter        (* JavaScript calls [real]; the shim runs *)
  | Exit         (* the innermost invocation returns or throws *)
  | Drop         (* the wasm side drops its handle *)
  | DtorReturns  (* the innermost call of the destructor ends ... *)
  | DtorThrows   (* ... in one way or the other *)
  | Forget       (* the wasm side leaks its handle *)
  | Collect.     (* [real] is garbage; the registry's callback runs if registered *)

(** The entry of [real]: count, take [a] out of the state, call [f(a, state.b, ...)]. *)
Definition enter (s : cstate) : cstate * Z := (CS 0 (b s) (cnt s + 1), a s).

(** Whether the destructor is called now; and that it is running. *)
Definition destroys (es : list effect) : bool :=
  match es with Dtor _ _ :: _ => true | _ => false end.
Definition begin (es : list effect) (fs : list frame) : list frame :=
  if destroys es then Destroying :: fs else fs.

(** The destructor is the innermost thing that runs, so all it may calmly do is return. *)
Definition top_destroying (fs : list frame) : bool :=
  match fs with Destroying :: _ => true | _ => false end.
Definition destroying (c : conf) : bool := top_destroying (frames c).

Definition act (v : version) (x : action) (c : conf) : option conf :=
  let 'Conf s fs reg h d al rt cm l := c in
  let cm' := cm && negb (top_destroying fs) in
  match x with
  | Enter =>
      if al then
        let '(s', saved) := enter s in
        Some (Conf s' (Running saved :: fs) reg h d al rt cm' (Shim saved (b s) :: l))
      else None
  | Exit =>
      match fs with
      | Running saved :: fs =>
          let '(s', es) := v_exit v saved s in
          Some (Conf s' (begin es fs) reg h d al rt cm' (es ++ l))
      | _ => None
      end
  | Drop =>
      let '(s', es) := v_drop v s in
      Some (Conf s' (begin es fs) reg false true al (rt && h) cm' (es ++ l))
  | DtorReturns =>
      match fs with
      | Destroying :: fs => Some (Conf (v_done v s) fs false h d al rt cm l)
      | _ => None
      end
  | DtorThrows =>
      match fs with
      | Destroying :: fs => Some (Conf s fs reg h d al rt cm' l)
      | _ => None
      end
  | Forget => if h then Some (Conf s fs reg false d al rt cm' l) else None
  | Collect =>
      match fs, h, al with
      | [], false, true =>
          Some (Conf s fs false h d false rt cm' ((if reg then [Dtor (a s) (b s)] else []) ++ l))
      | _, _, _ => None
      end
  end.

(** The same transitions as total functions, with the effects apart: entering, leaving with
    the saved [a], the wasm side's drop, and the two ends of the destructor. *)
Definition enter_life (c : conf) : conf :=
  let 'Conf s fs reg h d al rt cm l := c in
  let '(s', saved) := enter s in
  Conf s' (Running saved :: fs) reg h d al rt (cm && negb (top_destroying fs))
       (Shim saved (b s) :: l).

Definition exit_life (v : version) (saved : Z) (c : conf) : conf * list effect :=
  let 'Conf s fs reg h d al rt cm l := c in
  let '(s', es) := v_exit v saved s in
  (Conf s' (begin es (tl fs)) reg h d al rt (cm && negb (top_destroying fs)) (es ++ l), es).

Definition drop_life (v : version) (c : conf) : conf * list effect :=
  let 'Conf s fs reg h d al rt cm l := c in
  let '(s', es) := v_drop v s in
  (Conf s' (begin es fs) reg false true al (rt && h) (cm && negb (top_destroying fs)) (es ++ l), es).

Definition done_life (v : version) (c : conf) : conf :=
  let 'Conf s fs reg h d al rt cm l := c in Conf (v_done v s) (tl fs) false h d al rt cm l.
Definition thrown_life (c : conf) : conf :=
  let 'Conf s fs reg h d al rt cm l := c in
  Conf s (tl fs) reg h d al rt (cm && negb (top_destroying fs)) l.

Lemma act_enter v c : alive c = true → act v Enter c = Some (enter_life c).
Proof. destruct c. simpl. by intros ->. Qed.

Lemma act_exit v saved fs c :
  frames c = Running saved :: fs → act v Exit c = Some (exit_life v saved c).1.
Proof. destruct c. simpl. intros ->. by destruct (v_exit _ _ _). Qed.

Lemma act_drop v c : act v Drop c = Some (drop_life v c).1.
Proof. destruct c. simpl. by destruct (v_drop _ _). Qed.

Lemma act_done v fs c :
  frames c = Destroying :: fs → act v DtorReturns c = Some (done_life v c).
Proof. destruct c. simpl. by intros ->. Qed.

Lemma act_thrown v fs c :
  frames c = Destroying :: fs → act v DtorThrows c = Some (thrown_life c).
Proof. destruct c. simpl. by intros ->. Qed.

Fixpoint execute (v : version) (xs : list action) (c : conf) : option conf :=
  match xs with
  | [] => Some c
  | x :: xs => match act v x c with Some c' => execute v xs c' | None => None end
  end.

Definition reachable (v : version) (fin : bool) (a0 b0 : Z) (c : conf) : Prop :=
  ∃ xs, execute v xs (makeMutClosure fin a0 b0) = Some c.

(** What a version needs of the program: that wasm gives up only what it holds, and, if the
    version is [trusting], that destructors are calm. *)
Definition proper (trusting : bool) (c : conf) : Prop :=
  rightful c = true ∧ (trusting = true → calm c = true).

(** The actions that keep it so. *)
Definition proper_action (trusting : bool) (x : action) (c : conf) : bool :=
  (match x with Drop => held c | _ => true end) &&
  (match x with DtorReturns => true | _ => negb (trusting && destroying c) end).

Lemma act_proper trusting v x c c' :
  act v x c = Some c' → proper trusting c' →
  proper trusting c ∧ proper_action trusting x c = true.
Proof.
  unfold proper, proper_action, destroying. destruct c as [s fs reg h d al rt cm l].
  intros Hx [Hr Hc]. assert (rt = true) as ->.
  { destruct x; simpl in *; repeat case_match; simplify_eq/=; try done. by destruct rt. }
  destruct trusting, x; simpl in *; repeat case_match; simplify_eq/=; try done.
  all: try specialize (Hc eq_refl); rewrite ?andb_true_r, ?andb_false_r in *; try done.
  all: by apply andb_true_iff in Hc as [-> ->].
Qed.

(** After its destructor, nothing is left of the pointer. *)
Definition resets (v : version) : Prop := ∀ s, a (v_done v s) = 0.

(** What the life cycle relies on: the last one out destroys the environment it saved, the
    others put the pointer back; a drop destroys only if nothing is running.  The pointer is
    forgotten before the destructor is called, or afterwards in a trusting version. *)
Class VersionOk (trusting : bool) (v : version) : Prop := {
  exit_last saved s : cnt s = 1 → a s = 0 →
    ∃ a', v_exit v saved s = (CS a' (b s) 0, [Dtor saved (b s)]) ∧
          (a' = 0 ∨ a' = saved ∧ trusting = true ∧ resets v);
  exit_more saved s : cnt s ≠ 1 → v_exit v saved s = (CS saved (b s) (cnt s - 1), []);
  drop_last s : cnt s = 1 →
    v_drop v s = (CS 0 (b s) 0, [Handed (a s)]) ∨
    v_drop v s = (CS (a s) (b s) 0, [Dtor (a s) (b s)]) ∧ trusting = true ∧ resets v;
  drop_more s : cnt s ≠ 1 → v_drop v s = (CS (a s) (b s) (cnt s - 1), []);
  done_cnt s : cnt (v_done v s) = cnt s;
  done_null s : a s = 0 → a (v_done v s) = 0;
}.

#[global] Instance original_ok trusting : VersionOk trusting Original.version.
Proof.
  split; simpl; unfold Original.exit, Original.cb_drop; try done.
  - intros saved s -> ->. exists 0. by split; [|left].
  - intros saved s ?. by destruct (Z.eqb_spec (cnt s - 1) 0); [lia|].
  - intros s ->. by left.
  - intros s ?. by destruct (Z.eqb_spec (cnt s) 1); [lia|].
Qed.

#[global] Instance unref_ok : VersionOk true Unref.version.
Proof.
  split; simpl; unfold Unref.exit, Unref.cb_unref; simpl; try done.
  - intros saved s -> ?. exists saved. by split; [|right].
  - intros saved s ?. by destruct (Z.eqb_spec (cnt s - 1) 0); [lia|].
  - intros s ->. by right.
  - intros s ?. by destruct (Z.eqb_spec (cnt s - 1) 0); [lia|].
Qed.

(** ** What is observed of the environment at [a0] *)

Definition destroys_env (a0 : Z) (e : effect) : bool :=
  match e with Shim _ _ => false | Dtor a _ => a =? a0 | Handed a => a =? a0 end.

(** How often it was destroyed. *)
Fixpoint destroyed (a0 : Z) (l : list effect) : nat :=
  match l with
  | [] => 0
  | e :: l => (if destroys_env a0 e then 1 else 0) + destroyed a0 l
  end.

(** No use after destruction: the shim never ran with [a0] once it was destroyed. *)
Fixpoint no_use_after (a0 : Z) (l : list effect) : Prop :=
  match l with
  | [] => True
  | e :: l => match e with Shim a _ => a = a0 → destroyed a0 l = 0%nat | _ => True end ∧
              no_use_after a0 l
  end.

#[local] Arguments Z.eqb : simpl never.

(** How many invocations are running. *)
Fixpoint running (fs : list frame) : Z :=
  match fs with
  | [] => 0
  | Running _ :: fs => running fs + 1
  | Destroying :: fs => running fs
  end.

Lemma running_nonneg fs : 0 ≤ running fs.
Proof. induction fs as [|[] fs IH]; simpl; lia. Qed.

Lemma running_owner zs z : Forall (λ f, f = Running 0) zs → running (zs ++ [Running z]) = 1 + Zlen zs.
Proof. induction 1 as [|f zs -> _ IH]; [done|]. simpl. rewrite IH, Zlen_cons. lia. Qed.

(** A frame that has no environment. *)
Definition null (f : frame) : Prop := f = Running 0 ∨ f = Destroying.

(** ** The invariant: exactly one owner *)
Section invariant.
Context (fin : bool) (a0 b0 : Z) (Ha0 : a0 ≠ 0).
Context (trusting : bool) (v : version) `{!VersionOk trusting v}.

(** The environment's pointer is in the state, in the outermost frame, or destroyed, maybe at
    this moment; or the function was collected where there is no registry. *)
Inductive owner (c : conf) : Prop :=
  | in_state :
      frames c = [] → a (st c) = a0 → destroyed a0 (log c) = 0%nat →
      registered c = fin → dropped c = false → alive c = true → owner c
  | in_frame zs :
      frames c = zs ++ [Running a0] → Forall (λ f, f = Running 0) zs → a (st c) = 0 →
      destroyed a0 (log c) = 0%nat → registered c = fin → alive c = true → owner c
  | dying :
      frames c = [Destroying] → trusting = true → resets v → destroyed a0 (log c) = 1%nat →
      dropped c = true → owner c
  | gone :
      Forall null (frames c) → destroyed a0 (log c) = 1%nat →
      (alive c = true → a (st c) = 0) → dropped c || negb (alive c) && fin = true → owner c
  | leaked :
      frames c = [] → destroyed a0 (log c) = 0%nat →
      alive c = false → dropped c = false → fin = false → owner c.

Record inv (c : conf) : Prop := Inv {
  inv_cnt : cnt (st c) = (if dropped c then 0 else 1) + running (frames c);
  inv_held : held c = true → dropped c = false ∧ alive c = true;
  inv_frames : alive c = false → frames c = [];
  inv_owner : owner c;
  inv_log : no_use_after a0 (log c)
}.

Lemma inv_init : inv (makeMutClosure fin a0 b0).
Proof. split; try done. by apply in_state. Qed.

Lemma nonzero_neq : (0 =? a0) = false.
Proof. by destruct (Z.eqb_spec 0 a0). Qed.

(** The step is one that the discipline allows. *)
Definition allowed_now (c : conf) : Prop := trusting && destroying c = false.

Lemma inv_enter c c' : allowed_now c → inv c → act v Enter c = Some c' → inv c'.
Proof.
  destruct c as [s fs reg h d al rt cm l]. unfold allowed_now, destroying.
  intros Hn [Hc Hh Hf Ho Hl] Hact. simpl in *.
  destruct al; [|done]. simplify_eq/=.
  split; unfold begin; simpl; try done; try lia.
  - destruct Ho as [Hfs Has Hd Hr Hdr _|zs Hfs Hz Has Hd Hr _|Hfs Hca|Hz Hd Has Hdr|]; simplify_eq/=;
      try (by rewrite Hca in Hn).
    + apply (in_frame _ []); simpl; done || congruence.
    + apply (in_frame _ (Running 0 :: zs)); simpl; try done; [by rewrite Has|by constructor].
    + apply gone; simpl; [constructor; [left; by rewrite Has|done]|done|done|done].
  - split; [|done]. intros Has.
    destruct Ho as [| |Hfs Hca|_ _ Hz|]; simplify_eq/=; try done; try (by rewrite Hca in Hn).
    specialize (Hz eq_refl). congruence.
Qed.

(** Leaving an invocation that is not the owner's, or handing the pointer back. *)
Lemma inv_exit c c' : inv c → act v Exit c = Some c' → inv c'.
Proof.
  destruct c as [s fs reg h d al rt cm l]. intros [Hc Hh Hf Ho Hl] Hact. simpl in *.
  destruct fs as [|[saved|] fs]; [done| |done]. simpl in Hc.
  destruct al; [|by specialize (Hf eq_refl)].
  assert (Has : a s = 0).
  { destruct Ho as [| | |_ _ Hz|]; simplify_eq/=; [done|]. by apply Hz. }
  destruct (decide (cnt s = 1)) as [H1|H1].
  - destruct (exit_last saved s H1 Has) as (a' & He & Ha'). rewrite He in Hact. simplify_eq/=.
    pose proof (running_nonneg fs). assert (d = true) as -> by (destruct d; [done|lia]).
    assert (Hrun : running fs = 0) by lia.
    split; unfold begin; simpl; try done; try lia.
    destruct Ho as [|zs Hfs Hz _ Hd _ _|Hfs|Hz Hd _ Hdr|]; simplify_eq/=.
    + destruct zs as [|f zs]; simplify_eq/=.
      * assert (destroyed a0 (Dtor a0 (b s) :: l) = 1%nat) by (simpl; rewrite Z.eqb_refl; lia).
        destruct Ha' as [-> |(-> & Hca & Hrs)]; [|by apply dying].
        apply gone; simpl; try done. constructor; [by right|done].
      * inv Hz as [|?? _ Hz']. rewrite (running_owner _ _ Hz') in Hrun.
        pose proof (Zlen_nonneg zs). lia.
    + inv Hz as [|?? Hs ?]. destruct Hs as [[= ->]|]; [|done].
      apply gone; simpl; [constructor; [by right|done]|by rewrite nonzero_neq| |done].
      by destruct Ha' as [-> |[-> _]].
  - rewrite (exit_more (trusting := trusting)) in Hact by done. simplify_eq/=.
    split; unfold begin; simpl; try done; try lia.
    destruct Ho as [|zs Hfs Hz _ Hd Hr _|Hfs|Hz Hd _ Hdr|]; simplify_eq/=.
    + destruct zs as [|z zs]; simplify_eq/=.
      * apply in_state; try done. simpl. destruct d; [simpl in Hc; lia|done].
      * inv Hz as [|?? [= ->] ?]. by apply (in_frame _ zs).
    + inv Hz as [|?? Hs ?]. destruct Hs as [[= ->]|]; [|done]. by apply gone.
Qed.

Lemma inv_drop c c' : allowed_now c → held c = true → inv c → act v Drop c = Some c' → inv c'.
Proof.
  destruct c as [s fs reg h d al rt cm l]. unfold allowed_now, destroying.
  intros Hn Hheld [Hc Hh Hf Ho Hl] Hact. simpl in *. subst h.
  destruct (Hh eq_refl) as [-> ->].
  destruct (decide (cnt s = 1)) as [H1|H1].
  - assert (Hrun : running fs = 0) by lia.
    assert (fs = [] ∧ a s = a0 ∧ destroyed a0 l = 0%nat) as (-> & Has & Hd).
    { destruct Ho as [|zs Hfs Hz Has Hd Hr _| | |]; simplify_eq/=; [done|].
      rewrite (running_owner _ _ Hz) in Hrun. pose proof (Zlen_nonneg zs). lia. }
    destruct (drop_last s H1) as [He|(He & Hca & Hrs)]; rewrite He in Hact; simplify_eq/=.
    + split; unfold begin; simpl; try done. apply gone; simpl; try done. rewrite Has, Z.eqb_refl. lia.
    + split; unfold begin; simpl; try done. apply dying; simpl; try done. rewrite Has, Z.eqb_refl. lia.
  - rewrite (drop_more (trusting := trusting)) in Hact by done. simplify_eq/=.
    split; unfold begin; simpl; try done; try lia.
    destruct Ho as [Hfs|zs Hfs Hz Has Hd Hr _| | |]; simplify_eq/=.
    by apply (in_frame _ zs).
Qed.

Lemma inv_returns c c' : inv c → act v DtorReturns c = Some c' → inv c'.
Proof.
  destruct c as [s fs reg h d al rt cm l]. intros [Hc Hh Hf Ho Hl] Hact. simpl in *.
  destruct fs as [|[|] fs]; simplify_eq/=.
  assert (al = true) as -> by (destruct al; [done|by specialize (Hf eq_refl)]).
  split; simpl; try done; [by rewrite (done_cnt (trusting := trusting))|].
  destruct Ho as [|zs Hfs Hz|Hfs Hca Hrs Hd Hdr|Hz Hd Has Hdr|]; simplify_eq/=.
  - destruct zs as [|f zs]; simplify_eq/=. by inv Hz.
  - by apply gone; simpl.
  - inv Hz. apply gone; simpl; try done. intros _. by apply (done_null (trusting := trusting)), Has.
Qed.

Lemma inv_throws c c' : allowed_now c → inv c → act v DtorThrows c = Some c' → inv c'.
Proof.
  destruct c as [s fs reg h d al rt cm l]. unfold allowed_now, destroying.
  intros Hn [Hc Hh Hf Ho Hl] Hact. simpl in *.
  destruct fs as [|[|] fs]; simplify_eq/=.
  assert (al = true) as -> by (destruct al; [done|by specialize (Hf eq_refl)]).
  split; simpl; try done.
  destruct Ho as [|zs Hfs Hz|Hfs Hca|Hz Hd Has Hdr|]; simplify_eq/=; try (by rewrite Hca in Hn).
  - destruct zs as [|f zs]; simplify_eq/=. by inv Hz.
  - inv Hz. by apply gone.
Qed.

Lemma inv_forget c c' : inv c → act v Forget c = Some c' → inv c'.
Proof.
  destruct c as [s fs reg h d al rt cm l]. intros [Hc Hh Hf Ho Hl] Hact. simpl in *.
  destruct h; simplify_eq/=. split; simpl; try done.
  destruct Ho as [|zs| | |]; simplify_eq/=;
    [by apply in_state|by apply (in_frame _ zs)|by apply dying|by apply gone|by apply leaked].
Qed.

Lemma inv_collect c c' : inv c → act v Collect c = Some c' → inv c'.
Proof.
  destruct c as [s fs reg h d al rt cm l]. intros [Hc Hh Hf Ho Hl] Hact. simpl in *.
  destruct fs, h, al; simplify_eq/=.
  split; simpl; try done; [|by destruct reg].
  destruct Ho as [_ Has Hd Hr Hdr|zs Hfs| |_ Hd Has Hdr|]; simplify_eq/=.
  - destruct (decide (fin = true)) as [Hfin|Hfin%not_true_is_false].
    + apply gone; simpl; rewrite ?Hfin; try done. simpl. rewrite Has, Z.eqb_refl. lia.
    + apply leaked; simpl; by rewrite ?Hfin.
  - by destruct zs.
  - rewrite orb_false_r in Hdr. subst d.
    apply gone; simpl; try done. rewrite Has by done. destruct reg; simpl; [|done].
    by rewrite nonzero_neq.
Qed.

Lemma inv_step x c c' :
  proper_action trusting x c = true → inv c → act v x c = Some c' → inv c'.
Proof.
  intros Hp Hi. unfold proper_action in Hp. apply andb_true_iff in Hp as [Hh Hn].
  assert (Ha : x ≠ DtorReturns → allowed_now c).
  { intros Hx. unfold allowed_now. destruct (trusting && destroying c); [|done]. by destruct x. }
  destruct x; eauto using inv_enter, inv_exit, inv_drop, inv_returns, inv_throws, inv_forget,
    inv_collect.
Qed.

Lemma inv_proper_step x c c' :
  (proper trusting c → inv c) → act v x c = Some c' → proper trusting c' → inv c'.
Proof.
  intros Hi Hx Hp. destruct (act_proper trusting v x c c' Hx Hp) as [Hc Ha].
  eauto using inv_step.
Qed.

Lemma inv_execute xs c c' :
  (proper trusting c → inv c) → execute v xs c = Some c' → proper trusting c' → inv c'.
Proof.
  revert c. induction xs as [|x xs IH]; simpl; intros c Hi Hx; [by simplify_eq; auto|].
  destruct (act v x c) as [c1|] eqn:E; [|done].
  apply (IH c1); [|done]. eauto using inv_proper_step.
Qed.

Lemma inv_reachable c : reachable v fin a0 b0 c → proper trusting c → inv c.
Proof. intros [xs Hx]. eapply inv_execute; [intros _; apply inv_init|done]. Qed.
End invariant.

(** ** The two versions behave alike *)

(** What can be observed of the environments: uses, and destructions of non-null ones (the
    destructor export ignores a null pointer). *)
Inductive event : Type := Used (a b : Z) | Freed (a : Z).

Definition observe (e : effect) : list event :=
  match e with
  | Shim a b => [Used a b]
  | Dtor a _ | Handed a => if a =? 0 then [] else [Freed a]
  end.

Definition observed (l : list effect) : list event := flat_map observe l.

Lemma observed_cons e l : observed (e :: l) = observe e ++ observed l.
Proof. done. Qed.
Arguments observed : simpl never.

(** A step of a program that gives up what it holds, and the return of the destructor if the
    step calls it. *)
Definition finish (v : version) (c : conf) : conf := if destroying c then done_life v c else c.
Definition calmly (v : version) (x : action) (c : conf) : option conf :=
  if proper_action true x c then finish v <$> act v x c else None.
Fixpoint run_calmly (v : version) (xs : list action) (c : conf) : option conf :=
  match xs with
  | [] => Some c
  | x :: xs => match calmly v x c with Some c' => run_calmly v xs c' | None => None end
  end.

Section equivalence.
Context (fin : bool) (a0 : Z) (Ha0 : a0 ≠ 0).

(** No destructor is running. *)
Definition settled (c : conf) : Prop := Destroying ∉ frames c.

Lemma settled_step c : settled c → destroying c = false.
Proof.
  unfold settled, destroying. destruct (frames c) as [|[] fs]; [done..|]. intros Hs.
  destruct Hs. by left.
Qed.

Lemma inv_calmly v `{!VersionOk true v} x c c' :
  inv fin a0 true v c → calmly v x c = Some c' → inv fin a0 true v c'.
Proof.
  intros Hi. unfold calmly. destruct (proper_action true x c) eqn:Hp; [|done].
  destruct (act v x c) as [c1|] eqn:E; [|done]. intros [= <-].
  assert (Hi1 : inv fin a0 true v c1) by by apply (inv_step fin a0 Ha0 true v x c).
  unfold finish. destruct (destroying c1) eqn:Hd; [|done]. unfold destroying in Hd.
  destruct (frames c1) as [|[|] fs] eqn:Hf; [done..|].
  apply (inv_returns fin a0 Ha0 true v c1); [done|by eapply act_done].
Qed.

(** Related configurations; the registration may differ once there is nothing to free. *)
Record similar (c1 c2 : conf) : Prop := Similar {
  sim_st : st c1 = st c2;
  sim_frames : frames c1 = frames c2;
  sim_settled : settled c1;
  sim_held : held c1 = held c2;
  sim_dropped : dropped c1 = dropped c2;
  sim_alive : alive c1 = alive c2;
  sim_log : observed (log c1) = observed (log c2);
  sim_reg : registered c1 = registered c2 ∨
            (a (st c1) = 0 ∧ Forall (λ f, f = Running 0) (frames c1))
}.

Lemma similar_refl c : settled c → similar c c.
Proof. split; try done. by left. Qed.

(** While something runs, the state holds the null pointer. *)
Lemma running_null v c z fs :
  inv fin a0 true v c → frames c = Running z :: fs → a (st c) = 0.
Proof.
  intros [_ _ Hf Ho _] Hfs. destruct Ho as [Hn| |Hn|_ _ Hz|Hn]; try congruence.
  apply Hz. destruct (alive c); [done|]. rewrite Hf in Hfs by done. done.
Qed.

Lemma similar_act x c1 c2 :
  inv fin a0 true Original.version c1 → similar c1 c2 →
  (match calmly Original.version x c1, calmly Unref.version x c2 with
   | Some c1', Some c2' => similar c1' c2'
   | None, None => True
   | _, _ => False
   end).
Proof.
  intros Hi Hs. destruct c1 as [s fs reg1 h d al rt1 cm1 l1], c2 as [s2 fs2 reg2 h2 d2 al2 rt2 cm2 l2].
  destruct Hs as [Hst Hfs Hse Hh Hd Hal Hl Hr]. simpl in *. subst s2 fs2 h2 d2 al2.
  pose proof (inv_cnt _ _ _ _ _ Hi) as Hcnt. pose proof (settled_step _ Hse) as Htop.
  unfold settled, destroying in Hse, Htop. simpl in Hcnt, Hse, Htop.
  unfold calmly, proper_action, finish, destroying. cbn [frames held]. rewrite Htop.
  destruct x; simpl.
  - destruct al; [|done]. simpl. split; simpl; try done; [|by rewrite !observed_cons, Hl|].
    + unfold settled. simpl. by apply not_elem_of_cons.
    + destruct Hr as [|[Ha Hz]]; [by left|right]. split; [done|]. by constructor; [rewrite Ha|].
  - destruct fs as [|[z|] fs]; [done| |done]. apply not_elem_of_cons in Hse as [_ Hse].
    assert (Htop' : top_destroying fs = false)
      by exact (settled_step (Conf s fs reg1 h d al rt1 cm1 l1) Hse).
    pose proof (running_null _ _ z fs Hi eq_refl) as Ha. simpl in Ha.
    unfold Original.exit, Unref.exit, Unref.cb_unref. simpl.
    destruct (Z.eqb_spec (cnt s - 1) 0) as [H1|H1].
    + split; simpl; try done; [by rewrite Ha|by rewrite !observed_cons, Hl|by left].
    + unfold begin. simpl. rewrite Htop'.
      split; simpl; try done. destruct Hr as [|[_ Hz]]; [by left|right]. inv Hz as [|?? [= ->] ?]. done.
  - destruct h; [|done]. destruct (inv_held _ _ _ _ _ Hi eq_refl) as [Hd _]. simpl in Hd. subst d.
    unfold Original.cb_drop, Unref.cb_unref, begin.
    destruct (Z.eqb_spec (cnt s) 1) as [H1|H1];
      destruct (Z.eqb_spec (cnt s - 1) 0) as [H2|H2]; try lia; simpl; rewrite ?Htop;
      split; simpl; try done.
    + by rewrite !observed_cons, Hl.
    + right. split; [done|]. destruct fs as [|[z|] fs]; [done| |done].
      simpl in Hcnt. pose proof (running_nonneg fs). lia.
  - by destruct fs as [|[|] fs].
  - by destruct fs as [|[|] fs].
  - destruct h; [|done]. simpl. by rewrite Htop.
  - destruct fs as [|[|] fs], h, al; try done. split; simpl; try done; [|by left].
    destruct Hr as [-> |[Ha _]]; [destruct reg2; simpl; by rewrite ?observed_cons, Hl|].
    destruct reg1, reg2; simpl; rewrite ?observed_cons; simpl; by rewrite ?Ha.
Qed.
End equivalence.

(** ** Properties *)

(** C1: for a non-null environment, whatever sequence of calls (also reentrant ones, and
    calls after the drop), returns and throws, drop or leak of the wasm handle, and garbage
    collection happens, the environment is destroyed at most once, never while an
    invocation of it is running, and the shim never runs with it afterwards -- provided wasm
    gives its handle up only while it holds it.  In the original version of [makeMutClosure]
    this is so whatever the destructor does, even if it calls the function again or throws; in
    the newer one ([_wbg_cb_unref]), which clears the pointer after the call of the destructor,
    it is so where the destructor has returned without a call of its own function. *)
Theorem closure_no_use_after_free (trusting : bool) (v : version) `{!VersionOk trusting v}
    (fin : bool) (a0 b0 : Z) (c : conf) :
  a0 ≠ 0 → reachable v fin a0 b0 c → proper trusting c →
  (destroyed a0 (log c) ≤ 1)%nat ∧
  (destroyed a0 (log c) = 1%nat → (Running a0 ∉ frames c) ∧
     (alive c = true → trusting && destroying c = false → a (st c) ≠ a0)) ∧
  no_use_after a0 (log c).
Proof.
  intros Ha0 Hr Hp. destruct (inv_reachable fin a0 b0 Ha0 trusting v c Hr Hp) as [_ _ _ Ho Hl].
  destruct Ho as [_ _ Hd|zs _ _ _ Hd|Hf Hca _ Hd|Hz Hd Has|_ Hd]; split_and!; try done; try lia;
    intros _; split.
  - rewrite Hf. by intros [=]%list_elem_of_singleton.
  - intros _. unfold destroying. by rewrite Hca, Hf.
  - intros Hin. rewrite list.Forall_forall in Hz.
    by destruct (Hz _ Hin) as [[= ?]|].
  - intros Hal _. rewrite Has by done. congruence.
Qed.

(** The destructor of the original version, called by the last invocation to end, calls the
    function again, and throws. *)
Lemma closure_no_use_after_free_witness :
  ∃ c, execute Original.version
         [Enter; Enter; Drop; Exit; Exit; Enter; Exit; DtorReturns; DtorThrows; Enter; Exit;
          DtorThrows; Collect] (makeMutClosure true 64 8) = Some c ∧
  (destroyed 64 (log c) ≤ 1)%nat ∧
  (destroyed 64 (log c) = 1%nat → (Running 64 ∉ frames c) ∧
     (alive c = true → false && destroying c = false → a (st c) ≠ 64)) ∧
  no_use_after 64 (log c).
Proof.
  eexists. split; [reflexivity|].
  apply (closure_no_use_after_free false Original.version true 64 8); [lia| |by split].
  by exists [Enter; Enter; Drop; Exit; Exit; Enter; Exit; DtorReturns; DtorThrows; Enter; Exit;
             DtorThrows; Collect].
Defined.

(** C29: nothing leaks: when no invocation and no destructor is running, the destructor of the
    environment has been called (or left to wasm) exactly once if the wasm side has dropped its
    handle, or if the function has been collected and the engine has a FinalizationRegistry;
    and not at all otherwise -- so without a registry an environment whose handle wasm has
    leaked is never destroyed, also when its function is garbage.  As in C1, wasm gives up only
    what it holds, and the newer version needs destructors that return and do not call their
    own function. *)
Theorem closure_no_leak (trusting : bool) (v : version) `{!VersionOk trusting v} (fin : bool)
    (a0 b0 : Z) (c : conf) :
  a0 ≠ 0 → reachable v fin a0 b0 c → proper trusting c → frames c = [] →
  destroyed a0 (log c) = if dropped c || negb (alive c) && fin then 1%nat else 0%nat.
Proof.
  intros Ha0 Hr Hp Hn. destruct (inv_reachable fin a0 b0 Ha0 trusting v c Hr Hp) as [_ _ _ Ho _].
  destruct Ho as [_ _ -> _ -> ->|zs Hfs|Hfs|_ -> _ ->|_ -> -> -> Hfin]; try done.
  - rewrite Hfs in Hn. by destruct zs.
  - by rewrite Hfs in Hn.
  - by rewrite Hfin.
Qed.

Lemma closure_no_leak_witness :
  (∃ c, execute Unref.version [Enter; Drop; Exit; DtorReturns] (makeMutClosure false 64 8) =
          Some c ∧ destroyed 64 (log c) = 1%nat) ∧
  (∃ c, execute Original.version [Enter; Forget; Exit; Collect] (makeMutClosure false 64 8) =
          Some c ∧ destroyed 64 (log c) = 0%nat).
Proof.
  split; eexists; (split; [reflexivity|]).
  - apply (closure_no_leak true Unref.version false 64 8); [lia| |by split|reflexivity].
    by exists [Enter; Drop; Exit; DtorReturns].
  - apply (closure_no_leak false Original.version false 64 8); [lia| |by split|reflexivity].
    by exists [Enter; Forget; Exit; Collect].
Defined.

(** C30: where wasm gives up only what it holds and every destructor returns without having
    called its own function, the two
    versions of the code are observably equivalent: they admit the same sequences of actions,
    and after each the same environments have been used with the shim and freed, in the same
    order, the same invocations are running and the state object is the same. *)
Theorem closure_versions_equivalent (fin : bool) (a0 b0 : Z) (xs : list action) :
  a0 ≠ 0 →
  match run_calmly Original.version xs (makeMutClosure fin a0 b0),
        run_calmly Unref.version xs (makeMutClosure fin a0 b0) with
  | Some c1, Some c2 =>
      observed (log c1) = observed (log c2) ∧ frames c1 = frames c2 ∧ st c1 = st c2
  | None, None => True
  | _, _ => False
  end.
Proof.
  intros Ha0.
  assert (Hgen : ∀ c1 c2, inv fin a0 true Original.version c1 → similar c1 c2 →
    match run_calmly Original.version xs c1, run_calmly Unref.version xs c2 with
    | Some c1, Some c2 => similar c1 c2 | None, None => True | _, _ => False end).
  { induction xs as [|x xs IH]; intros c1 c2 Hi Hs; simpl; [done|].
    pose proof (similar_act fin a0 x c1 c2 Hi Hs) as Hx.
    destruct (calmly Original.version x c1) as [c1'|] eqn:E1,
             (calmly Unref.version x c2) as [c2'|]; try done.
    apply IH; [|done].
    exact (inv_calmly fin a0 Ha0 Original.version x _ _ Hi E1). }
  assert (Hs : settled (makeMutClosure fin a0 b0)) by (by apply not_elem_of_nil).
  specialize (Hgen _ _ (inv_init fin a0 b0 true Original.version) (similar_refl _ Hs)).
  destruct (run_calmly Original.version _ _), (run_calmly Unref.version _ _); try done.
  by destruct Hgen.
Qed.

Lemma closure_versions_equivalent_witness :
  match run_calmly Original.version [Enter; Drop; Enter; Exit; Exit; Collect]
          (makeMutClosure true 64 8),
        run_calmly Unref.version [Enter; Drop; Enter; Exit; Exit; Collect]
          (makeMutClosure true 64 8) with
  | Some c1, Some c2 =>
      observed (log c1) = observed (log c2) ∧ frames c1 = frames c2 ∧ st c1 = st c2
  | None, None => True
  | _, _ => False
  end.
Proof. apply closure_versions_equivalent. lia. Defined.

(** The newer version does not survive a destructor that is not calm, the original one
    does.  If the destructor calls the function again, the newer version runs the shim with the
    environment that is being destroyed and destroys it a second time; if the destructor
    throws, the newer version leaves it registered, and the registry destroys it again when
    the function is collected.  With the same actions, the original version neither uses nor
    destroys it again. *)
Theorem unref_destructor_unsafe (a0 b0 : Z) :
  a0 ≠ 0 →
  let outcomes v xs :=
    (λ c, (destroyed a0 (log c), observed (log c))) <$>
      execute v ([Enter; Drop; Exit] ++ xs) (makeMutClosure true a0 b0) in
  outcomes Unref.version [Enter; Exit] =
    Some (2%nat, [Freed a0; Used a0 b0; Freed a0; Used a0 b0]) ∧
  outcomes Original.version [Enter; Exit] = Some (1%nat, [Used 0 b0; Freed a0; Used a0 b0]) ∧
  outcomes Unref.version [DtorThrows; Collect] = Some (2%nat, [Freed a0; Freed a0; Used a0 b0]) ∧
  outcomes Original.version [DtorThrows; Collect] = Some (1%nat, [Freed a0; Used a0 b0]).
Proof.
  intros Ha. assert (H0 : (0 =? a0) = false) by (by apply Z.eqb_neq).
  assert (H1 : (a0 =? 0) = false) by (by apply Z.eqb_neq).
  split_and!;
    match goal with |- context [execute ?v ?xs ?r] =>
      let e := eval lazy in (execute v xs r) in change (execute v xs r) with e end;
    unfold observed; simpl; by rewrite ?Z.eqb_refl, ?H0, ?H1.
Qed.

Lemma unref_destructor_unsafe_witness :
  (λ c, destroyed 64 (log c)) <$>
    execute Unref.version [Enter; Drop; Exit; Enter; Exit] (makeMutClosure true 64 8) =
  Some 2%nat.
Proof.
  destruct (unref_destructor_unsafe 64 8 ltac:(lia)) as [Hu _].
  apply (f_equal (fmap fst)) in Hu. exact Hu.
Defined.
