(* ===== verification/Glue.v ===== *)
(** * The glue's vocabulary: JavaScript values, the host, and what imports are made of

    The import objects of the generated files ([__wbg_get_imports]) are tables of small
    functions over JavaScript values.  This file has the values, the realm they live in
    (the glue module's state of [Memory], the externref table, the closures handed out, the
    host's own state), the host operations -- browser code, so a parameter: class [Host] --
    and one definition for each thing an import does: [handleError], [addToExternrefTable0],
    strings in and out, [makeMutClosure] and its drop, promise callbacks. *)

From Stdlib Require Import SpecFloat Ascii String.
From S2P Require Import Prelude TextCodec Memory Closure.

(** ** Values *)

(** A Number; those that are integers are [Int], and no [Float] is one. *)
Inductive number : Type := Int (z : Z) | Float (f : spec_float).

Inductive val : Type :=
  | Undefined | Null
  | Bool (b : bool)
  | Num (n : number)
  | BigInt (z : Z)
  | Str (s : jsstring)
  | Symbol (description : option jsstring)
  | Native (e : exn)               (* an error object of the engine *)
  | MemView (c : cache) (v : view) (* a typed array over the wasm memory *)
  | WasmMemory                     (* [wasm.memory] *)
  | Real (i : nat)                 (* the [real] of the [i]th [makeMutClosure] *)
  | Cb (i : nat)                   (* the [i]th [cb0] *)
  | Obj (o : nat).                 (* an object of the host *)

(** A property name or string literal of the source. *)
Definition lit (s : string) : jsstring :=
  List.map (λ c, Z.of_N (N_of_ascii c)) (list_ascii_of_string s).
Definition key (s : string) : val := Str (lit s).

(** [ToIntegerOrInfinity] of a finite number; NaN and the infinities, which [>>>] also
    sends to 0, are 0. *)
Definition trunc (n : number) : Z :=
  match n with
  | Int z => z
  | Float (S754_finite sign m e) =>
      let a := if 0 <=? e then Zpos m * 2 ^ e else Zpos m / 2 ^ (- e) in
      if sign then - a else a
  | Float _ => 0
  end.

(** [v === 0] *)
Definition is_zero (v : val) : bool :=
  match v with
  | Num (Int z) => z =? 0
  | Num (Float (S754_zero _)) => true
  | _ => false
  end.

(** [isLikeNone(x)] *)
Definition isLikeNone (x : val) : bool :=
  match x with Undefined | Null => true | _ => false end.

(** [v === undefined] and [v === null] *)
Definition is_undefined (v : val) : bool := match v with Undefined => true | _ => false end.
Definition is_null (v : val) : bool := match v with Null => true | _ => false end.

(** [(table.indexOf(v) + 1 || d) - 1], the conversion of an enumeration's value for wasm. *)
Fixpoint index_of (table : list string) (v : val) (i : Z) : Z :=
  match table with
  | [] => -1
  | s :: table =>
      if (match v with Str u => bool_decide (u = lit s) | _ => false end) then i
      else index_of table v (i + 1)
  end.
Definition index_or (table : list string) (v : val) (d : Z) : val :=
  let n := index_of table v 0 + 1 in Num (Int ((if n =? 0 then d else n) - 1)).

(** ** The realm *)

(** An adapter: a function of [ad_params] parameters that passes them on to an export; it
    returns nothing, or whether the export's result is not 0. *)
Inductive ad_result : Type := Ignored | NotZero.
Record adapter : Type := Adapter { ad_params : nat; ad_export : string; ad_ret : ad_result }.

(** What one call of [makeMutClosure] leaves: the life of [state] as in [Closure], the
    destructor's index or name, and the adapter. *)
Record closure : Type := MkClosure { c_life : conf; c_dtor : string; c_adapter : adapter }.

(** [state0] of a promise callback, and its adapter. *)
Record scope : Type := MkScope { s_a : Z; s_b : Z; s_adapter : adapter }.

Record realm (S H : Type) : Type := Realm {
  glue_of : glue S;
  externrefs : list val;
  closures : list closure;
  scopes : list scope;
  host_of : H
}.
Arguments Realm {S H}.
Arguments glue_of {S H}.
Arguments externrefs {S H}.
Arguments closures {S H}.
Arguments scopes {S H}.
Arguments host_of {S H}.

Abbreviation J S H A := (M val (realm S H) A).

Section setters.
Context {S H : Type}.
Definition set_glue g (r : realm S H) : realm S H :=
  Realm g (externrefs r) (closures r) (scopes r) (host_of r).
Definition set_externrefs t (r : realm S H) : realm S H :=
  Realm (glue_of r) t (closures r) (scopes r) (host_of r).
Definition set_closures c (r : realm S H) : realm S H :=
  Realm (glue_of r) (externrefs r) c (scopes r) (host_of r).
Definition set_scopes s (r : realm S H) : realm S H :=
  Realm (glue_of r) (externrefs r) (closures r) s (host_of r).
End setters.

(** ** What is not under src/: the host and the wasm module's exports

    Every operation may do anything to the realm: a host function can call back into wasm
    through a closure. *)
Class Host (S H : Type) : Type := {
  host_global : string → J S H (option val);          (* [None]: no such global *)
  host_get : val → val → J S H val;                   (* [o[k]] *)
  host_set : val → val → val → J S H unit;            (* [o[k] = v] *)
  host_call : val → val → list val → J S H val;       (* callee, [this], arguments *)
  host_construct : val → list val → J S H val;        (* [new C(...)] *)
  host_instanceof : val → val → J S H bool;
  host_to_number : val → J S H number;                (* [ToNumber] of a non-Number *)
  host_to_string : val → J S H jsstring;              (* [ToString] of a non-String *)
  host_read_string : val → J S H jsstring;
    (* what [passStringToWasm0] reads, by [length], [charCodeAt] and [slice], of a non-String *)
  host_callable : nat → bool;
  host_has_registry : bool;   (* [typeof FinalizationRegistry !== 'undefined'] *)
}.

Class Exports (S H : Type) : Type := {
  wasm_externref_alloc : J S H Z;            (* [__externref_table_alloc] *)
  wasm_exn_store : Z → J S H unit;           (* [__wbindgen_exn_store] *)
  wasm_call : string → list val → J S H val; (* a shim or destructor, by name *)
}.

Section primitives.
Context {S H : Type} `{!Host S H}.
Implicit Types (v o : val) (m : J S H val).

Definition type_error {A} : J S H A := throw (Native (JsErr TypeError)).

(** Run code of the glue module; what it throws becomes a value. *)
Definition in_glue {A} (m : G S A) : J S H A := λ r,
  match m (glue_of r) with
  | Some (Ok a, g) => Some (Ok a, set_glue g r)
  | Some (Throw e, g) => Some (Throw (Native e), set_glue g r)
  | None => None
  end.

(** [typeof v] *)
Definition typeof (v : val) : string :=
  match v with
  | Undefined => "undefined"
  | Bool _ => "boolean"
  | Num _ => "number"
  | BigInt _ => "bigint"
  | Str _ => "string"
  | Symbol _ => "symbol"
  | Real _ | Cb _ => "function"
  | Obj o => if host_callable o then "function" else "object"
  | Null | Native _ | MemView _ _ | WasmMemory => "object"
  end.

(** An identifier that names a global. *)
Definition global (n : string) : J S H val :=
  x ← host_global n;
  match x with
  | Some v => mret v
  | None => throw (Native (JsErr ReferenceError))
  end.

(** [o[k]] and [o[k] = v]: a TypeError on [undefined] and [null]. *)
Definition get_elem o (k : val) : J S H val :=
  if isLikeNone o then type_error else host_get o k.
Definition set_elem o (k v : val) : J S H unit :=
  if isLikeNone o then type_error else host_set o k v.
Definition get_prop o (p : string) : J S H val := get_elem o (key p).

(** [o.p = m] *)
Definition set_prop o (p : string) m : J S H val :=
  v ← m; _ ← set_elem o (key p) v; mret Undefined.

(** [f.call(this, ...)] *)
Definition call (f this : val) (vs : list val) : J S H val :=
  if String.eqb (typeof f) "function" then host_call f this vs else type_error.

(** Arguments are evaluated from left to right, the callee before them. *)
Fixpoint args (l : list (J S H val)) : J S H (list val) :=
  match l with
  | [] => mret []
  | m :: l => v ← m; vs ← args l; mret (v :: vs)
  end.

(** [o.p(...)], [f(...)] and [new C(...)] *)
Definition method o (p : string) (l : list (J S H val)) : J S H val :=
  f ← get_prop o p; vs ← args l; call f o vs.
Definition call_global (f : string) (l : list (J S H val)) : J S H val :=
  f ← global f; vs ← args l; call f Undefined vs.
Definition construct (c : string) (l : list (J S H val)) : J S H val :=
  c ← global c; vs ← args l; host_construct c vs.

(** An argument passed as it is. *)
Definition pass v : J S H val := mret v.

(** The operand of an arithmetic operator. *)
Definition ToNumber v : J S H number :=
  match v with
  | Num n => mret n
  | Undefined => mret (Float S754_nan)
  | Null => mret (Int 0)
  | Bool b => mret (Int (if b then 1 else 0))
  | _ => host_to_number v
  end.
Definition int_of v : J S H Z := n ← ToNumber v; mret (trunc n).

(** [v >>> 0], [v !== 0] and [!v] *)
Definition ushr v : J S H val := n ← int_of v; mret (Num (Int (ToUint32 n))).
Definition nonzero v : J S H val := mret (Bool (negb (is_zero v))).
Definition falsy v : bool :=
  match v with
  | Undefined | Null | Bool false | Num (Float S754_nan) | Str [] | BigInt 0 => true
  | v => is_zero v
  end.

(** A call whose value is not used. *)
Definition void m : J S H val := _ ← m; mret Undefined.

(** [try { result = arg0 instanceof C } catch (_) { result = false }] *)
Definition instanceof v (c : string) : J S H val :=
  try_catch (c ← global c; b ← host_instanceof v c; mret (Bool b))
            (λ _, mret (Bool false)).

(** [typeof x === 'undefined' ? null : x] for a global [x]. *)
Definition global_or_null (x : string) : J S H val :=
  v ← host_global x;
  mret (match v with Some Undefined | None => Null | Some v => v end).

(** [__wbindgen_enum_X[v]] for an index from wasm. *)
Definition enum_at (table : list string) v : J S H val :=
  i ← int_of v; mret (match Zget table i with Some s => key s | None => Undefined end).
End primitives.

(** ** What the imports are made of *)

Section glue_code.
Context {S H : Type} `{!Host S H} `{!Exports S H} `{!Allocator S} {TC : TextCodec}.
(** The engine has [ArrayBuffer.prototype.detached]. *)
Context (has_detached : bool).
Implicit Types (v arg : val) (m : J S H val).

Abbreviation J A := (J S H A).

(** *** Strings and slices of the wasm memory *)

(** [getStringFromWasm0(ptr, len)] as an argument; [ptr === 0 ? undefined : ...] *)
Definition string_arg ptr len : J val :=
  p ← int_of ptr; n ← int_of len; s ← in_glue (getStringFromWasm0 p n); mret (Str s).
Definition opt_string_arg ptr len : J val :=
  if is_zero ptr then mret Undefined else string_arg ptr len.

(** [getArrayXFromWasm0(ptr, len)] as an argument. *)
Definition slice_arg (c : cache) (f : Z → Z → G S view) ptr len : J val :=
  p ← int_of ptr; n ← int_of len; w ← in_glue (f p n); mret (MemView c w).
Definition u8_arg := slice_arg U8 getArrayU8FromWasm0.
Definition u16_arg := slice_arg U16 getArrayU16FromWasm0.
Definition u32_arg := slice_arg U32 getArrayU32FromWasm0.
Definition f32_arg := slice_arg F32 getArrayF32FromWasm0.

(** [passStringToWasm0(ret, wasm.__wbindgen_malloc, wasm.__wbindgen_realloc)]. *)
Definition pass_string (ret : val) : J Z :=
  s ← match ret with
      | Str s => mret s
      | Undefined | Null => type_error
      | v => host_read_string v
      end;
  in_glue (passStringToWasm0 s wasm_malloc (Some wasm_realloc)).

(** [getDataViewMemory0().setInt32(arg0 + 4 * i, x, true)] *)
Definition set_i32 arg0 (i x : Z) : J unit :=
  w ← in_glue (getDataViewMemory0 has_detached);
  p ← int_of arg0;
  in_glue (setInt32 w (p + 4 * i) x).

(** The end of an import that returns the string [ret] through the pointer [arg0]. *)
Definition return_string arg0 m : J val :=
  ret ← m;
  ptr1 ← pass_string ret;
  len1 ← gets (λ r, WASM_VECTOR_LEN (glue_of r));
  _ ← set_i32 arg0 1 len1;
  _ ← set_i32 arg0 0 ptr1;
  mret Undefined.

(** The same with [isLikeNone(ret) ? 0 : passStringToWasm0(...)]. *)
Definition return_opt_string arg0 m : J val :=
  ret ← m;
  ptr1 ← if isLikeNone ret then mret 0 else pass_string ret;
  len1 ← gets (λ r, WASM_VECTOR_LEN (glue_of r));
  _ ← set_i32 arg0 1 len1;
  _ ← set_i32 arg0 0 ptr1;
  mret Undefined.

(** [try { ... } finally { wasm.__wbindgen_free(ptr, len, 1); ... }] *)
Fixpoint free_all (l : list (val * val)) : J unit :=
  match l with
  | [] => mret ()
  | (ptr, len) :: l =>
      p ← int_of ptr; n ← int_of len; _ ← in_glue (wasm_free p n 1); free_all l
  end.
Definition deferred (l : list (val * val)) m : J val :=
  try_finally (void m) (free_all l).

(** *** The externref table *)

(** [table.set(idx, obj)] *)
Definition table_set (idx : Z) (obj : val) : J unit :=
  t ← gets externrefs;
  if (0 <=? idx) && (idx <? Zlen t)
  then modify (set_externrefs (<[Z.to_nat idx := obj]> t))
  else throw (Native (JsErr RangeError)).

(** [table.grow(n)] *)
Definition table_grow (n : nat) : J Z :=
  t ← gets externrefs;
  _ ← modify (set_externrefs (t ++ replicate n Undefined)); mret (Zlen t).

Definition addToExternrefTable0 (obj : val) : J Z :=
  idx ← wasm_externref_alloc;
  _ ← table_set idx obj;
  mret idx.

(** [handleError(f, args)] *)
Definition handleError (f : J val) : J val :=
  try_catch f (λ e, idx ← addToExternrefTable0 e;
                    _ ← wasm_exn_store idx; mret Undefined).

(** [return isLikeNone(ret) ? 0 : addToExternrefTable0(ret)] *)
Definition optional m : J val :=
  ret ← m;
  if isLikeNone ret then mret (Num (Int 0))
  else idx ← addToExternrefTable0 ret; mret (Num (Int idx)).

(** [__wbindgen_init_externref_table] *)
Definition init_externref_table : J val :=
  offset ← table_grow 4;
  _ ← table_set 0 Undefined;
  _ ← table_set (offset + 0) Undefined;
  _ ← table_set (offset + 1) Null;
  _ ← table_set (offset + 2) (Bool true);
  _ ← table_set (offset + 3) (Bool false);
  mret Undefined.

(** *** Closures for JavaScript *)

(** Calling an adapter: surplus arguments are dropped, missing ones are [undefined]. *)
Fixpoint pad (n : nat) (vs : list val) : list val :=
  match n with O => [] | Datatypes.S n => hd Undefined vs :: pad n (tl vs) end.

Definition run_adapter (f : adapter) (vs : list val) : J val :=
  ret ← wasm_call (ad_export f) (pad (ad_params f) vs);
  match ad_ret f with Ignored => mret Undefined | NotZero => nonzero ret end.

(** [makeMutClosure(arg0, arg1, dtor, f)]: a new [state] and its [real]. *)
Definition make_closure arg0 arg1 (dtor : string) (f : adapter) : J val :=
  a ← int_of arg0; b ← int_of arg1;
  cs ← gets closures;
  _ ← modify (set_closures (cs ++ [MkClosure (makeMutClosure host_has_registry a b) dtor f]));
  mret (Real (length cs)).

Definition closure_at (i : nat) : J closure :=
  cs ← gets closures;
  match cs !! i with Some c => mret c | None => type_error end.

(** The [i]th closure takes a step of its life. *)
Definition step_closure (i : nat) (f : conf → conf * list effect) : J (list effect) :=
  c ← closure_at i;
  let '(life, es) := f (c_life c) in
  _ ← modify (λ r, set_closures
        (<[i := MkClosure life (c_dtor c) (c_adapter c)]> (closures r)) r);
  mret es.

(** The call of the destructor, [wasm.__wbindgen_export_7.get(state.dtor)(a, state.b)] or
    [state.dtor(state.a, state.b)], if it is among the effects, and if it returns, the
    statements after it. *)
Definition destroy (v : version) (i : nat) (es : list effect) : J unit :=
  match es with
  | Dtor a b :: _ =>
      c ← closure_at i;
      _ ← try_catch (wasm_call (c_dtor c) [Num (Int a); Num (Int b)])
                    (λ e, _ ← step_closure i (λ l, (thrown_life l, [])); throw e);
      _ ← step_closure i (λ l, (done_life v l, [])); mret ()
  | _ => mret ()
  end.

(** The wasm side gives its handle up. *)
Definition drop_handle (v : version) (i : nat) : J (list effect) :=
  es ← step_closure i (drop_life v); _ ← destroy v i es; mret es.

(** Calling [real]: count, take the pointer, run the adapter, and put it back.  No execution
    calls a function that has been collected. *)
Definition reached (c : closure) : J unit := λ r,
  if alive (c_life c) then Some (Ok (), r) else None.

Definition real (v : version) (i : nat) (vs : list val) : J val :=
  c ← closure_at i;
  _ ← reached c;
  let '(s', a) := enter (st (c_life c)) in
  _ ← step_closure i (λ l, (enter_life l, []));
  try_finally (run_adapter (c_adapter c) (Num (Int a) :: Num (Int (b s')) :: vs))
              (es ← step_closure i (exit_life v a); destroy v i es).

(** [__wbindgen_cb_drop(arg0)], where [arg0.original] is the state; of another value it
    decrements the [cnt] of its [original] property in the same way. *)
Definition handed (es : list effect) : bool :=
  existsb (λ e, match e with Handed _ => true | _ => false end) es.

Definition pred_number (n : number) : number :=
  match n with
  | Int z => Int (z - 1)
  | Float f => Float (SFsub 53 1024 f (S754_finite false 1 0))
  end.

Definition cb_drop arg0 : J val :=
  match arg0 with
  | Real i => es ← drop_handle Original.version i; mret (Bool (handed es))
  | v =>
      obj ← get_prop v "original";
      c ← get_prop obj "cnt"; n ← ToNumber c;
      _ ← set_prop obj "cnt" (mret (Num (pred_number n)));
      if (match n with Int z => z =? 1 | _ => false end)
      then _ ← set_prop obj "a" (mret (Num (Int 0))); mret (Bool true)
      else mret (Bool false)
  end.

(** [arg0._wbg_cb_unref()] *)
Definition cb_unref arg0 : J val :=
  match arg0 with
  | Real i => _ ← drop_handle Unref.version i; mret Undefined
  | v => void (method v "_wbg_cb_unref" [])
  end.

(** The imports that lend a callback: [var state0 = {a: arg0, b: arg1}; var cb0 = ...]
    for the duration of [k(cb0)]; then [state0.a = state0.b = 0]. *)
Definition set_scope (i : nat) (s : scope) : J unit :=
  modify (λ r, set_scopes (<[i := s]> (scopes r)) r).

Definition lend arg0 arg1 (f : adapter) (k : val → J val) : J val :=
  a ← int_of arg0; b ← int_of arg1;
  ss ← gets scopes;
  let i := length ss in
  _ ← modify (set_scopes (ss ++ [MkScope a b f]));
  try_finally (k (Cb i)) (set_scope i (MkScope 0 0 f)).

(** [cb0] *)
Definition cb0 (i : nat) (vs : list val) : J val :=
  ss ← gets scopes;
  match ss !! i with
  | Some s =>
      let a := s_a s in
      _ ← set_scope i (MkScope 0 (s_b s) (s_adapter s));
      try_finally (run_adapter (s_adapter s) (Num (Int a) :: Num (Int (s_b s)) :: vs))
        (ss' ← gets scopes;
         match ss' !! i with
         | Some s' => set_scope i (MkScope a (s_b s') (s_adapter s'))
         | None => mret ()
         end)
  | None => type_error
  end.
End glue_code.

(** ** Import objects *)

Section imports.
Context {S H : Type} `{!Host S H} `{!Exports S H}.

(** A JavaScript function of [n] parameters; missing arguments are [undefined]. *)
Fixpoint params (n : nat) : Type :=
  match n with O => J S H val | Datatypes.S n => val → params n end.
Fixpoint apply_params (n : nat) : params n → list val → J S H val :=
  match n with
  | O => λ f _, f
  | Datatypes.S n => λ f l, apply_params n (f (hd Undefined l)) (tl l)
  end.

(** A function, with the number of its parameters unless it is the host's. *)
Record func : Type := Func { arity : option nat; apply : list val → J S H val }.
Definition fn (n : nat) (f : params n) : func := Func (Some n) (apply_params n f).

(** An import as written, or wrapped: [function() { return handleError(f, arguments) }]. *)
Inductive import : Type :=
  | Plain (f : func)
  | Caught (f : func).

Definition run_import (i : import) (l : list val) : J S H val :=
  match i with Plain f => apply f l | Caught f => handleError (apply f l) end.

(** The number of parameters of an import. *)
Definition import_arity (i : import) : option nat :=
  match i with Plain f | Caught f => arity f end.
End imports.

(** ** What is relied on of the host and of wasm, and what the imports then guarantee *)

(** The cached views are never stale, and slot 0 of the externref table, which stands for
    "none" in [optional], holds nothing but [undefined]. *)
Definition ok {S H} (r : realm S H) : Prop :=
  cache_ok (glue_of r) ∧ ∀ v, Zget (externrefs r) 0 = Some v → v = Undefined.

(** Host code reaches the realm only through exports and imports, so it keeps an invariant
    [I] that these keep. *)
Class HostKeeps (S H : Type) `{!Host S H} (I : realm S H → Prop) : Prop := {
  host_global_keeps n : preserves I (host_global n);
  host_get_keeps o k : preserves I (host_get o k);
  host_set_keeps o k v : preserves I (host_set o k v);
  host_call_keeps f this vs : preserves I (host_call f this vs);
  host_construct_keeps c vs : preserves I (host_construct c vs);
  host_instanceof_keeps v c : preserves I (host_instanceof v c);
  host_to_number_keeps v : preserves I (host_to_number v);
  host_to_string_keeps v : preserves I (host_to_string v);
  host_read_string_keeps v : preserves I (host_read_string v);
}.

Class HostSafe (S H : Type) `{!Host S H} : Prop := host_safe :: HostKeeps S H ok.

(** The exports: an allocated slot of the externref table exists and is not slot 0; the
    slots and the exception can only fail to be stored by a trap. *)
Class ExportsSafe (S H : Type) `{!Exports S H} `{!Allocator S} : Prop := {
  alloc_safe r o r' : ok r → (wasm_externref_alloc : J S H Z) r = Some (o, r') →
    ok r' ∧ match o with
            | Ok idx => 0 < idx < Zlen (externrefs r')
            | Throw e => e = Native Trap
            end;
  exn_store_safe idx r o r' : ok r → (wasm_exn_store idx : J S H unit) r = Some (o, r') →
    ok r' ∧ externrefs r' = externrefs r ∧
    match o with Ok _ => True | Throw e => e = Native Trap end;
  wasm_call_safe f vs : preserves ok (wasm_call f vs : J S H val);
  exports_steps :: AllocatorSteps S;
}.

(** What the exports do to an invariant. *)
Class ExportsKeep (S H : Type) `{!Exports S H} (I : realm S H → Prop) : Prop := {
  alloc_keeps : preserves I wasm_externref_alloc;
  exn_store_keeps idx : preserves I (wasm_exn_store idx);
  wasm_call_keeps f vs : preserves I (wasm_call f vs);
}.

#[export] Instance exports_keep_ok {S H} `{!Exports S H, !Allocator S, !ExportsSafe S H} :
  ExportsKeep S H ok.
Proof.
  split.
  - intros r o r' Hr Hx. by eapply alloc_safe.
  - intros idx r o r' Hr Hx. by eapply exn_store_safe.
  - intros. apply wasm_call_safe.
Qed.

(** An invariant that holds whatever the glue's own code does: refreshing the caches that
    the module declares ([D]), writing to memory, lending callbacks, and making closures. *)
Class Stable {S H} (D : cache → Prop) (I : realm S H → Prop) : Prop := {
  stable_ok r : I r → ok r;
  stable_helper r :: HelperClosed D (λ g, I (set_glue g r));
  stable_wasm r g g' : wasm_step g g' → I (set_glue g r) → I (set_glue g' r);
  stable_scopes r ss : I r → I (set_scopes ss r);
  stable_closure r fin a b d f : I r →
    I (set_closures (closures r ++ [MkClosure (makeMutClosure fin a b) d f]) r);
}.

(** The table after [__wbindgen_init_externref_table]. *)
Definition init_table (t : list val) : list val :=
  <[0%nat := Undefined]> (t ++ [Undefined; Null; Bool true; Bool false]).

(** An invariant that the glue keeps where it works on the externref table: when it fills the
    slot that wasm has just allocated, and when it sets the table up. *)
Class TableKeeps {S H} `{!Exports S H} (I : realm S H → Prop) : Prop := {
  fill_keeps r idx r1 obj : I r → (wasm_externref_alloc : J S H Z) r = Some (Ok idx, r1) →
    I (set_externrefs (<[Z.to_nat idx := obj]> (externrefs r1)) r1);
  init_keeps r : I r → I (set_externrefs (init_table (externrefs r)) r);
}.

(** One way to be so: to hold whatever is put into the slots but slot 0. *)
Class SlotClosed {S H} (I : realm S H → Prop) : Prop := {
  slot_ok r : I r → ok r;
  slot_closed r idx obj : I r → 0 < idx →
    I (set_externrefs (<[Z.to_nat idx := obj]> (externrefs r)) r);
  init_closed r : I r → I (set_externrefs (init_table (externrefs r)) r);
}.

#[export] Instance slot_closed_keeps {S H} `{!Exports S H, !Allocator S, !ExportsSafe S H}
  (I : realm S H → Prop) `{!ExportsKeep S H I, !SlotClosed I} : TableKeeps I.
Proof.
  split; [|apply init_closed]. intros r idx r1 obj Hr Ha.
  apply slot_closed; [by eapply alloc_keeps|].
  destruct (alloc_safe _ _ _ (slot_ok _ Hr) Ha) as [_ ?]. lia.
Qed.

(** An invariant that is kept where wasm gives up the handle of a closure, in the versions
    of [K]. *)
Class DropsKeep (S H : Type) `{!Exports S H} (K : version → Prop) (I : realm S H → Prop) : Prop :=
  drops_keep v i : K v → preserves I (drop_handle v i).

(** An invariant that says nothing of closures. *)
Class Closureless {S H} (I : realm S H → Prop) : Prop :=
  closures_any r cs : I r → I (set_closures cs r).

Lemma Zget_insert_eq {A} (l : list A) i a :
  0 ≤ i < Zlen l → Zget (<[Z.to_nat i := a]> l) i = Some a.
Proof.
  unfold Zget, Zlen. intros. destruct (Z.leb_spec 0 i); [|lia].
  apply list_lookup_insert_eq. lia.
Qed.

Lemma Zget_insert_ne {A} (l : list A) i j a :
  0 ≤ i → i ≠ j → Zget (<[Z.to_nat i := a]> l) j = Zget l j.
Proof.
  unfold Zget. intros. destruct (Z.leb_spec 0 j); [|done].
  apply list_lookup_insert_ne. lia.
Qed.

Lemma ok_set_externrefs {S H} idx obj (r : realm S H) :
  ok r → 0 < idx ∨ obj = Undefined →
  ok (set_externrefs (<[Z.to_nat idx := obj]> (externrefs r)) r).
Proof.
  intros [Hc Ht] Hi. split; [done|]. simpl. intros v Hv.
  destruct (decide (idx ≤ 0)) as [Hle|Hgt].
  - destruct Hi as [| ->]; [lia|]. replace (Z.to_nat idx) with (Z.to_nat 0) in Hv by lia.
    assert (Hl : 0 ≤ 0 < Zlen (externrefs r)).
    { apply Zget_Some in Hv. unfold Zlen in *. rewrite length_insert in Hv. lia. }
    rewrite Zget_insert_eq in Hv by done. congruence.
  - rewrite Zget_insert_ne in Hv by lia. auto.
Qed.

Lemma ok_init_table {S H} (r : realm S H) :
  ok r → ok (set_externrefs (init_table (externrefs r)) r).
Proof.
  intros [Hc Ht]. split; [done|]. unfold init_table. cbn [set_externrefs externrefs].
  by destruct (externrefs r); intros ? [= <-].
Qed.

#[export] Instance ok_stable {S H} D : Stable (S := S) (H := H) D ok.
Proof.
  split; try done.
  - intros r. split.
    + intros g c _ [? ?]. split; [by apply cache_ok_set_cache|done].
    + intros g bs ? [? ?]. split; [by apply cache_ok_set_bytes|done].
    + intros g n [? ?]. done.
  - intros r g g' Hs [? ?]. split; [by eapply cache_ok_wasm_step|done].
Qed.

#[export] Instance ok_closureless {S H} : Closureless (S := S) (H := H) ok.
Proof. by intros r cs [? ?]. Qed.

#[export] Instance ok_slots {S H} : SlotClosed (S := S) (H := H) ok.
Proof. split; [done|intros; apply ok_set_externrefs; auto|apply ok_init_table]. Qed.

#[export] Hint Resolve host_global_keeps host_get_keeps host_set_keeps host_call_keeps
  host_construct_keeps host_instanceof_keeps host_to_number_keeps host_to_string_keeps
  host_read_string_keeps alloc_keeps exn_store_keeps wasm_call_keeps : preserves.

(** *** Code that only talks to the host *)
Section host_facts.
Context {S H : Type} `{!Host S H} (I : realm S H → Prop) `{!HostKeeps S H I}.
Implicit Types (v : val) (m : J S H val).

Lemma preserves_type_error {A} : preserves I (type_error : J S H A).
Proof. apply preserves_throw. Qed.
Hint Resolve preserves_type_error : preserves.

Lemma preserves_global n : preserves I (global n).
Proof. unfold global. preserves. Qed.
Hint Resolve preserves_global : preserves.

Lemma preserves_get_elem o k : preserves I (get_elem o k).
Proof. unfold get_elem. preserves. Qed.
Lemma preserves_get_prop o p : preserves I (get_prop o p).
Proof. apply preserves_get_elem. Qed.
Hint Resolve preserves_get_elem preserves_get_prop : preserves.

Lemma preserves_set_prop o p m : preserves I m → preserves I (set_prop o p m).
Proof. intros. unfold set_prop, set_elem. preserves. Qed.

Lemma preserves_call f this vs : preserves I (call f this vs).
Proof. unfold call. preserves. Qed.
Hint Resolve preserves_call : preserves.

Lemma preserves_args (l : list (J S H val)) : Forall (preserves I) l → preserves I (args l).
Proof. induction 1; simpl; preserves. Qed.
Hint Resolve preserves_args : preserves.

Lemma preserves_method o p l : Forall (preserves I) l → preserves I (method o p l).
Proof. intros. unfold method. preserves. Qed.
Lemma preserves_call_global f l : Forall (preserves I) l → preserves I (call_global f l).
Proof. intros. unfold call_global. preserves. Qed.
Lemma preserves_construct c l : Forall (preserves I) l → preserves I (construct c l).
Proof. intros. unfold construct. preserves. Qed.

Lemma preserves_ToNumber v : preserves I (ToNumber v).
Proof. destruct v; simpl; auto with preserves. Qed.
Hint Resolve preserves_ToNumber : preserves.
Lemma preserves_int_of v : preserves I (int_of v).
Proof. unfold int_of. preserves. Qed.
Hint Resolve preserves_int_of : preserves.

Lemma preserves_ushr v : preserves I (ushr v).
Proof. unfold ushr. preserves. Qed.
Lemma preserves_enum_at t v : preserves I (enum_at t v).
Proof. unfold enum_at. preserves. Qed.
Lemma preserves_void m : preserves I m → preserves I (void m).
Proof. intros. unfold void. preserves. Qed.
Lemma preserves_instanceof v c : preserves I (instanceof v c).
Proof. unfold instanceof. preserves. Qed.
Lemma preserves_global_or_null x : preserves I (global_or_null x).
Proof. unfold global_or_null. preserves. Qed.
End host_facts.

#[export] Hint Resolve preserves_type_error preserves_global preserves_get_prop
  preserves_get_elem preserves_call preserves_ToNumber preserves_int_of preserves_ushr
  preserves_enum_at preserves_instanceof preserves_global_or_null : preserves.

(** Running code of the glue module keeps what that code keeps. *)
Lemma preserves_in_glue {S H A} (I : realm S H → Prop) (m : G S A) :
  (∀ r, preserves (λ g, I (set_glue g r)) m) → preserves I (in_glue m).
Proof.
  intros Hm r o r' Hr. unfold in_glue.
  assert (Hr0 : I (set_glue (glue_of r) r)) by by destruct r.
  destruct (m (glue_of r)) as [[[a|e] g]|] eqn:E; intros [= <- <-]; exact (Hm r _ _ _ Hr0 E).
Qed.

(** *** The pieces of the imports *)
(** A step of an existing closure. *)
Lemma step_closure_run {S H} i f c (r : realm S H) :
  closures r !! i = Some c →
  step_closure i f r = Some (Ok (f (c_life c)).2,
    set_closures (<[i := MkClosure (f (c_life c)).1 (c_dtor c) (c_adapter c)]> (closures r)) r).
Proof.
  intros Hc. unfold step_closure, closure_at. erewrite M_bind_ok by
    (erewrite M_bind_ok by done; by rewrite Hc).
  destruct (f (c_life c)) as [life es]. by erewrite M_bind_ok.
Qed.

(** What invariants that say nothing of closures need. *)
Section closureless.
Context {S H : Type} `{!Exports S H} (I : realm S H → Prop) `{!Closureless I, !ExportsKeep S H I}.

Lemma preserves_closure_at i : preserves I (closure_at i : J S H closure).
Proof. unfold closure_at. preserves. Qed.
Hint Resolve preserves_closure_at : preserves.

Lemma preserves_step_closure i f : preserves I (step_closure i f : J S H (list effect)).
Proof. unfold step_closure. preserves. apply preserves_modify. intros. by apply closures_any. Qed.
Hint Resolve preserves_step_closure : preserves.

Lemma preserves_destroy v i es : preserves I (destroy v i es).
Proof. unfold destroy. preserves. Qed.
Hint Resolve preserves_destroy : preserves.

#[export] Instance closureless_drops : DropsKeep S H (λ _, True) I.
Proof. intros v i _. unfold drop_handle. preserves. Qed.

Lemma preserves_reached c : preserves I (reached c : J S H unit).
Proof. intros r o r' Hr. unfold reached. destruct (alive _); by intros [= <- <-]. Qed.
Hint Resolve preserves_reached : preserves.

Lemma preserves_real v i vs : preserves I (real v i vs).
Proof. unfold real, run_adapter. preserves; apply preserves_ret. Qed.
End closureless.

Section safety.
Context {S H : Type} `{!Host S H, !Exports S H, !Allocator S} {TC : TextCodec}.
Context `{!ExportsSafe S H} (D : cache → Prop) (I : realm S H → Prop).
Context `{!Stable D I, !TableKeeps I, !HostKeeps S H I, !ExportsKeep S H I}.
Context (has_detached : bool).
Implicit Types (v : val) (m : J S H val).

Abbreviation on_glue r := (λ g, I (set_glue g r)).

Lemma preserves_string_arg p n : D U8 → preserves I (string_arg p n).
Proof.
  intros. unfold string_arg. preserves. apply preserves_in_glue. intros r.
  by apply (preserves_getString D (on_glue r)).
Qed.
Lemma preserves_opt_string_arg p n : D U8 → preserves I (opt_string_arg p n).
Proof.
  intros. unfold opt_string_arg. destruct is_zero; [apply preserves_ret|].
  by apply preserves_string_arg.
Qed.

Lemma preserves_slice_arg c f p n :
  (∀ r p n, preserves (λ g, I (set_glue g r)) (f p n)) → preserves I (slice_arg c f p n).
Proof. intros. unfold slice_arg. preserves. by apply preserves_in_glue. Qed.
Lemma preserves_u8_arg p n : D U8 → preserves I (u8_arg p n).
Proof. intros. apply preserves_slice_arg. intros r ??. by apply (preserves_getArrays D (on_glue r)). Qed.
Lemma preserves_u16_arg p n : D U16 → preserves I (u16_arg p n).
Proof. intros. apply preserves_slice_arg. intros r ??. by apply (preserves_getArrays D (on_glue r)). Qed.
Lemma preserves_u32_arg p n : D U32 → preserves I (u32_arg p n).
Proof. intros. apply preserves_slice_arg. intros r ??. by apply (preserves_getArrays D (on_glue r)). Qed.
Lemma preserves_f32_arg p n : D F32 → preserves I (f32_arg p n).
Proof. intros. apply preserves_slice_arg. intros r ??. by apply (preserves_getArrays D (on_glue r)). Qed.

Lemma preserves_pass v : D U8 → preserves I (pass_string v).
Proof.
  intros. unfold pass_string. preserves.
  apply preserves_in_glue. intros r. apply (preserves_pass_string D (on_glue r)); [done|..].
  - intros. apply preserves_malloc, stable_wasm.
  - intros ? [= <-] ????. apply preserves_realloc, stable_wasm.
Qed.

Lemma preserves_set_i32 p i x : D DV → preserves I (set_i32 has_detached p i x).
Proof.
  intros. unfold set_i32. preserves; apply preserves_in_glue; intros r;
    [by apply (preserves_getDataView D (on_glue r))|by apply (preserves_setInt32 D (on_glue r))].
Qed.
Hint Resolve preserves_pass preserves_set_i32 : preserves.

Lemma preserves_return_string p m :
  D U8 → D DV → preserves I m → preserves I (return_string has_detached p m).
Proof. intros. unfold return_string. preserves. Qed.
Lemma preserves_return_opt_string p m :
  D U8 → D DV → preserves I m → preserves I (return_opt_string has_detached p m).
Proof. intros. unfold return_opt_string. preserves. Qed.

Lemma preserves_free_all l : preserves I (free_all l).
Proof.
  induction l as [|[p n] l IH]; simpl; preserves.
  apply preserves_in_glue. intros r. apply preserves_free, stable_wasm.
Qed.
Lemma preserves_deferred l m : preserves I m → preserves I (deferred l m).
Proof.
  intros. apply preserves_try_finally; [by apply preserves_void|apply preserves_free_all].
Qed.

(** *** The externref table *)

Lemma table_set_run idx obj (r : realm S H) :
  0 ≤ idx < Zlen (externrefs r) →
  table_set idx obj r = Some (Ok (), set_externrefs (<[Z.to_nat idx := obj]> (externrefs r)) r).
Proof.
  intros ?. unfold table_set, gets, mbind, M_bind, modify.
  destruct (Z.leb_spec 0 idx); [|lia].
  by destruct (Z.ltb_spec idx (Zlen (externrefs r))); [|lia].
Qed.

Lemma init_externref_table_run (r : realm S H) :
  init_externref_table r = Some (Ok Undefined, set_externrefs (init_table (externrefs r)) r).
Proof.
  set (t := externrefs r).
  assert (Hset : ∀ idx obj (r : realm S H), 0 ≤ idx < Zlen (externrefs r) → ∀ A (k : unit → J S H A),
    (x ← table_set idx obj; k x) r = k () (set_externrefs (<[Z.to_nat idx := obj]> (externrefs r)) r)).
  { intros idx obj r' Hi A k. by rewrite (M_bind_ok _ _ _ _ _ (table_set_run idx obj r' Hi)). }
  pose proof (Zlen_nonneg t). unfold init_externref_table, table_grow.
  erewrite M_bind_ok by reflexivity. fold t.
  rewrite !Hset; cbn [set_externrefs externrefs]; unfold Zlen in *;
    rewrite ?length_insert, ?length_app, ?length_replicate; try lia.
  unfold mret, M_ret. do 2 f_equal. unfold set_externrefs. cbn [glue_of closures scopes host_of]. f_equal.
  unfold Zlen in *. set (n := length t) in *.
  assert (Z.to_nat (Z.of_nat n + 0) = n + 0)%nat as L0 by lia.
  assert (Z.to_nat (Z.of_nat n + 1) = n + 1)%nat as L1 by lia.
  assert (Z.to_nat (Z.of_nat n + 2) = n + 2)%nat as L2 by lia.
  assert (Z.to_nat (Z.of_nat n + 3) = n + 3)%nat as L3 by lia.
  rewrite L0, L1, L2, L3. subst n. unfold init_table. destruct t as [|v t]; [done|].
  change (length (v :: t)) with (length (Undefined :: t)).
  change (<[Z.to_nat 0 := Undefined]> ((v :: t) ++ replicate 4 Undefined))
    with ((Undefined :: t) ++ replicate 4 Undefined).
  by rewrite !insert_app_r.
Qed.

Lemma preserves_addToExternrefTable0 obj : preserves I (addToExternrefTable0 obj).
Proof.
  intros r o r' Hr. unfold addToExternrefTable0.
  destruct ((wasm_externref_alloc : J S H Z) r) as [[[idx|e] r1]|] eqn:Ha.
  - rewrite (M_bind_ok _ _ _ _ _ Ha).
    destruct (alloc_safe _ _ _ (stable_ok _ Hr) Ha) as [_ Hi].
    rewrite (M_bind_ok _ _ _ _ _ (table_set_run idx obj r1 ltac:(lia))). intros [= <- <-].
    by eapply fill_keeps.
  - rewrite (M_bind_throw _ _ _ _ _ Ha). intros [= <- <-]. by eapply alloc_keeps.
  - unfold mbind, M_bind. by rewrite Ha.
Qed.
Hint Resolve preserves_addToExternrefTable0 : preserves.

Lemma preserves_handleError m : preserves I m → preserves I (handleError m).
Proof. intros. unfold handleError. preserves. Qed.
Lemma preserves_optional m : preserves I m → preserves I (optional m).
Proof. intros. unfold optional. preserves. Qed.

Lemma preserves_init_externref_table : preserves I init_externref_table.
Proof.
  intros r o r' Hr. rewrite init_externref_table_run. intros [= <- <-]. by apply init_keeps.
Qed.

(** *** Closures *)

Lemma preserves_run_adapter f vs : preserves I (run_adapter f vs).
Proof. unfold run_adapter. preserves. apply preserves_ret. Qed.
Hint Resolve preserves_run_adapter : preserves.

Lemma preserves_make_closure v v' d f : preserves I (make_closure v v' d f).
Proof.
  unfold make_closure. do 2 (apply preserves_bind; [auto with preserves|intros ?]).
  intros r o r' Hr [= <- <-]. by apply (stable_closure (I := I)).
Qed.

#[local] Instance is_real_dec v : Decision (∃ i, v = Real i).
Proof. destruct v; (by right; intros []) || (left; by eexists). Defined.

(** Of a value that is no closure of ours, a drop is host code. *)
Lemma preserves_cb_drop_other v : (∀ i, v ≠ Real i) → preserves I (cb_drop v).
Proof.
  intros Hv. unfold cb_drop. destruct v; try (by destruct (Hv i));
    preserves; (apply preserves_set_prop; [done|apply preserves_ret]).
Qed.
Lemma preserves_cb_unref_other v : (∀ i, v ≠ Real i) → preserves I (cb_unref v).
Proof.
  intros Hv. unfold cb_unref. destruct v; try (by destruct (Hv i));
    by apply preserves_void, preserves_method.
Qed.

Context (K : version → Prop) `{!DropsKeep S H K I}.

Lemma preserves_cb_drop v : K Original.version → preserves I (cb_drop v).
Proof.
  intros Hk. destruct (decide (∃ i, v = Real i)) as [[i ->]|Hv].
  - apply preserves_bind; [by apply drops_keep|intros ?; apply preserves_ret].
  - apply preserves_cb_drop_other. naive_solver.
Qed.

Lemma preserves_cb_unref v : K Unref.version → preserves I (cb_unref v).
Proof.
  intros Hk. destruct (decide (∃ i, v = Real i)) as [[i ->]|Hv].
  - apply preserves_bind; [by apply drops_keep|intros ?; apply preserves_ret].
  - apply preserves_cb_unref_other. naive_solver.
Qed.

Lemma preserves_set_scopes (f : realm S H → list scope) :
  preserves I (modify (λ r, set_scopes (f r) r) : J S H unit).
Proof. apply preserves_modify. intros. by apply stable_scopes. Qed.
Hint Resolve preserves_set_scopes : preserves.

Lemma preserves_lend v v' ad k :
  (∀ cb, preserves I (k cb)) → preserves I (lend v v' ad k).
Proof.
  intros. unfold lend, set_scope. preserves.
Qed.

Lemma preserves_cb0 i vs : preserves I (cb0 i vs).
Proof. unfold cb0, set_scope. preserves. Qed.

(** *** Imports *)

(** What an entry of an import object keeps. *)
Lemma import_keeps (i : import) l r o r' :
  I r → (∀ o r', (match i with Plain f | Caught f => apply f l end) r = Some (o, r') → I r') →
  run_import i l r = Some (o, r') → I r'.
Proof.
  intros Hr Hi. destruct i as [f|f]; simpl; [apply Hi|]. unfold handleError, try_catch.
  destruct (apply f l r) as [[[v|e] r1]|] eqn:E; [intros [= <- <-]; by eapply Hi| |done].
  assert (Hp : preserves I (idx ← addToExternrefTable0 e; _ ← wasm_exn_store idx; mret Undefined))
    by preserves.
  apply Hp. by eapply Hi.
Qed.
End safety.

(** *** Realms in good order *)
Section safety_ok.
Context {S H : Type} `{!Host S H, !Exports S H, !Allocator S} {TC : TextCodec}.
Context `{!HostSafe S H, !ExportsSafe S H}.
Implicit Types (v : val) (m : J S H val).

Lemma addToExternrefTable0_spec obj r o r' :
  ok r → (addToExternrefTable0 obj : J S H Z) r = Some (o, r') →
  ok r' ∧ match o with
          | Ok idx => 0 < idx ∧ Zget (externrefs r') idx = Some obj
          | Throw e => e = Native Trap
          end.
Proof.
  intros Hok. unfold addToExternrefTable0.
  destruct ((wasm_externref_alloc : J S H Z) r) as [[o1 r1]|] eqn:Ea;
    [|unfold mbind, M_bind; by rewrite Ea].
  destruct (alloc_safe _ _ _ Hok Ea) as [Hok1 Ho]. destruct o1 as [idx|e].
  - rewrite (M_bind_ok _ _ _ _ _ Ea). rewrite (M_bind_ok _ _ _ _ _ (table_set_run idx obj r1 ltac:(lia))).
    intros [= <- <-]. split; [apply ok_set_externrefs; auto; lia|].
    split; [lia|]. simpl. apply Zget_insert_eq. lia.
  - rewrite (M_bind_throw _ _ _ _ _ Ea). by intros [= <- <-].
Qed.

(** A wrapped import lets nothing but traps through. *)
Lemma handleError_traps m r e r' :
  (∀ o r', m r = Some (o, r') → ok r') → handleError m r = Some (Throw e, r') →
  e = Native Trap.
Proof.
  intros Hm. unfold handleError, try_catch.
  destruct (m r) as [[[v|e1] r1]|] eqn:E1; [done| |done].
  specialize (Hm _ _ eq_refl).
  destruct ((addToExternrefTable0 e1 : J S H Z) r1) as [[[idx|e2] r2]|] eqn:E2.
  - rewrite (M_bind_ok _ _ _ _ _ E2).
    destruct (addToExternrefTable0_spec _ _ _ _ Hm E2) as [Hr2 _].
    destruct ((wasm_exn_store idx : J S H unit) r2) as [[[[]|e3] r3]|] eqn:E3.
    + by rewrite (M_bind_ok _ _ _ _ _ E3).
    + rewrite (M_bind_throw _ _ _ _ _ E3). intros [= -> ->].
      by destruct (exn_store_safe _ _ _ _ Hr2 E3) as (_ & _ & ->).
    + unfold mbind, M_bind. by rewrite E3.
  - rewrite (M_bind_throw _ _ _ _ _ E2). intros [= -> ->].
    by destruct (addToExternrefTable0_spec _ _ _ _ Hm E2) as [_ ->].
  - unfold mbind, M_bind. by rewrite E2.
Qed.

End safety_ok.

#[export] Hint Resolve preserves_string_arg preserves_opt_string_arg preserves_u8_arg
  preserves_u16_arg preserves_u32_arg preserves_f32_arg preserves_make_closure : preserves.

(** Imports are built from the definitions above; follow their structure. *)
Ltac safe_step :=
  lazymatch goal with
  | |- Forall _ [] => exact (List.Forall_nil _)
  | |- Forall _ (_ :: _) => apply List.Forall_cons
  | |- preserves _ (set_prop _ _ _) => apply preserves_set_prop; [exact _|]
  | |- preserves _ (method _ _ _) => apply preserves_method; [exact _|]
  | |- preserves _ (call_global _ _) => apply preserves_call_global; [exact _|]
  | |- preserves _ (construct _ _) => apply preserves_construct; [exact _|]
  | |- preserves _ (void _) => apply preserves_void
  | |- preserves _ (return_string _ _ _) =>
      eapply preserves_return_string; [exact _..|assumption|assumption|]
  | |- preserves _ (return_opt_string _ _ _) =>
      eapply preserves_return_opt_string; [exact _..|assumption|assumption|]
  | |- preserves _ (optional _) => eapply preserves_optional; [exact _..|]
  | |- preserves _ (deferred _ _) => eapply preserves_deferred; [exact _..|]
  | |- preserves _ (lend _ _ _ _) => eapply preserves_lend; [exact _..|intros ?]
  | |- preserves _ init_externref_table => eapply preserves_init_externref_table; exact _
  | |- preserves _ (pass _) => apply preserves_ret
  | |- preserves _ (nonzero _) => apply preserves_ret
  | |- preserves _ _ => solve [eauto with preserves nocore] || preserves_step
  end.

(** ** A small host: the laws are satisfiable *)
Module Toy.
(** Every global, property and result is the object 0, unless a call gets arguments: then
    it throws the first. *)
#[global] Instance host {H} : Host Z H := {
  host_global n := mret (Some (Obj 0));
  host_get o k := mret (Obj 0);
  host_set o k v := mret ();
  host_call f this vs := match vs with [] => mret (Obj 0) | v :: _ => throw v end;
  host_construct c vs := mret (Obj 0);
  host_instanceof v c := mret true;
  host_to_number v := mret (Int 0);
  host_to_string v := mret [];
  host_read_string v := mret [];
  host_callable o := true;
  host_has_registry := true;
}.

(** The externref allocator appends a slot, never the first. *)
#[global] Instance exports : Exports Z unit := {
  wasm_externref_alloc :=
    t ← gets externrefs;
    let t' := match t with [] => [Undefined; Undefined] | _ => t ++ [Undefined] end in
    _ ← modify (set_externrefs t'); mret (Zlen t' - 1);
  wasm_exn_store idx := mret ();
  wasm_call f vs := mret Undefined;
}.

#[global] Instance host_keeps {H} I : HostKeeps Z H I.
Proof.
  split; intros; simpl; auto with preserves.
  destruct vs; [apply preserves_ret|apply preserves_throw].
Qed.
#[global] Instance host_safe : HostSafe Z unit := host_keeps ok.

#[global] Instance exports_safe : ExportsSafe Z unit.
Proof.
  split.
  - intros r o r' [Hc Ht] [= <- <-]. destruct (externrefs r) as [|v t] eqn:E.
    + split; [|done]. split; [done|]. by intros v [= <-].
    + split; [|simpl; zlen; pose proof (Zlen_nonneg t); lia].
      split; [done|]. simpl. intros w Hw. by apply Ht.
  - by intros idx r o r' Hr [= <- <-].
  - intros. apply preserves_ret.
  - apply _.
Qed.

(** A fresh realm: the table the module exports before its start function ran, with one
    page-like stretch of memory. *)
Definition realm0 : realm Z unit :=
  Realm (Glue (Mem (replicate 64 0) 0 32) (λ _, None) 0) [Undefined] [] [] ().

Lemma realm0_ok : ok realm0.
Proof. split; [done|]. by intros v [= <-]. Qed.
End Toy.

(** ** Strings returned through a pointer *)

(** A 32-bit integer as [setInt32(_, x, true)] stores it. *)
Definition le32 (x : Z) : list Z :=
  let u := ToUint32 x in
  [u mod 256; u / 256 mod 256; u / 65536 mod 256; u / 16777216 mod 256].

Section return_string_facts.
Context {S H : Type} `{!Host S H, !Allocator S, !AllocatorLaws S} {TC : TextCodec}.
Implicit Types r : realm S H.

Lemma set_i32_run hd p i x (r : realm S H) :
  cache_ok (glue_of r) → 0 ≤ p + 4 * i → p + 4 * i + 4 ≤ Zlen (bytes (mem (glue_of r))) →
  ∃ r', set_i32 hd (Num (Int p)) i x r = Some (Ok (), r') ∧ cache_ok (glue_of r') ∧
    mem (glue_of r') =
      set_bytes (splice (bytes (mem (glue_of r))) (p + 4 * i) (le32 x)) (mem (glue_of r)).
Proof.
  intros Hc Hp Hl. destruct (getDataView_run hd (glue_of r) Hc) as (g1 & Hg & Hm & _ & Hc1).
  unfold set_i32. erewrite M_bind_ok; [|unfold in_glue; by rewrite Hg].
  erewrite M_bind_ok by done. unfold in_glue, setInt32. simpl.
  unfold gets, mbind, M_bind, modify. rewrite <- Hm in *.
  rewrite detached_current. destruct (Z.ltb_spec (p + 4 * i) 0); [lia|].
  unfold whole. cbn [v_count v_off]. rewrite Z.div_1_r.
  destruct (Z.ltb_spec (Zlen (bytes (mem g1))) (p + 4 * i + 4)); [lia|]. cbn [orb].
  eexists. split; [done|]. simpl. rewrite Z.add_0_l.
  split; [by apply (closed_splice (λ _, True) cache_ok)|done].
Qed.

Lemma pass_string_run s r :
  Forall Utf8.unit_ok s → cache_ok (glue_of r) →
  ∃ o r', (pass_string (Str s) : J S H Z) r = Some (o, r') ∧ cache_ok (glue_of r') ∧
    match o with
    | Ok ptr => string_at (glue_of r') ptr (WASM_VECTOR_LEN (glue_of r')) s
    | Throw e => e = Native Trap
    end.
Proof.
  intros Hs Hc. destruct (pass_string_spec s (glue_of r) Hs Hc) as (o & g' & Hr & Hc' & Ho).
  unfold pass_string, in_glue, mbind, M_bind, mret, M_ret. rewrite Hr.
  destruct o as [p|e]; eexists _, _; (split; [done|]); split; try done. simpl. by rewrite Ho.
Qed.

Lemma pass_string_size `{!AllocatorSteps S} s r r' o n :
  n ≤ Zlen (bytes (mem (glue_of r))) → (pass_string (Str s) : J S H Z) r = Some (o, r') →
  n ≤ Zlen (bytes (mem (glue_of r'))).
Proof.
  intros Hn. set (big := λ g : glue S, n ≤ Zlen (bytes (mem g))).
  assert (Hbig : ∀ g g', wasm_step g g' → big g → big g')
    by (unfold big; intros g g' (_ & _ & _ & ? & _); lia).
  assert (Hp : preserves big (passStringToWasm0 s wasm_malloc (Some wasm_realloc))).
  { apply (preserves_pass_string (λ _, True) big); [done|by intros; apply preserves_malloc|].
    intros ? [= <-] ????. by apply preserves_realloc. }
  unfold pass_string, in_glue, mbind, M_bind, mret, M_ret.
  destruct (passStringToWasm0 _ _ _ _) as [[[q|e] g]|] eqn:E; intros [= <- <-];
    exact (Hp _ _ _ Hn E).
Qed.

(** The two stores at the end. *)
Lemma store_pair_run hd p n ptr s r :
  cache_ok (glue_of r) → string_at (glue_of r) ptr n s →
  0 ≤ p → p + 8 ≤ Zlen (bytes (mem (glue_of r))) →
  ∃ r', (_ ← set_i32 hd (Num (Int p)) 1 n; _ ← set_i32 hd (Num (Int p)) 0 ptr;
         mret Undefined) r = Some (Ok Undefined, r') ∧
    slice (bytes (mem (glue_of r'))) p 8 = le32 ptr ++ le32 n ∧
    (ptr + n ≤ p ∨ p + 8 ≤ ptr → string_at (glue_of r') ptr n s).
Proof.
  intros Hc (Hu & Hl & Hb) Hp Hlen.
  destruct (set_i32_run hd p 1 n r) as (r1 & H1 & Hc1 & Hm1); [done|lia|lia|].
  assert (Hz1 : Zlen (bytes (mem (glue_of r1))) = Zlen (bytes (mem (glue_of r))))
    by (rewrite Hm1; apply Zlen_splice_any).
  destruct (set_i32_run hd p 0 ptr r1) as (r2 & H2 & Hc2 & Hm2); [done|lia|lia|].
  rewrite (M_bind_ok _ _ _ _ _ H1), (M_bind_ok _ _ _ _ _ H2).
  exists r2. split; [done|].
  set (B := bytes (mem (glue_of r))) in *. set (B1 := bytes (mem (glue_of r1))) in *.
  assert (HB1 : B1 = splice B (p + 4) (le32 n)) by (unfold B1; by rewrite Hm1).
  rewrite Hm2. cbn [set_bytes bytes]. fold B1. rewrite Z.mul_0_r, Z.add_0_r.
  assert (Zlen (le32 ptr) = 4) as H4 by done. assert (Zlen (le32 n) = 4) as H4' by done.
  split.
  - rewrite (slice_split _ p 8 4) by lia. f_equal.
    + apply (slice_splice_eq B1 p (le32 ptr)); lia.
    + rewrite slice_splice_ne by lia. rewrite HB1.
      apply (slice_splice_eq B (p + 4) (le32 n)); lia.
  - intros Hd. destruct (live_bounds _ _ _ Hl) as (? & ? & ? & ?). split; [done|]. split.
    + rewrite Hm2. apply live_write; [|apply Zlen_splice_any]. rewrite Hm1.
      apply live_write; [done|apply Zlen_splice_any].
    + rewrite Hm2. cbn [set_bytes bytes]. fold B1. rewrite Z.mul_0_r, Z.add_0_r.
      rewrite slice_splice_ne by lia. rewrite HB1, slice_splice_ne by lia. done.
Qed.
End return_string_facts.

(** ** Properties *)

(** C17: [handleError(f, args)] returns what [f] returns; if [f] throws [e] -- a JavaScript
    exception of any kind -- it returns [undefined] with [e] in a slot of the externref
    table other than slot 0 whose index went to [__wbindgen_exn_store]; only a trap of
    the exports used for that gets through. *)
Theorem handleError_correct {St H} `{!Host St H, !Exports St H, !Allocator St} {TC : TextCodec}
    `{!HostSafe St H, !ExportsSafe St H} (f : J St H val) (r r1 : realm St H) (o : outcome val val) :
  ok r → preserves ok f → f r = Some (o, r1) →
  match o with
  | Ok v => handleError f r = Some (Ok v, r1)
  | Throw e => ∀ o' r', handleError f r = Some (o', r') →
      match o' with
      | Ok v => v = Undefined ∧ ∃ idx r2, 0 < idx ∧ Zget (externrefs r2) idx = Some e ∧
          wasm_exn_store idx r2 = Some (Ok (), r') ∧ Zget (externrefs r') idx = Some e
      | Throw e' => e' = Native Trap
      end
  end.
Proof.
  intros Hr Hf Hrun. pose proof (Hf _ _ _ Hr Hrun) as Hr1.
  destruct o as [v|e]; [unfold handleError, try_catch; by rewrite Hrun|].
  intros [v|e'] r' Hh; [|exact (handleError_traps f r e' r' (λ o1 r2, Hf r o1 r2 Hr) Hh)].
  unfold handleError, try_catch in Hh. rewrite Hrun in Hh.
  destruct (addToExternrefTable0 e r1) as [[[idx|e2] r2]|] eqn:E2.
  - rewrite (M_bind_ok _ _ _ _ _ E2) in Hh.
    destruct (addToExternrefTable0_spec _ _ _ _ Hr1 E2) as [Hr2 [Hi Hz]].
    destruct (wasm_exn_store idx r2) as [[[[]|e3] r3]|] eqn:E3.
    + rewrite (M_bind_ok _ _ _ _ _ E3) in Hh. injection Hh as <- <-.
      destruct (exn_store_safe _ _ _ _ Hr2 E3) as (_ & Ht & _).
      split; [done|]. exists idx, r2. by rewrite Ht.
    + by rewrite (M_bind_throw _ _ _ _ _ E3) in Hh.
    + unfold mbind, M_bind in Hh. by rewrite E3 in Hh.
  - by rewrite (M_bind_throw _ _ _ _ _ E2) in Hh.
  - unfold mbind, M_bind in Hh. by rewrite E2 in Hh.
Qed.

Lemma handleError_correct_witness :
  ∃ r', handleError (throw (Str [98]) : J Z unit val) Toy.realm0 = Some (Ok Undefined, r') ∧
    ∃ idx r2, 0 < idx ∧ Zget (externrefs r2) idx = Some (Str [98]) ∧
      wasm_exn_store idx r2 = Some (Ok (), r') ∧ Zget (externrefs r') idx = Some (Str [98]).
Proof.
  eexists. split; [vm_compute; reflexivity|].
  refine (proj2 (handleError_correct (TC := polyfill_codec) (throw (Str [98])) Toy.realm0
    Toy.realm0 (Throw (Str [98])) Toy.realm0_ok (preserves_throw _ _) eq_refl
    (Ok Undefined) _ _)).
  vm_compute; reflexivity.
Defined.

(** An import that returns an optional object returns 0 exactly for [undefined] and
    [null]; otherwise the index of a slot that holds the object, which is not slot 0 --
    so wasm cannot take an object for "none". *)
Theorem optional_correct {St H} `{!Host St H, !Exports St H, !Allocator St} {TC : TextCodec}
    `{!HostSafe St H, !ExportsSafe St H} (m : J St H val) (r r1 r' : realm St H) (ret : val)
    (o : outcome val val) :
  ok r1 → m r = Some (Ok ret, r1) → optional m r = Some (o, r') →
  match o with
  | Ok v => if isLikeNone ret then v = Num (Int 0)
            else ∃ idx, v = Num (Int idx) ∧ idx ≠ 0 ∧ Zget (externrefs r') idx = Some ret
  | Throw e => isLikeNone ret = false ∧ e = Native Trap
  end.
Proof.
  intros Hr1 Hm. unfold optional. rewrite (M_bind_ok _ _ _ _ _ Hm).
  destruct (isLikeNone ret); [by intros [= <- <-]|].
  destruct (addToExternrefTable0 ret r1) as [[[idx|e2] r2]|] eqn:E2.
  - rewrite (M_bind_ok _ _ _ _ _ E2). intros [= <- <-].
    destruct (addToExternrefTable0_spec _ _ _ _ Hr1 E2) as [_ [? ?]].
    exists idx. split_and!; [done|lia|done].
  - rewrite (M_bind_throw _ _ _ _ _ E2). intros [= <- <-].
    by destruct (addToExternrefTable0_spec _ _ _ _ Hr1 E2) as [_ ->].
  - unfold mbind, M_bind. by rewrite E2.
Qed.

Lemma optional_correct_witness :
  ∃ r', optional (get_prop (Obj 7) "document" : J Z unit val) Toy.realm0 = Some (Ok (Num (Int 1)), r') ∧
  ∃ idx, Num (Int 1) = Num (Int idx) ∧ idx ≠ 0 ∧ Zget (externrefs r') idx = Some (Obj 0).
Proof.
  eexists. split; [vm_compute; reflexivity|].
  exact (optional_correct (TC := polyfill_codec) (get_prop (Obj 7) "document") Toy.realm0 Toy.realm0 _
           (Obj 0) (Ok (Num (Int 1))) Toy.realm0_ok eq_refl eq_refl).
Defined.

(** C16: an import that returns a string through the pointer [p] of its first argument
    leaves at [p] the address and the length of a block that holds the encoding of the
    string (and is still live), provided the allocator did not hand out the return area
    itself; nothing but a trap of the allocator can go wrong. *)
Theorem return_string_correct {St H}
    `{!Host St H, !Allocator St, !AllocatorLaws St, !AllocatorSteps St}
    {TC : TextCodec} (hd : bool) (p : Z) (m : J St H val) (r r1 : realm St H) (s : jsstring) :
  Forall Utf8.unit_ok s → cache_ok (glue_of r1) → m r = Some (Ok (Str s), r1) →
  0 ≤ p → p + 8 ≤ Zlen (bytes (mem (glue_of r1))) →
  ∃ o r', return_string hd (Num (Int p)) m r = Some (o, r') ∧
    match o with
    | Ok v => v = Undefined ∧ ∃ ptr n,
        slice (bytes (mem (glue_of r'))) p 8 = le32 ptr ++ le32 n ∧
        (ptr + n ≤ p ∨ p + 8 ≤ ptr →
         live (mem (glue_of r')) ptr n ∧
         slice (bytes (mem (glue_of r'))) ptr n = tc_encoding s)
    | Throw e => e = Native Trap
    end.
Proof.
  intros Hs Hc Hm Hp Hlen. unfold return_string. rewrite (M_bind_ok _ _ _ _ _ Hm).
  destruct (pass_string_run s r1 Hs Hc) as ([ptr|e] & r2 & Hr2 & Hc2 & Ho).
  - pose proof (pass_string_size s r1 r2 _ _ Hlen Hr2) as Hlen2.
    rewrite (M_bind_ok _ _ _ _ _ Hr2). erewrite M_bind_ok by done.
    destruct (store_pair_run hd p _ ptr s r2 Hc2 Ho Hp Hlen2) as (r3 & Hr3 & Hsl & Hst).
    exists (Ok Undefined), r3. split; [exact Hr3|]. split; [done|].
    exists ptr, (WASM_VECTOR_LEN (glue_of r2)). split; [done|]. intros Hd.
    by destruct (Hst Hd) as (_ & ? & ?).
  - rewrite (M_bind_throw _ _ _ _ _ Hr2). by eexists _, _.
Qed.

Lemma return_string_correct_witness :
  let m := mret (Str [0x41; 0xE9]) : J Z unit val in
  ∃ o r', return_string (TC := polyfill_codec) true (Num (Int 8)) m Toy.realm0 = Some (o, r') ∧
    match o with
    | Ok v => v = Undefined ∧ ∃ ptr n,
        slice (bytes (mem (glue_of r'))) 8 8 = le32 ptr ++ le32 n ∧
        (ptr + n ≤ 8 ∨ 8 + 8 ≤ ptr →
         live (mem (glue_of r')) ptr n ∧
         slice (bytes (mem (glue_of r'))) ptr n =
         tc_encoding (TextCodec := polyfill_codec) [0x41; 0xE9])
    | Throw e => e = Native Trap
    end.
Proof.
  intros m. apply (return_string_correct (TC := polyfill_codec) true 8 m Toy.realm0 Toy.realm0).
  - repeat constructor; by vm_compute.
  - done.
  - done.
  - lia.
  - by vm_compute.
Defined.

(** The callback an import lends to JavaScript (the executor of [new Promise], the body
    of [run]) is dead once the import is over, however it ended: its [state0] is zeroed,
    and a later call reaches wasm with null pointers only. *)
Theorem lent_callback_dies {St H} `{!Host St H, !Exports St H} (arg0 arg1 : val)
    (f : adapter) (k : val → J St H val) (r r' : realm St H) (o : outcome val val) (a b : Z) :
  (int_of arg0 : J St H Z) r = Some (Ok a, r) → (int_of arg1 : J St H Z) r = Some (Ok b, r) →
  (∀ cb n, preserves (λ r, (n ≤ length (scopes r))%nat) (k cb)) →
  lend arg0 arg1 f k r = Some (o, r') →
  let i := length (scopes r) in
  scopes r' !! i = Some (MkScope 0 0 f) ∧
  ∀ vs, ∃ r'', scopes r'' !! i = Some (MkScope 0 0 f) ∧
    cb0 i vs r' = try_finally (run_adapter f (Num (Int 0) :: Num (Int 0) :: vs))
      (ss' ← gets scopes;
       match ss' !! i with
       | Some s' => set_scope i (MkScope 0 (s_b s') (s_adapter s'))
       | None => mret ()
       end) r''.
Proof.
  intros Ha Hb Hk Hrun i. unfold lend in Hrun.
  rewrite (M_bind_ok _ _ _ _ _ Ha), (M_bind_ok _ _ _ _ _ Hb) in Hrun.
  do 2 (erewrite M_bind_ok in Hrun by done).
  set (r1 := set_scopes _ r) in Hrun.
  assert (Hs : scopes r' !! i = Some (MkScope 0 0 f)).
  { unfold try_finally in Hrun. destruct (k (Cb (length (scopes r))) r1) as [[o2 r2]|] eqn:E; [|done].
    assert (Hlen : (S i ≤ length (scopes r2))%nat).
    { eapply Hk; [|exact E]. simpl. rewrite length_app. simpl. unfold i. lia. }
    injection Hrun as _ <-. simpl. apply list_lookup_insert_eq. lia. }
  split; [done|]. intros vs. unfold cb0, gets. erewrite M_bind_ok by done. rewrite Hs.
  erewrite M_bind_ok by done. eexists. split; [|reflexivity].
  simpl. apply list_lookup_insert_eq. by eapply lookup_lt_Some.
Qed.

Lemma lent_callback_dies_witness :
  let f := Adapter 4 "closure474_externref_shim" Ignored in
  ∃ o r', lend (Num (Int 640)) (Num (Int 8)) f (λ cb, throw cb : J Z unit val) Toy.realm0
          = Some (o, r') ∧
  scopes r' !! 0%nat = Some (MkScope 0 0 f) ∧
  ∀ vs, ∃ r'', scopes r'' !! 0%nat = Some (MkScope 0 0 f) ∧
    cb0 0 vs r' = try_finally (run_adapter f (Num (Int 0) :: Num (Int 0) :: vs))
      (ss' ← gets scopes;
       match ss' !! 0%nat with
       | Some s' => set_scope 0 (MkScope 0 (s_b s') (s_adapter s'))
       | None => mret ()
       end) r''.
Proof.
  intros f. eexists _, _. split; [vm_compute; reflexivity|].
  eapply (lent_callback_dies (Num (Int 640)) (Num (Int 8)) f (λ cb, throw cb) Toy.realm0).
  - done.
  - done.
  - intros cb n. apply preserves_throw.
  - vm_compute; reflexivity.
Defined.
