(* ===== verification/DebugString.v ===== *)
(** * [debugString]: what [__wbindgen_debug_string] shows of a value

    The function is in every generated file but the worklet's.  Arrays are shown
    recursively; [stack] is the number of nested calls the engine allows, beyond which it
    throws a RangeError. *)

From Stdlib Require Import String.
From S2P Require Import Prelude TextCodec Memory Closure Glue.

(** ** The regular expression [/\[object ([^\]]+)\]/] *)

Definition bracket : Z := 93.

(** The longest prefix without []], and the rest. *)
Fixpoint span_name (s : jsstring) : jsstring * jsstring :=
  match s with
  | [] => ([], [])
  | c :: s' => if c =? bracket then ([], s)
               else let '(n, rest) := span_name s' in (c :: n, rest)
  end.

Fixpoint strip_prefix (p s : jsstring) : option jsstring :=
  match p, s with
  | [], _ => Some s
  | a :: p, b :: s => if a =? b then strip_prefix p s else None
  | _ :: _, [] => None
  end.

(** A match that begins here: its first group. *)
Definition match_here (s : jsstring) : option jsstring :=
  match strip_prefix (lit "[object ") s with
  | Some s => match span_name s with
              | ((_ :: _) as n, _ :: _) => Some n
              | _ => None
              end
  | None => None
  end.

(** [exec]: the leftmost match. *)
Fixpoint exec (s : jsstring) : option jsstring :=
  match match_here s with
  | Some n => Some n
  | None => match s with [] => None | _ :: s => exec s end
  end.

Section debug.
Context {S H : Type} `{!Host S H}.
Abbreviation J A := (J S H A).

(** [${v}] in a template and [+] with a string. *)
Definition to_string (v : val) : J jsstring :=
  match v with
  | Str s => mret s
  | Undefined => mret (lit "undefined")
  | Null => mret (lit "null")
  | Bool b => mret (lit (if b then "true" else "false"))
  | v => host_to_string v
  end.

(** [Array.isArray(v)] and [toString.call(v)] *)
Definition is_array (v : val) : J val :=
  o ← global "Array"; method o "isArray" [pass v].
Definition object_to_string (v : val) : J val :=
  o ← global "toString"; method o "call" [pass v].

(** The [for] loop over [val[1]], [val[2]], ...: [n] elements are left. *)
Fixpoint debug_rest (dbg : val → J jsstring) (v : val) (i : Z) (n : nat) (debug : jsstring)
    : J jsstring :=
  match n with
  | O => mret debug
  | Datatypes.S n =>
      x ← get_elem v (Num (Int i)); s ← dbg x;
      debug_rest dbg v (i + 1) n (debug ++ lit ", " ++ s)
  end.

(** The branch for arrays. *)
Definition debug_array (dbg : val → J jsstring) (v : val) : J jsstring :=
  length ← get_prop v "length"; length ← int_of length;
  debug ← if 0 <? length
          then x ← get_elem v (Num (Int 0)); s ← dbg x; mret (lit "[" ++ s)
          else mret (lit "[");
  debug ← debug_rest dbg v 1 (Z.to_nat (length - 1)) debug;
  mret (debug ++ lit "]").

(** The branches for the other objects (and bigints). *)
Definition debug_object (v : val) : J jsstring :=
  t ← object_to_string v; t ← to_string t;
  match exec t with
  | None => t ← object_to_string v; to_string t
  | Some className =>
      if bool_decide (className = lit "Object")
      then try_catch
             (o ← global "JSON"; j ← method o "stringify" [pass v]; j ← to_string j;
              mret (lit "Object(" ++ j ++ lit ")"))
             (λ _, mret (lit "Object"))
      else
        e ← global "Error"; b ← host_instanceof v e;
        if (b : bool)
        then name ← get_prop v "name"; name ← to_string name;
             message ← get_prop v "message"; message ← to_string message;
             stack ← get_prop v "stack"; stack ← to_string stack;
             mret (name ++ lit ": " ++ message ++ [10] ++ stack)
        else mret className
  end.

Definition quote (s : jsstring) : jsstring := [34] ++ s ++ [34].

Fixpoint debugString (stack : nat) (v : val) : J jsstring :=
  match stack with
  | O => throw (Native (JsErr RangeError))
  | Datatypes.S stack =>
      match v with
      | Undefined | Null | Bool _ | Num _ => to_string v
      | Str s => mret (quote s)
      | Symbol None => mret (lit "Symbol")
      | Symbol (Some d) => mret (lit "Symbol(" ++ d ++ lit ")")
      | _ =>
          if String.eqb (typeof v) "function" then
            name ← get_prop v "name";
            match name with
            | Str ((_ :: _) as n) => mret (lit "Function(" ++ n ++ lit ")")
            | _ => mret (lit "Function")
            end
          else
            isa ← is_array v;
            if falsy isa then debug_object v else debug_array (debugString stack) v
      end
  end.

(** [debugString(v)] as the value an import passes on. *)
Definition debug_string (stack : nat) (v : val) : J val :=
  s ← debugString stack v; mret (Str s).
End debug.

(** ** The regular expression finds the leftmost class name *)

(** [s] begins with [\[object n\]] for a non-empty [n] without []]. *)
Definition names_here (n s : jsstring) : Prop :=
  n ≠ [] ∧ (bracket ∉ n) ∧ ∃ post, s = lit "[object " ++ n ++ (bracket :: post).

Lemma strip_prefix_spec p s s' : strip_prefix p s = Some s' ↔ s = p ++ s'.
Proof.
  revert s. induction p as [|a p IH]; intros s; simpl; [split; congruence|].
  destruct s as [|c s]; [split; congruence|].
  destruct (Z.eqb_spec a c) as [->|Hne]; [rewrite IH|]; split; congruence.
Qed.

Lemma span_name_spec s n rest :
  span_name s = (n, rest) ↔
  s = n ++ rest ∧ (bracket ∉ n) ∧ (rest = [] ∨ ∃ post, rest = bracket :: post).
Proof.
  revert n rest. induction s as [|c s IH]; intros n rest; simpl.
  - split; [intros [= <- <-]|].
    + split_and!; [done|set_solver|by left].
    + intros (He & _ & _). symmetry in He. by apply app_eq_nil in He as [-> ->].
  - destruct (Z.eqb_spec c bracket) as [->|Hne].
    + split; [intros [= <- <-]; split_and!; [done|set_solver|right; by eexists]|].
      intros (He & Hn & _). destruct n as [|c' n]; [by rewrite He|].
      simplify_eq/=. set_solver.
    + destruct (span_name s) as [n' rest'] eqn:E.
      destruct (proj1 (IH n' rest') eq_refl) as (-> & Hn' & Hr). split.
      * intros [= <- <-]. split_and!; [done|set_solver|done].
      * intros (He & Hn & Hr'). destruct n as [|c' n]; simplify_eq/=.
        { destruct Hr' as [|[? ?]]; simplify_eq. }
        assert (Heq : (n', rest') = (n, rest)) by
          (apply IH; split_and!; [done|set_solver|done]).
        by simplify_eq.
Qed.

Lemma match_here_spec s n : match_here s = Some n ↔ names_here n s.
Proof.
  unfold match_here, names_here.
  destruct (strip_prefix (lit "[object ") s) as [s'|] eqn:E.
  - apply strip_prefix_spec in E as ->.
    destruct (span_name s') as [n' rest] eqn:Es. apply span_name_spec in Es as (-> & Hn & Hr).
    split.
    + destruct n' as [|c n'], rest as [|c' rest]; try done. intros [= <-].
      split_and!; [done|done|]. destruct Hr as [|[post ?]]; simplify_eq. by eexists.
    + intros (Hne & Hn2 & post & He). apply (inj (lit "[object " ++.)) in He.
      assert (Hs : span_name (n' ++ rest) = (n, bracket :: post)) by
        (apply span_name_spec; eauto).
      assert (Hs' : span_name (n' ++ rest) = (n', rest)) by (by apply span_name_spec).
      rewrite Hs in Hs'. simplify_eq. by destruct n'.
  - split; [done|]. intros (_ & _ & post & ->).
    assert (Hx : strip_prefix (lit "[object ") (lit "[object " ++ n ++ (bracket :: post)) =
      Some (n ++ bracket :: post)) by (by apply strip_prefix_spec).
    rewrite Hx in E. done.
Qed.

Lemma exec_spec s n :
  exec s = Some n ↔
  ∃ pre s', s = pre ++ s' ∧ names_here n s' ∧
    ∀ pre2 s2 n2, s = pre2 ++ s2 → names_here n2 s2 → (length pre ≤ length pre2)%nat.
Proof.
  revert n. induction s as [|c s IH]; intros n.
  - split; [done|]. intros (pre & s' & He & (_ & _ & post & ->) & _).
    symmetry in He. by apply app_eq_nil in He as [_ He].
  - cbn [exec]. destruct (match_here (c :: s)) as [m|] eqn:E.
    + apply match_here_spec in E. split.
      * intros [= <-]. exists [], (c :: s). split_and!; [done..|]. simpl. lia.
      * intros (pre & s' & He & Hn & Hmin). specialize (Hmin [] (c :: s) m eq_refl E).
        destruct pre; [|simpl in Hmin; lia]. simpl in He. subst s'.
        apply match_here_spec in Hn, E. congruence.
    + assert (Hno : ∀ n2, ¬ names_here n2 (c :: s))
        by (intros n2 Hn2; apply match_here_spec in Hn2; congruence).
      rewrite IH. split.
      * intros (pre & s' & -> & Hn & Hmin). exists (c :: pre), s'.
        split_and!; [done..|]. intros [|c2 pre2] s2 n2 He Hn2; simplify_eq/=.
        { by apply Hno in Hn2. }
        specialize (Hmin pre2 s2 n2 ltac:(done) Hn2). lia.
      * intros ([|c' pre] & s' & He & Hn & Hmin).
        { simpl in He. subst s'. by apply Hno in Hn. }
        injection He as <- ->. exists pre, s'. split_and!; [done..|].
        intros pre2 s2 n2 He Hn2. rewrite He in Hmin.
        specialize (Hmin (c :: pre2) s2 n2 eq_refl Hn2). simpl in Hmin. lia.
Qed.

Section debug_facts.
Context {S H : Type} `{!Host S H} (I : realm S H → Prop) `{!HostKeeps S H I}.

Lemma preserves_to_string v : preserves I (to_string v : J S H jsstring).
Proof. destruct v; simpl; auto with preserves. Qed.
Hint Resolve preserves_to_string : preserves.

Lemma preserves_object_to_string v :
  preserves I (object_to_string v : J S H val).
Proof.
  unfold object_to_string. repeat safe_step.
Qed.
Hint Resolve preserves_object_to_string : preserves.

Lemma preserves_debug_rest dbg v i n d :
  (∀ x, preserves I (dbg x)) → preserves I (debug_rest dbg v i n d : J S H jsstring).
Proof. intros Hd. revert i d. induction n as [|n IH]; intros; simpl; preserves. Qed.

Lemma preserves_debug_array dbg v :
  (∀ x, preserves I (dbg x)) → preserves I (debug_array dbg v : J S H jsstring).
Proof.
  intros Hd. unfold debug_array. preserves. by apply preserves_debug_rest.
Qed.

Lemma preserves_debug_object v : preserves I (debug_object v : J S H jsstring).
Proof.
  unfold debug_object. repeat safe_step.
Qed.

Lemma preserves_debugString n v : preserves I (debugString n v : J S H jsstring).
Proof.
  revert v. induction n as [|n IH]; intros v; [apply preserves_throw|].
  assert (Ha : preserves I (is_array v : J S H val)).
  { unfold is_array. repeat safe_step. }
  destruct v; cbn [debugString]; try (preserves; fail);
    preserves; auto using preserves_debug_object, preserves_debug_array.
Qed.

Lemma preserves_debug_string n v : preserves I (debug_string n v : J S H val).
Proof. unfold debug_string. preserves. apply preserves_debugString. Qed.
End debug_facts.

#[export] Hint Resolve preserves_debug_string : preserves.

(** ** Nested arrays *)

(** The host's arrays, read only: [elems o] are the elements of the array object [o]. *)
Class ArrayHost (S H : Type) `{!Host S H} (elems : nat → option (list val))
    (num_string : number → jsstring) : Prop := {
  array_object o l : elems o = Some l → host_callable o = false;
  array_is o l r : elems o = Some l → (is_array (Obj o) : J S H val) r = Some (Ok (Bool true), r);
  array_length o l r : elems o = Some l →
    (get_prop (Obj o) "length" : J S H val) r = Some (Ok (Num (Int (Zlen l))), r);
  array_elem o l i x r : elems o = Some l → Zget l i = Some x →
    (get_elem (Obj o) (Num (Int i)) : J S H val) r = Some (Ok x, r);
  number_string n r : (host_to_string (Num n) : J S H jsstring) r = Some (Ok (num_string n), r);
}.

Section nested.
Context {S H : Type} `{!Host S H} (elems : nat → option (list val))
  (num_string : number → jsstring) `{!ArrayHost S H elems num_string}.

Fixpoint join (sep : jsstring) (l : list jsstring) : jsstring :=
  match l with
  | [] => []
  | [s] => s
  | s :: l => s ++ sep ++ join sep l
  end.

(** What should be shown of a tree of arrays of depth below [n] with primitive leaves. *)
Fixpoint render (n : nat) (v : val) : option jsstring :=
  match n with
  | O => None
  | Datatypes.S n =>
      match v with
      | Undefined => Some (lit "undefined")
      | Null => Some (lit "null")
      | Bool b => Some (lit (if b then "true" else "false"))
      | Num x => Some (num_string x)
      | Str s => Some ([34] ++ s ++ [34])
      | Obj o =>
          l ← elems o; ss ← mapM (render n) l;
          Some (lit "[" ++ join (lit ", ") ss ++ lit "]")
      | _ => None
      end
  end.

(** The [for] loop appends the elements that are left. *)
Lemma debug_rest_run dbg o l ss i n d (r : realm S H) :
  elems o = Some l → (∀ x s, (x, s) ∈ zip (drop i l) ss → dbg x r = Some (Ok s, r)) →
  length (drop i l) = length ss → n = length ss →
  debug_rest dbg (Obj o) (Z.of_nat i) n d r =
    Some (Ok (d ++ concat (map (λ s, lit ", " ++ s) ss)), r).
Proof.
  intros Hl Hd Hlen ->. revert i d Hd Hlen. induction ss as [|s ss IH]; intros i d Hd Hlen.
  { simpl. by rewrite app_nil_r. }
  destruct (drop i l) as [|x rest] eqn:E; [done|].
  assert (Hx : l !! i = Some x) by (rewrite <- (Nat.add_0_r i), <- lookup_drop; by rewrite E).
  assert (Hrest : drop (Datatypes.S i) l = rest)
    by (rewrite <- Nat.add_1_r, <- drop_drop, E; done).
  simpl. erewrite M_bind_ok by (apply (array_elem _ l); [done|];
    unfold Zget; rewrite Nat2Z.id; by destruct (Z.leb_spec 0 (Z.of_nat i)); [|lia]).
  erewrite M_bind_ok by (apply Hd; left).
  replace (Z.of_nat i + 1) with (Z.of_nat (Datatypes.S i)) by lia.
  rewrite IH.
  - by rewrite <- !(assoc_L (++)).
  - rewrite Hrest. intros y t Hy. apply Hd. by right.
  - rewrite Hrest. by injection Hlen.
Qed.

Lemma join_cons s ss :
  join (lit ", ") (s :: ss) = s ++ concat (map (λ s, lit ", " ++ s) ss).
Proof.
  revert s. induction ss as [|t ss IH]; intros s; [simpl; by rewrite app_nil_r|].
  cbn [join map concat]. cbn [join] in IH. rewrite IH. by rewrite <- !(assoc_L (++)).
Qed.

Lemma debug_array_run dbg o l ss (r : realm S H) :
  elems o = Some l → Forall2 (λ x s, dbg x r = Some (Ok s, r)) l ss →
  debug_array dbg (Obj o) r = Some (Ok (lit "[" ++ join (lit ", ") ss ++ lit "]"), r).
Proof.
  intros Hl Hd. unfold debug_array.
  erewrite M_bind_ok by by apply (array_length _ l). erewrite M_bind_ok by done.
  cbn [trunc]. destruct Hd as [|x s l' ss' Hx Hd].
  { change (Zlen (@nil val)) with 0. cbn. reflexivity. }
  rewrite Zlen_cons. pose proof (Zlen_nonneg l').
  destruct (Z.ltb_spec 0 (1 + Zlen l')); [|lia].
  assert (He : get_elem (Obj o) (Num (Int 0)) r = Some (Ok x, r))
    by by apply (array_elem _ (x :: l')).
  assert (Hf : (x ← get_elem (Obj o) (Num (Int 0)); s ← dbg x; mret (lit "[" ++ s)) r =
    Some (Ok (lit "[" ++ s), r))
    by (by rewrite (M_bind_ok _ _ _ _ _ He), (M_bind_ok _ _ _ _ _ Hx)).
  rewrite (M_bind_ok _ _ _ _ _ Hf).
  erewrite M_bind_ok.
  2: { apply (debug_rest_run dbg o (x :: l') ss' 1); [done|..].
       - intros y t Hy. rewrite Forall2_lookup in Hd. cbn [drop] in Hy.
         rewrite drop_0 in Hy. apply list_elem_of_lookup in Hy as [j Hj].
         apply lookup_zip_Some in Hj as [Hj1 Hj2]. specialize (Hd j).
         rewrite Hj1, Hj2 in Hd. by inv Hd.
       - simpl. rewrite drop_0. by eapply Forall2_length.
       - apply Forall2_length in Hd. unfold Zlen. lia. }
  rewrite join_cons. unfold mret, M_ret. by rewrite <- !(assoc_L (++)).
Qed.

Lemma render_run n v s stack (r : realm S H) :
  (n ≤ stack)%nat → render n v = Some s → debugString stack v r = Some (Ok s, r).
Proof.
  revert v s stack. induction n as [|n IH]; intros v s [|stack] Hn Hv; [done..|lia|].
  cbn [render] in Hv. destruct v; simplify_eq; try done; cbn [debugString to_string].
  { apply number_string. }
  destruct (elems o) as [l|] eqn:E; [|done]. simpl in Hv.
  destruct (mapM (render n) l) as [ss|] eqn:Em; simplify_eq/=.
  rewrite (array_object o l E). cbn [String.eqb Ascii.eqb Bool.eqb].
  erewrite M_bind_ok by by apply (array_is o l). cbn [falsy is_zero].
  apply (debug_array_run _ _ l); [done|].
  apply mapM_Some in Em. eapply Forall2_impl; [|exact Em].
  intros x t Hx. apply IH; [lia|done].
Qed.
End nested.

(** A read-only host of three arrays: [\[1, \[true, null\]\]], its second element, and one
    that contains itself. *)
Module ArrayToy.
Definition elems (o : nat) : option (list val) :=
  match o with
  | 0%nat => Some [Num (Int 1); Obj 1]
  | 1%nat => Some [Bool true; Null]
  | 2%nat => Some [Obj 2; Num (Int 1)]
  | _ => None
  end.
Definition num_string (n : number) : jsstring := lit "1".

(** The object 3 is [Array], 4 is [Array.isArray]. *)
Definition host : Host Z unit := {|
  host_global n := mret (Some (Obj 3));
  host_get o k := mret
    match o, k with
    | Obj 3, _ => Obj 4
    | Obj o, Str _ => match elems o with Some l => Num (Int (Zlen l)) | None => Undefined end
    | Obj o, Num (Int i) =>
        match elems o with Some l => default Undefined (Zget l i) | None => Undefined end
    | _, _ => Undefined
    end;
  host_set o k v := mret ();
  host_call f this vs := mret
    match vs with
    | [Obj o] => Bool (match elems o with Some _ => true | None => false end)
    | _ => Bool false
    end;
  host_construct c vs := mret Undefined;
  host_instanceof v c := mret false;
  host_to_number v := mret (Int 0);
  host_to_string v := mret (lit "1");
  host_read_string v := mret [];
  host_callable o := (o =? 4)%nat;
  host_has_registry := true;
|}.

Lemma array_host : ArrayHost Z unit (Host0 := host) elems num_string.
Proof.
  split.
  - intros [|[|[|o]]] l; simpl; done.
  - intros [|[|[|o]]] l r; simpl; done.
  - intros [|[|[|o]]] l r; simpl; intros; by simplify_eq.
  - intros [|[|[|o]]] l i x r; simpl; try done; intros [= <-] Hx;
      cbv -[Zget]; by rewrite Hx.
  - done.
Qed.
End ArrayToy.

(** ** Properties *)

(** The regular expression of [debugString] finds a class name exactly if the string
    contains [\[object n\]] for a non-empty [n] without []], and then the leftmost one. *)
Theorem class_name_correct (s n : jsstring) :
  (exec s = Some n ↔
   ∃ pre s', s = pre ++ s' ∧ names_here n s' ∧
     ∀ pre2 s2 n2, s = pre2 ++ s2 → names_here n2 s2 → (length pre ≤ length pre2)%nat) ∧
  (exec s = None ↔ ∀ pre s' n', s = pre ++ s' → ¬ names_here n' s').
Proof.
  split; [apply exec_spec|]. split.
  - intros He. induction s as [|c s IH]; intros pre s' n' Hs Hn.
    + symmetry in Hs. apply app_eq_nil in Hs as [_ ->]. by destruct Hn as (_ & _ & ? & ?).
    + cbn [exec] in He. destruct (match_here (c :: s)) eqn:Em; [done|].
      destruct pre as [|c' pre]; simpl in Hs.
      * subst s'. apply match_here_spec in Hn. congruence.
      * injection Hs as _ ->. exact (IH He pre s' n' eq_refl Hn).
  - intros Hno. destruct (exec s) as [m|] eqn:E; [|done].
    apply exec_spec in E as (pre & s' & Hs & Hn & _). destruct (Hno pre s' m Hs Hn).
Qed.

(** C37: with enough stack for the nesting, [debugString] shows a tree of arrays with
    primitive leaves as brackets around the comma-separated elements, strings in quotes,
    and changes nothing. *)
Theorem debugString_tree {St H} `{!Host St H} (elems : nat → option (list val))
    (num_string : number → jsstring) `{!ArrayHost St H elems num_string}
    (n stack : nat) (v : val) (s : jsstring) (r : realm St H) :
  (n ≤ stack)%nat → render elems num_string n v = Some s →
  debugString stack v r = Some (Ok s, r).
Proof. intros. by apply (render_run elems num_string n). Qed.

Lemma debugString_tree_witness :
  debugString (Host0 := ArrayToy.host) 3 (Obj 0) Toy.realm0 =
    Some (Ok (lit "[1, [true, null]]"), Toy.realm0).
Proof.
  apply (debugString_tree (Host0 := ArrayToy.host) ArrayToy.elems ArrayToy.num_string
           (ArrayHost0 := ArrayToy.array_host) 3 3 (Obj 0)); [lia|].
  vm_compute; reflexivity.
Defined.

(** An array that begins with itself is not shown: whatever the stack, [debugString]
    ends in the engine's RangeError (and not in an endless loop). *)
Theorem debugString_cycle {St H} `{!Host St H} (elems : nat → option (list val))
    (num_string : number → jsstring) `{!ArrayHost St H elems num_string}
    (stack : nat) (o : nat) (l : list val) (r : realm St H) :
  elems o = Some (Obj o :: l) →
  debugString stack (Obj o) r = Some (Throw (Native (JsErr RangeError)), r).
Proof.
  intros Hl. induction stack as [|stack IH]; [done|]. cbn [debugString typeof].
  rewrite (array_object o _ Hl). cbn [String.eqb Ascii.eqb Bool.eqb].
  erewrite M_bind_ok by by eapply array_is. cbn [falsy is_zero]. unfold debug_array.
  erewrite M_bind_ok by by eapply array_length. erewrite M_bind_ok by done. cbn [trunc].
  rewrite Zlen_cons. pose proof (Zlen_nonneg l). destruct (Z.ltb_spec 0 (1 + Zlen l)); [|lia].
  assert (He : get_elem (Obj o) (Num (Int 0)) r = Some (Ok (Obj o), r))
    by by eapply array_elem.
  apply M_bind_throw. rewrite (M_bind_ok _ _ _ _ _ He). by apply M_bind_throw.
Qed.

Lemma debugString_cycle_witness :
  debugString (Host0 := ArrayToy.host) 5 (Obj 2) Toy.realm0 =
    Some (Throw (Native (JsErr RangeError)), Toy.realm0).
Proof.
  apply (debugString_cycle (Host0 := ArrayToy.host) ArrayToy.elems ArrayToy.num_string
           (ArrayHost0 := ArrayToy.array_host) 5 2 [Num (Int 1)]).
  reflexivity.
Defined.
