(* ===== verification/Loopback.v ===== *)
(** * The import object of the wgpu loopback example

    [__wbg_get_imports] of src/examples/wgpu/dist/loopback-65daf9cf8bd0f5a7.js:
    every function the wasm module can call, in the order of the file, as tables of
    [Glue]'s imports; and the enumerations its setters use. *)

From Stdlib Require Import String.
From S2P Require Import Prelude TextCodec Memory Closure Glue DebugString Loader Session.

Definition __wbindgen_enum_GpuAddressMode : list string := ["clamp-to-edge"; "repeat";
  "mirror-repeat"].
Definition __wbindgen_enum_GpuBlendFactor : list string := ["zero"; "one"; "src";
  "one-minus-src"; "src-alpha"; "one-minus-src-alpha"; "dst"; "one-minus-dst"; "dst-alpha";
  "one-minus-dst-alpha"; "src-alpha-saturated"; "constant"; "one-minus-constant"; "src1";
  "one-minus-src1"; "src1-alpha"; "one-minus-src1-alpha"].
Definition __wbindgen_enum_GpuBlendOperation : list string := ["add"; "subtract";
  "reverse-subtract"; "min"; "max"].
Definition __wbindgen_enum_GpuBufferBindingType : list string := ["uniform"; "storage";
  "read-only-storage"].
Definition __wbindgen_enum_GpuCompareFunction : list string := ["never"; "less"; "equal";
  "less-equal"; "greater"; "not-equal"; "greater-equal"; "always"].
Definition __wbindgen_enum_GpuCullMode : list string := ["none"; "front"; "back"].
Definition __wbindgen_enum_GpuDeviceLostReason : list string := ["unknown"; "destroyed"].
Definition __wbindgen_enum_GpuErrorFilter : list string := ["validation"; "out-of-memory";
  "internal"].
Definition __wbindgen_enum_GpuFilterMode : list string := ["nearest"; "linear"].
Definition __wbindgen_enum_GpuFrontFace : list string := ["ccw"; "cw"].
Definition __wbindgen_enum_GpuIndexFormat : list string := ["uint16"; "uint32"].
Definition __wbindgen_enum_GpuLoadOp : list string := ["load"; "clear"].
Definition __wbindgen_enum_GpuMipmapFilterMode : list string := ["nearest"; "linear"].
Definition __wbindgen_enum_GpuPowerPreference : list string := ["low-power";
  "high-performance"].
Definition __wbindgen_enum_GpuPrimitiveTopology : list string := ["point-list"; "line-list";
  "line-strip"; "triangle-list"; "triangle-strip"].
Definition __wbindgen_enum_GpuQueryType : list string := ["occlusion"; "timestamp"].
Definition __wbindgen_enum_GpuSamplerBindingType : list string := ["filtering"; "non-filtering";
  "comparison"].
Definition __wbindgen_enum_GpuStencilOperation : list string := ["keep"; "zero"; "replace";
  "invert"; "increment-clamp"; "decrement-clamp"; "increment-wrap"; "decrement-wrap"].
Definition __wbindgen_enum_GpuStorageTextureAccess : list string := ["write-only"; "read-only";
  "read-write"].
Definition __wbindgen_enum_GpuStoreOp : list string := ["store"; "discard"].
Definition __wbindgen_enum_GpuTextureAspect : list string := ["all"; "stencil-only";
  "depth-only"].
Definition __wbindgen_enum_GpuTextureDimension : list string := ["1d"; "2d"; "3d"].
Definition __wbindgen_enum_GpuTextureFormat : list string := ["r8unorm"; "r8snorm"; "r8uint";
  "r8sint"; "r16uint"; "r16sint"; "r16float"; "rg8unorm"; "rg8snorm"; "rg8uint"; "rg8sint";
  "r32uint"; "r32sint"; "r32float"; "rg16uint"; "rg16sint"; "rg16float"; "rgba8unorm";
  "rgba8unorm-srgb"; "rgba8snorm"; "rgba8uint"; "rgba8sint"; "bgra8unorm"; "bgra8unorm-srgb";
  "rgb9e5ufloat"; "rgb10a2uint"; "rgb10a2unorm"; "rg11b10ufloat"; "rg32uint"; "rg32sint";
  "rg32float"; "rgba16uint"; "rgba16sint"; "rgba16float"; "rgba32uint"; "rgba32sint";
  "rgba32float"; "stencil8"; "depth16unorm"; "depth24plus"; "depth24plus-stencil8";
  "depth32float"; "depth32float-stencil8"; "bc1-rgba-unorm"; "bc1-rgba-unorm-srgb";
  "bc2-rgba-unorm"; "bc2-rgba-unorm-srgb"; "bc3-rgba-unorm"; "bc3-rgba-unorm-srgb";
  "bc4-r-unorm"; "bc4-r-snorm"; "bc5-rg-unorm"; "bc5-rg-snorm"; "bc6h-rgb-ufloat";
  "bc6h-rgb-float"; "bc7-rgba-unorm"; "bc7-rgba-unorm-srgb"; "etc2-rgb8unorm";
  "etc2-rgb8unorm-srgb"; "etc2-rgb8a1unorm"; "etc2-rgb8a1unorm-srgb"; "etc2-rgba8unorm";
  "etc2-rgba8unorm-srgb"; "eac-r11unorm"; "eac-r11snorm"; "eac-rg11unorm"; "eac-rg11snorm";
  "astc-4x4-unorm"; "astc-4x4-unorm-srgb"; "astc-5x4-unorm"; "astc-5x4-unorm-srgb";
  "astc-5x5-unorm"; "astc-5x5-unorm-srgb"; "astc-6x5-unorm"; "astc-6x5-unorm-srgb";
  "astc-6x6-unorm"; "astc-6x6-unorm-srgb"; "astc-8x5-unorm"; "astc-8x5-unorm-srgb";
  "astc-8x6-unorm"; "astc-8x6-unorm-srgb"; "astc-8x8-unorm"; "astc-8x8-unorm-srgb";
  "astc-10x5-unorm"; "astc-10x5-unorm-srgb"; "astc-10x6-unorm"; "astc-10x6-unorm-srgb";
  "astc-10x8-unorm"; "astc-10x8-unorm-srgb"; "astc-10x10-unorm"; "astc-10x10-unorm-srgb";
  "astc-12x10-unorm"; "astc-12x10-unorm-srgb"; "astc-12x12-unorm"; "astc-12x12-unorm-srgb"].
Definition __wbindgen_enum_GpuTextureSampleType : list string := ["float"; "unfilterable-float";
  "depth"; "sint"; "uint"].
Definition __wbindgen_enum_GpuTextureViewDimension : list string := ["1d"; "2d"; "2d-array";
  "cube"; "cube-array"; "3d"].
Definition __wbindgen_enum_GpuVertexFormat : list string := ["uint8"; "uint8x2"; "uint8x4";
  "sint8"; "sint8x2"; "sint8x4"; "unorm8"; "unorm8x2"; "unorm8x4"; "snorm8"; "snorm8x2";
  "snorm8x4"; "uint16"; "uint16x2"; "uint16x4"; "sint16"; "sint16x2"; "sint16x4"; "unorm16";
  "unorm16x2"; "unorm16x4"; "snorm16"; "snorm16x2"; "snorm16x4"; "float16"; "float16x2";
  "float16x4"; "float32"; "float32x2"; "float32x3"; "float32x4"; "uint32"; "uint32x2";
  "uint32x3"; "uint32x4"; "sint32"; "sint32x2"; "sint32x3"; "sint32x4"; "unorm10-10-10-2";
  "unorm8x4-bgra"].
Definition __wbindgen_enum_GpuVertexStepMode : list string := ["vertex"; "instance"].

(** The adapters of closures. *)
Definition __wbg_adapter_30 : adapter := Adapter 3 "closure566_externref_shim" Ignored.
Definition __wbg_adapter_33 : adapter := Adapter 3 "closure583_externref_shim" Ignored.

Section imports.
Context {S H : Type} `{!Host S H} `{!Exports S H} `{!Allocator S} {TC : TextCodec}.
(** [ArrayBuffer.prototype.detached] exists; the depth of the engine's stack. *)
Context (hd : bool) (stack : nat).

(** Lines 315 to 461. *)
Definition imports_1 : list (string * import (S := S) (H := H)) := [
  ("__wbg_Window_012086356a161dce",
    Plain (fn 1 (λ arg0, get_prop arg0 "Window")));
  ("__wbg_WorkerGlobalScope_dbe19b83176b742b",
    Plain (fn 1 (λ arg0, get_prop arg0 "WorkerGlobalScope")));
  ("__wbg_beginComputePass_eb489d88a5327674",
    Plain (fn 2 (λ arg0 arg1, method arg0 "beginComputePass" [pass arg1])));
  ("__wbg_beginRenderPass_350345dc19419939",
    Caught (fn 2 (λ arg0 arg1, method arg0 "beginRenderPass" [pass arg1])));
  ("__wbg_buffer_09165b52af8c5237",
    Plain (fn 1 (λ arg0, get_prop arg0 "buffer")));
  ("__wbg_buffer_609cc3eee51ed158",
    Plain (fn 1 (λ arg0, get_prop arg0 "buffer")));
  ("__wbg_call_672a4d21634d4a24",
    Caught (fn 2 (λ arg0 arg1, method arg0 "call" [pass arg1])));
  ("__wbg_clearBuffer_227e90371e1229a9",
    Plain (fn 3 (λ arg0 arg1 arg2, void (method arg0 "clearBuffer" [pass arg1; pass arg2]))));
  ("__wbg_clearBuffer_f624f44ffac88a65",
    Plain (fn 4 (λ arg0 arg1 arg2 arg3, void (method arg0 "clearBuffer" [pass arg1; pass arg2;
        pass arg3]))));
  ("__wbg_copyBufferToBuffer_6fe483ce4a07f7c8",
    Caught (fn 6 (λ arg0 arg1 arg2 arg3 arg4 arg5, void (method arg0 "copyBufferToBuffer"
        [pass arg1; pass arg2; pass arg3; pass arg4; pass arg5]))));
  ("__wbg_copyBufferToTexture_d594d5485ac49f52",
    Caught (fn 4 (λ arg0 arg1 arg2 arg3, void (method arg0 "copyBufferToTexture" [pass arg1;
        pass arg2; pass arg3]))));
  ("__wbg_copyExternalImageToTexture_7c860a6f9d3d8b4e",
    Caught (fn 4 (λ arg0 arg1 arg2 arg3, void (method arg0 "copyExternalImageToTexture" [pass
        arg1; pass arg2; pass arg3]))));
  ("__wbg_copyTextureToBuffer_569bd20852d0378a",
    Caught (fn 4 (λ arg0 arg1 arg2 arg3, void (method arg0 "copyTextureToBuffer" [pass arg1;
        pass arg2; pass arg3]))));
  ("__wbg_copyTextureToTexture_f6b42e055f9f6a97",
    Caught (fn 4 (λ arg0 arg1 arg2 arg3, void (method arg0 "copyTextureToTexture" [pass arg1;
        pass arg2; pass arg3]))));
  ("__wbg_createBindGroupLayout_ccaa5d2aa2a2ae17",
    Caught (fn 2 (λ arg0 arg1, method arg0 "createBindGroupLayout" [pass arg1])));
  ("__wbg_createBindGroup_799a4c63deccf40c",
    Plain (fn 2 (λ arg0 arg1, method arg0 "createBindGroup" [pass arg1])));
  ("__wbg_createBuffer_a19c4c09aa7e61c6",
    Caught (fn 2 (λ arg0 arg1, method arg0 "createBuffer" [pass arg1])));
  ("__wbg_createCommandEncoder_3c9ad92fb9f1235d",
    Plain (fn 2 (λ arg0 arg1, method arg0 "createCommandEncoder" [pass arg1])));
  ("__wbg_createComputePipeline_5bc685ade9b4da65",
    Plain (fn 2 (λ arg0 arg1, method arg0 "createComputePipeline" [pass arg1])));
  ("__wbg_createPipelineLayout_0718a3eb9884dcfb",
    Plain (fn 2 (λ arg0 arg1, method arg0 "createPipelineLayout" [pass arg1])));
  ("__wbg_createQuerySet_d6541ea3488cdff3",
    Caught (fn 2 (λ arg0 arg1, method arg0 "createQuerySet" [pass arg1])));
  ("__wbg_createRenderBundleEncoder_9791a47b62d9307c",
    Caught (fn 2 (λ arg0 arg1, method arg0 "createRenderBundleEncoder" [pass arg1])));
  ("__wbg_createRenderPipeline_4429522c4a8eaaf8",
    Caught (fn 2 (λ arg0 arg1, method arg0 "createRenderPipeline" [pass arg1])));
  ("__wbg_createSampler_8f8704d5382370c3",
    Plain (fn 2 (λ arg0 arg1, method arg0 "createSampler" [pass arg1])));
  ("__wbg_createShaderModule_9e08b1b6ae277929",
    Plain (fn 2 (λ arg0 arg1, method arg0 "createShaderModule" [pass arg1])));
  ("__wbg_createTexture_96a508752fa02d41",
    Caught (fn 2 (λ arg0 arg1, method arg0 "createTexture" [pass arg1])));
  ("__wbg_destroy_828657127ee78c34",
    Plain (fn 1 (λ arg0, void (method arg0 "destroy" []))));
  ("__wbg_destroy_c85f57bff04f76c0",
    Plain (fn 1 (λ arg0, void (method arg0 "destroy" []))));
  ("__wbg_dispatchWorkgroupsIndirect_a08a26c640f286e2",
    Plain (fn 3 (λ arg0 arg1 arg2, void (method arg0 "dispatchWorkgroupsIndirect" [pass arg1;
        pass arg2]))));
  ("__wbg_dispatchWorkgroups_fad6ffff4d7bf751",
    Plain (fn 4 (λ arg0 arg1 arg2 arg3, void (method arg0 "dispatchWorkgroups" [ushr arg1;
        ushr arg2; ushr arg3]))));
  ("__wbg_document_d249400bd7bd996d",
    Plain (fn 1 (λ arg0, optional (get_prop arg0 "document"))));
  ("__wbg_done_769e5ede4b31c67b",
    Plain (fn 1 (λ arg0, get_prop arg0 "done")));
  ("__wbg_end_4afeb869c57e2895",
    Plain (fn 1 (λ arg0, void (method arg0 "end" []))));
  ("__wbg_error_7534b8e9a36f1ab4",
    Plain (fn 2 (λ arg0 arg1, deferred [(arg0, arg1)] (o ← global "console"; method o "error"
        [string_arg arg0 arg1]))));
  ("__wbg_error_91a90ac8fc4305b8",
    Plain (fn 1 (λ arg0, get_prop arg0 "error")));
  ("__wbg_features_06c1298a671dd8a3",
    Plain (fn 1 (λ arg0, get_prop arg0 "features")));
  ("__wbg_features_ea2949142684633e",
    Plain (fn 1 (λ arg0, get_prop arg0 "features")));
  ("__wbg_finish_0169ed1c762f9db3",
    Plain (fn 1 (λ arg0, method arg0 "finish" [])))
].

(** Lines 462 to 611. *)
Definition imports_2 : list (string * import (S := S) (H := H)) := [
  ("__wbg_finish_10ad953096805038",
    Plain (fn 2 (λ arg0 arg1, method arg0 "finish" [pass arg1])));
  ("__wbg_getBindGroupLayout_40cd8989f50be5e8",
    Plain (fn 2 (λ arg0 arg1, method arg0 "getBindGroupLayout" [ushr arg1])));
  ("__wbg_getContext_e9cf379449413580",
    Caught (fn 3 (λ arg0 arg1 arg2, optional (method arg0 "getContext" [string_arg arg1
        arg2]))));
  ("__wbg_getContext_f65a0debd1e8f8e8",
    Caught (fn 3 (λ arg0 arg1 arg2, optional (method arg0 "getContext" [string_arg arg1
        arg2]))));
  ("__wbg_getMappedRange_6d2048e506f70687",
    Caught (fn 3 (λ arg0 arg1 arg2, method arg0 "getMappedRange" [pass arg1; pass arg2])));
  ("__wbg_getRandomValues_3c9c0d586e575a16",
    Caught (fn 2 (λ arg0 arg1, void (o ← global "globalThis"; o ← get_prop o "crypto"; method
        o "getRandomValues" [u8_arg arg0 arg1]))));
  ("__wbg_get_e27dfaeb6f46bd45",
    Plain (fn 2 (λ arg0 arg1, optional (k ← ushr arg1; get_elem arg0 k))));
  ("__wbg_gpu_9190c45d483af352",
    Plain (fn 1 (λ arg0, get_prop arg0 "gpu")));
  ("__wbg_has_bd26e8330abc96fb",
    Plain (fn 3 (λ arg0 arg1 arg2, method arg0 "has" [string_arg arg1 arg2])));
  ("__wbg_instanceof_GpuAdapter_0e209d47dbec389c",
    Plain (fn 1 (λ arg0, instanceof arg0 "GPUAdapter")));
  ("__wbg_instanceof_GpuCanvasContext_e63ee96c5bd33b0b",
    Plain (fn 1 (λ arg0, instanceof arg0 "GPUCanvasContext")));
  ("__wbg_instanceof_GpuDeviceLostInfo_f8cb5633c29eedc6",
    Plain (fn 1 (λ arg0, instanceof arg0 "GPUDeviceLostInfo")));
  ("__wbg_instanceof_GpuOutOfMemoryError_6f18f6008848583c",
    Plain (fn 1 (λ arg0, instanceof arg0 "GPUOutOfMemoryError")));
  ("__wbg_instanceof_GpuValidationError_957f7b58d3996e29",
    Plain (fn 1 (λ arg0, instanceof arg0 "GPUValidationError")));
  ("__wbg_instanceof_Object_7f2dcef8f78644a4",
    Plain (fn 1 (λ arg0, instanceof arg0 "Object")));
  ("__wbg_instanceof_Window_def73ea0955fc569",
    Plain (fn 1 (λ arg0, instanceof arg0 "Window")));
  ("__wbg_keys_18bd91b10ade706b",
    Plain (fn 1 (λ arg0, method arg0 "keys" [])));
  ("__wbg_label_1f84f92f09ba5b0a",
    Plain (fn 2 (λ arg0 arg1, return_string hd arg0 (get_prop arg1 "label"))));
  ("__wbg_length_a446193dc22c12f8",
    Plain (fn 1 (λ arg0, get_prop arg0 "length")));
  ("__wbg_limits_b183be320685ed8f",
    Plain (fn 1 (λ arg0, get_prop arg0 "limits")));
  ("__wbg_limits_e57569af160aeddc",
    Plain (fn 1 (λ arg0, get_prop arg0 "limits")));
  ("__wbg_log_0cc1b7768397bcfe",
    Plain (fn 8 (λ arg0 arg1 arg2 arg3 arg4 arg5 arg6 arg7, deferred [(arg0, arg1)] (o ←
        global "console"; method o "log" [string_arg arg0 arg1; string_arg arg2 arg3;
        string_arg arg4 arg5; string_arg arg6 arg7]))));
  ("__wbg_log_cb9e190acc5753fb",
    Plain (fn 2 (λ arg0 arg1, deferred [(arg0, arg1)] (o ← global "console"; method o "log"
        [string_arg arg0 arg1]))))
].

(** Lines 612 to 760. *)
Definition imports_3 : list (string * import (S := S) (H := H)) := [
  ("__wbg_lost_42849e3dfd856dcf",
    Plain (fn 1 (λ arg0, get_prop arg0 "lost")));
  ("__wbg_mapAsync_6c6e4e801161924c",
    Plain (fn 4 (λ arg0 arg1 arg2 arg3, method arg0 "mapAsync" [ushr arg1; pass arg2; pass
        arg3])));
  ("__wbg_mark_7438147ce31e9d4b",
    Plain (fn 2 (λ arg0 arg1, void (o ← global "performance"; method o "mark" [string_arg arg0
        arg1]))));
  ("__wbg_maxBindGroups_38117bf16c093492",
    Plain (fn 1 (λ arg0, get_prop arg0 "maxBindGroups")));
  ("__wbg_maxBindingsPerBindGroup_4c83aa7d3b0f0bf9",
    Plain (fn 1 (λ arg0, get_prop arg0 "maxBindingsPerBindGroup")));
  ("__wbg_maxBufferSize_0476342fcdb63944",
    Plain (fn 1 (λ arg0, get_prop arg0 "maxBufferSize")));
  ("__wbg_maxColorAttachmentBytesPerSample_dd065943c2c074c9",
    Plain (fn 1 (λ arg0, get_prop arg0 "maxColorAttachmentBytesPerSample")));
  ("__wbg_maxColorAttachments_cdd33ae159d907c3",
    Plain (fn 1 (λ arg0, get_prop arg0 "maxColorAttachments")));
  ("__wbg_maxComputeInvocationsPerWorkgroup_f18a0e7cc360a4f2",
    Plain (fn 1 (λ arg0, get_prop arg0 "maxComputeInvocationsPerWorkgroup")));
  ("__wbg_maxComputeWorkgroupSizeX_c8a05f62d09395f4",
    Plain (fn 1 (λ arg0, get_prop arg0 "maxComputeWorkgroupSizeX")));
  ("__wbg_maxComputeWorkgroupSizeY_749851b448366c6b",
    Plain (fn 1 (λ arg0, get_prop arg0 "maxComputeWorkgroupSizeY")));
  ("__wbg_maxComputeWorkgroupSizeZ_c53cc29df955ae5a",
    Plain (fn 1 (λ arg0, get_prop arg0 "maxComputeWorkgroupSizeZ")));
  ("__wbg_maxComputeWorkgroupStorageSize_1b473a4049c8b908",
    Plain (fn 1 (λ arg0, get_prop arg0 "maxComputeWorkgroupStorageSize")));
  ("__wbg_maxComputeWorkgroupsPerDimension_9ff46dd341f1489f",
    Plain (fn 1 (λ arg0, get_prop arg0 "maxComputeWorkgroupsPerDimension")));
  ("__wbg_maxDynamicStorageBuffersPerPipelineLayout_6f2531c8b3946fe7",
    Plain (fn 1 (λ arg0, get_prop arg0 "maxDynamicStorageBuffersPerPipelineLayout")));
  ("__wbg_maxDynamicUniformBuffersPerPipelineLayout_6532ba0f61691f92",
    Plain (fn 1 (λ arg0, get_prop arg0 "maxDynamicUniformBuffersPerPipelineLayout")));
  ("__wbg_maxSampledTexturesPerShaderStage_1e300c1893a44019",
    Plain (fn 1 (λ arg0, get_prop arg0 "maxSampledTexturesPerShaderStage")));
  ("__wbg_maxSamplersPerShaderStage_b2f4886a8bf432e9",
    Plain (fn 1 (λ arg0, get_prop arg0 "maxSamplersPerShaderStage")));
  ("__wbg_maxStorageBufferBindingSize_1664cce2578d8011",
    Plain (fn 1 (λ arg0, get_prop arg0 "maxStorageBufferBindingSize")));
  ("__wbg_maxStorageBuffersPerShaderStage_41c3a49271bb26d0",
    Plain (fn 1 (λ arg0, get_prop arg0 "maxStorageBuffersPerShaderStage")));
  ("__wbg_maxStorageTexturesPerShaderStage_090ef077886867b7",
    Plain (fn 1 (λ arg0, get_prop arg0 "maxStorageTexturesPerShaderStage")));
  ("__wbg_maxTextureArrayLayers_6ad2737805de682c",
    Plain (fn 1 (λ arg0, get_prop arg0 "maxTextureArrayLayers")));
  ("__wbg_maxTextureDimension1D_f034b80a9155ce7a",
    Plain (fn 1 (λ arg0, get_prop arg0 "maxTextureDimension1D")));
  ("__wbg_maxTextureDimension2D_97d03cbc330a1de6",
    Plain (fn 1 (λ arg0, get_prop arg0 "maxTextureDimension2D")));
  ("__wbg_maxTextureDimension3D_9cb354a662c690a7",
    Plain (fn 1 (λ arg0, get_prop arg0 "maxTextureDimension3D")));
  ("__wbg_maxUniformBufferBindingSize_376fb4aa02284b9b",
    Plain (fn 1 (λ arg0, get_prop arg0 "maxUniformBufferBindingSize")));
  ("__wbg_maxUniformBuffersPerShaderStage_77c6612a2878a56b",
    Plain (fn 1 (λ arg0, get_prop arg0 "maxUniformBuffersPerShaderStage")));
  ("__wbg_maxVertexAttributes_0a768d9af99844e2",
    Plain (fn 1 (λ arg0, get_prop arg0 "maxVertexAttributes")));
  ("__wbg_maxVertexBufferArrayStride_3c84c7f70e4ce587",
    Plain (fn 1 (λ arg0, get_prop arg0 "maxVertexBufferArrayStride")));
  ("__wbg_maxVertexBuffers_ddcf4555a965d888",
    Plain (fn 1 (λ arg0, get_prop arg0 "maxVertexBuffers")));
  ("__wbg_measure_fb7825c11612c823",
    Caught (fn 4 (λ arg0 arg1 arg2 arg3, deferred [(arg0, arg1); (arg2, arg3)] (o ← global
        "performance"; method o "measure" [string_arg arg0 arg1; string_arg arg2 arg3]))));
  ("__wbg_message_4002df87504c18de",
    Plain (fn 2 (λ arg0 arg1, return_string hd arg0 (get_prop arg1 "message"))));
  ("__wbg_message_a3614fb4a9a8bcbe",
    Plain (fn 2 (λ arg0 arg1, return_string hd arg0 (get_prop arg1 "message"))))
].

(** Lines 761 to 910. *)
Definition imports_4 : list (string * import (S := S) (H := H)) := [
  ("__wbg_minStorageBufferOffsetAlignment_630d33ba02e6ace7",
    Plain (fn 1 (λ arg0, get_prop arg0 "minStorageBufferOffsetAlignment")));
  ("__wbg_minUniformBufferOffsetAlignment_ed951280a2dc56cd",
    Plain (fn 1 (λ arg0, get_prop arg0 "minUniformBufferOffsetAlignment")));
  ("__wbg_navigator_0a9bf1120e24fec2",
    Plain (fn 1 (λ arg0, get_prop arg0 "navigator")));
  ("__wbg_navigator_1577371c070c8947",
    Plain (fn 1 (λ arg0, get_prop arg0 "navigator")));
  ("__wbg_new_405e22f390576ce2",
    Plain (fn 0 (construct "Object" [])));
  ("__wbg_new_78feb108b6472713",
    Plain (fn 0 (construct "Array" [])));
  ("__wbg_new_8a6f238a6ece86ea",
    Plain (fn 0 (construct "Error" [])));
  ("__wbg_new_a12002a7f91c75be",
    Plain (fn 1 (λ arg0, construct "Uint8Array" [pass arg0])));
  ("__wbg_newnoargs_105ed471475aaf50",
    Plain (fn 2 (λ arg0 arg1, construct "Function" [string_arg arg0 arg1])));
  ("__wbg_newwithbyteoffsetandlength_d97e637ebe145a9a",
    Plain (fn 3 (λ arg0 arg1 arg2, construct "Uint8Array" [pass arg0; ushr arg1; ushr arg2])));
  ("__wbg_next_6574e1a8a62d1055",
    Caught (fn 1 (λ arg0, method arg0 "next" [])));
  ("__wbg_popErrorScope_cbcf53d8c60ed58a",
    Plain (fn 1 (λ arg0, method arg0 "popErrorScope" [])));
  ("__wbg_pushErrorScope_ebaa0c6ee35e17d1",
    Plain (fn 2 (λ arg0 arg1, void (method arg0 "pushErrorScope" [enum_at
        __wbindgen_enum_GpuErrorFilter arg1]))));
  ("__wbg_push_737cfc8c1432c2c6",
    Plain (fn 2 (λ arg0 arg1, method arg0 "push" [pass arg1])));
  ("__wbg_querySelectorAll_40998fd748f057ef",
    Caught (fn 3 (λ arg0 arg1 arg2, method arg0 "querySelectorAll" [string_arg arg1 arg2])));
  ("__wbg_queueMicrotask_97d92b4fcc8a61c5",
    Plain (fn 1 (λ arg0, void (call_global "queueMicrotask" [pass arg0]))));
  ("__wbg_queueMicrotask_d3219def82552485",
    Plain (fn 1 (λ arg0, get_prop arg0 "queueMicrotask")));
  ("__wbg_queue_d89a02421bda2b42",
    Plain (fn 1 (λ arg0, get_prop arg0 "queue")));
  ("__wbg_reason_5ca511c634452792",
    Plain (fn 1 (λ arg0, ret ← get_prop arg0 "reason"; mret (index_or
        __wbindgen_enum_GpuDeviceLostReason ret 3))));
  ("__wbg_requestAdapter_aa6a84b375129705",
    Plain (fn 2 (λ arg0 arg1, method arg0 "requestAdapter" [pass arg1])));
  ("__wbg_requestDevice_c5987173ae76ad9e",
    Plain (fn 2 (λ arg0 arg1, method arg0 "requestDevice" [pass arg1])));
  ("__wbg_resolveQuerySet_73c30ae026708ae3",
    Plain (fn 6 (λ arg0 arg1 arg2 arg3 arg4 arg5, void (method arg0 "resolveQuerySet" [pass
        arg1; ushr arg2; ushr arg3; pass arg4; ushr arg5]))));
  ("__wbg_resolve_4851785c9c5f573d",
    Plain (fn 1 (λ arg0, o ← global "Promise"; method o "resolve" [pass arg0])));
  ("__wbg_setBindGroup_ab1792567210b45e",
    Plain (fn 3 (λ arg0 arg1 arg2, void (method arg0 "setBindGroup" [ushr arg1; pass arg2]))));
  ("__wbg_setBindGroup_fc1389bb99633d8c",
    Caught (fn 7 (λ arg0 arg1 arg2 arg3 arg4 arg5 arg6, void (method arg0 "setBindGroup" [ushr
        arg1; pass arg2; u32_arg arg3 arg4; pass arg5; ushr arg6]))));
  ("__wbg_setPipeline_87ad5324dddd196b",
    Plain (fn 2 (λ arg0 arg1, void (method arg0 "setPipeline" [pass arg1]))));
  ("__wbg_set_65595bdd868b3009",
    Plain (fn 3 (λ arg0 arg1 arg2, void (method arg0 "set" [pass arg1; ushr arg2]))));
  ("__wbg_set_bb8cecf6a62b9f46",
    Caught (fn 3 (λ arg0 arg1 arg2, o ← global "Reflect"; method o "set" [pass arg0; pass
        arg1; pass arg2])));
  ("__wbg_seta_e614a7cab362a0f6",
    Plain (fn 2 (λ arg0 arg1, set_prop arg0 "a" (pass arg1))));
  ("__wbg_setaccess_7a29a6624061bd22",
    Plain (fn 2 (λ arg0 arg1, set_prop arg0 "access" (enum_at
        __wbindgen_enum_GpuStorageTextureAccess arg1))));
  ("__wbg_setaddressmodeu_f9c59da53d82b182",
    Plain (fn 2 (λ arg0 arg1, set_prop arg0 "addressModeU" (enum_at
        __wbindgen_enum_GpuAddressMode arg1))));
  ("__wbg_setaddressmodev_79f77a1d3b044c97",
    Plain (fn 2 (λ arg0 arg1, set_prop arg0 "addressModeV" (enum_at
        __wbindgen_enum_GpuAddressMode arg1))));
  ("__wbg_setaddressmodew_18409dbb4043703c",
    Plain (fn 2 (λ arg0 arg1, set_prop arg0 "addressModeW" (enum_at
        __wbindgen_enum_GpuAddressMode arg1))));
  ("__wbg_setalpha_f5ce555a0b46c02f",
    Plain (fn 2 (λ arg0 arg1, set_prop arg0 "alpha" (pass arg1))));
  ("__wbg_setalphatocoverageenabled_6831ffd3db78874a",
    Plain (fn 2 (λ arg0 arg1, set_prop arg0 "alphaToCoverageEnabled" (nonzero arg1))));
  ("__wbg_setarraystride_a81326f8d942e90a",
    Plain (fn 2 (λ arg0 arg1, set_prop arg0 "arrayStride" (pass arg1))));
  ("__wbg_setaspect_8da0cc41e9c723ce",
    Plain (fn 2 (λ arg0 arg1, set_prop arg0 "aspect" (enum_at __wbindgen_enum_GpuTextureAspect
        arg1))));
  ("__wbg_setattributes_a8815b2a94cbbd5d",
    Plain (fn 2 (λ arg0 arg1, set_prop arg0 "attributes" (pass arg1))));
  ("__wbg_setb_6a3df80fce7389c4",
    Plain (fn 2 (λ arg0 arg1, set_prop arg0 "b" (pass arg1))));
  ("__wbg_setbeginningofpasswriteindex_bbb0050c1b81621d",
    Plain (fn 2 (λ arg0 arg1, set_prop arg0 "beginningOfPassWriteIndex" (ushr arg1))));
  ("__wbg_setbeginningofpasswriteindex_db074583a3fde2ff",
    Plain (fn 2 (λ arg0 arg1, set_prop arg0 "beginningOfPassWriteIndex" (ushr arg1))));
  ("__wbg_setbindgrouplayouts_a2670a6cfcb7c490",
    Plain (fn 2 (λ arg0 arg1, set_prop arg0 "bindGroupLayouts" (pass arg1))));
  ("__wbg_setbinding_d47488349a99da1f",
    Plain (fn 2 (λ arg0 arg1, set_prop arg0 "binding" (ushr arg1))))
].

(** Lines 911 to 1060. *)
Definition imports_5 : list (string * import (S := S) (H := H)) := [
  ("__wbg_setbinding_f935678f007077c3",
    Plain (fn 2 (λ arg0 arg1, set_prop arg0 "binding" (ushr arg1))));
  ("__wbg_setblend_5fff4fc1a8804e7b",
    Plain (fn 2 (λ arg0 arg1, set_prop arg0 "blend" (pass arg1))));
  ("__wbg_setbuffer_6b2d0975dd5b4804",
    Plain (fn 2 (λ arg0 arg1, set_prop arg0 "buffer" (pass arg1))));
  ("__wbg_setbuffer_8953e54ed1e614bf",
    Plain (fn 2 (λ arg0 arg1, set_prop arg0 "buffer" (pass arg1))));
  ("__wbg_setbuffer_b8d4b873f193738d",
    Plain (fn 2 (λ arg0 arg1, set_prop arg0 "buffer" (pass arg1))));
  ("__wbg_setbuffers_67cf19c4a2c975fe",
    Plain (fn 2 (λ arg0 arg1, set_prop arg0 "buffers" (pass arg1))));
  ("__wbg_setbytesperrow_38a272f24fa45c75",
    Plain (fn 2 (λ arg0 arg1, set_prop arg0 "bytesPerRow" (ushr arg1))));
  ("__wbg_setbytesperrow_f40ece00f6ad8093",
    Plain (fn 2 (λ arg0 arg1, set_prop arg0 "bytesPerRow" (ushr arg1))));
  ("__wbg_setclearvalue_2f2afd13b6ecba90",
    Plain (fn 2 (λ arg0 arg1, set_prop arg0 "clearValue" (pass arg1))));
  ("__wbg_setcode_0f3b7e02272be293",
    Plain (fn 3 (λ arg0 arg1 arg2, set_prop arg0 "code" (string_arg arg1 arg2))));
  ("__wbg_setcolor_256b6f0175930e17",
    Plain (fn 2 (λ arg0 arg1, set_prop arg0 "color" (pass arg1))));
  ("__wbg_setcolorattachments_9c00dda5b4a96cf3",
    Plain (fn 2 (λ arg0 arg1, set_prop arg0 "colorAttachments" (pass arg1))));
  ("__wbg_setcolorformats_edbfa0263edc4b45",
    Plain (fn 2 (λ arg0 arg1, set_prop arg0 "colorFormats" (pass arg1))));
  ("__wbg_setcompare_11640e1237f574d1",
    Plain (fn 2 (λ arg0 arg1, set_prop arg0 "compare" (enum_at
        __wbindgen_enum_GpuCompareFunction arg1))));
  ("__wbg_setcompare_63ca4199bc88569b",
    Plain (fn 2 (λ arg0 arg1, set_prop arg0 "compare" (enum_at
        __wbindgen_enum_GpuCompareFunction arg1))));
  ("__wbg_setcompute_f3044d1d00931db2",
    Plain (fn 2 (λ arg0 arg1, set_prop arg0 "compute" (pass arg1))));
  ("__wbg_setcount_3e7fbced19a28758",
    Plain (fn 2 (λ arg0 arg1, set_prop arg0 "count" (ushr arg1))));
  ("__wbg_setcount_83ad4bd80b61ff13",
    Plain (fn 2 (λ arg0 arg1, set_prop arg0 "count" (ushr arg1))));
  ("__wbg_setcullmode_17d54fcc4a1d899e",
    Plain (fn 2 (λ arg0 arg1, set_prop arg0 "cullMode" (enum_at __wbindgen_enum_GpuCullMode
        arg1))));
  ("__wbg_setdepthbias_0b1e19c4eeb8bf9b",
    Plain (fn 2 (λ arg0 arg1, set_prop arg0 "depthBias" (pass arg1))));
  ("__wbg_setdepthbiasclamp_a00c0504aa10e802",
    Plain (fn 2 (λ arg0 arg1, set_prop arg0 "depthBiasClamp" (pass arg1))));
  ("__wbg_setdepthbiasslopescale_0c335ba5dd4159a6",
    Plain (fn 2 (λ arg0 arg1, set_prop arg0 "depthBiasSlopeScale" (pass arg1))));
  ("__wbg_setdepthclearvalue_24a007bba21e50e4",
    Plain (fn 2 (λ arg0 arg1, set_prop arg0 "depthClearValue" (pass arg1))));
  ("__wbg_setdepthcompare_379f582e7e2d6f8a",
    Plain (fn 2 (λ arg0 arg1, set_prop arg0 "depthCompare" (enum_at
        __wbindgen_enum_GpuCompareFunction arg1))));
  ("__wbg_setdepthfailop_875b03aacfe7f3d7",
    Plain (fn 2 (λ arg0 arg1, set_prop arg0 "depthFailOp" (enum_at
        __wbindgen_enum_GpuStencilOperation arg1))));
  ("__wbg_setdepthloadop_694e998dee78f58e",
    Plain (fn 2 (λ arg0 arg1, set_prop arg0 "depthLoadOp" (enum_at __wbindgen_enum_GpuLoadOp
        arg1))));
  ("__wbg_setdepthorarraylayers_0d411b81883f9e4a",
    Plain (fn 2 (λ arg0 arg1, set_prop arg0 "depthOrArrayLayers" (ushr arg1))));
  ("__wbg_setdepthreadonly_bad56bbbff6f7708",
    Plain (fn 2 (λ arg0 arg1, set_prop arg0 "depthReadOnly" (nonzero arg1))));
  ("__wbg_setdepthreadonly_df26e44e0338852d",
    Plain (fn 2 (λ arg0 arg1, set_prop arg0 "depthReadOnly" (nonzero arg1))));
  ("__wbg_setdepthstencil_a6ca739cea762217",
    Plain (fn 2 (λ arg0 arg1, set_prop arg0 "depthStencil" (pass arg1))));
  ("__wbg_setdepthstencilattachment_6a1d2ba719cd889a",
    Plain (fn 2 (λ arg0 arg1, set_prop arg0 "depthStencilAttachment" (pass arg1))));
  ("__wbg_setdepthstencilformat_798f0233342b8470",
    Plain (fn 2 (λ arg0 arg1, set_prop arg0 "depthStencilFormat" (enum_at
        __wbindgen_enum_GpuTextureFormat arg1))));
  ("__wbg_setdepthstoreop_04c091c28c8cb198",
    Plain (fn 2 (λ arg0 arg1, set_prop arg0 "depthStoreOp" (enum_at __wbindgen_enum_GpuStoreOp
        arg1))));
  ("__wbg_setdepthwriteenabled_72e1e785a5a5a262",
    Plain (fn 2 (λ arg0 arg1, set_prop arg0 "depthWriteEnabled" (nonzero arg1))));
  ("__wbg_setdimension_0c4c84631949b62b",
    Plain (fn 2 (λ arg0 arg1, set_prop arg0 "dimension" (enum_at
        __wbindgen_enum_GpuTextureDimension arg1))));
  ("__wbg_setdstfactor_f5aa0d40a8a46209",
    Plain (fn 2 (λ arg0 arg1, set_prop arg0 "dstFactor" (enum_at
        __wbindgen_enum_GpuBlendFactor arg1))));
  ("__wbg_setendofpasswriteindex_82d6d163d760be28",
    Plain (fn 2 (λ arg0 arg1, set_prop arg0 "endOfPassWriteIndex" (ushr arg1))));
  ("__wbg_setendofpasswriteindex_9df3c78cc7108787",
    Plain (fn 2 (λ arg0 arg1, set_prop arg0 "endOfPassWriteIndex" (ushr arg1))));
  ("__wbg_setentries_31f9d7a61735820c",
    Plain (fn 2 (λ arg0 arg1, set_prop arg0 "entries" (pass arg1))));
  ("__wbg_setentries_c4c1438ed3550798",
    Plain (fn 2 (λ arg0 arg1, set_prop arg0 "entries" (pass arg1))));
  ("__wbg_setentrypoint_5fc49eccf7a2a917",
    Plain (fn 3 (λ arg0 arg1 arg2, set_prop arg0 "entryPoint" (string_arg arg1 arg2))));
  ("__wbg_setentrypoint_7a48e2fd45ce5242",
    Plain (fn 3 (λ arg0 arg1 arg2, set_prop arg0 "entryPoint" (string_arg arg1 arg2))));
  ("__wbg_setentrypoint_cc0ef6995eb4ec8a",
    Plain (fn 3 (λ arg0 arg1 arg2, set_prop arg0 "entryPoint" (string_arg arg1 arg2))));
  ("__wbg_setfailop_b3aa7b676802d507",
    Plain (fn 2 (λ arg0 arg1, set_prop arg0 "failOp" (enum_at
        __wbindgen_enum_GpuStencilOperation arg1))));
  ("__wbg_setflipy_07e27e9b8f79ebac",
    Plain (fn 2 (λ arg0 arg1, set_prop arg0 "flipY" (nonzero arg1))));
  ("__wbg_setformat_4d274f92eb43af7e",
    Plain (fn 2 (λ arg0 arg1, set_prop arg0 "format" (enum_at __wbindgen_enum_GpuVertexFormat
        arg1))));
  ("__wbg_setformat_4f4d8e1c3af29385",
    Plain (fn 2 (λ arg0 arg1, set_prop arg0 "format" (enum_at __wbindgen_enum_GpuTextureFormat
        arg1))));
  ("__wbg_setformat_6c986b1fbf5a8135",
    Plain (fn 2 (λ arg0 arg1, set_prop arg0 "format" (enum_at __wbindgen_enum_GpuTextureFormat
        arg1))));
  ("__wbg_setformat_999b10709ff9fbb3",
    Plain (fn 2 (λ arg0 arg1, set_prop arg0 "format" (enum_at __wbindgen_enum_GpuTextureFormat
        arg1))));
  ("__wbg_setformat_a248be0e94937fd6",
    Plain (fn 2 (λ arg0 arg1, set_prop arg0 "format" (enum_at __wbindgen_enum_GpuTextureFormat
        arg1))))
].

(** Lines 1061 to 1210. *)
Definition imports_6 : list (string * import (S := S) (H := H)) := [
  ("__wbg_setfragment_a7b4d1d6e4173869",
    Plain (fn 2 (λ arg0 arg1, set_prop arg0 "fragment" (pass arg1))));
  ("__wbg_setfrontface_2af45fe851357ed5",
    Plain (fn 2 (λ arg0 arg1, set_prop arg0 "frontFace" (enum_at __wbindgen_enum_GpuFrontFace
        arg1))));
  ("__wbg_setg_e2da37d4015a5cba",
    Plain (fn 2 (λ arg0 arg1, set_prop arg0 "g" (pass arg1))));
  ("__wbg_sethasdynamicoffset_cb46ff65a09728e7",
    Plain (fn 2 (λ arg0 arg1, set_prop arg0 "hasDynamicOffset" (nonzero arg1))));
  ("__wbg_setheight_07e23125a705916b",
    Plain (fn 2 (λ arg0 arg1, set_prop arg0 "height" (ushr arg1))));
  ("__wbg_setlabel_0cc377044614a183",
    Plain (fn 3 (λ arg0 arg1 arg2, set_prop arg0 "label" (string_arg arg1 arg2))));
  ("__wbg_setlabel_288008e3764fd03d",
    Plain (fn 3 (λ arg0 arg1 arg2, set_prop arg0 "label" (string_arg arg1 arg2))));
  ("__wbg_setlabel_2b771b9d670d425d",
    Plain (fn 3 (λ arg0 arg1 arg2, set_prop arg0 "label" (string_arg arg1 arg2))));
  ("__wbg_setlabel_2da44266df5c13ed",
    Plain (fn 3 (λ arg0 arg1 arg2, set_prop arg0 "label" (string_arg arg1 arg2))));
  ("__wbg_setlabel_4ad48f653ec65eb3",
    Plain (fn 3 (λ arg0 arg1 arg2, set_prop arg0 "label" (string_arg arg1 arg2))));
  ("__wbg_setlabel_500d4bf5cd901261",
    Plain (fn 3 (λ arg0 arg1 arg2, set_prop arg0 "label" (string_arg arg1 arg2))));
  ("__wbg_setlabel_71035c60ff875bcb",
    Plain (fn 3 (λ arg0 arg1 arg2, set_prop arg0 "label" (string_arg arg1 arg2))));
  ("__wbg_setlabel_8ebf2908004a93a8",
    Plain (fn 3 (λ arg0 arg1 arg2, set_prop arg0 "label" (string_arg arg1 arg2))));
  ("__wbg_setlabel_a500f3f38501fd17",
    Plain (fn 3 (λ arg0 arg1 arg2, set_prop arg0 "label" (string_arg arg1 arg2))));
  ("__wbg_setlabel_a715a723e54be347",
    Plain (fn 3 (λ arg0 arg1 arg2, set_prop arg0 "label" (string_arg arg1 arg2))));
  ("__wbg_setlabel_b1dea0fd6b833499",
    Plain (fn 3 (λ arg0 arg1 arg2, set_prop arg0 "label" (string_arg arg1 arg2))));
  ("__wbg_setlabel_d9721be24ba962d0",
    Plain (fn 3 (λ arg0 arg1 arg2, set_prop arg0 "label" (string_arg arg1 arg2))));
  ("__wbg_setlabel_e628a8506e7dbad1",
    Plain (fn 3 (λ arg0 arg1 arg2, set_prop arg0 "label" (string_arg arg1 arg2))));
  ("__wbg_setlabel_ee195a522e4e446e",
    Plain (fn 3 (λ arg0 arg1 arg2, set_prop arg0 "label" (string_arg arg1 arg2))));
  ("__wbg_setlabel_f63950a596f3822e",
    Plain (fn 3 (λ arg0 arg1 arg2, set_prop arg0 "label" (string_arg arg1 arg2))));
  ("__wbg_setlabel_f83545b14d4230ba",
    Plain (fn 3 (λ arg0 arg1 arg2, set_prop arg0 "label" (string_arg arg1 arg2))));
  ("__wbg_setlayout_07cd9903ecafe648",
    Plain (fn 2 (λ arg0 arg1, set_prop arg0 "layout" (pass arg1))));
  ("__wbg_setlayout_65212cfcdc8328fc",
    Plain (fn 2 (λ arg0 arg1, set_prop arg0 "layout" (pass arg1))));
  ("__wbg_setlayout_9de5ead36a343003",
    Plain (fn 2 (λ arg0 arg1, set_prop arg0 "layout" (pass arg1))));
  ("__wbg_setloadop_7717864ef29efe5a",
    Plain (fn 2 (λ arg0 arg1, set_prop arg0 "loadOp" (enum_at __wbindgen_enum_GpuLoadOp
        arg1))));
  ("__wbg_setlodmaxclamp_1887e84a3d06f898",
    Plain (fn 2 (λ arg0 arg1, set_prop arg0 "lodMaxClamp" (pass arg1))));
  ("__wbg_setlodminclamp_cd3dd55fe2bb52d8",
    Plain (fn 2 (λ arg0 arg1, set_prop arg0 "lodMinClamp" (pass arg1))));
  ("__wbg_setmagfilter_52da4c654280e213",
    Plain (fn 2 (λ arg0 arg1, set_prop arg0 "magFilter" (enum_at __wbindgen_enum_GpuFilterMode
        arg1))));
  ("__wbg_setmappedatcreation_a8895d0463a7c2b4",
    Plain (fn 2 (λ arg0 arg1, set_prop arg0 "mappedAtCreation" (nonzero arg1))));
  ("__wbg_setmask_55b58b7d5ccae3c9",
    Plain (fn 2 (λ arg0 arg1, set_prop arg0 "mask" (ushr arg1))));
  ("__wbg_setmaxanisotropy_1ca629f4e25e12fd",
    Plain (fn 2 (λ arg0 arg1, set_prop arg0 "maxAnisotropy" (pass arg1))));
  ("__wbg_setminbindingsize_e6ebb4f885a7e096",
    Plain (fn 2 (λ arg0 arg1, set_prop arg0 "minBindingSize" (pass arg1))));
  ("__wbg_setminfilter_58e87776cadcd1b3",
    Plain (fn 2 (λ arg0 arg1, set_prop arg0 "minFilter" (enum_at __wbindgen_enum_GpuFilterMode
        arg1))));
  ("__wbg_setmiplevel_6b898ddd34646f69",
    Plain (fn 2 (λ arg0 arg1, set_prop arg0 "mipLevel" (ushr arg1))));
  ("__wbg_setmiplevel_6fed1be31117eadb",
    Plain (fn 2 (λ arg0 arg1, set_prop arg0 "mipLevel" (ushr arg1))));
  ("__wbg_setmiplevelcount_5cdccf5992bb17da",
    Plain (fn 2 (λ arg0 arg1, set_prop arg0 "mipLevelCount" (ushr arg1))));
  ("__wbg_setmipmapfilter_182e70118e958b7f",
    Plain (fn 2 (λ arg0 arg1, set_prop arg0 "mipmapFilter" (enum_at
        __wbindgen_enum_GpuMipmapFilterMode arg1))));
  ("__wbg_setmodule_6575b8b8b6395d5e",
    Plain (fn 2 (λ arg0 arg1, set_prop arg0 "module" (pass arg1))));
  ("__wbg_setmodule_9c6fb60dbbaf9ff6",
    Plain (fn 2 (λ arg0 arg1, set_prop arg0 "module" (pass arg1))));
  ("__wbg_setmodule_b2a1ad7c5aa169a6",
    Plain (fn 2 (λ arg0 arg1, set_prop arg0 "module" (pass arg1))));
  ("__wbg_setmultisample_0ab87d309246882a",
    Plain (fn 2 (λ arg0 arg1, set_prop arg0 "multisample" (pass arg1))));
  ("__wbg_setmultisampled_5bbeb86cec3c3b77",
    Plain (fn 2 (λ arg0 arg1, set_prop arg0 "multisampled" (nonzero arg1))));
  ("__wbg_setoffset_03942acfc179b9e4",
    Plain (fn 2 (λ arg0 arg1, set_prop arg0 "offset" (pass arg1))));
  ("__wbg_setoffset_2a1ed8c605246680",
    Plain (fn 2 (λ arg0 arg1, set_prop arg0 "offset" (pass arg1))));
  ("__wbg_setoffset_b2b5cabe142e1121",
    Plain (fn 2 (λ arg0 arg1, set_prop arg0 "offset" (pass arg1))));
  ("__wbg_setoffset_faa7816201305e71",
    Plain (fn 2 (λ arg0 arg1, set_prop arg0 "offset" (pass arg1))));
  ("__wbg_setonuncapturederror_d483babbffc909ea",
    Plain (fn 2 (λ arg0 arg1, set_prop arg0 "onuncapturederror" (pass arg1))));
  ("__wbg_setoperation_b1320c8f97dc317a",
    Plain (fn 2 (λ arg0 arg1, set_prop arg0 "operation" (enum_at
        __wbindgen_enum_GpuBlendOperation arg1))));
  ("__wbg_setorigin_0ef9b6c92d971672",
    Plain (fn 2 (λ arg0 arg1, set_prop arg0 "origin" (pass arg1))));
  ("__wbg_setorigin_bce4abc33252aae4",
    Plain (fn 2 (λ arg0 arg1, set_prop arg0 "origin" (pass arg1))))
].

(** Lines 1211 to 1360. *)
Definition imports_7 : list (string * import (S := S) (H := H)) := [
  ("__wbg_setorigin_c9a426d82a4cbb67",
    Plain (fn 2 (λ arg0 arg1, set_prop arg0 "origin" (pass arg1))));
  ("__wbg_setpassop_3864d7967d0b755f",
    Plain (fn 2 (λ arg0 arg1, set_prop arg0 "passOp" (enum_at
        __wbindgen_enum_GpuStencilOperation arg1))));
  ("__wbg_setpowerpreference_f55bb01532e63a16",
    Plain (fn 2 (λ arg0 arg1, set_prop arg0 "powerPreference" (enum_at
        __wbindgen_enum_GpuPowerPreference arg1))));
  ("__wbg_setpremultipliedalpha_36161b868cbca098",
    Plain (fn 2 (λ arg0 arg1, set_prop arg0 "premultipliedAlpha" (nonzero arg1))));
  ("__wbg_setprimitive_8e59242385aeefbd",
    Plain (fn 2 (λ arg0 arg1, set_prop arg0 "primitive" (pass arg1))));
  ("__wbg_setqueryset_1d4d053148acad3d",
    Plain (fn 2 (λ arg0 arg1, set_prop arg0 "querySet" (pass arg1))));
  ("__wbg_setqueryset_840dc8940d3be049",
    Plain (fn 2 (λ arg0 arg1, set_prop arg0 "querySet" (pass arg1))));
  ("__wbg_setr_323d10232d162bc5",
    Plain (fn 2 (λ arg0 arg1, set_prop arg0 "r" (pass arg1))));
  ("__wbg_setrequiredfeatures_4aaba5b9bed02f6c",
    Plain (fn 2 (λ arg0 arg1, set_prop arg0 "requiredFeatures" (pass arg1))));
  ("__wbg_setresolvetarget_93c553085f84be1d",
    Plain (fn 2 (λ arg0 arg1, set_prop arg0 "resolveTarget" (pass arg1))));
  ("__wbg_setresource_da805678f095daba",
    Plain (fn 2 (λ arg0 arg1, set_prop arg0 "resource" (pass arg1))));
  ("__wbg_setrowsperimage_a20532b7306f8f04",
    Plain (fn 2 (λ arg0 arg1, set_prop arg0 "rowsPerImage" (ushr arg1))));
  ("__wbg_setrowsperimage_a5c86bbe579e7ff5",
    Plain (fn 2 (λ arg0 arg1, set_prop arg0 "rowsPerImage" (ushr arg1))));
  ("__wbg_setsamplecount_4f091bac7244d29d",
    Plain (fn 2 (λ arg0 arg1, set_prop arg0 "sampleCount" (ushr arg1))));
  ("__wbg_setsamplecount_ba2d094c32b25f63",
    Plain (fn 2 (λ arg0 arg1, set_prop arg0 "sampleCount" (ushr arg1))));
  ("__wbg_setsampler_907171f78b25e6a0",
    Plain (fn 2 (λ arg0 arg1, set_prop arg0 "sampler" (pass arg1))));
  ("__wbg_setsampletype_128e447eb57f81e0",
    Plain (fn 2 (λ arg0 arg1, set_prop arg0 "sampleType" (enum_at
        __wbindgen_enum_GpuTextureSampleType arg1))));
  ("__wbg_setshaderlocation_d912fa16e1bafbf5",
    Plain (fn 2 (λ arg0 arg1, set_prop arg0 "shaderLocation" (ushr arg1))));
  ("__wbg_setsize_26f6f424f8c7ad78",
    Plain (fn 2 (λ arg0 arg1, set_prop arg0 "size" (pass arg1))));
  ("__wbg_setsize_77e119b004938be3",
    Plain (fn 2 (λ arg0 arg1, set_prop arg0 "size" (pass arg1))));
  ("__wbg_setsize_f475ae0c88ae5c1a",
    Plain (fn 2 (λ arg0 arg1, set_prop arg0 "size" (pass arg1))));
  ("__wbg_setsource_02e8b4daaf0b821a",
    Plain (fn 2 (λ arg0 arg1, set_prop arg0 "source" (pass arg1))));
  ("__wbg_setsrcfactor_c06f8886e8f9db36",
    Plain (fn 2 (λ arg0 arg1, set_prop arg0 "srcFactor" (enum_at
        __wbindgen_enum_GpuBlendFactor arg1))));
  ("__wbg_setstencilback_7430953411a74f5b",
    Plain (fn 2 (λ arg0 arg1, set_prop arg0 "stencilBack" (pass arg1))));
  ("__wbg_setstencilclearvalue_82445ec7d3bf6337",
    Plain (fn 2 (λ arg0 arg1, set_prop arg0 "stencilClearValue" (ushr arg1))));
  ("__wbg_setstencilfront_643b00ca15f63df0",
    Plain (fn 2 (λ arg0 arg1, set_prop arg0 "stencilFront" (pass arg1))));
  ("__wbg_setstencilloadop_fd4992092c35e435",
    Plain (fn 2 (λ arg0 arg1, set_prop arg0 "stencilLoadOp" (enum_at __wbindgen_enum_GpuLoadOp
        arg1))));
  ("__wbg_setstencilreadmask_417cc42a4ebcc6fd",
    Plain (fn 2 (λ arg0 arg1, set_prop arg0 "stencilReadMask" (ushr arg1))));
  ("__wbg_setstencilreadonly_b63e58c25fd519fa",
    Plain (fn 2 (λ arg0 arg1, set_prop arg0 "stencilReadOnly" (nonzero arg1))));
  ("__wbg_setstencilreadonly_b9752d3b585a9e24",
    Plain (fn 2 (λ arg0 arg1, set_prop arg0 "stencilReadOnly" (nonzero arg1))));
  ("__wbg_setstencilstoreop_85e35c733e931690",
    Plain (fn 2 (λ arg0 arg1, set_prop arg0 "stencilStoreOp" (enum_at
        __wbindgen_enum_GpuStoreOp arg1))));
  ("__wbg_setstencilwritemask_99630e6d9578db18",
    Plain (fn 2 (λ arg0 arg1, set_prop arg0 "stencilWriteMask" (ushr arg1))));
  ("__wbg_setstepmode_48ca51aca6c457d0",
    Plain (fn 2 (λ arg0 arg1, set_prop arg0 "stepMode" (enum_at
        __wbindgen_enum_GpuVertexStepMode arg1))));
  ("__wbg_setstoragetexture_073162508208dde1",
    Plain (fn 2 (λ arg0 arg1, set_prop arg0 "storageTexture" (pass arg1))));
  ("__wbg_setstoreop_33000b14c26a958c",
    Plain (fn 2 (λ arg0 arg1, set_prop arg0 "storeOp" (enum_at __wbindgen_enum_GpuStoreOp
        arg1))));
  ("__wbg_setstripindexformat_6e6466458d40548f",
    Plain (fn 2 (λ arg0 arg1, set_prop arg0 "stripIndexFormat" (enum_at
        __wbindgen_enum_GpuIndexFormat arg1))));
  ("__wbg_settargets_9b07a81a153bd198",
    Plain (fn 2 (λ arg0 arg1, set_prop arg0 "targets" (pass arg1))));
  ("__wbg_settexture_372c227c16e4476c",
    Plain (fn 2 (λ arg0 arg1, set_prop arg0 "texture" (pass arg1))));
  ("__wbg_settexture_6fb992cdbb52b8a5",
    Plain (fn 2 (λ arg0 arg1, set_prop arg0 "texture" (pass arg1))));
  ("__wbg_settexture_c85cb80ac44bcbae",
    Plain (fn 2 (λ arg0 arg1, set_prop arg0 "texture" (pass arg1))));
  ("__wbg_settimestampwrites_753fd289d25da0f6",
    Plain (fn 2 (λ arg0 arg1, set_prop arg0 "timestampWrites" (pass arg1))));
  ("__wbg_settimestampwrites_f901bc9c89140525",
    Plain (fn 2 (λ arg0 arg1, set_prop arg0 "timestampWrites" (pass arg1))));
  ("__wbg_settopology_b8997cc1c9b712d6",
    Plain (fn 2 (λ arg0 arg1, set_prop arg0 "topology" (enum_at
        __wbindgen_enum_GpuPrimitiveTopology arg1))));
  ("__wbg_settype_2eb0a1e4095d484d",
    Plain (fn 2 (λ arg0 arg1, set_prop arg0 "type" (enum_at
        __wbindgen_enum_GpuSamplerBindingType arg1))));
  ("__wbg_settype_586408d828cb05f9",
    Plain (fn 2 (λ arg0 arg1, set_prop arg0 "type" (enum_at
        __wbindgen_enum_GpuBufferBindingType arg1))));
  ("__wbg_settype_fb280f77c5aea269",
    Plain (fn 2 (λ arg0 arg1, set_prop arg0 "type" (enum_at __wbindgen_enum_GpuQueryType
        arg1))));
  ("__wbg_setusage_a9a9e2b9822110e6",
    Plain (fn 2 (λ arg0 arg1, set_prop arg0 "usage" (ushr arg1))));
  ("__wbg_setusage_b974ee6a11b1c075",
    Plain (fn 2 (λ arg0 arg1, set_prop arg0 "usage" (ushr arg1))));
  ("__wbg_setvertex_a2070ea015bc740c",
    Plain (fn 2 (λ arg0 arg1, set_prop arg0 "vertex" (pass arg1))));
  ("__wbg_setview_0a3c9eb003dca615",
    Plain (fn 2 (λ arg0 arg1, set_prop arg0 "view" (pass arg1))))
].

(** Lines 1361 to 1510. *)
Definition imports_8 : list (string * import (S := S) (H := H)) := [
  ("__wbg_setview_a25d3a35a9550c37",
    Plain (fn 2 (λ arg0 arg1, set_prop arg0 "view" (pass arg1))));
  ("__wbg_setviewdimension_62541381052220ba",
    Plain (fn 2 (λ arg0 arg1, set_prop arg0 "viewDimension" (enum_at
        __wbindgen_enum_GpuTextureViewDimension arg1))));
  ("__wbg_setviewdimension_cba6f4f08621ab93",
    Plain (fn 2 (λ arg0 arg1, set_prop arg0 "viewDimension" (enum_at
        __wbindgen_enum_GpuTextureViewDimension arg1))));
  ("__wbg_setviewformats_0e7d17b7af990229",
    Plain (fn 2 (λ arg0 arg1, set_prop arg0 "viewFormats" (pass arg1))));
  ("__wbg_setvisibility_3f5ec62f823cc88e",
    Plain (fn 2 (λ arg0 arg1, set_prop arg0 "visibility" (ushr arg1))));
  ("__wbg_setwidth_374c62c8c467dd55",
    Plain (fn 2 (λ arg0 arg1, set_prop arg0 "width" (ushr arg1))));
  ("__wbg_setwritemask_a015d982c216f05a",
    Plain (fn 2 (λ arg0 arg1, set_prop arg0 "writeMask" (ushr arg1))));
  ("__wbg_setx_744e248c289894b0",
    Plain (fn 2 (λ arg0 arg1, set_prop arg0 "x" (ushr arg1))));
  ("__wbg_setx_bed4341c6692c1fa",
    Plain (fn 2 (λ arg0 arg1, set_prop arg0 "x" (ushr arg1))));
  ("__wbg_sety_3739f1c9f8e4fe38",
    Plain (fn 2 (λ arg0 arg1, set_prop arg0 "y" (ushr arg1))));
  ("__wbg_sety_d1def1c7baef049a",
    Plain (fn 2 (λ arg0 arg1, set_prop arg0 "y" (ushr arg1))));
  ("__wbg_setz_a1e821c7a1a291c5",
    Plain (fn 2 (λ arg0 arg1, set_prop arg0 "z" (ushr arg1))));
  ("__wbg_size_f5fdd7af88b0b724",
    Plain (fn 1 (λ arg0, get_prop arg0 "size")));
  ("__wbg_stack_0ed75d68575b0f3c",
    Plain (fn 2 (λ arg0 arg1, return_string hd arg0 (get_prop arg1 "stack"))));
  ("__wbg_static_accessor_GLOBAL_88a902d13a557d07",
    Plain (fn 0 (optional (global_or_null "global"))));
  ("__wbg_static_accessor_GLOBAL_THIS_56578be7e9f832b0",
    Plain (fn 0 (optional (global_or_null "globalThis"))));
  ("__wbg_static_accessor_SELF_37c5d418e4bf5819",
    Plain (fn 0 (optional (global_or_null "self"))));
  ("__wbg_static_accessor_WINDOW_5de37043a91a9c40",
    Plain (fn 0 (optional (global_or_null "window"))));
  ("__wbg_submit_683667e8c0f18d76",
    Plain (fn 2 (λ arg0 arg1, void (method arg0 "submit" [pass arg1]))));
  ("__wbg_then_44b73946d2fb3e7d",
    Plain (fn 2 (λ arg0 arg1, method arg0 "then" [pass arg1])));
  ("__wbg_then_48b406749878a531",
    Plain (fn 3 (λ arg0 arg1 arg2, method arg0 "then" [pass arg1; pass arg2])));
  ("__wbg_unmap_3996f949ebf6b9a4",
    Plain (fn 1 (λ arg0, void (method arg0 "unmap" []))));
  ("__wbg_usage_ef79cc1301f4d456",
    Plain (fn 1 (λ arg0, get_prop arg0 "usage")));
  ("__wbg_valueOf_39a18758c25e8b95",
    Plain (fn 1 (λ arg0, method arg0 "valueOf" [])));
  ("__wbg_value_cd1ffa7b1ab794f1",
    Plain (fn 1 (λ arg0, get_prop arg0 "value")));
  ("__wbg_wgslLanguageFeatures_993ab5b71fd5cbab",
    Plain (fn 1 (λ arg0, get_prop arg0 "wgslLanguageFeatures")));
  ("__wbg_writeBuffer_54f5faed442e5ab3",
    Caught (fn 6 (λ arg0 arg1 arg2 arg3 arg4 arg5, void (method arg0 "writeBuffer" [pass arg1;
        pass arg2; pass arg3; pass arg4; pass arg5]))));
  ("__wbg_writeTexture_c90c50e5c2a97ff0",
    Caught (fn 5 (λ arg0 arg1 arg2 arg3 arg4, void (method arg0 "writeTexture" [pass arg1;
        pass arg2; pass arg3; pass arg4]))));
  ("__wbindgen_cb_drop",
    Plain (fn 1 (λ arg0, cb_drop arg0)));
  ("__wbindgen_closure_wrapper6684",
    Plain (fn 3 (λ arg0 arg1 arg2, make_closure arg0 arg1 "567" __wbg_adapter_30)));
  ("__wbindgen_closure_wrapper9471",
    Plain (fn 3 (λ arg0 arg1 arg2, make_closure arg0 arg1 "584" __wbg_adapter_33)));
  ("__wbindgen_debug_string",
    Plain (fn 2 (λ arg0 arg1, return_string hd arg0 (debug_string stack arg1))));
  ("__wbindgen_init_externref_table",
    Plain (fn 0 (init_externref_table)));
  ("__wbindgen_is_function",
    Plain (fn 1 (λ arg0, mret (Bool (String.eqb (typeof arg0) "function")))));
  ("__wbindgen_is_null",
    Plain (fn 1 (λ arg0, mret (Bool (is_null arg0)))));
  ("__wbindgen_is_object",
    Plain (fn 1 (λ arg0, mret (Bool (String.eqb (typeof arg0) "object" && negb (is_null
        arg0))))));
  ("__wbindgen_is_undefined",
    Plain (fn 1 (λ arg0, mret (Bool (is_undefined arg0)))))
].

(** Lines 1511 to 1533. *)
Definition imports_9 : list (string * import (S := S) (H := H)) := [
  ("__wbindgen_memory",
    Plain (fn 0 (mret WasmMemory)));
  ("__wbindgen_number_new",
    Plain (fn 1 (λ arg0, pass arg0)));
  ("__wbindgen_string_get",
    Plain (fn 2 (λ arg0 arg1, return_opt_string hd arg0 (pass (if String.eqb (typeof arg1)
        "string" then arg1 else Undefined)))));
  ("__wbindgen_string_new",
    Plain (fn 2 (λ arg0 arg1, string_arg arg0 arg1)));
  ("__wbindgen_throw",
    Plain (fn 2 (λ arg0 arg1, e ← construct "Error" [string_arg arg0 arg1]; throw e)))
].

Definition imports : list (string * import (S := S) (H := H)) :=
  imports_1 ++ imports_2 ++ imports_3 ++ imports_4 ++ imports_5 ++ imports_6 ++ imports_7 ++ imports_8 ++ imports_9.

End imports.

(** ** Loading *)

Definition __wbg_load (B : browser) : source → M error (list warning) loaded :=
  wbg_load B fallback_v1.

(** The views [__wbg_finalize_init] resets. *)
Definition finalized_views : list cache := [DV; U32; U8].

Definition loading : loading :=
  Loading_of __wbg_load parameters memory_param "loopback_bg.wasm" finalized_views.

Section loading.
Context {S : Type} (heap0 : S).

Definition __wbg_init_memory : option nat → session S → nat * session S := init_memory heap0.

Definition initSync (B : browser) :
  input → option nat → session S → outcome error nat * session S := init_sync heap0 loading B.

Definition __wbg_init (B : browser) :
  input → option nat → session S → outcome error nat * session S := init_call heap0 loading B.
End loading.

(** The life cycle of the functions that [makeMutClosure] returns. *)
Definition makeMutClosure_version : version := Original.version.
