(* ===== verification/Spectrum.v ===== *)
(** * The import object of the spectrum front end

    [__wbg_get_imports] of src/examples/spectrum/dist/frontend-beed6691b218adf.js:
    every function the wasm module can call, in the order of the file, as tables of
    [Glue]'s imports; and the enumerations its setters use. *)

From Stdlib Require Import String.
From S2P Require Import Prelude TextCodec Memory Closure Glue DebugString Loader Session.

Definition __wbindgen_enum_BinaryType : list string := ["blob"; "arraybuffer"].
Definition __wbindgen_enum_ReadableStreamType : list string := ["bytes"].

(** The adapters of closures. *)
Definition __wbg_adapter_30 : adapter := Adapter 3 "closure312_externref_shim" Ignored.
Definition __wbg_adapter_33 : adapter :=
  Adapter 2 "_dyn_core__ops__function__FnMut_____Output___R_as_wasm_bindgen__closure__WasmClosure___describe__invoke__hd590aa25f8faeea3" Ignored.
Definition __wbg_adapter_36 : adapter := Adapter 3 "closure418_externref_shim" Ignored.
Definition __wbg_adapter_41 : adapter :=
  Adapter 2 "_dyn_core__ops__function__FnMut_____Output___R_as_wasm_bindgen__closure__WasmClosure___describe__invoke__heea07e4c3b8fa3fa" Ignored.
Definition __wbg_adapter_46 : adapter := Adapter 3 "closure452_externref_shim" Ignored.
Definition __wbg_adapter_289 : adapter := Adapter 4 "closure474_externref_shim" Ignored.

Section imports.
Context {S H : Type} `{!Host S H} `{!Exports S H} `{!Allocator S} {TC : TextCodec}.
(** [ArrayBuffer.prototype.detached] exists; the depth of the engine's stack. *)
Context (hd : bool) (stack : nat).

(** Lines 393 to 541. *)
Definition imports_1 : list (string * import (S := S) (H := H)) := [
  ("__wbg_addEventListener_84ae3eac6e15480a",
    Caught (fn 5 (λ arg0 arg1 arg2 arg3 arg4, void (method arg0 "addEventListener" [string_arg
        arg1 arg2; pass arg3; pass arg4]))));
  ("__wbg_addEventListener_90e553fdce254421",
    Caught (fn 4 (λ arg0 arg1 arg2 arg3, void (method arg0 "addEventListener" [string_arg arg1
        arg2; pass arg3]))));
  ("__wbg_attachShader_3d4eb6af9e3e7bd1",
    Plain (fn 3 (λ arg0 arg1 arg2, void (method arg0 "attachShader" [pass arg1; pass arg2]))));
  ("__wbg_bindBuffer_309c9a6c21826cf5",
    Plain (fn 3 (λ arg0 arg1 arg2, void (method arg0 "bindBuffer" [ushr arg1; pass arg2]))));
  ("__wbg_bindTexture_a6e795697f49ebd1",
    Plain (fn 3 (λ arg0 arg1 arg2, void (method arg0 "bindTexture" [ushr arg1; pass arg2]))));
  ("__wbg_body_942ea927546a04ba",
    Plain (fn 1 (λ arg0, optional (get_prop arg0 "body"))));
  ("__wbg_bufferData_3261d3e1dd6fc903",
    Plain (fn 4 (λ arg0 arg1 arg2 arg3, void (method arg0 "bufferData" [ushr arg1; pass arg2;
        ushr arg3]))));
  ("__wbg_bufferSubData_4e973eefe9236d04",
    Plain (fn 4 (λ arg0 arg1 arg2 arg3, void (method arg0 "bufferSubData" [ushr arg1; pass
        arg2; pass arg3]))));
  ("__wbg_buffer_09165b52af8c5237",
    Plain (fn 1 (λ arg0, get_prop arg0 "buffer")));
  ("__wbg_buffer_609cc3eee51ed158",
    Plain (fn 1 (λ arg0, get_prop arg0 "buffer")));
  ("__wbg_byobRequest_77d9adf63337edfb",
    Plain (fn 1 (λ arg0, optional (get_prop arg0 "byobRequest"))));
  ("__wbg_byteLength_e674b853d9c77e1d",
    Plain (fn 1 (λ arg0, get_prop arg0 "byteLength")));
  ("__wbg_byteOffset_fd862df290ef848d",
    Plain (fn 1 (λ arg0, get_prop arg0 "byteOffset")));
  ("__wbg_call_672a4d21634d4a24",
    Caught (fn 2 (λ arg0 arg1, method arg0 "call" [pass arg1])));
  ("__wbg_call_7cccdd69e0791ae2",
    Caught (fn 3 (λ arg0 arg1 arg2, method arg0 "call" [pass arg1; pass arg2])));
  ("__wbg_cancelBubble_2e66f509cdea4d7e",
    Plain (fn 1 (λ arg0, get_prop arg0 "cancelBubble")));
  ("__wbg_clientHeight_216178c194000db4",
    Plain (fn 1 (λ arg0, get_prop arg0 "clientHeight")));
  ("__wbg_clientWidth_ce67a04dc15fce39",
    Plain (fn 1 (λ arg0, get_prop arg0 "clientWidth")));
  ("__wbg_cloneNode_e35b333b87d51340",
    Caught (fn 1 (λ arg0, method arg0 "cloneNode" [])));
  ("__wbg_close_2893b7d056a0627d",
    Caught (fn 1 (λ arg0, void (method arg0 "close" []))));
  ("__wbg_close_304cc1fef3466669",
    Caught (fn 1 (λ arg0, void (method arg0 "close" []))));
  ("__wbg_close_5ce03e29be453811",
    Caught (fn 1 (λ arg0, void (method arg0 "close" []))));
  ("__wbg_code_f4ec1e6e2e1b0417",
    Plain (fn 1 (λ arg0, get_prop arg0 "code")));
  ("__wbg_compileShader_0ad770bbdbb9de21",
    Plain (fn 2 (λ arg0 arg1, void (method arg0 "compileShader" [pass arg1]))));
  ("__wbg_composedPath_977ce97a0ef39358",
    Plain (fn 1 (λ arg0, method arg0 "composedPath" [])));
  ("__wbg_createBuffer_9886e84a67b68c89",
    Plain (fn 1 (λ arg0, optional (method arg0 "createBuffer" []))));
  ("__wbg_createComment_8b540d4b9d22f212",
    Plain (fn 3 (λ arg0 arg1 arg2, method arg0 "createComment" [string_arg arg1 arg2])));
  ("__wbg_createElementNS_914d752e521987da",
    Caught (fn 5 (λ arg0 arg1 arg2 arg3 arg4, method arg0 "createElementNS" [opt_string_arg
        arg1 arg2; string_arg arg3 arg4])));
  ("__wbg_createElement_8c9931a732ee2fea",
    Caught (fn 3 (λ arg0 arg1 arg2, method arg0 "createElement" [string_arg arg1 arg2])));
  ("__wbg_createProgram_da203074cafb1038",
    Plain (fn 1 (λ arg0, optional (method arg0 "createProgram" []))));
  ("__wbg_createShader_983150fb1243ee56",
    Plain (fn 2 (λ arg0 arg1, optional (method arg0 "createShader" [ushr arg1]))));
  ("__wbg_createTextNode_42af1a9f21bb3360",
    Plain (fn 3 (λ arg0 arg1 arg2, method arg0 "createTextNode" [string_arg arg1 arg2])));
  ("__wbg_createTexture_bfaa54c0cd22e367",
    Plain (fn 1 (λ arg0, optional (method arg0 "createTexture" []))));
  ("__wbg_data_432d9c3df2630942",
    Plain (fn 1 (λ arg0, get_prop arg0 "data")));
  ("__wbg_deleteProperty_96363d4a1d977c97",
    Caught (fn 2 (λ arg0 arg1, o ← global "Reflect"; method o "deleteProperty" [pass arg0;
        pass arg1])));
  ("__wbg_dispatchEvent_9e259d7c1d603dfb",
    Caught (fn 2 (λ arg0 arg1, method arg0 "dispatchEvent" [pass arg1])));
  ("__wbg_document_d249400bd7bd996d",
    Plain (fn 1 (λ arg0, optional (get_prop arg0 "document"))));
  ("__wbg_drawArrays_6d29ea2ebc0c72a2",
    Plain (fn 4 (λ arg0 arg1 arg2 arg3, void (method arg0 "drawArrays" [ushr arg1; pass arg2;
        pass arg3]))));
  ("__wbg_drawElements_65cb4b099bd7d4ac",
    Plain (fn 5 (λ arg0 arg1 arg2 arg3 arg4, void (method arg0 "drawElements" [ushr arg1; pass
        arg2; ushr arg3; pass arg4]))));
  ("__wbg_enableVertexAttribArray_93c3d406a41ad6c7",
    Plain (fn 2 (λ arg0 arg1, void (method arg0 "enableVertexAttribArray" [ushr arg1]))));
  ("__wbg_enqueue_bb16ba72f537dc9e",
    Caught (fn 2 (λ arg0 arg1, void (method arg0 "enqueue" [pass arg1]))))
].

(** Lines 542 to 689. *)
Definition imports_2 : list (string * import (S := S) (H := H)) := [
  ("__wbg_error_7534b8e9a36f1ab4",
    Plain (fn 2 (λ arg0 arg1, deferred [(arg0, arg1)] (o ← global "console"; method o "error"
        [string_arg arg0 arg1]))));
  ("__wbg_fetch_a9bc66c159c18e19",
    Plain (fn 1 (λ arg0, call_global "fetch" [pass arg0])));
  ("__wbg_getAttribLocation_959c0150cdd39cac",
    Plain (fn 4 (λ arg0 arg1 arg2 arg3, method arg0 "getAttribLocation" [pass arg1; string_arg
        arg2 arg3])));
  ("__wbg_getContext_e9cf379449413580",
    Caught (fn 3 (λ arg0 arg1 arg2, optional (method arg0 "getContext" [string_arg arg1
        arg2]))));
  ("__wbg_getRandomValues_38097e921c2494c3",
    Caught (fn 2 (λ arg0 arg1, void (o ← global "globalThis"; o ← get_prop o "crypto"; method
        o "getRandomValues" [u8_arg arg0 arg1]))));
  ("__wbg_getUniformLocation_657a2b6d102bd126",
    Plain (fn 4 (λ arg0 arg1 arg2 arg3, optional (method arg0 "getUniformLocation" [pass arg1;
        string_arg arg2 arg3]))));
  ("__wbg_get_67b2ba62fc30de12",
    Caught (fn 2 (λ arg0 arg1, o ← global "Reflect"; method o "get" [pass arg0; pass arg1])));
  ("__wbg_get_b9b93047fe3cf45b",
    Plain (fn 2 (λ arg0 arg1, k ← ushr arg1; get_elem arg0 k)));
  ("__wbg_height_838cee19ba8597db",
    Plain (fn 1 (λ arg0, get_prop arg0 "height")));
  ("__wbg_host_166cb082dae71d08",
    Plain (fn 1 (λ arg0, get_prop arg0 "host")));
  ("__wbg_hostname_8d7204884eb7378b",
    Caught (fn 2 (λ arg0 arg1, return_string hd arg0 (get_prop arg1 "hostname"))));
  ("__wbg_insertBefore_c181fb91844cd959",
    Caught (fn 3 (λ arg0 arg1 arg2, method arg0 "insertBefore" [pass arg1; pass arg2])));
  ("__wbg_instanceof_ArrayBuffer_e14585432e3737fc",
    Plain (fn 1 (λ arg0, instanceof arg0 "ArrayBuffer")));
  ("__wbg_instanceof_Element_0af65443936d5154",
    Plain (fn 1 (λ arg0, instanceof arg0 "Element")));
  ("__wbg_instanceof_Error_4d54113b22d20306",
    Plain (fn 1 (λ arg0, instanceof arg0 "Error")));
  ("__wbg_instanceof_HtmlInputElement_12d71bf2d15dd19e",
    Plain (fn 1 (λ arg0, instanceof arg0 "HTMLInputElement")));
  ("__wbg_instanceof_Response_f2cc20d9f7dfd644",
    Plain (fn 1 (λ arg0, instanceof arg0 "Response")));
  ("__wbg_instanceof_ShadowRoot_726578bcd7fa418a",
    Plain (fn 1 (λ arg0, instanceof arg0 "ShadowRoot")));
  ("__wbg_instanceof_WebGl2RenderingContext_2b6045efeb76568d",
    Plain (fn 1 (λ arg0, instanceof arg0 "WebGL2RenderingContext")));
  ("__wbg_instanceof_Window_def73ea0955fc569",
    Plain (fn 1 (λ arg0, instanceof arg0 "Window")));
  ("__wbg_length_a446193dc22c12f8",
    Plain (fn 1 (λ arg0, get_prop arg0 "length")));
  ("__wbg_linkProgram_067ee06739bdde81",
    Plain (fn 2 (λ arg0 arg1, void (method arg0 "linkProgram" [pass arg1]))));
  ("__wbg_location_350d99456c2f3693",
    Plain (fn 1 (λ arg0, get_prop arg0 "location")))
].

(** Lines 690 to 833. *)
Definition imports_3 : list (string * import (S := S) (H := H)) := [
  ("__wbg_log_0cc1b7768397bcfe",
    Plain (fn 8 (λ arg0 arg1 arg2 arg3 arg4 arg5 arg6 arg7, deferred [(arg0, arg1)] (o ←
        global "console"; method o "log" [string_arg arg0 arg1; string_arg arg2 arg3;
        string_arg arg4 arg5; string_arg arg6 arg7]))));
  ("__wbg_log_c222819a41e063d3",
    Plain (fn 1 (λ arg0, void (o ← global "console"; method o "log" [pass arg0]))));
  ("__wbg_log_cb9e190acc5753fb",
    Plain (fn 2 (λ arg0 arg1, deferred [(arg0, arg1)] (o ← global "console"; method o "log"
        [string_arg arg0 arg1]))));
  ("__wbg_mark_7438147ce31e9d4b",
    Plain (fn 2 (λ arg0 arg1, void (o ← global "performance"; method o "mark" [string_arg arg0
        arg1]))));
  ("__wbg_measure_fb7825c11612c823",
    Caught (fn 4 (λ arg0 arg1 arg2 arg3, deferred [(arg0, arg1); (arg2, arg3)] (o ← global
        "performance"; method o "measure" [string_arg arg0 arg1; string_arg arg2 arg3]))));
  ("__wbg_mermaidinit_8cfe82243f62aa26",
    Plain (fn 0 (void (o ← global "mermaid"; method o "init" []))));
  ("__wbg_message_97a2af9b89d693a3",
    Plain (fn 1 (λ arg0, get_prop arg0 "message")));
  ("__wbg_name_0b327d569f00ebee",
    Plain (fn 1 (λ arg0, get_prop arg0 "name")));
  ("__wbg_new_018dcc2d6c8c2f6a",
    Caught (fn 0 (construct "Headers" [])));
  ("__wbg_new_23a2665fac83c611",
    Plain (fn 2 (λ arg0 arg1, lend arg0 arg1 __wbg_adapter_289 (λ cb0, construct "Promise"
        [pass cb0]))));
  ("__wbg_new_405e22f390576ce2",
    Plain (fn 0 (construct "Object" [])));
  ("__wbg_new_80bf4ee74f41ff92",
    Caught (fn 0 (construct "URLSearchParams" [])));
  ("__wbg_new_8a6f238a6ece86ea",
    Plain (fn 0 (construct "Error" [])));
  ("__wbg_new_92c54fc74574ef55",
    Caught (fn 2 (λ arg0 arg1, construct "WebSocket" [string_arg arg0 arg1])));
  ("__wbg_new_9ffbe0a71eff35e3",
    Caught (fn 2 (λ arg0 arg1, construct "URL" [string_arg arg0 arg1])));
  ("__wbg_new_a12002a7f91c75be",
    Plain (fn 1 (λ arg0, construct "Uint8Array" [pass arg0])));
  ("__wbg_new_c68d7209be747379",
    Plain (fn 2 (λ arg0 arg1, construct "Error" [string_arg arg0 arg1])));
  ("__wbg_newnoargs_105ed471475aaf50",
    Plain (fn 2 (λ arg0 arg1, construct "Function" [string_arg arg0 arg1])));
  ("__wbg_newwithbyteoffsetandlength_d4a86622320ea258",
    Plain (fn 3 (λ arg0 arg1 arg2, construct "Uint16Array" [pass arg0; ushr arg1; ushr
        arg2])));
  ("__wbg_newwithbyteoffsetandlength_d97e637ebe145a9a",
    Plain (fn 3 (λ arg0 arg1 arg2, construct "Uint8Array" [pass arg0; ushr arg1; ushr arg2])));
  ("__wbg_newwithbyteoffsetandlength_e6b7e69acd4c7354",
    Plain (fn 3 (λ arg0 arg1 arg2, construct "Float32Array" [pass arg0; ushr arg1; ushr
        arg2])));
  ("__wbg_newwitheventinitdict_502dbfa1b3d2fcbc",
    Caught (fn 3 (λ arg0 arg1 arg2, construct "CloseEvent" [string_arg arg0 arg1; pass
        arg2])));
  ("__wbg_newwithstr_78e86e03c4ae814e",
    Caught (fn 2 (λ arg0 arg1, construct "Request" [string_arg arg0 arg1])));
  ("__wbg_newwithstrandinit_06c535e0a867c635",
    Caught (fn 3 (λ arg0 arg1 arg2, construct "Request" [string_arg arg0 arg1; pass arg2])));
  ("__wbg_origin_7c5d649acdace3ea",
    Caught (fn 2 (λ arg0 arg1, return_string hd arg0 (get_prop arg1 "origin"))));
  ("__wbg_parentNode_9de97a0e7973ea4e",
    Plain (fn 1 (λ arg0, optional (get_prop arg0 "parentNode"))))
].

(** Lines 834 to 980. *)
Definition imports_4 : list (string * import (S := S) (H := H)) := [
  ("__wbg_protocol_faa0494a9b2554cb",
    Caught (fn 2 (λ arg0 arg1, return_string hd arg0 (get_prop arg1 "protocol"))));
  ("__wbg_queueMicrotask_97d92b4fcc8a61c5",
    Plain (fn 1 (λ arg0, void (call_global "queueMicrotask" [pass arg0]))));
  ("__wbg_queueMicrotask_d3219def82552485",
    Plain (fn 1 (λ arg0, get_prop arg0 "queueMicrotask")));
  ("__wbg_reason_49f1cede8bcf23dd",
    Plain (fn 2 (λ arg0 arg1, return_string hd arg0 (get_prop arg1 "reason"))));
  ("__wbg_removeEventListener_056dfe8c3d6c58f9",
    Caught (fn 4 (λ arg0 arg1 arg2 arg3, void (method arg0 "removeEventListener" [string_arg
        arg1 arg2; pass arg3]))));
  ("__wbg_remove_e2d2659f3128c045",
    Plain (fn 1 (λ arg0, void (method arg0 "remove" []))));
  ("__wbg_remove_efb062ab554e1fbd",
    Plain (fn 1 (λ arg0, void (method arg0 "remove" []))));
  ("__wbg_requestAnimationFrame_d7fd890aaefc3246",
    Caught (fn 2 (λ arg0 arg1, method arg0 "requestAnimationFrame" [pass arg1])));
  ("__wbg_resolve_4851785c9c5f573d",
    Plain (fn 1 (λ arg0, o ← global "Promise"; method o "resolve" [pass arg0])));
  ("__wbg_respond_1f279fa9f8edcb1c",
    Caught (fn 2 (λ arg0 arg1, void (method arg0 "respond" [ushr arg1]))));
  ("__wbg_search_e0e79cfe010c5c23",
    Plain (fn 2 (λ arg0 arg1, return_string hd arg0 (get_prop arg1 "search"))));
  ("__wbg_setAttribute_2704501201f15687",
    Caught (fn 5 (λ arg0 arg1 arg2 arg3 arg4, void (method arg0 "setAttribute" [string_arg
        arg1 arg2; string_arg arg3 arg4]))));
  ("__wbg_set_11cd83f45504cedf",
    Caught (fn 5 (λ arg0 arg1 arg2 arg3 arg4, void (method arg0 "set" [string_arg arg1 arg2;
        string_arg arg3 arg4]))));
  ("__wbg_set_65595bdd868b3009",
    Plain (fn 3 (λ arg0 arg1 arg2, void (method arg0 "set" [pass arg1; ushr arg2]))));
  ("__wbg_set_bb8cecf6a62b9f46",
    Caught (fn 3 (λ arg0 arg1 arg2, o ← global "Reflect"; method o "set" [pass arg0; pass
        arg1; pass arg2])));
  ("__wbg_setbinaryType_92fa1ffd873b327c",
    Plain (fn 2 (λ arg0 arg1, set_prop arg0 "binaryType" (enum_at __wbindgen_enum_BinaryType
        arg1))));
  ("__wbg_setbody_5923b78a95eedf29",
    Plain (fn 2 (λ arg0 arg1, set_prop arg0 "body" (pass arg1))));
  ("__wbg_setcode_156060465a2f8f79",
    Plain (fn 2 (λ arg0 arg1, set_prop arg0 "code" (pass arg1))));
  ("__wbg_setheaders_834c0bdb6a8949ad",
    Plain (fn 2 (λ arg0 arg1, set_prop arg0 "headers" (pass arg1))));
  ("__wbg_setheight_da683a33fa99843c",
    Plain (fn 2 (λ arg0 arg1, set_prop arg0 "height" (ushr arg1))));
  ("__wbg_setinnerHTML_31bde41f835786f7",
    Plain (fn 3 (λ arg0 arg1 arg2, set_prop arg0 "innerHTML" (string_arg arg1 arg2))));
  ("__wbg_setinnerText_b11978b8158639c4",
    Plain (fn 3 (λ arg0 arg1 arg2, set_prop arg0 "innerText" (string_arg arg1 arg2))));
  ("__wbg_setmethod_3c5280fe5d890842",
    Plain (fn 3 (λ arg0 arg1 arg2, set_prop arg0 "method" (string_arg arg1 arg2))));
  ("__wbg_setnodeValue_58cb1b2f6b6c33d2",
    Plain (fn 3 (λ arg0 arg1 arg2, set_prop arg0 "nodeValue" (opt_string_arg arg1 arg2))));
  ("__wbg_setonce_0cb80aea26303a35",
    Plain (fn 2 (λ arg0 arg1, set_prop arg0 "once" (nonzero arg1))));
  ("__wbg_setreason_d29ac0402eeeb81a",
    Plain (fn 3 (λ arg0 arg1 arg2, set_prop arg0 "reason" (string_arg arg1 arg2))));
  ("__wbg_setsearch_609451e9e712f3c6",
    Plain (fn 3 (λ arg0 arg1 arg2, set_prop arg0 "search" (string_arg arg1 arg2))));
  ("__wbg_setwidth_c5fed9f5e7f0b406",
    Plain (fn 2 (λ arg0 arg1, set_prop arg0 "width" (ushr arg1))));
  ("__wbg_shaderSource_72d3e8597ef85b67",
    Plain (fn 4 (λ arg0 arg1 arg2 arg3, void (method arg0 "shaderSource" [pass arg1;
        string_arg arg2 arg3]))));
  ("__wbg_stack_0ed75d68575b0f3c",
    Plain (fn 2 (λ arg0 arg1, return_string hd arg0 (get_prop arg1 "stack"))));
  ("__wbg_static_accessor_GLOBAL_88a902d13a557d07",
    Plain (fn 0 (optional (global_or_null "global"))));
  ("__wbg_static_accessor_GLOBAL_THIS_56578be7e9f832b0",
    Plain (fn 0 (optional (global_or_null "globalThis"))));
  ("__wbg_static_accessor_SELF_37c5d418e4bf5819",
    Plain (fn 0 (optional (global_or_null "self"))));
  ("__wbg_static_accessor_WINDOW_5de37043a91a9c40",
    Plain (fn 0 (optional (global_or_null "window"))));
  ("__wbg_target_0a62d9d79a2a1ede",
    Plain (fn 1 (λ arg0, optional (get_prop arg0 "target"))));
  ("__wbg_texImage2D_114e77ca61ee2068",
    Caught (fn 11 (λ arg0 arg1 arg2 arg3 arg4 arg5 arg6 arg7 arg8 arg9 arg10, void (method
        arg0 "texImage2D" [ushr arg1; pass arg2; pass arg3; pass arg4; pass arg5; pass arg6;
        ushr arg7; ushr arg8; pass arg9; ushr arg10]))));
  ("__wbg_texParameteri_8112b26b3c360b7e",
    Plain (fn 4 (λ arg0 arg1 arg2 arg3, void (method arg0 "texParameteri" [ushr arg1; ushr
        arg2; pass arg3]))));
  ("__wbg_texSubImage2D_00e9fc34c22b598e",
    Caught (fn 11 (λ arg0 arg1 arg2 arg3 arg4 arg5 arg6 arg7 arg8 arg9 arg10, void (method
        arg0 "texSubImage2D" [ushr arg1; pass arg2; pass arg3; pass arg4; pass arg5; pass
        arg6; ushr arg7; ushr arg8; pass arg9; ushr arg10]))));
  ("__wbg_text_7805bea50de2af49",
    Caught (fn 1 (λ arg0, method arg0 "text" [])));
  ("__wbg_then_44b73946d2fb3e7d",
    Plain (fn 2 (λ arg0 arg1, method arg0 "then" [pass arg1])))
].

(** Lines 981 to 1123. *)
Definition imports_5 : list (string * import (S := S) (H := H)) := [
  ("__wbg_then_48b406749878a531",
    Plain (fn 3 (λ arg0 arg1 arg2, method arg0 "then" [pass arg1; pass arg2])));
  ("__wbg_toString_5285597960676b7b",
    Plain (fn 1 (λ arg0, method arg0 "toString" [])));
  ("__wbg_toString_c813bbd34d063839",
    Plain (fn 1 (λ arg0, method arg0 "toString" [])));
  ("__wbg_uniform1f_dc009a0e7f7e5977",
    Plain (fn 3 (λ arg0 arg1 arg2, void (method arg0 "uniform1f" [pass arg1; pass arg2]))));
  ("__wbg_url_8f9653b899456042",
    Plain (fn 2 (λ arg0 arg1, return_string hd arg0 (get_prop arg1 "url"))));
  ("__wbg_useProgram_9b2660f7bb210471",
    Plain (fn 2 (λ arg0 arg1, void (method arg0 "useProgram" [pass arg1]))));
  ("__wbg_value_91cbf0dd3ab84c1e",
    Plain (fn 2 (λ arg0 arg1, return_string hd arg0 (get_prop arg1 "value"))));
  ("__wbg_vertexAttribPointer_550dc34903e3d1ea",
    Plain (fn 7 (λ arg0 arg1 arg2 arg3 arg4 arg5 arg6, void (method arg0 "vertexAttribPointer"
        [ushr arg1; pass arg2; ushr arg3; nonzero arg4; pass arg5; pass arg6]))));
  ("__wbg_view_fd8a56e8983f448d",
    Plain (fn 1 (λ arg0, optional (get_prop arg0 "view"))));
  ("__wbg_viewport_e615e98f676f2d39",
    Plain (fn 5 (λ arg0 arg1 arg2 arg3 arg4, void (method arg0 "viewport" [pass arg1; pass
        arg2; pass arg3; pass arg4]))));
  ("__wbg_wasClean_605b4fd66d44354a",
    Plain (fn 1 (λ arg0, get_prop arg0 "wasClean")));
  ("__wbg_width_5dde457d606ba683",
    Plain (fn 1 (λ arg0, get_prop arg0 "width")));
  ("__wbindgen_cb_drop",
    Plain (fn 1 (λ arg0, cb_drop arg0)));
  ("__wbindgen_closure_wrapper1202",
    Plain (fn 3 (λ arg0 arg1 arg2, make_closure arg0 arg1 "415" __wbg_adapter_33)));
  ("__wbindgen_closure_wrapper1226",
    Plain (fn 3 (λ arg0 arg1 arg2, make_closure arg0 arg1 "419" __wbg_adapter_36)));
  ("__wbindgen_closure_wrapper1228",
    Plain (fn 3 (λ arg0 arg1 arg2, make_closure arg0 arg1 "419" __wbg_adapter_36)));
  ("__wbindgen_closure_wrapper1230",
    Plain (fn 3 (λ arg0 arg1 arg2, make_closure arg0 arg1 "419" __wbg_adapter_41)));
  ("__wbindgen_closure_wrapper1232",
    Plain (fn 3 (λ arg0 arg1 arg2, make_closure arg0 arg1 "419" __wbg_adapter_36)));
  ("__wbindgen_closure_wrapper3232",
    Plain (fn 3 (λ arg0 arg1 arg2, make_closure arg0 arg1 "453" __wbg_adapter_46)));
  ("__wbindgen_closure_wrapper879",
    Plain (fn 3 (λ arg0 arg1 arg2, make_closure arg0 arg1 "313" __wbg_adapter_30)));
  ("__wbindgen_debug_string",
    Plain (fn 2 (λ arg0 arg1, return_string hd arg0 (debug_string stack arg1))));
  ("__wbindgen_init_externref_table",
    Plain (fn 0 (init_externref_table)));
  ("__wbindgen_is_falsy",
    Plain (fn 1 (λ arg0, mret (Bool (falsy arg0)))));
  ("__wbindgen_is_function",
    Plain (fn 1 (λ arg0, mret (Bool (String.eqb (typeof arg0) "function")))));
  ("__wbindgen_is_null",
    Plain (fn 1 (λ arg0, mret (Bool (is_null arg0)))));
  ("__wbindgen_is_string",
    Plain (fn 1 (λ arg0, mret (Bool (String.eqb (typeof arg0) "string")))));
  ("__wbindgen_is_undefined",
    Plain (fn 1 (λ arg0, mret (Bool (is_undefined arg0)))));
  ("__wbindgen_memory",
    Plain (fn 0 (mret WasmMemory)));
  ("__wbindgen_string_get",
    Plain (fn 2 (λ arg0 arg1, return_opt_string hd arg0 (pass (if String.eqb (typeof arg1)
        "string" then arg1 else Undefined)))));
  ("__wbindgen_string_new",
    Plain (fn 2 (λ arg0 arg1, string_arg arg0 arg1)));
  ("__wbindgen_throw",
    Plain (fn 2 (λ arg0 arg1, e ← construct "Error" [string_arg arg0 arg1]; throw e)))
].

Definition imports : list (string * import (S := S) (H := H)) :=
  imports_1 ++ imports_2 ++ imports_3 ++ imports_4 ++ imports_5.

End imports.

(** ** Loading *)

Definition __wbg_load (B : browser) : source → M error (list warning) loaded :=
  wbg_load B fallback_v1.

(** The views [__wbg_finalize_init] resets. *)
Definition finalized_views : list cache := [DV; U8].

Definition loading : loading :=
  Loading_of __wbg_load parameters memory_param "frontend_bg.wasm" finalized_views.

Section loading.
Context {S : Type} (heap0 : S).

Definition __wbg_init_memory : option nat → session S → nat * session S := init_memory heap0.

Definition initSync (B : browser) :
  input → option nat → session S → outcome error nat * session S := init_sync heap0 loading B.

Definition __wbg_init (B : browser) :
  input → option nat → session S → outcome error nat * session S := init_call heap0 loading B.
End loading.

(** The life cycle of the functions that [makeMutClosure] returns. *)
Definition makeMutClosure_version : version := Original.version.
