(* ===== verification/WlanSwap.v ===== *)
(** * The import object of the wlan-swap front end

    [__wbg_get_imports] of src/examples/wlan-swap/dist/frontend-26c19e7ec5c5840c.js:
    every function the wasm module can call, in the order of the file, as tables of
    [Glue]'s imports; and the enumerations its setters use. *)

From Stdlib Require Import String.
From S2P Require Import Prelude TextCodec Memory Closure Glue DebugString Loader Session.

Definition __wbindgen_enum_BinaryType : list string := ["blob"; "arraybuffer"].
Definition __wbindgen_enum_ReadableStreamType : list string := ["bytes"].

(** The adapters of closures. *)
Definition __wbg_adapter_6 : adapter := Adapter 3 "closure491_externref_shim" Ignored.
Definition __wbg_adapter_11 : adapter :=
  Adapter 2 "wasm_bindgen__convert__closures_____invoke__hc331aff52715f424" Ignored.
Definition __wbg_adapter_16 : adapter :=
  Adapter 2 "wasm_bindgen__convert__closures_____invoke__h3a0ce2e28d0e7b37" Ignored.
Definition __wbg_adapter_19 : adapter := Adapter 3 "closure398_externref_shim" Ignored.
Definition __wbg_adapter_22 : adapter := Adapter 3 "closure465_externref_shim" Ignored.
Definition __wbg_adapter_247 : adapter := Adapter 4 "closure504_externref_shim" Ignored.

Section imports.
Context {S H : Type} `{!Host S H} `{!Exports S H} `{!Allocator S} {TC : TextCodec}.
(** [ArrayBuffer.prototype.detached] exists; the depth of the engine's stack. *)
Context (hd : bool) (stack : nat).

(** Lines 441 to 587. *)
Definition imports_1 : list (string * import (S := S) (H := H)) := [
  ("__wbg_addEventListener_775911544ac9d643",
    Caught (fn 4 (λ arg0 arg1 arg2 arg3, void (method arg0 "addEventListener" [string_arg arg1
        arg2; pass arg3]))));
  ("__wbg_addEventListener_d1c39a5c2329c624",
    Caught (fn 5 (λ arg0 arg1 arg2 arg3 arg4, void (method arg0 "addEventListener" [string_arg
        arg1 arg2; pass arg3; pass arg4]))));
  ("__wbg_attachShader_8bc6f118fa003360",
    Plain (fn 3 (λ arg0 arg1 arg2, void (method arg0 "attachShader" [pass arg1; pass arg2]))));
  ("__wbg_bindBuffer_ca632d407a6cd394",
    Plain (fn 3 (λ arg0 arg1 arg2, void (method arg0 "bindBuffer" [ushr arg1; pass arg2]))));
  ("__wbg_bindTexture_9d1255b2de6a3a20",
    Plain (fn 3 (λ arg0 arg1 arg2, void (method arg0 "bindTexture" [ushr arg1; pass arg2]))));
  ("__wbg_body_8822ca55cb3730d2",
    Plain (fn 1 (λ arg0, optional (get_prop arg0 "body"))));
  ("__wbg_bufferData_a964c14d0eebdeb8",
    Plain (fn 4 (λ arg0 arg1 arg2 arg3, void (method arg0 "bufferData" [ushr arg1; pass arg2;
        ushr arg3]))));
  ("__wbg_buffer_8d40b1d762fb3c66",
    Plain (fn 1 (λ arg0, get_prop arg0 "buffer")));
  ("__wbg_byobRequest_2c036bceca1e6037",
    Plain (fn 1 (λ arg0, optional (get_prop arg0 "byobRequest"))));
  ("__wbg_byteLength_331a6b5545834024",
    Plain (fn 1 (λ arg0, get_prop arg0 "byteLength")));
  ("__wbg_byteOffset_49a5b5608000358b",
    Plain (fn 1 (λ arg0, get_prop arg0 "byteOffset")));
  ("__wbg_call_13410aac570ffff7",
    Caught (fn 2 (λ arg0 arg1, method arg0 "call" [pass arg1])));
  ("__wbg_call_a5400b25a865cfd8",
    Caught (fn 3 (λ arg0 arg1 arg2, method arg0 "call" [pass arg1; pass arg2])));
  ("__wbg_cancelBubble_a4c48803e199b5e8",
    Plain (fn 1 (λ arg0, get_prop arg0 "cancelBubble")));
  ("__wbg_clientHeight_59d075cde7dbe3c7",
    Plain (fn 1 (λ arg0, get_prop arg0 "clientHeight")));
  ("__wbg_clientWidth_8a498b7a82cae772",
    Plain (fn 1 (λ arg0, get_prop arg0 "clientWidth")));
  ("__wbg_cloneNode_79d46b18d5619863",
    Caught (fn 1 (λ arg0, method arg0 "cloneNode" [])));
  ("__wbg_cloneNode_82bea7899ad17d25",
    Caught (fn 2 (λ arg0 arg1, method arg0 "cloneNode" [nonzero arg1])));
  ("__wbg_close_6437264570d2d37f",
    Caught (fn 1 (λ arg0, void (method arg0 "close" []))));
  ("__wbg_close_cccada6053ee3a65",
    Caught (fn 1 (λ arg0, void (method arg0 "close" []))));
  ("__wbg_close_d71a78219dc23e91",
    Caught (fn 1 (λ arg0, void (method arg0 "close" []))));
  ("__wbg_code_177e3bed72688e58",
    Plain (fn 1 (λ arg0, get_prop arg0 "code")));
  ("__wbg_compileShader_3ed42f9f82c060ea",
    Plain (fn 2 (λ arg0 arg1, void (method arg0 "compileShader" [pass arg1]))));
  ("__wbg_composedPath_e5b3f0b3e8415bb5",
    Plain (fn 1 (λ arg0, method arg0 "composedPath" [])));
  ("__wbg_content_a26016a510c10d06",
    Plain (fn 1 (λ arg0, get_prop arg0 "content")));
  ("__wbg_createBuffer_6a92125855922b2e",
    Plain (fn 1 (λ arg0, optional (method arg0 "createBuffer" []))));
  ("__wbg_createComment_08abf524559fd4d7",
    Plain (fn 3 (λ arg0 arg1 arg2, method arg0 "createComment" [string_arg arg1 arg2])));
  ("__wbg_createElementNS_ffbb8bb20b2a7e4c",
    Caught (fn 5 (λ arg0 arg1 arg2 arg3 arg4, method arg0 "createElementNS" [opt_string_arg
        arg1 arg2; string_arg arg3 arg4])));
  ("__wbg_createElement_4909dfa2011f2abe",
    Caught (fn 3 (λ arg0 arg1 arg2, method arg0 "createElement" [string_arg arg1 arg2])));
  ("__wbg_createProgram_905f3efd8354e76c",
    Plain (fn 1 (λ arg0, optional (method arg0 "createProgram" []))));
  ("__wbg_createShader_8548d722c1327303",
    Plain (fn 2 (λ arg0 arg1, optional (method arg0 "createShader" [ushr arg1]))));
  ("__wbg_createTextNode_c71a51271fadf515",
    Plain (fn 3 (λ arg0 arg1 arg2, method arg0 "createTextNode" [string_arg arg1 arg2])));
  ("__wbg_createTexture_62494769edc22521",
    Plain (fn 1 (λ arg0, optional (method arg0 "createTexture" []))));
  ("__wbg_data_9ab529722bcc4e6c",
    Plain (fn 1 (λ arg0, get_prop arg0 "data")));
  ("__wbg_deleteProperty_5fe99f4fd0f66ebe",
    Caught (fn 2 (λ arg0 arg1, o ← global "Reflect"; method o "deleteProperty" [pass arg0;
        pass arg1])));
  ("__wbg_dispatchEvent_cb7e5ff30130cf80",
    Caught (fn 2 (λ arg0 arg1, method arg0 "dispatchEvent" [pass arg1])));
  ("__wbg_document_7d29d139bd619045",
    Plain (fn 1 (λ arg0, optional (get_prop arg0 "document"))));
  ("__wbg_drawElements_3acf8f6523f00d29",
    Plain (fn 5 (λ arg0 arg1 arg2 arg3 arg4, void (method arg0 "drawElements" [ushr arg1; pass
        arg2; ushr arg3; pass arg4]))));
  ("__wbg_enableVertexAttribArray_17e09202dc56b410",
    Plain (fn 2 (λ arg0 arg1, void (method arg0 "enableVertexAttribArray" [ushr arg1]))));
  ("__wbg_enqueue_452bc2343d1c2ff9",
    Caught (fn 2 (λ arg0 arg1, void (method arg0 "enqueue" [pass arg1]))))
].

(** Lines 588 to 734. *)
Definition imports_2 : list (string * import (S := S) (H := H)) := [
  ("__wbg_error_7534b8e9a36f1ab4",
    Plain (fn 2 (λ arg0 arg1, deferred [(arg0, arg1)] (o ← global "console"; method o "error"
        [string_arg arg0 arg1]))));
  ("__wbg_error_99981e16d476aa5c",
    Plain (fn 1 (λ arg0, void (o ← global "console"; method o "error" [pass arg0]))));
  ("__wbg_fetch_a9bc66c159c18e19",
    Plain (fn 1 (λ arg0, call_global "fetch" [pass arg0])));
  ("__wbg_firstElementChild_27076cbfeed86254",
    Plain (fn 1 (λ arg0, optional (get_prop arg0 "firstElementChild"))));
  ("__wbg_getAttribLocation_0de296dd6831e7e2",
    Plain (fn 4 (λ arg0 arg1 arg2 arg3, method arg0 "getAttribLocation" [pass arg1; string_arg
        arg2 arg3])));
  ("__wbg_getContext_4bfd08c32570ece4",
    Caught (fn 4 (λ arg0 arg1 arg2 arg3, optional (method arg0 "getContext" [string_arg arg1
        arg2; pass arg3]))));
  ("__wbg_getRandomValues_38a1ff1ea09f6cc7",
    Caught (fn 2 (λ arg0 arg1, void (o ← global "globalThis"; o ← get_prop o "crypto"; method
        o "getRandomValues" [u8_arg arg0 arg1]))));
  ("__wbg_get_0da715ceaecea5c8",
    Plain (fn 2 (λ arg0 arg1, k ← ushr arg1; get_elem arg0 k)));
  ("__wbg_get_458e874b43b18b25",
    Caught (fn 2 (λ arg0 arg1, o ← global "Reflect"; method o "get" [pass arg0; pass arg1])));
  ("__wbg_height_228fe8a75d4d09d6",
    Plain (fn 1 (λ arg0, get_prop arg0 "height")));
  ("__wbg_host_484d55073e076054",
    Plain (fn 1 (λ arg0, get_prop arg0 "host")));
  ("__wbg_hostname_e085cea10ffacfc6",
    Caught (fn 2 (λ arg0 arg1, return_string hd arg0 (get_prop arg1 "hostname"))));
  ("__wbg_insertBefore_30228206e8f1d3fb",
    Caught (fn 3 (λ arg0 arg1 arg2, method arg0 "insertBefore" [pass arg1; pass arg2])));
  ("__wbg_instanceof_ArrayBuffer_67f3012529f6a2dd",
    Plain (fn 1 (λ arg0, instanceof arg0 "ArrayBuffer")));
  ("__wbg_instanceof_Element_162e4334c7d6f450",
    Plain (fn 1 (λ arg0, instanceof arg0 "Element")));
  ("__wbg_instanceof_Error_76149ae9b431750e",
    Plain (fn 1 (λ arg0, instanceof arg0 "Error")));
  ("__wbg_instanceof_HtmlInputElement_486d1ca974d99353",
    Plain (fn 1 (λ arg0, instanceof arg0 "HTMLInputElement")));
  ("__wbg_instanceof_Response_50fde2cd696850bf",
    Plain (fn 1 (λ arg0, instanceof arg0 "Response")));
  ("__wbg_instanceof_ShadowRoot_f3723967133597a3",
    Plain (fn 1 (λ arg0, instanceof arg0 "ShadowRoot")));
  ("__wbg_instanceof_WebGl2RenderingContext_0437ff340aef5ac7",
    Plain (fn 1 (λ arg0, instanceof arg0 "WebGL2RenderingContext")));
  ("__wbg_instanceof_Window_12d20d558ef92592",
    Plain (fn 1 (λ arg0, instanceof arg0 "Window")));
  ("__wbg_length_6bb7e81f9d7713e4",
    Plain (fn 1 (λ arg0, get_prop arg0 "length")));
  ("__wbg_linkProgram_4bf446d2d081aa07",
    Plain (fn 2 (λ arg0 arg1, void (method arg0 "linkProgram" [pass arg1]))))
].

(** Lines 735 to 883. *)
Definition imports_3 : list (string * import (S := S) (H := H)) := [
  ("__wbg_location_92d89c32ae076cab",
    Plain (fn 1 (λ arg0, get_prop arg0 "location")));
  ("__wbg_log_6c7b5f4f00b8ce3f",
    Plain (fn 1 (λ arg0, void (o ← global "console"; method o "log" [pass arg0]))));
  ("__wbg_mermaidinit_6a2099ed5b36d951",
    Plain (fn 0 (void (o ← global "mermaid"; method o "init" []))));
  ("__wbg_message_125a1b2998b3552a",
    Plain (fn 1 (λ arg0, get_prop arg0 "message")));
  ("__wbg_name_f733db82b3c2804d",
    Plain (fn 1 (λ arg0, get_prop arg0 "name")));
  ("__wbg_new_19c25a3f2fa63a02",
    Plain (fn 0 (construct "Object" [])));
  ("__wbg_new_2e3c58a15f39f5f9",
    Plain (fn 2 (λ arg0 arg1, lend arg0 arg1 __wbg_adapter_247 (λ cb0, construct "Promise"
        [pass cb0]))));
  ("__wbg_new_638ebfaedbf32a5e",
    Plain (fn 1 (λ arg0, construct "Uint8Array" [pass arg0])));
  ("__wbg_new_8a6f238a6ece86ea",
    Plain (fn 0 (construct "Error" [])));
  ("__wbg_new_95e31b8bc5de31d6",
    Caught (fn 2 (λ arg0 arg1, construct "URL" [string_arg arg0 arg1])));
  ("__wbg_new_da9dc54c5db29dfa",
    Plain (fn 2 (λ arg0 arg1, construct "Error" [string_arg arg0 arg1])));
  ("__wbg_new_e213f63d18b0de01",
    Caught (fn 2 (λ arg0 arg1, construct "WebSocket" [string_arg arg0 arg1])));
  ("__wbg_new_e8b27dfd3785875f",
    Caught (fn 0 (construct "URLSearchParams" [])));
  ("__wbg_new_f6e53210afea8e45",
    Caught (fn 0 (construct "Headers" [])));
  ("__wbg_newnoargs_254190557c45b4ec",
    Plain (fn 2 (λ arg0 arg1, construct "Function" [string_arg arg0 arg1])));
  ("__wbg_newwithbyteoffsetandlength_e8f53910b4d42b45",
    Plain (fn 3 (λ arg0 arg1 arg2, construct "Uint8Array" [pass arg0; ushr arg1; ushr arg2])));
  ("__wbg_newwitheventinitdict_fe21d8ccd6054401",
    Caught (fn 3 (λ arg0 arg1 arg2, construct "CloseEvent" [string_arg arg0 arg1; pass
        arg2])));
  ("__wbg_newwithstr_1bc70be98f2e7425",
    Caught (fn 2 (λ arg0 arg1, construct "Request" [string_arg arg0 arg1])));
  ("__wbg_newwithstrandinit_b5d168a29a3fd85f",
    Caught (fn 3 (λ arg0 arg1 arg2, construct "Request" [string_arg arg0 arg1; pass arg2])));
  ("__wbg_parentNode_cc820baee7401ca3",
    Plain (fn 1 (λ arg0, optional (get_prop arg0 "parentNode"))));
  ("__wbg_prototypesetcall_3d4a26c1ed734349",
    Plain (fn 3 (λ arg0 arg1 arg2, void (o ← global "Uint8Array"; o ← get_prop o "prototype";
        o ← get_prop o "set"; method o "call" [u8_arg arg0 arg1; pass arg2]))));
  ("__wbg_queueMicrotask_25d0739ac89e8c88",
    Plain (fn 1 (λ arg0, void (call_global "queueMicrotask" [pass arg0]))));
  ("__wbg_queueMicrotask_4488407636f5bf24",
    Plain (fn 1 (λ arg0, get_prop arg0 "queueMicrotask")));
  ("__wbg_reason_97efd955be6394bd",
    Plain (fn 2 (λ arg0 arg1, return_string hd arg0 (get_prop arg1 "reason"))));
  ("__wbg_reload_9fde301bc335e70d",
    Caught (fn 1 (λ arg0, void (method arg0 "reload" []))));
  ("__wbg_removeAttribute_cf35412842be6ae4",
    Caught (fn 3 (λ arg0 arg1 arg2, void (method arg0 "removeAttribute" [string_arg arg1
        arg2]))));
  ("__wbg_removeEventListener_6d5be9c2821a511e",
    Caught (fn 4 (λ arg0 arg1 arg2 arg3, void (method arg0 "removeEventListener" [string_arg
        arg1 arg2; pass arg3]))));
  ("__wbg_remove_0cd5aff2ca3eb753",
    Plain (fn 1 (λ arg0, void (method arg0 "remove" []))));
  ("__wbg_remove_fec7bce376b31b32",
    Plain (fn 1 (λ arg0, void (method arg0 "remove" []))));
  ("__wbg_requestAnimationFrame_ddc84a7def436784",
    Caught (fn 2 (λ arg0 arg1, method arg0 "requestAnimationFrame" [pass arg1])));
  ("__wbg_resolve_4055c623acdd6a1b",
    Plain (fn 1 (λ arg0, o ← global "Promise"; method o "resolve" [pass arg0])));
  ("__wbg_respond_6c2c4e20ef85138e",
    Caught (fn 2 (λ arg0 arg1, void (method arg0 "respond" [ushr arg1]))));
  ("__wbg_search_3a02a8f2a1a2e604",
    Plain (fn 2 (λ arg0 arg1, return_string hd arg0 (get_prop arg1 "search"))));
  ("__wbg_setAttribute_d1baf9023ad5696f",
    Caught (fn 5 (λ arg0 arg1 arg2 arg3 arg4, void (method arg0 "setAttribute" [string_arg
        arg1 arg2; string_arg arg3 arg4]))));
  ("__wbg_setInterval_3ca6a76801aa276c",
    Caught (fn 3 (λ arg0 arg1 arg2, method arg0 "setInterval" [pass arg1; pass arg2])))
].

(** Lines 884 to 1032. *)
Definition imports_4 : list (string * import (S := S) (H := H)) := [
  ("__wbg_setTimeout_2966518f28aef92e",
    Caught (fn 3 (λ arg0 arg1 arg2, method arg0 "setTimeout" [pass arg1; pass arg2])));
  ("__wbg_set_1353b2a5e96bc48c",
    Plain (fn 3 (λ arg0 arg1 arg2, void (method arg0 "set" [u8_arg arg1 arg2]))));
  ("__wbg_set_1c17f9738fac2718",
    Caught (fn 5 (λ arg0 arg1 arg2 arg3 arg4, void (method arg0 "set" [string_arg arg1 arg2;
        string_arg arg3 arg4]))));
  ("__wbg_set_453345bcda80b89a",
    Caught (fn 3 (λ arg0 arg1 arg2, o ← global "Reflect"; method o "set" [pass arg0; pass
        arg1; pass arg2])));
  ("__wbg_setbinaryType_37f3cd35d7775a47",
    Plain (fn 2 (λ arg0 arg1, set_prop arg0 "binaryType" (enum_at __wbindgen_enum_BinaryType
        arg1))));
  ("__wbg_setbody_c8460bdf44147df8",
    Plain (fn 2 (λ arg0 arg1, set_prop arg0 "body" (pass arg1))));
  ("__wbg_setcode_3d8eb30649405e81",
    Plain (fn 2 (λ arg0 arg1, set_prop arg0 "code" (pass arg1))));
  ("__wbg_setheaders_0052283e2f3503d1",
    Plain (fn 2 (λ arg0 arg1, set_prop arg0 "headers" (pass arg1))));
  ("__wbg_setheight_4fce583024b2d088",
    Plain (fn 2 (λ arg0 arg1, set_prop arg0 "height" (ushr arg1))));
  ("__wbg_setinnerHTML_34e240d6b8e8260c",
    Plain (fn 3 (λ arg0 arg1 arg2, set_prop arg0 "innerHTML" (string_arg arg1 arg2))));
  ("__wbg_setinnerText_54e5a150fca6ee00",
    Plain (fn 3 (λ arg0 arg1 arg2, set_prop arg0 "innerText" (string_arg arg1 arg2))));
  ("__wbg_setmethod_9b504d5b855b329c",
    Plain (fn 3 (λ arg0 arg1 arg2, set_prop arg0 "method" (string_arg arg1 arg2))));
  ("__wbg_setnodeValue_629799145cb84fd8",
    Plain (fn 3 (λ arg0 arg1 arg2, set_prop arg0 "nodeValue" (opt_string_arg arg1 arg2))));
  ("__wbg_setonce_5b860c1f79d40d3b",
    Plain (fn 2 (λ arg0 arg1, set_prop arg0 "once" (nonzero arg1))));
  ("__wbg_setonmessage_5e486f326638a9da",
    Plain (fn 2 (λ arg0 arg1, set_prop arg0 "onmessage" (pass arg1))));
  ("__wbg_setreason_d56f0662fe6c410f",
    Plain (fn 3 (λ arg0 arg1 arg2, set_prop arg0 "reason" (string_arg arg1 arg2))));
  ("__wbg_setsearch_fbee2174e0389ccd",
    Plain (fn 3 (λ arg0 arg1 arg2, set_prop arg0 "search" (string_arg arg1 arg2))));
  ("__wbg_setwidth_40a6ed203b92839d",
    Plain (fn 2 (λ arg0 arg1, set_prop arg0 "width" (ushr arg1))));
  ("__wbg_shaderSource_2ed8147ed144f6d6",
    Plain (fn 4 (λ arg0 arg1 arg2 arg3, void (method arg0 "shaderSource" [pass arg1;
        string_arg arg2 arg3]))));
  ("__wbg_stack_0ed75d68575b0f3c",
    Plain (fn 2 (λ arg0 arg1, return_string hd arg0 (get_prop arg1 "stack"))));
  ("__wbg_static_accessor_GLOBAL_8921f820c2ce3f12",
    Plain (fn 0 (optional (global_or_null "global"))));
  ("__wbg_static_accessor_GLOBAL_THIS_f0a4409105898184",
    Plain (fn 0 (optional (global_or_null "globalThis"))));
  ("__wbg_static_accessor_SELF_995b214ae681ff99",
    Plain (fn 0 (optional (global_or_null "self"))));
  ("__wbg_static_accessor_WINDOW_cde3890479c675ea",
    Plain (fn 0 (optional (global_or_null "window"))));
  ("__wbg_target_f2c963b447be6283",
    Plain (fn 1 (λ arg0, optional (get_prop arg0 "target"))));
  ("__wbg_texImage2D_11e007f284f49d98",
    Caught (fn 11 (λ arg0 arg1 arg2 arg3 arg4 arg5 arg6 arg7 arg8 arg9 arg10, void (method
        arg0 "texImage2D" [ushr arg1; pass arg2; pass arg3; pass arg4; pass arg5; pass arg6;
        ushr arg7; ushr arg8; pass arg9; ushr arg10]))));
  ("__wbg_texParameteri_ebae520a31bfd243",
    Plain (fn 4 (λ arg0 arg1 arg2 arg3, void (method arg0 "texParameteri" [ushr arg1; ushr
        arg2; pass arg3]))));
  ("__wbg_texSubImage2D_dd8a29936a691137",
    Caught (fn 11 (λ arg0 arg1 arg2 arg3 arg4 arg5 arg6 arg7 arg8 arg9 arg10, void (method
        arg0 "texSubImage2D" [ushr arg1; pass arg2; pass arg3; pass arg4; pass arg5; pass
        arg6; ushr arg7; ushr arg8; pass arg9; ushr arg10]))));
  ("__wbg_text_0f69a215637b9b34",
    Caught (fn 1 (λ arg0, method arg0 "text" [])));
  ("__wbg_then_b33a773d723afa3e",
    Plain (fn 3 (λ arg0 arg1 arg2, method arg0 "then" [pass arg1; pass arg2])));
  ("__wbg_then_e22500defe16819f",
    Plain (fn 2 (λ arg0 arg1, method arg0 "then" [pass arg1])));
  ("__wbg_toString_78df35411a4fd40c",
    Plain (fn 1 (λ arg0, method arg0 "toString" [])));
  ("__wbg_toString_d8f537919ef401d6",
    Plain (fn 1 (λ arg0, method arg0 "toString" [])));
  ("__wbg_url_79bd91c4e84e8270",
    Plain (fn 2 (λ arg0 arg1, return_string hd arg0 (get_prop arg1 "url"))));
  ("__wbg_useProgram_3e5c220728446c29",
    Plain (fn 2 (λ arg0 arg1, void (method arg0 "useProgram" [pass arg1]))));
  ("__wbg_value_89377c01d73b6102",
    Plain (fn 2 (λ arg0 arg1, return_string hd arg0 (get_prop arg1 "value"))));
  ("__wbg_value_fdf54c7557edc2e8",
    Plain (fn 2 (λ arg0 arg1, return_string hd arg0 (get_prop arg1 "value"))));
  ("__wbg_vertexAttribPointer_3549d2703f29bf38",
    Plain (fn 7 (λ arg0 arg1 arg2 arg3 arg4 arg5 arg6, void (method arg0 "vertexAttribPointer"
        [ushr arg1; pass arg2; ushr arg3; nonzero arg4; pass arg5; pass arg6]))));
  ("__wbg_view_91cc97d57ab30530",
    Plain (fn 1 (λ arg0, optional (get_prop arg0 "view"))));
  ("__wbg_viewport_08854654c5c2bba6",
    Plain (fn 5 (λ arg0 arg1 arg2 arg3 arg4, void (method arg0 "viewport" [pass arg1; pass
        arg2; pass arg3; pass arg4]))))
].

(** Lines 1033 to 1150. *)
Definition imports_5 : list (string * import (S := S) (H := H)) := [
  ("__wbg_warn_e2ada06313f92f09",
    Plain (fn 1 (λ arg0, void (o ← global "console"; method o "warn" [pass arg0]))));
  ("__wbg_wasClean_ffb515fbcbcbdd3d",
    Plain (fn 1 (λ arg0, get_prop arg0 "wasClean")));
  ("__wbg_wbindgencbdrop_eb10308566512b88",
    Plain (fn 1 (λ arg0, cb_drop arg0)));
  ("__wbg_wbindgendebugstring_99ef257a3ddda34d",
    Plain (fn 2 (λ arg0 arg1, return_string hd arg0 (debug_string stack arg1))));
  ("__wbg_wbindgenisfalsy_03f4059e2ea4ee87",
    Plain (fn 1 (λ arg0, mret (Bool (falsy arg0)))));
  ("__wbg_wbindgenisfunction_8cee7dce3725ae74",
    Plain (fn 1 (λ arg0, mret (Bool (String.eqb (typeof arg0) "function")))));
  ("__wbg_wbindgenisnull_f3037694abe4d97a",
    Plain (fn 1 (λ arg0, mret (Bool (is_null arg0)))));
  ("__wbg_wbindgenisstring_d4fa939789f003b0",
    Plain (fn 1 (λ arg0, mret (Bool (String.eqb (typeof arg0) "string")))));
  ("__wbg_wbindgenisundefined_c4b71d073b92f3c5",
    Plain (fn 1 (λ arg0, mret (Bool (is_undefined arg0)))));
  ("__wbg_wbindgenstringget_0f16a6ddddef376f",
    Plain (fn 2 (λ arg0 arg1, return_opt_string hd arg0 (pass (if String.eqb (typeof arg1)
        "string" then arg1 else Undefined)))));
  ("__wbg_wbindgenthrow_451ec1a8469d7eb6",
    Plain (fn 2 (λ arg0 arg1, e ← construct "Error" [string_arg arg0 arg1]; throw e)));
  ("__wbg_width_c7a070ac56976582",
    Plain (fn 1 (λ arg0, get_prop arg0 "width")));
  ("__wbindgen_cast_0e01051ec6ae5085",
    Plain (fn 2 (λ arg0 arg1, make_closure arg0 arg1 "397" __wbg_adapter_16)));
  ("__wbindgen_cast_2241b6af4c4b2941",
    Plain (fn 2 (λ arg0 arg1, string_arg arg0 arg1)));
  ("__wbindgen_cast_46a2f914673d6489",
    Plain (fn 2 (λ arg0 arg1, make_closure arg0 arg1 "397" __wbg_adapter_19)));
  ("__wbindgen_cast_4b1c6ecbf5b749c2",
    Plain (fn 2 (λ arg0 arg1, make_closure arg0 arg1 "490" __wbg_adapter_6)));
  ("__wbindgen_cast_55a1e910854fa93a",
    Plain (fn 2 (λ arg0 arg1, make_closure arg0 arg1 "464" __wbg_adapter_22)));
  ("__wbindgen_cast_8cf60041ca45c6d3",
    Plain (fn 2 (λ arg0 arg1, make_closure arg0 arg1 "464" __wbg_adapter_11)));
  ("__wbindgen_cast_b3b92d7b125797b8",
    Plain (fn 2 (λ arg0 arg1, make_closure arg0 arg1 "464" __wbg_adapter_22)));
  ("__wbindgen_cast_bbb4883c6389f1de",
    Plain (fn 2 (λ arg0 arg1, u16_arg arg0 arg1)));
  ("__wbindgen_cast_bc731d2e03b107e4",
    Plain (fn 2 (λ arg0 arg1, make_closure arg0 arg1 "464" __wbg_adapter_22)));
  ("__wbindgen_cast_cd07b1914aa3d62c",
    Plain (fn 2 (λ arg0 arg1, f32_arg arg0 arg1)));
  ("__wbindgen_init_externref_table",
    Plain (fn 0 (init_externref_table)))
].

Definition imports : list (string * import (S := S) (H := H)) :=
  imports_1 ++ imports_2 ++ imports_3 ++ imports_4 ++ imports_5.

End imports.

(** ** Loading *)

Definition __wbg_load (B : browser) : source → M error (list warning) loaded :=
  wbg_load B fallback_v2.

(** The views [__wbg_finalize_init] resets. *)
Definition finalized_views : list cache := [DV; F32; U16; U8].

Definition loading : loading :=
  Loading_of __wbg_load parameters memory_param "frontend_bg.wasm" finalized_views.

Section loading.
Context {S : Type} (heap0 : S).

Definition __wbg_init_memory : option nat → session S → nat * session S := init_memory heap0.

Definition initSync (B : browser) :
  input → option nat → session S → outcome error nat * session S := init_sync heap0 loading B.

Definition __wbg_init (B : browser) :
  input → option nat → session S → outcome error nat * session S := init_call heap0 loading B.
End loading.

(** The life cycle of the functions that [makeMutClosure] returns. *)
Definition makeMutClosure_version : version := Original.version.
