(* ===== verification/Prophecy.v ===== *)
(** * The import object of the prophecy GUI

    [__wbg_get_imports] of src/crates/prophecy/dist/prophecy-e16c97ecc1556028.js:
    every function the wasm module can call, in the order of the file, as tables of
    [Glue]'s imports; and the enumerations its setters use. *)

From Stdlib Require Import String.
From S2P Require Import Prelude TextCodec Memory Closure Glue DebugString Loader Session.

Definition __wbindgen_enum_ReadableStreamType : list string := ["bytes"].

(** The adapters of closures. *)
Definition __wbg_adapter_28 : adapter := Adapter 3 "closure208_externref_shim" Ignored.
Definition __wbg_adapter_31 : adapter := Adapter 3 "closure284_externref_shim" Ignored.
Definition __wbg_adapter_156 : adapter := Adapter 4 "closure306_externref_shim" Ignored.

Section imports.
Context {S H : Type} `{!Host S H} `{!Exports S H} `{!Allocator S} {TC : TextCodec}.
(** [ArrayBuffer.prototype.detached] exists; the depth of the engine's stack. *)
Context (hd : bool) (stack : nat).

(** Lines 374 to 514. *)
Definition imports_1 : list (string * import (S := S) (H := H)) := [
  ("__wbg_addEventListener_90e553fdce254421",
    Caught (fn 4 (λ arg0 arg1 arg2 arg3, void (method arg0 "addEventListener" [string_arg arg1
        arg2; pass arg3]))));
  ("__wbg_body_942ea927546a04ba",
    Plain (fn 1 (λ arg0, optional (get_prop arg0 "body"))));
  ("__wbg_buffer_09165b52af8c5237",
    Plain (fn 1 (λ arg0, get_prop arg0 "buffer")));
  ("__wbg_buffer_609cc3eee51ed158",
    Plain (fn 1 (λ arg0, get_prop arg0 "buffer")));
  ("__wbg_byobRequest_77d9adf63337edfb",
    Plain (fn 1 (λ arg0, optional (get_prop arg0 "byobRequest"))));
  ("__wbg_byteLength_e674b853d9c77e1d",
    Plain (fn 1 (λ arg0, get_prop arg0 "byteLength")));
  ("__wbg_byteOffset_fd862df290ef848d",
    Plain (fn 1 (λ arg0, get_prop arg0 "byteOffset")));
  ("__wbg_call_672a4d21634d4a24",
    Caught (fn 2 (λ arg0 arg1, method arg0 "call" [pass arg1])));
  ("__wbg_call_7cccdd69e0791ae2",
    Caught (fn 3 (λ arg0 arg1 arg2, method arg0 "call" [pass arg1; pass arg2])));
  ("__wbg_cancelBubble_2e66f509cdea4d7e",
    Plain (fn 1 (λ arg0, get_prop arg0 "cancelBubble")));
  ("__wbg_cloneNode_e35b333b87d51340",
    Caught (fn 1 (λ arg0, method arg0 "cloneNode" [])));
  ("__wbg_close_304cc1fef3466669",
    Caught (fn 1 (λ arg0, void (method arg0 "close" []))));
  ("__wbg_close_5ce03e29be453811",
    Caught (fn 1 (λ arg0, void (method arg0 "close" []))));
  ("__wbg_composedPath_977ce97a0ef39358",
    Plain (fn 1 (λ arg0, method arg0 "composedPath" [])));
  ("__wbg_createComment_8b540d4b9d22f212",
    Plain (fn 3 (λ arg0 arg1 arg2, method arg0 "createComment" [string_arg arg1 arg2])));
  ("__wbg_createElementNS_914d752e521987da",
    Caught (fn 5 (λ arg0 arg1 arg2 arg3 arg4, method arg0 "createElementNS" [opt_string_arg
        arg1 arg2; string_arg arg3 arg4])));
  ("__wbg_createElement_8c9931a732ee2fea",
    Caught (fn 3 (λ arg0 arg1 arg2, method arg0 "createElement" [string_arg arg1 arg2])));
  ("__wbg_createTextNode_42af1a9f21bb3360",
    Plain (fn 3 (λ arg0 arg1 arg2, method arg0 "createTextNode" [string_arg arg1 arg2])));
  ("__wbg_deleteProperty_96363d4a1d977c97",
    Caught (fn 2 (λ arg0 arg1, o ← global "Reflect"; method o "deleteProperty" [pass arg0;
        pass arg1])));
  ("__wbg_document_d249400bd7bd996d",
    Plain (fn 1 (λ arg0, optional (get_prop arg0 "document"))));
  ("__wbg_enqueue_bb16ba72f537dc9e",
    Caught (fn 2 (λ arg0 arg1, void (method arg0 "enqueue" [pass arg1]))));
  ("__wbg_error_7534b8e9a36f1ab4",
    Plain (fn 2 (λ arg0 arg1, deferred [(arg0, arg1)] (o ← global "console"; method o "error"
        [string_arg arg0 arg1]))));
  ("__wbg_fetch_a9bc66c159c18e19",
    Plain (fn 1 (λ arg0, call_global "fetch" [pass arg0])));
  ("__wbg_get_67b2ba62fc30de12",
    Caught (fn 2 (λ arg0 arg1, o ← global "Reflect"; method o "get" [pass arg0; pass arg1])));
  ("__wbg_get_b9b93047fe3cf45b",
    Plain (fn 2 (λ arg0 arg1, k ← ushr arg1; get_elem arg0 k)));
  ("__wbg_host_166cb082dae71d08",
    Plain (fn 1 (λ arg0, get_prop arg0 "host")));
  ("__wbg_insertBefore_c181fb91844cd959",
    Caught (fn 3 (λ arg0 arg1 arg2, method arg0 "insertBefore" [pass arg1; pass arg2])));
  ("__wbg_instanceof_Element_0af65443936d5154",
    Plain (fn 1 (λ arg0, instanceof arg0 "Element")));
  ("__wbg_instanceof_Error_4d54113b22d20306",
    Plain (fn 1 (λ arg0, instanceof arg0 "Error")));
  ("__wbg_instanceof_Response_f2cc20d9f7dfd644",
    Plain (fn 1 (λ arg0, instanceof arg0 "Response")))
].

(** Lines 515 to 662. *)
Definition imports_2 : list (string * import (S := S) (H := H)) := [
  ("__wbg_instanceof_ShadowRoot_726578bcd7fa418a",
    Plain (fn 1 (λ arg0, instanceof arg0 "ShadowRoot")));
  ("__wbg_instanceof_Window_def73ea0955fc569",
    Plain (fn 1 (λ arg0, instanceof arg0 "Window")));
  ("__wbg_length_a446193dc22c12f8",
    Plain (fn 1 (λ arg0, get_prop arg0 "length")));
  ("__wbg_location_350d99456c2f3693",
    Plain (fn 1 (λ arg0, get_prop arg0 "location")));
  ("__wbg_mermaidinit_8cfe82243f62aa26",
    Plain (fn 0 (void (o ← global "mermaid"; method o "init" []))));
  ("__wbg_message_97a2af9b89d693a3",
    Plain (fn 1 (λ arg0, get_prop arg0 "message")));
  ("__wbg_name_0b327d569f00ebee",
    Plain (fn 1 (λ arg0, get_prop arg0 "name")));
  ("__wbg_new_018dcc2d6c8c2f6a",
    Caught (fn 0 (construct "Headers" [])));
  ("__wbg_new_23a2665fac83c611",
    Plain (fn 2 (λ arg0 arg1, lend arg0 arg1 __wbg_adapter_156 (λ cb0, construct "Promise"
        [pass cb0]))));
  ("__wbg_new_405e22f390576ce2",
    Plain (fn 0 (construct "Object" [])));
  ("__wbg_new_80bf4ee74f41ff92",
    Caught (fn 0 (construct "URLSearchParams" [])));
  ("__wbg_new_8a6f238a6ece86ea",
    Plain (fn 0 (construct "Error" [])));
  ("__wbg_new_9ffbe0a71eff35e3",
    Caught (fn 2 (λ arg0 arg1, construct "URL" [string_arg arg0 arg1])));
  ("__wbg_new_c68d7209be747379",
    Plain (fn 2 (λ arg0 arg1, construct "Error" [string_arg arg0 arg1])));
  ("__wbg_newnoargs_105ed471475aaf50",
    Plain (fn 2 (λ arg0 arg1, construct "Function" [string_arg arg0 arg1])));
  ("__wbg_newwithbyteoffsetandlength_d97e637ebe145a9a",
    Plain (fn 3 (λ arg0 arg1 arg2, construct "Uint8Array" [pass arg0; ushr arg1; ushr arg2])));
  ("__wbg_newwithstr_78e86e03c4ae814e",
    Caught (fn 2 (λ arg0 arg1, construct "Request" [string_arg arg0 arg1])));
  ("__wbg_newwithstrandinit_06c535e0a867c635",
    Caught (fn 3 (λ arg0 arg1 arg2, construct "Request" [string_arg arg0 arg1; pass arg2])));
  ("__wbg_origin_7c5d649acdace3ea",
    Caught (fn 2 (λ arg0 arg1, return_string hd arg0 (get_prop arg1 "origin"))));
  ("__wbg_parentNode_9de97a0e7973ea4e",
    Plain (fn 1 (λ arg0, optional (get_prop arg0 "parentNode"))));
  ("__wbg_queueMicrotask_97d92b4fcc8a61c5",
    Plain (fn 1 (λ arg0, void (call_global "queueMicrotask" [pass arg0]))));
  ("__wbg_queueMicrotask_d3219def82552485",
    Plain (fn 1 (λ arg0, get_prop arg0 "queueMicrotask")));
  ("__wbg_removeEventListener_056dfe8c3d6c58f9",
    Caught (fn 4 (λ arg0 arg1 arg2 arg3, void (method arg0 "removeEventListener" [string_arg
        arg1 arg2; pass arg3]))));
  ("__wbg_remove_e2d2659f3128c045",
    Plain (fn 1 (λ arg0, void (method arg0 "remove" []))));
  ("__wbg_remove_efb062ab554e1fbd",
    Plain (fn 1 (λ arg0, void (method arg0 "remove" []))));
  ("__wbg_resolve_4851785c9c5f573d",
    Plain (fn 1 (λ arg0, o ← global "Promise"; method o "resolve" [pass arg0])));
  ("__wbg_respond_1f279fa9f8edcb1c",
    Caught (fn 2 (λ arg0 arg1, void (method arg0 "respond" [ushr arg1]))));
  ("__wbg_search_e0e79cfe010c5c23",
    Plain (fn 2 (λ arg0 arg1, return_string hd arg0 (get_prop arg1 "search"))));
  ("__wbg_setAttribute_2704501201f15687",
    Caught (fn 5 (λ arg0 arg1 arg2 arg3 arg4, void (method arg0 "setAttribute" [string_arg
        arg1 arg2; string_arg arg3 arg4]))));
  ("__wbg_set_65595bdd868b3009",
    Plain (fn 3 (λ arg0 arg1 arg2, void (method arg0 "set" [pass arg1; ushr arg2]))));
  ("__wbg_set_bb8cecf6a62b9f46",
    Caught (fn 3 (λ arg0 arg1 arg2, o ← global "Reflect"; method o "set" [pass arg0; pass
        arg1; pass arg2])))
].

(** Lines 663 to 807. *)
Definition imports_3 : list (string * import (S := S) (H := H)) := [
  ("__wbg_setheaders_834c0bdb6a8949ad",
    Plain (fn 2 (λ arg0 arg1, set_prop arg0 "headers" (pass arg1))));
  ("__wbg_setinnerHTML_31bde41f835786f7",
    Plain (fn 3 (λ arg0 arg1 arg2, set_prop arg0 "innerHTML" (string_arg arg1 arg2))));
  ("__wbg_setmethod_3c5280fe5d890842",
    Plain (fn 3 (λ arg0 arg1 arg2, set_prop arg0 "method" (string_arg arg1 arg2))));
  ("__wbg_setnodeValue_58cb1b2f6b6c33d2",
    Plain (fn 3 (λ arg0 arg1 arg2, set_prop arg0 "nodeValue" (opt_string_arg arg1 arg2))));
  ("__wbg_setsearch_609451e9e712f3c6",
    Plain (fn 3 (λ arg0 arg1 arg2, set_prop arg0 "search" (string_arg arg1 arg2))));
  ("__wbg_stack_0ed75d68575b0f3c",
    Plain (fn 2 (λ arg0 arg1, return_string hd arg0 (get_prop arg1 "stack"))));
  ("__wbg_static_accessor_GLOBAL_88a902d13a557d07",
    Plain (fn 0 (optional (global_or_null "global"))));
  ("__wbg_static_accessor_GLOBAL_THIS_56578be7e9f832b0",
    Plain (fn 0 (optional (global_or_null "globalThis"))));
  ("__wbg_static_accessor_SELF_37c5d418e4bf5819",
    Plain (fn 0 (optional (global_or_null "self"))));
  ("__wbg_static_accessor_WINDOW_5de37043a91a9c40",
    Plain (fn 0 (optional (global_or_null "window"))));
  ("__wbg_target_0a62d9d79a2a1ede",
    Plain (fn 1 (λ arg0, optional (get_prop arg0 "target"))));
  ("__wbg_text_7805bea50de2af49",
    Caught (fn 1 (λ arg0, method arg0 "text" [])));
  ("__wbg_then_44b73946d2fb3e7d",
    Plain (fn 2 (λ arg0 arg1, method arg0 "then" [pass arg1])));
  ("__wbg_then_48b406749878a531",
    Plain (fn 3 (λ arg0 arg1 arg2, method arg0 "then" [pass arg1; pass arg2])));
  ("__wbg_toString_5285597960676b7b",
    Plain (fn 1 (λ arg0, method arg0 "toString" [])));
  ("__wbg_toString_c813bbd34d063839",
    Plain (fn 1 (λ arg0, method arg0 "toString" [])));
  ("__wbg_url_8f9653b899456042",
    Plain (fn 2 (λ arg0 arg1, return_string hd arg0 (get_prop arg1 "url"))));
  ("__wbg_view_fd8a56e8983f448d",
    Plain (fn 1 (λ arg0, optional (get_prop arg0 "view"))));
  ("__wbg_warn_4ca3906c248c47c4",
    Plain (fn 1 (λ arg0, void (o ← global "console"; method o "warn" [pass arg0]))));
  ("__wbindgen_cb_drop",
    Plain (fn 1 (λ arg0, cb_drop arg0)));
  ("__wbindgen_closure_wrapper2765",
    Plain (fn 3 (λ arg0 arg1 arg2, make_closure arg0 arg1 "285" __wbg_adapter_31)));
  ("__wbindgen_closure_wrapper580",
    Plain (fn 3 (λ arg0 arg1 arg2, make_closure arg0 arg1 "209" __wbg_adapter_28)));
  ("__wbindgen_debug_string",
    Plain (fn 2 (λ arg0 arg1, return_string hd arg0 (debug_string stack arg1))));
  ("__wbindgen_init_externref_table",
    Plain (fn 0 (init_externref_table)));
  ("__wbindgen_is_falsy",
    Plain (fn 1 (λ arg0, mret (Bool (falsy arg0)))));
  ("__wbindgen_is_function",
    Plain (fn 1 (λ arg0, mret (Bool (String.eqb (typeof arg0) "function")))));
  ("__wbindgen_is_null",
    Plain (fn 1 (λ arg0, mret (Bool (is_null arg0)))));
  ("__wbindgen_is_undefined",
    Plain (fn 1 (λ arg0, mret (Bool (is_undefined arg0)))));
  ("__wbindgen_memory",
    Plain (fn 0 (mret WasmMemory)));
  ("__wbindgen_string_get",
    Plain (fn 2 (λ arg0 arg1, return_opt_string hd arg0 (pass (if String.eqb (typeof arg1)
        "string" then arg1 else Undefined)))));
  ("__wbindgen_string_new",
    Plain (fn 2 (λ arg0 arg1, string_arg arg0 arg1)));
  ("__wbindgen_throw",
    Plain (fn 2 (λ arg0 arg1, e ← construct "Error" [string_arg arg0 arg1]; throw e)))
].

Definition imports : list (string * import (S := S) (H := H)) :=
  imports_1 ++ imports_2 ++ imports_3.

End imports.

(** ** Loading *)

Definition __wbg_load (B : browser) : source → M error (list warning) loaded :=
  wbg_load B fallback_v1.

(** The views [__wbg_finalize_init] resets. *)
Definition finalized_views : list cache := [DV; U8].

Definition loading : loading :=
  Loading_of __wbg_load parameters memory_param "prophecy_bg.wasm" finalized_views.

Section loading.
Context {S : Type} (heap0 : S).

Definition __wbg_init_memory : option nat → session S → nat * session S := init_memory heap0.

Definition initSync (B : browser) :
  input → option nat → session S → outcome error nat * session S := init_sync heap0 loading B.

Definition __wbg_init (B : browser) :
  input → option nat → session S → outcome error nat * session S := init_call heap0 loading B.
End loading.

(** The life cycle of the functions that [makeMutClosure] returns. *)
Definition makeMutClosure_version : version := Original.version.
