(* ===== verification/WlanDebug.v ===== *)
(** * The import object of the wlan_debug front end

    [__wbg_get_imports] of src/examples/wlan_debug/dist/frontend-8a18c05eb146efa7.js:
    every function the wasm module can call, in the order of the file, as tables of
    [Glue]'s imports; and the enumerations its setters use. *)

From Stdlib Require Import String.
From S2P Require Import Prelude TextCodec Memory Closure Glue DebugString Loader Session.

Definition __wbindgen_enum_BinaryType : list string := ["blob"; "arraybuffer"].
Definition __wbindgen_enum_ReadableStreamType : list string := ["bytes"].

(** The adapters of closures. *)
Definition wasm_bindgen__convert__closures_____invoke__h65ce2db5fdf0eedf : adapter :=
  Adapter 2 "wasm_bindgen__convert__closures_____invoke__h65ce2db5fdf0eedf" Ignored.
Definition wasm_bindgen__convert__closures_____invoke__h71c1618cd439baed : adapter :=
  Adapter 2 "wasm_bindgen__convert__closures_____invoke__h71c1618cd439baed" NotZero.
Definition wasm_bindgen__convert__closures_____invoke__h705442ba5fd6af6f : adapter :=
  Adapter 3 "wasm_bindgen__convert__closures_____invoke__h705442ba5fd6af6f" Ignored.
Definition wasm_bindgen__convert__closures_____invoke__h6d25d05bc9ceff60 : adapter :=
  Adapter 3 "wasm_bindgen__convert__closures_____invoke__h6d25d05bc9ceff60" Ignored.
Definition wasm_bindgen__convert__closures_____invoke__hca206b6078dfbc56 : adapter :=
  Adapter 3 "wasm_bindgen__convert__closures_____invoke__hca206b6078dfbc56" Ignored.
Definition wasm_bindgen__convert__closures_____invoke__h4b2ba69449b74e62 : adapter :=
  Adapter 3 "wasm_bindgen__convert__closures_____invoke__h4b2ba69449b74e62" Ignored.
Definition wasm_bindgen__convert__closures_____invoke__h1a6d232d156b5320 : adapter :=
  Adapter 3 "wasm_bindgen__convert__closures_____invoke__h1a6d232d156b5320" Ignored.
Definition wasm_bindgen__convert__closures_____invoke__h290b7a63b753574e : adapter :=
  Adapter 4 "wasm_bindgen__convert__closures_____invoke__h290b7a63b753574e" Ignored.

Section imports.
Context {S H : Type} `{!Host S H} `{!Exports S H} `{!Allocator S} {TC : TextCodec}.
(** [ArrayBuffer.prototype.detached] exists; the depth of the engine's stack. *)
Context (hd : bool) (stack : nat).

(** Lines 115 to 261. *)
Definition imports_1 : list (string * import (S := S) (H := H)) := [
  ("__wbg___wbindgen_debug_string_0bc8482c6e3508ae",
    Plain (fn 2 (λ arg0 arg1, return_string hd arg0 (debug_string stack arg1))));
  ("__wbg___wbindgen_is_falsy_e623e5b815413d00",
    Plain (fn 1 (λ arg0, mret (Bool (falsy arg0)))));
  ("__wbg___wbindgen_is_function_0095a73b8b156f76",
    Plain (fn 1 (λ arg0, mret (Bool (String.eqb (typeof arg0) "function")))));
  ("__wbg___wbindgen_is_null_ac34f5003991759a",
    Plain (fn 1 (λ arg0, mret (Bool (is_null arg0)))));
  ("__wbg___wbindgen_is_string_cd444516edc5b180",
    Plain (fn 1 (λ arg0, mret (Bool (String.eqb (typeof arg0) "string")))));
  ("__wbg___wbindgen_is_undefined_9e4d92534c42d778",
    Plain (fn 1 (λ arg0, mret (Bool (is_undefined arg0)))));
  ("__wbg___wbindgen_string_get_72fb696202c56729",
    Plain (fn 2 (λ arg0 arg1, return_opt_string hd arg0 (pass (if String.eqb (typeof arg1)
        "string" then arg1 else Undefined)))));
  ("__wbg___wbindgen_throw_be289d5034ed271b",
    Plain (fn 2 (λ arg0 arg1, e ← construct "Error" [string_arg arg0 arg1]; throw e)));
  ("__wbg__wbg_cb_unref_d9b87ff7982e3b21",
    Plain (fn 1 (λ arg0, cb_unref arg0)));
  ("__wbg_addEventListener_3acb0aad4483804c",
    Caught (fn 4 (λ arg0 arg1 arg2 arg3, void (method arg0 "addEventListener" [string_arg arg1
        arg2; pass arg3]))));
  ("__wbg_addEventListener_c917b5aafbcf493f",
    Caught (fn 5 (λ arg0 arg1 arg2 arg3 arg4, void (method arg0 "addEventListener" [string_arg
        arg1 arg2; pass arg3; pass arg4]))));
  ("__wbg_attachShader_b36058e5c9eeaf54",
    Plain (fn 3 (λ arg0 arg1 arg2, void (method arg0 "attachShader" [pass arg1; pass arg2]))));
  ("__wbg_bindBuffer_c9068e8712a034f5",
    Plain (fn 3 (λ arg0 arg1 arg2, void (method arg0 "bindBuffer" [ushr arg1; pass arg2]))));
  ("__wbg_bindTexture_b2b7b1726a83f93e",
    Plain (fn 3 (λ arg0 arg1 arg2, void (method arg0 "bindTexture" [ushr arg1; pass arg2]))));
  ("__wbg_body_f67922363a220026",
    Plain (fn 1 (λ arg0, optional (get_prop arg0 "body"))));
  ("__wbg_bufferData_98f6c413a8f0f139",
    Plain (fn 4 (λ arg0 arg1 arg2 arg3, void (method arg0 "bufferData" [ushr arg1; pass arg2;
        ushr arg3]))));
  ("__wbg_buffer_26d0910f3a5bc899",
    Plain (fn 1 (λ arg0, get_prop arg0 "buffer")));
  ("__wbg_byobRequest_80e594e6da4e1af7",
    Plain (fn 1 (λ arg0, optional (get_prop arg0 "byobRequest"))));
  ("__wbg_byteLength_3417f266f4bf562a",
    Plain (fn 1 (λ arg0, get_prop arg0 "byteLength")));
  ("__wbg_byteOffset_f88547ca47c86358",
    Plain (fn 1 (λ arg0, get_prop arg0 "byteOffset")));
  ("__wbg_call_389efe28435a9388",
    Caught (fn 2 (λ arg0 arg1, method arg0 "call" [pass arg1])));
  ("__wbg_call_4708e0c13bdc8e95",
    Caught (fn 3 (λ arg0 arg1 arg2, method arg0 "call" [pass arg1; pass arg2])));
  ("__wbg_cancelBubble_d93ec09e9c46cd6f",
    Plain (fn 1 (λ arg0, get_prop arg0 "cancelBubble")));
  ("__wbg_clientHeight_6432ff0d61ccfe7d",
    Plain (fn 1 (λ arg0, get_prop arg0 "clientHeight")));
  ("__wbg_clientWidth_dcf89c40d88df4a3",
    Plain (fn 1 (λ arg0, get_prop arg0 "clientWidth")));
  ("__wbg_cloneNode_b85e9102a9a31b29",
    Caught (fn 2 (λ arg0 arg1, method arg0 "cloneNode" [nonzero arg1])));
  ("__wbg_cloneNode_eaf4ea08ebf633a5",
    Caught (fn 1 (λ arg0, method arg0 "cloneNode" [])));
  ("__wbg_close_06dfa0a815b9d71f",
    Caught (fn 1 (λ arg0, void (method arg0 "close" []))));
  ("__wbg_close_1d08eaf57ed325c0",
    Caught (fn 1 (λ arg0, void (method arg0 "close" []))));
  ("__wbg_close_a79afee31de55b36",
    Caught (fn 1 (λ arg0, void (method arg0 "close" []))));
  ("__wbg_code_a552f1e91eda69b7",
    Plain (fn 1 (λ arg0, get_prop arg0 "code")));
  ("__wbg_compileShader_94718a93495d565d",
    Plain (fn 2 (λ arg0 arg1, void (method arg0 "compileShader" [pass arg1]))));
  ("__wbg_composedPath_9154ab2547c668d5",
    Plain (fn 1 (λ arg0, method arg0 "composedPath" [])));
  ("__wbg_content_681ebf067b179491",
    Plain (fn 1 (λ arg0, get_prop arg0 "content")));
  ("__wbg_createBuffer_26534c05e01b8559",
    Plain (fn 1 (λ arg0, optional (method arg0 "createBuffer" []))));
  ("__wbg_createComment_b783f49934771bb3",
    Plain (fn 3 (λ arg0 arg1 arg2, method arg0 "createComment" [string_arg arg1 arg2])));
  ("__wbg_createElementNS_ee00621496b30ec2",
    Caught (fn 5 (λ arg0 arg1 arg2 arg3 arg4, method arg0 "createElementNS" [opt_string_arg
        arg1 arg2; string_arg arg3 arg4])));
  ("__wbg_createElement_49f60fdcaae809c8",
    Caught (fn 3 (λ arg0 arg1 arg2, method arg0 "createElement" [string_arg arg1 arg2])))
].

(** Lines 262 to 403. *)
Definition imports_2 : list (string * import (S := S) (H := H)) := [
  ("__wbg_createProgram_9b7710a1f2701c2c",
    Plain (fn 1 (λ arg0, optional (method arg0 "createProgram" []))));
  ("__wbg_createShader_e3ac08ed8c5b14b2",
    Plain (fn 2 (λ arg0 arg1, optional (method arg0 "createShader" [ushr arg1]))));
  ("__wbg_createTask_deeb88a68fc97c9d",
    Caught (fn 2 (λ arg0 arg1, o ← global "console"; method o "createTask" [string_arg arg0
        arg1])));
  ("__wbg_createTextNode_55029686c9591bf3",
    Plain (fn 3 (λ arg0 arg1 arg2, method arg0 "createTextNode" [string_arg arg1 arg2])));
  ("__wbg_createTexture_16d2c8a3d7d4a75a",
    Plain (fn 1 (λ arg0, optional (method arg0 "createTexture" []))));
  ("__wbg_data_5330da50312d0bc1",
    Plain (fn 1 (λ arg0, get_prop arg0 "data")));
  ("__wbg_deleteProperty_8c8a05da881fea59",
    Caught (fn 2 (λ arg0 arg1, o ← global "Reflect"; method o "deleteProperty" [pass arg0;
        pass arg1])));
  ("__wbg_dispatchEvent_dc8dcc7ddca11378",
    Caught (fn 2 (λ arg0 arg1, method arg0 "dispatchEvent" [pass arg1])));
  ("__wbg_document_ee35a3d3ae34ef6c",
    Plain (fn 1 (λ arg0, optional (get_prop arg0 "document"))));
  ("__wbg_drawElements_ea2abffa9d1dc736",
    Plain (fn 5 (λ arg0 arg1 arg2 arg3 arg4, void (method arg0 "drawElements" [ushr arg1; pass
        arg2; ushr arg3; pass arg4]))));
  ("__wbg_enableVertexAttribArray_475e06c31777296d",
    Plain (fn 2 (λ arg0 arg1, void (method arg0 "enableVertexAttribArray" [ushr arg1]))));
  ("__wbg_enqueue_2c63f2044f257c3e",
    Caught (fn 2 (λ arg0 arg1, void (method arg0 "enqueue" [pass arg1]))));
  ("__wbg_error_7534b8e9a36f1ab4",
    Plain (fn 2 (λ arg0 arg1, deferred [(arg0, arg1)] (o ← global "console"; method o "error"
        [string_arg arg0 arg1]))));
  ("__wbg_fetch_a9bc66c159c18e19",
    Plain (fn 1 (λ arg0, call_global "fetch" [pass arg0])));
  ("__wbg_firstElementChild_f1c371cb2a4d5101",
    Plain (fn 1 (λ arg0, optional (get_prop arg0 "firstElementChild"))));
  ("__wbg_getAttribLocation_7321cf2d67e036f6",
    Plain (fn 4 (λ arg0 arg1 arg2 arg3, method arg0 "getAttribLocation" [pass arg1; string_arg
        arg2 arg3])));
  ("__wbg_getContext_b28d2db7bd648242",
    Caught (fn 4 (λ arg0 arg1 arg2 arg3, optional (method arg0 "getContext" [string_arg arg1
        arg2; pass arg3]))));
  ("__wbg_get_9b94d73e6221f75c",
    Plain (fn 2 (λ arg0 arg1, k ← ushr arg1; get_elem arg0 k)));
  ("__wbg_get_b3ed3ad4be2bc8ac",
    Caught (fn 2 (λ arg0 arg1, o ← global "Reflect"; method o "get" [pass arg0; pass arg1])));
  ("__wbg_height_38750dc6de41ee75",
    Plain (fn 1 (λ arg0, get_prop arg0 "height")));
  ("__wbg_host_fb29f8be35c2517d",
    Plain (fn 1 (λ arg0, get_prop arg0 "host")));
  ("__wbg_insertBefore_1468142836e61a51",
    Caught (fn 3 (λ arg0 arg1 arg2, method arg0 "insertBefore" [pass arg1; pass arg2])));
  ("__wbg_instanceof_ArrayBuffer_c367199e2fa2aa04",
    Plain (fn 1 (λ arg0, instanceof arg0 "ArrayBuffer")));
  ("__wbg_instanceof_Element_9e662f49ab6c6beb",
    Plain (fn 1 (λ arg0, instanceof arg0 "Element")));
  ("__wbg_instanceof_Error_8573fe0b0b480f46",
    Plain (fn 1 (λ arg0, instanceof arg0 "Error")));
  ("__wbg_instanceof_HtmlInputElement_c10b7260b4e0710a",
    Plain (fn 1 (λ arg0, instanceof arg0 "HTMLInputElement")));
  ("__wbg_instanceof_Response_ee1d54d79ae41977",
    Plain (fn 1 (λ arg0, instanceof arg0 "Response")))
].

(** Lines 404 to 551. *)
Definition imports_3 : list (string * import (S := S) (H := H)) := [
  ("__wbg_instanceof_ShadowRoot_5285adde3587c73e",
    Plain (fn 1 (λ arg0, instanceof arg0 "ShadowRoot")));
  ("__wbg_instanceof_WebGl2RenderingContext_4a08a94517ed5240",
    Plain (fn 1 (λ arg0, instanceof arg0 "WebGL2RenderingContext")));
  ("__wbg_instanceof_Window_ed49b2db8df90359",
    Plain (fn 1 (λ arg0, instanceof arg0 "Window")));
  ("__wbg_length_32ed9a279acd054c",
    Plain (fn 1 (λ arg0, get_prop arg0 "length")));
  ("__wbg_linkProgram_6600dd2c0863bbfd",
    Plain (fn 2 (λ arg0 arg1, void (method arg0 "linkProgram" [pass arg1]))));
  ("__wbg_log_6b5ca2e6124b2808",
    Plain (fn 1 (λ arg0, void (o ← global "console"; method o "log" [pass arg0]))));
  ("__wbg_mermaidinit_6a2099ed5b36d951",
    Plain (fn 0 (void (o ← global "mermaid"; method o "init" []))));
  ("__wbg_message_9ddc4b9a62a7c379",
    Plain (fn 1 (λ arg0, get_prop arg0 "message")));
  ("__wbg_name_446e25ef2cfdab5a",
    Plain (fn 1 (λ arg0, get_prop arg0 "name")));
  ("__wbg_new_057993d5b5e07835",
    Caught (fn 2 (λ arg0 arg1, construct "WebSocket" [string_arg arg0 arg1])));
  ("__wbg_new_074b505417ada2d9",
    Caught (fn 0 (construct "URLSearchParams" [])));
  ("__wbg_new_361308b2356cecd0",
    Plain (fn 0 (construct "Object" [])));
  ("__wbg_new_64284bd487f9d239",
    Caught (fn 0 (construct "Headers" [])));
  ("__wbg_new_72b49615380db768",
    Plain (fn 2 (λ arg0 arg1, construct "Error" [string_arg arg0 arg1])));
  ("__wbg_new_8a6f238a6ece86ea",
    Plain (fn 0 (construct "Error" [])));
  ("__wbg_new_b5d9e2fb389fef91",
    Plain (fn 2 (λ arg0 arg1, lend arg0 arg1
        wasm_bindgen__convert__closures_____invoke__h290b7a63b753574e (λ cb0, construct
        "Promise" [pass cb0]))));
  ("__wbg_new_c2f21774701ddac7",
    Caught (fn 2 (λ arg0 arg1, construct "URL" [string_arg arg0 arg1])));
  ("__wbg_new_dd2b680c8bf6ae29",
    Plain (fn 1 (λ arg0, construct "Uint8Array" [pass arg0])));
  ("__wbg_new_no_args_1c7c842f08d00ebb",
    Plain (fn 2 (λ arg0 arg1, construct "Function" [string_arg arg0 arg1])));
  ("__wbg_new_with_byte_offset_and_length_aa261d9c9da49eb1",
    Plain (fn 3 (λ arg0 arg1 arg2, construct "Uint8Array" [pass arg0; ushr arg1; ushr arg2])));
  ("__wbg_new_with_event_init_dict_7721feeda3e1e6fa",
    Caught (fn 3 (λ arg0 arg1 arg2, construct "CloseEvent" [string_arg arg0 arg1; pass
        arg2])));
  ("__wbg_new_with_str_a7c7f835549b152a",
    Caught (fn 2 (λ arg0 arg1, construct "Request" [string_arg arg0 arg1])));
  ("__wbg_new_with_str_and_init_a61cbc6bdef21614",
    Caught (fn 3 (λ arg0 arg1 arg2, construct "Request" [string_arg arg0 arg1; pass arg2])));
  ("__wbg_parentNode_d44bd5ec58601e45",
    Plain (fn 1 (λ arg0, optional (get_prop arg0 "parentNode"))));
  ("__wbg_prototypesetcall_bdcdcc5842e4d77d",
    Plain (fn 3 (λ arg0 arg1 arg2, void (o ← global "Uint8Array"; o ← get_prop o "prototype";
        o ← get_prop o "set"; method o "call" [u8_arg arg0 arg1; pass arg2]))));
  ("__wbg_queueMicrotask_0aa0a927f78f5d98",
    Plain (fn 1 (λ arg0, get_prop arg0 "queueMicrotask")));
  ("__wbg_queueMicrotask_5bb536982f78a56f",
    Plain (fn 1 (λ arg0, void (call_global "queueMicrotask" [pass arg0]))));
  ("__wbg_reason_35fce8e55dd90f31",
    Plain (fn 2 (λ arg0 arg1, return_string hd arg0 (get_prop arg1 "reason"))));
  ("__wbg_removeEventListener_e63328781a5b9af9",
    Caught (fn 4 (λ arg0 arg1 arg2 arg3, void (method arg0 "removeEventListener" [string_arg
        arg1 arg2; pass arg3]))));
  ("__wbg_remove_31c39325eee968fc",
    Plain (fn 1 (λ arg0, void (method arg0 "remove" []))))
].

(** Lines 552 to 700. *)
Definition imports_4 : list (string * import (S := S) (H := H)) := [
  ("__wbg_remove_85daa9b3dddf4e6d",
    Plain (fn 1 (λ arg0, void (method arg0 "remove" []))));
  ("__wbg_requestAnimationFrame_43682f8e1c5e5348",
    Caught (fn 2 (λ arg0 arg1, method arg0 "requestAnimationFrame" [pass arg1])));
  ("__wbg_resolve_002c4b7d9d8f6b64",
    Plain (fn 1 (λ arg0, o ← global "Promise"; method o "resolve" [pass arg0])));
  ("__wbg_respond_bf6ab10399ca8722",
    Caught (fn 2 (λ arg0 arg1, void (method arg0 "respond" [ushr arg1]))));
  ("__wbg_run_bcde7ea43ea6ed7c",
    Plain (fn 3 (λ arg0 arg1 arg2, lend arg1 arg2
        wasm_bindgen__convert__closures_____invoke__h71c1618cd439baed (λ cb0, method arg0
        "run" [pass cb0]))));
  ("__wbg_search_143f09a35047e800",
    Plain (fn 2 (λ arg0 arg1, return_string hd arg0 (get_prop arg1 "search"))));
  ("__wbg_setAttribute_cc8e4c8a2a008508",
    Caught (fn 5 (λ arg0 arg1 arg2 arg3 arg4, void (method arg0 "setAttribute" [string_arg
        arg1 arg2; string_arg arg3 arg4]))));
  ("__wbg_set_6cb8631f80447a67",
    Caught (fn 3 (λ arg0 arg1 arg2, o ← global "Reflect"; method o "set" [pass arg0; pass
        arg1; pass arg2])));
  ("__wbg_set_binaryType_5bbf62e9f705dc1a",
    Plain (fn 2 (λ arg0 arg1, set_prop arg0 "binaryType" (enum_at __wbindgen_enum_BinaryType
        arg1))));
  ("__wbg_set_body_9a7e00afe3cfe244",
    Plain (fn 2 (λ arg0 arg1, set_prop arg0 "body" (pass arg1))));
  ("__wbg_set_cc56eefd2dd91957",
    Plain (fn 3 (λ arg0 arg1 arg2, void (method arg0 "set" [u8_arg arg1 arg2]))));
  ("__wbg_set_code_86d60a9542684e59",
    Plain (fn 2 (λ arg0 arg1, set_prop arg0 "code" (pass arg1))));
  ("__wbg_set_db769d02949a271d",
    Caught (fn 5 (λ arg0 arg1 arg2 arg3 arg4, void (method arg0 "set" [string_arg arg1 arg2;
        string_arg arg3 arg4]))));
  ("__wbg_set_headers_cfc5f4b2c1f20549",
    Plain (fn 2 (λ arg0 arg1, set_prop arg0 "headers" (pass arg1))));
  ("__wbg_set_height_f21f985387070100",
    Plain (fn 2 (λ arg0 arg1, set_prop arg0 "height" (ushr arg1))));
  ("__wbg_set_innerHTML_edd39677e3460291",
    Plain (fn 3 (λ arg0 arg1 arg2, set_prop arg0 "innerHTML" (string_arg arg1 arg2))));
  ("__wbg_set_innerText_2f1502f2d0780499",
    Plain (fn 3 (λ arg0 arg1 arg2, set_prop arg0 "innerText" (string_arg arg1 arg2))));
  ("__wbg_set_method_c3e20375f5ae7fac",
    Plain (fn 3 (λ arg0 arg1 arg2, set_prop arg0 "method" (string_arg arg1 arg2))));
  ("__wbg_set_nodeValue_d947eb0a476b80d7",
    Plain (fn 3 (λ arg0 arg1 arg2, set_prop arg0 "nodeValue" (opt_string_arg arg1 arg2))));
  ("__wbg_set_once_56ba1b87a9884c15",
    Plain (fn 2 (λ arg0 arg1, set_prop arg0 "once" (nonzero arg1))));
  ("__wbg_set_reason_4e11e27980c30a7f",
    Plain (fn 3 (λ arg0 arg1 arg2, set_prop arg0 "reason" (string_arg arg1 arg2))));
  ("__wbg_set_search_1d369b0f3868e132",
    Plain (fn 3 (λ arg0 arg1 arg2, set_prop arg0 "search" (string_arg arg1 arg2))));
  ("__wbg_set_width_d60bc4f2f20c56a4",
    Plain (fn 2 (λ arg0 arg1, set_prop arg0 "width" (ushr arg1))));
  ("__wbg_shaderSource_32425cfe6e5a1e52",
    Plain (fn 4 (λ arg0 arg1 arg2 arg3, void (method arg0 "shaderSource" [pass arg1;
        string_arg arg2 arg3]))));
  ("__wbg_stack_0ed75d68575b0f3c",
    Plain (fn 2 (λ arg0 arg1, return_string hd arg0 (get_prop arg1 "stack"))));
  ("__wbg_static_accessor_GLOBAL_12837167ad935116",
    Plain (fn 0 (optional (global_or_null "global"))));
  ("__wbg_static_accessor_GLOBAL_THIS_e628e89ab3b1c95f",
    Plain (fn 0 (optional (global_or_null "globalThis"))));
  ("__wbg_static_accessor_SELF_a621d3dfbb60d0ce",
    Plain (fn 0 (optional (global_or_null "self"))));
  ("__wbg_static_accessor_WINDOW_f8727f0cf888e0bd",
    Plain (fn 0 (optional (global_or_null "window"))));
  ("__wbg_tagName_0cf6d7b647352f04",
    Plain (fn 2 (λ arg0 arg1, return_string hd arg0 (get_prop arg1 "tagName"))));
  ("__wbg_target_521be630ab05b11e",
    Plain (fn 1 (λ arg0, optional (get_prop arg0 "target"))));
  ("__wbg_texImage2D_9113488cf68be946",
    Caught (fn 11 (λ arg0 arg1 arg2 arg3 arg4 arg5 arg6 arg7 arg8 arg9 arg10, void (method
        arg0 "texImage2D" [ushr arg1; pass arg2; pass arg3; pass arg4; pass arg5; pass arg6;
        ushr arg7; ushr arg8; pass arg9; ushr arg10]))));
  ("__wbg_texParameteri_0d45be2c88d6bad8",
    Plain (fn 4 (λ arg0 arg1 arg2 arg3, void (method arg0 "texParameteri" [ushr arg1; ushr
        arg2; pass arg3]))));
  ("__wbg_texSubImage2D_810be76d09a4203c",
    Caught (fn 11 (λ arg0 arg1 arg2 arg3 arg4 arg5 arg6 arg7 arg8 arg9 arg10, void (method
        arg0 "texSubImage2D" [ushr arg1; pass arg2; pass arg3; pass arg4; pass arg5; pass
        arg6; ushr arg7; ushr arg8; pass arg9; ushr arg10]))));
  ("__wbg_text_083b8727c990c8c0",
    Caught (fn 1 (λ arg0, method arg0 "text" [])));
  ("__wbg_then_0d9fe2c7b1857d32",
    Plain (fn 3 (λ arg0 arg1 arg2, method arg0 "then" [pass arg1; pass arg2])));
  ("__wbg_then_b9e7b3b5f1a9e1b5",
    Plain (fn 2 (λ arg0 arg1, method arg0 "then" [pass arg1])))
].

(** Lines 701 to 810. *)
Definition imports_5 : list (string * import (S := S) (H := H)) := [
  ("__wbg_toString_029ac24421fd7a24",
    Plain (fn 1 (λ arg0, method arg0 "toString" [])));
  ("__wbg_toString_964ff7fe6eca8362",
    Plain (fn 1 (λ arg0, method arg0 "toString" [])));
  ("__wbg_url_36c39f6580d05409",
    Plain (fn 2 (λ arg0 arg1, return_string hd arg0 (get_prop arg1 "url"))));
  ("__wbg_useProgram_fe720ade4d3b6edb",
    Plain (fn 2 (λ arg0 arg1, void (method arg0 "useProgram" [pass arg1]))));
  ("__wbg_value_d402dce7dcb16251",
    Plain (fn 2 (λ arg0 arg1, return_string hd arg0 (get_prop arg1 "value"))));
  ("__wbg_value_e506a07878790ca0",
    Plain (fn 2 (λ arg0 arg1, return_string hd arg0 (get_prop arg1 "value"))));
  ("__wbg_vertexAttribPointer_75f6ff47f6c9f8cb",
    Plain (fn 7 (λ arg0 arg1 arg2 arg3 arg4 arg5 arg6, void (method arg0 "vertexAttribPointer"
        [ushr arg1; pass arg2; ushr arg3; nonzero arg4; pass arg5; pass arg6]))));
  ("__wbg_view_6c32e7184b8606ad",
    Plain (fn 1 (λ arg0, optional (get_prop arg0 "view"))));
  ("__wbg_viewport_df236eac68bc7467",
    Plain (fn 5 (λ arg0 arg1 arg2 arg3 arg4, void (method arg0 "viewport" [pass arg1; pass
        arg2; pass arg3; pass arg4]))));
  ("__wbg_warn_81ab00e6e16e886d",
    Plain (fn 3 (λ arg0 arg1 arg2, void (o ← global "console"; method o "warn" [pass arg0;
        pass arg1; pass arg2]))));
  ("__wbg_warn_f7ae1b2e66ccb930",
    Plain (fn 1 (λ arg0, void (o ← global "console"; method o "warn" [pass arg0]))));
  ("__wbg_wasClean_a9c77a7100d8534f",
    Plain (fn 1 (λ arg0, get_prop arg0 "wasClean")));
  ("__wbg_width_5f66bde2e810fbde",
    Plain (fn 1 (λ arg0, get_prop arg0 "width")));
  ("__wbindgen_cast_0000000000000001",
    Plain (fn 2 (λ arg0 arg1, make_closure arg0 arg1
        "wasm.wasm_bindgen__closure__destroy__h9f355aeb9ddcb8e7"
        wasm_bindgen__convert__closures_____invoke__h705442ba5fd6af6f)));
  ("__wbindgen_cast_0000000000000002",
    Plain (fn 2 (λ arg0 arg1, make_closure arg0 arg1
        "wasm.wasm_bindgen__closure__destroy__h134d0c2aa920e56d"
        wasm_bindgen__convert__closures_____invoke__h6d25d05bc9ceff60)));
  ("__wbindgen_cast_0000000000000003",
    Plain (fn 2 (λ arg0 arg1, make_closure arg0 arg1
        "wasm.wasm_bindgen__closure__destroy__h95f19d01a36739ae"
        wasm_bindgen__convert__closures_____invoke__hca206b6078dfbc56)));
  ("__wbindgen_cast_0000000000000004",
    Plain (fn 2 (λ arg0 arg1, make_closure arg0 arg1
        "wasm.wasm_bindgen__closure__destroy__h48f27f14ffdc59fa"
        wasm_bindgen__convert__closures_____invoke__h65ce2db5fdf0eedf)));
  ("__wbindgen_cast_0000000000000005",
    Plain (fn 2 (λ arg0 arg1, make_closure arg0 arg1
        "wasm.wasm_bindgen__closure__destroy__h8f547915c018ff00"
        wasm_bindgen__convert__closures_____invoke__h4b2ba69449b74e62)));
  ("__wbindgen_cast_0000000000000006",
    Plain (fn 2 (λ arg0 arg1, make_closure arg0 arg1
        "wasm.wasm_bindgen__closure__destroy__h702817896ba26f41"
        wasm_bindgen__convert__closures_____invoke__h1a6d232d156b5320)));
  ("__wbindgen_cast_0000000000000007",
    Plain (fn 2 (λ arg0 arg1, f32_arg arg0 arg1)));
  ("__wbindgen_cast_0000000000000008",
    Plain (fn 2 (λ arg0 arg1, u16_arg arg0 arg1)));
  ("__wbindgen_cast_0000000000000009",
    Plain (fn 2 (λ arg0 arg1, string_arg arg0 arg1)));
  ("__wbindgen_init_externref_table",
    Plain (fn 0 (init_externref_table)))
].

Definition imports : list (string * import (S := S) (H := H)) :=
  imports_1 ++ imports_2 ++ imports_3 ++ imports_4 ++ imports_5.

End imports.

(** ** Loading *)

Definition __wbg_load (B : browser) : source → M error (list warning) loaded :=
  wbg_load B fallback_v3.

(** The views [__wbg_finalize_init] resets. *)
Definition finalized_views : list cache := [DV; F32; U16; U8].

Definition loading : loading :=
  Loading_of __wbg_load parameters memory_param "frontend_bg.wasm" finalized_views.

Section loading.
Context {S : Type} (heap0 : S).

Definition __wbg_init_memory : option nat → session S → nat * session S := init_memory heap0.

Definition initSync (B : browser) :
  input → option nat → session S → outcome error nat * session S := init_sync heap0 loading B.

Definition __wbg_init (B : browser) :
  input → option nat → session S → outcome error nat * session S := init_call heap0 loading B.
End loading.

(** The life cycle of the functions that [makeMutClosure] returns. *)
Definition makeMutClosure_version : version := Unref.version.
