(* ===== verification/Decoder.v ===== *)
(** * The worklet's decoder: wasm-decoder.js

    src/examples/rattlegram/worklet/wasm-decoder.js is the older generation of the glue.
    Its string and array helpers are those of [Memory] (there [getUint8Memory0] is
    [getUint8ArrayMemory0]); here are the parts of its own: strings that wasm returns
    either in memory or by an index of the externref table, its imports, the method
    [process] of [WasmDecoder] with the return area it reserves on wasm's stack, and
    [message] of [MessageSetter]. *)

From Stdlib Require Import String.
From S2P Require Import Prelude TextCodec Memory Closure Glue Loader Session.

(** The exports this file calls besides the allocator's. *)
Class DecoderExports (S H : Type) : Type := {
  wasm_add_to_stack_pointer : Z → J S H Z;
  wasmdecoder_process : Z → Z → Z → Z → J S H unit;
  messagesetter_message : Z → Z → Z → J S H unit;
}.

(** The octets of a little-endian i32. *)
Definition unle32 (l : list Z) : Z :=
  ToInt32 (foldr (λ b acc, b + 256 * acc) 0 l).

Section decoder.
Context {S H : Type} `{!Host S H, !DecoderExports S H, !Allocator S} {TC : TextCodec}.
Abbreviation J A := (J S H A).

(** [getInt32Memory0()\[retptr / 4 + k\]]: [undefined] off the elements. *)
Definition int32_at (retptr k : Z) : J (option Z) :=
  w ← in_glue getInt32Memory0;
  m ← gets (λ r, mem (glue_of r));
  let i := retptr / 4 + k in
  mret (if (retptr mod 4 =? 0) && (0 <=? i) && (i <? v_length m w)
        then Some (unle32 (slice (bytes m) (v_off w + 4 * i) 4)) else None).

(** [getInt32Memory0()\[arg / 4 + k\] = x]: ignored off the elements. *)
Definition int32_put (arg k x : Z) : J unit :=
  w ← in_glue getInt32Memory0;
  m ← gets (λ r, mem (glue_of r));
  let i := arg / 4 + k in
  if (arg mod 4 =? 0) && (0 <=? i) && (i <? v_length m w)
  then in_glue (modify (λ g,
         set_mem (set_bytes (splice (bytes (mem g)) (v_off w + 4 * i) (le32 x)) (mem g)) g))
  else mret ().

(** [getFromExternrefTable0(idx)] *)
Definition getFromExternrefTable0 (idx : Z) : J val :=
  t ← gets externrefs;
  match Zget t idx with Some v => mret v | None => throw (Native (JsErr RangeError)) end.

(** [getCachedStringFromWasm0(ptr, len)]; an argument that is [None] is [undefined], which
    is 0 as a number, and makes [ptr + len] NaN, an end of 0 for [subarray]. *)
Definition getCachedStringFromWasm0 (ptr len : option Z) : J val :=
  match ptr with
  | Some 0 => getFromExternrefTable0 (default 0 len)
  | _ =>
      let p := default 0 ptr in
      s ← in_glue (getStringFromWasm0 p (default (- ToUint32 p) len)); mret (Str s)
  end.

(** [if (r0 !== 0) { wasm.__wbindgen_free(r0, r1, 1); }] *)
Definition free_unless_0 (r0 r1 : option Z) : J unit :=
  match r0 with
  | Some 0 => mret ()
  | _ => in_glue (wasm_free (default 0 r0) (default 0 r1) 1)
  end.

(** The end of [process]: read the result out of the return area. *)
Definition take_result (retptr : Z) : J val :=
  r0 ← int32_at retptr 0;
  r1 ← int32_at retptr 1;
  v2 ← getCachedStringFromWasm0 r0 r1;
  _ ← free_unless_0 r0 r1;
  mret v2.

(** [process(samples)] of a decoder at [this]; [samples] as octets, [None] where the
    caller passes [undefined]. *)
Definition process (this : Z) (samples : option (list Z)) : J val :=
  try_finally
    (retptr ← wasm_add_to_stack_pointer (-16);
     match samples with
     | None => type_error
     | Some samples =>
         ptr0 ← in_glue (passArrayF32ToWasm0 samples wasm_malloc);
         len0 ← gets (λ r, WASM_VECTOR_LEN (glue_of r));
         _ ← wasmdecoder_process retptr this ptr0 len0;
         take_result retptr
     end)
    (_ ← wasm_add_to_stack_pointer 16; mret ()).

(** [message(s)] of a message setter at [this]. *)
Definition message (this : Z) (s : val) : J val :=
  ptr0 ← pass_string s;
  len0 ← gets (λ r, WASM_VECTOR_LEN (glue_of r));
  _ ← messagesetter_message this ptr0 len0;
  mret Undefined.

(** *** The imports *)

(** [typeof console.f == 'function' ? console.f : notDefined('console.f')], evaluated when
    the import object is made. *)
Definition console_import (f : string) : J (import (S := S) (H := H)) :=
  c ← global "console"; g ← get_prop c f;
  mret (Plain (Func None (λ l,
    if String.eqb (typeof g) "function" then call g Undefined l
    else e ← construct "Error" [mret (Str (lit "console." ++ lit f ++ lit " is not defined"))];
         throw e))).

(** [__wbg_get_imports()] *)
Definition get_imports : J (list (string * import (S := S) (H := H))) :=
  debug ← console_import "debug";
  error ← console_import "error";
  info ← console_import "info";
  log ← console_import "log";
  warn ← console_import "warn";
  mret [
    ("__wbindgen_string_new", Plain (fn 2 (λ arg0 arg1, string_arg arg0 arg1)));
    ("__wbg_new_abda76e883ba8a5f", Plain (fn 0 (construct "Error" [])));
    ("__wbg_stack_658279fe44541cf6",
      Plain (fn 2 (λ arg0 arg1,
        ret ← get_prop arg1 "stack";
        ptr1 ← pass_string ret;
        len1 ← gets (λ r, WASM_VECTOR_LEN (glue_of r));
        a ← int_of arg0;
        _ ← int32_put a 1 len1; _ ← int32_put a 0 ptr1; mret Undefined)));
    ("__wbg_error_f851667af71bcfc6",
      Plain (fn 2 (λ arg0 arg1,
        p ← int_of arg0; n ← int_of arg1;
        v0 ← getCachedStringFromWasm0 (Some p) (Some n);
        _ ← free_unless_0 (Some p) (Some n);
        void (c ← global "console"; method c "error" [pass v0]))));
    ("__wbg_debug_81bf1b6b83cc1a06", debug);
    ("__wbg_error_1f4e3e298a7c97f6", error);
    ("__wbg_info_24b7c0f9d7eb6623", info);
    ("__wbg_log_9dfb3879776dd797", log);
    ("__wbg_warn_0e0204547af47087", warn);
    ("__wbindgen_throw",
      Plain (fn 2 (λ arg0 arg1, e ← construct "Error" [string_arg arg0 arg1]; throw e)));
    ("__wbindgen_init_externref_table", Plain (fn 0 init_externref_table))
  ].
End decoder.

(** ** Loading *)

Definition __wbg_load (B : browser) : source → M error (list warning) loaded :=
  wbg_load B fallback_v1.

(** The views [__wbg_finalize_init] resets. *)
Definition finalized_views : list cache := [F32; I32; U8].

Definition loading : loading :=
  Loading_of __wbg_load as_given memory_as_given "wasm-decoder_bg.wasm" finalized_views.

Section loading.
Context {S : Type} (heap0 : S).

Definition __wbg_init_memory : option nat → session S → nat * session S := init_memory heap0.

Definition initSync (B : browser) :
  input → option nat → session S → outcome error nat * session S := init_sync heap0 loading B.

Definition __wbg_init (B : browser) :
  input → option nat → session S → outcome error nat * session S := init_call heap0 loading B.
End loading.

(** ** The stack pointer *)

(** Where exports that return balance wasm's stack pointer [sp], which only the first moves; the
    glue's own work on caches and memory does not reach it.  Nothing is said of an export that
    ends in a trap, or in an exception that passes through it. *)
Class StackLaws (S H : Type) `{!DecoderExports S H, !Allocator S} (sp : realm S H → Z) : Prop := {
  add_to_sp n r : ∃ r', wasm_add_to_stack_pointer n r = Some (Ok (sp r + n), r') ∧
                        sp r' = sp r + n;
  process_sp r a b c d r' : wasmdecoder_process a b c d r = Some (Ok (), r') → sp r' = sp r;
  malloc_sp r g k al p g' : wasm_malloc k al g = Some (Ok p, g') →
    sp (set_glue g' r) = sp (set_glue g r);
  free_sp r g p k al g' : wasm_free p k al g = Some (Ok (), g') →
    sp (set_glue g' r) = sp (set_glue g r);
  glue_sp r n : HelperClosed (λ _, True) (λ g, sp (set_glue g r) = n);
}.

(** Code that keeps [I], unless it is ended by an exception of which [T] tells. *)
Definition unwinds {S E A} (I : S → Prop) (T : E → S → Prop) (m : M E S A) : Prop :=
  ∀ s o s', I s → m s = Some (o, s') →
    match o with Ok _ => I s' | Throw e => I s' ∨ T e s' end.

Lemma unwinds_preserves {S E A} (I : S → Prop) (T : E → S → Prop) (m : M E S A) :
  preserves I m → unwinds I T m.
Proof. intros Hm s [a|e] s' Hs Hr; [|left]; exact (Hm _ _ _ Hs Hr). Qed.

Lemma unwinds_bind {S E A B} (I : S → Prop) (T : E → S → Prop) (m : M E S A) (k : A → M E S B) :
  unwinds I T m → (∀ a, unwinds I T (k a)) → unwinds I T (mbind k m).
Proof.
  intros Hm Hk s o s' Hs. unfold mbind, M_bind.
  destruct (m s) as [[[a|e] s1]|] eqn:E1; [| |done].
  - apply (Hk a). exact (Hm _ _ _ Hs E1).
  - intros [= <- <-]. exact (Hm _ _ _ Hs E1).
Qed.

Section stack.
Context {S H : Type} `{!DecoderExports S H, !Allocator S} {TC : TextCodec}.
Context (sp : realm S H → Z) `{!StackLaws S H sp}.
Abbreviation J A := (J S H A).
Abbreviation at_sp n := (λ r, sp r = n).
Abbreviation on_sp r n := (λ g, sp (set_glue g r) = n).

(** An export that [process] calls, called where the stack pointer is [n], throws [e] and leaves
    the realm [r']. *)
Inductive export_threw (n : Z) (e : val) (r' : realm S H) : Prop :=
  | malloc_threw r k al :
      sp r = n → in_glue (wasm_malloc k al) r = Some (Throw e, r') → export_threw n e r'
  | process_threw r a b c d :
      sp r = n → wasmdecoder_process a b c d r = Some (Throw e, r') → export_threw n e r'
  | free_threw r p k al :
      sp r = n → in_glue (wasm_free p k al) r = Some (Throw e, r') → export_threw n e r'.
Abbreviation unwinds_sp n := (unwinds (at_sp n%Z) (export_threw n%Z)).

#[local] Instance sp_closed r n : HelperClosed (λ _, True) (on_sp r n) := glue_sp r n.

Lemma unwinds_sp_malloc n k al : unwinds_sp n (in_glue (wasm_malloc k al) : J Z).
Proof.
  intros r o r' Hr Hm. pose proof Hm as Hm'. unfold in_glue in Hm.
  destruct (wasm_malloc k al (glue_of r)) as [[[p|e] g]|] eqn:E; simplify_eq.
  - rewrite (malloc_sp r _ _ _ _ _ E). by destruct r.
  - right. by eapply malloc_threw.
Qed.

Lemma unwinds_sp_free n r0 r1 : unwinds_sp n (free_unless_0 r0 r1 : J unit).
Proof.
  assert (Hf : ∀ p k, unwinds_sp n (in_glue (wasm_free p k 1) : J unit)).
  { intros p k r o r' Hr Hm. pose proof Hm as Hm'. unfold in_glue in Hm.
    destruct (wasm_free p k 1 (glue_of r)) as [[[[]|e] g]|] eqn:E; simplify_eq.
    - rewrite (free_sp r _ _ _ _ _ E). by destruct r.
    - right. by eapply free_threw. }
  unfold free_unless_0. destruct r0 as [[|z|z]|]; [|apply Hf..].
  apply unwinds_preserves, preserves_ret.
Qed.

Lemma unwinds_sp_process n a b c d : unwinds_sp n (wasmdecoder_process a b c d : J unit).
Proof.
  intros r [[]|e] r' Hr Hm; [by rewrite (process_sp r _ _ _ _ _ Hm)|].
  right. by eapply process_threw.
Qed.

Lemma preserves_sp_int32_at n a k : preserves (at_sp n) (int32_at a k : J (option Z)).
Proof.
  unfold int32_at. preserves. apply preserves_in_glue. intros r.
  by apply (preserves_get_typed (λ _, True) (on_sp r n)).
Qed.

Lemma preserves_sp_getCached n p l : preserves (at_sp n) (getCachedStringFromWasm0 p l : J val).
Proof.
  assert (Hs : ∀ p l, preserves (at_sp n)
    (s ← in_glue (getStringFromWasm0 p l); mret (Str s) : J val)).
  { intros p' l'. preserves. apply preserves_in_glue. intros r.
    by apply (preserves_getString (λ _, True) (on_sp r n)). }
  unfold getCachedStringFromWasm0, getFromExternrefTable0.
  destruct p as [[|p|p]|]; try apply Hs. preserves.
Qed.

(** [passArrayF32ToWasm0]: the allocation, and the glue's part. *)
Lemma in_glue_bind {A B} (m : G S A) (k : A → G S B) r :
  (in_glue (mbind k m) : J B) r = (a ← in_glue m; in_glue (k a)) r.
Proof.
  unfold in_glue, mbind, M_bind. destruct (m (glue_of r)) as [[[a|e] g]|]; [|done..].
  simpl. by destruct (k a g) as [[[b|e] g']|].
Qed.

Lemma unwinds_sp_pass n s : unwinds_sp n (in_glue (passArrayF32ToWasm0 s wasm_malloc) : J Z).
Proof.
  intros r o r' Hr. unfold passArrayF32ToWasm0. rewrite in_glue_bind. revert r o r' Hr.
  change (unwinds_sp n (ptr ← in_glue (wasm_malloc (Zlen s / 4 * 4) 4);
    in_glue (let ptr := ToUint32 ptr in
             v ← getFloat32ArrayMemory0; _ ← view_set v s (ptr / 4);
             _ ← modify (set_veclen (Zlen s / 4)); mret ptr) : J Z)).
  apply unwinds_bind; [apply unwinds_sp_malloc|intros p].
  apply unwinds_preserves, preserves_in_glue. intros r.
  pose proof (preserves_passArrayF32 (λ _, True) (on_sp r n) s (λ _ _, mret p) Logic.I
    (λ _ _, preserves_ret _ _)) as Hp.
  intros g o g' Hg. exact (Hp g o g' Hg).
Qed.

Lemma unwinds_sp_tail n a : unwinds_sp n (take_result a : J val).
Proof.
  unfold take_result. apply unwinds_bind; [apply unwinds_preserves, preserves_sp_int32_at|intros r0].
  apply unwinds_bind; [apply unwinds_preserves, preserves_sp_int32_at|intros r1].
  apply unwinds_bind; [apply unwinds_preserves, preserves_sp_getCached|intros v].
  apply unwinds_bind; [apply unwinds_sp_free|intros _]. apply unwinds_preserves, preserves_ret.
Qed.

(** What [process] does between taking its return area and giving it back. *)
Lemma unwinds_sp_body n this samples :
  unwinds_sp n (match samples with
    | Some samples =>
        ptr0 ← in_glue (passArrayF32ToWasm0 samples wasm_malloc);
        len0 ← gets (λ r, WASM_VECTOR_LEN (glue_of r));
        _ ← wasmdecoder_process n this ptr0 len0;
        take_result n
    | None => type_error
    end : J val).
Proof.
  destruct samples as [l|]; [|apply unwinds_preserves, preserves_throw].
  apply unwinds_bind; [apply unwinds_sp_pass|intros ptr0].
  apply unwinds_bind; [apply unwinds_preserves; by intros r o r' Hr [= <- <-]|intros len0].
  apply unwinds_bind; [apply unwinds_sp_process|intros _]. apply unwinds_sp_tail.
Qed.
End stack.

(** Without samples: a TypeError, and the stack pointer as it was. *)
Lemma process_no_samples {S H} `{!DecoderExports S H, !Allocator S} {TC : TextCodec}
    (sp : realm S H → Z) `{!StackLaws S H sp} (this : Z) (r : realm S H) :
  ∃ r', process this None r = Some (Throw (Native (JsErr TypeError)), r') ∧ sp r' = sp r.
Proof.
  destruct (add_to_sp (sp := sp) (-16) r) as (r1 & H1 & Hs1).
  destruct (add_to_sp (sp := sp) 16 r1) as (r2 & H2 & Hs2).
  exists r2. split; [|lia]. unfold process, try_finally.
  rewrite (M_bind_ok _ _ _ _ _ H1). unfold type_error, throw. cbn.
  by rewrite (M_bind_ok _ _ _ _ _ H2).
Qed.

(** ** Reading the result *)

Lemma unle32_le32 x : unle32 (le32 x) = ToInt32 x.
Proof.
  unfold unle32, le32. cbn [foldr].
  pose proof (ToUint32_range x).
  replace (ToUint32 x mod 256 + 256 * (ToUint32 x / 256 mod 256 +
    256 * (ToUint32 x / 65536 mod 256 + 256 * (ToUint32 x / 16777216 mod 256 + 256 * 0))))
    with (ToUint32 x) by zdiv.
  unfold ToInt32. by rewrite ToUint32_idem.
Qed.

Section result.
Context {S H : Type} `{!DecoderExports S H, !Allocator S} {TC : TextCodec}.
Implicit Types r : realm S H.

(** The return area holds the pair [(p, n)]. *)
Definition returned r (retptr p n : Z) : Prop :=
  retptr mod 4 = 0 ∧ 0 ≤ retptr ∧ retptr + 8 ≤ Zlen (bytes (mem (glue_of r))) ∧
  slice (bytes (mem (glue_of r))) retptr 8 = le32 p ++ le32 n.

Lemma int32_at_run r retptr p n k :
  cache_ok (glue_of r) → returned r retptr p n → k = 0 ∨ k = 1 →
  ∃ r', (int32_at retptr k : J S H _) r = Some (Ok (Some (ToInt32 (if k =? 0 then p else n))), r') ∧
    cache_ok (glue_of r') ∧ mem (glue_of r') = mem (glue_of r) ∧ externrefs r' = externrefs r.
Proof.
  intros Hc (Hm & H0 & Hl & Hs) Hk.
  destruct (get_typed_run I32 (glue_of r) Hc) as (g1 & Hg & Hm1 & _ & Hc1).
  unfold int32_at. erewrite M_bind_ok by (unfold in_glue, getInt32Memory0; by rewrite Hg).
  erewrite M_bind_ok by done. cbn [glue_of set_glue]. rewrite Hm1.
  exists (set_glue g1 r). split; [|done]. unfold mret, M_ret. do 3 f_equal.
  unfold v_length. cbn [elt_size]. rewrite detached_current. cbn [v_count v_off whole].
  assert (Hr : retptr = 4 * (retptr / 4)) by zdiv.
  rewrite Hm, Z.add_0_l. cbn [Z.eqb andb].
  assert (Hi : 0 ≤ retptr / 4 + k < Zlen (bytes (mem (glue_of r))) / 4) by (destruct Hk; subst k; zdiv).
  destruct (Z.leb_spec 0 (retptr / 4 + k)); [|lia].
  destruct (Z.ltb_spec (retptr / 4 + k) (Zlen (bytes (mem (glue_of r))) / 4)); [|lia]. cbn [andb].
  f_equal. rewrite (slice_split _ retptr 8 4) in Hs by lia.
  apply app_inj_1 in Hs as [Hs1 Hs2].
  2: { apply (inj Z.of_nat). change (Zlen (slice (bytes (mem (glue_of r))) retptr 4) = 4).
       apply Zlen_slice; lia. }
  destruct Hk as [-> | ->]; cbn [Z.eqb].
  - rewrite Z.add_0_r, <- Hr, Hs1. apply unle32_le32.
  - replace (4 * (retptr / 4 + 1)) with (retptr + 4) by lia.
    change (8 - 4) with 4 in Hs2. rewrite Hs2. apply unle32_le32.
Qed.

Lemma getString_signed (g : glue S) p n :
  getStringFromWasm0 (ToInt32 p) n g = getStringFromWasm0 p n g.
Proof. unfold getStringFromWasm0. by rewrite ToUint32_ToInt32. Qed.
End result.

(** ** An instance *)
Module DecoderToy.
(** The host component is wasm's stack pointer; [process] leaves everything as it is. *)
#[global] Instance exports : DecoderExports Z Z := {
  wasm_add_to_stack_pointer n r :=
    let sp := host_of r + n in
    Some (Ok sp, Realm (glue_of r) (externrefs r) (closures r) (scopes r) sp);
  wasmdecoder_process a b c d := mret ();
  messagesetter_message a b c := mret ();
}.
#[global] Instance stack_laws : StackLaws Z Z host_of.
Proof.
  split.
  - intros n r. by eexists.
  - by intros r a b c d r' [= <-].
  - done.
  - done.
  - intros r n. by split.
Qed.

(** The return area at 16 points to the two octets "hi" at 32. *)
Definition realm1 : realm Z Z :=
  Realm (Glue (Mem (replicate 16 0 ++ le32 32 ++ le32 2 ++ replicate 8 0 ++ [104; 105] ++
                    replicate 30 0) 0 34) (λ _, None) 0)
    [Undefined] [] [] 32.
End DecoderToy.

(** ** Properties *)

(** C34: [process] gives wasm's stack pointer back as it found it when it returns, and also when
    it throws -- the caller passed no samples, the result cannot be read -- unless it is an
    export that threw: the allocation of the samples or the freeing of the result trapped, or
    the decoder panicked, in which case nothing is assumed of the stack pointer that wasm has
    left.  Even then [process] has taken back the 16 octets it had reserved, no more and no
    less. *)
Theorem process_balances_stack {St H} `{!DecoderExports St H, !Allocator St}
    {TC : TextCodec} (sp : realm St H → Z) `{!StackLaws St H sp} (this : Z)
    (samples : option (list Z)) (r r' : realm St H) (o : outcome val val) :
  process this samples r = Some (o, r') →
  match o with
  | Ok _ => sp r' = sp r
  | Throw e => sp r' = sp r ∨ ∃ r1, export_threw sp (sp r - 16) e r1 ∧ sp r' = sp r1 + 16
  end.
Proof.
  unfold process, try_finally. set (body := mbind _ _). intros Hrun.
  destruct (add_to_sp (sp := sp) (-16) r) as (r0 & Ha & Hs).
  replace (sp r + -16) with (sp r - 16) in * by lia.
  assert (Hbody : ∀ o1 r1, body r = Some (o1, r1) →
    match o1 with
    | Ok _ => sp r1 = sp r - 16
    | Throw e => sp r1 = sp r - 16 ∨ export_threw sp (sp r - 16) e r1
    end).
  { intros o1 r1 H1. subst body. rewrite (M_bind_ok _ _ _ _ _ Ha) in H1.
    exact (unwinds_sp_body sp (sp r - 16) this samples _ _ _ Hs H1). }
  destruct (body r) as [[o1 r1]|] eqn:Eb; [|done]. specialize (Hbody o1 r1 eq_refl).
  destruct (add_to_sp (sp := sp) 16 r1) as (r2 & Ha2 & Hs2).
  rewrite (M_bind_ok _ _ _ _ _ Ha2) in Hrun. injection Hrun as <- <-.
  destruct o1 as [v|e]; [lia|]. destruct Hbody as [?|?]; [left; lia|right; eauto].
Qed.

(** Without samples, and with samples whose result is read. *)
Lemma process_balances_stack_witness :
  (∃ e r', process (TC := polyfill_codec) 64 None DecoderToy.realm1 = Some (Throw e, r') ∧
     (host_of r' = host_of DecoderToy.realm1 ∨
      ∃ r1, export_threw host_of (host_of DecoderToy.realm1 - 16) e r1 ∧
            host_of r' = host_of r1 + 16)) ∧
  (∃ v r', process (TC := polyfill_codec) 64 (Some [0; 0; 0; 0]) DecoderToy.realm1 =
             Some (Ok v, r') ∧ host_of r' = host_of DecoderToy.realm1).
Proof.
  split; eexists _, _; (split; [vm_compute; reflexivity|]).
  - eapply (process_balances_stack (TC := polyfill_codec) host_of 64 None
              DecoderToy.realm1 _ (Throw _)).
    vm_compute; reflexivity.
  - eapply (process_balances_stack (TC := polyfill_codec) host_of 64 (Some [0; 0; 0; 0])
              DecoderToy.realm1 _ (Ok _)).
    vm_compute; reflexivity.
Defined.

(** C35: when the decoder has left the address and length of a string in the return area,
    [process] returns that string and gives its memory back: what remains to be done after
    reading is exactly the one [__wbindgen_free] of that block. *)
Theorem result_read_and_freed {St H} `{!DecoderExports St H, !Allocator St}
    `{!AllocatorLaws St} {TC : TextCodec} (r : realm St H) (retptr p n : Z) (s : jsstring) :
  cache_ok (glue_of r) → returned r retptr p n → Forall Utf8.unit_ok s →
  string_at (glue_of r) p n s → 0 < p → n < 2 ^ 31 →
  ∃ r', mem (glue_of r') = mem (glue_of r) ∧
    take_result retptr r =
      (_ ← in_glue (wasm_free (ToInt32 p) n 1); mret (Str (tc_normal s))) r'.
Proof.
  intros Hc Hret Hs Hst Hp Hn. unfold take_result.
  destruct (int32_at_run r retptr p n 0) as (r1 & H1 & Hc1 & Hm1 & _); [auto..|].
  rewrite (M_bind_ok _ _ _ _ _ H1). cbn [Z.eqb].
  assert (Hret1 : returned r1 retptr p n) by (unfold returned; by rewrite Hm1).
  destruct (int32_at_run r1 retptr p n 1) as (r2 & H2 & Hc2 & Hm2 & _); [auto..|].
  rewrite (M_bind_ok _ _ _ _ _ H2). cbn [Z.eqb].
  assert (Hst2 : string_at (glue_of r2) p n s) by (unfold string_at in *; by rewrite Hm2, Hm1).
  destruct Hst as (Hu & Hl & _). destruct (live_bounds _ _ _ Hl) as (? & ? & _).
  rewrite (ToInt32_small n) by lia.
  assert (Hnz : ToInt32 p ≠ 0).
  { intros He. pose proof (ToUint32_ToInt32 p) as Hx. rewrite He, Hu in Hx.
    change (ToUint32 0) with 0 in Hx. lia. }
  destruct (get_string_spec s (glue_of r2) p n Hs Hc2 Hst2) as (g3 & Hg3 & Hm3 & _).
  assert (Hget : (getCachedStringFromWasm0 (Some (ToInt32 p)) (Some n) : J St H val) r2 =
    Some (Ok (Str (tc_normal s)), set_glue g3 r2)).
  { unfold getCachedStringFromWasm0. destruct (ToInt32 p) as [|q|q] eqn:E; [done|..];
      cbn [from_option id]; rewrite <- E; unfold in_glue, mbind, M_bind;
      by rewrite getString_signed, Hg3. }
  rewrite (M_bind_ok _ _ _ _ _ Hget). exists (set_glue g3 r2). split.
  - simpl. congruence.
  - unfold free_unless_0. by destruct (ToInt32 p).
Qed.

Lemma result_read_and_freed_witness :
  ∃ r', mem (glue_of r') = mem (glue_of DecoderToy.realm1) ∧
    take_result (TC := polyfill_codec) 16 DecoderToy.realm1 =
      (_ ← in_glue (wasm_free (ToInt32 32) 2 1); mret (Str [104; 105])) r'.
Proof.
  apply (result_read_and_freed (TC := polyfill_codec)
           DecoderToy.realm1 16 32 2 [104; 105]).
  - done.
  - repeat split; (reflexivity || (vm_compute; discriminate)).
  - repeat constructor; by vm_compute.
  - repeat split; (reflexivity || (vm_compute; discriminate)).
  - lia.
  - lia.
Defined.
