(* ===== verification/FrontEnds.v ===== *)
(** * What holds of the import objects of all modules *)

From Stdlib Require Import String.
From S2P Require Import Prelude TextCodec Memory Closure Glue DebugString.
From S2P Require Import Loader Session Loopback Spectrum WlanSwap Prophecy Wlan WlanDebug.
From S2P Require Import Decoder.

Section front_ends.
Context {S H : Type} `{!Host S H} `{!Exports S H} `{!Allocator S} {TC : TextCodec}.
Context (hd : bool) (stack : nat).

(** The import objects, by front end. *)
Definition front_ends : list (list (string * import (S := S) (H := H))) :=
  [Loopback.imports hd stack; Spectrum.imports hd stack; WlanSwap.imports hd stack;
   Prophecy.imports hd stack; Wlan.imports hd stack; WlanDebug.imports hd stack].

(** The function an import wraps, or is. *)
Definition body (i : import (S := S) (H := H)) : list val → J S H val :=
  match i with Plain f | Caught f => apply f end.

(** An entry keeps [I]. *)
Definition keeps (I : realm S H → Prop) (e : string * import (S := S) (H := H)) : Prop :=
  ∀ l, preserves I (body e.2 l).
End front_ends.

(** The modules of the front ends. *)
Definition loadings : list Session.loading :=
  [Loopback.loading; Spectrum.loading; WlanSwap.loading; Prophecy.loading; Wlan.loading;
   WlanDebug.loading].

(** The modules with their import objects: the front ends', and the worklet's, which depends
    on the console there is when it is made. *)
Inductive module_table {S H} `{!Host S H, !Exports S H, !Allocator S} {TC : TextCodec}
    (hd : bool) (stack : nat) (L : Session.loading)
    (t : list (string * import (S := S) (H := H))) : Prop :=
  | front_end_table : (L, t) ∈ zip loadings (front_ends hd stack) → module_table hd stack L t
  | decoder_table r r' :
      L = Decoder.loading → get_imports r = Some (Ok t, r') → module_table hd stack L t.

(** The version of [makeMutClosure] that a module has; the worklet's has none. *)
Definition versions : list version :=
  [Original.version; Original.version; Original.version; Original.version; Unref.version;
   Unref.version].
Inductive module_of {S H} `{!Host S H, !Exports S H, !Allocator S} {TC : TextCodec}
    (hd : bool) (stack : nat) (L : Session.loading)
    (t : list (string * import (S := S) (H := H))) (v : version) : Prop :=
  | front_end_module_of :
      (L, t, v) ∈ zip (zip loadings (front_ends hd stack)) versions → module_of hd stack L t v
  | decoder_module_of r r' :
      L = Decoder.loading → get_imports r = Some (Ok t, r') → module_of hd stack L t v.

Lemma module_table_version {S H} `{!Host S H, !Exports S H, !Allocator S} {TC : TextCodec}
    hd stack L (t : list (string * import (S := S) (H := H))) :
  module_table hd stack L t → ∃ v, module_of hd stack L t v.
Proof.
  intros [Hin|r r' -> Hr]; [|exists Original.version; by eapply decoder_module_of].
  apply list_elem_of_lookup in Hin as [k Hk].
  assert (is_Some (versions !! k)) as [v Hv].
  { apply lookup_lt_is_Some. apply lookup_lt_Some in Hk. exact Hk. }
  exists v. apply front_end_module_of, (list_elem_of_lookup_2 _ k).
  by rewrite (lookup_zip_with pair (zip loadings _)), Hk, Hv.
Qed.

(** All entries of a table. *)
Ltac table tac :=
  repeat match goal with
  | |- Forall _ (_ ++ _) => apply Forall_app; split
  | |- Forall _ [] => exact (List.Forall_nil _)
  | |- Forall _ (_ :: _) => apply List.Forall_cons; [tac ()|]
  end.

Section keeping.
Context {S H : Type} `{!Host S H, !Exports S H, !Allocator S} {TC : TextCodec}.
Context `{!ExportsSafe S H} (D : cache → Prop) (K : version → Prop).
Context (I : realm S H → Prop).
Context `{!Stable D I, !DropsKeep S H K I, !TableKeeps I, !HostKeeps S H I, !ExportsKeep S H I}.
Context (hd : bool) (stack : nat).

Lemma keeps_cb_drop name :
  K Original.version → keeps I (name, Plain (fn 1 (λ arg0, cb_drop arg0))).
Proof. intros Hk l. by apply (preserves_cb_drop I K). Qed.

Lemma keeps_cb_unref name :
  K Unref.version → keeps I (name, Plain (fn 1 (λ arg0, cb_unref arg0))).
Proof. intros Hk l. by apply (preserves_cb_unref I K). Qed.

Ltac keeps_entry _ :=
  lazymatch goal with
  | |- keeps _ (_, Plain (fn 1 (λ x, cb_drop x))) => by apply keeps_cb_drop
  | |- keeps _ (_, Plain (fn 1 (λ x, cb_unref x))) => by apply keeps_cb_unref
  | |- keeps _ _ => intros ?; simpl; repeat safe_step
  end.
Ltac declared HD c := assert (D c) by (apply HD; eapply bool_decide_unpack; reflexivity).

Abbreviation declares L := (∀ c, c ∈ ld_views L → D c).

Lemma loopback_keeps :
  K Original.version → declares Loopback.loading → Forall (keeps I) (Loopback.imports hd stack).
Proof.
  intros Hk HD. declared HD U8. declared HD DV. declared HD U32.
  unfold Loopback.imports, Loopback.imports_1, Loopback.imports_2, Loopback.imports_3,
    Loopback.imports_4, Loopback.imports_5, Loopback.imports_6, Loopback.imports_7,
    Loopback.imports_8, Loopback.imports_9.
  table keeps_entry.
Qed.

Lemma spectrum_keeps :
  K Original.version → declares Spectrum.loading → Forall (keeps I) (Spectrum.imports hd stack).
Proof.
  intros Hk HD. declared HD U8. declared HD DV.
  unfold Spectrum.imports, Spectrum.imports_1, Spectrum.imports_2, Spectrum.imports_3,
    Spectrum.imports_4, Spectrum.imports_5.
  table keeps_entry.
Qed.

Lemma wlanswap_keeps :
  K Original.version → declares WlanSwap.loading → Forall (keeps I) (WlanSwap.imports hd stack).
Proof.
  intros Hk HD. declared HD U8. declared HD DV. declared HD U16. declared HD F32.
  unfold WlanSwap.imports, WlanSwap.imports_1, WlanSwap.imports_2, WlanSwap.imports_3,
    WlanSwap.imports_4, WlanSwap.imports_5.
  table keeps_entry.
Qed.

Lemma prophecy_keeps :
  K Original.version → declares Prophecy.loading → Forall (keeps I) (Prophecy.imports hd stack).
Proof.
  intros Hk HD. declared HD U8. declared HD DV.
  unfold Prophecy.imports, Prophecy.imports_1, Prophecy.imports_2, Prophecy.imports_3.
  table keeps_entry.
Qed.

Lemma wlan_keeps :
  K Unref.version → declares Wlan.loading → Forall (keeps I) (Wlan.imports hd stack).
Proof.
  intros Hk HD. declared HD U8. declared HD DV. declared HD U16. declared HD F32.
  unfold Wlan.imports, Wlan.imports_1, Wlan.imports_2, Wlan.imports_3, Wlan.imports_4,
    Wlan.imports_5.
  table keeps_entry.
Qed.

Lemma wlandebug_keeps :
  K Unref.version → declares WlanDebug.loading → Forall (keeps I) (WlanDebug.imports hd stack).
Proof.
  intros Hk HD. declared HD U8. declared HD DV. declared HD U16. declared HD F32.
  unfold WlanDebug.imports, WlanDebug.imports_1, WlanDebug.imports_2,
    WlanDebug.imports_3, WlanDebug.imports_4, WlanDebug.imports_5.
  table keeps_entry.
Qed.

(** *** The worklet's imports *)

Lemma preserves_int32_put a k x : D I32 → preserves I (int32_put a k x).
Proof.
  intros. unfold int32_put. preserves; apply preserves_in_glue; intros r.
  - by apply (preserves_get_typed D (λ g, I (set_glue g r))).
  - apply preserves_modify. intros g. by apply (closed_splice D (λ g, I (set_glue g r))).
Qed.

Lemma preserves_free_unless_0 r0 r1 : preserves I (free_unless_0 r0 r1 : J S H unit).
Proof.
  unfold free_unless_0. preserves; apply preserves_in_glue; intros r;
    apply preserves_free, stable_wasm.
Qed.

Lemma preserves_getCached p l : D U8 → preserves I (getCachedStringFromWasm0 p l : J S H val).
Proof.
  intros. assert (Hs : ∀ p l, preserves I
    (s ← in_glue (getStringFromWasm0 p l); mret (Str s) : J S H val)).
  { intros p' l'. preserves. apply preserves_in_glue. intros r.
    by apply (preserves_getString D (λ g, I (set_glue g r))). }
  unfold getCachedStringFromWasm0, getFromExternrefTable0.
  destruct p as [[|p|p]|]; try apply Hs. preserves.
Qed.

Hint Resolve preserves_int32_put preserves_free_unless_0 preserves_getCached : preserves.

Lemma console_keeps f name r r' i : console_import f r = Some (Ok i, r') → keeps I (name, i).
Proof.
  unfold console_import. intros (c & r1 & _ & E1)%M_bind_inv.
  apply M_bind_inv in E1 as (g & r2 & _ & E2). injection E2 as <- _.
  intros l. simpl. destruct (String.eqb _ _); [auto with preserves|].
  repeat safe_step.
Qed.

Lemma returned {A} (a b : A) r r' : (mret a : J S H A) r = Some (Ok b, r') → a = b.
Proof. by intros [=]. Qed.

Lemma decoder_keeps r r' t :
  get_imports r = Some (Ok t, r') → declares Decoder.loading → Forall (keeps I) t.
Proof.
  intros Hr HD. declared HD U8. declared HD I32. revert Hr.
  unfold get_imports. intros (debug & r1 & E1 & Hr)%M_bind_inv.
  apply M_bind_inv in Hr as (error & r2 & E2 & Hr).
  apply M_bind_inv in Hr as (info & r3 & E3 & Hr).
  apply M_bind_inv in Hr as (log & r4 & E4 & Hr).
  apply M_bind_inv in Hr as (warn & r5 & E5 & Hr). apply returned in Hr as <-.
  pose proof (preserves_pass D I).
  repeat (apply List.Forall_cons; [first [by eapply console_keeps
    |intros ?; cbn [body fn apply apply_params snd]; repeat safe_step]|]).
  apply List.Forall_nil.
Qed.

(** Each module's imports keep what the code of that module may do. *)
Lemma module_keeps L t v :
  module_of hd stack L t v → K v → declares L → Forall (keeps I) t.
Proof.
  intros [Hin%list_elem_of_In|r r' -> Hr] Hk HD; [|by eapply decoder_keeps]. cbn in Hin.
  destruct Hin as [Heq|[Heq|[Heq|[Heq|[Heq|[Heq|[]]]]]]]; injection Heq as <- <- <-;
    [by apply loopback_keeps|by apply spectrum_keeps|by apply wlanswap_keeps
    |by apply prophecy_keeps|by apply wlan_keeps|by apply wlandebug_keeps].
Qed.

Lemma keeps_import e l : keeps I e → preserves I (run_import e.2 l).
Proof.
  intros He r o r' Hr Hrun. refine (import_keeps D I e.2 l r o r' Hr _ Hrun).
  intros o1 r1 Ho. apply (He l r o1 r1 Hr). by destruct (e.2).
Qed.

(** All of a module's imports. *)
Lemma imports_keep L t v name i l :
  module_of hd stack L t v → K v → declares L → (name, i) ∈ t → preserves I (run_import i l).
Proof.
  intros Ht Hv HD Hi. apply (keeps_import (name, i)).
  pose proof (module_keeps L t v Ht Hv HD) as Hk. rewrite list.Forall_forall in Hk. by apply Hk.
Qed.
End keeping.

(** Where the version does not matter. *)
Lemma tables_keep {S H} `{!Host S H, !Exports S H, !Allocator S} {TC : TextCodec}
    `{!ExportsSafe S H} D (I : realm S H → Prop)
    `{!Stable D I, !Closureless I, !TableKeeps I, !HostKeeps S H I, !ExportsKeep S H I} hd stack L
    (t : list (string * import (S := S) (H := H))) :
  module_table hd stack L t → (∀ c, c ∈ ld_views L → D c) → Forall (keeps I) t.
Proof.
  intros [v Ht]%module_table_version HD.
  exact (module_keeps D (λ _, True) I hd stack L t v Ht Logic.I HD).
Qed.

Lemma table_imports_keep {S H} `{!Host S H, !Exports S H, !Allocator S} {TC : TextCodec}
    `{!ExportsSafe S H} D (I : realm S H → Prop)
    `{!Stable D I, !Closureless I, !TableKeeps I, !HostKeeps S H I, !ExportsKeep S H I} hd stack L
    (t : list (string * import (S := S) (H := H))) name i l :
  module_table hd stack L t → (∀ c, c ∈ ld_views L → D c) → (name, i) ∈ t →
  preserves I (run_import i l).
Proof.
  intros [v Ht]%module_table_version HD.
  exact (imports_keep D (λ _, True) I hd stack L t v name i l Ht Logic.I HD).
Qed.

(** Every front end has a module. *)
Lemma front_end_module {S H} `{!Host S H, !Exports S H, !Allocator S} {TC : TextCodec} hd stack
    (t : list (string * import (S := S) (H := H))) :
  t ∈ front_ends hd stack → ∃ L, (L, t) ∈ zip loadings (front_ends hd stack).
Proof.
  intros Ht. apply list_elem_of_lookup in Ht as [i Hi].
  assert (is_Some (loadings !! i)) as [L HL].
  { apply lookup_lt_is_Some. apply lookup_lt_Some in Hi. exact Hi. }
  exists L. apply (list_elem_of_lookup_2 _ i). by rewrite lookup_zip_with, HL, Hi.
Qed.

(** ** The [instanceof] imports *)
Section instanceof.
Context {S H : Type} `{!Host S H, !Exports S H, !Allocator S} {TC : TextCodec}.
Context (hd : bool) (stack : nat).

Definition is_instanceof (name : string) : bool := String.prefix "__wbg_instanceof_" name.

(** It always answers, [false] if the test itself throws. *)
Definition answers (e : string * import (S := S) (H := H)) : Prop :=
  is_instanceof e.1 = true → ∃ c, ∀ l, run_import e.2 l = instanceof (List.hd Undefined l) c.

Lemma instanceof_answers : Forall (Forall answers) (front_ends (S := S) (H := H) hd stack).
Proof.
  repeat lazymatch goal with
  | |- Forall _ (front_ends _ _) => unfold front_ends
  | |- Forall _ [] => exact (List.Forall_nil _)
  | |- Forall _ (_ ++ _) => apply Forall_app; split
  | |- Forall (Forall _) (_ :: _) => apply List.Forall_cons
  | |- Forall _ (_ :: _) =>
      apply List.Forall_cons; [intros Hi; first [discriminate Hi | by eexists]|]
  | |- Forall _ ?t => let h := eval hnf in t in change t with h
  end.
Qed.
End instanceof.
