(* ===== verification/FrontEndSpec.v ===== *)
(** * Properties of the import objects of all modules *)

From Stdlib Require Import String.
From S2P Require Import Prelude TextCodec Memory Closure Glue DebugString.
From S2P Require Import Loader Session Loopback Spectrum WlanSwap Prophecy Wlan WlanDebug FrontEnds Decoder.

Lemma instanceof_result {S H} `{!Host S H} v c (r r' : realm S H) o :
  instanceof v c r = Some (o, r') → ∃ b, o = Ok (Bool b).
Proof.
  unfold instanceof, try_catch, mbind, M_bind, mret, M_ret.
  destruct (global c r) as [[[w|e] r2]|]; [|intros [= <- <-]; by exists false|done].
  destruct (host_instanceof v w r2) as [[[b|e] r3]|]; [| |done]; intros [= <- <-]; by eexists.
Qed.

(** The imports keep a realm in good order. *)
Lemma imports_keep_ok {S H} `{!Host S H, !Exports S H, !Allocator S} {TC : TextCodec}
    `{!HostSafe S H, !ExportsSafe S H} hd stack L (t : list (string * import (S := S) (H := H))) e :
  module_table hd stack L t → e ∈ t → keeps ok e.
Proof.
  intros Ht He.
  pose proof (tables_keep (λ _, True) ok hd stack L t Ht (λ _ _, Logic.I)) as Hk.
  rewrite list.Forall_forall in Hk. by apply Hk.
Qed.

(** ** Properties *)

(** C9: whatever values wasm passes to any import of any of the seven modules, and however
    the import ends, a realm in good order is left in good order: slot 0 of the externref
    table is still "none", and each getter of the views ([getXMemory0], and
    [getDataViewMemory0] with or without [ArrayBuffer.prototype.detached]), called next, returns
    a view of all of the memory as it is then -- also if the memory grew, and the cached view
    was detached, after the import last used it. *)
Theorem imports_safe {St H} `{!Host St H, !Exports St H, !Allocator St} {TC : TextCodec}
    `{!HostSafe St H, !ExportsSafe St H} (hd : bool) (stack : nat)
    (L : Session.loading) (t : list (string * import (S := St) (H := H))) (name : string)
    (i : import) (l : list val) (r r' : realm St H) (o : outcome val val) :
  module_table hd stack L t → (name, i) ∈ t → ok r → run_import i l r = Some (o, r') →
  ok r' ∧ fresh_views (glue_of r').
Proof.
  intros Ht Hi Hr Hrun. assert (ok r') as Hr'; [|split; [done|apply fresh_getters, Hr']].
  by apply (table_imports_keep (λ _, True) ok hd stack L t name i l Ht (λ _ _, Logic.I) Hi r o r').
Qed.

Lemma imports_safe_witness :
  let i : import := Plain (fn 1 (λ arg0, void (method arg0 "unmap" []))) in
  ∃ o r', run_import i [Obj 3] Toy.realm0 = Some (o, r') ∧ ok r' ∧ fresh_views (glue_of r').
Proof.
  intros i. eexists _, _. split; [vm_compute; reflexivity|].
  eapply (imports_safe (TC := polyfill_codec) true 9 Loopback.loading
            (Loopback.imports (TC := polyfill_codec) true 9) "__wbg_unmap_3996f949ebf6b9a4" i [Obj 3]
            Toy.realm0).
  - apply front_end_table, (list_elem_of_lookup_2 _ 0); reflexivity.
  - apply (list_elem_of_lookup_2 _ 308). reflexivity.
  - apply Toy.realm0_ok.
  - vm_compute; reflexivity.
Defined.

(** The worklet's module has its table wherever the console has its methods. *)
Lemma decoder_has_table : ∃ t,
  module_table (S := Z) (H := unit) (TC := polyfill_codec) true 9 Decoder.loading t ∧ length t = 11%nat.
Proof.
  assert (Hc : ∀ f, ∃ i,
    console_import (S := Z) (H := unit) f Toy.realm0 = Some (Ok i, Toy.realm0)) by (intros f; by eexists).
  destruct (Hc "debug") as [i1 E1], (Hc "error") as [i2 E2], (Hc "info") as [i3 E3],
    (Hc "log") as [i4 E4], (Hc "warn") as [i5 E5].
  eexists. split.
  - apply (decoder_table _ _ _ _ Toy.realm0 Toy.realm0); [done|]. unfold get_imports.
    rewrite (M_bind_ok _ _ _ _ _ E1), (M_bind_ok _ _ _ _ _ E2), (M_bind_ok _ _ _ _ _ E3),
      (M_bind_ok _ _ _ _ _ E4), (M_bind_ok _ _ _ _ _ E5). done.
  - done.
Qed.

(** An import that the generator wrapped in [handleError] never lets a JavaScript
    exception into wasm; all that gets through is a trap raised while the exception is
    being stored. *)
Theorem caught_imports_only_trap {St H} `{!Host St H, !Exports St H, !Allocator St}
    {TC : TextCodec} `{!HostSafe St H, !ExportsSafe St H} (hd : bool) (stack : nat)
    (t : list (string * import (S := St) (H := H))) (name : string)
    (f : func (S := St) (H := H)) (l : list val) (r r' : realm St H) (o : outcome val val) :
  t ∈ front_ends hd stack → (name, Caught f) ∈ t → ok r →
  run_import (Caught f) l r = Some (o, r') →
  match o with Ok _ => True | Throw e => e = Native Trap end.
Proof.
  intros Ht Hi Hr Hrun. destruct o as [v|e]; [done|].
  refine (handleError_traps (apply f l) r e r' _ Hrun). intros o1 r1 Hf.
  destruct (front_end_module hd stack t Ht) as [L HL].
  exact (imports_keep_ok hd stack L t _ (front_end_table _ _ _ _ HL) Hi l r o1 r1 Hr Hf).
Qed.

Lemma caught_imports_only_trap_witness :
  let f : func := fn 2 (λ arg0 arg1, method arg0 "createBuffer" [pass arg1]) in
  ∃ o r', run_import (Caught f) [Obj 3; Str [98]] Toy.realm0 = Some (o, r') ∧
          match o with Ok _ => True | Throw e => e = Native Trap end.
Proof.
  intros f. eexists _, _. split; [vm_compute; reflexivity|].
  eapply (caught_imports_only_trap (TC := polyfill_codec) true 9
            (Loopback.imports (TC := polyfill_codec) true 9)
            "__wbg_createBuffer_a19c4c09aa7e61c6" f [Obj 3; Str [98]] Toy.realm0).
  - by left.
  - apply (list_elem_of_lookup_2 _ 16). reflexivity.
  - apply Toy.realm0_ok.
  - vm_compute; reflexivity.
Defined.

(** In every import object all names are distinct, so no assignment
    [imports.wbg.x = ...] overwrites another. *)
Theorem import_names_distinct {St H} `{!Host St H, !Exports St H, !Allocator St}
    {TC : TextCodec} (hd : bool) (stack : nat) :
  Forall (λ t : list (string * import (S := St) (H := H)), NoDup (map fst t))
         (front_ends hd stack).
Proof.
  unfold front_ends. repeat apply List.Forall_cons; try apply List.Forall_nil;
    eapply bool_decide_unpack; vm_compute; exact I.
Qed.

(** The [instanceof] imports cannot throw: for any argument the answer is a boolean,
    [false] where the test itself throws (a class the engine does not have). *)
Theorem instanceof_imports_answer {St H} `{!Host St H, !Exports St H, !Allocator St}
    {TC : TextCodec} (hd : bool) (stack : nat)
    (t : list (string * import (S := St) (H := H))) (name : string) (i : import) (l : list val)
    (r r' : realm St H) (o : outcome val val) :
  t ∈ front_ends hd stack → (name, i) ∈ t → is_instanceof name = true →
  run_import i l r = Some (o, r') → ∃ b, o = Ok (Bool b).
Proof.
  intros Ht Hi Hn. pose proof (instanceof_answers (S := St) (H := H) hd stack) as Ha.
  rewrite list.Forall_forall in Ha. specialize (Ha t Ht).
  rewrite list.Forall_forall in Ha. destruct (Ha (name, i) Hi Hn) as [c Hc].
  cbn [snd] in Hc. rewrite Hc. apply instanceof_result.
Qed.

Lemma instanceof_imports_answer_witness :
  let i : import := Plain (fn 1 (λ arg0, instanceof arg0 "Window")) in
  ∃ o r', run_import i [Null] Toy.realm0 = Some (o, r') ∧ ∃ b, o = Ok (Bool b).
Proof.
  intros i. eexists _, _. split; [vm_compute; reflexivity|].
  eapply (instanceof_imports_answer (TC := polyfill_codec) true 9
            (Loopback.imports (TC := polyfill_codec) true 9)
            "__wbg_instanceof_Window_def73ea0955fc569" i [Null] Toy.realm0).
  - by left.
  - apply (list_elem_of_lookup_2 _ 53). reflexivity.
  - reflexivity.
  - vm_compute; reflexivity.
Defined.

(** The two wlan front ends share one wasm interface: the import object of wlan_debug
    is that of wlan less [__wbg_getRandomValues_9c5c1b115e142bb8], entry by entry and in
    the same order. *)
Theorem wlan_debug_is_wlan {St H} `{!Host St H, !Exports St H, !Allocator St}
    {TC : TextCodec} (hd : bool) (stack : nat) :
  WlanDebug.imports hd stack =
  List.filter (λ e : string * import (S := St) (H := H),
          negb (String.eqb e.1 "__wbg_getRandomValues_9c5c1b115e142bb8"))
         (Wlan.imports hd stack).
Proof. reflexivity. Qed.

(** The reason of a lost GPU device reaches wasm as the variant's number for the
    reasons of the enumeration and as 2, the number of no variant, for any other value. *)
Theorem lost_reason_number :
  let number v := index_or __wbindgen_enum_GpuDeviceLostReason v 3 in
  number (key "unknown") = Num (Int 0) ∧ number (key "destroyed") = Num (Int 1) ∧
  ∀ v, v ≠ key "unknown" ∧ v ≠ key "destroyed" ↔ number v = Num (Int 2).
Proof.
  split_and!; [reflexivity..|]. intros v.
  unfold index_or, __wbindgen_enum_GpuDeviceLostReason, index_of, key.
  destruct v as [| | | | |s| | | | | | |]; try (split; [reflexivity|done]).
  do 2 (case_bool_decide; [subst; split; [naive_solver|discriminate]|]).
  split; [reflexivity|]. intros _. split; congruence.
Qed.
