(* ===== verification/Lifetimes.v ===== *)
(** * The closures of a realm live as [Closure] says

    [Closure] follows one closure through calls, drops, destruction and collection; [Glue] has
    a list of them, which imports, exports and page code change.  Here: whatever import runs,
    and whenever the page calls a closure, each closure of the realm only takes steps of its
    life, its invocations and destructors are balanced, and new closures are new -- so the
    theorems of [Closure] hold of every closure of a running page.  Nothing is asked of host
    code and of wasm but that they touch closures only through the glue: they may call and drop
    them as they like.  A drop of a handle that wasm does not hold, and a destructor that is
    not calm, stay visible in the closure they happen to. *)

From Stdlib Require Import String.
From S2P Require Import Prelude TextCodec Memory Closure Glue FrontEnds Prophecy Wlan.

Section lifetimes.
Context {S H : Type} (v : version).
Implicit Types r : realm S H.

(** A step of the life of a closure. *)
Definition closure_move (c c' : conf) : Prop := ∃ x, act v x c = Some c'.

Lemma moves_inv fin a0 trusting `{!VersionOk trusting v} c c' :
  a0 ≠ 0 → rtc closure_move c c' → (proper trusting c → inv fin a0 trusting v c) →
  proper trusting c' → inv fin a0 trusting v c'.
Proof.
  intros Ha. induction 1 as [|c c1 c' (x & Hx) _ IH]; [done|].
  intros Hi. apply IH. by eapply (inv_proper_step fin a0 Ha trusting v x).
Qed.

(** The life of a closure of [r], as it was in [r0]; what runs at the end is [fs]. *)
Definition lives_to (fs : list frame) (c c' : closure) : Prop :=
  c_dtor c' = c_dtor c ∧ c_adapter c' = c_adapter c ∧
  rtc closure_move (c_life c) (c_life c') ∧ frames (c_life c') = fs.
Definition lives (c : closure) : closure → Prop := lives_to (frames (c_life c)) c.

(** A closure made since. *)
Definition newborn (c : closure) : Prop :=
  frames (c_life c) = [] ∧ ∃ fin a b, rtc closure_move (makeMutClosure fin a b) (c_life c).

(** From [r0] to [r], closures have only lived, with every invocation and destructor begun
    also ended -- but [fs] is what runs of the closure in [at_], if one is given. *)
Definition moved (at_ : option (nat * list frame)) (r0 r : realm S H) : Prop :=
  ∀ i, match closures r0 !! i, closures r !! i with
       | Some c, Some c' =>
           lives_to (match at_ with
                     | Some (j, fs) => if decide (i = j) then fs else frames (c_life c)
                     | None => frames (c_life c)
                     end) c c'
       | Some _, None => False
       | None, Some c => newborn c
       | None, None => True
       end.
Definition respects : realm S H → realm S H → Prop := moved None.

Lemma lives_trans fs fs' c1 c2 c3 : lives_to fs c1 c2 → lives_to fs' c2 c3 → lives_to fs' c1 c3.
Proof. intros (? & ? & ? & ?) (? & ? & ? & ?). split_and!; try congruence. by etrans. Qed.

Lemma newborn_lives fs c c' : newborn c → lives_to fs c c' → fs = [] → newborn c'.
Proof.
  intros (Hf & fin & a & b & Hm) (_ & _ & Hm' & Hf') ->. split; [done|].
  exists fin, a, b. by etrans.
Qed.

(** Whatever happened, and then something that ends as it began. *)
Lemma moved_respects at_ r1 r2 r3 : moved at_ r1 r2 → respects r2 r3 → moved at_ r1 r3.
Proof.
  intros H12 H23 i. specialize (H12 i). specialize (H23 i).
  destruct (closures r1 !! i), (closures r2 !! i), (closures r3 !! i); try done.
  - destruct H12 as (? & ? & ? & Hf). rewrite <- Hf. by eapply lives_trans.
  - eapply newborn_lives; [done|exact H23|]. apply H12.
Qed.

Lemma moved_moved i c fs fs' r1 r2 r3 :
  closures r1 !! i = Some c → moved (Some (i, fs)) r1 r2 → moved (Some (i, fs')) r2 r3 →
  moved (Some (i, fs')) r1 r3.
Proof.
  intros Hc H12 H23 j. specialize (H12 j). specialize (H23 j). simpl in *.
  destruct (decide (j = i)) as [->|Hj].
  - rewrite Hc in *. destruct (closures r2 !! i), (closures r3 !! i); try done.
    by eapply lives_trans.
  - destruct (closures r1 !! j), (closures r2 !! j), (closures r3 !! j); try done.
    + destruct H12 as (? & ? & ? & Hf). rewrite <- Hf. by eapply lives_trans.
    + eapply newborn_lives; [done|exact H23|]. apply H12.
Qed.

Lemma moved_back i c r1 r2 :
  closures r1 !! i = Some c → moved (Some (i, frames (c_life c))) r1 r2 → respects r1 r2.
Proof.
  intros Hc H12 j. specialize (H12 j). simpl in *.
  destruct (decide (j = i)) as [->|Hj]; [|done]. by rewrite Hc in *.
Qed.

#[export] Instance respects_preorder : PreOrder respects.
Proof.
  split; [|by intros r1 r2 r3; apply moved_respects].
  intros r i. by destruct (closures r !! i).
Qed.

(** One closure takes a step. *)
Definition with_life (i : nat) (c : closure) (l : conf) r : realm S H :=
  set_closures (<[i := MkClosure l (c_dtor c) (c_adapter c)]> (closures r)) r.

Lemma moved_one r i x c l :
  closures r !! i = Some c → act v x (c_life c) = Some l →
  moved (Some (i, frames l)) r (with_life i c l r).
Proof.
  intros Hc Hx j. simpl. destruct (decide (j = i)) as [->|Hij].
  - rewrite Hc, list_lookup_insert_eq by (by eapply lookup_lt_Some).
    split_and!; try done. simpl. apply rtc_once. by exists x.
  - rewrite list_lookup_insert_ne by done. by destruct (closures r !! j).
Qed.

Lemma moved_at i fs r1 r2 c : closures r1 !! i = Some c → moved (Some (i, fs)) r1 r2 →
  ∃ c', closures r2 !! i = Some c' ∧ frames (c_life c') = fs.
Proof.
  intros Hc Hm. specialize (Hm i). simpl in Hm. rewrite Hc in Hm.
  destruct (closures r2 !! i) as [c'|]; [|done]. rewrite decide_True in Hm by done. exists c'. by destruct Hm as (_ & _ & _ & ?).
Qed.

Lemma respects_same r0 r r' : closures r' = closures r → respects r0 r → respects r0 r'.
Proof. intros He Hr i. rewrite He. apply Hr. Qed.

(** The invariant of code that starts in [r0]. *)
Definition life (r0 r : realm S H) : Prop := ok r ∧ respects r0 r.

#[export] Instance life_slots r0 : SlotClosed (life r0).
Proof.
  split.
  - by intros r [? _].
  - intros r idx obj [Ho Hr] Hi. by split; [apply ok_set_externrefs; [|left]|].
  - intros r [Ho Hr]. by split; [apply ok_init_table|].
Qed.

#[export] Instance life_stable D r0 : Stable D (life r0).
Proof.
  pose proof (ok_stable (S := S) (H := H) D) as Hok.
  split.
  - by intros r [? _].
  - intros r. pose proof (stable_helper (Stable := Hok) r) as Hh. split.
    + intros g c Hc [Ho Hr]. by split; [apply (@closed_cache _ _ _ Hh)|].
    + intros g bs Hl [Ho Hr]. by split; [apply (@closed_bytes _ _ _ Hh)|].
    + by intros g n [Ho Hr].
  - intros r g g' Hs [Ho Hr]. by split; [exact (stable_wasm (Stable := Hok) r g g' Hs Ho)|].
  - by intros r ss [Ho Hr].
  - intros r fin a b d f [Ho Hr]. split; [done|]. intros i. specialize (Hr i). simpl.
    destruct (decide (i < length (closures r))%nat) as [Hi|Hi].
    + by rewrite lookup_app_l.
    + rewrite (lookup_ge_None_2 (closures r)) in Hr by lia.
      destruct (closures r0 !! i) as [c|]; [done|].
      destruct (_ !! i) as [c|] eqn:Hc; [|done].
      apply lookup_app_Some in Hc as [Hc|[_ Hc]].
      { apply lookup_lt_Some in Hc. lia. }
      apply list_lookup_singleton_Some in Hc as [_ <-]. split; [done|]. by exists fin, a, b.
Qed.

(** Every closure came from [makeMutClosure]. *)
Definition well_made r : Prop :=
  ∀ i c, closures r !! i = Some c →
    ∃ fin a b, rtc closure_move (makeMutClosure fin a b) (c_life c).

Lemma respects_well_made r0 r : respects r0 r → well_made r0 → well_made r.
Proof.
  intros Hr Hw i c Hc. specialize (Hr i). rewrite Hc in Hr.
  destruct (closures r0 !! i) as [c0|] eqn:H0; [|apply Hr].
  destruct (Hw i c0 H0) as (fin & a & b & Hm). exists fin, a, b. etrans; [exact Hm|]. apply Hr.
Qed.

(** What [Closure] shows of such closures: if wasm gave its handle up only while it held it,
    and, in a trusting version, its destructor was calm, then its environment, if not null, was
    destroyed at most once, and not used afterwards. *)
Definition memory_safe (trusting : bool) r : Prop :=
  well_made r ∧
  ∀ i c fin a b, closures r !! i = Some c →
    rtc closure_move (makeMutClosure fin a b) (c_life c) → a ≠ 0 → proper trusting (c_life c) →
    (destroyed a (log (c_life c)) ≤ 1)%nat ∧ no_use_after a (log (c_life c)).

Lemma well_made_safe trusting `{!VersionOk trusting v} r : well_made r → memory_safe trusting r.
Proof.
  intros Hw. split; [done|]. intros i c fin a b Hc Hm Ha Hp. destruct (moves_inv fin a trusting _ _ Ha Hm (λ _, inv_init fin a b trusting v) Hp)
    as [_ _ _ Ho Hl].
  split; [|done]. destruct Ho; lia.
Qed.
End lifetimes.

(** *** Calling and dropping a closure *)
Section calls.
Context {S H : Type} `{!Host S H, !Exports S H, !Allocator S, !ExportsSafe S H} (v : version).
Context (Hex : ∀ r0 : realm S H, ExportsKeep S H (life v r0)).
Implicit Types r : realm S H.

Lemma ok_with_life i c l r : ok r → ok (with_life i c l r).
Proof. apply closures_any. Qed.

(** The end of a destructor, in one way or the other. *)
Lemma ended r i c x c' :
  closures r !! i = Some c → act v x (c_life c) = Some c' → frames c' = tl (frames (c_life c)) →
  moved v (Some (i, tl (frames (c_life c)))) r (with_life i c c' r).
Proof. intros Hc Hx Hf. rewrite <- Hf. by apply (moved_one v r i x). Qed.

(** If the destructor has been called, what follows ends it. *)
Lemma destroy_moved i es r o r' c fs :
  ok r → closures r !! i = Some c → frames (c_life c) = begin es fs →
  (destroy v i es : J S H unit) r = Some (o, r') → ok r' ∧ moved v (Some (i, fs)) r r'.
Proof.
  intros Ho Hc Hf Hrun.
  assert (Hsame : destroys es = false → moved v (Some (i, fs)) r r).
  { intros Hd j. unfold begin in Hf. rewrite Hd in Hf. destruct (closures r !! j) as [c'|] eqn:E; [|done].
    destruct (decide (j = i)) as [->|]; [|by split_and!].
    rewrite Hc in E. injection E as <-. by split_and!. }
  destruct es as [|[| a b|] es]; try by (injection Hrun as <- <-; auto).
  unfold begin in Hf. cbn [destroys] in Hf. unfold destroy in Hrun.
  rewrite (M_bind_ok _ _ r c r) in Hrun by (unfold closure_at, gets, mbind, M_bind; by rewrite Hc).
  unfold try_catch, mbind at 1, M_bind at 1 in Hrun.
  destruct (wasm_call _ _ r) as [[o2 r2]|] eqn:E2; [|done].
  assert (life v r r2) as [Ho2 H2] by (eapply wasm_call_keeps; [|exact E2]; by split).
  destruct (moved_at v i (frames (c_life c)) r r2 c Hc) as (c2 & Hc2 & Hf2).
  { intros j. specialize (H2 j). simpl in H2. destruct (decide (j = i)) as [->|]; [|done].
    by rewrite Hc in *. }
  rewrite Hf in Hf2.
  assert (Hend : ∀ x l, act v x (c_life c2) = Some l → frames l = tl (frames (c_life c2)) →
    ok (with_life i c2 l r2) ∧ moved v (Some (i, fs)) r (with_life i c2 l r2)).
  { intros x l Hx Hl. split; [by apply ok_with_life|].
    assert (Hm : moved v (Some (i, frames (c_life c))) r r2).
    { intros j. specialize (H2 j). simpl in H2. destruct (decide (j = i)) as [->|]; [|done].
      by rewrite Hc in *. }
    eapply (moved_moved v i c); [exact Hc|exact Hm|].
    replace fs with (tl (frames (c_life c2))) by (by rewrite Hf2). by eapply ended. }
  destruct o2 as [w|e]; unfold mbind, M_bind in Hrun;
    rewrite (step_closure_run _ _ c2) in Hrun by done; injection Hrun as <- <-.
  - apply (Hend DtorReturns); [by eapply act_done|by destruct (c_life c2)].
  - apply (Hend DtorThrows); [by eapply act_thrown|by destruct (c_life c2)].
Qed.

(** A step of a closure, and its destructor if the step calls it. *)
Lemma step_moved i f x c r es r1 o r' fs :
  ok r → closures r !! i = Some c → step_closure i f r = Some (Ok es, r1) →
  destroy v i es r1 = Some (o, r') → act v x (c_life c) = Some (f (c_life c)).1 →
  frames (f (c_life c)).1 = begin (f (c_life c)).2 fs →
  ok r' ∧ moved v (Some (i, fs)) r r'.
Proof.
  intros Ho Hc Hs Hd Hx Hf. rewrite (step_closure_run i f c r Hc) in Hs.
  fold (with_life i c (f (c_life c)).1 r) in Hs. injection Hs as <- <-.
  destruct (destroy_moved i (f (c_life c)).2 (with_life i c (f (c_life c)).1 r) o r'
    (MkClosure (f (c_life c)).1 (c_dtor c) (c_adapter c)) fs) as [Ho' H1];
    [by apply ok_with_life| |exact Hf|exact Hd|].
  { simpl. apply list_lookup_insert_eq. by eapply lookup_lt_Some. }
  split; [done|]. eapply (moved_moved v i c); [done|by eapply (moved_one v r i x)|exact H1].
Qed.

#[export] Instance life_drops r0 : DropsKeep S H (λ v', v' = v) (life v r0).
Proof.
  intros v' i -> r o r' [Ho Hr] Hrun. unfold drop_handle in Hrun.
  destruct (closures r !! i) as [c|] eqn:Hc.
  2: { unfold step_closure, closure_at, gets, mbind, M_bind in Hrun. rewrite Hc in Hrun.
       injection Hrun as _ <-. by split. }
  pose proof (step_closure_run i (drop_life v) c r Hc) as Hs.
  rewrite (M_bind_ok _ _ _ _ _ Hs) in Hrun. unfold mbind, M_bind in Hrun.
  match type of Hrun with match ?m with _ => _ end = _ => destruct m as [[o2 r2]|] eqn:E2 end; [|done].
  assert (r' = r2) as -> by (by destruct o2; injection Hrun as _ <-).
  destruct (step_moved i (drop_life v) Drop c r _ _ o2 r2 (frames (c_life c)) Ho Hc Hs E2
    (act_drop _ _)) as [Ho2 H2].
  { destruct (c_life c). simpl. by destruct (v_drop _ _). }
  split; [done|]. etrans; [exact Hr|]. by apply (moved_back v i c).
Qed.

(** The entry of an invocation, and its code. *)
Lemma entered i c r o r' f vs :
  ok r → closures r !! i = Some c → alive (c_life c) = true →
  (run_adapter f vs : J S H val) (with_life i c (enter_life (c_life c)) r) = Some (o, r') →
  ok r' ∧ moved v (Some (i, Running (a (st (c_life c))) :: frames (c_life c))) r r'.
Proof.
  intros Ho Hc Ha Hrun. set (r1 := with_life _ _ _ r) in Hrun.
  assert (life v r1 r') as [Ho' H12].
  { eapply (preserves_run_adapter (life v r1)), Hrun. split; [by apply ok_with_life|done]. }
  split; [done|]. eapply moved_respects; [|exact H12].
  replace (Running (a (st (c_life c))) :: frames (c_life c)) with (frames (enter_life (c_life c)))
    by by destruct (c_life c).
  apply (moved_one v r i Enter); [done|by apply act_enter].
Qed.

(** A closure that the page calls respects closures, its own too. *)
Lemma real_life i vs r o r' : ok r → real v i vs r = Some (o, r') → life v r r'.
Proof.
  intros Ho Hrun. unfold real in Hrun.
  destruct (closures r !! i) as [c|] eqn:Hc.
  2: { unfold closure_at, gets, mbind, M_bind in Hrun. rewrite Hc in Hrun.
       injection Hrun as _ <-. by split. }
  rewrite (M_bind_ok _ _ r c r) in Hrun by (unfold closure_at, gets, mbind, M_bind; by rewrite Hc).
  destruct (alive (c_life c)) eqn:Ha; [|unfold reached, mbind, M_bind in Hrun; by rewrite Ha in Hrun].
  rewrite (M_bind_ok _ _ r () r) in Hrun by (unfold reached; by rewrite Ha).
  cbn [enter] in Hrun.
  rewrite (M_bind_ok _ _ _ _ _ (step_closure_run i (λ l, (enter_life l, [])) c r Hc)) in Hrun.
  cbn [fst snd] in Hrun. fold (with_life i c (enter_life (c_life c)) r) in Hrun.
  unfold try_finally at 1 in Hrun.
  match type of Hrun with match ?m with _ => _ end = _ => destruct m as [[o2 r2]|] eqn:E2 end; [|done].
  destruct (entered i c r o2 r2 _ _ Ho Hc Ha E2) as [Ho2 H2].
  destruct (moved_at v i _ r r2 c Hc H2) as (c2 & Hc2 & Hf2).
  pose proof (step_closure_run i (exit_life v (a (st (c_life c)))) c2 r2 Hc2) as Hs.
  rewrite (M_bind_ok _ _ _ _ _ Hs) in Hrun.
  match type of Hrun with match ?m with _ => _ end = _ => destruct m as [[o4 r4]|] eqn:E4 end; [|done].
  assert (r' = r4) as -> by (by destruct o4; injection Hrun as _ <-).
  destruct (step_moved i (exit_life v (a (st (c_life c)))) Exit c2 r2 _ _ o4 r4 (frames (c_life c)) Ho2 Hc2
    Hs E4) as [Ho4 H4]; [by eapply act_exit| |].
  { destruct (c_life c2). simpl in *. subst. simpl. by destruct (v_exit _ _ _). }
  split; [done|]. apply (moved_back v i c); [done|]. by eapply (moved_moved v i c).
Qed.
End calls.

(** ** Toy instances *)
Module LifeToy.
Lemma exports_keep v (r0 : realm Z unit) : ExportsKeep Z unit (life v r0).
Proof.
  split.
  - intros r o r' [Hr Hl] Ha. destruct (alloc_safe r o r' Hr Ha) as [Hr' _].
    split; [done|]. injection Ha as _ <-. by eapply respects_same.
  - intros idx. apply preserves_ret.
  - intros f vs. apply preserves_ret.
Qed.

(** A realm with the function that prophecy, or wlan, makes of a Rust closure. *)
Definition realm2 (f : adapter) : realm Z unit :=
  set_closures [MkClosure (makeMutClosure true 64 8) "285" f] Toy.realm0.

Lemma realm2_made v f : well_made v (realm2 f).
Proof. intros [|i] c; [intros [= <-]; by exists true, 64, 8|done]. Qed.
End LifeToy.

(** ** Properties *)

(** C10: whatever import of any of the seven modules wasm calls, and whatever host code and
    wasm do in the middle of it (they may call the closures, drop them, throw), each closure of
    the realm, all of them made by the module's version of [makeMutClosure], has only taken
    steps of its life; every invocation and destructor begun during the call has ended, and
    closures made during the call are new.  So no environment is freed twice or used after it
    was freed, if wasm dropped its handle only while it held it -- and, in the two modules with
    the newer version, if its destructor returned without touching its own closure. *)
Theorem imports_respect_closures {St H} `{!Host St H, !Exports St H, !Allocator St}
    {TC : TextCodec} `{!ExportsSafe St H} (hd : bool) (stack : nat)
    (L : Session.loading) (t : list (string * import (S := St) (H := H)))
    (trusting : bool) (v : version) `{!VersionOk trusting v} (name : string)
    (i : import) (l : list val) (r r' : realm St H) (o : outcome val val) :
  (∀ r0, HostKeeps St H (life v r0)) → (∀ r0, ExportsKeep St H (life v r0)) →
  module_of hd stack L t v → (name, i) ∈ t → ok r → well_made v r →
  run_import i l r = Some (o, r') →
  respects v r r' ∧ memory_safe v trusting r'.
Proof.
  intros Hh He Ht Hi Hr Hw Hrun.
  assert (life v r r') as [_ Hl].
  { eapply (imports_keep (λ _, True) (λ v', v' = v) (life v r)); try done. }
  split; [done|]. by eapply well_made_safe, respects_well_made.
Qed.

(** Both versions: [__wbindgen_cb_drop] of prophecy and [_wbg_cb_unref] of wlan. *)
Lemma imports_respect_closures_witness :
  let i : import := Plain (fn 1 (λ arg0, cb_drop arg0)) in
  let j : import := Plain (fn 1 (λ arg0, cb_unref arg0)) in
  let r1 := LifeToy.realm2 Prophecy.__wbg_adapter_31 in
  let r2 := LifeToy.realm2 Wlan.wasm_bindgen__convert__closures_____invoke__h71c1618cd439baed in
  (∃ o r', run_import i [Real 0] r1 = Some (o, r') ∧
     respects Original.version r1 r' ∧ memory_safe Original.version false r') ∧
  (∃ o r', run_import j [Real 0] r2 = Some (o, r') ∧
     respects Unref.version r2 r' ∧ memory_safe Unref.version true r').
Proof.
  intros i j r1 r2. split.
  - eexists _, _. split; [vm_compute; reflexivity|].
    eapply (imports_respect_closures (TC := polyfill_codec) true 9 Prophecy.loading
              (Prophecy.imports (TC := polyfill_codec) true 9) false Original.version
              "__wbindgen_cb_drop" i [Real 0] r1).
    + intros r0. apply _.
    + apply LifeToy.exports_keep.
    + apply front_end_module_of, (list_elem_of_lookup_2 _ 3); reflexivity.
    + apply (list_elem_of_lookup_2 _ 80). reflexivity.
    + apply Toy.realm0_ok.
    + apply LifeToy.realm2_made.
    + vm_compute; reflexivity.
  - eexists _, _. split; [vm_compute; reflexivity|].
    eapply (imports_respect_closures (TC := polyfill_codec) true 9 Wlan.loading
              (Wlan.imports (TC := polyfill_codec) true 9) true Unref.version
              "__wbg__wbg_cb_unref_d9b87ff7982e3b21" j [Real 0] r2).
    + intros r0. apply _.
    + apply LifeToy.exports_keep.
    + apply front_end_module_of, (list_elem_of_lookup_2 _ 4); reflexivity.
    + apply (list_elem_of_lookup_2 _ 8). reflexivity.
    + apply Toy.realm0_ok.
    + apply LifeToy.realm2_made.
    + vm_compute; reflexivity.
Defined.

(** The page may call a closure of a module at any time, also after wasm has dropped it
    or while it is running: however the call ends, every closure of the realm -- the called
    one too -- has only taken steps of its life, and the invocation is over. *)
Theorem closure_call_respects {St H} `{!Host St H, !Exports St H, !Allocator St}
    `{!ExportsSafe St H} (trusting : bool) (v : version) `{!VersionOk trusting v} (i : nat)
    (vs : list val) (r r' : realm St H) (o : outcome val val) :
  (∀ r0, ExportsKeep St H (life v r0)) → ok r → well_made v r →
  real v i vs r = Some (o, r') →
  respects v r r' ∧ memory_safe v trusting r'.
Proof.
  intros He Hr Hw Hrun. destruct (real_life v He i vs r o r' Hr Hrun) as [_ Hl].
  split; [done|]. by eapply well_made_safe, respects_well_made.
Qed.

Lemma closure_call_respects_witness :
  let r1 := LifeToy.realm2 Prophecy.__wbg_adapter_31 in
  ∃ o r', real Original.version 0 [Str [97]] r1 = Some (o, r') ∧
    respects Original.version r1 r' ∧ memory_safe Original.version false r'.
Proof.
  intros r1. eexists _, _. split; [vm_compute; reflexivity|].
  eapply (closure_call_respects false Original.version 0 [Str [97]] r1).
  - apply LifeToy.exports_keep.
  - apply Toy.realm0_ok.
  - apply LifeToy.realm2_made.
  - vm_compute; reflexivity.
Defined.
