(* ===== verification/Tracker.v ===== *)
(** * The map of the ADS-B example: src/examples/adsb/dist/script.js

    The page polls the flowgraph's REST interface once a second and keeps a marker and a
    path line per aircraft.  Module variables become the record [app]; what the page asks
    of Leaflet is a list of calls, [calls]; requests in flight are [pending].  An event of
    the browser (a timer tick, a settled promise, a map event) is an [action].  Leaflet and
    the locale are not under src/: the theorems are about [calls] and rely on what
    [LayerGroup] says of a layer group and [PopupLaws] of popups. *)

From Stdlib Require Import SpecFloat String Ascii.
From stdpp Require Import gmap pretty.
From S2P Require Import Prelude TextCodec Memory Closure Glue.

(** ** The data of the REST interface *)

Record position : Type := Position { latitude : number; longitude : number; altitude : option Z }.
Record velocity : Type := Velocity {
  ground_speed : number; heading : number; vertical_rate : Z; vertical_rate_source : jsstring
}.
Record aircraft : Type := Aircraft {
  callsign : option jsstring;
  emitter_category : option Z;
  positions : list position;
  velocities : list velocity;
  secs_since_epoch : Z;
  nanos_since_epoch : Z
}.

(** [register.register], in the order of its [for]-[in] enumeration. *)
Abbreviation register := (list (string * aircraft)).

Record block : Type := Block { id : Z; type_name : string }.
Record flowgraph : Type := Flowgraph { blocks : list block }.

(** ** Numbers as text *)

(** A finite number as a fraction. *)
Definition fraction (n : number) : option (Z * Z) :=
  match n with
  | Int z => Some (z, 1)
  | Float (S754_zero _) => Some (0, 1)
  | Float (S754_finite s m e) =>
      let p := if s then Zneg m else Zpos m in
      Some (if 0 <=? e then (p * 2 ^ e, 1) else (p, 2 ^ (- e)))
  | Float _ => None
  end.

(** The integer [k] with [k / 10^d] closest to [a / q]; the larger one of two. *)
Definition round_to (d a q : Z) : Z := (2 * a * 10 ^ d + q) / (2 * q).

(** [n.toFixed(d)] (ECMA-262, 21.1.3.3) below [10^21]; [ToString] does the rest. *)
Definition toFixed (ToString : number → jsstring) (d : nat) (n : number) : jsstring :=
  match fraction n with
  | None => ToString n
  | Some (p, q) =>
      if 10 ^ 21 * q <=? Z.abs p then ToString n
      else
        let k := round_to (Z.of_nat d) (Z.abs p) q in
        let m := lit (pretty k) in
        let m := repeat 48 (d + 1 - length m) ++ m in
        let i := (length m - d)%nat in
        (if p <? 0 then lit "-" else []) ++ take i m ++ lit "." ++ drop i m
  end.

(** [${z}] for an integer. *)
Definition int_string (z : Z) : jsstring := lit (pretty z).

(** Falsy numbers: zeros and NaN. *)
Definition number_falsy (n : number) : bool :=
  match n with
  | Int z => z =? 0
  | Float (S754_zero _) | Float S754_nan => true
  | Float _ => false
  end.

(** [toUpperCase] of an ASCII string. *)
Definition toUpperCase (s : jsstring) : jsstring :=
  map (λ c, if (97 <=? c) && (c <=? 122) then c - 32 else c) s.

(** ** State *)

(** A position given to Leaflet: the altitude only if it was truthy. *)
Record latlng : Type := LatLng { lat : number; lng : number; alt : option Z }.

(** [aircraft_markers\[icao\]]: the two layers, named by the order of their creation. *)
Record entry : Type := Entry { marker : nat; pathline : nat }.

Inductive call : Type :=
  | NewMarker (l : nat) (pos : latlng) (rotationAngle : number)
  | BindPopup (l : nat) (content : jsstring)
  | OnPopup (l : nat) (icao : string)          (* the handlers of popupopen and popupclose *)
  | NewPolyline (l : nat) (path : list latlng)
  | AddTo (l : nat)                            (* [.addTo(markers_group)] *)
  | SetLatLng (l : nat) (pos : latlng)
  | SetRotationAngle (l : nat) (angle : number)
  | SetPopupContent (l : nat) (content : jsstring)
  | SetLatLngs (l : nat) (path : list latlng)
  | SetStyle (l : nat) (opaque : bool)         (* [opacity: 1.0], or 0.2 as a line has first *)
  | RemoveLayer (l : nat)
  | ClearLayers
  | FlyToBounds (bounds : list latlng)
  | NewMap                                     (* [L.map('map')] *)
  | Locate (maxZoom : Z)                       (* [.locate({setView: true, maxZoom})] *)
  | OnLocation                                 (* [.on('locationfound', ...).on('locationerror', ...)] *)
  | TileLayer (maxZoom : Z)                    (* [L.tileLayer(...).addTo(map)] *)
  | NewLayerGroup.                             (* [new L.LayerGroup().addTo(map)] *)

(** A request in flight: [fetch_fg()], or [fetch_aircrafts(b)] for a block's id. *)
Inductive request : Type := FetchFg | FetchAircrafts (id : Z).

(** [map] and [markers_group] are [null] until the page has loaded; [popup] is the layer whose
    popup Leaflet shows. *)
Record app : Type := App {
  map_and_group : bool;
  autozoom_in_progress : bool;
  autozoom : bool;
  aircraft_poll_state : Z;
  fg : option flowgraph;
  tracker_block : option block;
  aircraft_markers : gmap string entry;
  next_layer : nat;
  calls : list call;              (* oldest first *)
  popup : option nat;
  pending : list request
}.

Definition app0 : app := App false false true 0 None None ∅ 0 [] None [].
#[export] Instance app_inhabited : Inhabited app := populate app0.

Section setters.
Implicit Types s : app.
Definition set_loaded b s := App b (autozoom_in_progress s) (autozoom s) (aircraft_poll_state s)
  (fg s) (tracker_block s) (aircraft_markers s) (next_layer s) (calls s) (popup s) (pending s).
Definition set_in_progress b s := App (map_and_group s) b (autozoom s) (aircraft_poll_state s)
  (fg s) (tracker_block s) (aircraft_markers s) (next_layer s) (calls s) (popup s) (pending s).
Definition set_autozoom b s := App (map_and_group s) (autozoom_in_progress s) b
  (aircraft_poll_state s) (fg s) (tracker_block s) (aircraft_markers s) (next_layer s) (calls s)
  (popup s) (pending s).
Definition set_state n s := App (map_and_group s) (autozoom_in_progress s) (autozoom s) n (fg s)
  (tracker_block s) (aircraft_markers s) (next_layer s) (calls s) (popup s) (pending s).
Definition set_fg f t s := App (map_and_group s) (autozoom_in_progress s) (autozoom s)
  (aircraft_poll_state s) f t (aircraft_markers s) (next_layer s) (calls s) (popup s) (pending s).
Definition set_markers m s := App (map_and_group s) (autozoom_in_progress s) (autozoom s)
  (aircraft_poll_state s) (fg s) (tracker_block s) m (next_layer s) (calls s) (popup s)
  (pending s).
Definition set_next n s := App (map_and_group s) (autozoom_in_progress s) (autozoom s)
  (aircraft_poll_state s) (fg s) (tracker_block s) (aircraft_markers s) n (calls s) (popup s)
  (pending s).
Definition set_calls c s := App (map_and_group s) (autozoom_in_progress s) (autozoom s)
  (aircraft_poll_state s) (fg s) (tracker_block s) (aircraft_markers s) (next_layer s) c (popup s)
  (pending s).
Definition set_popup p s := App (map_and_group s) (autozoom_in_progress s) (autozoom s)
  (aircraft_poll_state s) (fg s) (tracker_block s) (aircraft_markers s) (next_layer s) (calls s) p
  (pending s).
Definition set_pending p s := App (map_and_group s) (autozoom_in_progress s) (autozoom s)
  (aircraft_poll_state s) (fg s) (tracker_block s) (aircraft_markers s) (next_layer s) (calls s)
  (popup s) p.
End setters.

Abbreviation P A := (M js_error app A).

Definition emit (l : list call) : P unit := modify (λ s, set_calls (calls s ++ l) s).
Definition fresh : P nat := l ← gets next_layer; _ ← modify (set_next (S l)); mret l.

(** ** Keys of objects *)

(** The properties every object inherits, which [in] finds too. *)
Definition object_prototype : list string :=
  ["constructor"; "__defineGetter__"; "__defineSetter__"; "hasOwnProperty";
   "__lookupGetter__"; "__lookupSetter__"; "isPrototypeOf"; "propertyIsEnumerable";
   "toString"; "valueOf"; "__proto__"; "toLocaleString"].
Definition inherited (k : string) : bool := existsb (String.eqb k) object_prototype.

(** [icao in aircraft_markers] and [marker in register.register] *)
Definition in_markers (k : string) (m : gmap string entry) : bool :=
  inherited k || bool_decide (is_Some (m !! k)).
Definition in_register (k : string) (r : register) : bool :=
  inherited k || existsb (λ e, String.eqb k e.1) r.

(** ** What Leaflet does *)

(** A layer group (LayerGroup of Leaflet's documentation): [addTo] adds a layer,
    [removeLayer] and [clearLayers] remove; nothing else changes what is on the map. *)
Definition group_effect (c : call) (l : nat) (b : bool) : bool :=
  match c with
  | AddTo x => (x =? l)%nat || b
  | RemoveLayer x => negb (x =? l)%nat && b
  | ClearLayers => false
  | _ => b
  end.

Definition in_group (cs : list call) (l : nat) : bool :=
  foldl (λ b c, group_effect c l b) false cs.

(** The aircraft for which handlers of a layer's popup events were set, in order, one pair of
    handlers for each. *)
Definition popup_handlers (cs : list call) (l : nat) : list string :=
  omap (λ c, match c with OnPopup x icao => if (x =? l)%nat then Some icao else None | _ => None end)
       cs.

(** A layer that has a popup. *)
Definition has_popup (cs : list call) (l : nat) : bool :=
  existsb (λ c, match c with BindPopup x _ => (x =? l)%nat | _ => false end) cs.

(** ** The page *)

(** *** Popups *)

(** The handlers of popupopen ([opaque]) and popupclose. *)
Definition popup_handler (opaque : bool) (icao : string) : P unit :=
  markers ← gets aircraft_markers;
  match markers !! icao with
  | Some e => emit [SetStyle (pathline e) opaque]
  | None => throw TypeError
  end.

(** Leaflet fires an event: the handlers run in the order in which they were set. *)
Fixpoint run_handlers (opaque : bool) (icaos : list string) : P unit :=
  match icaos with
  | [] => mret ()
  | icao :: icaos => _ ← popup_handler opaque icao; run_handlers opaque icaos
  end.
Definition fire_popup (opaque : bool) (l : nat) : P unit :=
  icaos ← gets (λ s, popup_handlers (calls s) l); run_handlers opaque icaos.

Definition open_popup (l : nat) : P unit :=
  _ ← modify (set_popup (Some l)); fire_popup true l.
Definition close_popup (l : nat) : P unit :=
  _ ← modify (set_popup None); fire_popup false l.

(** Whether a call of the group's closes the popup of a layer. *)
Class PopupCloses : Type := popup_closes : call → nat → bool.

Section page.
Context `{PopupCloses}.

(** [markers_group.removeLayer(...)] and [markers_group.clearLayers()] *)
Definition take_off (c : call) : P unit :=
  _ ← emit [c];
  p ← gets popup;
  match p with Some l => if popup_closes c l then close_popup l else mret () | None => mret () end.
Definition remove_layer (l : nat) : P unit := take_off (RemoveLayer l).
Definition clear_layers : P unit := take_off ClearLayers.

(** *** Aircraft *)
(** [n.toString()], and [new Date(secs*1e3+nanos/1e6).toLocaleString()], which depends on
    the locale and the time zone. *)
Context (ToString : number → jsstring) (local_time : Z → Z → jsstring).

(** The loop that fills [pos_arr]. *)
Definition pos_of (p : position) : latlng :=
  LatLng (latitude p) (longitude p)
    match altitude p with Some z => if z =? 0 then None else Some z | None => None end.
Definition pos_arr (value : aircraft) : list latlng := map pos_of (positions value).

Definition cur_velocity (value : aircraft) : option velocity := list.last (velocities value).

(** [(cur_velocity && e) || "N/A"] for a string [e]. *)
Definition or_na (s : option jsstring) : jsstring :=
  match s with Some (c :: s) => c :: s | _ => lit "N/A" end.

(** The template literal, from the texts of its fields. *)
Definition popup_text (icao : string)
    (callsign last_updated emitter_category altitude latitude longitude
     ground_speed vertical_rate vertical_rate_source : jsstring) : jsstring :=
  let nl := [10] ++ repeat 32 16 in
  nl ++ lit "<center><h3>" ++ toUpperCase (lit icao) ++ lit "</h3></center>" ++
  nl ++ lit "<table>" ++
  nl ++ lit "<tr><td>Callsign:</td><td>" ++ callsign ++ lit "</td></tr>" ++
  nl ++ lit "<tr><td>Last seen:</td><td>" ++ last_updated ++ lit "</td></tr>" ++
  nl ++ lit "<tr><td>Emitter category:</td><td>" ++ emitter_category ++ lit "</td></tr>" ++
  nl ++ lit "<tr><td>Altitude:</td><td>" ++ altitude ++ lit " ft</td></tr>" ++
  nl ++ lit "<tr><td>Latitude:</td><td>" ++ latitude ++ lit "</td></tr>" ++
  nl ++ lit "<tr><td>Longitude:</td><td>" ++ longitude ++ lit "</td></tr>" ++
  nl ++ lit "<tr><td>Ground speed:</td><td>" ++ ground_speed ++ lit " kt</td></tr>" ++
  nl ++ lit "<tr><td>Vertical rate:</td><td>" ++ vertical_rate ++ lit " ft/min</td></tr>" ++
  nl ++ lit "<tr><td>Vertical rate source:</td><td>" ++ vertical_rate_source
     ++ lit "</td></tr>" ++
  nl ++ lit "</table>".

Definition popup_content (icao : string) (value : aircraft) (cur_pos : latlng) : jsstring :=
  let v := cur_velocity value in
  popup_text icao
    (default (lit "null") (callsign value))
    (local_time (secs_since_epoch value) (nanos_since_epoch value))
    (from_option int_string (lit "null") (emitter_category value))
    (from_option int_string (lit "undefined") (alt cur_pos))
    (toFixed ToString 4 (lat cur_pos))
    (toFixed ToString 4 (lng cur_pos))
    (or_na ((λ v, toFixed ToString 2 (ground_speed v)) <$> v))
    match v with
    | Some v => if vertical_rate v =? 0 then lit "N/A" else int_string (vertical_rate v)
    | None => lit "N/A"
    end
    (or_na (vertical_rate_source <$> v)).

(** [(cur_velocity && cur_velocity.heading) || 0] *)
Definition angle (value : aircraft) : number :=
  match cur_velocity value with
  | Some v => if number_falsy (heading v) then Int 0 else heading v
  | None => Int 0
  end.

(** The branch for an aircraft that has a marker. *)
Definition update_marker (e : entry) (icao : string) (value : aircraft) (cur : latlng)
    : list call :=
  [SetLatLng (marker e) cur; SetRotationAngle (marker e) (angle value);
   SetPopupContent (marker e) (popup_content icao value cur); OnPopup (marker e) icao;
   SetLatLngs (pathline e) (pos_arr value)].

(** The branch that creates one. *)
Definition create_marker (icao : string) (value : aircraft) (cur : latlng) : P unit :=
  marker ← fresh;
  _ ← emit [NewMarker marker cur (angle value);
            BindPopup marker (popup_content icao value cur); OnPopup marker icao;
            AddTo marker];
  pathline ← fresh;
  _ ← emit [NewPolyline pathline (pos_arr value); AddTo pathline];
  modify (λ s, set_markers (<[icao := Entry marker pathline]> (aircraft_markers s)) s).

(** The body of the first loop of [update_aircrafts]; its result is what it pushes to
    [cur_aircraft_positions]. *)
Definition update_aircraft (icao : string) (value : aircraft) : P (list latlng) :=
  match list.last (pos_arr value) with
  | None => mret []
  | Some cur =>
      markers ← gets aircraft_markers;
      _ ← if in_markers icao markers
          then match markers !! icao with
               | Some e => emit (update_marker e icao value cur)
               | None => throw TypeError
               end
          else create_marker icao value cur;
      mret [cur]
  end.

Fixpoint update_loop (r : register) : P (list latlng) :=
  match r with
  | [] => mret []
  | (icao, value) :: r =>
      c ← update_aircraft icao value; cs ← update_loop r; mret (c ++ cs)
  end.

(** The second loop, over the keys [aircraft_markers] had when it began; their order does
    not matter, as a turn touches only its own entry and layers. *)
Fixpoint remove_loop (r : register) (keys : list string) : P unit :=
  match keys with
  | [] => mret ()
  | k :: keys =>
      markers ← gets aircraft_markers;
      _ ← if in_register k r then mret ()
          else match markers !! k with
               | Some e =>
                   _ ← remove_layer (marker e); _ ← remove_layer (pathline e);
                   modify (λ s, set_markers (delete k (aircraft_markers s)) s)
               | None => mret ()
               end;
      remove_loop r keys
  end.

(** The handlers [initialize_aircraft_poll] sets. *)
Definition on_zoomstart : P unit :=
  s ← get; if negb (autozoom_in_progress s) then modify (set_autozoom false) else mret ().
Definition on_dragstart : P unit := modify (set_autozoom false).

(** [map.flyToBounds(...)], during which Leaflet fires [zooms] zoomstart events. *)
Fixpoint fire_zoomstart (zooms : nat) : P unit :=
  match zooms with O => mret () | S n => _ ← on_zoomstart; fire_zoomstart n end.

Definition update_aircrafts (zooms : nat) (r : register) : P unit :=
  cur_aircraft_positions ← update_loop r;
  keys ← gets (λ s, (map_to_list (aircraft_markers s)).*1);
  _ ← remove_loop r keys;
  s ← get;
  if negb (bool_decide (length cur_aircraft_positions = 0%nat)) && autozoom s then
    _ ← modify (set_in_progress true);
    _ ← emit [FlyToBounds cur_aircraft_positions];
    _ ← fire_zoomstart zooms;
    modify (set_in_progress false)
  else mret ().

(** [fetch_aircrafts(tracker_block)] throws at once where [tracker_block] is [null]. *)
Definition fetch_aircrafts (b : option block) : P unit :=
  match b with
  | None => throw TypeError
  | Some b => modify (λ s, set_pending (pending s ++ [FetchAircrafts (id b)]) s)
  end.
Definition fetch_fg : P unit := modify (λ s, set_pending (pending s ++ [FetchFg]) s).

Definition aircraft_poll : P unit :=
  s ← get;
  if aircraft_poll_state s =? 1 then fetch_fg
  else if aircraft_poll_state s =? 2 then fetch_aircrafts (tracker_block s)
  else mret ().

(** [window.onload] *)
Definition onload : P unit :=
  _ ← emit [NewMap; Locate 10; OnLocation; TileLayer 19; NewLayerGroup];
  modify (set_loaded true).

(** [initialize_aircraft_poll] *)
Definition initialize_aircraft_poll : P unit :=
  _ ← modify (set_state 1); aircraft_poll.

(** The loop of [fetch_fg] over the blocks: the last tracker counts. *)
Fixpoint find_tracker (bs : list block) (tracker_block : option block) : option block :=
  match bs with
  | [] => tracker_block
  | b :: bs => find_tracker bs
                 (if String.eqb (type_name b) "Tracker" then Some b else tracker_block)
  end.

(** The promise of [fetch_fg] is fulfilled with the flowgraph [f]. *)
Definition fg_then (f : flowgraph) : P unit :=
  _ ← modify (λ s, set_fg (Some f) (find_tracker (blocks f) (tracker_block s)) s);
  s ← get;
  _ ← if map_and_group s then clear_layers else mret ();
  modify (set_state 2).

(** The promise of [fetch_aircrafts] is fulfilled, or rejected; the [catch] also gets
    what [update_aircrafts] throws. *)
Definition aircrafts_catch : P unit := modify (set_state 1).
Definition aircrafts_then (zooms : nat) (r : register) : P unit :=
  try_catch (update_aircrafts zooms r) (λ _, aircrafts_catch).

(** *** Events *)

Inductive action : Type :=
  | Load                                  (* of the page *)
  | Located                               (* [locationfound] or [locationerror] *)
  | Tick                                  (* the interval timer *)
  | FgThen (i : nat) (f : flowgraph)      (* the [i]th request in flight is answered *)
  | FgCatch (i : nat)
  | AircraftsThen (i : nat) (r : register) (zooms : nat)
  | AircraftsCatch (i : nat)
  | Zoomstart | Dragstart                 (* by the user *)
  | OpenPopup (l : nat)                   (* the user clicks on a marker ... *)
  | ClosePopup (l : nat).                 (* ... and closes its popup, or opens another *)

(** An exception of a timer or event handler is reported, and the state kept. *)
Definition handle (m : P unit) (s : app) : option app :=
  match m s with Some (_, s') => Some s' | None => None end.

Definition settle (i : nat) (s : app) : app := set_pending (list_delete i (pending s)) s.

Definition act (x : action) (s : app) : option app :=
  match x with
  | Load => if map_and_group s then None else handle onload s
  | Located => if map_and_group s then handle initialize_aircraft_poll s else None
  | Tick => if aircraft_poll_state s =? 0 then None else handle aircraft_poll s
  | FgThen i f =>
      if pending s !! i is Some FetchFg then handle (fg_then f) (settle i s) else None
  | FgCatch i => if pending s !! i is Some FetchFg then Some (settle i s) else None
  | AircraftsThen i r zooms =>
      if pending s !! i is Some (FetchAircrafts _)
      then handle (aircrafts_then zooms r) (settle i s) else None
  | AircraftsCatch i =>
      if pending s !! i is Some (FetchAircrafts _)
      then handle aircrafts_catch (settle i s) else None
  | Zoomstart => if aircraft_poll_state s =? 0 then None else handle on_zoomstart s
  | Dragstart => if aircraft_poll_state s =? 0 then None else handle on_dragstart s
  | OpenPopup l =>
      if bool_decide (popup s = None) && in_group (calls s) l && has_popup (calls s) l
      then handle (open_popup l) s else None
  | ClosePopup l => if bool_decide (popup s = Some l) then handle (close_popup l) s else None
  end.

Fixpoint execute (xs : list action) (s : app) : option app :=
  match xs with [] => Some s | x :: xs => act x s ≫= execute xs end.
End page.

