(* ===== verification/TrackerFacts.v ===== *)
(** * Facts on the map page

    [update_aircrafts] as a function of the state; the invariant of layers and popups; the
    specification of what the map shows; the state machine of the poll; decimal digits. *)

From Stdlib Require Import SpecFloat String Ascii.
From stdpp Require Import gmap pretty.
From S2P Require Import Prelude TextCodec Memory Closure Glue Tracker.

(** ** What Leaflet shows *)

(** A function that tells from the calls which layers are on the map. *)
Class LayerGroup (on_map : list call → nat → bool) : Prop := {
  group_empty l : on_map [] l = false;
  group_call cs c l : on_map (cs ++ [c]) l = group_effect c l (on_map cs l);
}.

(** The popup of a layer is closed when the layer is taken off the map, and only then. *)
Class PopupLaws `{PopupCloses} : Prop := {
  closes_removed l l' : popup_closes (RemoveLayer l) l' = bool_decide (l = l');
  closes_cleared l : popup_closes ClearLayers l = true;
}.

(** The position and angle of a marker and the path of a line, as last set. *)
Definition set_pos (c : call) (l : nat) (p : option latlng) : option latlng :=
  match c with
  | NewMarker x q _ | SetLatLng x q => if (x =? l)%nat then Some q else p
  | _ => p
  end.
Definition set_rotation (c : call) (l : nat) (p : option number) : option number :=
  match c with
  | NewMarker x _ a | SetRotationAngle x a => if (x =? l)%nat then Some a else p
  | _ => p
  end.
Definition set_path (c : call) (l : nat) (p : option (list latlng)) : option (list latlng) :=
  match c with
  | NewPolyline x q | SetLatLngs x q => if (x =? l)%nat then Some q else p
  | _ => p
  end.
(** Whether a line is drawn at full opacity. *)
Definition set_style (c : call) (l : nat) (p : option bool) : option bool :=
  match c with
  | NewPolyline x _ => if (x =? l)%nat then Some false else p
  | SetStyle x b => if (x =? l)%nat then Some b else p
  | _ => p
  end.
Definition last_set {A} (f : call → nat → option A → option A) (cs : list call) (l : nat) : option A :=
  foldl (λ p c, f c l p) None cs.
Definition shown_pos := last_set set_pos.
Definition shown_rotation := last_set set_rotation.
Definition shown_path := last_set set_path.
Definition shown_style := last_set set_style.

#[local] Arguments Nat.eqb : simpl never.

Section spec.
Context `{HPC : PopupCloses} `{HPL : !PopupLaws}.
Context (ToString : number → jsstring) (local_time : Z → Z → jsstring).
Implicit Types (s : app) (r : register) (v : aircraft).

(** *** Popup handlers *)

Lemma popup_handlers_app cs1 cs2 l :
  popup_handlers (cs1 ++ cs2) l = popup_handlers cs1 l ++ popup_handlers cs2 l.
Proof. apply omap_app. Qed.

Lemma has_popup_app cs1 cs2 l : has_popup (cs1 ++ cs2) l = has_popup cs1 l || has_popup cs2 l.
Proof. apply existsb_app. Qed.

(** The calls by which [n] handlers give the line of [e] its style. *)
Definition restyle (n : nat) (e : entry) (opaque : bool) : list call :=
  repeat (SetStyle (pathline e) opaque) n.

Lemma run_handlers_run b k e icaos s :
  Forall (λ icao, icao = k) icaos → aircraft_markers s !! k = Some e →
  run_handlers b icaos s =
    Some (Ok (), set_calls (calls s ++ restyle (length icaos) e b) s).
Proof.
  intros Hk. revert s. induction Hk as [|icao icaos -> _ IH]; intros s He; simpl.
  { rewrite app_nil_r. by destruct s. }
  unfold popup_handler, emit, modify, gets, mbind, M_bind in *. rewrite He.
  rewrite IH by done. simpl. by rewrite <- (assoc_L (++)).
Qed.

Lemma restyle_handlers n e b l : popup_handlers (restyle n e b) l = [].
Proof. by induction n. Qed.
Lemma restyle_has_popup n e b l : has_popup (restyle n e b) l = false.
Proof. by induction n. Qed.

(** *** The loops as functions of the state *)

(** An aircraft gets a marker and a line. *)
Definition create (k : string) (cur : latlng) (a : number) (content : jsstring)
    (path : list latlng) s : app :=
  let m := next_layer s in
  set_markers (<[k := Entry m (S m)]> (aircraft_markers s))
    (set_next (S (S m)) (set_calls (calls s ++
      [NewMarker m cur a; BindPopup m content; OnPopup m k; AddTo m;
       NewPolyline (S m) path; AddTo (S m)]) s)).

Definition step (e : string * aircraft) s : app :=
  let '(icao, v) := e in
  match list.last (pos_arr v) with
  | None => s
  | Some cur =>
      match aircraft_markers s !! icao with
      | Some e => set_calls (calls s ++ update_marker ToString local_time e icao v cur) s
      | None => create icao cur (angle v) (popup_content ToString local_time icao v cur) (pos_arr v) s
      end
  end.

Definition steps r s : app := foldl (λ s e, step e s) s r.

Definition bounds r : list latlng := flat_map (λ e, option_list (list.last (pos_arr e.2))) r.

(** Keys JSON data uses: an ICAO address is not the name of an inherited property. *)
Definition plain_keys r : Prop := ∀ k v, (k, v) ∈ r → inherited k = false.

Lemma update_aircraft_run icao v s :
  inherited icao = false →
  update_aircraft ToString local_time icao v s =
    Some (Ok (option_list (list.last (pos_arr v))), step (icao, v) s).
Proof.
  intros Hi. unfold update_aircraft, step.
  destruct (list.last (pos_arr v)) as [cur|]; [|done].
  unfold in_markers, mbind, M_bind, gets. rewrite Hi. cbn [orb].
  destruct (aircraft_markers s !! icao) as [e|] eqn:E.
  - by rewrite bool_decide_true.
  - rewrite bool_decide_false by (by intros [? ?]).
    unfold create_marker, fresh, emit, gets, mbind, M_bind, mret, M_ret, modify. cbn.
    by rewrite <- (assoc_L (++)).
Qed.

Lemma update_loop_run r s :
  plain_keys r →
  update_loop ToString local_time r s = Some (Ok (bounds r), steps r s).
Proof.
  revert s. induction r as [|[icao v] r IH]; intros s Hp; [done|]. cbn [update_loop].
  rewrite (M_bind_ok _ _ _ _ _ (update_aircraft_run icao v s (Hp icao v ltac:(by left)))).
  erewrite M_bind_ok by (apply IH; intros k w Hk; eapply Hp; by right). done.
Qed.

(** Taking the layers of an aircraft off the map; an open popup is closed. *)
Definition remove_entry (k : string) (e : entry) s : app :=
  let open := bool_decide (popup s = Some (marker e)) in
  set_markers (delete k (aircraft_markers s))
    (set_popup (if open then None else popup s)
      (set_calls (calls s ++ RemoveLayer (marker e) ::
         (if open then restyle (length (popup_handlers (calls s) (marker e))) e false else []) ++
         [RemoveLayer (pathline e)]) s)).

Definition remove r (k : string) s : app :=
  if in_register k r then s
  else match aircraft_markers s !! k with Some e => remove_entry k e s | None => s end.

Definition removes r (keys : list string) s : app := foldl (λ s k, remove r k s) s keys.

(** *** The invariant *)
Context (on_map : list call → nat → bool) `{!LayerGroup on_map}.

Lemma on_map_app cs l x :
  on_map (cs ++ l) x = foldl (λ b c, group_effect c x b) (on_map cs x) l.
Proof.
  revert cs. induction l as [|c l IH]; intros cs; simpl; [by rewrite app_nil_r|].
  rewrite <- group_call, <- IH. by rewrite <- (assoc_L (++)).
Qed.

Lemma on_map_restyle n e b cs l : on_map (cs ++ restyle n e b) l = on_map cs l.
Proof. rewrite on_map_app. induction n as [|n IH]; [done|]. exact IH. Qed.

(** There is only one such function. *)
Lemma on_map_in_group cs l : on_map cs l = in_group cs l.
Proof.
  change cs with ([] ++ cs). rewrite on_map_app, group_empty. done.
Qed.

Definition owns (e : entry) (l : nat) : Prop := l = marker e ∨ l = pathline e.

(** Every aircraft has two layers of its own. *)
Record layers_ok s : Prop := LayersOk {
  wf_key k e : aircraft_markers s !! k = Some e → inherited k = false;
  wf_fresh k e l : aircraft_markers s !! k = Some e → owns e l → (l < next_layer s)%nat;
  wf_two k e : aircraft_markers s !! k = Some e → marker e ≠ pathline e;
  wf_distinct k k' e e' l : aircraft_markers s !! k = Some e →
    aircraft_markers s !! k' = Some e' → owns e l → owns e' l → k = k'
}.

(** The handlers of an aircraft's marker are its own, and lines have no popup. *)
Record handlers_ok s : Prop := HandlersOk {
  po_handlers k e : aircraft_markers s !! k = Some e →
    Forall (λ icao, icao = k) (popup_handlers (calls s) (marker e));
  po_handled k e : aircraft_markers s !! k = Some e → popup_handlers (calls s) (marker e) ≠ [];
  po_line k e : aircraft_markers s !! k = Some e → has_popup (calls s) (pathline e) = false;
  po_unborn l : (next_layer s ≤ l)%nat →
    popup_handlers (calls s) l = [] ∧ has_popup (calls s) l = false
}.

(** Besides, an aircraft's line is drawn at full opacity exactly if its popup is open, and an
    open popup is an aircraft's. *)
Record popups_ok s : Prop := PopupsOk {
  po_core :> handlers_ok s;
  po_popup l : popup s = Some l → ∃ k e, aircraft_markers s !! k = Some e ∧ marker e = l;
  po_style k e : aircraft_markers s !! k = Some e →
    shown_style (calls s) (pathline e) = Some (bool_decide (popup s = Some (marker e)))
}.

Record tracked s : Prop := Tracked { wf_layers :> layers_ok s; wf_popups :> popups_ok s }.

(** No other layer is on the map. *)
Definition ghostless s : Prop :=
  ∀ l, on_map (calls s) l = true → ∃ k e, aircraft_markers s !! k = Some e ∧ owns e l.

Record wf s : Prop := Wf { wf_tracked :> tracked s; wf_ghost : ghostless s }.

(** What the invariant is about. *)
Definition view s : gmap string entry * nat * list call * option nat :=
  (aircraft_markers s, next_layer s, calls s, popup s).

Lemma layers_frame s s' : view s = view s' → layers_ok s → layers_ok s'.
Proof.
  unfold view. intros [= Hm Hn Hc _] [? ? ? ?]. split; rewrite <- ?Hm, <- ?Hn, <- ?Hc; eauto.
Qed.
Lemma handlers_frame s s' : view s = view s' → handlers_ok s → handlers_ok s'.
Proof.
  unfold view. intros [= Hm Hn Hc Ho] [? ? ? ?].
  split; rewrite <- ?Hm, <- ?Hn, <- ?Hc; eauto.
Qed.
Lemma popups_frame s s' : view s = view s' → popups_ok s → popups_ok s'.
Proof.
  intros Hv [Hc ? ?]. pose proof (handlers_frame s s' Hv Hc). revert Hv. unfold view.
  intros [= Hm Hn Hcs Ho]. split; rewrite <- ?Hm, <- ?Hn, <- ?Hcs, <- ?Ho; eauto.
Qed.
Lemma tracked_frame s s' : view s = view s' → tracked s → tracked s'.
Proof. intros Hv [? ?]. split; [by eapply layers_frame|by eapply popups_frame]. Qed.
Lemma wf_frame s s' : view s = view s' → wf s → wf s'.
Proof.
  intros Hv [? Hg]. split; [by eapply tracked_frame|]. unfold view in Hv. injection Hv as Hm _ Hc _.
  unfold ghostless. by rewrite <- Hm, <- Hc.
Qed.

(** The invariant does not depend on calls that concern layers only. *)
Lemma layers_calls s cs : layers_ok s → layers_ok (set_calls cs s).
Proof. intros [? ? ? ?]. split; simpl; eauto. Qed.

(** Every layer of an aircraft is on the map. *)
Definition synced s : Prop :=
  ∀ k e l, aircraft_markers s !! k = Some e → owns e l → on_map (calls s) l = true.

Lemma on_map_update e icao v cur cs l :
  on_map (cs ++ update_marker ToString local_time e icao v cur) l = on_map cs l.
Proof. by rewrite on_map_app. Qed.

Lemma layers_create k cur a content path s :
  inherited k = false → aircraft_markers s !! k = None → layers_ok s →
  layers_ok (create k cur a content path s).
Proof.
  intros Hi E [Hk Hf Ht Hd]. unfold create. set (n := next_layer s) in *. cbv zeta.
  split; simpl.
  - intros k' e [[<- <-]|[? ?]]%lookup_insert_Some; eauto.
  - intros k' e l [[<- <-]|[? He]]%lookup_insert_Some; [intros [-> | ->]; simpl; lia|].
    intros Hl. specialize (Hf k' e l He Hl). lia.
  - intros k' e [[<- <-]|[? ?]]%lookup_insert_Some; [simpl; lia|eauto].
  - intros k1 k' e e' l [[<- <-]|[? He]]%lookup_insert_Some [[<- <-]|[? He']]%lookup_insert_Some Hl Hl';
      [done|..|by eapply Hd].
    + specialize (Hf k' e' l He' Hl'). destruct Hl as [-> | ->]; simpl in Hf; lia.
    + specialize (Hf k1 e l He Hl). destruct Hl' as [-> | ->]; simpl in Hf; lia.
Qed.

Lemma ghostless_create k cur a content path s :
  aircraft_markers s !! k = None → ghostless s → ghostless (create k cur a content path s).
Proof.
  intros E Hg l. unfold create. set (n := next_layer s) in *. cbv zeta. simpl.
  rewrite on_map_app. cbn [foldl group_effect].
  destruct (Nat.eqb_spec (S n) l) as [<-|?]; [intros _|].
  { exists k, (Entry n (S n)). rewrite lookup_insert_eq. split; [done|by right]. }
  destruct (Nat.eqb_spec n l) as [<-|?]; [intros _|].
  { exists k, (Entry n (S n)). rewrite lookup_insert_eq. split; [done|by left]. }
  cbn [orb]. intros (k' & e & He & Hl)%Hg. exists k', e. split; [|done].
  rewrite lookup_insert_ne; [done|]. congruence.
Qed.

Lemma synced_step e s : synced s → synced (step e s).
Proof.
  destruct e as [icao v]. simpl. intros Hs. destruct (list.last (pos_arr v)) as [cur|]; [|done].
  destruct (aircraft_markers s !! icao) as [e|] eqn:E; intros k e' l; simpl.
  - rewrite on_map_update. apply Hs.
  - rewrite on_map_app. cbn [foldl group_effect].
    intros [[<- <-]|[? He]]%lookup_insert_Some Hl.
    + destruct Hl as [-> | ->]; simpl; rewrite Nat.eqb_refl; by rewrite ?orb_true_r.
    + rewrite (Hs _ _ _ He Hl). by rewrite !orb_true_r.
Qed.

(** Two aircraft share no layer. *)
Lemma owns_ne s k k' e e' l l' :
  layers_ok s → k ≠ k' → aircraft_markers s !! k = Some e → aircraft_markers s !! k' = Some e' →
  owns e l → owns e' l' → l ≠ l'.
Proof.
  intros Hw Hne He He' Hl Hl' <-. apply Hne. exact (wf_distinct _ Hw k k' e e' l He He' Hl Hl').
Qed.

Lemma shown_style_app cs1 cs2 l :
  shown_style (cs1 ++ cs2) l = foldl (λ p c, set_style c l p) (shown_style cs1 l) cs2.
Proof. unfold shown_style, last_set. by rewrite foldl_app. Qed.

Lemma shown_style_restyle n e b cs l :
  shown_style (cs ++ restyle n e b) l =
  if (pathline e =? l)%nat && negb (n =? 0)%nat then Some b else shown_style cs l.
Proof.
  rewrite shown_style_app. generalize (shown_style cs l) as p.
  induction n as [|n IH]; intros p; [by rewrite andb_false_r|]. simpl. rewrite IH.
  by destruct (pathline e =? l)%nat, (n =? 0)%nat.
Qed.

(** The layers of aircraft are not the next ones. *)
Lemma owned_lt s k e :
  layers_ok s → aircraft_markers s !! k = Some e →
  (marker e < next_layer s)%nat ∧ (pathline e < next_layer s)%nat.
Proof. intros Hw He. split; eapply (wf_fresh _ Hw); eauto; by (left + right). Qed.

(** A new marker with its popup, which may become an aircraft's. *)
Lemma handlers_marker k cur a content cs s :
  (∀ l, popup_handlers cs l = []) → (∀ l, has_popup cs l = false) →
  layers_ok s → handlers_ok s →
  let n := next_layer s in
  let cs' := calls s ++ [NewMarker n cur a; BindPopup n content; OnPopup n k; AddTo n] ++ cs in
  (∀ m, (n < m)%nat → handlers_ok (set_next m (set_calls cs' s))) ∧
  popup_handlers cs' n = [k] ∧ has_popup cs' (S n) = false.
Proof.
  intros Hcs1 Hcs2 Hw [Hh Hd Hl Hu] n cs'.
  pose proof (λ k e, owned_lt s k e Hw) as Hlt. fold n in Hlt.
  destruct (Hu n ltac:(subst n; lia)) as [Hun1 Hun2].
  destruct (Hu (S n) ltac:(subst n; lia)) as [Hus1 Hus2].
  assert (Hph : ∀ l, popup_handlers cs' l = popup_handlers (calls s) l ++ (if (n =? l)%nat then [k] else [])).
  { intros l. subst cs'. rewrite !popup_handlers_app, Hcs1, app_nil_r. f_equal. simpl. by destruct (n =? l)%nat. }
  assert (Hhp : ∀ l, has_popup cs' l = has_popup (calls s) l || (n =? l)%nat).
  { intros l. subst cs'. rewrite !has_popup_app, Hcs2, orb_false_r. f_equal. simpl. by rewrite orb_false_r. }
  split; [intros m Hm|].
  - split; simpl; intros *; rewrite ?Hph, ?Hhp.
    + intros He. destruct (Hlt k0 e He). destruct (Nat.eqb_spec n (marker e)); [lia|].
      rewrite app_nil_r. by apply Hh.
    + intros He [Hn _]%app_eq_nil. by eapply Hd.
    + intros He. destruct (Hlt k0 e He). destruct (Nat.eqb_spec n (pathline e)); [lia|].
      rewrite orb_false_r. by eapply Hl.
    + intros Hle. destruct (Hu l ltac:(subst n; lia)) as [-> ->]. by destruct (Nat.eqb_spec n l); [lia|].
  - rewrite Hph, Hhp, Hun1, Hus2, Nat.eqb_refl. by destruct (Nat.eqb_spec n (S n)); [lia|].
Qed.

Lemma handlers_create k cur a content path s :
  layers_ok s → handlers_ok s → handlers_ok (create k cur a content path s).
Proof.
  intros Hw Hp. unfold create. set (n := next_layer s). cbv zeta.
  destruct (handlers_marker k cur a content [NewPolyline (S n) path; AddTo (S n)] s
    (λ _, eq_refl) (λ _, eq_refl) Hw Hp) as (H1 & Hph & Hhp).
  destruct (H1 (S (S n)) ltac:(fold n; lia)) as [Hh Hd Hl Hu].
  fold n in Hh, Hd, Hl, Hu, Hph, Hhp. simpl in *. split; simpl; try done.
  - intros k' e [[<- <-]|[Hne He]]%lookup_insert_Some; [|by apply Hh].
    refine (eq_ind_r (Forall _) _ Hph). by repeat constructor.
  - intros k' e [[<- <-]|[Hne He]]%lookup_insert_Some; [|by eapply Hd].
    intros Hn. pose proof (eq_trans (eq_sym Hph) Hn). done.
  - intros k' e [[<- <-]|[Hne He]]%lookup_insert_Some; [|by eapply Hl]. exact Hhp.
Qed.

Lemma popups_create k cur a content path s :
  aircraft_markers s !! k = None → layers_ok s → popups_ok s →
  popups_ok (create k cur a content path s).
Proof.
  intros E Hw Hp. pose proof (handlers_create k cur a content path s Hw Hp) as Hc.
  pose proof (λ k e, owned_lt s k e Hw) as Hlt. destruct Hp as [_ Hpo Hs].
  unfold create in *. set (n := next_layer s) in *. cbv zeta in *. split; simpl; [done|..].
  - intros l Hl'. destruct (Hpo l Hl') as (k' & e & He & <-). exists k', e.
    split; [|done]. rewrite lookup_insert_ne; [done|]. congruence.
  - intros k' e [[<- <-]|[Hne He]]%lookup_insert_Some; rewrite shown_style_app; simpl.
    + rewrite Nat.eqb_refl, bool_decide_false; [done|]. intros Hx.
      destruct (Hpo _ Hx) as (k' & e & He & Hm). destruct (Hlt k' e He). lia.
    + destruct (Hlt k' e He). destruct (Nat.eqb_spec (S n) (pathline e)); [lia|]. by eapply Hs.
Qed.

(** Calls that concern neither popups nor styles. *)
Definition quiet (c : call) : Prop :=
  (∀ l, popup_handlers [c] l = []) ∧ (∀ l, has_popup [c] l = false) ∧ (∀ l p, set_style c l p = p).

Lemma handlers_quiet s c : quiet c → handlers_ok s → handlers_ok (set_calls (calls s ++ [c]) s).
Proof.
  intros (Hq1 & Hq2 & _) [Hh Hd Hl Hu]. split; simpl; intros *;
    rewrite ?popup_handlers_app, ?has_popup_app, ?Hq1, ?Hq2, ?app_nil_r, ?orb_false_r; eauto.
Qed.

Lemma popups_quiet s c : quiet c → popups_ok s → popups_ok (set_calls (calls s ++ [c]) s).
Proof.
  intros Hq [Hc Hpo Hs]. split; simpl; intros; [by apply handlers_quiet|by apply Hpo|].
  destruct Hq as (_ & _ & Hq). rewrite shown_style_app. simpl. rewrite Hq. by eapply Hs.
Qed.

Lemma quiet_remove l : quiet (RemoveLayer l).
Proof. done. Qed.
Lemma quiet_clear : quiet ClearLayers.
Proof. done. Qed.
Lemma quiet_fly b : quiet (FlyToBounds b).
Proof. done. Qed.

(** The calls by which an aircraft that has its layers is updated: they put no layer on the
    map and take none off, and the handlers they add are the aircraft's. *)
Definition gentle (k : string) (e : entry) (c : call) : Prop :=
  (quiet c ∨ c = OnPopup (marker e) k) ∧ ∀ l b, group_effect c l b = b.

Lemma handlers_on k e s :
  layers_ok s → handlers_ok s → aircraft_markers s !! k = Some e →
  handlers_ok (set_calls (calls s ++ [OnPopup (marker e) k]) s).
Proof.
  intros Hw [Hh Hd Hl Hu] E. destruct (owned_lt s k e Hw E) as [Hlt _].
  split; simpl.
  - intros k' e' He. rewrite popup_handlers_app. apply Forall_app. split; [by apply Hh|]. simpl.
    destruct (Nat.eqb_spec (marker e) (marker e')) as [Heq|]; [|constructor].
    repeat constructor. eapply (wf_distinct _ Hw _ _ e e' (marker e)); eauto; [by left|].
    rewrite Heq. by left.
  - intros k' e' He Hn. rewrite popup_handlers_app in Hn. apply app_eq_nil in Hn as [Hn _].
    by eapply Hd.
  - intros k' e' He. rewrite has_popup_app. simpl. rewrite orb_false_r. by eapply Hl.
  - intros l Hle. destruct (Hu l Hle) as [Hu1 Hu2]. rewrite popup_handlers_app, has_popup_app.
    rewrite Hu1, Hu2. simpl. by destruct (Nat.eqb_spec (marker e) l); [lia|].
Qed.

Lemma popups_on k e s :
  layers_ok s → popups_ok s → aircraft_markers s !! k = Some e →
  popups_ok (set_calls (calls s ++ [OnPopup (marker e) k]) s).
Proof.
  intros Hw [Hc Hpo Hs] E. split; simpl; [by apply handlers_on|done|].
  intros k' e' He. rewrite shown_style_app. simpl. by eapply Hs.
Qed.

Lemma handlers_gentles k e cs s :
  Forall (gentle k e) cs → aircraft_markers s !! k = Some e → layers_ok s → handlers_ok s →
  handlers_ok (set_calls (calls s ++ cs) s).
Proof.
  intros Hcs. revert s. induction Hcs as [|c cs [Hc _] _ IH]; intros s E Hw Hp.
  - rewrite app_nil_r. by apply (handlers_frame s).
  - assert (Hp1 : handlers_ok (set_calls (calls s ++ [c]) s))
      by (destruct Hc as [Hc| ->]; [by apply handlers_quiet|by apply handlers_on]).
    specialize (IH (set_calls (calls s ++ [c]) s) E (layers_calls s _ Hw) Hp1).
    simpl in IH. by rewrite <- (assoc_L (++)) in IH.
Qed.

Lemma tracked_gentles k e cs s :
  Forall (gentle k e) cs → aircraft_markers s !! k = Some e → tracked s →
  tracked (set_calls (calls s ++ cs) s).
Proof.
  intros Hcs. revert s. induction Hcs as [|c cs [Hc _] _ IH]; intros s E Ht.
  - rewrite app_nil_r. by apply (tracked_frame s).
  - assert (Ht1 : tracked (set_calls (calls s ++ [c]) s)).
    { destruct Ht as [Hw Hp]. split; [by apply layers_calls|].
      destruct Hc as [Hc| ->]; [by apply popups_quiet|by apply popups_on]. }
    specialize (IH (set_calls (calls s ++ [c]) s) E Ht1). simpl in IH. by rewrite <- (assoc_L (++)) in IH.
Qed.

Lemma ghostless_gentles k e cs s :
  Forall (gentle k e) cs → aircraft_markers s !! k = Some e → ghostless s →
  ghostless (set_calls (calls s ++ cs) s).
Proof.
  intros Hcs E Hg l. simpl. rewrite on_map_app.
  assert (Hb : ∀ b, foldl (λ b c, group_effect c l b) b cs = b).
  { induction Hcs as [|c cs [_ Hc] _ IH]; intros b; [done|]. simpl. by rewrite Hc. }
  rewrite Hb. apply Hg.
Qed.

Lemma update_gentle e k v cur :
  Forall (gentle k e) (update_marker ToString local_time e k v cur).
Proof. repeat constructor; by (left + right). Qed.

Lemma tracked_create k cur a content path s :
  inherited k = false → aircraft_markers s !! k = None → tracked s →
  tracked (create k cur a content path s).
Proof. intros Hi E [Hw Hp]. split; [by apply layers_create|by apply popups_create]. Qed.

Lemma wf_step e s : inherited e.1 = false → wf s → wf (step e s).
Proof.
  destruct e as [icao v]. simpl. intros Hi [Ht Hg].
  destruct (list.last (pos_arr v)) as [cur|]; [|by split].
  destruct (aircraft_markers s !! icao) as [e|] eqn:E.
  - split; [eapply tracked_gentles|eapply ghostless_gentles]; eauto using update_gentle.
  - split; [by apply tracked_create|by apply ghostless_create].
Qed.

(** *** Removing an aircraft *)

Lemma close_popup_run k e s :
  handlers_ok s → aircraft_markers s !! k = Some e →
  close_popup (marker e) s = Some (Ok (), set_popup None
    (set_calls (calls s ++ restyle (length (popup_handlers (calls s) (marker e))) e false) s)).
Proof.
  intros Hp He. unfold close_popup, fire_popup. do 2 (erewrite M_bind_ok by done).
  exact (run_handlers_run false k e _ (set_popup None s) (po_handlers _ Hp k e He) He).
Qed.

Lemma open_popup_run k e s :
  handlers_ok s → aircraft_markers s !! k = Some e →
  open_popup (marker e) s = Some (Ok (), set_popup (Some (marker e))
    (set_calls (calls s ++ restyle (length (popup_handlers (calls s) (marker e))) e true) s)).
Proof.
  intros Hp He. unfold open_popup, fire_popup. do 2 (erewrite M_bind_ok by done).
  exact (run_handlers_run true k e _ (set_popup (Some (marker e)) s) (po_handlers _ Hp k e He) He).
Qed.

(** A change of a line's style does not concern handlers, nor does the popup. *)
Lemma handlers_restyle n e b p s :
  handlers_ok s → handlers_ok (set_popup p (set_calls (calls s ++ restyle n e b) s)).
Proof.
  intros [Hh Hd Hl Hu]. split; simpl; intros *;
    rewrite ?popup_handlers_app, ?has_popup_app, ?restyle_handlers, ?restyle_has_popup,
      ?app_nil_r, ?orb_false_r; eauto.
Qed.

(** A popup that opens or closes takes its line along. *)
Lemma popups_restyle k e s (b : bool) :
  layers_ok s → popups_ok s → aircraft_markers s !! k = Some e →
  (if b then popup s = None else popup s = Some (marker e)) →
  popups_ok (set_popup (if b then Some (marker e) else None)
    (set_calls (calls s ++ restyle (length (popup_handlers (calls s) (marker e))) e b) s)).
Proof.
  intros Hw Hp He Hb. pose proof (po_handled _ Hp k e He) as Hne.
  destruct Hp as [Hc Hpo Hs]. split; simpl; intros *.
  - by apply handlers_restyle.
  - destruct b; [|done]. intros [= <-]. by exists k, e.
  - intros He'. rewrite shown_style_restyle, (Hs _ _ He').
    destruct (Nat.eqb_spec (pathline e) (pathline e0)) as [Heq|Hneq]; simpl.
    + assert (k0 = k) as ->.
      { eapply (wf_distinct _ Hw _ _ e0 e (pathline e)); eauto; [rewrite Heq|]; by right. }
      simplify_eq. destruct (popup_handlers _ _); [done|]. simpl.
      destruct b; [by rewrite bool_decide_true|by rewrite bool_decide_false].
    + assert (marker e ≠ marker e0).
      { intros Hm. assert (k = k0) as <-; [|congruence].
        eapply (wf_distinct _ Hw _ _ e e0 (marker e)); eauto; [by left|rewrite Hm; by left]. }
      f_equal. destruct b; rewrite Hb; apply bool_decide_ext; naive_solver.
Qed.

Lemma remove_layer_run l s :
  remove_layer l s =
    if bool_decide (popup s = Some l)
    then close_popup l (set_calls (calls s ++ [RemoveLayer l]) s)
    else Some (Ok (), set_calls (calls s ++ [RemoveLayer l]) s).
Proof.
  unfold remove_layer, take_off. do 2 (erewrite M_bind_ok by done). cbn [popup set_calls].
  destruct (popup s) as [q|]; [|done]. rewrite closes_removed.
  destruct (decide (l = q)) as [<-|Hne]; [by rewrite !bool_decide_true|].
  by rewrite !bool_decide_false by congruence.
Qed.

(** The two layers of an aircraft are removed in turn; only the marker can have a popup. *)
Lemma remove_entry_run k e s :
  handlers_ok s → popup s ≠ Some (pathline e) → aircraft_markers s !! k = Some e →
  (_ ← remove_layer (marker e); _ ← remove_layer (pathline e);
   modify (λ s, set_markers (delete k (aircraft_markers s)) s)) s =
  Some (Ok (), remove_entry k e s).
Proof.
  intros Hp Hpl He. unfold remove_entry.
  set (s1 := set_calls (calls s ++ [RemoveLayer (marker e)]) s).
  assert (Hp1 : handlers_ok s1) by by apply handlers_quiet.
  assert (Hr : remove_layer (marker e) s =
    Some (Ok (), set_popup (if bool_decide (popup s = Some (marker e)) then None else popup s)
      (set_calls (calls s ++ RemoveLayer (marker e) ::
        (if bool_decide (popup s = Some (marker e))
         then restyle (length (popup_handlers (calls s) (marker e))) e false else [])) s))).
  { rewrite remove_layer_run. case_bool_decide.
    - fold s1. rewrite (close_popup_run k e s1 Hp1 He). subst s1. simpl.
      by rewrite popup_handlers_app, app_nil_r, <- (assoc_L (++)).
    - by destruct s. }
  rewrite (M_bind_ok _ _ _ _ _ Hr). erewrite M_bind_ok.
  2:{ rewrite remove_layer_run. cbn [popup set_popup set_calls].
      rewrite bool_decide_false; [done|]. by case_bool_decide. }
  unfold modify. do 3 f_equal. unfold set_markers, set_popup, set_calls. simpl. f_equal.
  by rewrite <- (assoc_L (++)), app_comm_cons.
Qed.

Lemma on_map_remove r k s l :
  on_map (calls (remove r k s)) l =
  match in_register k r, aircraft_markers s !! k with
  | false, Some e => negb (marker e =? l)%nat && negb (pathline e =? l)%nat && on_map (calls s) l
  | _, _ => on_map (calls s) l
  end.
Proof.
  unfold remove. destruct (in_register k r); [done|].
  destruct (aircraft_markers s !! k) as [e|]; [|done]. simpl.
  rewrite app_comm_cons, (assoc_L (++)), group_call. simpl.
  rewrite (cons_middle _ (calls s)), (assoc_L (++)).
  assert (Hr : on_map ((calls s ++ [RemoveLayer (marker e)]) ++
    (if bool_decide (popup s = Some (marker e))
     then restyle (length (popup_handlers (calls s) (marker e))) e false else [])) l =
    on_map (calls s ++ [RemoveLayer (marker e)]) l).
  { case_bool_decide; [by rewrite on_map_restyle|by rewrite app_nil_r]. }
  rewrite Hr, group_call. simpl. by destruct (marker e =? l)%nat, (pathline e =? l)%nat.
Qed.

Lemma markers_remove r k s :
  aircraft_markers (remove r k s) =
  if in_register k r then aircraft_markers s else delete k (aircraft_markers s).
Proof.
  unfold remove. destruct (in_register k r); [done|].
  destruct (aircraft_markers s !! k) as [e|] eqn:E; [done|]. by rewrite delete_id.
Qed.

Lemma markers_remove_sub r k s k' e :
  aircraft_markers (remove r k s) !! k' = Some e → aircraft_markers s !! k' = Some e.
Proof.
  rewrite markers_remove. destruct (in_register k r); [done|]. by intros [_ ?]%lookup_delete_Some.
Qed.

Lemma layers_remove r k s : layers_ok s → layers_ok (remove r k s).
Proof.
  assert (Hn : next_layer (remove r k s) = next_layer s)
    by (unfold remove; destruct (in_register k r), (aircraft_markers s !! k); done).
  pose proof (markers_remove_sub r k s) as Hsub.
  intros [Hk Hf Ht Hd]. split; rewrite ?Hn; eauto.
Qed.

Lemma ghostless_remove r k s : ghostless s → ghostless (remove r k s).
Proof.
  intros Hg l. rewrite on_map_remove. pose proof (markers_remove r k s) as Hm.
  destruct (in_register k r) eqn:Er; [rewrite Hm; apply Hg|].
  destruct (aircraft_markers s !! k) as [e|] eqn:E; [|rewrite Hm, delete_id by done; apply Hg].
  intros [[Hne1 Hne2]%andb_prop Hl]%andb_prop. destruct (Hg l Hl) as (k' & e' & He' & Ho).
  exists k', e'. split; [|done]. rewrite Hm, lookup_delete_ne; [done|]. intros <-.
  simplify_eq. destruct Ho as [-> | ->]; by rewrite Nat.eqb_refl in *.
Qed.

(** Forgetting an aircraft whose popup is not open. *)
Lemma handlers_delete k s :
  handlers_ok s → handlers_ok (set_markers (delete k (aircraft_markers s)) s).
Proof.
  intros [Hh Hd Hl Hu]. split; simpl; [..|done]; intros k' e' [_ ?]%lookup_delete_Some; eauto.
Qed.

Lemma popups_delete k e s :
  popups_ok s → aircraft_markers s !! k = Some e → popup s ≠ Some (marker e) →
  popups_ok (set_markers (delete k (aircraft_markers s)) s).
Proof.
  intros [Hc Hpo Hs] He Hne. split; simpl; [by apply handlers_delete|..].
  - intros l Hl'. destruct (Hpo l Hl') as (k' & e' & He' & <-). exists k', e'.
    split; [|done]. rewrite lookup_delete_ne; [done|]. intros ->. congruence.
  - intros k' e' [_ ?]%lookup_delete_Some. by eapply Hs.
Qed.

Lemma handlers_remove r k s : handlers_ok s → handlers_ok (remove r k s).
Proof.
  intros Hp. unfold remove. destruct (in_register k r); [done|].
  destruct (aircraft_markers s !! k) as [e|] eqn:He; [|done]. unfold remove_entry.
  set (b := bool_decide (popup s = Some (marker e))).
  set (n := if b then length (popup_handlers (calls s) (marker e)) else 0%nat).
  assert (Hn : (if b then restyle (length (popup_handlers (calls s) (marker e))) e false else []) =
    restyle n e false) by (subst n; by destruct b).
  rewrite Hn.
  pose proof (handlers_delete k _ (handlers_quiet _ _ (quiet_remove (pathline e))
    (handlers_restyle n e false (if b then None else popup s) _
      (handlers_quiet _ _ (quiet_remove (marker e)) Hp)))) as Hp3.
  simpl in Hp3. by rewrite <- !(assoc_L (++)) in Hp3.
Qed.

Lemma popups_remove r k s : tracked s → popups_ok (remove r k s).
Proof.
  intros [Hw Hp]. unfold remove. destruct (in_register k r); [done|].
  destruct (aircraft_markers s !! k) as [e|] eqn:He; [|done]. unfold remove_entry.
  set (s1 := set_calls (calls s ++ [RemoveLayer (marker e)]) s).
  assert (Hp1 : popups_ok s1) by by apply popups_quiet.
  assert (Hw1 : layers_ok s1) by by apply layers_calls.
  set (s2 := set_popup (if bool_decide (popup s = Some (marker e)) then None else popup s)
    (set_calls (calls s1 ++ (if bool_decide (popup s = Some (marker e))
      then restyle (length (popup_handlers (calls s1) (marker e))) e false else [])) s1)).
  assert (Hp2 : popups_ok s2).
  { unfold s2. case_bool_decide as Hb.
    - by apply (popups_restyle k e s1 false).
    - rewrite app_nil_r. by destruct s. }
  assert (Hne : popup s2 ≠ Some (marker e)) by (simpl; by case_bool_decide).
  pose proof (popups_quiet _ _ (quiet_remove (pathline e)) (popups_delete k e s2 Hp2 He Hne)) as Hp3.
  unfold s2, s1 in Hp3. simpl in Hp3. rewrite popup_handlers_app, app_nil_r in Hp3.
  by rewrite <- !(assoc_L (++)) in Hp3.
Qed.

Lemma tracked_remove r k s : tracked s → tracked (remove r k s).
Proof. intros Hw. split; [apply layers_remove, Hw|by apply popups_remove]. Qed.

Lemma wf_remove r k s : wf s → wf (remove r k s).
Proof. intros [Ht Hg]. split; [by apply tracked_remove|by apply ghostless_remove]. Qed.

Lemma synced_remove r k s : wf s → synced s → synced (remove r k s).
Proof.
  intros Hw Hs k' e' l. rewrite on_map_remove, markers_remove.
  destruct (in_register k r) eqn:Er; [apply Hs|].
  intros [Hk He']%lookup_delete_Some Ho. specialize (Hs _ _ _ He' Ho).
  destruct (aircraft_markers s !! k) as [e|] eqn:E; [|done]. rewrite Hs, andb_true_r.
  assert (marker e ≠ l ∧ pathline e ≠ l) as [? ?]
    by (split; (eapply (owns_ne s k k' e e'); [apply Hw|done..|by (left + right)|done])).
  by destruct (Nat.eqb_spec (marker e) l), (Nat.eqb_spec (pathline e) l).
Qed.

(** What removing needs of the aircraft, and keeps. *)
Record removable s : Prop := Removable {
  rem_handlers :> handlers_ok s;
  rem_popup k e : aircraft_markers s !! k = Some e → popup s ≠ Some (pathline e)
}.

Lemma popup_remove r k s : popup (remove r k s) = popup s ∨ popup (remove r k s) = None.
Proof.
  unfold remove. destruct (in_register k r); [by left|].
  destruct (aircraft_markers s !! k) as [e|]; [|by left]. simpl. case_bool_decide; auto.
Qed.

Lemma removable_remove r k s : removable s → removable (remove r k s).
Proof.
  intros [Hh Hp]. split; [by apply handlers_remove|].
  intros k' e He%markers_remove_sub. destruct (popup_remove r k s) as [-> | ->]; [|done]. eauto.
Qed.

Lemma tracked_removable s : tracked s → removable s.
Proof.
  intros [Hw Hp]. split; [apply Hp|]. intros k e He Hx.
  destruct (po_popup _ Hp _ Hx) as (k' & e' & He' & Hm).
  assert (k = k') as <- by (eapply (wf_distinct _ Hw _ _ e e' (pathline e)); eauto;
    [by right|rewrite <- Hm; by left]).
  assert (e' = e) as -> by congruence. by apply (wf_two _ Hw k e).
Qed.

Lemma remove_loop_removes r keys s :
  removable s → remove_loop r keys s = Some (Ok (), removes r keys s).
Proof.
  revert s. induction keys as [|k keys IH]; intros s Hw; [done|]. cbn [remove_loop].
  erewrite M_bind_ok by done.
  assert (Hr : (if in_register k r then mret () else
    match aircraft_markers s !! k with
    | Some e => _ ← remove_layer (marker e); _ ← remove_layer (pathline e);
                modify (λ s, set_markers (delete k (aircraft_markers s)) s)
    | None => mret ()
    end) s = Some (Ok (), remove r k s)).
  { unfold remove. destruct (in_register k r); [done|].
    destruct (aircraft_markers s !! k) as [e|] eqn:E; [|done].
    apply remove_entry_run; [apply Hw|by eapply rem_popup|done]. }
  rewrite (M_bind_ok _ _ _ _ _ Hr). by apply IH, removable_remove.
Qed.

Lemma remove_loop_run r keys s :
  tracked s → remove_loop r keys s = Some (Ok (), removes r keys s).
Proof. intros Ht. by apply remove_loop_removes, tracked_removable. Qed.

(** *** The whole update *)

Lemma steps_ind (I : app → Prop) r s :
  (∀ e s, e ∈ r → I s → I (step e s)) → I s → I (steps r s).
Proof.
  revert s. induction r as [|e r IH]; intros s Hstep Hs; [done|].
  apply IH; [|by apply Hstep; [left|]]. intros e' s' He'. apply Hstep. by right.
Qed.

Lemma removes_ind (I : app → Prop) r keys s :
  (∀ k s, I s → I (remove r k s)) → I s → I (removes r keys s).
Proof. intros Hr. revert s. induction keys as [|k keys IH]; intros s Hs; simpl; auto. Qed.

Lemma markers_step e s k :
  is_Some (aircraft_markers (step e s) !! k) ↔
  is_Some (aircraft_markers s !! k) ∨ (k = e.1 ∧ positions e.2 ≠ []).
Proof.
  destruct e as [icao v]. simpl.
  assert (Hl : list.last (pos_arr v) = None ↔ positions v = []).
  { unfold pos_arr. rewrite last_None. by destruct (positions v). }
  destruct (list.last (pos_arr v)) as [cur|] eqn:El.
  - assert (positions v ≠ []) by (intros ?%Hl; congruence).
    destruct (aircraft_markers s !! icao) as [e|] eqn:E; simpl.
    + split; [by left|]. intros [?|[-> _]]; [done|by rewrite E].
    + destruct (decide (k = icao)) as [->|Hne].
      * rewrite lookup_insert_eq. split; [by right|by eexists].
      * rewrite lookup_insert_ne by done. naive_solver.
  - rewrite (proj1 Hl eq_refl). naive_solver.
Qed.

Lemma markers_steps r s k :
  is_Some (aircraft_markers (steps r s) !! k) ↔
  is_Some (aircraft_markers s !! k) ∨ ∃ v, (k, v) ∈ r ∧ positions v ≠ [].
Proof.
  revert s. induction r as [|[icao v] r IH]; intros s.
  - split; [by left|]. intros [?|(v & Hv & _)]; [done|by apply not_elem_of_nil in Hv].
  - change (steps ((icao, v) :: r) s) with (steps r (step (icao, v) s)).
    rewrite IH, markers_step. cbn [fst snd]. split.
    + intros [[?|[-> ?]]|(w & ? & ?)]; [by left|right..].
      * exists v. split; [by left|done].
      * exists w. split; [by right|done].
    + intros [?|(w & [[= -> ->]|?]%elem_of_cons & ?)]; [by do 2 left|left; by right|].
      right. by exists w.
Qed.

Lemma markers_removes r keys s k :
  aircraft_markers (removes r keys s) !! k =
  if bool_decide (k ∈ keys) && negb (in_register k r) then None else aircraft_markers s !! k.
Proof.
  revert s. induction keys as [|k' keys IH]; intros s; [done|].
  simpl. fold (removes r keys (remove r k' s)). rewrite IH, markers_remove.
  destruct (decide (k = k')) as [->|Hne].
  - rewrite (bool_decide_true (k' ∈ k' :: keys)) by (by left).
    destruct (in_register k' r); simpl; [by rewrite andb_false_r|].
    rewrite lookup_delete_eq. by destruct (bool_decide _ && _).
  - assert (bool_decide (k ∈ k' :: keys) = bool_decide (k ∈ keys)) as ->.
    { apply bool_decide_ext. rewrite elem_of_cons. naive_solver. }
    destruct (in_register k' r); [done|]. by rewrite lookup_delete_ne by done.
Qed.

(** The state [update_aircrafts] leaves. *)
Definition cleaned r s : app :=
  let s1 := steps r s in removes r (map_to_list (aircraft_markers s1)).*1 s1.

Definition updated r s : app :=
  let s2 := cleaned r s in
  if negb (bool_decide (length (bounds r) = 0%nat)) && autozoom s2
  then set_in_progress false (set_calls (calls s2 ++ [FlyToBounds (bounds r)]) s2)
  else s2.

Lemma fire_zoomstart_run n s :
  autozoom_in_progress s = true → fire_zoomstart n s = Some (Ok (), s).
Proof.
  intros Hp. induction n as [|n IH]; [done|]. cbn [fire_zoomstart].
  unfold on_zoomstart, get, mbind, M_bind. by rewrite Hp.
Qed.

Lemma wf_steps r s : plain_keys r → wf s → wf (steps r s).
Proof.
  intros Hp Hw. apply (steps_ind wf); [|done]. intros [k v] s' He. apply wf_step, (Hp k v He).
Qed.

Lemma wf_cleaned r s : plain_keys r → wf s → wf (cleaned r s).
Proof. intros Hp Hw. apply (removes_ind wf); [intros; by apply wf_remove|by apply wf_steps]. Qed.

Lemma update_aircrafts_run zooms r s :
  plain_keys r → wf s →
  update_aircrafts ToString local_time zooms r s = Some (Ok (), updated r s).
Proof.
  intros Hp Hw. unfold update_aircrafts.
  rewrite (M_bind_ok _ _ _ _ _ (update_loop_run r s Hp)). erewrite M_bind_ok by done.
  rewrite (M_bind_ok _ _ _ _ _ (remove_loop_run _ _ _ (wf_steps r s Hp Hw))).
  erewrite M_bind_ok by done. unfold updated. fold (cleaned r s).
  destruct (negb _ && _); [|done]. do 2 (erewrite M_bind_ok by done).
  by erewrite M_bind_ok by by apply fire_zoomstart_run.
Qed.

Lemma updated_markers r s : aircraft_markers (updated r s) = aircraft_markers (cleaned r s).
Proof. unfold updated. by destruct (_ && _). Qed.

Lemma updated_on_map r s l :
  on_map (calls (updated r s)) l = on_map (calls (cleaned r s)) l.
Proof. unfold updated. destruct (_ && _); [|done]. simpl. by rewrite on_map_app. Qed.

Lemma in_register_own k r :
  inherited k = false → in_register k r = true ↔ ∃ v, (k, v) ∈ r.
Proof.
  intros Hk. unfold in_register. rewrite Hk. cbn [orb]. rewrite existsb_exists. split.
  - intros ([k' v] & Hin & He%String.eqb_eq). simpl in He. subst k'.
    exists v. by apply list_elem_of_In.
  - intros [v Hv]. exists (k, v). split; [by apply list_elem_of_In|apply String.eqb_refl].
Qed.

Lemma lookup_updated r s k :
  aircraft_markers (updated r s) !! k =
  if in_register k r then aircraft_markers (steps r s) !! k else None.
Proof.
  rewrite updated_markers. unfold cleaned; cbv zeta. rewrite markers_removes.
  destruct (in_register k r); [by rewrite andb_false_r|]. rewrite andb_true_r.
  case_bool_decide as Hk; [done|].
  destruct (aircraft_markers (steps r s) !! k) as [e|] eqn:E; [|done].
  destruct Hk. apply list_elem_of_fmap. exists (k, e). split; [done|].
  by apply elem_of_map_to_list.
Qed.

Lemma wf_updated r s : plain_keys r → wf s → wf (updated r s).
Proof.
  intros Hp Hw. pose proof (wf_cleaned r s Hp Hw) as [[Hl Hpo] Hg].
  unfold updated. destruct (_ && _); [|done].
  apply (wf_frame (set_calls (calls (cleaned r s) ++ [FlyToBounds (bounds r)]) (cleaned r s)));
    [done|]. split; [split; [by apply layers_calls|by apply popups_quiet]|].
  intros l. simpl. rewrite on_map_app. apply Hg.
Qed.

Lemma synced_updated r s : plain_keys r → wf s → synced s → synced (updated r s).
Proof.
  intros Hp Hw Hs.
  assert (Hboth : wf (cleaned r s) ∧ synced (cleaned r s)).
  { apply (removes_ind (λ s, wf s ∧ synced s)).
    - intros k s' [? ?]. split; [by apply wf_remove|by apply synced_remove].
    - apply (steps_ind (λ s, wf s ∧ synced s)); [|done]. intros [k v] s' He [? ?].
      split; [by apply wf_step; [eapply Hp|]|by apply synced_step]. }
  intros k e l. rewrite updated_markers, updated_on_map. apply Hboth.
Qed.

(** *** What is shown of one aircraft *)

Lemma last_set_app {A} (f : call → nat → option A → option A) cs1 cs2 l :
  last_set f (cs1 ++ cs2) l = foldl (λ p c, f c l p) (last_set f cs1 l) cs2.
Proof. unfold last_set. by rewrite foldl_app. Qed.

(** *** Layers that were cleared *)

(** The aircraft [k] is tracked with the layers [e], and they are not on the map. *)
Definition hidden (k : string) (e : entry) s : Prop :=
  aircraft_markers s !! k = Some e ∧ ∀ l, owns e l → on_map (calls s) l = false.

Lemma hidden_step k e x s : wf s → hidden k e s → hidden k e (step x s).
Proof.
  intros Hw [He Hh]. destruct x as [k' v]. unfold hidden. simpl.
  destruct (list.last (pos_arr v)) as [cur|]; [|done].
  destruct (aircraft_markers s !! k') as [e'|] eqn:E; simpl.
  - split; [done|]. intros l Hl. rewrite on_map_update. auto.
  - split; [by rewrite lookup_insert_ne by congruence|]. intros l Hl.
    pose proof (wf_fresh _ Hw k e l He Hl) as Hlt. rewrite on_map_app. simpl.
    destruct (Nat.eqb_spec (next_layer s) l); [lia|].
    destruct (Nat.eqb_spec (S (next_layer s)) l); [lia|]. cbn [orb]. auto.
Qed.

Lemma hidden_updated k e v r s :
  plain_keys r → (k, v) ∈ r → wf s → hidden k e s → hidden k e (updated r s).
Proof.
  intros Hp Hin Hw Hh.
  assert (Hs : wf (steps r s) ∧ hidden k e (steps r s)).
  { apply (steps_ind (λ s, wf s ∧ hidden k e s)); [|done]. intros [k2 v2] s2 He [? ?].
    split; [apply wf_step; [by eapply Hp|done]|by apply hidden_step]. }
  assert (Hr : in_register k r = true) by (apply in_register_own; [by eapply Hp|eauto]).
  split; [rewrite lookup_updated, Hr; apply Hs|].
  intros l Hl. rewrite updated_on_map.
  apply (removes_ind (λ s', on_map (calls s') l = false)); [|by apply Hs].
  intros k2 s2 Hl2. rewrite on_map_remove.
  destruct (in_register k2 r); [done|]. destruct (aircraft_markers s2 !! k2); [|done].
  by rewrite Hl2, andb_false_r.
Qed.

(** Removals, closing popups and the flight to the bounds set no position. *)
Lemma last_set_updated {A} (f : call → nat → option A → option A) r s l :
  (∀ c p, match c with RemoveLayer _ | SetStyle _ _ | FlyToBounds _ => f c l p = p | _ => True end) →
  last_set f (calls (updated r s)) l = last_set f (calls (steps r s)) l.
Proof.
  intros Hf.
  assert (Hre : ∀ n e b p, foldl (λ p c, f c l p) p (restyle n e b) = p).
  { intros n e b p. induction n as [|n IH]; [done|]. simpl. by rewrite (Hf (SetStyle _ _)). }
  assert (Hc : last_set f (calls (cleaned r s)) l = last_set f (calls (steps r s)) l).
  { apply (removes_ind (λ s', last_set f (calls s') l = last_set f (calls (steps r s)) l)); [|done].
    intros k s' <-. unfold remove. destruct (in_register k r); [done|].
    destruct (aircraft_markers s' !! k) as [e|]; [|done]. simpl. rewrite last_set_app. simpl.
    rewrite (Hf (RemoveLayer _)), foldl_app. simpl. rewrite (Hf (RemoveLayer _)).
    case_bool_decide; [apply Hre|done]. }
  unfold updated. destruct (_ && _); [|done]. simpl. rewrite last_set_app. simpl.
  rewrite Hc. apply (Hf (FlyToBounds _)).
Qed.

(** The marker of [k] stands at [pos], turned by [a], and its line runs along [path]. *)
Definition shown s (k : string) (pos : latlng) (a : number) (path : list latlng) : Prop :=
  ∃ e, aircraft_markers s !! k = Some e ∧ shown_pos (calls s) (marker e) = Some pos ∧
    shown_rotation (calls s) (marker e) = Some a ∧ shown_path (calls s) (pathline e) = Some path.

Lemma shown_step_same k v pos s :
  list.last (pos_arr v) = Some pos → wf s → shown (step (k, v) s) k pos (angle v) (pos_arr v).
Proof.
  intros El Hw. unfold shown. simpl. rewrite El.
  destruct (aircraft_markers s !! k) as [e|] eqn:E; simpl.
  - exists e. split; [done|]. unfold shown_pos, shown_rotation, shown_path. rewrite !last_set_app. simpl.
    by rewrite !Nat.eqb_refl.
  - eexists. rewrite lookup_insert_eq. split; [done|].
    unfold shown_pos, shown_rotation, shown_path. rewrite !last_set_app. simpl. rewrite !Nat.eqb_refl.
    destruct (Nat.eqb_spec (next_layer s) (S (next_layer s))); [lia|done].
Qed.

Lemma shown_step_other k pos a path e s :
  e.1 ≠ k ∨ list.last (pos_arr e.2) = None → wf s → shown s k pos a path →
  shown (step e s) k pos a path.
Proof.
  destruct e as [k' v']. simpl. intros Hne Hw (e & He & Hpos & Hrot & Hpath). unfold shown. simpl.
  destruct (list.last (pos_arr v')) as [cur|]; [|by exists e]. destruct Hne as [Hne|]; [|done].
  destruct (aircraft_markers s !! k') as [e'|] eqn:E; simpl.
  - exists e. split; [done|].
    assert (Hx : ∀ x y, owns e' x → owns e y → (x =? y)%nat = false).
    { intros x y Hx Hy. destruct (Nat.eqb_spec x y) as [<-|]; [|done].
      destruct Hne. by eapply (wf_distinct _ Hw). }
    unfold shown_pos, shown_rotation, shown_path in *. rewrite !last_set_app. simpl.
    by rewrite (Hx (marker e') (marker e)), (Hx (pathline e') (pathline e)) by (unfold owns; auto).
  - exists e. rewrite lookup_insert_ne by done. split; [done|].
    pose proof (wf_fresh _ Hw k e (marker e) He ltac:(by left)).
    pose proof (wf_fresh _ Hw k e (pathline e) He ltac:(by right)).
    unfold shown_pos, shown_rotation, shown_path in *. rewrite !last_set_app. simpl.
    destruct (Nat.eqb_spec (next_layer s) (marker e)); [lia|].
    destruct (Nat.eqb_spec (S (next_layer s)) (pathline e)); [lia|]. done.
Qed.

Lemma shown_updated r s k pos a path :
  in_register k r = true → shown (steps r s) k pos a path → shown (updated r s) k pos a path.
Proof.
  intros Hk (e & He & Hpos & Hrot & Hpath). exists e. rewrite lookup_updated, Hk. split; [done|].
  unfold shown_pos, shown_rotation, shown_path in *. by rewrite !last_set_updated by (by intros []).
Qed.

Lemma shown_steps k v pos r s :
  plain_keys r → NoDup r.*1 → (k, v) ∈ r → list.last (pos_arr v) = Some pos → wf s →
  shown (steps r s) k pos (angle v) (pos_arr v).
Proof.
  revert s. induction r as [|[k' v'] r IH]; intros s Hp Hnd Hin Hv Hw;
    [by apply not_elem_of_nil in Hin|].
  assert (Hp' : plain_keys r) by (intros ? ? ?; eapply Hp; by right).
  inv Hnd as [|? ? Hnot Hnd']. change (steps ((k', v') :: r) s) with (steps r (step (k', v') s)).
  assert (Hw1 : wf (step (k', v') s)) by (apply wf_step; [eapply Hp; by left|done]).
  apply elem_of_cons in Hin as [[= -> ->]|Hin]; [|by apply IH].
  pose proof (shown_step_same k' v' pos s Hv Hw) as H0.
  assert (Hboth : wf (steps r (step (k', v') s)) ∧
                  shown (steps r (step (k', v') s)) k' pos (angle v') (pos_arr v')); [|apply Hboth].
  apply (steps_ind (λ s, wf s ∧ shown s k' pos (angle v') (pos_arr v'))); [|done].
  intros [k2 v2] s2 He [Hw2 Hs2]. split; [apply wf_step; [by eapply Hp'|done]|].
  apply shown_step_other; [|done..]. left. simpl. intros ->. apply Hnot.
  apply list_elem_of_fmap. by exists (k', v2).
Qed.

(** *** The specification of the map: what it shows, by aircraft *)

Abbreviation display := (gmap string (latlng * number * list latlng)).

(** An aircraft with positions is shown at the last one, turned to its heading (or north if
    there is none), with all positions as its path; one
    without keeps what was shown of it; one that left the register is not shown. *)
Definition display_one (e : string * aircraft) (d : display) : display :=
  match list.last (pos_arr e.2) with
  | Some pos => <[e.1 := (pos, angle e.2, pos_arr e.2)]> d
  | None => d
  end.
Definition display_update r (d : display) : display :=
  filter (λ e, in_register e.1 r = true) (foldl (λ d e, display_one e d) d r).

(** The page shows [d]: one marker and one line per aircraft, on the map, where [d] says. *)
Record displays s (d : display) : Prop := Displays {
  displays_wf : wf s;
  displays_synced : synced s;
  displays_none k : d !! k = None → aircraft_markers s !! k = None;
  displays_some k pos a path : d !! k = Some (pos, a, path) → shown s k pos a path
}.

Lemma displays_step e s d :
  inherited e.1 = false → displays s d → displays (step e s) (display_one e d).
Proof.
  intros Hi [Hw Hs Hn Hd]. destruct e as [k v]. unfold display_one. cbn [fst snd] in Hi |- *.
  pose proof (wf_step (k, v) s Hi Hw) as Hw'.
  pose proof (synced_step (k, v) s Hs) as Hs'.
  destruct (list.last (pos_arr v)) as [pos|] eqn:El.
  2:{ assert (step (k, v) s = s) as -> by (simpl; by rewrite El). by split. }
  split; [done|done| |].
  - intros k' [Hk' Hne]%lookup_insert_None. simpl. rewrite El.
    destruct (aircraft_markers s !! k); simpl; [auto|].
    rewrite lookup_insert_ne by done. auto.
  - intros k' pos' a' path' [[<- [= <- <- <-]]|[Hne Hk']]%lookup_insert_Some.
    + by apply shown_step_same.
    + apply shown_step_other; [by left|done|auto].
Qed.

Lemma displays_steps r s d :
  plain_keys r → displays s d → displays (steps r s) (foldl (λ d e, display_one e d) d r).
Proof.
  revert s d. induction r as [|[k v] r IH]; intros s d Hp Hd; [done|]. simpl.
  apply (IH (step (k, v) s)); [intros ? ? ?; eapply Hp; by right|].
  apply displays_step; [eapply Hp; by left|done].
Qed.

Lemma displays_updated r s d :
  plain_keys r → displays s d → displays (updated r s) (display_update r d).
Proof.
  intros Hp Hd. destruct (displays_steps r s d Hp Hd) as [_ _ Hn Hsh]. destruct Hd as [Hw Hs _ _].
  split; [by apply wf_updated|by apply synced_updated| |].
  - intros k Hk. rewrite lookup_updated. destruct (in_register k r) eqn:Er; [|done].
    apply Hn. apply map_lookup_filter_None in Hk as [?|Hk]; [done|].
    destruct (foldl _ _ _ !! k) as [x|] eqn:E; [|done]. by destruct (Hk x eq_refl).
  - intros k pos a path [Hk Hr]%map_lookup_filter_Some. apply shown_updated; [done|by apply Hsh].
Qed.
End spec.

(** ** Events and the invariant *)
Section events.
Context `{HPC : PopupCloses} `{HPL : !PopupLaws}.
Context (ToString : number → jsstring) (local_time : Z → Z → jsstring).
Context (on_map : list call → nat → bool) `{!LayerGroup on_map}.
Implicit Types s : app.

(** Registers whose keys are no property names of [Object.prototype]. *)
Definition plain_action (x : action) : Prop :=
  match x with AircraftsThen _ r _ => plain_keys r | _ => True end.

(** Calls that put no layer on the map, take none off and have nothing to do with popups. *)
Lemma wf_idle s c :
  quiet c → (∀ l b, group_effect c l b = b) → wf on_map s →
  wf on_map (set_calls (calls s ++ [c]) s).
Proof.
  intros Hq Hc [[Hl Hp] Hg]. split; [split; [by apply layers_calls|by apply popups_quiet]|].
  intros l. simpl. rewrite group_call, Hc. apply Hg.
Qed.

Lemma wf_idles s cs :
  Forall (λ c, quiet c ∧ ∀ l b, group_effect c l b = b) cs → wf on_map s →
  wf on_map (set_calls (calls s ++ cs) s).
Proof.
  intros Hcs. revert s. induction Hcs as [|c cs [Hq Hc] _ IH]; intros s Hw.
  - rewrite app_nil_r. by apply (wf_frame on_map s).
  - specialize (IH _ (wf_idle s c Hq Hc Hw)). simpl in IH. by rewrite <- (assoc_L (++)) in IH.
Qed.

Lemma layers_popup s p : layers_ok s → layers_ok (set_popup p s).
Proof. intros [? ? ? ?]. split; simpl; eauto. Qed.

(** Showing or hiding the popup of an aircraft. *)
Lemma wf_restyle k e s (b : bool) :
  wf on_map s → aircraft_markers s !! k = Some e →
  (if b then popup s = None else popup s = Some (marker e)) →
  wf on_map (set_popup (if b then Some (marker e) else None)
    (set_calls (calls s ++ restyle (length (popup_handlers (calls s) (marker e))) e b) s)).
Proof.
  intros [[Hw Hp] Hg] He Hb. split.
  - split; [by apply layers_popup, layers_calls|by apply (popups_restyle k)].
  - intros l. simpl. rewrite (on_map_restyle on_map). apply Hg.
Qed.

(** A popup of the map is an aircraft's, and so its handlers find their line. *)
Lemma open_popup_wf l s :
  wf on_map s → popup s = None → in_group (calls s) l = true → has_popup (calls s) l = true →
  ∃ s', open_popup l s = Some (Ok (), s') ∧ wf on_map s' ∧ popup s' = Some l.
Proof.
  intros Hw Hn Hg Hh. rewrite <- (on_map_in_group on_map) in Hg.
  destruct (wf_ghost _ _ Hw l Hg) as (k & e & He & [-> | ->]).
  - rewrite (open_popup_run k e s Hw He). eexists. split; [done|]. split; [|done].
    by apply (wf_restyle k e s true).
  - by rewrite (po_line _ Hw k e He) in Hh.
Qed.

Lemma close_popup_wf l s :
  wf on_map s → popup s = Some l →
  ∃ s', close_popup l s = Some (Ok (), s') ∧ wf on_map s' ∧ popup s' = None.
Proof.
  intros Hw Hl. destruct (po_popup _ Hw l Hl) as (k & e & He & <-).
  rewrite (close_popup_run k e s Hw He). eexists. split; [done|]. split; [|done].
  by apply (wf_restyle k e s false).
Qed.

(** Clearing the group: nothing is on the map, no popup is open, the aircraft are kept.  It
    does not matter which layers were on the map. *)
Lemma clear_layers_wf s :
  tracked s →
  ∃ s', clear_layers s = Some (Ok (), s') ∧ wf on_map s' ∧ popup s' = None ∧
    (∀ l, on_map (calls s') l = false) ∧ aircraft_markers s' = aircraft_markers s ∧
    aircraft_poll_state s' = aircraft_poll_state s ∧ tracker_block s' = tracker_block s ∧
    pending s' = pending s ∧ map_and_group s' = map_and_group s.
Proof.
  intros [Hl Hp]. unfold clear_layers, take_off. do 2 (erewrite M_bind_ok by done).
  set (s1 := set_calls (calls s ++ [ClearLayers]) s).
  assert (Hn : ∀ l, on_map (calls s1) l = false) by (intros l; simpl; by rewrite group_call).
  assert (Hw1 : wf on_map s1).
  { split; [split; [by apply layers_calls|by apply popups_quiet]|]. intros l. by rewrite Hn. }
  change (popup s) with (popup s1). destruct (popup s1) as [l|] eqn:El; [|by exists s1].
  rewrite closes_cleared. destruct (po_popup _ Hw1 l El) as (k & e & He & <-).
  rewrite (close_popup_run k e s1 Hw1 He). eexists. split; [done|].
  split; [by apply (wf_restyle k e s1 false)|].
  split_and!; try done. intros l. simpl. rewrite (on_map_restyle on_map). apply Hn.
Qed.

(** The flowgraph arrives: where the map is there, it is cleared. *)
Lemma fg_then_clears f s :
  map_and_group s = true → tracked s →
  ∃ s', fg_then f s = Some (Ok (), s') ∧ wf on_map s' ∧ aircraft_poll_state s' = 2 ∧
    aircraft_markers s' = aircraft_markers s ∧
    tracker_block s' = find_tracker (blocks f) (tracker_block s) ∧ pending s' = pending s ∧
    map_and_group s' = true ∧ popup s' = None ∧ ∀ l, on_map (calls s') l = false.
Proof.
  intros Hm Hw. unfold fg_then. do 2 (erewrite M_bind_ok by done).
  set (s1 := set_fg _ _ s). change (map_and_group s1) with (map_and_group s). rewrite Hm.
  destruct (clear_layers_wf s1) as (s2 & Hc & Hw2 & ? & ? & ? & ? & ? & ? & Hm2);
    [by apply (tracked_frame s)|].
  rewrite (M_bind_ok _ _ _ _ _ Hc). eexists. split; [done|].
  split_and!; try done; [by apply (wf_frame on_map s2)|]. etrans; [exact Hm2|done].
Qed.

Lemma fg_then_run f s :
  wf on_map s →
  ∃ s', fg_then f s = Some (Ok (), s') ∧ wf on_map s' ∧ aircraft_poll_state s' = 2 ∧
    aircraft_markers s' = aircraft_markers s ∧
    tracker_block s' = find_tracker (blocks f) (tracker_block s) ∧ pending s' = pending s ∧
    map_and_group s' = map_and_group s ∧
    (if map_and_group s then popup s' = None ∧ ∀ l, on_map (calls s') l = false
     else calls s' = calls s ∧ popup s' = popup s).
Proof.
  intros Hw. destruct (map_and_group s) eqn:Hm.
  - destruct (fg_then_clears f s Hm Hw) as (s' & Hf & ? & ? & ? & ? & ? & ? & ? & ?).
    exists s'. by split_and!.
  - unfold fg_then. do 2 (erewrite M_bind_ok by done). cbn [map_and_group set_fg]. rewrite Hm.
    eexists. split; [done|]. split_and!; try done. by apply (wf_frame on_map s).
Qed.

Lemma act_wf x s s' :
  plain_action x → wf on_map s → act ToString local_time x s = Some s' → wf on_map s'.
Proof.
  intros Hx Hw Ha. destruct x as [| | |i f|i|i r zooms|i| | |l|l]; simpl in Ha.
  - destruct (map_and_group s); [done|]. injection Ha as <-.
    apply (wf_frame on_map
      (set_calls (calls s ++ [NewMap; Locate 10; OnLocation; TileLayer 19; NewLayerGroup]) s));
      [done|]. by apply wf_idles; [repeat constructor|].
  - destruct (map_and_group s); [|done]. injection Ha as <-. by apply (wf_frame on_map s).
  - destruct (aircraft_poll_state s =? 0); [done|].
    unfold handle, aircraft_poll, get, mbind, M_bind in Ha.
    destruct (_ =? 1); [injection Ha as <-; by apply (wf_frame on_map s)|].
    destruct (_ =? 2); [|by injection Ha as <-].
    destruct (tracker_block s); injection Ha as <-; by apply (wf_frame on_map s).
  - destruct (pending s !! i) as [[|]|]; try done.
    destruct (fg_then_run f (settle i s)) as (s2 & Hf & Hw2 & _); [by apply (wf_frame on_map s)|].
    unfold handle in Ha. rewrite Hf in Ha. by injection Ha as <-.
  - destruct (pending s !! i) as [[|]|]; try done. injection Ha as <-. by apply (wf_frame on_map s).
  - destruct (pending s !! i) as [[|q]|]; try done.
    assert (Hw1 : wf on_map (settle i s)) by by apply (wf_frame on_map s).
    unfold handle, aircrafts_then, try_catch in Ha.
    rewrite (update_aircrafts_run _ _ on_map) in Ha by done. injection Ha as <-.
    by apply wf_updated.
  - destruct (pending s !! i) as [[|q]|]; try done. injection Ha as <-. by apply (wf_frame on_map s).
  - destruct (aircraft_poll_state s =? 0); [done|].
    unfold handle, on_zoomstart, get, mbind, M_bind in Ha.
    destruct (negb _); injection Ha as <-; [by apply (wf_frame on_map s)|done].
  - destruct (aircraft_poll_state s =? 0); [done|]. injection Ha as <-. by apply (wf_frame on_map s).
  - destruct (bool_decide _ && _ && _) eqn:E; [|done].
    apply andb_prop in E as [[Hn%bool_decide_eq_true_1 Hg]%andb_prop Hh].
    destruct (open_popup_wf l s Hw Hn Hg Hh) as (s2 & Hs2 & ? & _).
    unfold handle in Ha. rewrite Hs2 in Ha. by injection Ha as <-.
  - case_bool_decide as Hl; [|done]. destruct (close_popup_wf l s Hw Hl) as (s2 & Hs2 & ? & _).
    unfold handle in Ha. rewrite Hs2 in Ha. by injection Ha as <-.
Qed.

Lemma app0_wf : wf on_map app0.
Proof.
  split; [split; split; simpl; try (intros *; by rewrite lookup_empty); done|].
  intros l. simpl. by rewrite group_empty.
Qed.

Lemma execute_wf xs s s' :
  Forall plain_action xs → wf on_map s → execute ToString local_time xs s = Some s' →
  wf on_map s'.
Proof.
  intros Hx. revert s. induction Hx as [|x xs Hx _ IH]; intros s Hs He; simpl in He;
    [by simplify_eq|].
  destruct (act ToString local_time x s) as [s1|] eqn:E; [|done].
  eapply IH; [by eapply act_wf|done].
Qed.
End events.

(** ** The state machine of the poll *)
Section machine.
Context `{HPC : PopupCloses} `{HPL : !PopupLaws}.
Context (ToString : number → jsstring) (local_time : Z → Z → jsstring).
Implicit Types s : app.

(** Everything but the aircraft and the layers is as in [s0]. *)
Definition frame s0 s : Prop :=
  autozoom_in_progress s = autozoom_in_progress s0 ∧ autozoom s = autozoom s0 ∧
  aircraft_poll_state s = aircraft_poll_state s0 ∧ tracker_block s = tracker_block s0 ∧
  pending s = pending s0 ∧ map_and_group s = map_and_group s0.

Section frames.
Context (s0 : app).

Lemma frame_modify f : (∀ s, frame s (f s)) → preserves (frame s0) (modify f : P unit).
Proof.
  intros Hf. apply preserves_modify. intros s Hs. specialize (Hf s).
  unfold frame in *. intuition congruence.
Qed.

Lemma frame_emit l : preserves (frame s0) (emit l).
Proof. by apply frame_modify. Qed.
Lemma frame_markers m : preserves (frame s0) (modify (λ s, set_markers (m s) s) : P unit).
Proof. by apply frame_modify. Qed.
Lemma frame_popup p : preserves (frame s0) (modify (set_popup p) : P unit).
Proof. by apply frame_modify. Qed.
Lemma frame_next n : preserves (frame s0) (modify (set_next n) : P unit).
Proof. by apply frame_modify. Qed.
Hint Resolve frame_emit frame_markers frame_popup frame_next : preserves.

Lemma frame_handlers b icaos : preserves (frame s0) (run_handlers b icaos).
Proof. induction icaos as [|k ks IH]; simpl; unfold popup_handler; preserves. Qed.
Hint Resolve frame_handlers : preserves.

Lemma frame_open l : preserves (frame s0) (open_popup l).
Proof. unfold open_popup, fire_popup. preserves. Qed.
Lemma frame_close l : preserves (frame s0) (close_popup l).
Proof. unfold close_popup, fire_popup. preserves. Qed.
Hint Resolve frame_open frame_close : preserves.

Lemma frame_remove_layer l : preserves (frame s0) (remove_layer l).
Proof. unfold remove_layer, take_off. preserves. Qed.
Lemma frame_clear : preserves (frame s0) clear_layers.
Proof. unfold clear_layers, take_off. preserves. Qed.
Hint Resolve frame_remove_layer frame_clear : preserves.

Lemma frame_update_loop r : preserves (frame s0) (update_loop ToString local_time r).
Proof.
  induction r as [|[k v] r IH]; simpl; [apply preserves_ret|].
  unfold update_aircraft, create_marker, fresh. preserves.
Qed.

Lemma frame_remove_loop r keys : preserves (frame s0) (remove_loop r keys).
Proof. induction keys as [|k keys IH]; simpl; preserves. Qed.
End frames.

Lemma update_aircrafts_frame zooms r s o s' :
  autozoom_in_progress s = false →
  update_aircrafts ToString local_time zooms r s = Some (o, s') → frame s s'.
Proof.
  intros Hz. assert (Hp : preserves (frame s) (update_aircrafts ToString local_time zooms r)).
  { unfold update_aircrafts.
    apply preserves_bind; [apply frame_update_loop|intros c].
    apply preserves_bind; [apply preserves_gets|intros keys].
    apply preserves_bind; [apply frame_remove_loop|intros _].
    intros s1 o1 s2 Hs1. unfold get, mbind at 1, M_bind at 1.
    destruct (negb _ && _); [|by intros [= <- <-]].
    do 2 (erewrite M_bind_ok by done). erewrite M_bind_ok by by apply fire_zoomstart_run.
    intros [= <- <-]. unfold frame in *. simpl. intuition congruence. }
  by apply Hp.
Qed.

Lemma aircrafts_then_frame zooms r s o s' :
  autozoom_in_progress s = false →
  aircrafts_then ToString local_time zooms r s = Some (o, s') →
  frame s s' ∨ frame (set_state 1 s) s'.
Proof.
  intros Hz. unfold aircrafts_then, try_catch.
  destruct (update_aircrafts _ _ _ _ _) as [[[[]|e] s1]|] eqn:E; [| |done];
    pose proof (update_aircrafts_frame _ _ _ _ _ Hz E) as Hf; intros [= <- <-].
  - by left.
  - right. unfold frame in *. simpl. intuition congruence.
Qed.

(** Answering a request for the flowgraph: it is connected, unless a handler throws. *)
Lemma fg_then_frame f s o s' :
  fg_then f s = Some (o, s') →
  let t := find_tracker (blocks f) (tracker_block s) in
  frame (set_state 2 (set_fg (Some f) t s)) s' ∨ frame (set_fg (Some f) t s) s'.
Proof.
  intros Hr t. unfold fg_then in Hr. do 2 (erewrite M_bind_ok in Hr by done).
  set (s1 := set_fg _ _ s) in *.
  assert (Hp : preserves (frame s1) (if map_and_group s1 then clear_layers else mret () : P unit))
    by (destruct (map_and_group s1); [apply frame_clear|apply preserves_ret]).
  destruct ((if map_and_group s1 then clear_layers else mret ()) s1) as [[[[]|e] s2]|] eqn:E.
  - rewrite (M_bind_ok _ _ _ _ _ E) in Hr. injection Hr as <- <-. left.
    assert (Hf : frame s1 s2) by by eapply Hp.
    unfold frame in *. simpl in *. intuition congruence.
  - rewrite (M_bind_throw _ _ _ _ _ E) in Hr. injection Hr as <- <-. right. by eapply Hp.
  - unfold mbind, M_bind in Hr. by rewrite E in Hr.
Qed.

(** Between events: the state is one of the three, nothing is in flight before the page
    is located, and the auto-zoom flag is down. *)
Definition settled s : Prop :=
  (aircraft_poll_state s = 0 ∨ aircraft_poll_state s = 1 ∨ aircraft_poll_state s = 2) ∧
  autozoom_in_progress s = false ∧
  (aircraft_poll_state s = 0 → pending s = []).

Lemma settled_frame s s' : frame s s' → settled s → settled s'.
Proof. unfold frame, settled. intros (-> & _ & -> & _ & -> & _). done. Qed.

Lemma handle_inv (m : P unit) s s' : handle m s = Some s' → ∃ o, m s = Some (o, s').
Proof. unfold handle. destruct (m s) as [[o s1]|]; [|done]. intros [= <-]. by exists o. Qed.

Lemma act_settled x s s' :
  settled s → act ToString local_time x s = Some s' → settled s'.
Proof.
  intros (Hst & Hz & Hp) Ha.
  assert (Hnz : ∀ i q, pending s !! i = Some q → aircraft_poll_state s ≠ 0).
  { intros i q Hq H0. rewrite (Hp H0) in Hq. by destruct i. }
  destruct x as [| | |i f|i|i r zooms|i| | |l|l]; simpl in Ha.
  - destruct (map_and_group s); [done|]. injection Ha as <-. by split_and!.
  - destruct (map_and_group s); [|done]. injection Ha as <-. split_and!; simpl; [auto|done|lia].
  - destruct (Z.eqb_spec (aircraft_poll_state s) 0); [done|].
    unfold handle, aircraft_poll, get, mbind, M_bind in Ha.
    destruct (Z.eqb_spec (aircraft_poll_state s) 1); [injection Ha as <-; by split_and!|].
    destruct (Z.eqb_spec (aircraft_poll_state s) 2); [|by injection Ha as <-].
    destruct (tracker_block s); injection Ha as <-; by split_and!.
  - destruct (pending s !! i) as [[|]|] eqn:Eq; try done.
    apply handle_inv in Ha as [o Ha].
    destruct (fg_then_frame _ _ _ _ Ha) as [Hf|Hf]; eapply settled_frame; try exact Hf;
      split_and!; simpl; auto; [lia|]. intros H0. by destruct (Hnz _ _ Eq).
  - destruct (pending s !! i) as [[|]|] eqn:Eq; try done. injection Ha as <-.
    split_and!; simpl; [auto|done|]. intros H0. by destruct (Hnz _ _ Eq).
  - destruct (pending s !! i) as [[|q]|] eqn:Eq; try done.
    apply handle_inv in Ha as [o Ha].
    destruct (aircrafts_then_frame zooms r (settle i s) o s' Hz Ha) as [Hf|Hf];
      eapply settled_frame; try exact Hf; split_and!; simpl; auto; [|lia].
    intros H0. by destruct (Hnz _ _ Eq).
  - destruct (pending s !! i) as [[|q]|] eqn:Eq; try done. injection Ha as <-.
    split_and!; simpl; [auto|done|lia].
  - destruct (Z.eqb_spec (aircraft_poll_state s) 0); [done|].
    unfold handle, on_zoomstart, get, mbind, M_bind in Ha.
    destruct (negb _); injection Ha as <-; by split_and!.
  - destruct (Z.eqb_spec (aircraft_poll_state s) 0); [done|]. injection Ha as <-. by split_and!.
  - destruct (_ && _ && _); [|done]. apply handle_inv in Ha as [o Ha].
    eapply settled_frame; [by eapply (frame_open s); [|exact Ha]|by split_and!].
  - destruct (bool_decide _); [|done]. apply handle_inv in Ha as [o Ha].
    eapply settled_frame; [by eapply (frame_close s); [|exact Ha]|by split_and!].
Qed.

Lemma execute_settled xs s s' :
  settled s → execute ToString local_time xs s = Some s' → settled s'.
Proof.
  revert s. induction xs as [|x xs IH]; intros s Hs He; simpl in He; [by simplify_eq|].
  destruct (act ToString local_time x s) as [s1|] eqn:E; [|done].
  eapply IH; [by eapply act_settled|done].
Qed.

(** Connected without a tracker block, with nothing on the map: the page is stuck. *)
Definition stuck s : Prop :=
  aircraft_poll_state s = 2 ∧ tracker_block s = None ∧ pending s = [] ∧
  map_and_group s = true ∧ popup s = None ∧ ∀ l, in_group (calls s) l = false.

Lemma act_stuck x s s' :
  x ≠ Located → stuck s → act ToString local_time x s = Some s' →
  stuck s' ∧ calls s' = calls s ∧ aircraft_markers s' = aircraft_markers s.
Proof.
  intros Hx (Hst & Ht & Hp & Hm & Hpo & Hg) Ha. unfold stuck.
  destruct x as [| | |i f|i|i r zooms|i| | |l|l]; simpl in Ha;
    rewrite ?Hp, ?Hm, ?Hpo, ?Hg, ?andb_false_r in Ha; try done.
  - unfold handle, aircraft_poll, get, mbind, M_bind in Ha. rewrite Hst in Ha. cbn in Ha.
    rewrite Ht in Ha. by injection Ha as <-.
  - rewrite Hst in Ha. cbn in Ha. unfold handle, on_zoomstart, get, mbind, M_bind in Ha.
    destruct (negb _); by injection Ha as <-.
  - rewrite Hst in Ha. by injection Ha as <-.
Qed.
End machine.

(** ** Decimal digits *)

Definition digits_value (acc : Z) (l : jsstring) : Z := foldl (λ a c, 10 * a + (c - 48)) acc l.

Lemma lit_cons c s : lit (String c s) = Z.of_N (N_of_ascii c) :: lit s.
Proof. done. Qed.

Lemma digit_char x : (x < 10)%N → Z.of_N (N_of_ascii (pretty_N_char x)) = 48 + Z.of_N x.
Proof.
  intros Hx. assert (Hin : x ∈ [0;1;2;3;4;5;6;7;8;9]%N).
  { rewrite !elem_of_cons. lia. }
  rewrite !elem_of_cons in Hin. destruct_or! Hin; subst; try reflexivity.
  by apply not_elem_of_nil in Hin.
Qed.

Lemma digits_pretty_go x s acc :
  acc = 0 → digits_value acc (lit (pretty_N_go x s)) = digits_value (Z.of_N x) (lit s).
Proof.
  intros ->. revert s. induction (N.lt_wf_0 x) as [x _ IH]. intros s.
  destruct (decide (0 < x)%N) as [Hx|Hx].
  - rewrite pretty_N_go_step by done. rewrite IH by (apply N.div_lt; lia).
    rewrite lit_cons. unfold digits_value. simpl.
    rewrite digit_char by (apply N.mod_lt; lia). f_equal.
    pose proof (N.div_mod x 10 ltac:(lia)). lia.
  - assert (x = 0%N) as -> by lia. by rewrite pretty_N_go_0.
Qed.

Lemma digits_pretty z : 0 ≤ z → digits_value 0 (lit (pretty z)) = z.
Proof.
  intros Hz. destruct z as [|p|p]; [done| |lia].
  change (pretty (Zpos p)) with (pretty (Npos p)). unfold pretty, pretty_N. 
  destruct (decide _); [done|]. by rewrite digits_pretty_go.
Qed.

Lemma digits_zeros n l : digits_value 0 (repeat 48 n ++ l) = digits_value 0 l.
Proof. induction n as [|n IH]; [done|]. exact IH. Qed.

Lemma fraction_pos n p q : fraction n = Some (p, q) → 0 < q.
Proof.
  destruct n as [z|[s|s| |s m e]]; simpl; try (intros [= <- <-]; lia); try done.
  destruct (Z.leb_spec 0 e); intros [= <- <-]; [lia|]. apply Z.pow_pos_nonneg; lia.
Qed.

(** [t] is the decimal of [p / q] with [d] digits: a sign, at least one digit, a point and
    [d] digits, which together are the number scaled by [10^d] and rounded to the nearest
    integer, halves away from zero. *)
Definition decimal (d : nat) (p q : Z) (t : jsstring) : Prop :=
  ∃ i f, t = (if p <? 0 then lit "-" else []) ++ i ++ lit "." ++ f ∧
    i ≠ [] ∧ length f = d ∧
    let k := digits_value 0 (i ++ f) in
    2 * k * q ≤ 2 * Z.abs p * 10 ^ Z.of_nat d + q < 2 * (k + 1) * q.

Lemma toFixed_decimal (ToString : number → jsstring) (d : nat) (n : number) (p q : Z) :
  fraction n = Some (p, q) → Z.abs p < 10 ^ 21 * q → decimal d p q (toFixed ToString d n).
Proof.
  intros Hf Hp. pose proof (fraction_pos _ _ _ Hf) as Hq. unfold toFixed. rewrite Hf.
  destruct (Z.leb_spec (10 ^ 21 * q) (Z.abs p)); [lia|].
  set (k := round_to (Z.of_nat d) (Z.abs p) q).
  pose proof (Z.pow_pos_nonneg 10 (Z.of_nat d) ltac:(lia) ltac:(lia)).
  assert (Hk : 2 * k * q ≤ 2 * Z.abs p * 10 ^ Z.of_nat d + q < 2 * (k + 1) * q).
  { subst k. unfold round_to. set (a := 2 * Z.abs p * 10 ^ Z.of_nat d + q).
    pose proof (Z.mul_div_le a (2 * q) ltac:(lia)).
    pose proof (Z.mul_succ_div_gt a (2 * q) ltac:(lia)). nia. }
  assert (Hk0 : 0 ≤ k) by (subst k; unfold round_to; apply Z.div_pos; nia).
  set (m := repeat 48 (d + 1 - length (lit (pretty k))) ++ lit (pretty k)).
  assert (Hlen : (d + 1 ≤ length m)%nat) by (unfold m; rewrite length_app, repeat_length; lia).
  eexists _, _. split; [reflexivity|]. split; [|split].
  - intros Hn. apply (f_equal length) in Hn. rewrite length_take in Hn. simpl in Hn. lia.
  - rewrite length_drop. lia.
  - cbv zeta. rewrite take_drop. unfold m. by rewrite digits_zeros, digits_pretty.
Qed.

(** The double nearest to 1.005 lies below it. *)
Example toFixed_1_005 :
  toFixed (λ _, []) 2 (Float (S754_finite false 4526117625507348 (-52))) = lit "1.00".
Proof. vm_compute. reflexivity. Qed.

(** A piece of a text. *)
Definition contains (t piece : jsstring) : Prop := ∃ pre post, t = pre ++ piece ++ post.

Lemma contains_skip a t piece : contains t piece → contains (a ++ t) piece.
Proof. intros (pre & post & ->). exists (a ++ pre), post. by rewrite <- (assoc_L (++)). Qed.

(** A row of the popup's table. *)
Definition row (label : string) (content : jsstring) : jsstring :=
  lit "<tr><td>" ++ lit label ++ lit ":</td><td>" ++ content ++ lit "</td></tr>".

Lemma contains_piece a b c t piece :
  piece = a ++ b ++ c → contains (a ++ b ++ c ++ t) piece.
Proof. intros ->. exists [], t. by rewrite <- !(assoc_L (++)). Qed.

Lemma decimal_not_empty d p q t : decimal d p q t → or_na (Some t) = t.
Proof.
  intros (i & f & -> & Hi & _). destruct i as [|c i]; [done|]. by destruct (p <? 0).
Qed.

(** The updates of a connected page, one after the other. *)
Fixpoint update_all `{PopupCloses} (ToString : number → jsstring) (local_time : Z → Z → jsstring)
    (rs : list (nat * register)) : P unit :=
  match rs with
  | [] => mret ()
  | (zooms, r) :: rs =>
      _ ← update_aircrafts ToString local_time zooms r; update_all ToString local_time rs
  end.

(** ** A layer group, and sample data *)

#[export] Instance closes : PopupCloses := λ c l,
  match c with RemoveLayer l' => bool_decide (l' = l) | ClearLayers => true | _ => false end.
#[export] Instance closes_laws : PopupLaws.
Proof. by split. Qed.

#[export] Instance in_group_layer_group : LayerGroup in_group.
Proof. split; [done|]. intros cs c l. unfold in_group. by rewrite foldl_app. Qed.

Module Sample.
Definition here : position := Position (Int 48) (Int 9) (Some 32000).
Definition plane : aircraft :=
  Aircraft (Some (lit "DLH123")) None [here]
    [Velocity (Int 400) (Int 90) 0 (lit "GeometricAltitude")] 1700000000 0.
Definition register : register := [("3c6444", plane)].
Definition ToString (n : number) : jsstring := lit "1e+21".
Definition time (secs nanos : Z) : jsstring := lit "now".

Lemma plain : plain_keys register.
Proof.
  intros k v Hin. apply elem_of_cons in Hin as [[= -> ->]|Hin]; [done|].
  by apply not_elem_of_nil in Hin.
Qed.
Lemma plain_nil : plain_keys [].
Proof. intros k v Hin. by apply not_elem_of_nil in Hin. Qed.

(** Connected, with the aircraft on the map. *)
Definition connected : app :=
  updated ToString time register (set_state 2 (set_fg None (Some (Block 3 "Tracker")) app0)).

Lemma wf0 s : aircraft_markers s = ∅ → calls s = [] → popup s = None → wf in_group s.
Proof.
  intros Hm Hc Hp. apply (wf_frame in_group (set_next (next_layer s) app0)).
  - unfold view. by rewrite Hm, Hc, Hp.
  - destruct (app0_wf in_group) as [[[? ? ? ?] [[? ? ? ?] ? ?]] Hg].
    split; [split; [split|split; [split|..]]; simpl in *; try done; intros *;
            by rewrite lookup_empty|exact Hg].
Qed.
Lemma synced0 s : aircraft_markers s = ∅ → synced in_group s.
Proof. intros Hm k e l. by rewrite Hm, lookup_empty. Qed.

Lemma wf_connected : wf in_group connected.
Proof. apply wf_updated; [apply _|apply plain|by apply wf0]. Qed.
Lemma update_connected zooms r :
  plain_keys r →
  update_aircrafts ToString time zooms r connected = Some (Ok (), updated ToString time r connected).
Proof. intros Hp. apply (update_aircrafts_run _ _ in_group); [done|apply wf_connected]. Qed.
Lemma synced_connected : synced in_group connected.
Proof. apply synced_updated; [apply _|apply plain|by apply wf0|by apply synced0]. Qed.
End Sample.

