(* ===== verification/TrackerSpec.v ===== *)
(** * Properties of the map page

    What [update_aircrafts] does to the aircraft tracked and to the map, the popups, the state
    machine of the poll, and the text of a popup; the facts they rest on are in
    TrackerFacts. *)

From Stdlib Require Import SpecFloat String Ascii.
From stdpp Require Import gmap pretty.
From S2P Require Import Prelude TextCodec Memory Closure Glue Tracker TrackerFacts.

(** [update_aircrafts] never throws and tracks exactly the right aircraft: those of the
    new register that have a position or had a marker already. *)
Theorem update_tracks `{HPC : PopupCloses} `{!PopupLaws}
    (ToString : number → jsstring) (local_time : Z → Z → jsstring)
    (on_map : list call → nat → bool) `{!LayerGroup on_map} (zooms : nat) (r : register) (s : app) :
  plain_keys r → wf on_map s →
  ∃ s', update_aircrafts ToString local_time zooms r s = Some (Ok (), s') ∧
    ∀ k, is_Some (aircraft_markers s' !! k) ↔
      ∃ v, (k, v) ∈ r ∧ (positions v ≠ [] ∨ is_Some (aircraft_markers s !! k)).
Proof.
  intros Hp Hw. eexists. split; [by apply (update_aircrafts_run _ _ on_map)|]. intros k.
  rewrite lookup_updated. destruct (in_register k r) eqn:Er.
  - rewrite markers_steps. split.
    + intros [[e He]|(v & ? & ?)]; [|eauto].
      apply in_register_own in Er as [v ?]; [by eauto 6|exact (wf_key _ Hw _ _ He)].
    + intros (v & ? & [?|?]); eauto.
  - split; [by intros [? ?]|]. intros (v & Hv & _).
    assert (in_register k r = true) by (apply in_register_own; [by eapply Hp|eauto]). congruence.
Qed.

Lemma update_tracks_witness :
  ∃ s', update_aircrafts Sample.ToString Sample.time 1 Sample.register Sample.connected
        = Some (Ok (), s') ∧
    ∀ k, is_Some (aircraft_markers s' !! k) ↔
      ∃ v, (k, v) ∈ Sample.register ∧
           (positions v ≠ [] ∨ is_Some (aircraft_markers Sample.connected !! k)).
Proof.
  apply (update_tracks Sample.ToString Sample.time in_group);
    [apply Sample.plain|apply Sample.wf_connected].
Defined.

(** C5: the map shows what is tracked: if the layers on the map are those of the aircraft
    tracked, they are so again after an update -- the layers of an aircraft that
    disappeared are taken off, and no layer is lost or left behind. *)
Theorem update_keeps_map `{HPC : PopupCloses} `{!PopupLaws}
    (ToString : number → jsstring) (local_time : Z → Z → jsstring)
    (on_map : list call → nat → bool) `{!LayerGroup on_map} (zooms : nat) (r : register)
    (s s' : app) :
  plain_keys r → wf on_map s → synced on_map s →
  update_aircrafts ToString local_time zooms r s = Some (Ok (), s') →
  wf on_map s' ∧ synced on_map s' ∧
  ∀ l, on_map (calls s') l = true ↔ ∃ k e, aircraft_markers s' !! k = Some e ∧ owns e l.
Proof.
  intros Hp Hw Hs Hr. rewrite (update_aircrafts_run _ _ on_map) in Hr by done. injection Hr as <-.
  assert (Hw' := wf_updated ToString local_time on_map r s Hp Hw).
  assert (Hs' := synced_updated ToString local_time on_map r s Hp Hw Hs).
  split_and!; [done..|]. intros l. split; [apply (wf_ghost _ _ Hw')|].
  intros (k & e & He & Ho). by eapply Hs'.
Qed.

Lemma update_keeps_map_witness :
  ∃ s', update_aircrafts Sample.ToString Sample.time 1 [] Sample.connected = Some (Ok (), s') ∧
  wf in_group s' ∧ synced in_group s' ∧
  ∀ l, in_group (calls s') l = true ↔ ∃ k e, aircraft_markers s' !! k = Some e ∧ owns e l.
Proof.
  eexists. split; [apply Sample.update_connected, Sample.plain_nil|].
  eapply (update_keeps_map Sample.ToString Sample.time in_group 1 [] Sample.connected).
  - apply Sample.plain_nil.
  - apply Sample.wf_connected.
  - apply Sample.synced_connected.
  - apply Sample.update_connected, Sample.plain_nil.
Defined.

(** C6: refinement of the map's specification: from a page that shows a display [d] -- an
    empty page shows the empty one -- any sequence of answers of the server, in which
    aircraft come, move, stop reporting positions and leave, runs without an exception and
    leads to a page that shows the display the specification computes. *)
Theorem map_refines_display `{HPC : PopupCloses} `{!PopupLaws}
    (ToString : number → jsstring) (local_time : Z → Z → jsstring)
    (on_map : list call → nat → bool) `{!LayerGroup on_map} (rs : list (nat * register))
    (s : app) (d : gmap string (latlng * number * list latlng)) :
  Forall (λ r, plain_keys r.2) rs → displays on_map s d →
  ∃ s', update_all ToString local_time rs s = Some (Ok (), s') ∧
    displays on_map s' (foldl (λ d r, display_update r.2 d) d rs).
Proof.
  intros Hp. revert s d. induction Hp as [|[zooms r] rs Hp _ IH]; intros s d Hd; [by exists s|].
  destruct (IH (updated ToString local_time r s) (display_update r d)) as (s' & Hs' & Hd');
    [by apply displays_updated|].
  exists s'. split; [|done]. cbn [update_all]. by erewrite M_bind_ok by by apply (update_aircrafts_run _ _ on_map), Hd.
Qed.

Lemma map_refines_display_witness :
  let silent := Aircraft None None [] [] 1700000001 0 in
  let rs := [(1%nat, Sample.register); (0%nat, [("3c6444", silent); ("abcdef", Sample.plane)]);
             (0%nat, [("3c6444", silent)])] in
  ∃ s', update_all Sample.ToString Sample.time rs app0 = Some (Ok (), s') ∧
    displays in_group s' (foldl (λ d r, display_update r.2 d) ∅ rs) ∧
    shown s' "3c6444" (LatLng (Int 48) (Int 9) (Some 32000)) (Int 90)
      [LatLng (Int 48) (Int 9) (Some 32000)].
Proof.
  intros silent rs.
  destruct (map_refines_display Sample.ToString Sample.time in_group rs app0 ∅)
    as (s' & Hs' & Hd').
  - repeat constructor; intros k v Hin; repeat (apply elem_of_cons in Hin as [[= -> ->]|Hin]; [done|]);
      by apply not_elem_of_nil in Hin.
  - split; [by apply Sample.wf0|by apply Sample.synced0|by intros|by intros].
  - exists s'. split; [done|]. split; [done|].
    apply (displays_some _ _ _ Hd'). vm_compute. reflexivity.
Defined.

(** After an update the marker of every aircraft that has a position stands at its
    last position, and its path line runs through all its positions in order. *)
Theorem update_shows_positions `{HPC : PopupCloses} `{!PopupLaws}
    (ToString : number → jsstring) (local_time : Z → Z → jsstring)
    (on_map : list call → nat → bool) `{!LayerGroup on_map} (zooms : nat) (r : register)
    (s s' : app) (k : string) (v : aircraft) :
  plain_keys r → NoDup r.*1 → wf on_map s → (k, v) ∈ r → positions v ≠ [] →
  update_aircrafts ToString local_time zooms r s = Some (Ok (), s') →
  ∃ e, aircraft_markers s' !! k = Some e ∧
    shown_pos (calls s') (marker e) = list.last (pos_arr v) ∧
    shown_rotation (calls s') (marker e) = Some (angle v) ∧
    shown_path (calls s') (pathline e) = Some (pos_arr v).
Proof.
  intros Hp Hnd Hw Hin Hv Hr. rewrite (update_aircrafts_run _ _ on_map) in Hr by done. injection Hr as <-.
  destruct (list.last (pos_arr v)) as [pos|] eqn:El.
  2:{ apply last_None in El. unfold pos_arr in El. by destruct (positions v). }
  apply shown_updated; [apply in_register_own; [by eapply Hp|eauto]|].
  by eapply (shown_steps ToString local_time on_map).
Qed.

Lemma update_shows_positions_witness :
  ∃ s', update_aircrafts Sample.ToString Sample.time 1 Sample.register Sample.connected
        = Some (Ok (), s') ∧
  ∃ e, aircraft_markers s' !! "3c6444" = Some e ∧
    shown_pos (calls s') (marker e) = Some (LatLng (Int 48) (Int 9) (Some 32000)) ∧
    shown_rotation (calls s') (marker e) = Some (Int 90) ∧
    shown_path (calls s') (pathline e) = Some [LatLng (Int 48) (Int 9) (Some 32000)].
Proof.
  eexists. split; [apply Sample.update_connected, Sample.plain|].
  eapply (update_shows_positions Sample.ToString Sample.time in_group 1 Sample.register
            Sample.connected _ "3c6444" Sample.plane).
  - apply Sample.plain.
  - apply NoDup_singleton.
  - apply Sample.wf_connected.
  - by left.
  - done.
  - apply Sample.update_connected, Sample.plain.
Defined.

(** After a reconnection the aircraft that were tracked before are invisible for good:
    [clearLayers] takes their layers off the map but leaves them in [aircraft_markers], so
    later updates move the old layers and never add them again, as long as the aircraft
    stays in the register. *)
Theorem reconnect_hides_aircraft `{HPC : PopupCloses} `{!PopupLaws}
    (ToString : number → jsstring) (local_time : Z → Z → jsstring)
    (on_map : list call → nat → bool) `{!LayerGroup on_map} (f : flowgraph) (s s1 : app)
    (rs : list register) (k : string) (e : entry) :
  wf on_map s → aircraft_markers s !! k = Some e → map_and_group s = true →
  fg_then f s = Some (Ok (), s1) →
  Forall (λ r, plain_keys r ∧ ∃ v, (k, v) ∈ r) rs →
  let s2 := foldl (λ s r, updated ToString local_time r s) s1 rs in
  aircraft_poll_state s1 = 2 ∧ aircraft_markers s2 !! k = Some e ∧
  on_map (calls s2) (marker e) = false ∧ on_map (calls s2) (pathline e) = false.
Proof.
  intros Hw He Hm Hf Hrs s2.
  destruct (fg_then_run on_map f s Hw) as (s1' & Hf' & Hw1 & Hst & Hmk & _ & _ & _ & Hg).
  assert (s1' = s1) as -> by congruence. rewrite Hm in Hg.
  assert (H1 : hidden on_map k e s1) by (split; [by rewrite Hmk|intros l _; apply Hg]).
  split; [done|].
  assert (H2 : hidden on_map k e s2).
  { subst s2. clear Hf Hf' Hst Hmk Hg. revert s1 Hw1 H1.
    induction Hrs as [|r rs [Hp [v Hv]] _ IH]; intros s1 Hw1 H1; [done|].
    simpl. apply IH; [by apply wf_updated|by eapply hidden_updated]. }
  destruct H2 as [? Hh]. split_and!; [done|apply Hh..]; [by left|by right].
Qed.

Lemma reconnect_hides_aircraft_witness :
  let s := set_loaded true Sample.connected in
  ∃ s1, fg_then (Flowgraph []) s = Some (Ok (), s1) ∧
  let s2 := foldl (λ s r, updated Sample.ToString Sample.time r s) s1 [Sample.register] in
  in_group (calls s) 0 = true ∧
  aircraft_poll_state s1 = 2 ∧ aircraft_markers s2 !! "3c6444" = Some (Entry 0 1) ∧
  in_group (calls s2) 0 = false ∧ in_group (calls s2) 1 = false.
Proof.
  intros s. eexists. split; [reflexivity|]. intros s2. split; [vm_compute; reflexivity|].
  apply (reconnect_hides_aircraft Sample.ToString Sample.time in_group (Flowgraph [])
           s _ [Sample.register] "3c6444" (Entry 0 1)).
  - apply (wf_frame in_group Sample.connected); [done|apply Sample.wf_connected].
  - vm_compute; reflexivity.
  - reflexivity.
  - reflexivity.
  - constructor; [|constructor]. split; [apply Sample.plain|].
    exists Sample.plane. by left.
Defined.

(** If the flowgraph has no block of type Tracker, the page connects to nothing and
    stays so: every tick raises a TypeError in [fetch_aircrafts] -- outside of the promise,
    so its [catch] does not run -- and no sequence of events makes it ask again. *)
Theorem no_tracker_sticks `{HPC : PopupCloses} `{!PopupLaws}
    (ToString : number → jsstring) (local_time : Z → Z → jsstring)
    (f : flowgraph) (s s1 s2 : app) (xs : list action) :
  wf in_group s → map_and_group s = true → tracker_block s = None →
  Forall (λ b, type_name b ≠ "Tracker") (blocks f) → pending s = [FetchFg] → act ToString local_time (FgThen 0 f) s = Some s1 →
  Forall (λ x, x ≠ Located) xs → execute ToString local_time xs s1 = Some s2 →
  (∃ s', aircraft_poll s2 = Some (Throw TypeError, s')) ∧
  act ToString local_time Tick s2 = Some s2 ∧
  pending s2 = [] ∧ aircraft_markers s2 = aircraft_markers s1 ∧ calls s2 = calls s1.
Proof.
  intros Hw Hm Ht Hb Hp Ha Hxs He. simpl in Ha. rewrite Hp in Ha. unfold handle in Ha.
  destruct (fg_then_run in_group f (settle 0 s)) as
    (s1' & Hf & _ & Hst & _ & Htr & Hpe & Hm' & Hg); [by apply (wf_frame in_group s)|].
  rewrite Hf in Ha. injection Ha as ->. cbn [settle map_and_group set_pending tracker_block pending] in *.
  rewrite Hm in Hg. destruct Hg as [Hpo Hg].
  assert (Hft : find_tracker (blocks f) None = None).
  { clear -Hb. induction Hb as [|b bs Hb _ IH]; [done|]. simpl.
    by destruct (String.eqb_spec (type_name b) "Tracker"). }
  assert (H1 : stuck s1).
  { split_and!; try done; [by rewrite Htr, Ht|by rewrite Hpe, Hp|by rewrite Hm']. }
  clear Hf Hst Htr Hpe Hm' Hg Hpo.
  assert (H2 : stuck s2 ∧ calls s2 = calls s1 ∧ aircraft_markers s2 = aircraft_markers s1).
  { revert s1 H1 He.
    induction Hxs as [|x xs Hx _ IH]; intros s1 H1 He; simpl in He; [by simplify_eq|].
    destruct (act ToString local_time x s1) as [s'|] eqn:E; [|done].
    destruct (act_stuck _ _ x s1 s' Hx H1 E) as (H1' & <- & <-). by apply IH. }
  destruct H2 as [(Hst & Htr & Hpe & _) [-> ->]].
  assert (Hpoll : aircraft_poll s2 = Some (Throw TypeError, s2)).
  { unfold aircraft_poll, get, mbind, M_bind. rewrite Hst. cbn. by rewrite Htr. }
  split_and!; [by eexists| |done..]. simpl. rewrite Hst. cbn. unfold handle. by rewrite Hpoll.
Qed.

Lemma no_tracker_sticks_witness :
  let s := set_loaded true (set_pending [FetchFg] (set_state 1 app0)) in
  let f := Flowgraph [Block 0 "SeifySource"] in
  ∃ s1 s2, act Sample.ToString Sample.time (FgThen 0 f) s = Some s1 ∧
    execute Sample.ToString Sample.time [Tick; Tick; Dragstart; Tick] s1 = Some s2 ∧
    (∃ s', aircraft_poll s2 = Some (Throw TypeError, s')) ∧
    act Sample.ToString Sample.time Tick s2 = Some s2 ∧
    pending s2 = [] ∧ aircraft_markers s2 = aircraft_markers s1 ∧ calls s2 = calls s1.
Proof.
  intros s f. eexists _, _. split; [reflexivity|]. split; [reflexivity|].
  eapply (no_tracker_sticks Sample.ToString Sample.time f s _ _ [Tick; Tick; Dragstart; Tick]).
  - apply (wf_frame in_group app0); [done|]. by apply app0_wf, in_group_layer_group.
  - reflexivity.
  - reflexivity.
  - repeat constructor. discriminate.
  - reflexivity.
  - reflexivity.
  - repeat constructor; discriminate.
  - reflexivity.
Defined.

(** The page's own flights never switch auto-zoom off, however many zoomstart events
    they fire, and once the user has dragged or zoomed the map it stays off: answers of
    the server change nothing about it, and no event switches it on again. *)
Theorem autozoom_is_users `{HPC : PopupCloses}
    (ToString : number → jsstring) (local_time : Z → Z → jsstring)
    (x : action) (s s' : app) :
  settled s → act ToString local_time x s = Some s' →
  match x with
  | Zoomstart | Dragstart => autozoom s' = false
  | _ => autozoom s' = autozoom s
  end.
Proof.
  intros (Hst & Hz & Hp) Ha.
  destruct x as [| | |i f|i|i r zooms|i| | |l|l]; simpl in Ha.
  - destruct (map_and_group s); [done|]. by injection Ha as <-.
  - destruct (map_and_group s); [|done]. by injection Ha as <-.
  - destruct (aircraft_poll_state s =? 0); [done|].
    unfold handle, aircraft_poll, get, mbind, M_bind in Ha.
    destruct (_ =? 1); [by injection Ha as <-|].
    destruct (_ =? 2); [|by injection Ha as <-]. by destruct (tracker_block s); injection Ha as <-.
  - destruct (pending s !! i) as [[|]|]; try done. apply handle_inv in Ha as [o Ha].
    by destruct (fg_then_frame _ _ _ _ Ha) as [(_ & -> & _)|(_ & -> & _)].
  - destruct (pending s !! i) as [[|]|]; try done. by injection Ha as <-.
  - destruct (pending s !! i) as [[|q]|]; try done. apply handle_inv in Ha as [o Ha].
    by destruct (aircrafts_then_frame _ _ zooms r (settle i s) o s' Hz Ha)
      as [(_ & -> & _)|(_ & -> & _)].
  - destruct (pending s !! i) as [[|q]|]; try done. by injection Ha as <-.
  - destruct (aircraft_poll_state s =? 0); [done|].
    unfold handle, on_zoomstart, get, mbind, M_bind in Ha. rewrite Hz in Ha.
    by injection Ha as <-.
  - destruct (aircraft_poll_state s =? 0); [done|]. by injection Ha as <-.
  - destruct (_ && _ && _); [|done]. apply handle_inv in Ha as [o Ha].
    by destruct (frame_open s l s o s' ltac:(done) Ha) as (_ & -> & _).
  - destruct (bool_decide _); [|done]. apply handle_inv in Ha as [o Ha].
    by destruct (frame_close s l s o s' ltac:(done) Ha) as (_ & -> & _).
Qed.

Lemma autozoom_is_users_witness :
  ∃ s', act Sample.ToString Sample.time (AircraftsThen 0 Sample.register 2)
          (set_pending [FetchAircrafts 3] Sample.connected) = Some s' ∧
        autozoom s' = autozoom (set_pending [FetchAircrafts 3] Sample.connected).
Proof.
  eexists. split; [vm_compute; reflexivity|].
  apply (autozoom_is_users Sample.ToString Sample.time (AircraftsThen 0 Sample.register 2)).
  - split; [right; right; vm_compute; reflexivity|]. split; [vm_compute; reflexivity|].
    intros Hs. vm_compute in Hs. discriminate Hs.
  - vm_compute; reflexivity.
Defined.

(** From the loaded page on, whatever events occur in whatever order -- requests may
    overlap and be answered out of order -- the poll is in one of its three states, asks
    nothing before the map is located, and leaves the auto-zoom flag down between events. *)
Theorem poll_state_machine `{HPC : PopupCloses}
    (ToString : number → jsstring) (local_time : Z → Z → jsstring)
    (xs : list action) (s : app) :
  execute ToString local_time xs app0 = Some s →
  (aircraft_poll_state s = 0 ∨ aircraft_poll_state s = 1 ∨ aircraft_poll_state s = 2) ∧
  autozoom_in_progress s = false ∧ (aircraft_poll_state s = 0 → pending s = []).
Proof.
  intros He. refine (execute_settled ToString local_time xs app0 s _ He).
  split_and!; simpl; auto.
Qed.

Lemma poll_state_machine_witness :
  ∃ s, execute Sample.ToString Sample.time
         [Load; Located; FgThen 0 (Flowgraph [Block 3 "Tracker"]); Tick; Tick;
          AircraftsThen 1 Sample.register 1; AircraftsCatch 0] app0 = Some s ∧
  (aircraft_poll_state s = 0 ∨ aircraft_poll_state s = 1 ∨ aircraft_poll_state s = 2) ∧
  autozoom_in_progress s = false ∧ (aircraft_poll_state s = 0 → pending s = []).
Proof.
  eexists. split; [vm_compute; reflexivity|].
  eapply (poll_state_machine Sample.ToString Sample.time
           [Load; Located; FgThen 0 (Flowgraph [Block 3 "Tracker"]); Tick; Tick;
            AircraftsThen 1 Sample.register 1; AircraftsCatch 0]).
  vm_compute; reflexivity.
Defined.

(** Every update of an aircraft that has a marker adds one more pair of popup handlers
    to it; they are never removed. *)
Theorem popup_handlers_pile_up (ToString : number → jsstring) (local_time : Z → Z → jsstring)
    (k : string) (v : aircraft) (e : entry) (s s' : app) :
  inherited k = false → positions v ≠ [] → aircraft_markers s !! k = Some e →
  update_aircraft ToString local_time k v s = Some (Ok (option_list (list.last (pos_arr v))), s') →
  popup_handlers (calls s') (marker e) = popup_handlers (calls s) (marker e) ++ [k] ∧
  aircraft_markers s' = aircraft_markers s.
Proof.
  intros Hi Hv He Hr. rewrite update_aircraft_run in Hr by done. injection Hr as <-. simpl.
  destruct (list.last (pos_arr v)) as [cur|] eqn:El.
  2:{ apply last_None in El. unfold pos_arr in El. by destruct (positions v). }
  rewrite He. simpl. split; [|done]. rewrite popup_handlers_app. simpl. by rewrite Nat.eqb_refl.
Qed.

Lemma popup_handlers_pile_up_witness :
  ∃ s', update_aircraft Sample.ToString Sample.time "3c6444" Sample.plane Sample.connected =
          Some (Ok [LatLng (Int 48) (Int 9) (Some 32000)], s') ∧
  popup_handlers (calls s') 0 = ["3c6444"; "3c6444"] ∧ aircraft_markers s' = aircraft_markers Sample.connected.
Proof.
  eexists. split; [by apply update_aircraft_run|].
  apply (popup_handlers_pile_up Sample.ToString Sample.time "3c6444" Sample.plane (Entry 0 1)
           Sample.connected).
  - reflexivity.
  - discriminate.
  - vm_compute; reflexivity.
  - by apply update_aircraft_run.
Defined.

(** C24: after any events from the loaded page on, in any order, the path line of every
    aircraft tracked is drawn at full opacity exactly if its popup is open -- also where the
    aircraft was updated many times, so that several handlers run, or where it left the
    register or the connection was lost while its popup was open -- and no handler of a popup
    throws: a popup the user can open opens, and the open one belongs to an aircraft that is
    tracked, so closing it works. *)
Theorem line_highlighted_iff_popup_open `{HPC : PopupCloses} `{!PopupLaws}
    (ToString : number → jsstring) (local_time : Z → Z → jsstring) (xs : list action) (s : app) :
  Forall plain_action xs → execute ToString local_time xs app0 = Some s →
  (∀ k e, aircraft_markers s !! k = Some e →
     shown_style (calls s) (pathline e) = Some (bool_decide (popup s = Some (marker e)))) ∧
  (∀ l, popup s = None → in_group (calls s) l = true → has_popup (calls s) l = true →
     ∃ s', open_popup l s = Some (Ok (), s') ∧ popup s' = Some l) ∧
  (∀ l, popup s = Some l →
     (∃ k e, aircraft_markers s !! k = Some e ∧ marker e = l) ∧
     ∃ s', close_popup l s = Some (Ok (), s') ∧ popup s' = None).
Proof.
  intros Hx He. assert (Hw : wf in_group s).
  { eapply (execute_wf ToString local_time in_group); [exact Hx|apply app0_wf; apply _|done]. }
  split_and!.
  - intros k e. apply (po_style _ Hw).
  - intros l Hn Hg Hh. destruct (open_popup_wf in_group l s Hw Hn Hg Hh) as (s' & ? & _ & ?).
    by exists s'.
  - intros l Hl. split; [by apply (po_popup _ Hw)|].
    destruct (close_popup_wf in_group l s Hw Hl) as (s' & ? & _ & ?). by exists s'.
Qed.

Lemma line_highlighted_iff_popup_open_witness :
  let xs := [Load; Located; FgThen 0 (Flowgraph [Block 3 "Tracker"]); Tick;
             AircraftsThen 0 Sample.register 1; Tick; AircraftsThen 0 Sample.register 0;
             OpenPopup 0] in
  ∃ s, execute Sample.ToString Sample.time xs app0 = Some s ∧ popup s = Some 0%nat ∧
    shown_style (calls s) 1 = Some true ∧ ∃ s', close_popup 0 s = Some (Ok (), s') ∧ popup s' = None.
Proof.
  intros xs. eexists. split; [vm_compute; reflexivity|]. split; [reflexivity|].
  edestruct (line_highlighted_iff_popup_open Sample.ToString Sample.time xs)
    as (Hs & _ & Hc); [|vm_compute; reflexivity|].
  - repeat constructor; apply Sample.plain.
  - split; [exact (Hs "3c6444" (Entry 0 1) ltac:(vm_compute; reflexivity))|].
    apply (Hc 0%nat). reflexivity.
Defined.

(** Show the row behind the first [n] pieces of the popup's text. *)
#[local] Tactic Notation "popup_row" integer(n) :=
  do n apply contains_skip;
  eapply contains_piece; unfold row; rewrite <- ?(assoc_L (++)); reflexivity.

(** The popup of an aircraft shows the decimals of its last position to four digits
    and of its ground speed to two, correctly rounded, and the vertical rate of its last
    velocity -- but not a rate of 0, which appears as "N/A" like an unknown one, nor an
    altitude of 0, which appears as "undefined" like an unknown one. *)
Theorem popup_shows (ToString : number → jsstring) (local_time : Z → Z → jsstring)
    (icao : string) (value : aircraft) (pos : position) (v : velocity) (p q p' q' p'' q'' : Z) :
  cur_velocity value = Some v →
  fraction (latitude pos) = Some (p, q) → Z.abs p < 10 ^ 21 * q →
  fraction (longitude pos) = Some (p', q') → Z.abs p' < 10 ^ 21 * q' →
  fraction (ground_speed v) = Some (p'', q'') → Z.abs p'' < 10 ^ 21 * q'' →
  let text := popup_content ToString local_time icao value (pos_of pos) in
  (∃ t, contains text (row "Latitude" t) ∧ decimal 4 p q t) ∧
  (∃ t, contains text (row "Longitude" t) ∧ decimal 4 p' q' t) ∧
  (∃ t, contains text (row "Ground speed" (t ++ lit " kt")) ∧ decimal 2 p'' q'' t) ∧
  contains text (row "Vertical rate"
    ((if vertical_rate v =? 0 then lit "N/A" else int_string (vertical_rate v)) ++
     lit " ft/min")) ∧
  contains text (row "Altitude"
    (match altitude pos with
     | None | Some 0 => lit "undefined"
     | Some z => int_string z
     end ++ lit " ft")).
Proof.
  intros Hv Hlat Hp Hlng Hp' Hgs Hp'' text.
  pose proof (toFixed_decimal ToString 4 _ _ _ Hlat Hp) as Dlat.
  pose proof (toFixed_decimal ToString 4 _ _ _ Hlng Hp') as Dlng.
  pose proof (toFixed_decimal ToString 2 _ _ _ Hgs Hp'') as Dgs.
  assert (Halt : from_option int_string (lit "undefined") (alt (pos_of pos)) =
    match altitude pos with None | Some 0 => lit "undefined" | Some z => int_string z end).
  { unfold pos_of. simpl. by destruct (altitude pos) as [[]|]. }
  subst text. unfold popup_content, popup_text. rewrite Hv, Halt. cbn [fmap option_fmap option_map].
  rewrite (decimal_not_empty _ _ _ _ Dgs). cbn [lat lng pos_of].
  set (nl := [10] ++ repeat 32 16). clearbody nl.
  revert Dlat Dlng Dgs.
  generalize (toFixed ToString 4 (latitude pos)) (toFixed ToString 4 (longitude pos))
    (toFixed ToString 2 (ground_speed v)). intros tlat tlng tgs Dlat Dlng Dgs.
  generalize (if vertical_rate v =? 0 then lit "N/A" else int_string (vertical_rate v)). intros rate.
  split_and!; [eexists; split; [|exact Dlat]|eexists; split; [|exact Dlng]|
               eexists; split; [|exact Dgs]| |].
  - popup_row 23.
  - popup_row 27.
  - popup_row 31.
  - popup_row 35.
  - popup_row 19.
Qed.

Lemma popup_shows_witness :
  let text := popup_content Sample.ToString Sample.time "3c6444" Sample.plane (pos_of Sample.here) in
  contains text (row "Vertical rate" (lit "N/A ft/min")) ∧
  contains text (row "Altitude" (lit "32000 ft")) ∧
  ∃ t, contains text (row "Latitude" t) ∧ decimal 4 48 1 t.
Proof.
  destruct (popup_shows Sample.ToString Sample.time "3c6444" Sample.plane Sample.here
    (Velocity (Int 400) (Int 90) 0 (lit "GeometricAltitude")) 48 1 9 1 400 1)
    as (Hlat & _ & _ & Hrate & Halt); [reflexivity..|lia|reflexivity|lia|reflexivity|lia|].
  split; [exact Hrate|]. split; [exact Halt|exact Hlat].
Defined.
