(* ===== verification/Json.v ===== *)
(** * JSON values as JavaScript sees them

    What [JSON.parse] and [response.json()] return, and what reading such a value does:
    properties, indices, conversions, [in] and [for]-[in].  Conversions between numbers and
    strings are the engine's ([number_string], [string_number]). *)

From Stdlib Require Import SpecFloat String Ascii.
From stdpp Require Import pretty.
From S2P Require Import Prelude TextCodec Memory Closure Glue Tracker.

(** An object has its properties in the order of their enumeration, each key once. *)
#[local] Unset Elimination Schemes.
Inductive json : Type :=
  | JNull
  | JBool (b : bool)
  | JNumber (n : number)
  | JString (s : jsstring)
  | JArray (l : list json)
  | JObject (ps : list (string * json)).
#[local] Set Elimination Schemes.

(** What an expression that reads JSON evaluates to; [None] is [undefined]. *)
Abbreviation value := (option json).

(** An own property of an object. *)
Fixpoint own (k : string) (ps : list (string * json)) : value :=
  match ps with
  | [] => None
  | (k', x) :: ps => if String.eqb k k' then Some x else own k ps
  end.

(** The names an array inherits from [Array.prototype], beside those of every object. *)
Definition array_prototype : list string :=
  ["at"; "concat"; "copyWithin"; "entries"; "every"; "fill"; "filter"; "find"; "findIndex";
   "findLast"; "findLastIndex"; "flat"; "flatMap"; "forEach"; "includes"; "indexOf"; "join";
   "keys"; "lastIndexOf"; "map"; "pop"; "push"; "reduce"; "reduceRight"; "reverse"; "shift";
   "slice"; "some"; "sort"; "splice"; "toReversed"; "toSorted"; "toSpliced"; "unshift";
   "values"; "with"].

(** The own enumerable properties, which are those [for]-[in] visits. *)
Definition entries (v : value) : list (string * json) :=
  match v with
  | Some (JObject ps) => ps
  | Some (JArray l) => imap (λ i x, (pretty i, x)) l
  | Some (JString s) => imap (λ i c, (pretty i, JString [c])) s
  | _ => []
  end.

(** The names [in] finds in an object beside the inherited ones of every object; the right
    operand must be an object. *)
Definition names (v : value) : option (list string) :=
  match v with
  | Some (JObject ps) => Some ps.*1
  | Some (JArray l) => Some ((entries v).*1 ++ "length" :: array_prototype)
  | _ => None
  end.

(** Truthiness. *)
Definition truthy (v : value) : bool :=
  match v with
  | None | Some JNull => false
  | Some (JBool b) => b
  | Some (JNumber n) => negb (number_falsy n)
  | Some (JString s) => negb (bool_decide (s = []))
  | Some (JArray _) | Some (JObject _) => true
  end.

(** [z < n] *)
Definition less (z : Z) (n : number) : bool :=
  match n with
  | Float (S754_infinity sign) => negb sign
  | _ => match fraction n with Some (p, q) => z * q <? p | None => false end
  end.

Lemma M_bind_cong {E S A B} (m m' : M E S A) (f g : A → M E S B) s :
  m s = m' s → (∀ a s', f a s' = g a s') → (m ≫= f) s = (m' ≫= g) s.
Proof. intros Hm Hf. unfold mbind, M_bind. rewrite Hm. destruct (m' s) as [[[a|e] s1]|]; auto. Qed.

Section reading.
Context {S : Type} (number_string : number → string) (string_number : jsstring → number).
Abbreviation R A := (M js_error S A).

(** [v.k], for a name [k] that no prototype has. *)
Definition prop (k : string) (v : value) : R value :=
  match v with
  | None | Some JNull => throw TypeError
  | Some (JObject ps) => mret (own k ps)
  | Some (JArray l) =>
      mret (if String.eqb k "length" then Some (JNumber (Int (Zlen l))) else None)
  | Some (JString s) =>
      mret (if String.eqb k "length" then Some (JNumber (Int (Zlen s))) else None)
  | Some (JBool _) | Some (JNumber _) => mret None
  end.

(** [v[n]] for a number [n]. *)
Definition item (n : number) (v : value) : R value :=
  match v with
  | None | Some JNull => throw TypeError
  | Some (JObject ps) => mret (own (number_string n) ps)
  | Some (JArray l) => mret match n with Int z => Zget l z | Float _ => None end
  | Some (JString s) =>
      mret match n with Int z => (λ c, JString [c]) <$> Zget s z | Float _ => None end
  | Some (JBool _) | Some (JNumber _) => mret None
  end.

(** [ToString]; an object's own [toString] is not callable, and what it inherits as [valueOf]
    returns the object, so that then no primitive value is found. *)
Fixpoint string_of (x : json) : option jsstring :=
  match x with
  | JNull => Some (lit "null")
  | JBool b => Some (lit (if b then "true" else "false"))
  | JNumber n => Some (lit (number_string n))
  | JString s => Some s
  | JArray l =>
      let element x := match x with JNull => Some [] | _ => string_of x end in
      (fix join l :=
         match l with
         | [] => Some []
         | [x] => element x
         | x :: l => match element x, join l with
                     | Some s, Some t => Some (s ++ lit "," ++ t)
                     | _, _ => None
                     end
         end) l
  | JObject ps => match own "toString" ps with Some _ => None | None => Some (lit "[object Object]") end
  end.

(** [`${v}`] *)
Definition text (v : value) : R jsstring :=
  match v with
  | None => mret (lit "undefined")
  | Some x => match string_of x with Some s => mret s | None => throw TypeError end
  end.

(** [ToNumber] *)
Definition to_number (v : value) : R number :=
  match v with
  | None => mret (Float S754_nan)
  | Some JNull => mret (Int 0)
  | Some (JBool b) => mret (Int (if b then 1 else 0))
  | Some (JNumber n) => mret n
  | Some (JString s) => mret (string_number s)
  | Some x => match string_of x with Some s => mret (string_number s) | None => throw TypeError end
  end.

(** [v.toFixed(d)], of anything but a number a call of something that is no function *)
Definition to_fixed (d : nat) (v : value) : R jsstring :=
  match v with
  | Some (JNumber n) => mret (toFixed (λ n, lit (number_string n)) d n)
  | _ => throw TypeError
  end.

(** [k in v] *)
Definition is_in (k : string) (v : value) : R bool :=
  match names v with
  | Some ks => mret (inherited k || bool_decide (k ∈ ks))
  | None => throw TypeError
  end.

(** What is read of JSON depends on nothing and changes nothing. *)
Definition pure {A} (m : R A) : Prop := ∃ o, ∀ s, m s = Some (o, s).

Lemma pure_ret {A} (a : A) : pure (mret a).
Proof. by exists (Ok a). Qed.
Lemma pure_throw {A} e : pure (throw (A := A) e).
Proof. by exists (Throw e). Qed.
Lemma pure_bind {A B} (m : R A) (f : A → R B) : pure m → (∀ a, pure (f a)) → pure (m ≫= f).
Proof.
  intros [[a|e] Hm] Hf.
  - destruct (Hf a) as [o Ho]. exists o. intros s. by rewrite (M_bind_ok _ _ _ _ _ (Hm s)).
  - exists (Throw e). intros s. by rewrite (M_bind_throw _ _ _ _ _ (Hm s)).
Qed.

Lemma pure_bind_ok {A B} (m : R A) (f : A → R B) :
  pure m → (∀ a, (∀ s, m s = Some (Ok a, s)) → pure (f a)) → pure (m ≫= f).
Proof.
  intros [[a|e] Hm] Hf.
  - destruct (Hf a Hm) as [o Ho]. exists o. intros s. by rewrite (M_bind_ok _ _ _ _ _ (Hm s)).
  - exists (Throw e). intros s. by rewrite (M_bind_throw _ _ _ _ _ (Hm s)).
Qed.

Lemma pure_prop k v : pure (prop k v).
Proof. destruct v as [[]|]; (apply pure_ret || apply pure_throw). Qed.
Lemma pure_item n v : pure (item n v).
Proof. destruct v as [[]|]; (apply pure_ret || apply pure_throw). Qed.
Lemma pure_text v : pure (text v).
Proof. destruct v as [x|]; simpl; [destruct (string_of x)|]; (apply pure_ret || apply pure_throw). Qed.
Lemma pure_to_number v : pure (to_number v).
Proof.
  destruct v as [[]|]; try apply pure_ret; unfold to_number;
    destruct (string_of _); (apply pure_ret || apply pure_throw).
Qed.
Lemma pure_to_fixed d v : pure (to_fixed d v).
Proof. destruct v as [[]|]; (apply pure_ret || apply pure_throw). Qed.
Lemma pure_is_in k v : pure (is_in k v).
Proof. unfold is_in. destruct (names v); (apply pure_ret || apply pure_throw). Qed.
End reading.

#[export] Hint Resolve pure_ret pure_throw pure_prop pure_item pure_text pure_to_number
  pure_to_fixed pure_is_in : js.

(** Decompose a [pure] goal along the structure of the code. *)
Ltac pure :=
  repeat first
    [ solve [auto with js nocore]
    | lazymatch goal with
      | |- pure (mbind _ _) => apply pure_bind; [|intros ?]
      | |- pure (match ?x with _ => _ end) => destruct x
      end ].

(** ** Reading array-likes *)

(** The number of own properties. *)
Definition size (v : value) : nat := length (entries v).

Lemma own_elem k ps x : own k ps = Some x → k ∈ ps.*1.
Proof.
  induction ps as [|[k' y] ps IH]; [done|]. simpl.
  destruct (String.eqb_spec k k') as [->|]; [by left|]. right. auto.
Qed.

(** *** The sizes of objects

    Integers beyond [2^53] may be written alike; an object that is read from a text, which has
    fewer than [2^53] code units, has fewer properties than that. *)
Definition index_bound : Z := 2 ^ 53.

Fixpoint sized (x : json) : bool :=
  match x with
  | JArray l => forallb sized l
  | JObject ps => (Zlen ps <? index_bound) && forallb (λ e, sized e.2) ps
  | _ => true
  end.
Definition sized_value (v : value) : bool := from_option sized true v.

Lemma sized_items l : sized (JArray l) → Forall sized l.
Proof. simpl. rewrite Is_true_true, list.Forall_forall. rewrite forallb_forall.
  intros Hl x Hx. by apply Is_true_true, Hl, list_elem_of_In. Qed.

Lemma sized_object ps : sized (JObject ps) → Zlen ps < index_bound ∧ Forall (λ e, sized e.2) ps.
Proof.
  simpl. intros [Hn Hp]%andb_prop_elim. split; [by apply Z.ltb_lt, Is_true_true|].
  rewrite list.Forall_forall. intros e He. apply Is_true_true in Hp. rewrite forallb_forall in Hp.
  by apply Is_true_true, Hp, list_elem_of_In.
Qed.

Lemma sized_own k ps x : sized (JObject ps) → own k ps = Some x → sized x.
Proof.
  intros [_ Hps]%sized_object. induction Hps as [|[k' y] ps Hy _ IH]; [done|]. simpl.
  destruct (String.eqb k k'); [by intros [= <-]|done].
Qed.

(** What is read of a value with small objects has small objects. *)
Lemma sized_prop {S} k v w (s s' : S) :
  sized_value v → prop k v s = Some (Ok w, s') → sized_value w.
Proof.
  unfold prop, throw, mret, M_ret. destruct v as [[| | |t|l|ps]|]; intros Hv; try done.
  1,2: by intros [= <- _].
  1,2: by destruct (String.eqb _ _); intros [= <- _].
  intros [= <- _]. destruct (own k ps) as [x|] eqn:E; [|done]. by eapply sized_own.
Qed.

Lemma sized_entries v : sized_value v → Forall (λ e, sized e.2) (entries v).
Proof.
  destruct v as [[| | |t|l|ps]|]; intros Hv; try constructor; simpl in *.
  - rewrite list.Forall_forall. by intros e (i & c & -> & _)%elem_of_lookup_imap_1.
  - apply sized_items in Hv. rewrite list.Forall_forall.
    intros e (i & x & -> & Hx)%elem_of_lookup_imap_1. exact (Forall_lookup_1 _ _ _ _ Hv Hx).
  - by apply sized_object.
Qed.
