(* ===== verification/Answer.v ===== *)
(** * The map page on any answer of the server

    Tracker's registers are typed records.  Here [update_aircrafts] reads the JSON that the
    server sent, whatever it is: a property may be missing or of another type, reading may
    throw in the middle of an update, after Leaflet was called for the aircraft before.
    What Leaflet makes of arguments of any shape, and how far it comes where it throws, is
    the class [Leaflet]. *)

From Stdlib Require Import SpecFloat String Ascii.
From stdpp Require Import gmap pretty.
From S2P Require Import Prelude TextCodec Memory Closure Glue Tracker Json.

(** How a call ends that takes its argument for an [a]: as it should, or with an exception,
    before it changed anything or after the layer took what is [left]. *)
Inductive taken (A : Type) : Type := Taken (a : A) | Refused (left : option A).
Arguments Taken {A} a.
Arguments Refused {A} left.

(** Leaflet's calls with arguments that come from the server, in a state which the calls
    before have made: [setLatLng] and the plug-in's [setRotationAngle] of a marker,
    [setLatLngs] of a line, making a marker or a line and adding it to the map, and
    [flyToBounds].  A position is [\[lat, lng\]] or [\[lat, lng, alt\]]. *)
Class Leaflet : Type := {
  set_lat_lng : list call → nat → list value → taken latlng;
  set_rotation_angle : list call → nat → value → taken number;
  set_lat_lngs : list call → nat → list (list value) → taken (list latlng);
  new_marker : list call → list value → value → taken (latlng * number);
  new_polyline : list call → list (list value) → taken (list latlng);
  fly_to_bounds : list call → list (list value) → taken (list latlng);
}.

(** An answer to a request: none, or a response, whose body may not be JSON. *)
Inductive response : Type := Rejected | Response (ok : bool) (body : option json).

Section answer.
Context `{PopupCloses} `{Leaflet}.
Context (number_string : number → string) (string_number : jsstring → number).
(** [new Date(secs*1e3+nanos/1e6).toLocaleString()] *)
Context (date : number → number → jsstring).
(** [JSON.parse] *)
Context (parse : jsstring → option json).

Abbreviation item := (item number_string).
Abbreviation text := (text number_string).
Abbreviation to_number := (to_number number_string string_number).
Abbreviation to_fixed := (to_fixed number_string).

(** [v && v.k] and [v || d] *)
Definition and_prop (v : value) (k : string) : P value :=
  if truthy v then prop k v else mret v.
Definition or_else (v d : value) : value := if truthy v then v else d.

(** [v.length], compared or decremented *)
Definition length_of {S} (v : value) : M js_error S number := n ← prop "length" v; to_number n.

(** *** Positions *)

Definition position_field (positions : value) (i : nat) (k : string) : P value :=
  x ← item (Int (Z.of_nat i)) positions; p ← prop "position" x; prop k p.

(** [pos] *)
Definition pos_at (positions : value) (i : nat) : P (list value) :=
  lat ← position_field positions i "latitude";
  lng ← position_field positions i "longitude";
  alt ← position_field positions i "altitude";
  mret (if truthy alt then [lat; lng; alt] else [lat; lng]).

(** The loop that fills [pos_arr].  [positions] need not be an array: its length may be
    anything, but the first index that is no property ends the loop with an exception. *)
Fixpoint pos_loop (fuel : nat) (positions : value) (i : nat) (pos_arr : list (list value))
    : P (list (list value)) :=
  match fuel with
  | O => λ _, None
  | S fuel =>
      n ← length_of positions;
      if less (Z.of_nat i) n then
        pos ← pos_at positions i; pos_loop fuel positions (S i) (pos_arr ++ [pos])
      else mret pos_arr
  end.

Definition pos_arr (positions : value) : P (list (list value)) :=
  pos_loop (S (size positions)) positions 0 [].

(** *** The popup *)

Definition cur_velocity (aircraft : value) : P value :=
  velocities ← prop "velocities" aircraft;
  n ← length_of velocities;
  if less 0 n then
    v ← item (pred_number n) velocities; prop "velocity" v
  else mret (Some JNull).

Definition last_updated (aircraft : value) : P jsstring :=
  l ← prop "last_seen" aircraft;
  secs ← (s ← prop "secs_since_epoch" l; to_number s);
  nanos ← (n ← prop "nanos_since_epoch" l; to_number n);
  mret (date secs nanos).

(** [cur_pos\[i\]] *)
Definition coordinate (cur_pos : list value) (i : nat) : value := mjoin (cur_pos !! i).

Definition NA : value := Some (JString (lit "N/A")).

Definition popup_content (icao : string) (aircraft cur_velocity : value) (cur_pos : list value)
    : P jsstring :=
  ground_speed ←
    (if truthy cur_velocity
     then g ← prop "ground_speed" cur_velocity; s ← to_fixed 2 g; mret (Some (JString s))
     else mret cur_velocity);
  vertical_rate ← and_prop cur_velocity "vertical_rate";
  vertical_rate_source ← and_prop cur_velocity "vertical_rate_source";
  last_updated ← last_updated aircraft;
  callsign ← (c ← prop "callsign" aircraft; text c);
  emitter_category ← (c ← prop "emitter_category" aircraft; text c);
  altitude ← text (coordinate cur_pos 2);
  latitude ← to_fixed 4 (coordinate cur_pos 0);
  longitude ← to_fixed 4 (coordinate cur_pos 1);
  ground_speed ← text (or_else ground_speed NA);
  vertical_rate ← text (or_else vertical_rate NA);
  vertical_rate_source ← text (or_else vertical_rate_source NA);
  mret (popup_text icao callsign last_updated emitter_category altitude latitude longitude
          ground_speed vertical_rate vertical_rate_source).

(** *** Layers *)

(** A call of Leaflet, and what it [does] with what it took. *)
Definition leaflet {A} (call : list call → taken A) (does : A → P unit) : P unit :=
  o ← gets (λ s, call (calls s));
  match o with
  | Taken a => does a
  | Refused (Some a) => _ ← does a; throw PlainError
  | Refused None => throw PlainError
  end.

(** The branch for an aircraft that has a marker. *)
Definition update_marker (e : entry) (icao : string) (cur_pos : list value) (angle : value)
    (content : jsstring) (pos_arr : list (list value)) : P unit :=
  _ ← leaflet (λ cs, set_lat_lng cs (marker e) cur_pos) (λ pos, emit [SetLatLng (marker e) pos]);
  _ ← leaflet (λ cs, set_rotation_angle cs (marker e) angle)
        (λ angle, emit [SetRotationAngle (marker e) angle]);
  _ ← emit [SetPopupContent (marker e) content];
  _ ← emit [OnPopup (marker e) icao];
  leaflet (λ cs, set_lat_lngs cs (pathline e) pos_arr)
    (λ path, emit [SetLatLngs (pathline e) path]).

(** The branch that creates one.  A marker or a line that was put on the map before adding it
    threw stays there. *)
Definition create_marker (icao : string) (cur_pos : list value) (angle : value)
    (content : jsstring) (pos_arr : list (list value)) : P unit :=
  marker ← fresh;
  _ ← leaflet (λ cs, new_marker cs cur_pos angle)
        (λ '(pos, angle), emit [NewMarker marker pos angle; BindPopup marker content;
                                OnPopup marker icao; AddTo marker]);
  pathline ← fresh;
  _ ← leaflet (λ cs, new_polyline cs pos_arr)
        (λ path, emit [NewPolyline pathline path; AddTo pathline]);
  modify (λ s, set_markers (<[icao := Entry marker pathline]> (aircraft_markers s)) s).

(** What an update reads of an aircraft; nothing where it has no position. *)
Record reading : Type := Reading {
  r_cur_pos : list value;
  r_pos_arr : list (list value);
  r_content : jsstring;
  r_angle : value
}.

Definition read_aircraft (icao : string) (aircraft : value) : P (option reading) :=
  positions ← prop "positions" aircraft;
  n ← length_of positions;
  if less 0 n then
    pos_arr ← pos_arr positions;
    match list.last pos_arr with
    | Some cur_pos =>
        cur_velocity ← cur_velocity aircraft;
        content ← popup_content icao aircraft cur_velocity cur_pos;
        heading ← and_prop cur_velocity "heading";
        mret (Some (Reading cur_pos pos_arr content (or_else heading (Some (JNumber (Int 0))))))
    | None => throw TypeError
    end
  else mret None.

(** What the loop does with it; the result is what it pushes to [cur_aircraft_positions]. *)
Definition show (icao : string) (x : option reading) : P (list (list value)) :=
  match x with
  | None => mret []
  | Some (Reading cur_pos pos_arr content angle) =>
      markers ← gets aircraft_markers;
      _ ← if in_markers icao markers
          then match markers !! icao with
               | Some e => update_marker e icao cur_pos angle content pos_arr
               | None => throw TypeError
               end
          else create_marker icao cur_pos angle content pos_arr;
      mret [cur_pos]
  end.

Definition update_aircraft (icao : string) (aircraft : value) : P (list (list value)) :=
  x ← read_aircraft icao aircraft; show icao x.

Fixpoint update_loop (r : list (string * json)) : P (list (list value)) :=
  match r with
  | [] => mret []
  | (icao, x) :: r =>
      c ← update_aircraft icao (Some x); cs ← update_loop r; mret (c ++ cs)
  end.

(** The second loop; [in] throws where the register is no object. *)
Fixpoint remove_loop (register : value) (keys : list string) : P unit :=
  match keys with
  | [] => mret ()
  | k :: keys =>
      b ← is_in k register;
      _ ← (if b : bool then mret ()
           else markers ← gets aircraft_markers;
                match markers !! k with
                | Some e =>
                    _ ← remove_layer (marker e); _ ← remove_layer (pathline e);
                    modify (λ s, set_markers (delete k (aircraft_markers s)) s)
                | None => mret ()
                end);
      remove_loop register keys
  end.

Definition update_aircrafts (zooms : nat) (answer : json) : P unit :=
  register ← prop "register" (Some answer);
  cur_aircraft_positions ← update_loop (entries register);
  keys ← gets (λ s, (map_to_list (aircraft_markers s)).*1);
  _ ← remove_loop register keys;
  s ← get;
  if negb (bool_decide (length cur_aircraft_positions = 0%nat)) && autozoom s then
    _ ← modify (set_in_progress true);
    _ ← leaflet (λ cs, fly_to_bounds cs cur_aircraft_positions)
          (λ bounds, _ ← emit [FlyToBounds bounds]; fire_zoomstart zooms);
    modify (set_in_progress false)
  else mret ().

(** The first [then] of a request: [response.json()], unless the status is an error. *)
Definition received {S} (r : response) : M js_error S json :=
  match r with
  | Rejected => throw TypeError
  | Response false _ => throw PlainError
  | Response true None => throw SyntaxError
  | Response true (Some body) => mret body
  end.

(** The promise of [fetch_aircrafts]. *)
Definition fetched (r : response) : P json :=
  body ← received r;
  s ← prop "String" (Some body);
  t ← text s;
  match parse t with Some j => mret j | None => throw SyntaxError end.

(** What becomes of an answer: the [then] and the [catch] of the poll. *)
Definition answered (zooms : nat) (r : response) : P unit :=
  try_catch (j ← fetched r; update_aircrafts zooms j) (λ _, aircrafts_catch).
End answer.
