(* ===== verification/AnswerSpec.v ===== *)
(** * Properties of the map page on any answer of the server

    On an answer that reads as a register of Tracker the page does what Tracker says; on any
    other it ends the update with the poll's [catch], and the next flowgraph that arrives
    makes the map consistent again. *)

From Stdlib Require Import SpecFloat String Ascii.
From stdpp Require Import gmap pretty.
From S2P Require Import Prelude TextCodec Memory Closure Glue Tracker TrackerFacts Json Answer.

(** ** What JSON stands for a register *)

Definition nullable {A} (f : A → json) (o : option A) : json :=
  match o with Some a => f a | None => JNull end.

(** The properties of an object, possibly among others. *)
Definition has (ps : list (string * json)) (fields : list (string * json)) : Prop :=
  Forall (λ f, own f.1 ps = Some f.2) fields.

Definition reads_position (x : json) (p : position) : Prop :=
  ∃ ps qs, x = JObject ps ∧ has ps [("position", JObject qs)] ∧
    has qs [("latitude", JNumber (latitude p)); ("longitude", JNumber (longitude p));
            ("altitude", nullable (λ z, JNumber (Int z)) (altitude p))].

Definition velocity_fields (v : velocity) : list (string * json) :=
  [("ground_speed", JNumber (ground_speed v)); ("heading", JNumber (heading v));
   ("vertical_rate", JNumber (Int (vertical_rate v)));
   ("vertical_rate_source", JString (vertical_rate_source v))].
Definition reads_velocity (x : json) (v : velocity) : Prop :=
  ∃ ps qs, x = JObject ps ∧ has ps [("velocity", JObject qs)] ∧ has qs (velocity_fields v).

Definition reads_aircraft (x : json) (v : aircraft) : Prop :=
  ∃ ps qs l m, x = JObject ps ∧
    has ps [("positions", JArray l); ("velocities", JArray m); ("last_seen", JObject qs);
            ("callsign", nullable JString (callsign v));
            ("emitter_category", nullable (λ z, JNumber (Int z)) (emitter_category v))] ∧
    has qs [("secs_since_epoch", JNumber (Int (secs_since_epoch v)));
            ("nanos_since_epoch", JNumber (Int (nanos_since_epoch v)))] ∧
    Forall2 reads_position l (positions v) ∧ Forall2 reads_velocity m (velocities v).

Definition reads_register (x : json) (r : register) : Prop :=
  ∃ ps l, x = JObject ps ∧ has ps [("register", JObject l)] ∧
    Forall2 (λ e e', e.1 = e'.1 ∧ reads_aircraft e.2 e'.2) l r.

(** Numbers that JSON can write, and integers that a double has exactly, as it has their
    neighbours. *)
Definition finite (n : number) : Prop := is_Some (fraction n).
Definition small (z : Z) : Prop := Z.abs z <= 2 ^ 53.

(** A position on the map. *)
Definition located (p : position) : Prop := finite (latitude p) ∧ finite (longitude p).

Record readable (v : aircraft) : Prop := Readable {
  readable_positions : Forall (λ p, located p ∧ from_option small True (altitude p)) (positions v);
  readable_velocities : Forall (λ v, finite (heading v) ∧ small (vertical_rate v)) (velocities v);
  readable_category : from_option small True (emitter_category v)
}.

(** [Number.prototype.toString] writes these integers in decimal with all their digits; of
    larger ones it writes as many digits as tell the double from its neighbours. *)
Class NumberText (number_string : number → string) : Prop :=
  number_string_small z : small z → number_string (Int z) = pretty z.

Lemma number_string_inj `{NumberText number_string} z z' :
  small z → small z' → number_string (Int z) = number_string (Int z') → z = z'.
Proof. intros Hz Hz'. rewrite !number_string_small by done. apply (pretty_Z_inj z z'). Qed.

(** A position as [pos_arr] has it. *)
Definition coords (p : position) : list value :=
  [Some (JNumber (latitude p)); Some (JNumber (longitude p))] ++
  match altitude p with
  | Some z => if z =? 0 then [] else [Some (JNumber (Int z))]
  | None => []
  end.

(** Leaflet takes positions of finite numbers. *)
Class LeafletLaws `{Leaflet} : Prop := {
  set_lat_lng_numbers cs l p : located p → set_lat_lng cs l (coords p) = Taken (pos_of p);
  set_rotation_angle_number cs l n :
    finite n → set_rotation_angle cs l (Some (JNumber n)) = Taken n;
  set_lat_lngs_numbers cs l ps :
    Forall located ps → set_lat_lngs cs l (map coords ps) = Taken (map pos_of ps);
  new_marker_numbers cs p n :
    located p → finite n → new_marker cs (coords p) (Some (JNumber n)) = Taken (pos_of p, n);
  new_polyline_numbers cs ps :
    Forall located ps → new_polyline cs (map coords ps) = Taken (map pos_of ps);
  fly_to_bounds_numbers cs ps :
    Forall located ps → ps ≠ [] → fly_to_bounds cs (map coords ps) = Taken (map pos_of ps);
}.

Lemma has_cons ps f fields : has ps (f :: fields) → own f.1 ps = Some f.2 ∧ has ps fields.
Proof. intros Hf. by inv Hf. Qed.

(** ** What the two branches do where Leaflet takes their arguments *)
Section branches.
Context `{HL : Leaflet}.
Implicit Types s : app.

Lemma leaflet_taken {A} (call : list Tracker.call → taken A) does a s :
  call (calls s) = Taken a → leaflet call does s = does a s.
Proof. intros Hc. unfold leaflet. rewrite (M_bind_ok _ _ _ _ _ (eq_refl : gets _ s = _)). by rewrite Hc. Qed.

Context `{!LeafletLaws}.

Lemma update_marker_run e icao p n content ps s :
  located p → finite n → Forall located ps →
  update_marker e icao (coords p) (Some (JNumber n)) content (map coords ps) s =
    Some (Ok (), set_calls (calls s ++ [SetLatLng (marker e) (pos_of p);
      SetRotationAngle (marker e) n; SetPopupContent (marker e) content; OnPopup (marker e) icao;
      SetLatLngs (pathline e) (map pos_of ps)]) s).
Proof.
  intros Hp Hn Hps. unfold update_marker.
  erewrite M_bind_ok by (by erewrite leaflet_taken by (by apply set_lat_lng_numbers)).
  erewrite M_bind_ok by (by erewrite leaflet_taken by (by apply set_rotation_angle_number)).
  do 2 erewrite M_bind_ok by reflexivity.
  erewrite leaflet_taken by (by apply set_lat_lngs_numbers). unfold emit, modify. simpl.
  by rewrite <- !(assoc_L (++)).
Qed.

Lemma create_marker_run icao p n content ps s :
  located p → finite n → Forall located ps →
  create_marker icao (coords p) (Some (JNumber n)) content (map coords ps) s =
    Some (Ok (), create icao (pos_of p) n content (map pos_of ps) s).
Proof.
  intros Hp Hn Hps. unfold create_marker, create. erewrite M_bind_ok by reflexivity.
  erewrite M_bind_ok by (by erewrite leaflet_taken by (by apply new_marker_numbers)).
  erewrite M_bind_ok by reflexivity.
  erewrite M_bind_ok by (by erewrite leaflet_taken by (by apply new_polyline_numbers)).
  unfold emit, modify. simpl. by rewrite <- (assoc_L (++)).
Qed.

Lemma tracker_create_run ToString local_time icao v cur s :
  Tracker.create_marker ToString local_time icao v cur s =
    Some (Ok (), create icao cur (Tracker.angle v)
      (Tracker.popup_content ToString local_time icao v cur) (Tracker.pos_arr v) s).
Proof.
  unfold Tracker.create_marker, create, fresh, emit, gets, modify, mbind, M_bind, mret, M_ret.
  simpl. by rewrite <- (assoc_L (++)).
Qed.
End branches.

(** ** The second loop *)

Lemma in_register_keys k r :
  in_register k r = inherited k || bool_decide (k ∈ r.*1).
Proof.
  unfold in_register. f_equal. apply eq_bool_prop_intro. rewrite bool_decide_spec.
  rewrite Is_true_true, existsb_exists, list_elem_of_fmap. split.
  - intros (e & He & ->%String.eqb_eq). exists e. split; [done|by apply list_elem_of_In].
  - intros (e & -> & He). exists e. split; [by apply list_elem_of_In|apply String.eqb_refl].
Qed.

(** Where the register is an object, the loop is that of a register with its names. *)
Lemma remove_loop_names `{PopupCloses} x ks r keys s :
  names x = Some ks → (∀ k, k ∈ ks ↔ k ∈ r.*1) →
  remove_loop x keys s = Tracker.remove_loop r keys s.
Proof.
  intros Hx Hks. revert s. induction keys as [|k keys IH]; intros s; [done|].
  cbn [remove_loop Tracker.remove_loop]. unfold is_in. rewrite Hx.
  erewrite M_bind_ok by done. erewrite (M_bind_ok (gets _)) by done.
  rewrite in_register_keys, (bool_decide_ext _ _ (Hks k)).
  apply M_bind_cong; [|intros []; apply IH]. by destruct (inherited k || _).
Qed.

Section agreement.
Context `{HPC : PopupCloses} `{HL : Leaflet} `{HLL : !LeafletLaws}.
Context (number_string : number → string) `{HN : !NumberText number_string}.
Context (string_number : jsstring → number) (date : number → number → jsstring).
Context (parse : jsstring → option json).
Implicit Types (s : app) (v : aircraft) (x : json).

Let ToString (n : number) : jsstring := lit (number_string n).
Let local_time (secs nanos : Z) : jsstring := date (Int secs) (Int nanos).

(** The fields of an object as equations. *)
Ltac fields :=
  repeat match goal with
  | Hh : has _ (_ :: _) |- _ => apply has_cons in Hh as [? Hh]; cbn [fst snd] in *
  | Hh : has _ [] |- _ => clear Hh
  end.
Lemma prop_own k ps y s : own k ps = Some y → prop k (Some (JObject ps)) s = Some (Ok (Some y), s).
Proof. simpl. by intros ->. Qed.

Lemma position_field_run l i y k z s :
  l !! i = Some y → (∃ ps qs, y = JObject ps ∧ own "position" ps = Some (JObject qs) ∧ own k qs = z) →
  position_field number_string (Some (JArray l)) i k s = Some (Ok z, s).
Proof.
  intros Hi (ps & qs & -> & Hp & Hk). unfold position_field.
  assert (Hg : Zget l (Z.of_nat i) = Some (JObject ps)).
  { unfold Zget. rewrite Nat2Z.id, Hi. by destruct (Z.leb_spec 0 (Z.of_nat i)); [|lia]. }
  erewrite M_bind_ok by (cbn [Json.item]; by rewrite Hg).
  erewrite M_bind_ok by (by apply prop_own). simpl. by rewrite Hk.
Qed.

Lemma pos_at_run l i y p s :
  l !! i = Some y → reads_position y p →
  pos_at number_string (Some (JArray l)) i s = Some (Ok (coords p), s).
Proof.
  intros Hi (ps & qs & -> & Hps & Hqs). fields. unfold pos_at.
  do 3 erewrite M_bind_ok by (eapply position_field_run; [exact Hi|eauto 10]).
  unfold coords. destruct (altitude p) as [z|]; [|done]. simpl. by destruct (z =? 0).
Qed.

Lemma pos_loop_run l ps fuel acc s :
  Forall2 reads_position l ps →
  ∀ i, (i ≤ length l)%nat → (length l - i < fuel)%nat →
  pos_loop number_string string_number fuel (Some (JArray l)) i acc s =
    Some (Ok (acc ++ map coords (drop i ps)), s).
Proof.
  intros Hl. revert acc. induction fuel as [|fuel IH]; intros acc i Hi Hf; [lia|]. simpl.
  erewrite M_bind_ok by reflexivity.
  assert (Hless : less (Z.of_nat i) (Int (Zlen l)) = (i <? length l)%nat).
  { unfold less, Zlen. simpl. rewrite Z.mul_1_r.
    destruct (Z.ltb_spec (Z.of_nat i) (Z.of_nat (length l))), (Nat.ltb_spec i (length l)); lia. }
  rewrite Hless. pose proof (list.Forall2_length _ _ _ Hl) as Hlen.
  destruct (Nat.ltb_spec i (length l)) as [Hlt|].
  - destruct (lookup_lt_is_Some_2 l i Hlt) as [y Hy].
    destruct (Forall2_lookup_l _ _ _ _ _ Hl Hy) as (p & Hp & Hr).
    rewrite (M_bind_ok _ _ _ _ _ (pos_at_run l i y p s Hy Hr)).
    rewrite IH by lia. rewrite (drop_S ps p i Hp). simpl. by rewrite <- (assoc_L (++)).
  - rewrite drop_ge by lia. by rewrite app_nil_r.
Qed.
Lemma text_int z s : small z → text number_string (Some (JNumber (Int z))) s = Some (Ok (int_string z), s).
Proof. intros Hz. simpl. by rewrite number_string_small. Qed.

Lemma cur_velocity_run ps m vs s :
  has ps [("velocities", JArray m)] → Forall2 reads_velocity m vs →
  ∃ c, cur_velocity number_string string_number (Some (JObject ps)) s = Some (Ok c, s) ∧
    match list.last vs with
    | Some v => ∃ qs, c = Some (JObject qs) ∧ has qs (velocity_fields v)
    | None => c = Some JNull
    end.
Proof.
  intros Hps Hm. fields. unfold cur_velocity.
  erewrite M_bind_ok by (by apply prop_own). erewrite M_bind_ok by reflexivity.
  pose proof (list.Forall2_length _ _ _ Hm) as Hlen.
  change (less 0 (Int (Zlen m))) with (0 * 1 <? Zlen m).
  destruct (list.last vs) as [v|] eqn:Ev.
  - apply last_Some in Ev as [vs' ->]. apply Forall2_app_inv_r in Hm as (m' & m1 & Hm' & Hm1 & ->).
    apply Forall2_cons_inv_r in Hm1 as (x & m2 & Hx & Hm2 & ->). apply Forall2_nil_inv_r in Hm2 as ->.
    rewrite Zlen_app. pose proof (Zlen_nonneg m'). rewrite Zlen_cons, (Zlen_nil (A := json)).
    destruct (Z.ltb_spec (0 * 1) (Zlen m' + (1 + 0))); [|lia].
    destruct Hx as (qs & rs & -> & Hq & Hr). fields.
    erewrite M_bind_ok.
    2:{ cbn [Json.item pred_number]. replace (Zlen m' + (1 + 0) - 1) with (Zlen m') by lia.
        by rewrite Zget_app_head. }
    eexists. split; [by apply prop_own|]. by exists rs.
  - apply last_None in Ev as ->. apply Forall2_nil_inv_r in Hm as ->. by eexists.
Qed.
Lemma text_or_na t s :
  text number_string (or_else (Some (JString t)) NA) s = Some (Ok (or_na (Some t)), s).
Proof. unfold or_else. by destruct t. Qed.

Lemma text_rate z s :
  small z →
  text number_string (or_else (Some (JNumber (Int z))) NA) s =
    Some (Ok (if z =? 0 then lit "N/A" else int_string z), s).
Proof. intros Hz. unfold or_else. simpl. destruct (z =? 0); [done|by apply text_int]. Qed.

Lemma text_nullable {A} (f : A → json) (g : A → jsstring) (o : option A) s :
  from_option (λ a, string_of number_string (f a) = Some (g a)) True o →
  text number_string (Some (nullable f o)) s = Some (Ok (from_option g (lit "null") o), s).
Proof. destruct o as [a|]; [|done]. simpl. by intros ->. Qed.

Lemma text_altitude p s :
  from_option small True (altitude p) →
  text number_string (coordinate (coords p) 2) s =
    Some (Ok (from_option int_string (lit "undefined") (alt (pos_of p))), s).
Proof.
  unfold coords, pos_of, coordinate. simpl. destruct (altitude p) as [z|]; [|done]. simpl.
  intros Hz. destruct (z =? 0); [done|]. by apply text_int.
Qed.

Lemma last_updated_run ps qs v s :
  has ps [("last_seen", JObject qs)] →
  has qs [("secs_since_epoch", JNumber (Int (secs_since_epoch v)));
          ("nanos_since_epoch", JNumber (Int (nanos_since_epoch v)))] →
  last_updated number_string string_number date (Some (JObject ps)) s =
    Some (Ok (local_time (secs_since_epoch v) (nanos_since_epoch v)), s).
Proof.
  intros Hps Hqs. fields. unfold last_updated. erewrite M_bind_ok by (by apply prop_own).
  erewrite M_bind_ok by (by erewrite M_bind_ok by (by apply prop_own)).
  by erewrite M_bind_ok by (by erewrite M_bind_ok by (by apply prop_own)).
Qed.

(** The last velocity as the page has it. *)
Definition velocity_value (c : value) (o : option velocity) : Prop :=
  match o with
  | Some v => ∃ qs, c = Some (JObject qs) ∧ has qs (velocity_fields v)
  | None => c = Some JNull
  end.

Lemma popup_content_run icao ps qs v c p s :
  has ps [("last_seen", JObject qs); ("callsign", nullable JString (callsign v));
          ("emitter_category", nullable (λ z, JNumber (Int z)) (emitter_category v))] →
  has qs [("secs_since_epoch", JNumber (Int (secs_since_epoch v)));
          ("nanos_since_epoch", JNumber (Int (nanos_since_epoch v)))] →
  velocity_value c (Tracker.cur_velocity v) →
  from_option (λ w, small (vertical_rate w)) True (Tracker.cur_velocity v) →
  from_option small True (altitude p) → from_option small True (emitter_category v) →
  popup_content number_string string_number date icao (Some (JObject ps)) c (coords p) s =
    Some (Ok (Tracker.popup_content ToString local_time icao v (pos_of p)), s).
Proof.
  intros Hps Hqs Hc Hrate Halt Hcat. pose proof Hps as Hps'.
  apply has_cons in Hps' as [Hls Hps'].
  assert (Hlu := last_updated_run ps qs v s ltac:(by repeat constructor) Hqs).
  fields. unfold popup_content, Tracker.popup_content.
  assert (Hcs : text number_string (Some (nullable JString (callsign v))) s =
    Some (Ok (default (lit "null") (callsign v)), s)).
  { rewrite (text_nullable _ (λ c, c)); [by destruct (callsign v)|]. by destruct (callsign v). }
  assert (Hec : text number_string (Some (nullable (λ z, JNumber (Int z)) (emitter_category v))) s =
    Some (Ok (from_option int_string (lit "null") (emitter_category v)), s)).
  { apply text_nullable. destruct (emitter_category v); [|done]. simpl in *.
    by rewrite number_string_small. }
  destruct (Tracker.cur_velocity v) as [w|] eqn:Ew.
  - destruct Hc as (rs & -> & Hrs). unfold velocity_fields in Hrs. fields. cbn [truthy and_prop].
    erewrite M_bind_ok by (by erewrite M_bind_ok by (by apply prop_own)).
    do 2 erewrite M_bind_ok by (by apply prop_own).
    rewrite (M_bind_ok _ _ _ _ _ Hlu).
    erewrite M_bind_ok by (by erewrite M_bind_ok by (by apply prop_own)).
    erewrite M_bind_ok by (by erewrite M_bind_ok by (by apply prop_own)).
    erewrite M_bind_ok by (by apply text_altitude).
    do 2 erewrite M_bind_ok by reflexivity.
    erewrite M_bind_ok by apply text_or_na. erewrite M_bind_ok by (by apply text_rate).
    by erewrite M_bind_ok by apply text_or_na.
  - simpl in Hc. subst c. cbn [truthy and_prop].
    do 3 erewrite M_bind_ok by done.
    rewrite (M_bind_ok _ _ _ _ _ Hlu).
    erewrite M_bind_ok by (by erewrite M_bind_ok by (by apply prop_own)).
    erewrite M_bind_ok by (by erewrite M_bind_ok by (by apply prop_own)).
    erewrite M_bind_ok by (by apply text_altitude).
    by do 5 erewrite M_bind_ok by reflexivity.
Qed.
(** What is read of an aircraft. *)
Definition expected (icao : string) v : option reading :=
  (λ p, Reading (coords p) (map coords (positions v))
     (Tracker.popup_content ToString local_time icao v (pos_of p))
     (Some (JNumber (Tracker.angle v)))) <$> list.last (positions v).

Lemma heading_run c v s :
  velocity_value c (Tracker.cur_velocity v) →
  ∃ h, and_prop c "heading" s = Some (Ok h, s) ∧
    or_else h (Some (JNumber (Int 0))) = Some (JNumber (Tracker.angle v)).
Proof.
  unfold Tracker.angle. destruct (Tracker.cur_velocity v) as [w|].
  - intros (qs & -> & Hqs). unfold velocity_fields in Hqs. fields.
    eexists. split; [by apply prop_own|]. unfold or_else. simpl. by destruct (number_falsy _).
  - intros ->. by eexists.
Qed.

Lemma read_aircraft_run icao x v s :
  reads_aircraft x v → readable v →
  read_aircraft number_string string_number date icao (Some x) s = Some (Ok (expected icao v), s).
Proof.
  intros (ps & qs & l & m & -> & Hps & Hqs & Hl & Hm) [Hpos Hvel Hcat].
  assert (Hc := cur_velocity_run ps m (velocities v) s).
  assert (Hu := λ c p, popup_content_run icao ps qs v c p s).
  pose proof Hps as Hps'. fields. unfold read_aircraft, expected.
  erewrite M_bind_ok by (by apply prop_own). erewrite M_bind_ok by reflexivity.
  pose proof (list.Forall2_length _ _ _ Hl) as Hlen.
  change (less 0 (Int (Zlen l))) with (0 * 1 <? Zlen l).
  destruct (list.last (positions v)) as [p|] eqn:Ep.
  - assert (Hne : (0 < length l)%nat) by (destruct (positions v); [done|rewrite Hlen; simpl; lia]).
    destruct (Z.ltb_spec (0 * 1) (Zlen l)); [|unfold Zlen in *; lia].
    erewrite M_bind_ok.
    2:{ apply (pos_loop_run l _ _ [] s Hl 0); [lia|]. unfold size. simpl.
        rewrite length_imap. lia. }
    rewrite drop_0, app_nil_l.
    assert (Elast : list.last (map coords (positions v)) = Some (coords p))
      by (change (map coords) with (fmap (M := list) coords); by rewrite fmap_last, Ep).
    rewrite Elast.
    destruct Hc as (c & Hc & Hcv); [by repeat constructor|done|].
    rewrite (M_bind_ok _ _ _ _ _ Hc).
    assert (Hp : p ∈ positions v) by (by apply last_Some_elem_of).
    rewrite list.Forall_forall in Hpos. destruct (Hpos p Hp) as [_ Halt].
    erewrite M_bind_ok.
    2:{ apply Hu; [by repeat constructor|by repeat constructor|exact Hcv| |exact Halt|exact Hcat].
        destruct (Tracker.cur_velocity v) as [w|] eqn:Ew; [|done]. simpl.
        rewrite list.Forall_forall in Hvel. apply Hvel. by apply last_Some_elem_of. }
    destruct (heading_run c v s Hcv) as (h & Hh & Ha).
    rewrite (M_bind_ok _ _ _ _ _ Hh). by rewrite Ha.
  - apply last_None in Ep. rewrite Ep in Hlen. destruct l; [|done]. done.
Qed.

Lemma readable_located v : readable v → Forall located (positions v).
Proof. intros [Hpos _ _]. eapply list.Forall_impl; [exact Hpos|]. by intros p [? _]. Qed.

(** Two ways to compute positions that do the same to the page. *)
Definition agrees (m : P (list (list value))) (m' : P (list latlng)) : Prop := ∀ s,
  match m' s with
  | Some (Ok c, s') => ∃ ps, Forall located ps ∧ c = map pos_of ps ∧ m s = Some (Ok (map coords ps), s')
  | Some (Throw e, s') => m s = Some (Throw e, s')
  | None => False
  end.

Lemma angle_finite v : readable v → finite (Tracker.angle v).
Proof.
  intros [_ Hvel _]. unfold Tracker.angle. destruct (Tracker.cur_velocity v) as [w|] eqn:Ew; [|by eexists].
  destruct (number_falsy _); [by eexists|]. rewrite list.Forall_forall in Hvel.
  by apply Hvel, last_Some_elem_of.
Qed.

Lemma update_aircraft_agrees icao x v :
  reads_aircraft x v → readable v →
  agrees (update_aircraft number_string string_number date icao (Some x))
         (Tracker.update_aircraft ToString local_time icao v).
Proof.
  intros Hx Hv s. unfold update_aircraft.
  rewrite (M_bind_ok _ _ _ _ _ (read_aircraft_run icao x v s Hx Hv)). unfold expected.
  assert (El : list.last (Tracker.pos_arr v) = pos_of <$> list.last (positions v))
    by (unfold Tracker.pos_arr; change (map pos_of) with (fmap (M := list) pos_of); by rewrite fmap_last).
  unfold Tracker.update_aircraft. rewrite El.
  destruct (list.last (positions v)) as [p|] eqn:Ep; [|by exists []].
  cbn [fmap option_fmap option_map show].
  pose proof (readable_located _ Hv) as Hpos.
  assert (Hp : located p)
    by (rewrite list.Forall_forall in Hpos; by apply Hpos, last_Some_elem_of).
  pose proof (angle_finite v Hv) as Ha.
  rewrite !(M_bind_ok _ _ _ _ _ (eq_refl : gets aircraft_markers s = _)).
  destruct (in_markers icao (aircraft_markers s)); [destruct (aircraft_markers s !! icao) as [e|]|].
  - rewrite (M_bind_ok (emit _) _ s _ _ eq_refl). exists [p]. split; [by constructor|]. split; [done|].
    by rewrite (M_bind_ok _ _ _ _ _ (update_marker_run e icao p _ _ _ s Hp Ha Hpos)).
  - done.
  - rewrite (M_bind_ok _ _ _ _ _ (tracker_create_run _ _ icao v _ s)). exists [p].
    split; [by constructor|]. split; [done|].
    by rewrite (M_bind_ok _ _ _ _ _ (create_marker_run icao p _ _ _ s Hp Ha Hpos)).
Qed.
Lemma update_loop_agrees l r :
  Forall2 (λ e e', e.1 = e'.1 ∧ reads_aircraft e.2 e'.2) l r → Forall (λ e, readable e.2) r →
  agrees (update_loop number_string string_number date l)
         (Tracker.update_loop ToString local_time r).
Proof.
  induction 1 as [|[k x] [k' v] l r [Hk Hx] _ IH]; intros Hr s; [by exists []|].
  cbn [fst snd] in Hk, Hx. subst k'. inv Hr as [|? ? Hv Hr'].
  cbn [update_loop Tracker.update_loop].
  pose proof (update_aircraft_agrees k x v Hx Hv s) as H1.
  destruct (Tracker.update_aircraft ToString local_time k v s) as [[[c|e] s1]|] eqn:E1; [| |done].
  - destruct H1 as (ps & Hps & -> & H1). rewrite (M_bind_ok _ _ _ _ _ E1), (M_bind_ok _ _ _ _ _ H1).
    specialize (IH Hr' s1).
    destruct (Tracker.update_loop ToString local_time r s1) as [[[cs|e] s2]|] eqn:E2; [| |done].
    + destruct IH as (qs & Hqs & -> & H2). rewrite (M_bind_ok _ _ _ _ _ E2), (M_bind_ok _ _ _ _ _ H2).
      exists (ps ++ qs). rewrite !map_app. split; [by apply Forall_app|done].
    + by rewrite (M_bind_throw _ _ _ _ _ E2), (M_bind_throw _ _ _ _ _ IH).
  - by rewrite (M_bind_throw _ _ _ _ _ E1), (M_bind_throw _ _ _ _ _ H1).
Qed.

Lemma update_aircrafts_agrees zooms x r s :
  reads_register x r → Forall (λ e, readable e.2) r →
  update_aircrafts number_string string_number date zooms x s =
  Tracker.update_aircrafts ToString local_time zooms r s.
Proof.
  intros (ps & l & -> & Hps & Hl) Hr. fields. unfold update_aircrafts, Tracker.update_aircrafts.
  erewrite M_bind_ok by (by apply prop_own). cbn [entries].
  pose proof (update_loop_agrees l r Hl Hr s) as H1.
  destruct (Tracker.update_loop ToString local_time r s) as [[[c|e] s1]|] eqn:E1; [| |done].
  2:{ by rewrite (M_bind_throw _ _ _ _ _ E1), (M_bind_throw _ _ _ _ _ H1). }
  destruct H1 as (qs & Hqs & -> & H1). rewrite (M_bind_ok _ _ _ _ _ E1), (M_bind_ok _ _ _ _ _ H1).
  do 2 erewrite (M_bind_ok (gets _)) by done.
  assert (Hks : l.*1 = r.*1).
  { clear -Hl. induction Hl as [|[? ?] [? ?] l r [Hk _] _ IH]; [done|]. simpl in *. by f_equal. }
  apply M_bind_cong; [by apply (remove_loop_names _ l.*1); [|intros k; by rewrite Hks]|intros [] s2].
  do 2 erewrite (M_bind_ok get) by done.
  rewrite !length_map. destruct (Nat.eq_dec (length qs) 0%nat) as [Hn|Hn]; [by rewrite Hn|].
  destruct (negb _ && _); [|done]. apply M_bind_cong; [done|intros [] s3].
  rewrite (M_bind_cong (leaflet _ _) (_ ← emit [FlyToBounds (map pos_of qs)]; fire_zoomstart zooms) _
    (λ _, modify (set_in_progress false)));
    [done|by rewrite (leaflet_taken _ _ (map pos_of qs)) by
      (apply fly_to_bounds_numbers; [done|by destruct qs])|done].
Qed.
End agreement.

(** ** Reading ends *)
Section ending.
Context (number_string : number → string) `{HN : !NumberText number_string}.
Context (string_number : jsstring → number) (date : number → number → jsstring).

(** The index [j] of an array-like is there. *)
Definition present (v : value) (j : nat) : Prop :=
  ∃ x, ∀ s : app, item number_string (Int (Z.of_nat j)) v s = Some (Ok (Some x), s).

Lemma Zget_nat {A} (l : list A) j : Zget l (Z.of_nat j) = l !! j.
Proof. unfold Zget. rewrite Nat2Z.id. by destruct (Z.leb_spec 0 (Z.of_nat j)); [|lia]. Qed.

Lemma present_list {A} (l : list A) i : (∀ j, (j < i)%nat → is_Some (l !! j)) → (i ≤ length l)%nat.
Proof.
  intros Hl. destruct i as [|i]; [lia|]. specialize (Hl i ltac:(lia)).
  apply lookup_lt_is_Some in Hl. lia.
Qed.

(** There are no more indices than properties. *)
Lemma present_keys ps i :
  Zlen ps < index_bound → (∀ j, (j < i)%nat → present (Some (JObject ps)) j) → (i ≤ length ps)%nat.
Proof.
  unfold index_bound, Zlen. intros Hn Hp. destruct (decide (i ≤ length ps)%nat) as [|Hi]; [done|exfalso].
  assert (Hle : (S (length ps) ≤ length ps)%nat); [|lia].
  rewrite <- (length_fmap fst ps) at 2. rewrite <- (length_seq (S (length ps)) 0) at 1.
  rewrite <- (length_fmap (λ j, number_string (Int (Z.of_nat j)))).
  apply submseteq_length, NoDup_submseteq.
  - apply (NoDup_fmap_2_strong _ _); [|apply NoDup_seq].
    intros j j' Hj%elem_of_seq Hj'%elem_of_seq Heq.
    apply number_string_inj in Heq; unfold small; lia.
  - intros k (j & -> & Hj%elem_of_seq)%list_elem_of_fmap.
    destruct (Hp j ltac:(lia)) as [x Hq]. specialize (Hq inhabitant). simpl in Hq.
    apply (own_elem _ _ x). by injection Hq.
Qed.

Lemma present_size v i : sized_value v → (∀ j, (j < i)%nat → present v j) → (i ≤ size v)%nat.
Proof.
  intros Hv Hp. destruct i as [|i]; [lia|].
  unfold size. destruct v as [[| | |str|l|ps]|]; simpl.
  1,2,3,7: destruct (Hp O ltac:(lia)) as [x Hq]; by specialize (Hq inhabitant).
  - rewrite length_imap. apply present_list. intros j Hj. destruct (Hp j Hj) as [x Hq].
    specialize (Hq inhabitant). simpl in Hq. rewrite Zget_nat in Hq. by destruct (str !! j).
  - rewrite length_imap. apply present_list. intros j Hj. destruct (Hp j Hj) as [x Hq].
    specialize (Hq inhabitant). simpl in Hq. rewrite Zget_nat in Hq. by destruct (l !! j).
  - apply present_keys; [|done]. by apply (sized_object ps).
Qed.

Lemma pure_length_of {S} v : pure (S := S) (length_of number_string string_number v).
Proof. unfold length_of. pure. Qed.
Lemma pure_position_field v i k : pure (S := app) (position_field number_string v i k).
Proof. unfold position_field. pure. Qed.
Lemma pure_and_prop v k : pure (and_prop v k).
Proof. unfold and_prop. pure. Qed.
Hint Resolve pure_length_of pure_position_field pure_and_prop : js.
Lemma pure_pos_at v i : pure (pos_at number_string v i).
Proof. unfold pos_at. pure. Qed.

Lemma pos_at_present v i pos (s : app) :
  pos_at number_string v i s = Some (Ok pos, s) → present v i.
Proof.
  unfold pos_at. intros (lat & s1 & Hlat & _)%M_bind_inv. unfold position_field in Hlat.
  destruct (pure_item (S := app) number_string (Int (Z.of_nat i)) v) as [[[x|]|e] Ho].
  - exists x. exact Ho.
  - by rewrite (M_bind_ok _ _ _ _ _ (Ho s)) in Hlat.
  - by rewrite (M_bind_throw _ _ _ _ _ (Ho s)) in Hlat.
Qed.

Lemma pure_pos_loop v fuel : sized_value v → ∀ i acc,
  (∀ j, (j < i)%nat → present v j) → (size v < fuel + i)%nat →
  pure (pos_loop number_string string_number fuel v i acc).
Proof.
  intros Hv. induction fuel as [|fuel IH]; intros i acc Hp Hf;
    [pose proof (present_size v i Hv Hp); lia|].
  cbn [pos_loop]. apply pure_bind; [auto with js|]. intros n. destruct (less _ n); [|auto with js].
  apply pure_bind_ok; [apply pure_pos_at|]. intros pos Hpos. apply IH; [|lia].
  intros j Hj. destruct (decide (j = i)) as [->|]; [|apply Hp; lia].
  exact (pos_at_present v i pos inhabitant (Hpos inhabitant)).
Qed.

Lemma pure_pos_arr v : sized_value v → pure (pos_arr number_string string_number v).
Proof. intros Hv. apply pure_pos_loop; [done|lia|lia]. Qed.

(** What is read of an aircraft, or that it throws, is a matter of the answer alone. *)
Lemma pure_read_aircraft icao x :
  sized_value x → pure (read_aircraft number_string string_number date icao x).
Proof.
  intros Hx. unfold read_aircraft. apply pure_bind_ok; [auto with js|]. intros v Hv.
  assert (Hs : sized_value v) by exact (sized_prop _ _ _ _ _ Hx (Hv inhabitant)).
  apply pure_bind; [auto with js|]. intros n. destruct (less 0 n); [|auto with js].
  apply pure_bind; [by apply pure_pos_arr|]. intros l.
  unfold cur_velocity, popup_content, last_updated. pure.
Qed.
End ending.

(** ** Any answer *)

(** The answers of a connected page, one after the other. *)
Fixpoint answer_all `{PopupCloses} `{Leaflet} (number_string : number → string)
    (string_number : jsstring → number) (date : number → number → jsstring)
    (parse : jsstring → option json) (rs : list (nat * response)) : P unit :=
  match rs with
  | [] => mret ()
  | (zooms, a) :: rs =>
      _ ← answered number_string string_number date parse zooms a;
      answer_all number_string string_number date parse rs
  end.

(** *** What updates keep *)

(** Calls about one layer, which is no aircraft's. *)
Definition apart (n : nat) (c : call) : Prop := ∀ l, l ≠ n →
  popup_handlers [c] l = [] ∧ has_popup [c] l = false ∧ ∀ p, set_style c l p = p.

Lemma apart_calls n cs l :
  Forall (apart n) cs → l ≠ n →
  popup_handlers cs l = [] ∧ has_popup cs l = false ∧ ∀ p, foldl (λ p c, set_style c l p) p cs = p.
Proof.
  intros Hcs Hl. induction Hcs as [|c cs Hc _ (IH1 & IH2 & IH3)]; [done|].
  destruct (Hc l Hl) as (H1 & H2 & H3). change (c :: cs) with ([c] ++ cs).
  rewrite popup_handlers_app, has_popup_app, H1, H2, IH1, IH2. split_and!; [done..|].
  intros p. simpl. by rewrite H3.
Qed.

(** What was made of the next layer, if anything; it is no aircraft's. *)
Definition aside (cs : list call) (s : app) : app :=
  set_next (S (next_layer s)) (set_calls (calls s ++ cs) s).

Lemma layers_aside cs s : layers_ok s → layers_ok (aside cs s).
Proof.
  intros [Hk Hf Ht Hd]. split; simpl; eauto.
  intros k e l He Hl. specialize (Hf k e l He Hl). lia.
Qed.

Lemma handlers_aside cs s :
  Forall (apart (next_layer s)) cs → layers_ok s → handlers_ok s → handlers_ok (aside cs s).
Proof.
  intros Hcs Hw [Hh Hd Hl Hu]. pose proof (λ k e, owned_lt s k e Hw) as Hlt.
  assert (Ha := λ l Hl, apart_calls _ cs l Hcs Hl).
  split; simpl; intros *; rewrite ?popup_handlers_app, ?has_popup_app.
  - intros He. destruct (Hlt _ _ He). destruct (Ha (marker e)) as (-> & _); [lia|].
    rewrite app_nil_r. by apply Hh.
  - intros He. destruct (Hlt _ _ He). destruct (Ha (marker e)) as (-> & _); [lia|].
    rewrite app_nil_r. by eapply Hd.
  - intros He. destruct (Hlt _ _ He). destruct (Ha (pathline e)) as (_ & -> & _); [lia|].
    rewrite orb_false_r. by eapply Hl.
  - intros Hle. destruct (Hu l ltac:(lia)) as [-> ->]. by destruct (Ha l) as (-> & -> & _); [lia|].
Qed.

Lemma tracked_aside cs s :
  Forall (apart (next_layer s)) cs → tracked s → tracked (aside cs s).
Proof.
  intros Hcs [Hw [Hc Hpo Hs]]. split; [by apply layers_aside|]. split; simpl; [..|done|].
  - by apply handlers_aside.
  - intros k e He. destruct (owned_lt s k e Hw He).
    destruct (apart_calls _ cs (pathline e) Hcs) as (_ & _ & Ha); [lia|].
    rewrite shown_style_app, Ha. by apply (Hs k).
Qed.

(** What any update keeps of the aircraft and their layers. *)
Class Order (I : app → Prop) : Prop := {
  order_layers s : I s → layers_ok s;
  order_removable s : I s → removable s;
  order_frame s s' : view s = view s' → I s → I s';
  order_quiet c s : quiet c → I s → I (set_calls (calls s ++ [c]) s);
  order_gentles k e cs s : Forall (gentle k e) cs → aircraft_markers s !! k = Some e →
    I s → I (set_calls (calls s ++ cs) s);
  order_create k cur a content path s : inherited k = false → aircraft_markers s !! k = None →
    I s → I (create k cur a content path s);
  order_aside cs s : Forall (apart (next_layer s)) cs → I s → I (aside cs s);
  order_remove r k s : I s → I (remove r k s);
}.

#[export] Instance tracked_order : Order tracked.
Proof.
  split.
  - by intros s [? _].
  - apply tracked_removable.
  - apply tracked_frame.
  - intros c s Hc [? ?]. split; [by apply layers_calls|by apply popups_quiet].
  - apply tracked_gentles.
  - apply tracked_create.
  - apply tracked_aside.
  - apply tracked_remove.
Qed.

(** Without the styles of the lines: an open popup is that of a layer that has one, be it an
    aircraft's or not. *)
Record orderly (s : app) : Prop := Orderly {
  ord_layers :> layers_ok s;
  ord_handlers :> handlers_ok s;
  ord_popup l : popup s = Some l → has_popup (calls s) l = true
}.

Lemma orderly_calls cs s :
  orderly s → layers_ok (set_calls (calls s ++ cs) s) → handlers_ok (set_calls (calls s ++ cs) s) →
  orderly (set_calls (calls s ++ cs) s).
Proof. intros [_ _ Hp] ? ?. split; [done..|]. intros l Hl. simpl. by rewrite has_popup_app, Hp. Qed.

#[export] Instance orderly_order : Order orderly.
Proof.
  split.
  - apply ord_layers.
  - intros s [Hw Hh Hp]. split; [done|]. intros k e He Hx%Hp. by rewrite (po_line _ Hh k) in Hx.
  - intros s s' Hv [Hw Hh Hp]. split; [by eapply layers_frame|by eapply handlers_frame|].
    revert Hv. unfold view. intros [= _ _ Hc Ho]. by rewrite <- Ho, <- Hc.
  - intros c s Hc Hs. apply orderly_calls; [done|by apply layers_calls, Hs|by apply handlers_quiet, Hs].
  - intros k e cs s Hcs He Hs. apply orderly_calls; [done|by apply layers_calls, Hs|].
    by apply (handlers_gentles k e); [..|apply Hs|apply Hs].
  - intros k cur a content path s Hi E Hs. split.
    + by apply layers_create, Hs.
    + apply handlers_create; apply Hs.
    + intros l Hl. unfold create. simpl. by rewrite has_popup_app, (ord_popup _ Hs l Hl).
  - intros cs s Hcs Hs. split.
    + apply layers_aside, Hs.
    + by apply handlers_aside; [|apply Hs|apply Hs].
    + intros l Hl. simpl. by rewrite has_popup_app, (ord_popup _ Hs l Hl).
  - intros r k s Hs. split; [by apply layers_remove, Hs|by apply handlers_remove, Hs|].
    intros l. destruct (popup_remove r k s) as [-> | ->]; [|done]. intros Hl%(ord_popup _ Hs).
    unfold remove. destruct (in_register k r); [done|].
    destruct (aircraft_markers s !! k) as [e|]; [|done]. simpl. by rewrite has_popup_app, Hl.
Qed.


(** Texts have fewer than [2^53] code units: that of [JSON.parse], and the body of a response. *)
Class ParsesText (parse : jsstring → option json) : Prop :=
  parse_sized t x : parse t = Some x → sized x.
Definition sized_response (a : response) : bool :=
  match a with Response _ (Some x) => sized x | _ => true end.

Section anything.
Context `{HPC : PopupCloses} `{HPL : !PopupLaws} `{HL : Leaflet}.
Context (number_string : number → string) `{HN : !NumberText number_string}.
Context (string_number : jsstring → number) (date : number → number → jsstring).
Context (parse : jsstring → option json) `{HP : !ParsesText parse}.
Context (on_map : list call → nat → bool) `{!LayerGroup on_map}.
Context (I : app → Prop) `{HI : !Order I}.
Implicit Types s : app.

(** The aircraft and their popups are in order, no other layer is on the map if [clean], and
    all else is as in [s0], except where flying was interrupted. *)
Definition kept (clean : bool) s0 s : Prop :=
  I s ∧ (clean = true → ghostless on_map s) ∧
  frame (set_in_progress (autozoom_in_progress s) s0) s.

Lemma kept_dirty b s0 s : kept b s0 s → kept false s0 s.
Proof. by intros (? & _ & ?). Qed.

Lemma kept_gentles b k e cs s0 s :
  Forall (gentle k e) cs → aircraft_markers s !! k = Some e → kept b s0 s →
  kept b s0 (set_calls (calls s ++ cs) s).
Proof.
  intros Hcs He (Hs & Hg & Hf). split; [by apply (order_gentles k e)|]. split; [|done].
  intros Hb. apply (ghostless_gentles _ k e); auto.
Qed.

Lemma kept_aside cs b s0 s :
  Forall (apart (next_layer s)) cs → kept b s0 s → kept false s0 (aside cs s).
Proof. intros Hcs (Hs & _ & Hf). split; [by apply order_aside|]. by split. Qed.

(** A call of Leaflet that throws has done what it does, or nothing. *)
Lemma leaflet_triple {A} (call : list Tracker.call → taken A) does (P Q R : app → Prop) :
  (∀ a, triple P (does a) (λ _, Q) (λ _, R)) → (∀ s, P s → R s) → (∀ s, Q s → R s) →
  triple P (leaflet call does) (λ _, Q) (λ _, R).
Proof.
  intros Hd HP1 HQ s Hs. unfold leaflet. rewrite (M_bind_ok _ _ _ _ _ (eq_refl : gets _ s = _)).
  destruct (call (calls s)) as [a|[a|]]; [by apply Hd| |eexists _, s; split; [reflexivity|by apply HP1]].
  destruct (Hd a s Hs) as ([[]|e] & s1 & Hr & H1).
  - rewrite (M_bind_ok _ _ _ _ _ Hr). eexists _, s1; split; [reflexivity|by apply HQ].
  - rewrite (M_bind_throw _ _ _ _ _ Hr). by eexists _, s1.
Qed.

(** However far the update of an aircraft that has its layers comes, it harms nothing. *)
Lemma update_marker_any b e icao cur a content path s0 :
  let P s := kept b s0 s ∧ aircraft_markers s !! icao = Some e in
  triple P (update_marker e icao cur a content path) (λ _, P) (λ _, P).
Proof.
  intros P. assert (He : ∀ c, gentle icao e c → triple P (emit [c]) (λ _, P) (λ _, P)).
  { intros c Hc s [Hk He]. eexists _, _. split; [reflexivity|]. split; [|done].
    apply (kept_gentles b icao e); [by constructor|done|done]. }
  assert (Hl : ∀ A (call : list Tracker.call → taken A) f, (∀ a, gentle icao e (f a)) →
    triple P (leaflet call (λ a, emit [f a])) (λ _, P) (λ _, P))
    by (intros A call f Hf; apply leaflet_triple; auto).
  unfold update_marker.
  eapply triple_bind; [apply (Hl _ _ (λ pos, SetLatLng _ pos))|intros []].
  { intros pos. by split; [left|]. }
  eapply triple_bind; [apply (Hl _ _ (λ n, SetRotationAngle _ n))|intros []].
  { intros n. by split; [left|]. }
  eapply triple_bind; [apply He; by split; [left|]|intros []].
  eapply triple_bind; [apply He; by split; [right|]|intros []].
  apply (Hl _ _ (λ q, SetLatLngs _ q)). intros q. by split; [left|].
Qed.

Lemma apart_marker n cur a content k :
  Forall (apart n) [NewMarker n cur a; BindPopup n content; OnPopup n k; AddTo n].
Proof. repeat constructor; simpl; by destruct (Nat.eqb_spec n l); [congruence|]. Qed.
Lemma apart_line n path : Forall (apart n) [NewPolyline n path; AddTo n].
Proof. repeat constructor; intros p; simpl; by destruct (Nat.eqb_spec n l); [congruence|]. Qed.

(** A new aircraft: what was put on the map before an exception stays there. *)
Lemma create_marker_any b icao cur a content path s0 s :
  kept b s0 s → inherited icao = false → aircraft_markers s !! icao = None →
  ∃ o s', create_marker icao cur a content path s = Some (o, s') ∧
    match o with Ok _ => kept b s0 s' | Throw _ => kept false s0 s' end.
Proof.
  intros Hs Hi E. pose proof (kept_dirty b s0 s Hs) as Hd. set (n := next_layer s).
  unfold create_marker, leaflet, fresh, emit, gets, modify, throw, mbind, M_bind, mret, M_ret. simpl.
  assert (Hm : ∀ p x, kept false s0 (aside [NewMarker n p x; BindPopup n content; OnPopup n icao;
    AddTo n] s)) by (intros p x; apply (kept_aside _ b); [apply apart_marker|done]).
  destruct (new_marker (calls s) cur a) as [[p x]|[[p x]|]]; simpl.
  - specialize (Hm p x). destruct (new_polyline _ _) as [q|[q|]]; simpl; eexists _, _; (split; [reflexivity|]).
    + destruct Hs as (Hs & Hg & Hf).
      pose proof (order_create icao p x content q s Hi E Hs) as Hc. unfold create in Hc. simpl in Hc.
      fold n in Hc |- *. split; [|split; [|done]].
      * by rewrite <- (assoc_L (++)).
      * intros Hb. pose proof (ghostless_create on_map icao p x content q s E (Hg Hb)) as Hgc.
        unfold create in Hgc. simpl in Hgc. fold n in Hgc. intros l. simpl.
        rewrite <- (assoc_L (++)). apply Hgc.
    + apply (kept_aside [NewPolyline (S n) q; AddTo (S n)]) in Hm; [exact Hm|apply apart_line].
    + apply (kept_aside []) in Hm; [|constructor]. unfold aside in Hm. simpl in Hm.
      by rewrite app_nil_r in Hm.
  - eexists _, _. split; [reflexivity|]. exact (Hm p x).
  - eexists _, _. split; [reflexivity|].
    apply (kept_aside []) in Hs; [|constructor]. unfold aside in Hs.
    by rewrite app_nil_r in Hs.
Qed.

Lemma show_triple b s0 icao x :
  triple (kept b s0) (show icao x) (λ _, kept b s0) (λ _, kept false s0).
Proof.
  intros s Hs. pose proof (kept_dirty b s0 s Hs) as Hm.
  destruct x as [[cur path content a]|]; [|by eexists _, _].
  unfold show. rewrite (M_bind_ok _ _ _ _ _ (eq_refl : gets aircraft_markers s = _)).
  match goal with |- context [mbind _ ?m s] => assert (Hb : ∃ o s', m s = Some (o, s') ∧
    match o with Ok _ => kept b s0 s' | Throw _ => kept false s0 s' end) end.
  { unfold in_markers. destruct (inherited icao) eqn:Hi; simpl.
    { destruct (aircraft_markers s !! icao) as [e|] eqn:E; [|by eexists _, s].
      destruct Hs as [Hs _]. by rewrite (wf_key _ (order_layers _ Hs) _ _ E) in Hi. }
    destruct (aircraft_markers s !! icao) as [e|] eqn:E; simpl.
    - destruct (update_marker_any b e icao cur a content path s0 s) as (o & s' & Hr & Ho); [done|].
      exists o, s'. split; [done|]. destruct o; destruct Ho; [done|by eapply kept_dirty].
    - by apply create_marker_any. }
  destruct Hb as ([[]|e] & s' & Hr & Ho).
  - rewrite (M_bind_ok _ _ _ _ _ Hr). by eexists _, _.
  - rewrite (M_bind_throw _ _ _ _ _ Hr). by eexists _, _.
Qed.

(** Reading changes nothing. *)
Lemma pure_triple {A} b s0 (m : P A) (Q : A → Prop) :
  pure m → (∀ a, (∀ s, m s = Some (Ok a, s)) → Q a) →
  triple (kept b s0) m (λ a s, kept b s0 s ∧ Q a) (λ _, kept false s0).
Proof.
  intros [o Ho] HQ s Hs. exists o, s. split; [done|].
  destruct o; [split; [done|by apply HQ]|by eapply kept_dirty].
Qed.

Lemma update_loop_triple b s0 r :
  Forall (λ e, sized e.2) r →
  triple (kept b s0) (update_loop number_string string_number date r)
    (λ _, kept b s0) (λ _, kept false s0).
Proof.
  induction 1 as [|[icao x] r Hx _ IH]; [by apply triple_ret|]. cbn [update_loop].
  eapply triple_bind.
  - eapply triple_bind; [apply (pure_triple _ _ _ (λ _, True)); [by apply pure_read_aircraft|done]|].
    intros y. eapply triple_pre; [|apply show_triple]. by intros s [? _].
  - intros c. eapply triple_bind; [exact IH|]. intros cs. by apply triple_ret.
Qed.

(** Aircraft of which only the names count. *)
Definition nameless : aircraft := Aircraft None None [] [] 0 0.

Lemma remove_loop_triple b s0 x keys :
  triple (kept b s0) (remove_loop x keys) (λ _, kept b s0) (λ _, kept b s0).
Proof.
  intros s (Ht & Hg & Hf). destruct (names x) as [ks|] eqn:Hx.
  - set (r := map (λ k, (k, nameless)) ks).
    assert (Hr : ∀ k, k ∈ ks ↔ k ∈ r.*1) by (intros k; subst r; by rewrite map_map, map_id).
    rewrite (remove_loop_names x ks r keys s Hx Hr).
    pose proof (remove_loop_removes r keys s (order_removable _ Ht)) as Hrun. rewrite Hrun.
    eexists _, _. split; [done|]. split; [|split].
    + apply (removes_ind I); [intros; by apply order_remove|done].
    + intros Hb. apply (removes_ind (ghostless on_map)); [intros; by apply ghostless_remove|auto].
    + pose proof (frame_remove_loop _ r keys s _ _ Hf Hrun) as Hf'.
      by replace (autozoom_in_progress (removes r keys s)) with (autozoom_in_progress s)
        by (symmetry; apply Hf').
  - destruct keys as [|k keys]; [by eexists _, _|]. cbn [remove_loop]. unfold is_in. rewrite Hx.
    by eexists _, s.
Qed.

(** Flying, or being interrupted. *)
Lemma fly_triple b zooms (cur : list (list value)) s0 :
  triple (λ s, kept b s0 s ∧ autozoom_in_progress s = true)
    (leaflet (λ cs, fly_to_bounds cs cur) (λ q, _ ← emit [FlyToBounds q]; fire_zoomstart zooms))
    (λ _, kept b s0) (λ _, kept false s0).
Proof.
  apply leaflet_triple; [|by intros s [? _]; eapply kept_dirty|by intros s ?; eapply kept_dirty].
  intros q s [(Hs & Hg & Hf) Hz]. erewrite M_bind_ok by reflexivity.
  rewrite fire_zoomstart_run by done. eexists _, _. split; [reflexivity|]. split; [|split].
  - by apply order_quiet.
  - intros Hb l. simpl. rewrite group_call. by apply Hg.
  - done.
Qed.

Lemma update_aircrafts_triple b s0 zooms x :
  sized x →
  triple (kept b s0) (update_aircrafts number_string string_number date zooms x)
    (λ _, kept b s0) (λ _, kept false s0).
Proof.
  intros Hx. unfold update_aircrafts.
  eapply triple_bind; [apply (pure_triple _ _ _ sized_value); [apply pure_prop|]|].
  { intros v Hv. exact (sized_prop _ _ _ _ _ (Hx : sized_value (Some x)) (Hv inhabitant)). }
  intros y s [Hs Hy]. revert s Hs. apply (triple_bind _ _ _ (λ _, kept b s0)).
  { by apply update_loop_triple, sized_entries. }
  intros c. apply (triple_bind _ _ _ (λ _, kept b s0)); [by apply triple_gets|]. intros keys.
  apply (triple_bind _ _ _ (λ _, kept b s0)).
  { intros s Hs. destruct (remove_loop_triple b s0 y keys s Hs) as (o' & s' & Hr & Ho').
    exists o', s'. split; [done|]. destruct o'; [done|by eapply kept_dirty]. }
  intros _ s Hs. rewrite (M_bind_ok _ _ _ _ _ (eq_refl : get s = _)).
  destruct (negb _ && _); [|by eexists _, s]. revert s Hs.
  assert (Hset : ∀ z s, kept b s0 s → kept b s0 (set_in_progress z s)).
  { intros z s (Hs & Hg & Hf). split; [by apply (order_frame s)|]. split; [done|].
    unfold frame in *. simpl in *. intuition congruence. }
  apply (triple_bind _ _ _ (λ _ s, kept b s0 s ∧ autozoom_in_progress s = true)).
  { apply triple_modify. intros s Hs. split; [by apply Hset|done]. }
  intros _. eapply triple_bind; [apply fly_triple|]. intros []. apply triple_modify. auto.
Qed.

Lemma pure_received {S} a : pure (S := S) (received a).
Proof. destruct a as [|[] [x|]]; simpl; auto with js. Qed.
Hint Resolve pure_received : js.
Lemma pure_fetched a : pure (S := app) (fetched number_string parse a).
Proof. unfold fetched. pure. Qed.

Lemma fetched_sized a x (s s' : app) :
  fetched number_string parse a s = Some (Ok x, s') → sized x.
Proof.
  unfold fetched. intros (body & s1 & _ & Hb)%M_bind_inv.
  apply M_bind_inv in Hb as (v & s2 & _ & Hb). apply M_bind_inv in Hb as (t & s3 & _ & Hb).
  destruct (parse t) as [y|] eqn:E; [|done]. injection Hb as <- _. by eapply parse_sized.
Qed.

Lemma answered_triple b s0 zooms a :
  sized_response a →
  triple (kept b s0) (answered number_string string_number date parse zooms a)
    (λ _ s, kept b s0 s ∨ kept false (set_state 1 s0) s) (λ _ _, False).
Proof.
  intros Ha. unfold answered. apply (triple_try_catch _ _ _ _ _ (λ _, kept false s0)).
  - eapply triple_bind; [apply (pure_triple _ _ _ sized); [apply pure_fetched|]|].
    { intros x Hx. exact (fetched_sized a x inhabitant inhabitant (Hx _)). }
    intros x s [Hs Hx]. revert s Hs.
    eapply triple_conseq; [|by apply (update_aircrafts_triple b s0 zooms x)| |];
      [done|by left|done].
  - intros e s (Hs & _ & Hf). eexists _, _. split; [reflexivity|]. right. split; [|split].
    + by apply (order_frame s).
    + done.
    + destruct Hf as (? & ? & ? & ? & ? & ?). by split_and!.
Qed.

Lemma kept_self b s0 s : kept b s0 s → kept b s s.
Proof. intros (? & ? & _). by split_and!. Qed.

Lemma answer_all_kept b rs s :
  kept b s s → Forall (λ a, sized_response a.2) rs →
  ∃ s1, answer_all number_string string_number date parse rs s = Some (Ok (), s1) ∧
    (kept b s s1 ∨ kept false (set_state 1 s) s1).
Proof.
  intros Hs Hrs. revert b s Hs. induction Hrs as [|[zooms a] rs Ha _ IH]; intros b s Hs; [exists s; auto|].
  cbn [answer_all]. destruct (answered_triple b s zooms a Ha s Hs) as ([[]|e] & s1 & Hr & Ho); [|done].
  rewrite (M_bind_ok _ _ _ _ _ Hr).
  destruct Ho as [Hk|Hk]; pose proof (kept_self _ _ _ Hk) as Hk1; destruct Hk as (_ & _ & Hf).
  - destruct (IH b s1 Hk1) as (s2 & Hr2 & Hk2). exists s2. split; [done|].
    destruct Hk2 as [(? & ? & Hf2)|(? & ? & Hf2)]; [left|right]; split_and!; try done;
      unfold frame in *; simpl in *; intuition congruence.
  - destruct (IH false s1 Hk1) as (s2 & Hr2 & Hk2). exists s2. split; [done|]. right.
    destruct Hk2 as [(? & ? & Hf2)|(? & ? & Hf2)]; split_and!; try done;
      unfold frame in *; simpl in *; intuition congruence.
Qed.
End anything.

(** Aircraft that are not updated keep their layers. *)
Lemma markers_steps_other `{PopupCloses} ToString local_time r k s :
  k ∉ r.*1 → aircraft_markers (steps ToString local_time r s) !! k = aircraft_markers s !! k.
Proof.
  revert s. induction r as [|[k' v] r IH]; intros s Hk; [done|]. simpl in Hk.
  apply not_elem_of_cons in Hk as [Hne Hk]. etrans; [by apply IH|]. simpl.
  destruct (list.last (Tracker.pos_arr v)); [|done].
  destruct (aircraft_markers s !! k') as [e|]; [done|]. simpl. by rewrite lookup_insert_ne.
Qed.

(** What a good response is read to. *)
Lemma fetched_run number_string parse ps t x (s : app) :
  own "String" ps = Some (JString t) → parse t = Some x →
  fetched number_string parse (Response true (Some (JObject ps))) s = Some (Ok x, s).
Proof.
  intros Hps Ht. unfold fetched. erewrite M_bind_ok by reflexivity.
  erewrite M_bind_ok by (by apply prop_own). erewrite M_bind_ok by reflexivity. by rewrite Ht.
Qed.

(** The loop ends at the first aircraft that cannot be read. *)
Lemma update_loop_blocked `{Leaflet} number_string string_number date pre k x post e s c s1 :
  (∀ s, read_aircraft number_string string_number date k (Some x) s = Some (Throw e, s)) →
  update_loop number_string string_number date pre s = Some (Ok c, s1) →
  update_loop number_string string_number date (pre ++ (k, x) :: post) s = Some (Throw e, s1).
Proof.
  intros Hx. revert s c. induction pre as [|[k' x'] pre IH]; intros s c Hpre.
  - injection Hpre as <- <-. cbn [List.app update_loop]. unfold update_aircraft.
    by erewrite M_bind_throw by (by apply M_bind_throw, Hx).
  - cbn [List.app update_loop] in *. apply M_bind_inv in Hpre as (c1 & s2 & H1 & Hpre).
    rewrite (M_bind_ok _ _ _ _ _ H1).
    apply M_bind_inv in Hpre as (c2 & s3 & H2 & Hpre). injection Hpre as _ <-.
    by rewrite (M_bind_throw _ _ _ _ _ (IH s2 c2 H2)).
Qed.

(** A sample of the engine and of Leaflet. *)
Module AnswerSample.
Definition latlng_of (l : list value) : option latlng :=
  match l with
  | Some (JNumber a) :: Some (JNumber b) :: l =>
      Some (LatLng a b match l with [Some (JNumber (Int z))] => Some z | _ => None end)
  | _ => None
  end.
Definition taken_of {A} (o : option A) : taken A :=
  match o with Some a => Taken a | None => Refused None end.
(** Making a layer throws; a marker that cannot be moved has lost its place. *)
#[global] Instance leaflet : Leaflet := {
  set_lat_lng _ _ l :=
    match latlng_of l with Some p => Taken p | None => Refused (Some (LatLng (Int 0) (Int 0) None)) end;
  set_rotation_angle _ _ v := match v with Some (JNumber n) => Taken n | _ => Refused None end;
  set_lat_lngs _ _ ps := taken_of (mapM latlng_of ps);
  new_marker _ l v :=
    match latlng_of l, v with Some p, Some (JNumber n) => Taken (p, n) | _, _ => Refused None end;
  new_polyline _ ps := taken_of (mapM latlng_of ps);
  fly_to_bounds _ ps := taken_of (mapM latlng_of ps)
}.
Lemma latlng_of_coords p : latlng_of (coords p) = Some (pos_of p).
Proof. destruct p as [lat lng [z|]]; [|done]. unfold coords, pos_of. simpl. by destruct (z =? 0). Qed.
Lemma latlngs_of_coords ps : mapM latlng_of (map coords ps) = Some (map pos_of ps).
Proof. induction ps as [|p ps IH]; [done|]. cbn [map mapM]. by rewrite latlng_of_coords, IH. Qed.
#[global] Instance leaflet_laws : LeafletLaws.
Proof.
  split; intros; cbn [set_lat_lng set_rotation_angle set_lat_lngs new_marker new_polyline
    fly_to_bounds leaflet]; by rewrite ?latlng_of_coords, ?latlngs_of_coords.
Qed.

Definition number_string (n : number) : string := match n with Int z => pretty z | Float _ => "NaN" end.
#[global] Instance number_text : NumberText number_string.
Proof. done. Qed.

Definition string_number (s : jsstring) : number := Float S754_nan.
Definition date (secs nanos : number) : jsstring := lit "now".

(** Rust's record, with fields the page does not read. *)
Definition plane (icao : string) (ground_speed : json) : json :=
  JObject [("icao", JString (lit icao)); ("callsign", JString (lit "DLH123"));
    ("emitter_category", JNull);
    ("positions", JArray [JObject [("position", JObject [("latitude", JNumber (Int 48));
      ("longitude", JNumber (Int 9)); ("altitude", JNumber (Int 32000))]); ("time", JNull)]]);
    ("velocities", JArray [JObject [("velocity", JObject [("heading", JNumber (Int 90));
      ("ground_speed", ground_speed); ("vertical_rate", JNumber (Int 0));
      ("vertical_rate_source", JString (lit "GeometricAltitude"))])]]);
    ("last_seen", JObject [("secs_since_epoch", JNumber (Int 1700000000));
      ("nanos_since_epoch", JNumber (Int 0))])].

Definition register (ps : list (string * json)) : json := JObject [("register", JObject ps)].
Definition good : json := register [("3c6444", plane "3c6444" (JNumber (Int 400)))].
(** A ground speed that is no number is [null] in JSON. *)
Definition bad : json :=
  register [("3c6444", plane "3c6444" (JNumber (Int 400))); ("abcdef", plane "abcdef" JNull)].
(** One of the positions has no latitude: the marker can be made, the line cannot. *)
Definition nowhere : json :=
  JObject [("position", JObject [("latitude", JNull); ("longitude", JNumber (Int 9));
                                 ("altitude", JNull)])].
Definition odd : json :=
  match plane "abcdef" (JNumber (Int 400)) with
  | JObject ps =>
      let ls := match own "positions" ps with Some (JArray l) => l | _ => [] end in
      register [("abcdef", JObject (("positions", JArray (nowhere :: ls)) :: ps))]
  | x => x
  end.
Definition parse (t : jsstring) : option json :=
  if bool_decide (t = lit "good") then Some good
  else if bool_decide (t = lit "odd") then Some odd
  else if bool_decide (t = lit "bad") then Some bad else None.
Definition body (t : string) : response := Response true (Some (JObject [("String", JString (lit t))])).

Lemma reads_plane : reads_aircraft (plane "3c6444" (JNumber (Int 400))) Sample.plane.
Proof.
  eexists _, _, _, _. split; [reflexivity|]. split; [by repeat constructor|].
  split; [by repeat constructor|].
  split; repeat constructor; (eexists _, _; split; [reflexivity|]; split; by repeat constructor).
Qed.
Lemma readable_plane : readable Sample.plane.
Proof.
  split; [| |done]; (constructor; [|constructor]).
  - split; [split; by eexists|done].
  - split; [by eexists|done].
Qed.
#[global] Instance parses_text : ParsesText parse.
Proof. intros t x. unfold parse. repeat case_bool_decide; intros [= <-]; done. Qed.
Lemma reads_good : reads_register good Sample.register.
Proof.
  eexists _, _. split; [reflexivity|]. split; [by repeat constructor|].
  constructor; [|constructor]. split; [done|apply reads_plane].
Qed.
End AnswerSample.

(** ** Properties *)

(** C13: an answer whose text is the JSON of a register -- with whatever further fields -- does
    exactly what Tracker's typed model says, on any page: the same calls of Leaflet, the same
    aircraft, the same exceptions. *)
Theorem answer_agrees `{HPC : PopupCloses} `{HL : Leaflet} `{!LeafletLaws}
    (number_string : number → string) `{!NumberText number_string}
    (string_number : jsstring → number) (date : number → number → jsstring)
    (parse : jsstring → option json) (zooms : nat) (ps : list (string * json)) (t : jsstring)
    (x : json) (r : register) (s : app) :
  own "String" ps = Some (JString t) → parse t = Some x →
  reads_register x r → Forall (λ e, readable e.2) r →
  answered number_string string_number date parse zooms (Response true (Some (JObject ps))) s =
  aircrafts_then (λ n, lit (number_string n)) (λ secs nanos, date (Int secs) (Int nanos)) zooms r s.
Proof.
  intros Hps Ht Hx Hr. unfold answered, aircrafts_then, try_catch.
  erewrite M_bind_ok; [by rewrite (update_aircrafts_agrees number_string string_number date zooms x r)|].
  by apply (fetched_run _ _ ps t).
Qed.

Lemma answer_agrees_witness :
  let s := set_state 2 app0 in
  ∃ s', answered AnswerSample.number_string AnswerSample.string_number AnswerSample.date
          AnswerSample.parse 1 (AnswerSample.body "good") s = Some (Ok (), s') ∧
    aircrafts_then (λ n, lit (AnswerSample.number_string n))
      (λ secs nanos, AnswerSample.date (Int secs) (Int nanos)) 1 Sample.register s =
      Some (Ok (), s') ∧ aircraft_markers s' !! "3c6444" = Some (Entry 0 1).
Proof.
  intros s. eexists. split; [vm_compute; reflexivity|]. split; [|vm_compute; reflexivity].
  rewrite <- (answer_agrees AnswerSample.number_string AnswerSample.string_number
    AnswerSample.date AnswerSample.parse 1 [("String", JString (lit "good"))] (lit "good")
    AnswerSample.good Sample.register).
  - vm_compute; reflexivity.
  - reflexivity.
  - reflexivity.
  - apply AnswerSample.reads_good.
  - constructor; [apply AnswerSample.readable_plane|constructor].
Defined.

(** Whatever the server answers -- no response, an error status, a body that is no JSON, a
    register of any shape -- and whatever of it Leaflet refuses, each answer is dealt with:
    reading it ends, no exception is left to the browser, aircraft and popups stay in order,
    and the poll goes on as it was or asks for the flowgraph again.  As long as no answer
    throws, no layer is left behind on the map; and once a flowgraph arrives, the page is as
    consistent as after loading. *)
Theorem any_answer_recovers `{HPC : PopupCloses} `{!PopupLaws} `{HL : Leaflet}
    (number_string : number → string) `{!NumberText number_string}
    (string_number : jsstring → number) (date : number → number → jsstring)
    (parse : jsstring → option json) `{!ParsesText parse}
    (on_map : list call → nat → bool) `{!LayerGroup on_map}
    (rs : list (nat * response)) (s : app) :
  tracked s → aircraft_poll_state s = 2 → map_and_group s = true →
  Forall (λ a, sized_response a.2) rs →
  ∃ s1, answer_all number_string string_number date parse rs s = Some (Ok (), s1) ∧
    tracked s1 ∧ autozoom s1 = autozoom s ∧
    (aircraft_poll_state s1 = 2 ∧ (wf on_map s → wf on_map s1) ∨ aircraft_poll_state s1 = 1) ∧
    ∀ f, ∃ s2, fg_then f s1 = Some (Ok (), s2) ∧ wf on_map s2 ∧ aircraft_poll_state s2 = 2 ∧
      ∀ l, on_map (calls s2) l = false.
Proof.
  intros Ht Hst Hm Hrs.
  destruct (answer_all_kept number_string string_number date parse on_map tracked false rs s)
    as (s1 & Hr & Hk); [by split_and!|done|].
  assert (Hfr : tracked s1 ∧ autozoom s1 = autozoom s ∧ map_and_group s1 = true)
    by (destruct Hk as [(? & _ & Hf)|(? & _ & Hf)]; unfold frame in Hf; simpl in Hf;
        intuition congruence).
  destruct Hfr as (Ht1 & Hz1 & Hm1). exists s1. do 3 (split; [done|]). split.
  - destruct (decide (aircraft_poll_state s1 = 2)) as [H2|H2].
    + left. split; [done|]. intros [_ Hg].
      destruct (answer_all_kept number_string string_number date parse on_map tracked true rs s)
        as (s1' & Hr' & Hk'); [by split_and!|done|].
      assert (s1' = s1) as -> by congruence.
      destruct Hk' as [(? & ? & _)|(_ & _ & Hf)]; [split; auto|].
      unfold frame in Hf. simpl in Hf. intuition congruence.
    + right. destruct Hk as [(_ & _ & Hf)|(_ & _ & Hf)]; unfold frame in Hf; simpl in Hf;
        intuition congruence.
  - intros f. destruct (fg_then_clears on_map f s1 Hm1 Ht1)
      as (s2 & ? & ? & ? & _ & _ & _ & _ & _ & ?). by exists s2.
Qed.

Lemma any_answer_recovers_witness :
  let s := set_loaded true Sample.connected in
  let rs := [(1%nat, AnswerSample.body "good"); (0%nat, AnswerSample.body "bad"); (0%nat, Rejected);
             (0%nat, Response true (Some (JArray []))); (0%nat, AnswerSample.body "junk")] in
  ∃ s1, answer_all AnswerSample.number_string AnswerSample.string_number AnswerSample.date
          AnswerSample.parse rs s = Some (Ok (), s1) ∧
    aircraft_poll_state s1 = 1 ∧ tracked s1 ∧
    ∀ f, ∃ s2, fg_then f s1 = Some (Ok (), s2) ∧ wf in_group s2 ∧ aircraft_poll_state s2 = 2 ∧
      ∀ l, in_group (calls s2) l = false.
Proof.
  intros s rs.
  destruct (any_answer_recovers AnswerSample.number_string AnswerSample.string_number
    AnswerSample.date AnswerSample.parse in_group rs s) as (s1 & Hr & Ht & _ & Hs & Hf).
  - apply (tracked_frame Sample.connected); [done|apply Sample.wf_connected].
  - reflexivity.
  - reflexivity.
  - by repeat constructor.
  - exists s1. split; [done|]. split; [|by split].
    assert (He : aircraft_poll_state <$> (snd <$> answer_all AnswerSample.number_string
      AnswerSample.string_number AnswerSample.date AnswerSample.parse rs s) = Some 1)
      by (vm_compute; reflexivity).
    rewrite Hr in He. by injection He.
Defined.

(** C33: one aircraft that cannot be read blocks all that come after it: those before it are
    updated, those after it and those that have left the register are not -- their layers stay
    as they were, although the answer says otherwise -- and the page reconnects. *)
Theorem unreadable_aircraft_blocks `{HPC : PopupCloses} `{HL : Leaflet} `{!LeafletLaws}
    (number_string : number → string) `{!NumberText number_string}
    (string_number : jsstring → number) (date : number → number → jsstring)
    (parse : jsstring → option json) (zooms : nat) (ps qs : list (string * json)) (t : jsstring)
    (pre post : list (string * json)) (k : string) (x : json) (r : register) (e : js_error)
    (s : app) :
  own "String" ps = Some (JString t) → parse t = Some (JObject qs) →
  own "register" qs = Some (JObject (pre ++ (k, x) :: post)) →
  reads_register (JObject [("register", JObject pre)]) r → Forall (λ e, readable e.2) r →
  plain_keys r →
  (∀ s, read_aircraft number_string string_number date k (Some x) s = Some (Throw e, s)) →
  ∃ s1, answered number_string string_number date parse zooms (Response true (Some (JObject ps))) s =
      Some (Ok (), s1) ∧
    s1 = set_state 1 (steps (λ n, lit (number_string n))
      (λ secs nanos, date (Int secs) (Int nanos)) r s) ∧
    (∀ k', k' ∉ r.*1 → aircraft_markers s1 !! k' = aircraft_markers s !! k') ∧
    ∀ k', is_Some (aircraft_markers s !! k') → is_Some (aircraft_markers s1 !! k').
Proof.
  intros Hps Ht Hqs (ps' & l & [= <-] & Hl & Hr) Hre Hpk Hx.
  apply has_cons in Hl as [Hl _]. injection Hl as <-.
  set (ToString := λ n, lit (number_string n)).
  set (local_time := λ secs nanos, date (Int secs) (Int nanos)).
  exists (set_state 1 (steps ToString local_time r s)). split_and!; [|done|..].
  - assert (Hup : update_aircrafts number_string string_number date zooms (JObject qs) s =
      Some (Throw e, steps ToString local_time r s)).
    { pose proof (update_loop_agrees number_string string_number date pre r Hr Hre s) as Hpre.
      rewrite (update_loop_run _ _ r s Hpk) in Hpre. destruct Hpre as (c & _ & _ & Hpre).
      unfold update_aircrafts. erewrite M_bind_ok by (by apply prop_own). cbn [entries].
      by rewrite (M_bind_throw _ _ _ _ _ (update_loop_blocked _ _ _ _ _ _ _ _ _ _ _ Hx Hpre)). }
    unfold answered, try_catch. erewrite M_bind_ok; [by rewrite Hup|].
    by apply (fetched_run _ _ ps t).
  - intros k' Hk'. by apply markers_steps_other.
  - intros k' Hk'. simpl. apply markers_steps. by left.
Qed.

(** The second aircraft has no ground speed; the one that has gone keeps its layers. *)
Lemma unreadable_aircraft_blocks_witness :
  let s := set_markers (<["aaaaaa" := Entry 0 1]> ∅) (set_next 2 (set_state 2 app0)) in
  ∃ s1, answered AnswerSample.number_string AnswerSample.string_number AnswerSample.date
          AnswerSample.parse 0 (AnswerSample.body "bad") s = Some (Ok (), s1) ∧
    aircraft_poll_state s1 = 1 ∧ aircraft_markers s1 !! "3c6444" = Some (Entry 2 3) ∧
    aircraft_markers s1 !! "aaaaaa" = Some (Entry 0 1) ∧ aircraft_markers s1 !! "abcdef" = None.
Proof.
  intros s.
  destruct (unreadable_aircraft_blocks AnswerSample.number_string AnswerSample.string_number
    AnswerSample.date AnswerSample.parse 0 [("String", JString (lit "bad"))]
    [("register", JObject [("3c6444", AnswerSample.plane "3c6444" (JNumber (Int 400)));
                           ("abcdef", AnswerSample.plane "abcdef" JNull)])] (lit "bad")
    [("3c6444", AnswerSample.plane "3c6444" (JNumber (Int 400)))] []
    "abcdef" (AnswerSample.plane "abcdef" JNull) Sample.register TypeError s)
    as (s1 & Hr & -> & _ & _).
  - reflexivity.
  - reflexivity.
  - reflexivity.
  - apply AnswerSample.reads_good.
  - constructor; [apply AnswerSample.readable_plane|constructor].
  - apply Sample.plain.
  - reflexivity.
  - eexists. split; [exact Hr|]. by repeat split.
Defined.

