(* ===== verification/Server.v ===== *)
(** * The map page and its server, whatever the server answers

    Answer says what becomes of the answer to one request for the aircraft.  Here is the page
    as it polls: the flowgraph's description is any JSON, too; [fg] and [tracker_block] are
    what was found in it; the timer sends requests, which are answered in any order or never,
    while the user zooms, drags and opens popups, also those of markers that an update left
    behind when it threw. *)

From Stdlib Require Import SpecFloat String Ascii.
From stdpp Require Import gmap.
From S2P Require Import Prelude TextCodec Memory Closure Glue Tracker TrackerFacts Json Answer AnswerSpec.

(** A request that has not been answered: [fetch_fg()], or [fetch_aircrafts] for the block
    with this text as its [id]. *)
Inductive request : Type := FetchFg | FetchAircrafts (id : jsstring).

(** The state of Tracker, whose [fg], [tracker_block] and [pending] are not used, with the
    variables [fg] and [tracker_block] and the requests that are not answered. *)
Record page : Type := Page {
  the_app : app;
  fg : value;
  tracker_block : value;
  in_flight : list request
}.

Definition set_app (s : app) (p : page) : page := Page s (fg p) (tracker_block p) (in_flight p).
Definition set_fg (x : value) (p : page) : page :=
  Page (the_app p) x (tracker_block p) (in_flight p).
Definition set_tracker (x : value) (p : page) : page := Page (the_app p) (fg p) x (in_flight p).
Definition set_in_flight (qs : list request) (p : page) : page :=
  Page (the_app p) (fg p) (tracker_block p) qs.

Abbreviation Q A := (M js_error page A).

(** Code that works on the rest of the state. *)
Definition in_app {A} (m : P A) : Q A := λ p,
  match m (the_app p) with Some (o, s) => Some (o, set_app s p) | None => None end.

(** The layers that [clearLayers] takes off the map before it comes to this one. *)
Class Clearing : Type := removed_before : list call → nat → list nat.

Section server.
Context `{PopupCloses} `{Leaflet} `{Clearing}.
Context (number_string : number → string) (string_number : jsstring → number).
Context (date : number → number → jsstring) (parse : jsstring → option json).

(** [v == "Tracker"] *)
Definition is_tracker (v : value) : Q bool :=
  match v with
  | Some (JString s) => mret (bool_decide (s = lit "Tracker"))
  | Some (JArray _) | Some (JObject _) =>
      s ← text number_string v; mret (bool_decide (s = lit "Tracker"))
  | _ => mret false
  end.

(** The loop over the blocks. *)
Fixpoint find_tracker (fuel : nat) (blocks : value) (i : nat) : Q unit :=
  match fuel with
  | O => λ _, None
  | S fuel =>
      n ← length_of number_string string_number blocks;
      if less (Z.of_nat i) n then
        b ← item number_string (Int (Z.of_nat i)) blocks;
        t ← prop "type_name" b;
        found ← is_tracker t;
        _ ← (if found : bool then modify (set_tracker b) else mret ());
        find_tracker fuel blocks (S i)
      else mret ()
  end.

(** The promise of [fetch_fg], and what becomes of it. *)
Definition fg_fetched (r : response) : Q unit :=
  response ← received r;
  _ ← modify (set_fg (Some response));
  blocks ← prop "blocks" (Some response);
  find_tracker (S (size blocks)) blocks 0.

(** The handlers of a layer find their aircraft. *)
Definition handled (l : nat) (s : app) : bool :=
  forallb (λ icao, bool_decide (is_Some (aircraft_markers s !! icao))) (popup_handlers (calls s) l).

(** [markers_group.clearLayers()].  Where the handler of an open popup throws, the layer is off
    the map, but the layers after it are not, and the popup counts as open; it closes with no
    layer that is not on the map. *)
Definition clear_group : P unit :=
  s ← get;
  match popup s with
  | None => clear_layers
  | Some l =>
      if negb (in_group (calls s) l) then emit [ClearLayers]
      else if handled l s then clear_layers
      else _ ← emit (map RemoveLayer (removed_before (calls s) l ++ [l])); fire_popup false l
  end.

Definition fg_answered (r : response) : Q unit :=
  try_catch
    (_ ← fg_fetched r;
     s ← gets the_app;
     _ ← in_app (if map_and_group s then clear_group else mret ());
     in_app (modify (set_state 2)))
    (λ _, mret ()).

Definition ask (q : request) : Q unit := modify (λ p, set_in_flight (in_flight p ++ [q]) p).

(** [`${tracker_block.id}`]; throws where [tracker_block] is [null], among others. *)
Definition block_id (tracker_block : value) : Q jsstring :=
  i ← prop "id" tracker_block; text number_string i.

(** [fetch_aircrafts(tracker_block)] until the request is sent. *)
Definition fetch_aircrafts : Q unit :=
  b ← gets tracker_block; t ← block_id b; ask (FetchAircrafts t).

Definition aircraft_poll : Q unit :=
  s ← gets the_app;
  if aircraft_poll_state s =? 1 then ask FetchFg
  else if aircraft_poll_state s =? 2 then fetch_aircrafts
  else mret ().

(** The answer to the [i]th request arrives. *)
Definition settle (i zooms : nat) (r : response) : Q unit :=
  qs ← gets in_flight;
  _ ← modify (set_in_flight (list_delete i qs));
  match qs !! i with
  | Some FetchFg => fg_answered r
  | Some (FetchAircrafts _) =>
      in_app (answered number_string string_number date parse zooms r)
  | None => mret ()
  end.

(** A popup that the user closes, or by opening another: it stays open where its handler
    throws. *)
Definition shut (l : nat) : P unit := _ ← fire_popup false l; modify (set_popup None).

(** What the user does.  Any marker on the map can be clicked. *)
Inductive gesture (s : app) : P unit → Prop :=
  | zooms : gesture s on_zoomstart
  | drags : gesture s on_dragstart
  | opens l : popup s = None → in_group (calls s) l = true → has_popup (calls s) l = true →
      gesture s (open_popup l)
  | closes_it l : popup s = Some l → gesture s (shut l).

(** A step of a page that has been located. *)
Inductive page_step (p : page) : page → Prop :=
  | ticks o p' : aircraft_poll p = Some (o, p') → page_step p p'
  | settles i zooms r o p' :
      (i < length (in_flight p))%nat → sized_response r → settle i zooms r p = Some (o, p') → page_step p p'
  | touches m o s :
      gesture (the_app p) m → m (the_app p) = Some (o, s) → page_step p (set_app s p).
End server.

(** ** The invariant *)
Section serving.
Context `{HPC : PopupCloses} `{HPL : !PopupLaws} `{HL : Leaflet} `{HCl : Clearing}.
Context (number_string : number → string) `{HN : !NumberText number_string}.
Context (string_number : jsstring → number) (date : number → number → jsstring).
Context (parse : jsstring → option json) `{HP : !ParsesText parse}.
Context (on_map : list call → nat → bool) `{!LayerGroup on_map}.
Implicit Types p : page.

(** Between two steps of a page that has been located: the page is connected or not, and
    aircraft and popups are in order. *)
Definition located_page p : Prop :=
  map_and_group (the_app p) = true ∧
  (aircraft_poll_state (the_app p) = 1 ∨ aircraft_poll_state (the_app p) = 2).
Definition attending p : Prop := orderly (the_app p) ∧ located_page p.



(** The same, whatever there is besides the aircraft. *)
Definition emptied (s : app) : Prop :=
  orderly s ∧ aircraft_poll_state s = 2 ∧ ∀ l, on_map (calls s) l = false.

(** Clearing ended at the popup of a marker that is no aircraft's; that marker is gone. *)
Definition aborted (s s' : app) : Prop := ∃ l,
  popup s = Some l ∧ popup s' = Some l ∧
  (∀ k e, aircraft_markers s !! k = Some e → marker e ≠ l) ∧
  on_map (calls s) l = true ∧ on_map (calls s') l = false ∧
  aircraft_markers s' = aircraft_markers s ∧ aircraft_poll_state s' = aircraft_poll_state s.

(** *** Reading the flowgraph *)

Lemma item_present v i x p :
  item number_string (Int (Z.of_nat i)) v p = Some (Ok (Some x), p) → present number_string v i.
Proof.
  intros Hi. exists x. intros s. unfold item, mret, M_ret, throw in *.
  destruct v as [[]|]; congruence.
Qed.

Lemma pure_is_tracker v : pure (is_tracker number_string v).
Proof. unfold is_tracker. pure. Qed.

(** Reading something first: it throws, or the rest goes on from there. *)
Lemma pure_then {A B} (m : Q A) (f : A → Q B) (R : page → Prop) p :
  pure m → R p → (∀ a, m p = Some (Ok a, p) → ∃ o q, f a p = Some (o, q) ∧ R q) →
  ∃ o q, (m ≫= f) p = Some (o, q) ∧ R q.
Proof.
  intros [[a|e] Hm] Hp Hf.
  - rewrite (M_bind_ok _ _ _ _ _ (Hm p)). by apply Hf.
  - rewrite (M_bind_throw _ _ _ _ _ (Hm p)). by exists (Throw e), p.
Qed.

(** Everything but [fg] and [tracker_block] is as in [p]. *)
Definition described p q : Prop := the_app q = the_app p ∧ in_flight q = in_flight p.

Lemma find_tracker_run blocks fuel : sized_value blocks → ∀ i p0 p,
  (∀ j, (j < i)%nat → present number_string blocks j) → (size blocks < fuel + i)%nat →
  described p0 p →
  ∃ o q, find_tracker number_string string_number fuel blocks i p = Some (o, q) ∧ described p0 q.
Proof.
  intros Hb. induction fuel as [|fuel IH]; intros i p0 p Hp Hf Hd;
    [pose proof (present_size _ blocks i Hb Hp); lia|].
  cbn [find_tracker]. apply pure_then; [apply pure_length_of|done|intros n _].
  destruct (less _ n); [|by eexists _, _].
  apply pure_then; [apply pure_item|done|intros b Hi].
  apply pure_then; [apply pure_prop|done|intros t Ht].
  apply pure_then; [apply pure_is_tracker|done|intros found _].
  assert (Hp' : ∀ j, (j < S i)%nat → present number_string blocks j).
  { intros j Hj. destruct (decide (j = i)) as [->|]; [|apply Hp; lia].
    destruct b as [x|]; [by apply (item_present _ _ x p)|discriminate Ht]. }
  destruct found; (erewrite M_bind_ok by reflexivity); by apply IH; [|lia|].
Qed.

Lemma fg_fetched_run r p :
  sized_response r → ∃ o q, fg_fetched number_string string_number r p = Some (o, q) ∧ described p q.
Proof.
  intros Hr. unfold fg_fetched. apply pure_then; [apply pure_received|done|intros x Hx].
  assert (Hs : sized_value (Some x))
    by (destruct r as [|[] [y|]]; try discriminate Hx; by injection Hx as <-).
  erewrite M_bind_ok by reflexivity. apply pure_then; [apply pure_prop|done|intros blocks Hb].
  apply find_tracker_run; [exact (sized_prop _ _ _ _ _ Hs Hb)|lia|lia|done].
Qed.




(** *** The steps *)

(** Events only restyle lines, and may end with an exception. *)
Lemma run_handlers_any b icaos s :
  ∃ o cs, run_handlers b icaos s = Some (o, set_calls (calls s ++ cs) s) ∧
    Forall (λ c, ∃ l, c = SetStyle l b) cs ∧
    ((∃ e, o = Throw e) → ∃ icao, icao ∈ icaos ∧ aircraft_markers s !! icao = None) ∧
    (Forall (λ icao, is_Some (aircraft_markers s !! icao)) icaos ∨ ∃ e, o = Throw e).
Proof.
  revert s. induction icaos as [|icao icaos IH]; intros s; simpl.
  { exists (Ok ()), []. rewrite app_nil_r. split; [by destruct s|]. split; [done|].
    split; [by intros [? ?]|by left]. }
  unfold popup_handler. destruct (aircraft_markers s !! icao) as [e|] eqn:E.
  - erewrite M_bind_ok.
    2:{ erewrite M_bind_ok by reflexivity. rewrite E. reflexivity. }
    destruct (IH (set_calls (calls s ++ [SetStyle (pathline e) b]) s)) as (o & cs & -> & Hcs & Ho & Ha).
    exists o, (SetStyle (pathline e) b :: cs). simpl. rewrite <- (assoc_L (++)).
    split; [done|]. split; [constructor; eauto|]. split.
    + intros (icao' & ? & ?)%Ho. exists icao'. split; [by right|done].
    + destruct Ha; [left|by right]. constructor; [by rewrite E|done].
  - erewrite M_bind_throw by (erewrite M_bind_ok by reflexivity; by rewrite E).
    exists (Throw TypeError), []. rewrite app_nil_r. split; [by destruct s|]. split; [done|].
    split; [|right; by eexists]. intros _. exists icao. split; [by left|done].
Qed.

Lemma styles_orderly b cs s :
  Forall (λ c, ∃ l, c = SetStyle l b) cs → orderly s → orderly (set_calls (calls s ++ cs) s).
Proof.
  intros Hcs Hs. apply orderly_calls; [done|by apply layers_calls, Hs|].
  pose proof (ord_handlers _ Hs) as Hh. clear Hs. revert s Hh.
  induction Hcs as [|c cs [l ->] _ IH]; intros s Hh; [rewrite app_nil_r; by apply (handlers_frame s)|].
  specialize (IH _ (handlers_restyle 1 (Entry 0 l) b (popup s) s Hh)).
  simpl in IH. rewrite <- (assoc_L (++)) in IH. exact IH.
Qed.

Lemma styles_on_map b cs cs' l :
  Forall (λ c, ∃ l, c = SetStyle l b) cs' → on_map (cs ++ cs') l = on_map cs l.
Proof.
  intros Hcs. rewrite (on_map_app on_map). generalize (on_map cs l) as x.
  induction Hcs as [|c cs' [x ->] _ IH]; intros y; [done|]. apply IH.
Qed.

(** What a gesture leaves as it was. *)
Definition same_page s s' : Prop :=
  map_and_group s' = map_and_group s ∧ aircraft_poll_state s' = aircraft_poll_state s ∧
  aircraft_markers s' = aircraft_markers s.

Lemma orderly_popup o s :
  orderly s → (∀ l, o = Some l → has_popup (calls s) l = true) → orderly (set_popup o s).
Proof.
  intros [[? ? ? ?] [? ? ? ?] _] Ho. split; [by split..|done].
Qed.

Lemma gesture_run s m :
  gesture s m → orderly s → ∃ o s', m s = Some (o, s') ∧ orderly s' ∧ same_page s s'.
Proof.
  intros Hg Hs. destruct Hg as [| |l Hn Hl Hp|l Hl].
  - unfold on_zoomstart. erewrite M_bind_ok by reflexivity.
    destruct (negb _); [|by eexists _, s]. eexists _, _. split; [reflexivity|].
    split; [by apply (order_frame s)|done].
  - eexists _, _. split; [reflexivity|]. split; [by apply (order_frame s)|done].
  - unfold open_popup, fire_popup. do 2 erewrite M_bind_ok by reflexivity.
    destruct (run_handlers_any true (popup_handlers (calls s) l) (set_popup (Some l) s))
      as (o & cs & Hr & Hcs & _).
    eexists _, _. split; [exact Hr|]. split; [|done].
    apply (styles_orderly true); [done|]. apply orderly_popup; [done|]. by intros l' [= <-].
  - unfold shut, fire_popup.
    destruct (run_handlers_any false (popup_handlers (calls s) l) s) as (o & cs & Hr & Hcs & _).
    pose proof (styles_orderly false cs s Hcs Hs) as Ho. destruct o as [[]|e].
    + erewrite M_bind_ok by (erewrite M_bind_ok by reflexivity; exact Hr).
      eexists _, _. split; [reflexivity|]. split; [|done]. by apply orderly_popup.
    + erewrite M_bind_throw by (erewrite M_bind_ok by reflexivity; exact Hr).
      by eexists _, _.
Qed.

(** *** Clearing the map *)

Lemma handled_spec l s :
  handled l s = true ↔ Forall (λ icao, is_Some (aircraft_markers s !! icao)) (popup_handlers (calls s) l).
Proof.
  unfold handled. rewrite forallb_forall, list.Forall_forall. split.
  - intros Ha icao Hi. by apply list_elem_of_In, Ha, bool_decide_eq_true in Hi.
  - intros Ha icao Hi%list_elem_of_In. by apply bool_decide_eq_true, Ha.
Qed.

(** The popups of aircraft close. *)
Lemma handled_marker k e s :
  handlers_ok s → aircraft_markers s !! k = Some e → handled (marker e) s = true.
Proof.
  intros Hh He. apply handled_spec. eapply list.Forall_impl; [by apply (po_handlers _ Hh k e)|].
  intros icao ->. by eexists.
Qed.

Lemma clear_on_map cs l : on_map (cs ++ [ClearLayers]) l = false.
Proof. by rewrite group_call. Qed.

Lemma clear_layers_run s :
  orderly s → (∀ l, popup s = Some l → handled l s = true) →
  ∃ s', clear_layers s = Some (Ok (), s') ∧ orderly s' ∧ same_page s s' ∧
    ∀ l, on_map (calls s') l = false.
Proof.
  intros Hs Hh. unfold clear_layers, take_off. do 2 erewrite M_bind_ok by reflexivity.
  pose proof (order_quiet ClearLayers s quiet_clear Hs) as Hs1.
  set (s1 := set_calls (calls s ++ [ClearLayers]) s) in *. change (popup s) with (popup s1) in *.
  assert (Hc : ∀ l, on_map (calls s1) l = false) by (intros l; apply clear_on_map).
  destruct (popup s1) as [l|]; [|by exists s1].
  rewrite closes_cleared. unfold close_popup, fire_popup. do 2 erewrite M_bind_ok by reflexivity.
  destruct (run_handlers_any false (popup_handlers (calls s1) l) (set_popup None s1))
    as (o & cs & Hr & Hcs & Ho & _).
  destruct o as [[]|e].
  - eexists. split; [exact Hr|]. split; [|split; [done|]].
    + apply (styles_orderly false); [done|]. by apply orderly_popup.
    + intros l'. simpl. by rewrite (styles_on_map false).
  - destruct Ho as (icao & Hi & Hn); [by eexists|]. specialize (Hh l eq_refl).
    apply handled_spec in Hh. rewrite list.Forall_forall in Hh.
    assert (Hi' : icao ∈ popup_handlers (calls s) l)
      by (unfold s1 in Hi; simpl in Hi; by rewrite popup_handlers_app, app_nil_r in Hi).
    destruct (Hh icao Hi') as [x Hx]. by rewrite (Hn : aircraft_markers s !! icao = None) in Hx.
Qed.

Lemma removes_orderly ls s :
  orderly s → orderly (set_calls (calls s ++ map RemoveLayer ls) s).
Proof.
  revert s. induction ls as [|l ls IH]; intros s Hs; [rewrite app_nil_r; by apply (order_frame s)|].
  specialize (IH _ (order_quiet (RemoveLayer l) s (quiet_remove l) Hs)).
  simpl in IH. by rewrite <- (assoc_L (++)) in IH.
Qed.

(** Clearing the map either does so or ends at an open popup, with an exception. *)
Lemma clear_group_run s :
  orderly s → ∃ o s', clear_group s = Some (o, s') ∧ orderly s' ∧ same_page s s' ∧
    match o with Ok _ => ∀ l, on_map (calls s') l = false | Throw _ => aborted s s' end.
Proof.
  intros Hs. unfold clear_group. rewrite (M_bind_ok _ _ _ _ _ (eq_refl : get s = _)).
  destruct (popup s) as [l|] eqn:El.
  2:{ destruct (clear_layers_run s Hs) as (s' & ? & ? & ? & ?); [congruence|]. by eexists _, _. }
  destruct (in_group (calls s) l) eqn:Eg; simpl.
  2:{ eexists _, _. split; [reflexivity|]. split; [by apply order_quiet|]. split; [done|].
      intros l'. apply clear_on_map. }
  destruct (handled l s) eqn:Eh.
  { destruct (clear_layers_run s Hs) as (s' & ? & ? & ? & ?); [congruence|]. by eexists _, _. }
  erewrite M_bind_ok by reflexivity. unfold fire_popup. erewrite M_bind_ok by reflexivity.
  set (ls := removed_before (calls s) l ++ [l]). set (s1 := set_calls (calls s ++ map RemoveLayer ls) s).
  pose proof (removes_orderly ls s Hs) as Hs1. fold s1 in Hs1.
  assert (Hph : popup_handlers (calls s1) l = popup_handlers (calls s) l).
  { simpl. rewrite popup_handlers_app. clear. induction ls; [by rewrite app_nil_r|done]. }
  destruct (run_handlers_any false (popup_handlers (calls s1) l) s1) as (o & cs & Hr & Hcs & _ & Ho).
  change (modify _ s) with (Some (Ok (E := js_error) (), s1)). rewrite Hr. clear Hr.
  assert (Hnh : ¬ Forall (λ icao, is_Some (aircraft_markers s1 !! icao)) (popup_handlers (calls s1) l)).
  { rewrite Hph. intros Hf. apply (handled_spec l s) in Hf. congruence. }
  destruct Ho as [?|[e ->]]; [done|]. eexists _, _. split; [reflexivity|].
  split; [by apply (styles_orderly false)|]. split; [done|].
  exists l. split_and!; try done.
  - intros k e' He <-. rewrite (handled_marker k e' s) in Eh; [done|apply Hs|done].
  - by rewrite on_map_in_group.
  - simpl. rewrite (styles_on_map false) by done. subst ls s1.
    rewrite map_app, (assoc_L (++)). cbn [map]. rewrite group_call. simpl. by rewrite Nat.eqb_refl.
Qed.


(** *** The steps *)

(** Any answer to the request for the flowgraph. *)
Lemma fg_answered_run r p :
  sized_response r → attending p →
  ∃ q, fg_answered number_string string_number r p = Some (Ok (), q) ∧ attending q ∧
    in_flight q = in_flight p ∧
    match fg_fetched number_string string_number r p with
    | Some (Ok _, _) => emptied (the_app q) ∨ aborted (the_app p) (the_app q)
    | _ => the_app q = the_app p
    end.
Proof.
  intros Hsz [Hs [Hm Hst]].
  destruct (fg_fetched_run r p Hsz) as (o & q & Hr & [Ha Hi]). unfold fg_answered, try_catch.
  rewrite Hr. destruct o as [[]|e].
  2:{ rewrite (M_bind_throw _ _ _ _ _ Hr). exists q. split; [reflexivity|]. unfold attending, located_page.
      rewrite Ha. by split_and!. }
  rewrite (M_bind_ok _ _ _ _ _ Hr), (M_bind_ok _ _ _ _ _ (eq_refl : gets the_app q = _)).
  rewrite Ha, Hm.
  destruct (clear_group_run (the_app p) Hs) as (o & s & Hc & Hs' & (Hm' & Hst' & Hma) & Ho).
  assert (Hin : in_app clear_group q = Some (o, set_app s q)) by (unfold in_app; by rewrite Ha, Hc).
  destruct o as [[]|e].
  - erewrite M_bind_ok by exact Hin. eexists. split; [reflexivity|].
    assert (Hs2 : orderly (set_state 2 s)) by by apply (order_frame s).
    split; [split; [done|split; [exact (eq_trans Hm' Hm)|by right]]|].
    split; [exact Hi|left]. by split_and!.
  - erewrite M_bind_throw by exact Hin. eexists. split; [reflexivity|].
    split; [split; [done|split; [exact (eq_trans Hm' Hm)|simpl; by rewrite Hst']]|].
    split; [exact Hi|by right].
Qed.

(** Where clearing ended with an exception, it does so no second time. *)
Lemma aborted_once s s' : aborted s s' → ¬ ∃ s'', aborted s' s''.
Proof. intros (l & _ & Hp & _ & _ & Hl & _) (s'' & l' & Hp' & _ & _ & Hl' & _). congruence. Qed.

Lemma aircrafts_answered_run zooms r p :
  sized_response r → attending p →
  ∃ s, in_app (answered number_string string_number date parse zooms r) p =
    Some (Ok (), set_app s p) ∧ attending (set_app s p).
Proof.
  intros Hsz (Hs & Hm & Hst).
  destruct (answered_triple number_string string_number date parse on_map orderly false (the_app p)
    zooms r Hsz (the_app p)) as ([[]|e] & s & Hr & Hk); [by split_and!| |done].
  exists s. unfold in_app. rewrite Hr. split; [done|].
  destruct Hk as [(Hs' & _ & Hf)|(Hs' & _ & Hf)]; (split; [exact Hs'|]); unfold frame in Hf;
    unfold located_page; simpl in *; intuition congruence.
Qed.

(** The timer asks for something, or reading the tracker throws. *)
Lemma aircraft_poll_run p :
  located_page p →
  (∃ x, aircraft_poll number_string p = Some (Ok (), set_in_flight (in_flight p ++ [x]) p)) ∨
  aircraft_poll_state (the_app p) = 2 ∧
    ∃ e, block_id number_string (tracker_block p) p = Some (Throw e, p) ∧
      aircraft_poll number_string p = Some (Throw e, p).
Proof.
  intros [_ Hst]. unfold aircraft_poll. erewrite M_bind_ok by reflexivity.
  destruct (Z.eqb_spec (aircraft_poll_state (the_app p)) 1) as [|Hn1]; [left; by exists FetchFg|].
  destruct Hst as [|Hst]; [done|]. rewrite Hst. cbn [Z.eqb Pos.eqb].
  unfold fetch_aircrafts. erewrite M_bind_ok by reflexivity.
  assert (Hp : pure (block_id number_string (tracker_block p))) by (unfold block_id; pure).
  destruct Hp as [[t|e] Ho].
  - left. exists (FetchAircrafts t). by rewrite (M_bind_ok _ _ _ _ _ (Ho p)).
  - right. split; [done|]. exists e. by rewrite (M_bind_throw _ _ _ _ _ (Ho p)).
Qed.

Abbreviation settle := (settle number_string string_number date parse).
Abbreviation page_step := (page_step number_string string_number date parse).

Lemma settle_run i zooms r p :
  attending p → (i < length (in_flight p))%nat → sized_response r →
  ∃ q, settle i zooms r p = Some (Ok (), q) ∧ attending q.
Proof.
  intros Hs Hi Hsz. unfold Server.settle. do 2 erewrite M_bind_ok by reflexivity.
  destruct (lookup_lt_is_Some_2 _ _ Hi) as [x ->].
  set (p1 := set_in_flight _ p). assert (Hs1 : attending p1) by done. destruct x as [|id].
  - destruct (fg_answered_run r p1 Hsz Hs1) as (q & ? & ? & _). by exists q.
  - destruct (aircrafts_answered_run zooms r p1 Hsz Hs1) as (s & ? & ?). by eexists.
Qed.

Lemma page_step_attending p p' : attending p → page_step p p' → attending p'.
Proof.
  intros Hs Hstep. destruct Hstep as [o p' Hr|i zooms r o p' Hi Hsz Hr|m o s Hg Hr].
  - destruct (aircraft_poll_run p (proj2 Hs)) as [[x Hx]|(_ & e & _ & Hx)]; by simplify_eq.
  - destruct (settle_run i zooms r p Hs Hi Hsz) as (q & Hq & ?). by simplify_eq.
  - destruct Hs as (Ht & Hm & Hst).
    destruct (gesture_run _ m Hg Ht) as (o' & s' & Hs' & ? & ? & He & _). simplify_eq.
    split; [done|]. split; simpl; [congruence|by rewrite He].
Qed.

Lemma run_attending p p' : attending p → rtc page_step p p' → attending p'.
Proof. intros Hs. induction 1; [done|]. by eauto using page_step_attending. Qed.

End serving.

(** ** A page whose server is good for a while *)
Module ServerSample.
Definition block : json :=
  JObject [("id", JNumber (Int 3)); ("type_name", JString (lit "Tracker"))].
Definition other : json := JObject [("type_name", JString (lit "Apply"))].
Definition flowgraph : json := JObject [("blocks", JArray [other; block])].
Definition page0 : page :=
  Page (set_state 1 (set_loaded true app0)) (Some JNull) (Some JNull) [].


(** [clearLayers] begins with the layer itself. *)
#[global] Instance clearing : Clearing := λ _ _, [].

Definition step := page_step AnswerSample.number_string AnswerSample.string_number
  AnswerSample.date AnswerSample.parse.

Lemma attending0 : attending page0.
Proof.
  split; [|split; [done|by left]]. apply (order_frame app0); [done|].
  destruct (app0_wf in_group) as [[Hl Hp] _]. by split; [|apply Hp|].
Qed.

(** The flowgraph is found and an aircraft shown, whose marker the user clicks on and whose
    popup he closes; then comes one whose line cannot be made, and he clicks on its marker. *)
Definition described_again : response := Response true (Some flowgraph).
Definition readable_again (p : page) : bool :=
  if fg_fetched AnswerSample.number_string AnswerSample.string_number described_again p
    is Some (Ok _, _) then true else false.

Lemma sample_answers : ∃ p q, rtc step page0 p ∧ popup (the_app p) = Some 2%nat ∧
  fg_answered AnswerSample.number_string AnswerSample.string_number described_again p =
    Some (Ok (), q) ∧
  aircraft_poll_state (the_app q) = 1 ∧ readable_again p = true ∧ readable_again q = true.
Proof.
  eexists _, _. split.
  - eapply rtc_l; [eapply ticks; reflexivity|].
    eapply rtc_l.
    { eapply (settles _ _ _ _ _ 0 0 (Response true (Some flowgraph))); [simpl; lia|done|].
      vm_compute; reflexivity. }
    eapply rtc_l; [eapply ticks; vm_compute; reflexivity|].
    eapply rtc_l; [eapply (settles _ _ _ _ _ 0 1 (AnswerSample.body "good"));
      [simpl; lia|done|vm_compute; reflexivity]|].
    eapply rtc_l; [eapply touches; [by apply (opens _ 0)|vm_compute; reflexivity]|].
    eapply rtc_l; [eapply touches; [by apply (closes_it _ 0)|vm_compute; reflexivity]|].
    eapply rtc_l; [eapply ticks; vm_compute; reflexivity|].
    eapply rtc_l; [eapply (settles _ _ _ _ _ 0 0 (AnswerSample.body "odd"));
      [simpl; lia|done|vm_compute; reflexivity]|].
    eapply rtc_l; [eapply touches; [by apply (opens _ 2)|vm_compute; reflexivity]|].
    apply rtc_refl.
  - split_and!; vm_compute; reflexivity.
Qed.
End ServerSample.

(** ** Properties *)

(** C8: whatever the server answers to either request, in whatever order and however late, and
    whatever the user zooms, drags and clicks on meanwhile -- the markers that an update left
    behind when it threw included: the page stays in order.  At any time each answer that may
    come is dealt with to the end and leaves no exception to the browser; and the timer sends a
    request, unless the page is connected to a flowgraph in which it found no block with an
    [id] that can be read.  The description of a flowgraph that cannot be read changes nothing
    that is shown.  One that can be read clears the map and connects the page -- unless the
    popup of a marker that is no aircraft's is open, whose handler throws: then clearing ends
    at that marker and the page is not connected, and the next such description clears the
    map. *)
Theorem page_serves_any_answers `{HPC : PopupCloses} `{!PopupLaws} `{HL : Leaflet} `{HCl : Clearing}
    (number_string : number → string) `{!NumberText number_string}
    (string_number : jsstring → number) (date : number → number → jsstring)
    (parse : jsstring → option json) `{!ParsesText parse}
    (on_map : list call → nat → bool) `{!LayerGroup on_map} (p p' : page) :
  let answer := fg_answered number_string string_number in
  let read r q := if fg_fetched number_string string_number r q is Some (Ok _, _) then true else false in
  attending p → rtc (page_step number_string string_number date parse) p p' →
  attending p' ∧
  (∀ i zooms r, (i < length (in_flight p'))%nat → sized_response r → ∃ q,
     settle number_string string_number date parse i zooms r p' = Some (Ok (), q) ∧ attending q) ∧
  ((∃ x, aircraft_poll number_string p' = Some (Ok (), set_in_flight (in_flight p' ++ [x]) p')) ∨
   aircraft_poll_state (the_app p') = 2 ∧
     ∃ e, block_id number_string (tracker_block p') p' = Some (Throw e, p') ∧
       aircraft_poll number_string p' = Some (Throw e, p')) ∧
  (∀ r, sized_response r → ∃ q, answer r p' = Some (Ok (), q) ∧
     if read r p' then
       emptied on_map (the_app q) ∨
       aborted on_map (the_app p') (the_app q) ∧
         ∀ r', sized_response r' → read r' q = true → ∃ q', answer r' q = Some (Ok (), q') ∧
           emptied on_map (the_app q')
     else the_app q = the_app p').
Proof.
  intros answer read Hp Hr. assert (attending p') as Hp'
    by exact (run_attending number_string string_number date parse on_map p p' Hp Hr).
  split; [done|]. split; [|split].
  - intros i zooms r Hi Hsz. by apply (settle_run _ _ _ _ on_map).
  - apply aircraft_poll_run, Hp'.
  - intros r Hsz. destruct (fg_answered_run number_string string_number on_map r p' Hsz Hp')
      as (q & Hq & Hat & _ & Ho). exists q. split; [done|]. unfold read in *.
    destruct (fg_fetched _ _ r p') as [[[[]|e] s]|]; [|done..].
    destruct Ho as [?|Ha]; [by left|right]. split; [done|]. intros r' Hsz' Hread.
    destruct (fg_answered_run number_string string_number on_map r' q Hsz' Hat)
      as (q' & Hq' & _ & _ & Ho'). exists q'. split; [done|].
    destruct (fg_fetched _ _ r' q) as [[[[]|e] s']|]; [|done..].
    destruct Ho' as [?|Ha']; [done|]. exfalso. apply (aborted_once on_map _ _ Ha). by eexists.
Qed.

(** The popup of the marker that was left behind keeps the map from being cleared, once. *)
Lemma page_serves_any_answers_witness :
  ∃ p q q', rtc ServerSample.step ServerSample.page0 p ∧ attending p ∧
    let answer := fg_answered AnswerSample.number_string AnswerSample.string_number
      ServerSample.described_again in
    answer p = Some (Ok (), q) ∧ aborted in_group (the_app p) (the_app q) ∧
    answer q = Some (Ok (), q') ∧ emptied in_group (the_app q').
Proof.
  destruct ServerSample.sample_answers as (p & q & Hr & _ & Hq & Hst & Hp & Hp').
  destruct (page_serves_any_answers AnswerSample.number_string AnswerSample.string_number
    AnswerSample.date AnswerSample.parse in_group ServerSample.page0 p) as (Hat & _ & _ & Hf).
  - apply ServerSample.attending0.
  - exact Hr.
  - destruct (Hf ServerSample.described_again Logic.I) as (q1 & Hq1 & Ho).
    rewrite Hq in Hq1. injection Hq1 as <-. unfold ServerSample.readable_again in Hp, Hp'.
    rewrite Hp in Ho. destruct Ho as [(_ & Hst2 & _)|[Ha Hn]]; [congruence|].
    destruct (Hn ServerSample.described_again Logic.I Hp') as (q' & Hq' & He).
    exists p, q, q'. by split_and!.
Defined.


