(* ===== verification/RotatedMarker.v ===== *)
(** * The rotation plug-in of the ADS-B map: src/examples/adsb/dist/leaflet.rotatedMarker.js

    It extends Leaflet's markers by an angle and an origin that it keeps in [options] and
    writes into the style of the icon whenever Leaflet has positioned the icon.  Leaflet is
    not under src/: the methods the plug-in saves before it replaces them are parameters,
    [proto_initIcon] and [proto_setPos], and an operation that calls [update] takes the
    position with which [update] calls [_setPos], [None] where it does not (the marker is not
    on a map). *)

From Stdlib Require Import SpecFloat String.
From S2P Require Import Prelude TextCodec Memory Closure Glue Tracker.

(** [this._icon.style\[L.DomUtil.TRANSFORM\]] and the same key with ['Origin'] *)
Record style : Type := Style { transform : jsstring; transformOrigin : jsstring }.

(** The options of a marker as given, [icon_anchor] being [options.icon.options.iconAnchor]. *)
Record options : Type := Options {
  icon_anchor : option (number * number);
  given_origin : option jsstring;
  given_angle : option number
}.

Record marker : Type := Marker {
  rotationOrigin : jsstring;
  rotationAngle : number;
  icon : option style                 (* [this._icon] *)
}.

Definition set_icon st m := Marker (rotationOrigin m) (rotationAngle m) (Some st).
Definition set_angle a m := Marker (rotationOrigin m) a (icon m).
Definition set_origin o m := Marker o (rotationAngle m) (icon m).

(** [a || b] for a string that may be [undefined]. *)
Definition or_string (a : option jsstring) (b : jsstring) : jsstring :=
  match a with Some (c :: s) => c :: s | _ => b end.

Abbreviation K A := (M js_error marker A).

Section plugin.
Context {Pt : Type} (ToString : number → jsstring).
Context (oldIE : bool) (proto_initIcon : style) (proto_setPos : Pt → style → style).

(** The function given to [addInitHook], less the registration of [on_drag]. *)
Definition init_hook (o : options) : marker :=
  let iconAnchor :=
    (λ '(x, y), ToString x ++ lit "px " ++ ToString y ++ lit "px") <$> icon_anchor o in
  Marker (or_string (given_origin o) (or_string iconAnchor (lit "center bottom")))
         match given_angle o with
         | Some a => if number_falsy a then Int 0 else a
         | None => Int 0
         end
         None.

(** Writing to [this._icon.style], which throws before there is an icon. *)
Definition restyle (f : style → style) : K unit :=
  m ← get;
  match icon m with
  | Some st => modify (set_icon (f st))
  | None => throw TypeError
  end.

Definition _applyRotation : K unit :=
  m ← get;
  if number_falsy (rotationAngle m) then mret ()
  else
    _ ← restyle (λ st, Style (transform st) (rotationOrigin m));
    if oldIE
    then restyle (λ st, Style (lit "rotate(" ++ ToString (rotationAngle m) ++ lit "deg)")
                              (transformOrigin st))
    else restyle (λ st, Style (transform st ++ lit " rotateZ(" ++ ToString (rotationAngle m)
                                 ++ lit "deg)")
                              (transformOrigin st)).

Definition _initIcon : K unit := modify (set_icon proto_initIcon).

Definition _setPos (pos : Pt) : K unit :=
  _ ← restyle (proto_setPos pos);
  _applyRotation.

(** [this.update()], given the position it hands to [_setPos]. *)
Definition update (at_ : option Pt) : K unit :=
  match at_ with Some pos => _setPos pos | None => mret () end.

Definition setRotationAngle (angle : number) (at_ : option Pt) : K unit :=
  _ ← modify (set_angle angle); update at_.
Definition setRotationOrigin (origin : jsstring) (at_ : option Pt) : K unit :=
  _ ← modify (set_origin origin); update at_.

(** The handler of [drag]; Leaflet has moved the icon to [pos] just before, not through
    [_setPos]. *)
Definition on_drag (pos : Pt) : K unit :=
  _ ← restyle (proto_setPos pos);
  _applyRotation.

Inductive operation : Type :=
  | InitIcon
  | SetPos (pos : Pt)
  | Drag (pos : Pt)
  | SetRotationAngle (angle : number) (at_ : option Pt)
  | SetRotationOrigin (origin : jsstring) (at_ : option Pt).

Definition perform (x : operation) : K unit :=
  match x with
  | InitIcon => _initIcon
  | SetPos pos => _setPos pos
  | Drag pos => on_drag pos
  | SetRotationAngle angle at_ => setRotationAngle angle at_
  | SetRotationOrigin origin at_ => setRotationOrigin origin at_
  end.

Fixpoint perform_all (xs : list operation) : K unit :=
  match xs with [] => mret () | x :: xs => _ ← perform x; perform_all xs end.

(** ** Facts *)

(** The options as the operations of a run leave them. *)
Definition angle_after (x : operation) (a : number) : number :=
  match x with SetRotationAngle a' _ => a' | _ => a end.
Definition origin_after (x : operation) (o : jsstring) : jsstring :=
  match x with SetRotationOrigin o' _ => o' | _ => o end.

(** Where Leaflet last put the icon; [None] if it did not yet, or if the options changed
    since while the marker was off the map. *)
Definition placed_after (x : operation) : option Pt :=
  match x with
  | InitIcon => None
  | SetPos pos | Drag pos => Some pos
  | SetRotationAngle _ at_ | SetRotationOrigin _ at_ => at_
  end.

Definition last_placed (xs : list operation) : option Pt := foldl (λ _, placed_after) None xs.

Definition rotation (a : number) : jsstring :=
  if number_falsy a then [] else lit " rotateZ(" ++ ToString a ++ lit "deg)".

(** On IE 9 the transform holds nothing but a rotation: by the last angle other than 0 (or NaN)
    with which the icon, since it was made, was positioned.  The angle, and that rotation: *)
Definition turn_after (x : operation) (s : number * option number) : number * option number :=
  let a := angle_after x s.1 in
  (a, match x with
      | InitIcon => None
      | _ => match placed_after x with
             | Some _ => if number_falsy a then s.2 else Some a
             | None => s.2
             end
      end).
Definition turned (a0 : number) (xs : list operation) : option number :=
  (foldl (λ s x, turn_after x s) (a0, None) xs).2.

Definition ie_transform (t : option number) : jsstring :=
  match t with
  | Some a => lit "rotate(" ++ ToString a ++ lit "deg)"
  | None => transform proto_initIcon
  end.

(** What Leaflet 1.9's [_setPos] does to the style: where the engine has 3D transforms, it
    replaces the transform; on IE 9, which has not, it leaves it alone and sets [left] and
    [top]. *)
Definition sets_position (translate : Pt → jsstring) : Prop :=
  ∀ pos st, proto_setPos pos st = if oldIE then st else Style (translate pos) (transformOrigin st).

Record showing (translate : Pt → jsstring) (a : number) (o : jsstring) (at_ : option Pt)
    (t : option number) (m : marker) : Prop := Showing {
  showing_angle : rotationAngle m = a;
  showing_origin : rotationOrigin m = o;
  showing_style :
    ∃ st, icon m = Some st ∧ (oldIE = true → transform st = ie_transform t) ∧
      ∀ pos, at_ = Some pos →
        (oldIE = false → transform st = translate pos ++ rotation a) ∧
        (number_falsy a = false → transformOrigin st = o)
}.

Section shows.
Context (translate : Pt → jsstring) (Hset : sets_position translate).

Lemma setPos_shows m pos st t :
  icon m = Some st → (oldIE = true → transform st = ie_transform t) →
  ∃ m', _setPos pos m = Some (Ok (), m') ∧
    showing translate (rotationAngle m) (rotationOrigin m) (Some pos)
      (if number_falsy (rotationAngle m) then t else Some (rotationAngle m)) m'.
Proof.
  intros Hi Ht. unfold _setPos, _applyRotation, restyle, mbind, M_bind, get, modify.
  rewrite Hi. simpl. rewrite Hset. unfold sets_position in Hset.
  destruct (number_falsy (rotationAngle m)) eqn:E; [|destruct oldIE eqn:EI]; simpl.
  - eexists. split; [reflexivity|]. split; [done..|]. eexists. split; [done|]. split.
    + intros HI. rewrite HI. by apply Ht.
    + intros ? [= <-]. unfold rotation. rewrite E. split; [|done]. intros HI. rewrite HI. simpl.
      by rewrite app_nil_r.
  - eexists. split; [reflexivity|]. split; [done..|]. eexists. split; [done|].
    split; [done|]. intros ? _. split; [congruence|done].
  - eexists. split; [reflexivity|]. split; [done..|]. eexists. split; [done|].
    split; [congruence|]. intros ? [= <-]. unfold rotation. by rewrite E.
Qed.

(** The options change while the marker is off the map. *)
Lemma unplaced_shows a o at0 t m m' :
  showing translate a o at0 t m → icon m' = icon m →
  showing translate (rotationAngle m') (rotationOrigin m') None t m'.
Proof.
  intros [_ _ (st & Hi & Ht & _)] He. split; [done..|]. exists st. rewrite He. by split_and!.
Qed.

Lemma perform_shows x at0 t m :
  showing translate (rotationAngle m) (rotationOrigin m) at0 t m →
  ∃ m', perform x m = Some (Ok (), m') ∧
    showing translate (angle_after x (rotationAngle m)) (origin_after x (rotationOrigin m))
            (placed_after x) (turn_after x (rotationAngle m, t)).2 m'.
Proof.
  intros Hm. pose proof (showing_style _ _ _ _ _ _ Hm) as (st & Hi & Ht & _).
  destruct x as [|pos|pos|a [pos|]|o [pos|]]; simpl.
  - eexists. split; [reflexivity|]. split; [done..|]. eexists. by split_and!.
  - by eapply setPos_shows.
  - by eapply setPos_shows.
  - apply (setPos_shows (set_angle a m) pos st t Hi Ht).
  - eexists. split; [reflexivity|]. by apply (unplaced_shows _ _ _ _ m (set_angle a m) Hm).
  - apply (setPos_shows (set_origin o m) pos st t Hi Ht).
  - eexists. split; [reflexivity|]. by apply (unplaced_shows _ _ _ _ m (set_origin o m) Hm).
Qed.

Lemma perform_all_shows xs at0 t m :
  showing translate (rotationAngle m) (rotationOrigin m) at0 t m →
  ∃ m', perform_all xs m = Some (Ok (), m') ∧
    showing translate (foldl (λ a x, angle_after x a) (rotationAngle m) xs)
      (foldl (λ o x, origin_after x o) (rotationOrigin m) xs)
      (foldl (λ _, placed_after) at0 xs)
      (foldl (λ s x, turn_after x s) (rotationAngle m, t) xs).2 m'.
Proof.
  revert at0 t m. induction xs as [|x xs IH]; intros at0 t m Hm; [by exists m|].
  destruct (perform_shows x at0 t m Hm) as (m1 & H1 & Hm1). simpl.
  rewrite (M_bind_ok _ _ _ _ _ H1).
  pose proof (showing_angle _ _ _ _ _ _ Hm1) as Ea.
  pose proof (showing_origin _ _ _ _ _ _ Hm1) as Eo.
  rewrite (surjective_pairing (turn_after x (rotationAngle m, t))).
  change (turn_after x (rotationAngle m, t)).1 with (angle_after x (rotationAngle m)).
  rewrite <- Ea, <- Eo. apply IH. by rewrite Ea, Eo.
Qed.

(** From the icon on. *)
Lemma icon_made m xs :
  icon m = None →
  ∃ m' st, perform_all (InitIcon :: xs) m = Some (Ok (), m') ∧
    rotationAngle m' = foldl (λ a x, angle_after x a) (rotationAngle m) xs ∧
    rotationOrigin m' = foldl (λ o x, origin_after x o) (rotationOrigin m) xs ∧
    icon m' = Some st ∧
    (oldIE = true → transform st = ie_transform (turned (rotationAngle m) xs)) ∧
    ∀ pos, last_placed xs = Some pos →
      (oldIE = false → transform st = translate pos ++ rotation (rotationAngle m')) ∧
      (number_falsy (rotationAngle m') = false → transformOrigin st = rotationOrigin m').
Proof.
  intros Hi.
  destruct (perform_all_shows xs None None (set_icon proto_initIcon m)) as (m' & Hm & [Ha Ho Hs]).
  { split; [done..|]. by exists proto_initIcon. }
  destruct Hs as (st & Hi' & Ht & Hp). exists m', st.
  split; [simpl; by erewrite M_bind_ok|]. rewrite Ha, Ho. by split_and!.
Qed.
End shows.
End plugin.

(** ** Property *)

(** C36: once Leaflet has made the icon, no operation of the plug-in throws, whatever their
    order.  On an engine where Leaflet's [_setPos] replaces the transform (all that it supports
    but IE 9): where Leaflet last placed the icon and the options have been shown since, the
    icon carries exactly Leaflet's transform of that place followed by one rotation by the
    current angle (none for angle 0 or NaN) -- rotations never accumulate, dragging included.
    On IE 9 ([oldIE]), where Leaflet leaves the transform alone, it carries one rotation by the
    last angle other than 0 and NaN that it was positioned with, so that setting the angle back
    to 0 leaves the old rotation.  In both, the rotation is about the origin in the options;
    angle and origin default to 0 and the icon's anchor or "center bottom". *)
Theorem rotation_shown {Pt : Type} (ToString : number → jsstring) (oldIE : bool)
    (proto_initIcon : style) (proto_setPos : Pt → style → style) (translate : Pt → jsstring)
    (o : options) (xs : list operation) :
  sets_position oldIE proto_setPos translate →
  let m0 := init_hook ToString o in
  let a := foldl (λ a x, angle_after x a) (rotationAngle m0) xs in
  ∃ m st, perform_all ToString oldIE proto_initIcon proto_setPos (InitIcon :: xs) m0 =
         Some (Ok (), m) ∧
    rotationAngle m = a ∧
    rotationOrigin m = foldl (λ o x, origin_after x o) (rotationOrigin m0) xs ∧
    icon m = Some st ∧
    (oldIE = true →
       transform st = ie_transform ToString proto_initIcon (turned (rotationAngle m0) xs)) ∧
    ∀ pos, last_placed xs = Some pos →
      (oldIE = false → transform st = translate pos ++ rotation ToString a) ∧
      (number_falsy a = false → transformOrigin st = rotationOrigin m).
Proof.
  intros Hset m0 a.
  destruct (icon_made ToString oldIE proto_initIcon proto_setPos translate Hset m0 xs eq_refl)
    as (m & st & Hm & Ha & Ho & Hi & Ht & Hp).
  rewrite Ha in Hp. by exists m, st.
Qed.

(** A modern engine, and IE 9, where the icon is turned by 90 degrees and back to 0. *)
Lemma rotation_shown_witness :
  let ToString n := match n with Int z => int_string z | Float _ => lit "NaN" end in
  let translate p := lit "translate3d(" ++ int_string p ++ lit "px)" in
  let m0 := init_hook ToString (Options (Some (Int 20, Int 20)) None (Some (Int 45))) in
  let xs := [SetPos 3; Drag 4; SetRotationAngle (Int 90) (Some 5)] in
  let ys := xs ++ [SetRotationAngle (Int 0) (Some 5)] in
  (∃ m st, perform_all ToString false (Style [] []) (λ p st, Style (translate p) (transformOrigin st))
         (InitIcon :: xs) m0 = Some (Ok (), m) ∧
    icon m = Some st ∧ transform st = lit "translate3d(5px) rotateZ(90deg)" ∧
          transformOrigin st = lit "20px 20px") ∧
  (∃ m st, perform_all ToString true (Style [] []) (λ p st, st) (InitIcon :: ys) m0 =
             Some (Ok (), m) ∧
    icon m = Some st ∧ transform st = lit "rotate(90deg)").
Proof.
  intros ToString translate m0 xs ys. split.
  - destruct (rotation_shown ToString false (Style [] [])
      (λ p st, Style (translate p) (transformOrigin st))
      translate (Options (Some (Int 20, Int 20)) None (Some (Int 45))) xs (λ _ _, eq_refl))
      as (m & st & Hm & _ & Ho & Hi & _ & Hs).
    exists m, st. split; [exact Hm|]. split; [done|]. destruct (Hs 5 eq_refl) as [Ht Hto].
    split; [exact (Ht eq_refl)|]. rewrite (Hto eq_refl), Ho. reflexivity.
  - destruct (rotation_shown ToString true (Style [] []) (λ p st, st) translate
      (Options (Some (Int 20, Int 20)) None (Some (Int 45))) ys (λ _ _, eq_refl))
      as (m & st & Hm & _ & _ & Hi & Ht & _).
    exists m, st. split; [exact Hm|]. split; [done|]. rewrite (Ht eq_refl). reflexivity.
Defined.
