(* ===== verification/Icons.v ===== *)
(** * The aircraft icons of the map page: script.js on top of leaflet.rotatedMarker.js

    [Tracker] says which calls the page makes and [RotatedMarker] what the plug-in does when
    Leaflet makes and positions an icon.  Here the two are put together: what the icon of an
    aircraft looks like.  When Leaflet positions icons -- when a marker is added, moved or
    updated, while the user drags or zooms the map, during a flight -- is Leaflet's business:
    the operations of the plug-in that it performs for a marker are a parameter, any list that
    [performed] allows. *)

From Stdlib Require Import SpecFloat String.
From stdpp Require Import gmap pretty.
From S2P Require Import Prelude TextCodec Memory Closure Glue RotatedMarker Tracker TrackerFacts.

#[local] Arguments Nat.eqb : simpl never.

(** The options of the marker, as the plug-in reads them, with the angle the page gives. *)
Definition marker_options (rotationAngle : number) : options :=
  Options (Some (Int 20, Int 20)) None (Some rotationAngle).

(** The angle with which the page made the marker [l], and those it has set since. *)
Definition set_turns (c : call) (l : nat) (p : number * list number) : number * list number :=
  match c with
  | NewMarker x _ a => if (x =? l)%nat then (a, []) else p
  | Tracker.SetRotationAngle x a => if (x =? l)%nat then (p.1, p.2 ++ [a]) else p
  | _ => p
  end.
Definition turns (cs : list call) (l : nat) : number * list number :=
  foldl (λ p c, set_turns c l p) (Int 0, []) cs.

(** The last of some angles, or [a] if there is none. *)
Definition final (a : number) (l : list number) : number := foldl (λ _ b, b) a l.

Lemma final_app a l1 l2 : final a (l1 ++ l2) = final (final a l1) l2.
Proof. apply foldl_app. Qed.

Section performed.
Context {Pt : Type}.
Implicit Types (ops : list (operation (Pt := Pt))) (x : operation (Pt := Pt)).

Definition angles ops : list number :=
  omap (λ x, match x with RotatedMarker.SetRotationAngle a _ => Some a | _ => None end) ops.

(** The plug-in changes options without positioning the icon. *)
Definition off_map x : Prop :=
  match x with RotatedMarker.SetRotationAngle _ None => True | _ => False end.

(** What Leaflet promises on a page that has made the calls [cs] and shows the world such that
    a position is at [place] now: of the marker [l], [setRotationAngle] ran when the page called
    it, and no [setRotationOrigin], which the page does not call.  If the marker is on the map,
    Leaflet made its icon when it was added; it has positioned it since ([_setPos], or a drag),
    the last time after all changes of the options, and where the marker is now. *)
Record performed (cs : list call) (l : nat) (place : latlng → Pt) ops : Prop := Performed {
  performed_angles : angles ops = (turns cs l).2;
  performed_origin o at_ : RotatedMarker.SetRotationOrigin o at_ ∉ ops;
  performed_icon : in_group cs l = true →
    ∃ before xs, ops = before ++ InitIcon :: xs ∧ Forall off_map before ∧
      ∀ p, shown_pos cs l = Some p → last_placed xs = Some (place p)
}.

Lemma angles_app ops1 ops2 : angles (ops1 ++ ops2) = angles ops1 ++ angles ops2.
Proof. unfold angles. apply omap_app. Qed.

(** The angle after all. *)
Lemma angle_last ops a : foldl (λ a x, angle_after x a) a ops = final a (angles ops).
Proof.
  revert a. induction ops as [|x ops IH]; intros a; [done|]. cbn [foldl]. rewrite IH.
  by destruct x.
Qed.

Lemma origin_last ops o :
  (∀ o at_, RotatedMarker.SetRotationOrigin o at_ ∉ ops) →
  foldl (λ o x, origin_after x o) o ops = o.
Proof.
  intros Hn. induction ops as [|x ops IH]; [done|]. cbn [foldl].
  assert (Hx : origin_after x o = o).
  { destruct x as [| | | |o' at_]; try done. destruct (Hn o' at_). by left. }
  rewrite Hx. apply IH. intros o' at_ Hin. apply (Hn o' at_). by right.
Qed.
End performed.

(** The last angle the page has set is the one that [Tracker]'s page shows. *)
Lemma turns_shown cs l a : shown_rotation cs l = Some a → final (turns cs l).1 (turns cs l).2 = a.
Proof.
  unfold shown_rotation, last_set, turns. induction cs as [|c cs IH] using rev_ind; [done|].
  rewrite !foldl_app. cbn [foldl]. destruct c as [x q b| | | | | |x b| | | | | | | | | | |]; try done;
    cbn [set_rotation set_turns]; destruct (x =? l)%nat; try done; intros [= <-]; [done|].
  cbn [fst snd]. by rewrite final_app.
Qed.

Section icons.
Context {Pt : Type} (ToString : number → jsstring) (oldIE : bool) (proto_initIcon : style).
Context (proto_setPos : Pt → style → style) (translate : Pt → jsstring).
Context (Hset : sets_position oldIE proto_setPos translate).

Definition icon_origin : jsstring :=
  ToString (Int 20) ++ lit "px " ++ ToString (Int 20) ++ lit "px".

Abbreviation perform_all := (perform_all ToString oldIE proto_initIcon proto_setPos).

(** Before there is an icon. *)
Lemma perform_before ops m :
  Forall off_map ops → icon m = None →
  perform_all ops m = Some (Ok (), Marker (rotationOrigin m) (final (rotationAngle m) (angles ops)) None).
Proof.
  intros Ho. revert m. induction Ho as [|x ops Hx _ IH]; intros m Hi.
  - destruct m. simpl in *. by subst.
  - destruct x as [| | |a [|]|]; try done. cbn [RotatedMarker.perform_all].
    rewrite (M_bind_ok _ _ m () (RotatedMarker.set_angle a m)) by done.
    by rewrite IH by done.
Qed.

Lemma perform_all_app ops1 ops2 m m' :
  perform_all ops1 m = Some (Ok (), m') → perform_all (ops1 ++ ops2) m = perform_all ops2 m'.
Proof.
  revert m. induction ops1 as [|x ops IH]; intros m; simpl; [by intros [= ->]|].
  intros (a & m1 & H1 & H2)%M_bind_inv. rewrite (M_bind_ok _ _ _ _ _ H1). by apply IH.
Qed.

(** The icon of a marker on the map. *)
Lemma icon_of_marker cs l place ops pos a :
  performed cs l place ops → in_group cs l = true → shown_pos cs l = Some pos →
  shown_rotation cs l = Some a →
  ∃ m st, perform_all ops (init_hook ToString (marker_options (turns cs l).1)) = Some (Ok (), m) ∧
    icon m = Some st ∧
    (oldIE = false → transform st = translate (place pos) ++ rotation ToString a) ∧
    (number_falsy a = false → transformOrigin st = icon_origin).
Proof.
  intros [Hang Hor Hic] Hg Hp Ha.
  destruct (Hic Hg) as (before & xs & -> & Hb & Hl). specialize (Hl pos Hp).
  set (m0 := init_hook ToString _).
  pose proof (perform_before before m0 Hb eq_refl) as H0. set (m1 := Marker _ _ _) in H0.
  destruct (icon_made ToString oldIE proto_initIcon proto_setPos translate Hset m1 xs eq_refl)
    as (m & st & Hm & Hma & Hmo & Hi & _ & Hst).
  exists m, st. rewrite (perform_all_app _ _ _ _ H0). split; [exact Hm|]. split; [done|].
  destruct (Hst _ Hl) as [Ht Ho]. clear Hst.
  assert (Horg : rotationOrigin m = icon_origin).
  { rewrite Hmo, origin_last; [unfold icon_origin; simpl; by destruct (ToString (Int 20))|].
    intros o at_ Hin. apply (Hor o at_). apply elem_of_app. right. by right. }
  assert (Hrot : rotationAngle m = a ∨
    (number_falsy (rotationAngle m) = true ∧ number_falsy a = true)).
  { pose proof (turns_shown cs l a Ha) as Hts. rewrite <- Hang, angles_app, final_app in Hts.
    rewrite Hma, angle_last. subst m1. cbn [rotationAngle].
    change (angles (InitIcon :: xs)) with (angles xs) in Hts.
    assert (rotationAngle m0 = (turns cs l).1 ∨
      (rotationAngle m0 = Int 0 ∧ number_falsy (turns cs l).1 = true)) as [->|[-> Hf]].
    { subst m0. simpl. destruct (number_falsy (turns cs l).1); auto. }
    - by left.
    - destruct (angles before), (angles xs); try (by left). right. simpl in *. by subst a. }
  destruct Hrot as [Hra|[Hf1 Hf2]].
  - rewrite Hra in *. split; [exact Ht|]. intros Hf. rewrite <- Horg. by apply Ho.
  - split; [|congruence]. intros HI. rewrite (Ht HI). unfold rotation. by rewrite Hf1, Hf2.
Qed.
End icons.

(** ** Property *)

(** C23: script.js and the rotation plug-in together show each aircraft where it is and where
    it heads: after any events from the loaded page on and then an answer of the server, the
    icon of every aircraft that has a position in the answer and whose marker is on the map
    carries -- after whatever operations Leaflet may have performed for the marker (see
    [performed]: it has positioned the icon, last where the marker is on the part of the world
    that the map shows now) -- Leaflet's transform of the place of the aircraft's last position,
    followed by one rotation by its last heading, about the middle of the icon; no operation of
    the plug-in throws on the way.  This is of engines where Leaflet positions icons by their
    transform ([oldIE] is false); for IE 9 only the middle of the rotation is claimed. *)
Theorem icon_shows_aircraft {Pt : Type} `{HPC : PopupCloses} `{!PopupLaws}
    (ToString : number → jsstring) (local_time : Z → Z → jsstring) (oldIE : bool)
    (proto_initIcon : style) (proto_setPos : Pt → style → style) (translate : Pt → jsstring)
    (place : latlng → Pt) (xs : list action) (s s' : app) (i zooms : nat) (r : register)
    (k : string) (v : aircraft) (pos : latlng) :
  sets_position oldIE proto_setPos translate → Forall plain_action xs → plain_keys r → NoDup r.*1 →
  execute ToString local_time xs app0 = Some s →
  act ToString local_time (AircraftsThen i r zooms) s = Some s' →
  (k, v) ∈ r → list.last (pos_arr v) = Some pos →
  ∃ e, aircraft_markers s' !! k = Some e ∧
    (in_group (calls s') (Tracker.marker e) = true →
     ∀ ops, performed (calls s') (Tracker.marker e) place ops →
     ∃ m st,
       RotatedMarker.perform_all ToString oldIE proto_initIcon proto_setPos ops
         (init_hook ToString (marker_options (turns (calls s') (Tracker.marker e)).1)) =
         Some (Ok (), m) ∧
       icon m = Some st ∧
       (oldIE = false → transform st = translate (place pos) ++ rotation ToString (angle v)) ∧
       (number_falsy (angle v) = false → transformOrigin st = icon_origin ToString)).
Proof.
  intros Hset Hx Hp Hnd He Ha Hin Hv.
  assert (Hw : wf in_group s).
  { eapply (execute_wf ToString local_time in_group); [exact Hx|apply app0_wf; apply _|done]. }
  simpl in Ha. destruct (pending s !! i) as [[|q]|]; try done.
  assert (Hw1 : wf in_group (settle i s)) by by apply (wf_frame in_group s).
  unfold handle, aircrafts_then, try_catch in Ha.
  rewrite (update_aircrafts_run _ _ in_group) in Ha by done. injection Ha as <-.
  destruct (shown_updated ToString local_time r (settle i s) k pos (angle v) (pos_arr v))
    as (e & Hek & Hpos & Hrot & _).
  { apply in_register_own; [by eapply Hp|eauto]. }
  { by eapply (shown_steps ToString local_time in_group). }
  exists e. split; [done|]. intros Hg ops Hops.
  by eapply icon_of_marker.
Qed.

(** Two answers, and then the user zooms the map: Leaflet positions the icon anew. *)
Lemma icon_shows_aircraft_witness :
  let ToString n := match n with Int z => int_string z | Float _ => lit "NaN" end in
  let translate p := lit "translate3d(" ++ int_string p ++ lit "px)" in
  let place (p : latlng) := 7 in
  let xs := [Load; Located; FgThen 0 (Flowgraph [Block 3 "Tracker"]); Tick;
             AircraftsThen 0 Sample.register 1; Tick] in
  let ops := [InitIcon; SetPos 3; SetPos 4; RotatedMarker.SetRotationAngle (Int 90) (Some 4); SetPos 7] in
  ∃ s s', execute ToString Sample.time xs app0 = Some s ∧
    act ToString Sample.time (AircraftsThen 0 Sample.register 2) s = Some s' ∧
    performed (calls s') 0%nat place ops ∧
    ∃ m st,
      RotatedMarker.perform_all ToString false (Style [] [])
        (λ p st, Style (translate p) (transformOrigin st)) ops
        (init_hook ToString (marker_options (Int 90))) = Some (Ok (), m) ∧
      icon m = Some st ∧ transform st = lit "translate3d(7px) rotateZ(90deg)" ∧
      transformOrigin st = lit "20px 20px".
Proof.
  intros ToString translate place xs ops. eexists _, _.
  split; [vm_compute; reflexivity|]. split; [vm_compute; reflexivity|].
  match goal with |- performed ?cs _ _ _ ∧ _ => assert (Hops : performed cs 0%nat place ops) end.
  { split.
    - vm_compute. reflexivity.
    - intros o at_ Hin. subst ops. apply list_elem_of_In in Hin. by repeat destruct Hin as [[=]|Hin].
    - intros _. exists [], (tl ops). split_and!; [done|constructor|]. intros p Hp. done. }
  split; [exact Hops|].
  edestruct (icon_shows_aircraft ToString Sample.time false (Style [] [])
    (λ p st, Style (translate p) (transformOrigin st)) translate place xs)
    with (i := 0%nat) (zooms := 2%nat) (r := Sample.register) (k := "3c6444") (v := Sample.plane)
    as (e & He & Hs).
  - done.
  - repeat constructor; apply Sample.plain.
  - apply Sample.plain.
  - apply NoDup_singleton.
  - vm_compute; reflexivity.
  - vm_compute; reflexivity.
  - by left.
  - reflexivity.
  - vm_compute in He. injection He as <-. destruct (Hs eq_refl ops Hops) as (m & st & Hm & Hi & Ht & Ho).
    exists m, st. split; [exact Hm|]. split; [done|]. split; [exact (Ht eq_refl)|exact (Ho eq_refl)].
Defined.
