(* ===== verification/Handle.v ===== *)
(** * Objects that own a pointer into wasm

    The generated classes ([WasmDecoder], [MessageSetter] of the worklet;
    [IntoUnderlyingByteSource], [IntoUnderlyingSink] and [IntoUnderlyingSource] of the
    other front ends) keep the address of a Rust value in [__wbg_ptr].  [free], and the
    methods that take [self] by value, empty the field; a FinalizationRegistry frees what
    is never freed. *)

From Stdlib Require Import String.
From S2P Require Import Prelude.

(** ** The classes *)

(** What a method does with the Rust value: hand over [this.__wbg_ptr], or
    [__destroy_into_raw()] and hand over what it returned. *)
Inductive kind : Type := Borrows | Consumes.

(** What becomes of the export's result. *)
Inductive result : Type := Ignored | Returned | EnumIndex | Unsigned.

Record method : Type := Method {
  m_name : string; m_kind : kind; m_export : string; m_result : result
}.

Record class : Type := Class {
  c_free : string;              (* the export that drops the value *)
  c_methods : list method;
}.

Definition MessageSetter : class := Class "__wbg_messagesetter_free"
  [Method "message" Borrows "messagesetter_message" Ignored].

Definition WasmDecoder : class := Class "__wbg_wasmdecoder_free"
  [Method "process" Borrows "wasmdecoder_process" Returned].

Definition IntoUnderlyingByteSource : class := Class "__wbg_intounderlyingbytesource_free"
  [Method "type" Borrows "intounderlyingbytesource_type" EnumIndex;
   Method "autoAllocateChunkSize" Borrows "intounderlyingbytesource_autoAllocateChunkSize" Unsigned;
   Method "start" Borrows "intounderlyingbytesource_start" Ignored;
   Method "pull" Borrows "intounderlyingbytesource_pull" Returned;
   Method "cancel" Consumes "intounderlyingbytesource_cancel" Ignored].

Definition IntoUnderlyingSink : class := Class "__wbg_intounderlyingsink_free"
  [Method "write" Borrows "intounderlyingsink_write" Returned;
   Method "close" Consumes "intounderlyingsink_close" Returned;
   Method "abort" Consumes "intounderlyingsink_abort" Returned].

Definition IntoUnderlyingSource : class := Class "__wbg_intounderlyingsource_free"
  [Method "pull" Borrows "intounderlyingsource_pull" Returned;
   Method "cancel" Consumes "intounderlyingsource_cancel" Ignored].

(** The classes of the other front ends: the same, with the methods in another order. *)

Module InProphecy.
Definition IntoUnderlyingByteSource : class := Class "__wbg_intounderlyingbytesource_free"
  [Method "type" Borrows "intounderlyingbytesource_type" EnumIndex;
   Method "autoAllocateChunkSize" Borrows "intounderlyingbytesource_autoAllocateChunkSize" Unsigned;
   Method "start" Borrows "intounderlyingbytesource_start" Ignored;
   Method "pull" Borrows "intounderlyingbytesource_pull" Returned;
   Method "cancel" Consumes "intounderlyingbytesource_cancel" Ignored].
Definition IntoUnderlyingSink : class := Class "__wbg_intounderlyingsink_free"
  [Method "write" Borrows "intounderlyingsink_write" Returned;
   Method "close" Consumes "intounderlyingsink_close" Returned;
   Method "abort" Consumes "intounderlyingsink_abort" Returned].
Definition IntoUnderlyingSource : class := Class "__wbg_intounderlyingsource_free"
  [Method "pull" Borrows "intounderlyingsource_pull" Returned;
   Method "cancel" Consumes "intounderlyingsource_cancel" Ignored].
End InProphecy.

Module InWlanSwap.
Definition IntoUnderlyingByteSource : class := Class "__wbg_intounderlyingbytesource_free"
  [Method "autoAllocateChunkSize" Borrows "intounderlyingbytesource_autoAllocateChunkSize" Unsigned;
   Method "pull" Borrows "intounderlyingbytesource_pull" Returned;
   Method "start" Borrows "intounderlyingbytesource_start" Ignored;
   Method "type" Borrows "intounderlyingbytesource_type" EnumIndex;
   Method "cancel" Consumes "intounderlyingbytesource_cancel" Ignored].
Definition IntoUnderlyingSink : class := Class "__wbg_intounderlyingsink_free"
  [Method "abort" Consumes "intounderlyingsink_abort" Returned;
   Method "close" Consumes "intounderlyingsink_close" Returned;
   Method "write" Borrows "intounderlyingsink_write" Returned].
Definition IntoUnderlyingSource : class := Class "__wbg_intounderlyingsource_free"
  [Method "pull" Borrows "intounderlyingsource_pull" Returned;
   Method "cancel" Consumes "intounderlyingsource_cancel" Ignored].
End InWlanSwap.

Module InWlan.
Definition IntoUnderlyingByteSource : class := Class "__wbg_intounderlyingbytesource_free"
  [Method "autoAllocateChunkSize" Borrows "intounderlyingbytesource_autoAllocateChunkSize" Unsigned;
   Method "cancel" Consumes "intounderlyingbytesource_cancel" Ignored;
   Method "pull" Borrows "intounderlyingbytesource_pull" Returned;
   Method "start" Borrows "intounderlyingbytesource_start" Ignored;
   Method "type" Borrows "intounderlyingbytesource_type" EnumIndex].
Definition IntoUnderlyingSink : class := Class "__wbg_intounderlyingsink_free"
  [Method "abort" Consumes "intounderlyingsink_abort" Returned;
   Method "close" Consumes "intounderlyingsink_close" Returned;
   Method "write" Borrows "intounderlyingsink_write" Returned].
Definition IntoUnderlyingSource : class := Class "__wbg_intounderlyingsource_free"
  [Method "cancel" Consumes "intounderlyingsource_cancel" Ignored;
   Method "pull" Borrows "intounderlyingsource_pull" Returned].
End InWlan.

Module InWlanDebug.
Definition IntoUnderlyingByteSource : class := Class "__wbg_intounderlyingbytesource_free"
  [Method "autoAllocateChunkSize" Borrows "intounderlyingbytesource_autoAllocateChunkSize" Unsigned;
   Method "cancel" Consumes "intounderlyingbytesource_cancel" Ignored;
   Method "pull" Borrows "intounderlyingbytesource_pull" Returned;
   Method "start" Borrows "intounderlyingbytesource_start" Ignored;
   Method "type" Borrows "intounderlyingbytesource_type" EnumIndex].
Definition IntoUnderlyingSink : class := Class "__wbg_intounderlyingsink_free"
  [Method "abort" Consumes "intounderlyingsink_abort" Returned;
   Method "close" Consumes "intounderlyingsink_close" Returned;
   Method "write" Borrows "intounderlyingsink_write" Returned].
Definition IntoUnderlyingSource : class := Class "__wbg_intounderlyingsource_free"
  [Method "cancel" Consumes "intounderlyingsource_cancel" Ignored;
   Method "pull" Borrows "intounderlyingsource_pull" Returned].
End InWlanDebug.

#[export] Instance kind_eq : EqDecision kind.
Proof. solve_decision. Defined.
#[export] Instance result_eq : EqDecision result.
Proof. solve_decision. Defined.
#[export] Instance method_eq : EqDecision method.
Proof. solve_decision. Defined.

(** ** Operations *)

(** An object: [__wbg_ptr], the pointer its registration holds, if any, and whether the
    object is still reachable. *)
Record handle : Type := Handle { ptr : Z; registered : option Z; reachable : bool }.

(** A call of an export with a pointer: a release of the value, or a use of it. *)
Inductive use : Type := Release (export : string) (p : Z) | Use (export : string) (p : Z).

(** [__wrap(ptr)]; [registry]: the engine has [FinalizationRegistry], otherwise the class
    registers its objects with a placeholder that does nothing. *)
Definition wrap (registry : bool) (p : Z) : handle :=
  Handle (ToUint32 p) (if registry then Some (ToUint32 p) else None) true.

(** [new C()]: the classes have no constructor, so the field is [undefined], which wasm
    receives as 0, and nothing is registered. *)
Definition construct : handle := Handle 0 None true.

(** [__destroy_into_raw()] *)
Definition destroy_into_raw (h : handle) : handle * Z :=
  (Handle 0 None (reachable h), ptr h).

(** [free()] *)
Definition free (c : class) (h : handle) : handle * list use :=
  let '(h', p) := destroy_into_raw h in (h', [Release (c_free c) p]).

(** Calling a method. *)
Definition invoke (m : method) (h : handle) : handle * list use :=
  match m_kind m with
  | Borrows => (h, [Use (m_export m) (ptr h)])
  | Consumes => let '(h', p) := destroy_into_raw h in (h', [Release (m_export m) p])
  end.

(** The object is collected; the registry frees the pointer it holds. *)
Definition collect (c : class) (h : handle) : handle * list use :=
  (Handle (ptr h) None false,
   match registered h with Some p => [Release (c_free c) (ToUint32 p)] | None => [] end).

Inductive action : Type := CallFree | Call (m : method) | Gc.

Definition act (c : class) (x : action) (h : handle) : option (handle * list use) :=
  if reachable h then
    match x with
    | CallFree => Some (free c h)
    | Call m => if bool_decide (m ∈ c_methods c) then Some (invoke m h) else None
    | Gc => Some (collect c h)
    end
  else None.

(** The uses and releases of a run, oldest first. *)
Fixpoint run (c : class) (xs : list action) (h : handle) : option (handle * list use) :=
  match xs with
  | [] => Some (h, [])
  | x :: xs =>
      '(h1, es1) ← act c x h; '(h2, es2) ← run c xs h1; Some (h2, es1 ++ es2)
  end.

(** ** The value is released exactly once, and not used after that *)

Definition releases (p : Z) (e : use) : bool :=
  match e with Release _ q => q =? p | Use _ _ => false end.
Definition touches (p : Z) (e : use) : bool :=
  match e with Release _ q | Use _ q => q =? p end.

Definition count_releases (p : Z) (es : list use) : nat :=
  length (List.filter (releases p) es).

(** Nothing touches [p] after its release. *)
Fixpoint no_use_after_release (p : Z) (es : list use) : Prop :=
  match es with
  | [] => True
  | e :: es => (releases p e = true → Forall (λ e, touches p e = false) es) ∧
               no_use_after_release p es
  end.

Section ownership.
Context (registry : bool) (c : class) (p : Z) (Hp : p ≠ 0) (Hu : ToUint32 p = p).

(** The object owns [p] and is registered for it, or it has given it up. *)
Definition owner (h : handle) : Prop :=
  ptr h = p ∧ registered h = (if registry then Some p else None) ∧ reachable h = true.
Definition empty (h : handle) : Prop :=
  registered h = None ∧ (reachable h = true → ptr h = 0).
(** Without a registry, an object that was collected is lost together with its value. *)
Definition lost (h : handle) : Prop := registry = false ∧ reachable h = false ∧ ptr h = p.

Lemma zero_ne : (0 =? p) = false.
Proof. clear Hu. by destruct (Z.eqb_spec 0 p); [subst|]. Qed.

Lemma act_owner x h h' es :
  owner h → act c x h = Some (h', es) →
  (owner h' ∧ count_releases p es = 0%nat) ∨
  (empty h' ∧ ∃ m, es = [Release m p]) ∨
  (lost h' ∧ es = []).
Proof.
  intros (Hq & Hr & Ha). unfold act. rewrite Ha. destruct x as [|m|].
  - intros [= <- <-]. right; left. rewrite Hq. split; [by split|by eexists].
  - case_bool_decide; [|done]. unfold invoke. destruct (m_kind m); intros [= <- <-].
    + by left.
    + right; left. rewrite Hq. split; [by split|by eexists].
  - unfold collect, lost. rewrite Hr, Hq. destruct registry; intros [= <- <-].
    + right; left. rewrite Hu. split; [by split|by eexists].
    + right; right. by split.
Qed.

Lemma act_empty x h h' es :
  empty h → act c x h = Some (h', es) →
  empty h' ∧ Forall (λ e, touches p e = false) es.
Proof.
  clear Hu. intros [Hr Hq]. unfold act. destruct (reachable h) eqn:Ha; [|done].
  specialize (Hq eq_refl). destruct x as [|m|].
  - intros [= <- <-]. rewrite Hq. split; [by split|].
    constructor; [apply zero_ne|constructor].
  - case_bool_decide; [|done]. unfold invoke.
    destruct (m_kind m); intros [= <- <-]; rewrite Hq; (split; [by split|]);
      (constructor; [apply zero_ne|constructor]).
  - intros [= <- <-]. rewrite Hr. split; [by split|constructor].
Qed.

Lemma untouched_releases es :
  Forall (λ e, touches p e = false) es → count_releases p es = 0%nat ∧ no_use_after_release p es.
Proof.
  intros He. unfold count_releases. induction He as [|e es He _ [IH1 IH2]]; [done|].
  assert (Hr : releases p e = false) by (destruct e; done). simpl. rewrite Hr.
  split; [done|]. split; [done|done].
Qed.

Lemma run_empty xs h h' es :
  empty h → run c xs h = Some (h', es) → empty h' ∧ Forall (λ e, touches p e = false) es.
Proof.
  revert h es. induction xs as [|x xs IH]; intros h es Hh Hr; simpl in Hr.
  { injection Hr as <- <-. by split. }
  destruct (act c x h) as [[h1 es1]|] eqn:E1; [|done]. simpl in Hr.
  destruct (run c xs h1) as [[h2 es2]|] eqn:E2; [|done]. simpl in Hr. injection Hr as <- <-.
  destruct (act_empty _ _ _ _ Hh E1) as [H1 F1]. destruct (IH _ _ H1 E2) as [H2 F2].
  split; [done|]. by apply Forall_app.
Qed.

Lemma no_use_app es1 es2 :
  count_releases p es1 = 0%nat → no_use_after_release p es2 → no_use_after_release p (es1 ++ es2).
Proof.
  intros H1 H2. induction es1 as [|e es1 IH]; [done|]. unfold count_releases in *. simpl in *.
  destruct (releases p e); [done|]. split; [done|auto].
Qed.

Lemma run_lost xs h h' es : lost h → run c xs h = Some (h', es) → h' = h ∧ es = [].
Proof.
  intros (_ & Hl & _). destruct xs as [|x xs]; simpl; [by intros [= <- <-]|].
  unfold act. by rewrite Hl.
Qed.

Lemma run_owner xs h h' es :
  owner h → run c xs h = Some (h', es) →
  no_use_after_release p es ∧
  (((owner h' ∨ lost h') ∧ count_releases p es = 0%nat) ∨
   (empty h' ∧ count_releases p es = 1%nat)).
Proof.
  revert h es. induction xs as [|x xs IH]; intros h es Hh Hr; simpl in Hr.
  { injection Hr as <- <-. split; [done|]. left. by split; [left|]. }
  destruct (act c x h) as [[h1 es1]|] eqn:E1; [|done]. simpl in Hr.
  destruct (run c xs h1) as [[h2 es2]|] eqn:E2; [|done]. simpl in Hr. injection Hr as <- <-.
  destruct (act_owner _ _ _ _ Hh E1) as [[H1 C1]|[[H1 [m ->]]|[H1 ->]]].
  - destruct (IH _ _ H1 E2) as [N2 Hc]. split; [by apply no_use_app|].
    unfold count_releases in *. rewrite List.filter_app, length_app, C1. exact Hc.
  - destruct (run_empty _ _ _ _ H1 E2) as [H2 F2].
    destruct (untouched_releases _ F2) as [C2 N2]. split; [by split|].
    right. split; [done|]. unfold count_releases in *. simpl. rewrite Z.eqb_refl. simpl. by rewrite C2.
  - destruct (run_lost xs h1 h2 es2) as [-> ->]; [done..|]. split; [done|]. left. by split; [right|].
Qed.
End ownership.

(** Objects made by [new] never hand over a pointer to a value. *)
Lemma constructed_harmless c p xs h es :
  p ≠ 0 → run c xs construct = Some (h, es) → Forall (λ e, touches p e = false) es.
Proof. intros Hp Hr. by eapply (run_empty c p Hp xs construct). Qed.

(** ** The order of the methods does not matter *)

Definition same_class (c c' : class) : Prop :=
  c_free c = c_free c' ∧ c_methods c ≡ₚ c_methods c'.

(** Each class with its copies. *)
Definition copies : list (class * list class) :=
  [(IntoUnderlyingByteSource,
     [InProphecy.IntoUnderlyingByteSource; InWlanSwap.IntoUnderlyingByteSource;
      InWlan.IntoUnderlyingByteSource; InWlanDebug.IntoUnderlyingByteSource]);
   (IntoUnderlyingSink,
     [InProphecy.IntoUnderlyingSink; InWlanSwap.IntoUnderlyingSink;
      InWlan.IntoUnderlyingSink; InWlanDebug.IntoUnderlyingSink]);
   (IntoUnderlyingSource,
     [InProphecy.IntoUnderlyingSource; InWlanSwap.IntoUnderlyingSource;
      InWlan.IntoUnderlyingSource; InWlanDebug.IntoUnderlyingSource])].

Lemma copies_same : Forall (λ x, Forall (same_class x.1) x.2) copies.
Proof.
  repeat constructor; by apply (bool_decide_unpack _); vm_compute.
Qed.

Lemma act_same c c' x h : same_class c c' → act c x h = act c' x h.
Proof.
  intros [Hf Hm]. unfold act, free, collect. rewrite Hf. destruct x as [|m|]; try done.
  assert (bool_decide (m ∈ c_methods c) = bool_decide (m ∈ c_methods c')) as -> by
    (apply bool_decide_ext; by rewrite Hm). done.
Qed.

Lemma run_same c c' xs h : same_class c c' → run c xs h = run c' xs h.
Proof.
  intros Hc. revert h. induction xs as [|x xs IH]; intros h; [done|]. simpl.
  rewrite (act_same c c' x h Hc). destruct (act c' x h) as [[h1 es1]|]; [|done]. simpl.
  by rewrite IH.
Qed.

(** ** Properties *)

(** C18: whatever methods are called on an object, and however often it is freed -- by hand,
    by a method that consumes it, or by the garbage collector -- the Rust value is released
    at most once and never touched afterwards; once the object is emptied it has been released
    exactly once, and, where the engine has a FinalizationRegistry, also once it is
    collected. *)
Theorem handle_released_once (registry : bool) (c : class) (p : Z) (xs : list action)
    (h : handle) (es : list use) :
  ToUint32 p ≠ 0 → run c xs (wrap registry p) = Some (h, es) →
  let p := ToUint32 p in
  (count_releases p es ≤ 1)%nat ∧ no_use_after_release p es ∧
  (ptr h = 0 → count_releases p es = 1%nat) ∧
  (registry = true → reachable h = false → count_releases p es = 1%nat).
Proof.
  intros Hp Hr q.
  assert (Hu : ToUint32 q = q) by apply ToUint32_idem.
  destruct (run_owner registry c q Hp Hu xs (wrap registry p) h es)
    as [Hn [[Ho ->]|[_ ->]]]; [done..| |].
  - split_and!; [lia|done| |].
    + destruct Ho as [(Hq & _)|(_ & _ & Hq)]; subst q; congruence.
    + destruct Ho as [(_ & _ & Ha)|(-> & _)]; congruence.
  - split_and!; [lia|done..].
Qed.

Lemma handle_released_once_witness :
  ∃ h es, run IntoUnderlyingSink
      [Call (Method "write" Borrows "intounderlyingsink_write" Returned);
       Call (Method "close" Consumes "intounderlyingsink_close" Returned);
       CallFree; Gc] (wrap true (-8)) = Some (h, es) ∧
  let p := ToUint32 (-8) in
  (count_releases p es ≤ 1)%nat ∧ no_use_after_release p es ∧
  (ptr h = 0 → count_releases p es = 1%nat) ∧
  (true = true → reachable h = false → count_releases p es = 1%nat).
Proof.
  eexists _, _. split; [vm_compute; reflexivity|].
  eapply (handle_released_once true IntoUnderlyingSink (-8)
    [Call (Method "write" Borrows "intounderlyingsink_write" Returned);
     Call (Method "close" Consumes "intounderlyingsink_close" Returned); CallFree; Gc]).
  - vm_compute. discriminate.
  - vm_compute; reflexivity.
Defined.

(** The three stream classes behave alike in the five front ends that have them: whatever
    the methods called, an object of one module's class goes through the same states and calls
    the same exports as one of another module's. *)
Theorem class_copies_equivalent (c c' : class) (cs : list class) (xs : list action) (h : handle) :
  (c, cs) ∈ copies → c' ∈ cs → run c' xs h = run c xs h.
Proof.
  intros Hc Hc'. symmetry. apply run_same. pose proof copies_same as Hs.
  rewrite list.Forall_forall in Hs. specialize (Hs _ Hc). rewrite list.Forall_forall in Hs.
  by apply (Hs c').
Qed.

Lemma class_copies_equivalent_witness :
  run InWlan.IntoUnderlyingSource
    [Call (Method "cancel" Consumes "intounderlyingsource_cancel" Ignored); CallFree] (wrap true 8) =
  run IntoUnderlyingSource
    [Call (Method "cancel" Consumes "intounderlyingsource_cancel" Ignored); CallFree] (wrap true 8).
Proof.
  eapply (class_copies_equivalent IntoUnderlyingSource InWlan.IntoUnderlyingSource).
  - right. right. left.
  - right. right. left.
Defined.
