(* ===== verification/Helpers.v ===== *)
(** * The helper functions of each glue module

    Every glue module carries its own copy of the helper functions.  The functions of the same
    name have the same text in all modules of a generation, so that a copy is the translation
    in [Memory], [Glue] or [DebugString]; what differs is which text classes a module names
    ([Environment]), whether strings are read through [decodeText], which views it caches and
    in which order its classes list their methods.  One Module per source file says which
    helpers it has; the record [helpers] is the interface through which the theorems hold for
    all seven. *)

From Stdlib Require Import String.
From S2P Require Import Standard.
From S2P Require Import Prelude TextCodec Memory Environment Loader Session Closure.
From S2P Require Import Glue DebugString Loopback Spectrum WlanSwap Prophecy Wlan WlanDebug.
From S2P Require Import Decoder.

(** ** Reading a string through [decodeText] *)

(** The state is the glue's together with the decoder object in use. *)
Abbreviation T S A := (M exn (glue S * DecodeText.text_decoder) A).

Section decoding.
Context {S : Type} `{!Allocator S} {TO : TextOps}.

Definition with_glue {A} (m : G S A) : T S A := λ '(g, td),
  match m g with Some (o, g') => Some (o, (g', td)) | None => None end.

(** [decodeText(ptr, len)]: the accounting, with a new decoder when it is due, and then
    [cachedTextDecoder.decode(getUint8ArrayMemory0().subarray(ptr, ptr + len))]. *)
Definition decodeText (ptr len : Z) : T S jsstring :=
  _ ← modify (λ '(g, td), (g, DecodeText.decodeText td len));
  with_glue (mem ← getUint8ArrayMemory0;
             view ← subarray mem ptr (ptr + len);
             m ← gets Memory.mem;
             lift JsErr (tc_decode (view_bytes m view))).

Definition decoding_getString (ptr len : Z) : T S jsstring :=
  let ptr := ToUint32 ptr in decodeText ptr len.

(** The older generation has one decoder for good. *)
Definition plain_getString (ptr len : Z) : T S jsstring :=
  with_glue (Memory.getStringFromWasm0 ptr len).
End decoding.

(** ** The modules *)

Module InLoopback.
Section copies.
Context {S H : Type} `{!Host S H, !Exports S H, !Allocator S} {TO : TextOps}.
Definition cachedTextDecoder : globals → run js_error (list Z → run js_error jsstring) :=
  guarded_decoder.
Definition cachedTextEncoder : globals → run js_error encoder := guarded_encoder.
End copies.
End InLoopback.

Module InSpectrum.
Section copies.
Context {S H : Type} `{!Host S H, !Exports S H, !Allocator S} {TO : TextOps}.
Definition cachedTextDecoder : globals → run js_error (list Z → run js_error jsstring) :=
  guarded_decoder.
Definition getUint8ArrayMemory0 : G S view := Memory.getUint8ArrayMemory0.
Definition getStringFromWasm0 : Z → Z → T S jsstring := plain_getString.
Definition addToExternrefTable0 : val → J S H Z := Glue.addToExternrefTable0.
Definition handleError : J S H val → J S H val := Glue.handleError.
Definition isLikeNone : val → bool := Glue.isLikeNone.
Definition getArrayU8FromWasm0 : Z → Z → G S view := Memory.getArrayU8FromWasm0.
Definition cachedTextEncoder : globals → run js_error encoder := guarded_encoder.
Definition passStringToWasm0 : jsstring → (Z → Z → G S Z) → option (Z → Z → Z → Z → G S Z) → G S Z :=
  Memory.passStringToWasm0.
Definition getDataViewMemory0 : bool → G S view := Memory.getDataViewMemory0.
Definition debugString : nat → val → J S H jsstring := DebugString.debugString.
End copies.
End InSpectrum.

Module InProphecy.
Section copies.
Context {S H : Type} `{!Host S H, !Exports S H, !Allocator S} {TO : TextOps}.
Definition cachedTextDecoder : globals → run js_error (list Z → run js_error jsstring) :=
  guarded_decoder.
Definition getUint8ArrayMemory0 : G S view := Memory.getUint8ArrayMemory0.
Definition getStringFromWasm0 : Z → Z → T S jsstring := plain_getString.
Definition addToExternrefTable0 : val → J S H Z := Glue.addToExternrefTable0.
Definition handleError : J S H val → J S H val := Glue.handleError.
Definition isLikeNone : val → bool := Glue.isLikeNone.
Definition cachedTextEncoder : globals → run js_error encoder := guarded_encoder.
Definition passStringToWasm0 : jsstring → (Z → Z → G S Z) → option (Z → Z → Z → Z → G S Z) → G S Z :=
  Memory.passStringToWasm0.
Definition getDataViewMemory0 : bool → G S view := Memory.getDataViewMemory0.
Definition debugString : nat → val → J S H jsstring := DebugString.debugString.
End copies.
End InProphecy.

Module InWlanSwap.
Section copies.
Context {S H : Type} `{!Host S H, !Exports S H, !Allocator S} {TO : TextOps}.
Definition getUint8ArrayMemory0 : G S view := Memory.getUint8ArrayMemory0.
Definition cachedTextDecoder : globals → run js_error (list Z → run js_error jsstring) :=
  bare_decoder.
Definition getStringFromWasm0 : Z → Z → T S jsstring := decoding_getString.
Definition addToExternrefTable0 : val → J S H Z := Glue.addToExternrefTable0.
Definition handleError : J S H val → J S H val := Glue.handleError.
Definition isLikeNone : val → bool := Glue.isLikeNone.
Definition getArrayU8FromWasm0 : Z → Z → G S view := Memory.getArrayU8FromWasm0.
Definition cachedTextEncoder : globals → run js_error encoder := bare_encoder.
Definition passStringToWasm0 : jsstring → (Z → Z → G S Z) → option (Z → Z → Z → Z → G S Z) → G S Z :=
  Memory.passStringToWasm0.
Definition getDataViewMemory0 : bool → G S view := Memory.getDataViewMemory0.
Definition debugString : nat → val → J S H jsstring := DebugString.debugString.
Definition getUint16ArrayMemory0 : G S view := Memory.getUint16ArrayMemory0.
Definition getArrayU16FromWasm0 : Z → Z → G S view := Memory.getArrayU16FromWasm0.
Definition getFloat32ArrayMemory0 : G S view := Memory.getFloat32ArrayMemory0.
Definition getArrayF32FromWasm0 : Z → Z → G S view := Memory.getArrayF32FromWasm0.
End copies.
End InWlanSwap.

Module InWlan.
Section copies.
Context {S H : Type} `{!Host S H, !Exports S H, !Allocator S} {TO : TextOps}.
Definition addToExternrefTable0 : val → J S H Z := Glue.addToExternrefTable0.
Definition debugString : nat → val → J S H jsstring := DebugString.debugString.
Definition getArrayF32FromWasm0 : Z → Z → G S view := Memory.getArrayF32FromWasm0.
Definition getArrayU16FromWasm0 : Z → Z → G S view := Memory.getArrayU16FromWasm0.
Definition getArrayU8FromWasm0 : Z → Z → G S view := Memory.getArrayU8FromWasm0.
Definition getDataViewMemory0 : bool → G S view := Memory.getDataViewMemory0.
Definition getFloat32ArrayMemory0 : G S view := Memory.getFloat32ArrayMemory0.
Definition getUint16ArrayMemory0 : G S view := Memory.getUint16ArrayMemory0.
Definition getUint8ArrayMemory0 : G S view := Memory.getUint8ArrayMemory0.
Definition handleError : J S H val → J S H val := Glue.handleError.
Definition isLikeNone : val → bool := Glue.isLikeNone.
Definition passStringToWasm0 : jsstring → (Z → Z → G S Z) → option (Z → Z → Z → Z → G S Z) → G S Z :=
  Memory.passStringToWasm0.
Definition cachedTextDecoder : globals → run js_error (list Z → run js_error jsstring) :=
  bare_decoder.
Definition decodeText : Z → Z → T S jsstring := decodeText.
Definition getStringFromWasm0 : Z → Z → T S jsstring := decoding_getString.
Definition cachedTextEncoder : globals → run js_error encoder := bare_encoder.
End copies.
End InWlan.

Module InWlanDebug.
Section copies.
Context {S H : Type} `{!Host S H, !Exports S H, !Allocator S} {TO : TextOps}.
Definition addToExternrefTable0 : val → J S H Z := Glue.addToExternrefTable0.
Definition debugString : nat → val → J S H jsstring := DebugString.debugString.
Definition getArrayF32FromWasm0 : Z → Z → G S view := Memory.getArrayF32FromWasm0.
Definition getArrayU16FromWasm0 : Z → Z → G S view := Memory.getArrayU16FromWasm0.
Definition getArrayU8FromWasm0 : Z → Z → G S view := Memory.getArrayU8FromWasm0.
Definition getDataViewMemory0 : bool → G S view := Memory.getDataViewMemory0.
Definition getFloat32ArrayMemory0 : G S view := Memory.getFloat32ArrayMemory0.
Definition getUint16ArrayMemory0 : G S view := Memory.getUint16ArrayMemory0.
Definition getUint8ArrayMemory0 : G S view := Memory.getUint8ArrayMemory0.
Definition handleError : J S H val → J S H val := Glue.handleError.
Definition isLikeNone : val → bool := Glue.isLikeNone.
Definition passStringToWasm0 : jsstring → (Z → Z → G S Z) → option (Z → Z → Z → Z → G S Z) → G S Z :=
  Memory.passStringToWasm0.
Definition cachedTextDecoder : globals → run js_error (list Z → run js_error jsstring) :=
  bare_decoder.
Definition decodeText : Z → Z → T S jsstring := decodeText.
Definition getStringFromWasm0 : Z → Z → T S jsstring := decoding_getString.
Definition cachedTextEncoder : globals → run js_error encoder := bare_encoder.
End copies.
End InWlanDebug.

Module InDecoder.
Section copies.
Context {S H : Type} `{!Host S H, !Exports S H, !Allocator S} {TO : TextOps}.
Definition cachedTextDecoder : globals → run js_error (list Z → run js_error jsstring) :=
  guarded_decoder.
Definition getUint8ArrayMemory0 : G S view := Memory.getUint8ArrayMemory0.
Definition getStringFromWasm0 : Z → Z → T S jsstring := plain_getString.
Definition cachedTextEncoder : globals → run js_error encoder := guarded_encoder.
Definition passStringToWasm0 : jsstring → (Z → Z → G S Z) → option (Z → Z → Z → Z → G S Z) → G S Z :=
  Memory.passStringToWasm0.
Definition getFloat32ArrayMemory0 : G S view := Memory.getFloat32ArrayMemory0.
End copies.
End InDecoder.
(** ** One interface for all *)

Record helpers (S : Type) : Type := Helpers {
  h_loading : Session.loading;
  h_decoder : globals → run js_error (list Z → run js_error jsstring);
  h_encoder : globals → run js_error encoder;
  h_getters : list (cache * (bool → G S view));        (* [getXMemory0] *)
  h_slices : list (cache * (Z → Z → G S view));        (* [getArrayXFromWasm0] *)
  h_getString : TextOps → Z → Z → T S jsstring;
  h_passString : TextOps → jsstring → (Z → Z → G S Z) →
                 option (Z → Z → Z → Z → G S Z) → G S Z;
}.
Arguments h_loading {S} _.
Arguments h_decoder {S} _.
Arguments h_encoder {S} _.
Arguments h_getters {S} _.
Arguments h_slices {S} _.
Arguments h_getString {S} _.
Arguments h_passString {S} _.

(** What evaluating the module in a scope leaves for its string helpers. *)
Definition top_level {S} (h : helpers S) (sc : globals) : run js_error TextOps :=
  d <~ h_decoder h sc; e <~ h_encoder h sc; ret (ops d e).

Section modules.
Context {S : Type} `{!Allocator S}.

Definition loopback : helpers S := {|
  h_loading := Loopback.loading;
  h_decoder := InLoopback.cachedTextDecoder; h_encoder := InLoopback.cachedTextEncoder;
  h_getters := [(U8, λ _, getUint8ArrayMemory0); (DV, getDataViewMemory0);
                (U32, λ _, getUint32ArrayMemory0)];
  h_slices := [(U8, getArrayU8FromWasm0); (U32, getArrayU32FromWasm0)];
  h_getString TO := plain_getString; h_passString TO := passStringToWasm0;
|}.

Definition spectrum : helpers S := {|
  h_loading := Spectrum.loading;
  h_decoder := InSpectrum.cachedTextDecoder; h_encoder := InSpectrum.cachedTextEncoder;
  h_getters := [(U8, λ _, InSpectrum.getUint8ArrayMemory0); (DV, InSpectrum.getDataViewMemory0)];
  h_slices := [(U8, InSpectrum.getArrayU8FromWasm0)];
  h_getString TO := InSpectrum.getStringFromWasm0;
  h_passString TO := InSpectrum.passStringToWasm0;
|}.

Definition prophecy : helpers S := {|
  h_loading := Prophecy.loading;
  h_decoder := InProphecy.cachedTextDecoder; h_encoder := InProphecy.cachedTextEncoder;
  h_getters := [(U8, λ _, InProphecy.getUint8ArrayMemory0); (DV, InProphecy.getDataViewMemory0)];
  h_slices := [];
  h_getString TO := InProphecy.getStringFromWasm0;
  h_passString TO := InProphecy.passStringToWasm0;
|}.

Definition wlanswap : helpers S := {|
  h_loading := WlanSwap.loading;
  h_decoder := InWlanSwap.cachedTextDecoder; h_encoder := InWlanSwap.cachedTextEncoder;
  h_getters := [(U8, λ _, InWlanSwap.getUint8ArrayMemory0); (DV, InWlanSwap.getDataViewMemory0);
                (U16, λ _, InWlanSwap.getUint16ArrayMemory0);
                (F32, λ _, InWlanSwap.getFloat32ArrayMemory0)];
  h_slices := [(U8, InWlanSwap.getArrayU8FromWasm0); (U16, InWlanSwap.getArrayU16FromWasm0);
               (F32, InWlanSwap.getArrayF32FromWasm0)];
  h_getString TO := InWlanSwap.getStringFromWasm0;
  h_passString TO := InWlanSwap.passStringToWasm0;
|}.

Definition wlan : helpers S := {|
  h_loading := Wlan.loading;
  h_decoder := InWlan.cachedTextDecoder; h_encoder := InWlan.cachedTextEncoder;
  h_getters := [(DV, InWlan.getDataViewMemory0); (F32, λ _, InWlan.getFloat32ArrayMemory0);
                (U16, λ _, InWlan.getUint16ArrayMemory0); (U8, λ _, InWlan.getUint8ArrayMemory0)];
  h_slices := [(F32, InWlan.getArrayF32FromWasm0); (U16, InWlan.getArrayU16FromWasm0);
               (U8, InWlan.getArrayU8FromWasm0)];
  h_getString TO := InWlan.getStringFromWasm0;
  h_passString TO := InWlan.passStringToWasm0;
|}.

Definition wlandebug : helpers S := {|
  h_loading := WlanDebug.loading;
  h_decoder := InWlanDebug.cachedTextDecoder; h_encoder := InWlanDebug.cachedTextEncoder;
  h_getters := [(DV, InWlanDebug.getDataViewMemory0);
                (F32, λ _, InWlanDebug.getFloat32ArrayMemory0);
                (U16, λ _, InWlanDebug.getUint16ArrayMemory0);
                (U8, λ _, InWlanDebug.getUint8ArrayMemory0)];
  h_slices := [(F32, InWlanDebug.getArrayF32FromWasm0); (U16, InWlanDebug.getArrayU16FromWasm0);
               (U8, InWlanDebug.getArrayU8FromWasm0)];
  h_getString TO := InWlanDebug.getStringFromWasm0;
  h_passString TO := InWlanDebug.passStringToWasm0;
|}.

Definition decoder : helpers S := {|
  h_loading := Decoder.loading;
  h_decoder := InDecoder.cachedTextDecoder; h_encoder := InDecoder.cachedTextEncoder;
  h_getters := [(U8, λ _, InDecoder.getUint8ArrayMemory0);
                (F32, λ _, InDecoder.getFloat32ArrayMemory0); (I32, λ _, getInt32Memory0)];
  h_slices := [];
  h_getString TO := InDecoder.getStringFromWasm0;
  h_passString TO := InDecoder.passStringToWasm0;
|}.

Definition modules : list (helpers S) :=
  [loopback; spectrum; prophecy; wlanswap; wlan; wlandebug; decoder].

(** *** What a module promises *)

(** The slice functions, by the view they cut. *)
Definition slice_of (c : cache) (ptr len : Z) : G S view :=
  v ← get_typed c;
  subarray v (ToUint32 ptr / elt_size c) (ToUint32 ptr / elt_size c + len).

Class HelpersOk (h : helpers S) : Prop := {
  top_level_ok sc : top_level h sc = evaluate Older sc ∨ top_level h sc = evaluate Newer sc;
  getters_ok : Forall (λ x, ∀ hd, x.2 hd = if bool_decide (x.1 = DV) then getDataViewMemory0 hd
                                           else get_typed x.1) (h_getters h);
  slices_ok : Forall (λ x, x.1 ∈ map fst (h_getters h) ∧ x.1 ≠ DV ∧ x.2 = slice_of x.1)
                     (h_slices h);
  getters_views : map fst (h_getters h) ≡ₚ ld_views (h_loading h);
  getString_ok TO p n g td : ∃ td', h_getString h TO p n (g, td) =
    match getStringFromWasm0 p n g with Some (o, g') => Some (o, (g', td')) | None => None end;
  passString_ok TO s malloc realloc :
    h_passString h TO s malloc realloc = passStringToWasm0 s malloc realloc;
}.

Lemma plain_same (TO : TextOps) p n g td :
  ∃ td', (plain_getString p n : T S jsstring) (g, td) =
    match getStringFromWasm0 p n g with Some (o, g') => Some (o, (g', td')) | None => None end.
Proof. by exists td. Qed.

Lemma decoding_same (TO : TextOps) p n g td :
  ∃ td', (decoding_getString p n : T S jsstring) (g, td) =
    match getStringFromWasm0 p n g with Some (o, g') => Some (o, (g', td')) | None => None end.
Proof. by exists (DecodeText.decodeText td n). Qed.

Ltac helpers_ok generation get :=
  constructor;
  [intros; apply generation; reflexivity
  |repeat (apply List.Forall_cons; [intros hd; reflexivity|]); apply List.Forall_nil
  |repeat (apply List.Forall_cons; [split_and!; [by apply (bool_decide_unpack _); vm_compute|discriminate|reflexivity]|]);
   apply List.Forall_nil
  |by apply (bool_decide_unpack _); vm_compute
  |intros; apply get
  |reflexivity].

#[export] Instance loopback_ok : HelpersOk loopback.
Proof. helpers_ok or_introl plain_same. Qed.
#[export] Instance spectrum_ok : HelpersOk spectrum.
Proof. helpers_ok or_introl plain_same. Qed.
#[export] Instance prophecy_ok : HelpersOk prophecy.
Proof. helpers_ok or_introl plain_same. Qed.
#[export] Instance wlanswap_ok : HelpersOk wlanswap.
Proof. helpers_ok or_intror decoding_same. Qed.
#[export] Instance wlan_ok : HelpersOk wlan.
Proof. helpers_ok or_intror decoding_same. Qed.
#[export] Instance wlandebug_ok : HelpersOk wlandebug.
Proof. helpers_ok or_intror decoding_same. Qed.
#[export] Instance decoder_ok : HelpersOk decoder.
Proof. helpers_ok or_introl plain_same. Qed.

Lemma modules_ok : Forall HelpersOk modules.
Proof.
  exact (List.Forall_cons _ _ _ loopback_ok (List.Forall_cons _ _ _ spectrum_ok
    (List.Forall_cons _ _ _ prophecy_ok (List.Forall_cons _ _ _ wlanswap_ok
    (List.Forall_cons _ _ _ wlan_ok (List.Forall_cons _ _ _ wlandebug_ok
    (List.Forall_cons _ _ _ decoder_ok (List.Forall_nil _)))))))).
Qed.
End modules.

(** ** What the interface gives *)

Section use.
Context {S : Type} `{!Allocator S} (h : helpers S) `{!HelpersOk h}.

Lemma elt_size_pos c : 0 < elt_size c.
Proof. by destruct c. Qed.

Lemma slice_run c p n (g : glue S) :
  cache_ok g → 0 ≤ n → ToUint32 p mod elt_size c = 0 → c ≠ DV →
  ToUint32 p + n * elt_size c ≤ Zlen (bytes (mem g)) →
  ∃ v g', slice_of c p n g = Some (Ok v, g') ∧ mem g' = mem g ∧ cache_ok g' ∧
    view_bytes (mem g') v = slice (bytes (mem g)) (ToUint32 p) (n * elt_size c).
Proof.
  intros Hok Hn Ha _ Hb. pose proof (elt_size_pos c). pose proof (ToUint32_range p).
  set (b := ToUint32 p / elt_size c).
  assert (ToUint32 p = b * elt_size c) as He by (unfold b; pose proof (Z_div_mod_eq_full (ToUint32 p) (elt_size c)); lia).
  assert (0 ≤ b) by (apply Z.div_pos; lia).
  destruct (get_typed_run c g Hok) as (g2 & Hr & Hm & _ & Hok2).
  unfold slice_of. fold b. erewrite M_bind_ok by done. rewrite <- Hm in *.
  eexists _, g2. split; [apply subarray_run; simpl; [done|lia|]|].
  - apply Z.div_le_lower_bound; lia.
  - split_and!; [done..|]. unfold view_bytes, detached.
    cbn [v_gen v_off v_size v_count whole]. rewrite Nat.eqb_refl. cbn [negb].
    f_equal; lia.
Qed.

Lemma getter_run c get hd (g : glue S) :
  (c, get) ∈ h_getters h → cache_ok g →
  ∃ g', get hd g = Some (Ok (whole (elt_size c) (mem g)), g') ∧ mem g' = mem g ∧ cache_ok g'.
Proof.
  intros Hin Hok. pose proof (getters_ok (h := h)) as Hg. rewrite list.Forall_forall in Hg.
  specialize (Hg _ Hin hd). simpl in Hg. rewrite Hg. case_bool_decide as Hc.
  - subst c. destruct (getDataView_run hd g Hok) as (g' & ? & ? & _ & ?). by exists g'.
  - destruct (get_typed_run c g Hok) as (g' & ? & ? & _ & ?). by exists g'.
Qed.

Lemma read_back {TC : TextCodec} s (g : glue S) p n td :
  Forall Utf8.unit_ok s → cache_ok g → string_at g p n s →
  ∃ g' td', h_getString h TC p n (g, td) = Some (Ok (tc_normal s), (g', td')) ∧ mem g' = mem g.
Proof.
  intros Hs Hok Hat. destruct (get_string_spec s g p n Hs Hok Hat) as (g' & Hr & Hm & _).
  destruct (getString_ok TC p n g td) as [td' He]. rewrite He, Hr. by exists g', td'.
Qed.

Lemma top_level_page : top_level h page_scope = ret (tc_ops (TextCodec := Standard.standard_codec)).
Proof. by destruct (top_level_ok page_scope) as [-> | ->]; rewrite evaluate_page. Qed.
End use.

(** Reading strings one after the other, each at the state the glue is in by then. *)
Fixpoint read_all {S} `{!Allocator S} {TO : TextOps} (l : list (glue S * Z * Z))
    (td : DecodeText.text_decoder) : option DecodeText.text_decoder :=
  match l with
  | [] => Some td
  | (g, ptr, len) :: l =>
      match (decoding_getString ptr len : T S jsstring) (g, td) with
      | Some (_, (_, td)) => read_all l td
      | None => None
      end
  end.

Lemma read_all_spec {S} `{!Allocator S} {TO : TextOps} (l : list (glue S * Z * Z)) td td' :
  read_all l td = Some td' → td' = fold_left DecodeText.decodeText (map snd l) td.
Proof.
  revert td. induction l as [|[[g p] n] l IH]; intros td; [by intros [= <-]|]. cbn [read_all map fold_left].
  destruct (decoding_getString p n (g, td)) as [[o [g' td1]]|] eqn:Hr; [|done].
  intros ->%IH. f_equal. cbn [snd]. unfold decoding_getString, decodeText in Hr.
  cbv [mbind M_bind modify] in Hr. unfold with_glue in Hr.
  match type of Hr with context [match ?m with _ => _ end] => destruct m as [[]|] end; by simplify_eq.
Qed.

(** ** Properties *)

(** C27: The cached views of every glue module: the module's loading resets exactly the views
    its getters cache; each getter returns the view of the whole current memory, without
    changing memory; and each slice function returns a view of exactly the elements at the
    pointer, where it is aligned and they are inside the memory. *)
Theorem module_views {St} `{!Allocator St} (h : helpers St) (g : glue St) (hd : bool) :
  h ∈ modules → cache_ok g →
  map fst (h_getters h) ≡ₚ ld_views (h_loading h) ∧
  (∀ c get, (c, get) ∈ h_getters h →
     ∃ g', get hd g = Some (Ok (whole (elt_size c) (mem g)), g') ∧ mem g' = mem g) ∧
  (∀ c f ptr len, (c, f) ∈ h_slices h →
     0 ≤ len → ToUint32 ptr mod elt_size c = 0 →
     ToUint32 ptr + len * elt_size c ≤ Zlen (bytes (mem g)) →
     ∃ v g', f ptr len g = Some (Ok v, g') ∧ mem g' = mem g ∧
       view_bytes (mem g') v = slice (bytes (mem g)) (ToUint32 ptr) (len * elt_size c)).
Proof.
  intros Hin Hok. pose proof (modules_ok (S := St)) as Hm. rewrite list.Forall_forall in Hm.
  specialize (Hm h Hin). split_and!; [apply getters_views| |].
  - intros c get Hg. destruct (getter_run h c get hd g Hg Hok) as (g' & ? & ? & _). by exists g'.
  - intros c f ptr len Hf ???. pose proof (slices_ok (h := h)) as Hs. rewrite list.Forall_forall in Hs.
    destruct (Hs _ Hf) as (_ & Hc & He). simpl in *. subst f.
    destruct (slice_run c ptr len g) as (v & g' & ? & ? & _ & ?); [done..|]. by exists v, g'.
Qed.

Lemma module_views_witness :
  map fst (h_getters (wlan (S := Z))) ≡ₚ ld_views (h_loading (wlan (S := Z))) ∧
  (∀ c get, (c, get) ∈ h_getters (wlan (S := Z)) →
     ∃ g', get true glue0 = Some (Ok (whole (elt_size c) (mem glue0)), g') ∧ mem g' = mem glue0) ∧
  (∀ c f ptr len, (c, f) ∈ h_slices (wlan (S := Z)) →
     0 ≤ len → ToUint32 ptr mod elt_size c = 0 →
     ToUint32 ptr + len * elt_size c ≤ Zlen (bytes (mem glue0)) →
     ∃ v g', f ptr len glue0 = Some (Ok v, g') ∧ mem g' = mem glue0 ∧
       view_bytes (mem g') v = slice (bytes (mem glue0)) (ToUint32 ptr) (len * elt_size c)).
Proof. apply (module_views wlan glue0 true); [do 4 right; left|done]. Defined.

(** C19: In every glue module, evaluated in a page: what [passStringToWasm0] leaves in memory is
    the UTF-8 encoding of the string, and the module's own [getStringFromWasm0] -- through
    [decodeText] or not, whatever decoder object is in use -- reads it back, with unpaired
    surrogates replaced. *)
Theorem module_strings {St} `{!Allocator St, !AllocatorLaws St} (h : helpers St) (s : jsstring)
    (g g' : glue St) (ptr : Z) (TO : TextOps) (td : DecodeText.text_decoder) :
  h ∈ modules → top_level h page_scope = ret TO → Forall Utf8.unit_ok s → cache_ok g →
  h_passString h TO s wasm_malloc (Some wasm_realloc) g = Some (Ok ptr, g') →
  slice (bytes (mem g')) ptr (WASM_VECTOR_LEN g') = Standard.encode s ∧
  ∃ g'' td', h_getString h TO ptr (WASM_VECTOR_LEN g') (g', td) =
               Some (Ok (Standard.toWellFormed s), (g'', td')) ∧ mem g'' = mem g'.
Proof.
  intros Hin Ht Hs Hok Hp. pose proof (modules_ok (S := St)) as Hm. rewrite list.Forall_forall in Hm.
  specialize (Hm h Hin). rewrite (top_level_page h) in Ht. apply ret_inj in Ht as <-.
  rewrite passString_ok in Hp.
  destruct (pass_string_spec (TC := Standard.standard_codec) s g Hs Hok) as (o & g1 & Hr & Hok1 & Ho).
  rewrite Hr in Hp. simplify_eq. split; [apply Ho|].
  exact (read_back h (TC := Standard.standard_codec) s g' ptr _ td Hs Hok1 Ho).
Qed.

Lemma module_strings_witness :
  ∃ ptr g', h_passString (wlan (S := Z)) Standard.standard_codec [0x41; 0xDC00]
              wasm_malloc (Some wasm_realloc) glue0 = Some (Ok ptr, g') ∧
  slice (bytes (mem g')) ptr (WASM_VECTOR_LEN g') = Standard.encode [0x41; 0xDC00] ∧
  ∃ g'' td', h_getString (wlan (S := Z)) Standard.standard_codec ptr (WASM_VECTOR_LEN g') (g', DecodeText.initial) =
               Some (Ok (Standard.toWellFormed [0x41; 0xDC00]), (g'', td')) ∧ mem g'' = mem g'.
Proof.
  eexists _, _. split; [vm_compute; reflexivity|].
  eapply (module_strings wlan [0x41; 0xDC00] glue0).
  - do 4 right; left.
  - reflexivity.
  - repeat constructor; by vm_compute.
  - done.
  - vm_compute; reflexivity.
Defined.

(** C40: However strings are read through [decodeText], failed readings included, no TextDecoder
    object is given [MAX_SAFARI_DECODE_BYTES] octets or more, unless a single string is that
    long and the decoder serves only it. *)
Theorem reads_within_budget {St} `{!Allocator St} {TO : TextOps} (l : list (glue St * Z * Z))
    (td : DecodeText.text_decoder) (d : nat) :
  Forall (λ x, 0 ≤ x.2) l → read_all l DecodeText.initial = Some td →
  DecodeText.within_budget (DecodeText.served d (DecodeText.td_log td)).
Proof.
  intros Hl ->%read_all_spec.
  apply (DecodeText.fold_invariant (map snd l) DecodeText.initial).
  - by apply List.Forall_map.
  - repeat split; by try left.
Qed.

Lemma reads_within_budget_witness :
  ∃ td, read_all (TO := Standard.standard_codec) [(glue0, 0, 4); (glue0, 2, 2146435071)]
          DecodeText.initial = Some td ∧
        DecodeText.within_budget (DecodeText.served 0 (DecodeText.td_log td)).
Proof.
  eexists. split; [vm_compute; reflexivity|].
  eapply (reads_within_budget (TO := Standard.standard_codec)
            [(glue0, 0, 4); (glue0, 2, 2146435071)]).
  - repeat constructor; by vm_compute.
  - vm_compute; reflexivity.
Defined.
