(* ===== verification/Externrefs.v ===== *)
(** * The externref table as Rust's heap of JavaScript values

    Rust holds JavaScript values by their index in a table of the wasm instance.  The glue puts
    a value into the slot it has just been given ([addToExternrefTable0]), wasm gives slots back
    when Rust drops them.  Here: whatever import runs, a slot that Rust owns keeps its value
    until Rust drops it -- the glue writes to fresh slots only, also when the host calls back
    into wasm in the middle of an import. *)

From Stdlib Require Import String.
From S2P Require Import Prelude TextCodec Memory Closure Glue FrontEnds FrontEndSpec Loopback Decoder.

(** ** What Rust owns *)

(** The history of the slab that Rust keeps over the table. *)
Inductive slab_event : Type := Allocated (i : Z) | Dropped (i : Z).

(** Whether index [i] is owned after a history, oldest event first. *)
Definition owned_step (i : Z) (b : bool) (e : slab_event) : bool :=
  match e with
  | Allocated j => if j =? i then true else b
  | Dropped j => if j =? i then false else b
  end.
Definition owned (log : list slab_event) (i : Z) : bool := fold_left (owned_step i) log false.

Lemma owned_app log es i :
  owned log i = true → Dropped i ∉ es → owned (log ++ es) i = true.
Proof.
  unfold owned. rewrite fold_left_app. generalize (fold_left (owned_step i) log false).
  induction es as [|e es IH]; intros b Hb Hd; [done|]. simpl.
  apply not_elem_of_cons in Hd as [He Hd]. apply IH; [|done]. destruct e as [j|j]; simpl.
  - by destruct (j =? i).
  - destruct (Z.eqb_spec j i); [by subst|done].
Qed.

Lemma owned_snoc log e i : owned (log ++ [e]) i = owned_step i (owned log i) e.
Proof. unfold owned. by rewrite fold_left_app. Qed.

(** The slab is wasm's; the history is read off the environment's state. *)
Class Slab (H : Type) : Type := slab_log : H → list slab_event.

Section refs.
Context {S H : Type} `{!Slab H}.
Implicit Types r : realm S H.

Definition log_of r : list slab_event := slab_log (host_of r).

(** Rust holds the value [v] by the index [i]. *)
Definition holds r (i : Z) (v : val) : Prop :=
  owned (log_of r) i = true ∧ Zget (externrefs r) i = Some v.

(** What is owned are slots of the table, and not slot 0. *)
Definition in_table r : Prop :=
  ∀ i, owned (log_of r) i = true → 0 < i < Zlen (externrefs r).

(** From [r0] on, no value that Rust holds was lost or replaced unless Rust dropped it. *)
Definition frames (r0 r : realm S H) : Prop :=
  ∃ es, log_of r = log_of r0 ++ es ∧
    ∀ i v, holds r0 i v → Dropped i ∉ es → holds r i v.

#[export] Instance frames_preorder : PreOrder frames.
Proof.
  split.
  - intros r. exists []. by rewrite app_nil_r.
  - intros r1 r2 r3 (es & H1 & F1) (es' & H2 & F2). exists (es ++ es').
    split; [by rewrite H2, H1, app_assoc|]. intros i v Hi Hd.
    apply not_elem_of_app in Hd as [??]. auto.
Qed.

Lemma Zget_app_l {A} (l1 l2 : list A) i : i < Zlen l1 → Zget (l1 ++ l2) i = Zget l1 i.
Proof.
  unfold Zget, Zlen. intros. destruct (Z.leb_spec 0 i); [|done]. apply lookup_app_l. lia.
Qed.

(** Filling a slot that is not owned, and growing the table, keep what is held. *)
Lemma frames_fill r idx obj :
  0 ≤ idx → owned (log_of r) idx = false →
  frames r (set_externrefs (<[Z.to_nat idx := obj]> (externrefs r)) r).
Proof.
  intros Hi Hf. exists []. rewrite app_nil_r. split; [done|]. intros i v [Ho Hv] _.
  split; [done|]. cbn [set_externrefs externrefs]. rewrite Zget_insert_ne; [done|done|congruence].
Qed.

Lemma Zlen_init_table t : Zlen t ≤ Zlen (init_table t).
Proof. unfold init_table, Zlen. rewrite length_insert, length_app. lia. Qed.

Lemma frames_init r : in_table r → frames r (set_externrefs (init_table (externrefs r)) r).
Proof.
  intros Ht. exists []. rewrite app_nil_r. split; [done|]. intros i v [Ho Hv] _.
  specialize (Ht i Ho). split; [done|]. cbn [set_externrefs externrefs]. unfold init_table.
  change 0%nat with (Z.to_nat 0). rewrite Zget_insert_ne by lia. by rewrite Zget_app_l by lia.
Qed.

(** The invariant of code that starts in [r0]. *)
Definition tabled (r0 r : realm S H) : Prop := ok r ∧ in_table r ∧ frames r0 r.
End refs.

(** What the exports do to the slab: the allocator hands out a slot that is not owned and
    leaves the others alone; an exception object is only read; any other call into wasm may
    allocate and drop, but does not touch what it has not dropped. *)
Class SlabLaws (S H : Type) `{!Exports S H, !Slab H} : Prop := {
  alloc_slab r idx r1 : in_table r →
    (wasm_externref_alloc : J S H Z) r = Some (Ok idx, r1) →
    owned (log_of r) idx = false ∧ log_of r1 = log_of r ++ [Allocated idx];
  alloc_tabled (r0 : realm S H) : preserves (tabled r0) wasm_externref_alloc;
  store_tabled (r0 : realm S H) idx : preserves (tabled r0) (wasm_exn_store idx);
  wasm_tabled (r0 : realm S H) f vs : preserves (tabled r0) (wasm_call f vs);
}.

Section keeping.
Context {S H : Type} `{!Host S H, !Exports S H, !Allocator S, !ExportsSafe S H}.
Context `{!Slab H, !SlabLaws S H}.
Implicit Types r : realm S H.

#[export] Instance tabled_exports r0 : ExportsKeep S H (tabled r0).
Proof. split; [apply alloc_tabled|apply store_tabled|apply wasm_tabled]. Qed.

(** Only the table and the environment's state matter. *)
Lemma tabled_same r0 r r' :
  externrefs r' = externrefs r → host_of r' = host_of r → ok r' → tabled r0 r → tabled r0 r'.
Proof.
  unfold tabled, in_table, frames, holds, log_of. intros He Hh Ho (_ & Ht & Hf).
  rewrite He, Hh. by split_and!.
Qed.

#[export] Instance tabled_stable D r0 : Stable D (tabled (S := S) (H := H) r0).
Proof.
  pose proof (ok_stable (S := S) (H := H) D) as Hok.
  split.
  - by intros r [? _].
  - intros r. pose proof (stable_helper (Stable := Hok) r) as Hh. split.
    + intros g c Hc Ht. eapply (tabled_same _ (set_glue g r)); [done..| |done].
      apply (@closed_cache _ _ _ Hh); [done|by destruct Ht].
    + intros g bs Hl Ht. eapply (tabled_same _ (set_glue g r)); [done..| |done].
      apply (@closed_bytes _ _ _ Hh); [done|by destruct Ht].
    + intros g n Ht. eapply (tabled_same _ (set_glue g r)); [done..| |done].
      apply (@closed_veclen _ _ _ Hh). by destruct Ht.
  - intros r g g' Hs Ht. eapply (tabled_same _ (set_glue g r)); [done..| |done].
    by eapply (stable_wasm (Stable := Hok)); [|destruct Ht].
  - intros r ss Ht. eapply (tabled_same _ r); [done..| |done]. by destruct Ht.
  - intros r fin a b d f Ht. eapply (tabled_same _ r); [done..| |done]. by destruct Ht.
Qed.

#[export] Instance tabled_closureless r0 : Closureless (tabled (S := S) (H := H) r0).
Proof. intros r cs Ht. eapply (tabled_same _ r); [done..| |done]. by destruct Ht. Qed.

#[export] Instance tabled_table r0 : TableKeeps (tabled (S := S) (H := H) r0).
Proof.
  split.
  - intros r idx r1 obj Ht Ha.
    assert (tabled r0 r1) as Ht1 by by eapply alloc_tabled.
    destruct Ht as (Ho & Hin & Hf), Ht1 as (Ho1 & Hin1 & Hf1).
    destruct (alloc_safe _ _ _ Ho Ha) as [_ Hb]. destruct (alloc_slab _ _ _ Hin Ha) as [Hfree Hl].
    split_and!.
    + apply ok_set_externrefs; [done|left; lia].
    + intros i Hi. unfold Zlen. cbn [set_externrefs externrefs]. rewrite length_insert.
      by apply Hin1.
    + destruct Hf1 as (es & He & H1). exists es. split; [done|]. intros i v Hv Hd.
      destruct (H1 i v Hv Hd) as [Hi1 Hg1]. split; [done|]. cbn [set_externrefs externrefs].
      assert (idx ≠ i); [|by rewrite Zget_insert_ne by lia].
      intros ->. destruct Hf as (es0 & He0 & H0). rewrite Hl, He0, <- app_assoc in He.
      apply app_inv_head in He. subst es. apply not_elem_of_app in Hd as [Hd _].
      destruct (H0 i v Hv Hd) as [Hi0 _]. congruence.
  - intros r (Ho & Hin & Hf). split_and!.
    + by apply ok_init_table.
    + intros i Hi. pose proof (Zlen_init_table (externrefs r)). specialize (Hin i Hi).
      cbn [set_externrefs externrefs]. lia.
    + etrans; [exact Hf|]. by apply frames_init.
Qed.

(** Handing a value over. *)
Lemma handover obj r idx r' :
  ok r → in_table r → (addToExternrefTable0 obj : J S H Z) r = Some (Ok idx, r') →
  owned (log_of r) idx = false ∧ holds r' idx obj ∧ tabled r r'.
Proof.
  intros Ho Hin Hrun. assert (tabled r r) as Ht by by split_and!.
  assert (tabled r r') as Ht'.
  { eapply (preserves_addToExternrefTable0 (λ _, True) (tabled r)); [exact Ht|exact Hrun]. }
  destruct (addToExternrefTable0_spec obj r _ r' Ho Hrun) as [_ [Hpos Hg]].
  unfold addToExternrefTable0 in Hrun.
  destruct ((wasm_externref_alloc : J S H Z) r) as [[[i|e] r1]|] eqn:Ha;
    [rewrite (M_bind_ok _ _ _ _ _ Ha) in Hrun|by rewrite (M_bind_throw _ _ _ _ _ Ha) in Hrun
    |unfold mbind, M_bind in Hrun; by rewrite Ha in Hrun].
  destruct (alloc_safe _ _ _ Ho Ha) as [_ Hb]. destruct (alloc_slab _ _ _ Hin Ha) as [Hfree Hl].
  rewrite (M_bind_ok _ _ _ _ _ (table_set_run i obj r1 ltac:(lia))) in Hrun.
  injection Hrun as <- <-. split_and!; [done| |done]. split; [|done].
  change (log_of (set_externrefs _ r1)) with (log_of r1). rewrite Hl, owned_snoc. simpl.
  by rewrite Z.eqb_refl.
Qed.
End keeping.

(** ** A small instance of the laws: slots are appended, and the export [drop] drops one *)
Module RefToy.
#[global] Instance slab : Slab (list slab_event) := id.

Definition log_event (e : slab_event) (r : realm Z (list slab_event)) : realm Z (list slab_event) :=
  Realm (glue_of r) (externrefs r) (closures r) (scopes r) (host_of r ++ [e]).

#[global] Instance exports : Exports Z (list slab_event) := {
  wasm_externref_alloc :=
    t ← gets externrefs;
    let t' := match t with [] => [Undefined; Undefined] | _ => t ++ [Undefined] end in
    _ ← modify (λ r, log_event (Allocated (Zlen t' - 1)) (set_externrefs t' r));
    mret (Zlen t' - 1);
  wasm_exn_store idx := mret ();
  wasm_call f vs :=
    match vs with
    | [Num (Int i)] => _ ← modify (log_event (Dropped i)); mret Undefined
    | _ => mret Undefined
    end;
}.

Lemma tabled_log r0 r e :
  tabled r0 r → (∀ i, owned (log_of r ++ [e]) i = true → 0 < i < Zlen (externrefs r)) →
  tabled r0 (log_event e r).
Proof.
  intros (Ho & Hin & es & He & Hf) Ht. split_and!; [done|done|].
  exists (es ++ [e]). unfold log_of in *. cbn [log_event host_of]. unfold slab_log, slab, id in *.
  split; [by rewrite He, app_assoc|]. intros i v Hi Hd. apply not_elem_of_app in Hd as [Hd Hn].
  destruct (Hf i v Hi Hd) as [Hi1 Hg]. split; [|done]. by apply owned_app.
Qed.

Lemma tabled_drop r0 r i : tabled r0 r → tabled r0 (log_event (Dropped i) r).
Proof.
  intros Ht. apply tabled_log; [done|]. intros j Hj. destruct Ht as (_ & Hin & _). apply Hin.
  rewrite owned_snoc in Hj. simpl in Hj. by destruct (i =? j).
Qed.

Lemma wasm_call_tabled r0 f vs : preserves (tabled r0) (wasm_call f vs : J Z (list slab_event) val).
Proof.
  simpl. repeat case_match; try apply preserves_ret.
  apply preserves_bind; [|intros; apply preserves_ret]. apply preserves_modify.
  intros r Hr. by apply tabled_drop.
Qed.

Lemma alloc_ok r o r1 :
  ok r → in_table r → (wasm_externref_alloc : J Z (list slab_event) Z) r = Some (o, r1) →
  ∃ idx, o = Ok idx ∧ ok r1 ∧ 0 < idx < Zlen (externrefs r1) ∧ owned (log_of r) idx = false ∧
    log_of r1 = log_of r ++ [Allocated idx] ∧ Zlen (externrefs r) ≤ Zlen (externrefs r1) ∧
    ∀ i, i < Zlen (externrefs r) → 0 < i → Zget (externrefs r1) i = Zget (externrefs r) i.
Proof.
  intros [Hc Ht] Hin Ha. injection Ha as <- <-. eexists. split; [reflexivity|].
  cbn [log_event set_externrefs externrefs log_of host_of].
  destruct (externrefs r) as [|v t] eqn:E.
  - split_and!; try done.
    + split; [done|]. by intros v [= <-].
    + destruct (owned _ _) eqn:Ho; [|done]. apply Hin in Ho. rewrite E in Ho. by zlen; lia.
    + intros i Hi H0. zlen. lia.
  - pose proof (Zlen_nonneg t). split_and!; zlen; try lia; try done.
    + destruct (owned _ _) eqn:Ho; [|done]. apply Hin in Ho. rewrite E in Ho. zlen. lia.
    + intros i Hi H0. apply Zget_app_l. by zlen.
Qed.

#[global] Instance exports_safe : ExportsSafe Z (list slab_event).
Proof.
  split.
  - intros r o r' [Hc Ht] [= <- <-]. destruct (externrefs r) as [|v t] eqn:E.
    + split; [|done]. split; [done|]. by intros v [= <-].
    + split; [|simpl; zlen; pose proof (Zlen_nonneg t); lia].
      split; [done|]. simpl. intros w Hw. by apply Ht.
  - by intros idx r o r' Hr [= <- <-].
  - intros f vs. simpl. repeat case_match; try apply preserves_ret.
    apply preserves_bind; [|intros; apply preserves_ret]. by apply preserves_modify.
  - apply _.
Qed.

#[global] Instance slab_laws : SlabLaws Z (list slab_event).
Proof.
  split.
  - intros r idx r1 Hin Ha. injection Ha as <- <-. split; [|done].
    destruct (owned _ _) eqn:Ho; [|done]. apply Hin in Ho.
    destruct (externrefs r); zlen; lia.
  - intros r0 r o r' (Ho & Hin & Hf) Ha. 
    destruct (alloc_ok r o r' Ho Hin Ha) as (idx & _ & Ho1 & Hb & Hfree & Hl & Hlen & Hg).
    split_and!; [done| |].
    + intros i Hi. rewrite Hl, owned_snoc in Hi. simpl in Hi.
      destruct (Z.eqb_spec idx i); [by subst|]. specialize (Hin i Hi). lia.
    + etrans; [exact Hf|]. exists [Allocated idx]. split; [done|]. intros i v [Hi Hv] _.
      split; [rewrite Hl; apply owned_app; [done|by intros [=]%list_elem_of_singleton]|].
      specialize (Hin i Hi). by rewrite Hg by lia.
  - intros. apply preserves_ret.
  - apply wasm_call_tabled.
Qed.

(** Rust holds the object 5 by index 1. *)
Definition realm3 : realm Z (list slab_event) :=
  Realm (Glue (Mem (replicate 64 0) 0 32) (λ _, None) 0) [Undefined; Obj 5] [] [] [Allocated 1].

Lemma realm3_ok : ok realm3 ∧ in_table realm3.
Proof.
  split; [split; [done|by intros v [= <-]]|]. intros i Hi.
  change (owned ([] ++ [Allocated 1]) i = true) in Hi. rewrite owned_snoc in Hi.
  unfold owned_step in Hi. destruct (Z.eqb_spec 1 i); [|done]. subst. by vm_compute.
Qed.
End RefToy.

(** ** Properties *)

(** C11: Whatever import of any of the seven modules runs, with whatever arguments and whatever the host and
    wasm do in the middle of it, a JavaScript value that Rust holds by an index of the
    externref table is still there under this index afterwards, unless Rust dropped the index
    during the call; and what Rust owns are slots of the table other than slot 0. *)
Theorem imports_respect_refs {St H} `{!Host St H, !Exports St H, !Allocator St}
    {TC : TextCodec} `{!ExportsSafe St H, !Slab H, !SlabLaws St H} (hd : bool) (stack : nat)
    (L : Session.loading) (t : list (string * import (S := St) (H := H))) (name : string)
    (i : import) (l : list val) (r r' : realm St H) (o : outcome val val) :
  (∀ r0, HostKeeps St H (tabled r0)) →
  module_table hd stack L t → (name, i) ∈ t → ok r → in_table r →
  run_import i l r = Some (o, r') →
  frames r r' ∧ in_table r'.
Proof.
  intros Hh Ht Hi Hr Hin Hrun.
  destruct (table_imports_keep (λ _, True) (tabled r) hd stack L t name i l Ht
    (λ _ _, Logic.I) Hi r o r') as (_ & ? & ?); [by split_and!|done|done].
Qed.

Lemma imports_respect_refs_witness :
  let i : import (S := Z) (H := list slab_event) :=
    Plain (fn 1 (λ arg0, optional (get_prop arg0 "document"))) in
  ∃ o r', run_import i [Obj 3] RefToy.realm3 = Some (o, r') ∧
    frames RefToy.realm3 r' ∧ in_table r'.
Proof.
  intros i. eexists _, _. split; [vm_compute; reflexivity|].
  eapply (imports_respect_refs (TC := polyfill_codec) true 9 Loopback.loading
            (Loopback.imports (TC := polyfill_codec) true 9) "__wbg_document_d249400bd7bd996d"
            i [Obj 3] RefToy.realm3).
  - intros r0. apply _.
  - apply front_end_table, (list_elem_of_lookup_2 _ 0); reflexivity.
  - apply (list_elem_of_lookup_2 _ 30). reflexivity.
  - apply RefToy.realm3_ok.
  - apply RefToy.realm3_ok.
  - vm_compute; reflexivity.
Defined.

(** C28: [addToExternrefTable0] hands a value over: the index it returns was not in use, the
    value is stored under it, and nothing Rust holds has changed; until Rust drops the index,
    reading it ([getFromExternrefTable0]) gives the value. *)
Theorem value_handed_over {St H} `{!Host St H, !Exports St H, !Allocator St}
    {TC : TextCodec} `{!ExportsSafe St H, !Slab H, !SlabLaws St H} (obj : val)
    (r r' r'' : realm St H) (idx : Z) :
  ok r → in_table r → (addToExternrefTable0 obj : J St H Z) r = Some (Ok idx, r') →
  owned (log_of r) idx = false ∧ frames r r' ∧
  (∀ es, log_of r'' = log_of r' ++ es → Dropped idx ∉ es → frames r' r'' →
     getFromExternrefTable0 idx r'' = Some (Ok obj, r'')).
Proof.
  intros Ho Hin Hrun. destruct (handover obj r idx r' Ho Hin Hrun) as (Hfree & Hh & _ & _ & Hf).
  split_and!; [done|done|]. intros es He Hd (es' & He' & Hk).
  rewrite He in He'. apply app_inv_head in He' as <-. destruct (Hk idx obj Hh Hd) as [_ Hg].
  unfold getFromExternrefTable0. by rewrite (M_bind_ok _ _ _ _ _ (eq_refl : gets externrefs r'' = _)), Hg.
Qed.

Lemma value_handed_over_witness :
  ∃ idx r', (addToExternrefTable0 (Obj 7) : J Z (list slab_event) Z) RefToy.realm3 =
              Some (Ok idx, r') ∧
  owned (log_of RefToy.realm3) idx = false ∧ frames RefToy.realm3 r' ∧
  (∀ es, log_of r' = log_of r' ++ es → Dropped idx ∉ es → frames r' r' →
     getFromExternrefTable0 idx r' = Some (Ok (Obj 7), r')).
Proof.
  eexists _, _. split; [vm_compute; reflexivity|].
  eapply (value_handed_over (TC := polyfill_codec) (Obj 7) RefToy.realm3).
  - apply RefToy.realm3_ok.
  - apply RefToy.realm3_ok.
  - vm_compute; reflexivity.
Defined.
