(* ===== verification/Pages.v ===== *)
(** * The modules in a page: loading and imports together

    [Session] with the code of the repository's modules in place of its parameter: what a
    module does between two steps of its loading is to run its imports, and its getters. *)

From Stdlib Require Import String.
From S2P Require Import Prelude TextCodec Memory Closure Glue Loader Session FrontEnds Decoder.

Section pages.
Context {S H : Type} `{!Host S H, !Exports S H, !Allocator S} {TC : TextCodec}.

(** A realm in good order whose views are those that the module declares. *)
Definition declared_only (L : Session.loading) (r : realm S H) : Prop :=
  ok r ∧ undeclared L (caches (glue_of r)).

#[export] Instance undeclared_closed L :
  HelperClosed (S := S) (λ c, c ∈ ld_views L) (λ g, undeclared L (caches g)).
Proof.
  split; try done. intros g c Hc Hu c' Hc'. simpl.
  rewrite fn_lookup_insert_ne; [by apply Hu|]. by intros ->.
Qed.

#[export] Instance declared_only_stable L :
  Stable (λ c, c ∈ ld_views L) (declared_only L).
Proof.
  split; try done.
  - by intros r [? _].
  - intros r. pose proof (stable_helper (D := λ _, True) (I := ok) r) as Hok. split.
    + intros g c Hc [Ho Hu]. 
      split; [by apply (@closed_cache _ _ _ Hok)|by apply (closed_cache (D := λ c, c ∈ ld_views L)
        (I := λ g, undeclared L (caches g)))].
    + intros g bs Hl [Ho Hu]. by split; [apply (@closed_bytes _ _ _ Hok)|].
    + by intros g n [Ho Hu].
  - intros r g g' Hs [Ho Hu].
    split; [exact (stable_wasm (D := λ _, True) (I := ok) r g g' Hs Ho)|].
    intros c Hc. simpl. destruct Hs as (-> & _). by apply Hu.
Qed.

#[export] Instance declared_only_closureless L : Closureless (declared_only L).
Proof. by intros r cs [Ho Hu]. Qed.

#[export] Instance declared_only_slots L : SlotClosed (declared_only L).
Proof.
  split.
  - by intros r [? _].
  - intros r idx obj [Ho Hu] Hi. by split; [apply ok_set_externrefs; [|left]|].
  - intros r [Ho Hu]. by split; [apply ok_init_table|].
Qed.

(** What a module's code does to its variables: run an import, or one of its getters. *)
Inductive code_of (L : Session.loading) (t : list (string * import (S := S) (H := H)))
    (g g' : glue S) : Prop :=
  | by_import name i l r o r' :
      (name, i) ∈ t → ok r → glue_of r = g → run_import i l r = Some (o, r') →
      glue_of r' = g' → code_of L t g g'
  | by_getter c v :
      c ∈ ld_views L → get_typed c g = Some (Ok v, g') → code_of L t g g'
  | by_dataview has_detached v :
      DV ∈ ld_views L → getDataViewMemory0 has_detached g = Some (Ok v, g') → code_of L t g g'.

Context `{!HostSafe S H, !ExportsSafe S H}.
Context (L : Session.loading) `{!HostKeeps S H (declared_only L), !ExportsKeep S H (declared_only L)}.
Context (hd : bool) (stack : nat).

Lemma module_code t g g' :
  module_table hd stack L t → code_of L t g g' → cache_ok g → undeclared L (caches g) →
  cache_ok g' ∧ undeclared L (caches g').
Proof.
  intros Ht Hc Hok Hu. destruct Hc as [name i l r o r' Hi Hr <- Hrun <-|c v Hc Hg|b v Hc Hg].
  - destruct (table_imports_keep (λ c, c ∈ ld_views L) (declared_only L) hd stack L t name i l Ht
      (λ c Hc, Hc) Hi r o r') as [[? _] ?]; done.
  - destruct (get_typed_run c g Hok) as (g1 & Hg1 & _ & _ & Hok1). simplify_eq.
    split; [done|]. pose proof (preserves_get_typed (λ c, c ∈ ld_views L)
      (λ g : glue S, undeclared L (caches g)) c Hc) as Hp. by eapply Hp.
  - destruct (getDataView_run b g Hok) as (g1 & Hg1 & _ & _ & Hok1). simplify_eq.
    split; [done|]. pose proof (preserves_getDataView (λ c, c ∈ ld_views L)
      (λ g : glue S, undeclared L (caches g)) b Hc) as Hp. by eapply Hp.
Qed.
End pages.

(** ** Facts on the modules *)

(** Every module loads by one of the versions of [__wbg_load]. *)
Lemma module_load {S H} `{!Host S H, !Exports S H, !Allocator S} {TC : TextCodec} hd stack L
    (t : list (string * import (S := S) (H := H))) :
  module_table hd stack L t → ∃ fallback, ld_load L = λ B, wbg_load B fallback.
Proof.
  intros [Hin%list_elem_of_In|r r' -> _]; [|by eexists]. cbn in Hin.
  repeat (destruct Hin as [Heq|Hin]; [injection Heq as <- _; by eexists|]). done.
Qed.

Lemma add_no_warnings (c : glue_state) : add_warnings [] c = c.
Proof. destruct c. unfold add_warnings. simpl. by rewrite app_nil_r. Qed.

Lemma set_control_same {S} (s : session S) : set_control (control s) s = s.
Proof. by destruct s. Qed.

Lemma load_module B fallback m w :
  wbg_load B fallback (Module m) w =
    match instantiate_module B m with
    | Ok n => Some (Ok (Loaded n m), w)
    | Throw e => Some (Throw e, w)
    end.
Proof. unfold wbg_load, answer, mbind, M_bind. by destruct (instantiate_module B m). Qed.

(** ** Properties *)

(** C12: a getter of any module's views never returns a stale view, whatever happened since
    the page was opened -- any number of overlapping calls of [__wbg_init] and of
    [initSync], with memories of their own or one they share, successful or not; wasm code
    that writes to and grows any of the memories; imports and getters: the view is of all
    of the memory of the instance that is [wasm], for the typed arrays as for the DataView,
    where the module has one; and a view that the module does not declare is never created. *)
Theorem page_views_fresh {St H} `{!Host St H, !Exports St H, !Allocator St} {TC : TextCodec}
    `{!HostSafe St H, !ExportsSafe St H} (heap0 : St) (hd : bool) (stack : nat)
    (L : Session.loading) (t : list (string * import (S := St) (H := H)))
    (ms : list (memory St)) (s : session St) (ps : list pending) :
  HostKeeps St H (declared_only L) → ExportsKeep St H (declared_only L) →
  module_table hd stack L t →
  rtc (page_step heap0 L (code_of L t)) (page0 ms) (s, ps) →
  (∀ c, c ∉ ld_views L → views s c = None) ∧
  ∀ n, wasm (control s) = Some n →
    ∃ k m, exported s n = Some k ∧ memories s !! k = Some m ∧
      (∀ c, c ∈ ld_views L → ∃ s',
         run_glue (get_typed c) s = Some (Ok (whole (elt_size c) m), s') ∧
         memories s' = memories s) ∧
      (DV ∈ ld_views L → ∀ has_detached, ∃ s',
         run_glue (getDataViewMemory0 has_detached) s = Some (Ok (whole 1 m), s') ∧
         memories s' = memories s).
Proof.
  intros Hh He Ht Hr.
  pose proof (reachable_in_order heap0 L (code_of L t)
    (λ g g', module_code L hd stack t g g' Ht) ms (s, ps) Hr) as [Hu Hv _ Hl _].
  split; [exact Hu|]. intros n Hw. destruct (Hl n Hw) as (k & Hk & Hlt).
  destruct (lookup_lt_is_Some_2 _ _ Hlt) as [m Hm]. simpl in *.
  assert (Hcur : current s = Some k) by (unfold current; by rewrite Hw).
  assert (Hg : glue_in s = Some (Glue m (views s) (veclen s))) by (apply glue_in_Some; eauto).
  assert (Hput : ∀ g', mem g' = m → memories (put_glue g' s) = memories s).
  { intros g' Hmem. unfold put_glue. rewrite Hcur. simpl. rewrite Hmem. by apply list_insert_id. }
  destruct (fresh_getters _ (Hv _ Hg)) as [Ht' Hd].
  exists k, m. split_and!; [done|done| |].
  - intros c _. destruct (Ht' c) as (g' & Hrun & Hmem). exists (put_glue g' s).
    split; [|by apply Hput]. unfold run_glue. by rewrite Hg, Hrun.
  - intros _ b. destruct (Hd b) as (g' & Hrun & Hmem). exists (put_glue g' s).
    split; [|by apply Hput]. unfold run_glue. by rewrite Hg, Hrun.
Qed.

(** On a compiled module, [initSync] does exactly what a call of [__wbg_init] does that
    nothing interrupts: in each module, from any state, with or without a memory. *)
Theorem initSync_is_init {St H} `{!Host St H, !Exports St H, !Allocator St} {TC : TextCodec}
    (heap0 : St) (hd : bool) (stack : nat) (L : Session.loading)
    (t : list (string * import (S := St) (H := H))) (B : browser) (i : input) (m : nat)
    (memory : option nat) (s : session St) :
  module_table hd stack L t → (ld_parameters L i).1 = Some (Module m) →
  init_sync heap0 L B i memory s = init_call heap0 L B i memory s.
Proof.
  intros Ht Hi. destruct (module_load hd stack L t Ht) as [fallback HL].
  unfold init_sync, init_call, init_begin, begin. destruct (wasm (control s)) as [w|].
  { by rewrite set_control_same. }
  destruct (ld_parameters L i) as [p ws]. simpl in Hi. subst p. cbn [default from_option id].
  destruct (init_memory heap0 _ _) as [k s1]. unfold init_end. rewrite HL.
  cbn [p_source p_memory resolve]. erewrite M_bind_ok by done. rewrite load_module.
  destruct (instantiate_module B m); by rewrite add_no_warnings, set_control_same.
Qed.

(** The toy exports keep the views, too. *)
Lemma toy_exports_keep L : ExportsKeep Z unit (declared_only L).
Proof.
  split.
  - intros r o r' [Hr Hu] Ha. destruct (alloc_safe r o r' Hr Ha) as [Hr' _].
    split; [done|]. by injection Ha as _ <-.
  - intros idx. apply preserves_ret.
  - intros f vs. apply preserves_ret.
Qed.

(** A page that loads prophecy, reads a string, and whose memory then grows. *)
Lemma page_views_fresh_witness :
  let m : memory Z := Mem (replicate 8 0) 0 0 in
  let m' : memory Z := Mem (replicate 16 0) 1 0 in
  ∃ s ps,
    rtc (page_step 0 Prophecy.loading
           (code_of Prophecy.loading (Prophecy.imports (TC := polyfill_codec) (H := unit) true 9)))
      (page0 [m]) (s, ps) ∧
    wasm (control s) = Some 7%nat ∧ views s U8 = Some (whole 1 m) ∧
    (∀ c, c ∉ ld_views Prophecy.loading → views s c = None) ∧
    ∀ n, wasm (control s) = Some n →
      ∃ k m, exported s n = Some k ∧ memories s !! k = Some m ∧
        (∀ c, c ∈ ld_views Prophecy.loading → ∃ s',
           run_glue (get_typed c) s = Some (Ok (whole (elt_size c) m), s') ∧
           memories s' = memories s) ∧
        (DV ∈ ld_views Prophecy.loading → ∀ has_detached, ∃ s',
           run_glue (getDataViewMemory0 has_detached) s = Some (Ok (whole 1 m), s') ∧
           memories s' = memories s).
Proof.
  intros m m'.
  assert (Hp : ∃ s ps,
    rtc (page_step 0 Prophecy.loading
           (code_of Prophecy.loading (Prophecy.imports (TC := polyfill_codec) (H := unit) true 9)))
      (page0 [m]) (s, ps) ∧
    wasm (control s) = Some 7%nat ∧ views s U8 = Some (whole 1 m)).
  { eexists _, _. split.
    - eapply rtc_l; [eapply (page_begin _ _ _ Nothing (Some 0%nat)); [|reflexivity]; by constructor|].
      eapply rtc_l; [by eapply (page_end _ _ _ sample_browser _ _ [] [])|].
      eapply rtc_l; [eapply page_code; [reflexivity|]; eapply (by_getter _ _ _ _ U8); [|vm_compute; reflexivity]|].
      { eapply bool_decide_unpack; reflexivity. }
      eapply rtc_l; [eapply (page_wasm _ _ _ 0 m m'); [reflexivity|]|].
      { repeat split; vm_compute; try discriminate; lia. }
      apply rtc_refl.
    - split; reflexivity. }
  destruct Hp as (s & ps & Hr & Hw & Hv). exists s, ps. split; [exact Hr|].
  split; [exact Hw|]. split; [exact Hv|].
  apply (page_views_fresh (TC := polyfill_codec) 0 true 9 Prophecy.loading
           (Prophecy.imports (TC := polyfill_codec) (H := unit) true 9) [m] s ps).
  - apply _.
  - apply toy_exports_keep.
  - apply front_end_table, (list_elem_of_lookup_2 _ 3); reflexivity.
  - exact Hr.
Defined.

Lemma initSync_is_init_witness :
  let s := (page0 [Mem [1; 2] 0 0]).1 in
  init_sync 0 Wlan.loading sample_browser (Literal (Some (Module 3)) (Some 0%nat)) None s =
  init_call 0 Wlan.loading sample_browser (Literal (Some (Module 3)) (Some 0%nat)) None s.
Proof.
  intros s. apply (initSync_is_init (H := unit) (TC := polyfill_codec) 0 true 9 Wlan.loading
    (Wlan.imports (TC := polyfill_codec) (H := unit) true 9) sample_browser
    (Literal (Some (Module 3)) (Some 0%nat)) 3 None s).
  - apply front_end_table, (list_elem_of_lookup_2 _ 4); reflexivity.
  - reflexivity.
Defined.
