(* ===== verification/Run.v ===== *)
(** * Everything that happens in a page, together

    Pages, Lifetimes and Externrefs each follow one aspect of a realm through one import or
    one call.  Here is the page as a transition system, from the end of its loading on: wasm
    calls imports and the page calls exports, closures, lent callbacks and functions of the
    host, views are taken, wasm leaks closures and the engine collects them -- in any order,
    nested in any way -- and all three invariants hold along every run. *)

From Stdlib Require Import String.
From S2P Require Import Prelude TextCodec Memory Closure Glue Loader Session FrontEnds Prophecy.
From S2P Require Import Lifetimes FrontEndSpec Externrefs Pages.

Section run.
Context {S H : Type} `{!Host S H, !Exports S H, !Allocator S} {TC : TextCodec}.
Implicit Types r : realm S H.

(** What the collection of a closure does to its life: where [state] is registered, the
    registry's callback destroys the environment. *)
Definition collect_life (c : conf) : conf * list effect :=
  let 'Conf s fs reg h d al rt cm l := c in
  let es := if reg then [Dtor (a s) (b s)] else [] in
  (Conf s fs false h d false rt (cm && negb (top_destroying fs)) (es ++ l), es).

(** [CLOSURE_DTORS]: [new FinalizationRegistry(state => state.dtor(state.a, state.b))], the
    callback for the [i]th closure. *)
Definition collect (i : nat) : J S H unit :=
  c ← closure_at i;
  es ← step_closure i collect_life;
  match es with
  | Dtor a b :: _ => _ ← wasm_call (c_dtor c) [Num (Int a); Num (Int b)]; mret ()
  | _ => mret ()
  end.

(** The wasm side leaks its handle of a closure. *)
Definition forget_life (c : conf) : conf :=
  let 'Conf s fs reg h d al rt cm l := c in
  Conf s fs reg false d al rt (cm && negb (top_destroying fs)) l.

(** What happens to closures from outside: the page calls one, wasm leaks the handle it holds,
    the engine collects one that nothing refers to any more. *)
Inductive closure_step (v : version) r : realm S H → Prop :=
  | does_call i vs o r' : real v i vs r = Some (o, r') → closure_step v r r'
  | does_forget i c :
      closures r !! i = Some c → held (c_life c) = true →
      closure_step v r (with_life i c (forget_life (c_life c)) r)
  | does_collect i c c' o r' :
      closures r !! i = Some c → act v Collect (c_life c) = Some c' →
      collect i r = Some (o, r') → closure_step v r r'.

(** A step of a page that works with the module of [L], whose imports are [t] and whose
    closures are of version [v]. *)
Inductive run_step (L : Session.loading) (t : list (string * import (S := S) (H := H)))
    (v : version) r : realm S H → Prop :=
  | does_import name i l o r' :
      (name, i) ∈ t → run_import i l r = Some (o, r') → run_step L t v r r'
  | does_export f vs o r' : wasm_call f vs r = Some (o, r') → run_step L t v r r'
  | does_host f this vs o r' : host_call f this vs r = Some (o, r') → run_step L t v r r'
  | does_lent i vs o r' : cb0 i vs r = Some (o, r') → run_step L t v r r'
  | does_view c o g' :
      c ∈ ld_views L → get_typed c (glue_of r) = Some (o, g') → run_step L t v r (set_glue g' r)
  | does_dataview b o g' :
      DV ∈ ld_views L → getDataViewMemory0 b (glue_of r) = Some (o, g') →
      run_step L t v r (set_glue g' r)
  | does_closure r' : closure_step v r r' → run_step L t v r r'.

(** Invariants that say nothing of closures. *)
Lemma preserves_collect_any (I : realm S H → Prop) `{!ExportsKeep S H I, !Closureless I} i :
  preserves I (collect i).
Proof.
  pose proof (preserves_closure_at I i). pose proof (preserves_step_closure I i collect_life).
  unfold collect. preserves.
Qed.

Lemma set_glue_same r : set_glue (glue_of r) r = r.
Proof. by destruct r. Qed.

(** A step keeps what the glue's own code keeps, if calls of closures do. *)
Lemma step_keeps `{!ExportsSafe S H} hd stack L t v (K : version → Prop) (I : realm S H → Prop)
    `{!Stable (λ c, c ∈ ld_views L) I, !DropsKeep S H K I, !TableKeeps I, !HostKeeps S H I,
      !ExportsKeep S H I} r r' :
  module_of hd stack L t v → I r → K v →
  (closure_step v r r' → I r') → run_step L t v r r' → I r'.
Proof.
  intros Ht Hr HK Hc Hs. revert Hc. destruct Hs as [name i l o r1 Hi Hrun|f vs o r1 Hrun|f this vs o r1 Hrun|i vs o r1 Hrun
    |c o g' Hcv Hg|b o g' Hcv Hg|r1 Hs]; intros Hc.
  - by eapply (imports_keep (λ c, c ∈ ld_views L) K I hd stack L t v name i l Ht HK (λ _ Hx, Hx) Hi).
  - by eapply wasm_call_keeps.
  - by eapply host_call_keeps.
  - by eapply (preserves_cb0 (λ c, c ∈ ld_views L) I).
  - eapply (preserves_get_typed (λ c, c ∈ ld_views L) (λ g, I (set_glue g r)) c Hcv); [|exact Hg].
    by rewrite set_glue_same.
  - eapply (preserves_getDataView (λ c, c ∈ ld_views L) (λ g, I (set_glue g r)) b Hcv); [|exact Hg].
    by rewrite set_glue_same.
  - by apply Hc.
Qed.

(** *** Closures *)

Lemma collect_act v c c' :
  act v Collect c = Some c' → (collect_life c).1 = c' ∧ Closure.frames c' = Closure.frames c.
Proof. destruct c as [s [|] reg [] d [] rt cm l]; simpl; by intros [= <-]. Qed.

(** A step of one closure that leaves its invocations alone. *)
Lemma respects_one v r i x c l :
  closures r !! i = Some c → act v x (c_life c) = Some l →
  Closure.frames l = Closure.frames (c_life c) →
  respects v r (with_life i c l r).
Proof.
  intros Hc Hx Hf. apply (moved_back v i c); [done|]. rewrite <- Hf. by apply (moved_one v r i x).
Qed.

Lemma closure_step_life `{!ExportsSafe S H} v r r' :
  (∀ r0, ExportsKeep S H (life v r0)) → ok r → closure_step v r r' → life v r r'.
Proof.
  intros Hex Ho [i vs o r1 Hrun|i c Hc Hh|i c c' o r1 Hc Ha Hrun].
  - by eapply real_life.
  - split; [by apply ok_with_life|]. apply (respects_one v r i Forget); [done| |].
    + destruct c as [[s fs reg h d al rt cm l] dt ad]. simpl in *. by subst h.
    + by destruct (c_life c).
  - unfold collect in Hrun.
    rewrite (M_bind_ok _ _ r c r) in Hrun by (unfold closure_at, gets, mbind, M_bind; by rewrite Hc).
    rewrite (M_bind_ok _ _ _ _ _ (step_closure_run i collect_life c r Hc)) in Hrun.
    destruct (collect_act v _ c' Ha) as [Hcl Hf]. rewrite Hcl in Hrun.
    fold (with_life i c c' r) in Hrun.
    assert (Hl : life v r (with_life i c c' r)).
    { split; [by apply ok_with_life|by apply (respects_one v r i Collect)]. }
    revert Hrun. destruct ((collect_life (c_life c)).2) as [|[|a b|] es];
      try (by intros [= <- <-]).
    assert (Hp : preserves (life v r) (_ ← wasm_call (c_dtor c) [Num (Int a); Num (Int b)];
      mret () : J S H unit)) by preserves.
    intros Hrun. by apply (Hp _ _ _ Hl Hrun).
Qed.

(** Invariants that do not look at closures. *)
Lemma closure_step_any v (I : realm S H → Prop) `{!ExportsKeep S H I, !Closureless I} r r' :
  I r → closure_step v r r' → I r'.
Proof.
  intros Hr [i vs o r1 Hrun|i c _ _|i c c' o r1 _ _ Hrun].
  - by eapply (preserves_real I v i vs).
  - by apply closures_any.
  - by eapply (preserves_collect_any I i).
Qed.

(** *** One step, and a run *)

(** A realm between two steps: in good order, with views that the module declares, closures
    that came from [makeMutClosure], and what Rust owns in the table. *)
Record good `{!Slab H} (L : Session.loading) (v : version) r : Prop := {
  good_views : declared_only L r;
  good_closures : well_made v r;
  good_refs : in_table r;
}.

(** A page whose module has just been loaded. *)
Definition just_loaded `{!Slab H} (L : Session.loading) r : Prop :=
  declared_only L r ∧ closures r = [] ∧ ∀ i, owned (log_of r) i = false.

Lemma just_loaded_good `{!Slab H} L v r : just_loaded L r → good L v r.
Proof.
  intros (Hd & Hc & Ho). split; [done| |].
  - intros i c. by rewrite Hc.
  - intros i. by rewrite Ho.
Qed.

Context `{!ExportsSafe S H, !Slab H, !SlabLaws S H}.
Context (hd : bool) (stack : nat) (L : Session.loading).
Context (t : list (string * import (S := S) (H := H))) (v : version).
Context (Ht : module_of hd stack L t v).
Context `{!∀ r0, HostKeeps S H (life v r0), !∀ r0, ExportsKeep S H (life v r0)}.
Context `{!∀ r0, HostKeeps S H (tabled r0)}.
Context `{!HostKeeps S H (declared_only L), !ExportsKeep S H (declared_only L)}.

(** What held of everything before still holds after. *)
Definition continues r r' : Prop := respects v r r' ∧ frames r r'.

#[local] Instance continues_preorder : PreOrder continues.
Proof. split; [by intros r|]. intros r1 r2 r3 [? ?] [? ?]. split; by etrans. Qed.

Lemma run_step_good r r' : good L v r → run_step L t v r r' → good L v r' ∧ continues r r'.
Proof.
  intros [Hv Hw Hi] Hs. assert (ok r) as Ho by apply Hv.
  assert (tabled r r) as Hr by by split_and!.
  assert (life v r r') as [_ Hl].
  { apply (step_keeps hd stack L t v (λ v', v' = v) (life v r) r r' Ht);
      [by split|done|by apply closure_step_life|done]. }
  assert (tabled r r') as (_ & Hi' & Hf).
  { apply (step_keeps hd stack L t v (λ _, True) (tabled r) r r' Ht); [done|done| |done].
    by apply (closure_step_any v (tabled r)). }
  assert (declared_only L r') as Hv'.
  { apply (step_keeps hd stack L t v (λ _, True) (declared_only L) r r' Ht); [done|done| |done].
    by apply (closure_step_any v (declared_only L)). }
  split; [split; [done| |done]|by split]. by eapply respects_well_made.
Qed.

Lemma run_good r r' : good L v r → rtc (run_step L t v) r r' → good L v r' ∧ continues r r'.
Proof.
  intros Hg. induction 1 as [r|r r1 r' Hs _ IH]; [by split|].
  destruct (run_step_good r r1 Hg Hs) as [Hg1 ?]. destruct (IH Hg1) as [Hg' ?].
  split; [done|by etrans].
Qed.
End run.

(** ** A page that works with prophecy *)
Module RunToy.
(** The toy exports keep what says nothing of the table and the environment. *)
Lemma log_exports_keep (I : realm Z (list slab_event) → Prop) :
  (∀ r, I r → ok r) →
  (∀ r r', glue_of r' = glue_of r → closures r' = closures r → ok r' → I r → I r') →
  ExportsKeep Z (list slab_event) I.
Proof.
  intros Hok Hsame. split.
  - intros r o r' Hr Ha. destruct (alloc_safe r o r' (Hok r Hr) Ha) as [Hr' _].
    injection Ha as _ <-. by apply (Hsame r).
  - intros idx. apply preserves_ret.
  - intros f vs. simpl. repeat case_match; try apply preserves_ret.
    apply preserves_bind; [|intros; apply preserves_ret]. apply preserves_modify.
    intros r Hr. apply (Hsame r); [done|done|exact (Hok r Hr)|done].
Qed.

Lemma exports_life v (r0 : realm Z (list slab_event)) : ExportsKeep Z (list slab_event) (life v r0).
Proof.
  apply log_exports_keep; [by intros r [? _]|]. intros r r' _ Hc Ho [_ Hr].
  split; [done|by eapply respects_same].
Qed.

Lemma exports_declared L : ExportsKeep Z (list slab_event) (declared_only L).
Proof.
  apply log_exports_keep; [by intros r [? _]|]. intros r r' Hg _ Ho [_ Hu].
  split; [done|by rewrite Hg].
Qed.

(** The module has just been loaded. *)
Definition realm4 : realm Z (list slab_event) :=
  Realm (Glue (Mem (replicate 64 0) 0 32) (λ _, None) 0) [Undefined] [] [] [].

Lemma realm4_loaded : just_loaded Prophecy.loading realm4.
Proof.
  split; [split; [split; [done|by intros v [= <-]]|done]|]. by split.
Qed.

Definition table : list (string * import (S := Z) (H := list slab_event)) :=
  Prophecy.imports (TC := polyfill_codec) true 9.

Definition step := run_step Prophecy.loading table Original.version.

(** Wasm hands out a closure, the page calls it with an argument, wasm drops it, as it may; then
    a value is handed over, and a view is taken. *)
Lemma prophecy_run : ∃ r, rtc step realm4 r ∧
  (∃ c, closures r = [c] ∧ proper false (c_life c)) ∧ owned (log_of r) 1 = true ∧
  caches (glue_of r) U8 = Some (whole 1 (mem (glue_of r))).
Proof.
  eexists. split.
  - eapply rtc_l.
    { eapply (does_import _ _ _ _ "__wbindgen_closure_wrapper2765" _ [Num (Int 64); Num (Int 8); Num (Int 1)]);
        [apply (list_elem_of_lookup_2 _ 81); reflexivity|vm_compute; reflexivity]. }
    eapply rtc_l.
    { apply does_closure. eapply (does_call _ _ 0 [Str [97]]). vm_compute; reflexivity. }
    eapply rtc_l.
    { eapply (does_import _ _ _ _ "__wbindgen_cb_drop" _ [Real 0]);
        [apply (list_elem_of_lookup_2 _ 80); reflexivity|vm_compute; reflexivity]. }
    eapply rtc_l.
    { eapply (does_import _ _ _ _ "__wbg_target_0a62d9d79a2a1ede" _ [Obj 3]);
        [apply (list_elem_of_lookup_2 _ 71); reflexivity|vm_compute; reflexivity]. }
    eapply rtc_l; [|apply rtc_refl].
    eapply (does_view _ _ _ _ U8); [eapply bool_decide_unpack; reflexivity|vm_compute; reflexivity].
  - split; [eexists; split; [reflexivity|by split]|]. split; reflexivity.
Qed.
End RunToy.

(** ** Properties *)

(** C7: a module that has just been loaded, and then any run of the page: imports, exports, host
    functions, lent callbacks, closures called, dropped, leaked and collected, in any order and
    nested in any way, ending normally or in an exception.  Between any two points of the run
    each closure has only taken steps of its life, every value that Rust holds in the externref
    table is still there unless Rust dropped it; no environment is destroyed twice or used after
    it was destroyed, if wasm dropped its handle only while it held it (and, in the two modules
    with the newer version of the code, if its destructor returned without touching its own
    closure); no invocation and no destructor is left open; every getter returns a view of all
    of the memory as it is now, and views that the module does not declare are never made. *)
Theorem page_runs_safely {St H} `{!Host St H, !Exports St H, !Allocator St} {TC : TextCodec}
    `{!ExportsSafe St H, !Slab H, !SlabLaws St H} (hd : bool) (stack : nat) (L : Session.loading)
    (t : list (string * import (S := St) (H := H))) (trusting : bool) (v : version)
    `{!VersionOk trusting v} (r0 r1 r2 : realm St H) :
  (∀ r, HostKeeps St H (life v r)) → (∀ r, ExportsKeep St H (life v r)) →
  (∀ r, HostKeeps St H (tabled r)) →
  HostKeeps St H (declared_only L) → ExportsKeep St H (declared_only L) →
  module_of hd stack L t v → just_loaded L r0 →
  rtc (run_step L t v) r0 r1 → rtc (run_step L t v) r1 r2 →
  respects v r1 r2 ∧ frames r1 r2 ∧ in_table r2 ∧ memory_safe v trusting r2 ∧
  (∀ i c, closures r2 !! i = Some c → Closure.frames (c_life c) = []) ∧
  (∀ c, c ∉ ld_views L → caches (glue_of r2) c = None) ∧
  fresh_views (glue_of r2).
Proof.
  intros Hhl Hel Hht Hhd Hed Ht H0 H01 H12.
  destruct (run_good hd stack L t v Ht r0 r1 (just_loaded_good L v r0 H0) H01) as [Hg1 [Hr01 _]].
  destruct (run_good hd stack L t v Ht r1 r2 Hg1 H12) as [[[Ho Hu] Hw Hi] [Hr Hf]].
  split_and!; [done|done|done|by apply well_made_safe| |done|apply fresh_getters, Ho].
  intros i c Hc. destruct H0 as (_ & H0 & _). assert (respects v r0 r2) as Hr02 by by etrans.
  specialize (Hr02 i). rewrite H0, Hc in Hr02. apply Hr02.
Qed.

Lemma page_runs_safely_witness :
  ∃ r, rtc RunToy.step RunToy.realm4 r ∧
    (∃ c, closures r = [c] ∧ proper false (c_life c)) ∧
    owned (log_of r) 1 = true ∧ caches (glue_of r) U8 = Some (whole 1 (mem (glue_of r))) ∧
    respects Original.version RunToy.realm4 r ∧ frames RunToy.realm4 r ∧ in_table r ∧
    memory_safe Original.version false r ∧
    (∀ i c, closures r !! i = Some c → Closure.frames (c_life c) = []) ∧
    (∀ c, c ∉ ld_views Prophecy.loading → caches (glue_of r) c = None) ∧
    fresh_views (glue_of r).
Proof.
  destruct RunToy.prophecy_run as (r & Hr & Hc & Ho & Hv). exists r.
  split; [exact Hr|]. split; [exact Hc|]. split; [exact Ho|]. split; [exact Hv|].
  apply (page_runs_safely (TC := polyfill_codec) true 9 Prophecy.loading RunToy.table
           false Original.version RunToy.realm4 RunToy.realm4 r).
  - intros r0. apply _.
  - apply RunToy.exports_life.
  - intros r0. apply _.
  - apply _.
  - apply RunToy.exports_declared.
  - apply front_end_module_of, (list_elem_of_lookup_2 _ 3); reflexivity.
  - apply RunToy.realm4_loaded.
  - apply rtc_refl.
  - exact Hr.
Defined.
