(* ===== verification/Linking.v ===== *)
(** * The glue against the wasm binaries

    The deployed wasm modules declare what they import and export.  Below are, for each
    binary that lies beside its glue module, the names of the functions it imports with the
    number of their parameters (from its import and type sections, in order), and the exports
    that the glue's adapters call, with theirs.  The import objects are checked against
    them: instantiation finds every function, and neither side counts the parameters of a
    call differently. *)

From Stdlib Require Import String.
From S2P Require Import Prelude TextCodec Memory Closure Glue Loader Session.
From S2P Require Import Loopback Spectrum WlanSwap Prophecy Wlan WlanDebug Decoder FrontEnds.

#[local] Open Scope nat_scope.

(** The imports of src/examples/wgpu/dist/loopback-65daf9cf8bd0f5a7_bg.wasm. *)
Definition loopback_bg : list (string * nat) :=
  [("__wbg_error_7534b8e9a36f1ab4", 2); ("__wbg_new_8a6f238a6ece86ea", 0);
   ("__wbg_stack_0ed75d68575b0f3c", 2); ("__wbg_getRandomValues_3c9c0d586e575a16", 2);
   ("__wbg_mark_7438147ce31e9d4b", 2); ("__wbg_measure_fb7825c11612c823", 4);
   ("__wbg_log_cb9e190acc5753fb", 2); ("__wbg_log_0cc1b7768397bcfe", 8);
   ("__wbindgen_cb_drop", 1); ("__wbg_Window_012086356a161dce", 1);
   ("__wbg_WorkerGlobalScope_dbe19b83176b742b", 1); ("__wbindgen_is_undefined", 1);
   ("__wbindgen_is_null", 1); ("__wbindgen_number_new", 1); ("__wbindgen_string_new", 2);
   ("__wbindgen_string_get", 2); ("__wbindgen_is_object", 1);
   ("__wbg_setlabel_d9721be24ba962d0", 3); ("__wbg_setlabel_e628a8506e7dbad1", 3);
   ("__wbg_settimestampwrites_753fd289d25da0f6", 2);
   ("__wbg_instanceof_GpuDeviceLostInfo_f8cb5633c29eedc6", 1);
   ("__wbg_reason_5ca511c634452792", 1); ("__wbg_message_4002df87504c18de", 2);
   ("__wbg_setlabel_f83545b14d4230ba", 3); ("__wbg_setlayout_65212cfcdc8328fc", 2);
   ("__wbg_setcompute_f3044d1d00931db2", 2); ("__wbg_message_a3614fb4a9a8bcbe", 2);
   ("__wbg_setflipy_07e27e9b8f79ebac", 2); ("__wbg_setorigin_bce4abc33252aae4", 2);
   ("__wbg_setsource_02e8b4daaf0b821a", 2); ("__wbg_setx_744e248c289894b0", 2);
   ("__wbg_sety_3739f1c9f8e4fe38", 2); ("__wbg_setclearvalue_2f2afd13b6ecba90", 2);
   ("__wbg_setloadop_7717864ef29efe5a", 2); ("__wbg_setresolvetarget_93c553085f84be1d", 2);
   ("__wbg_setstoreop_33000b14c26a958c", 2); ("__wbg_setview_0a3c9eb003dca615", 2);
   ("__wbg_setpowerpreference_f55bb01532e63a16", 2); ("__wbg_setaccess_7a29a6624061bd22", 2);
   ("__wbg_setformat_999b10709ff9fbb3", 2); ("__wbg_setviewdimension_62541381052220ba", 2);
   ("__wbg_wgslLanguageFeatures_993ab5b71fd5cbab", 1);
   ("__wbg_requestAdapter_aa6a84b375129705", 2); ("__wbg_setlabel_a500f3f38501fd17", 3);
   ("__wbg_setmappedatcreation_a8895d0463a7c2b4", 2); ("__wbg_setsize_77e119b004938be3", 2);
   ("__wbg_setusage_a9a9e2b9822110e6", 2); ("__wbg_setdepthorarraylayers_0d411b81883f9e4a", 2);
   ("__wbg_setheight_07e23125a705916b", 2); ("__wbg_setwidth_374c62c8c467dd55", 2);
   ("__wbg_setalphatocoverageenabled_6831ffd3db78874a", 2);
   ("__wbg_setcount_3e7fbced19a28758", 2); ("__wbg_setmask_55b58b7d5ccae3c9", 2);
   ("__wbg_instanceof_GpuOutOfMemoryError_6f18f6008848583c", 1);
   ("__wbg_setlabel_500d4bf5cd901261", 3); ("__wbg_setbindgrouplayouts_a2670a6cfcb7c490", 2);
   ("__wbg_setcullmode_17d54fcc4a1d899e", 2); ("__wbg_setfrontface_2af45fe851357ed5", 2);
   ("__wbg_setstripindexformat_6e6466458d40548f", 2); ("__wbg_settopology_b8997cc1c9b712d6", 2);
   ("__wbg_copyExternalImageToTexture_7c860a6f9d3d8b4e", 4);
   ("__wbg_submit_683667e8c0f18d76", 2); ("__wbg_writeBuffer_54f5faed442e5ab3", 6);
   ("__wbg_writeTexture_c90c50e5c2a97ff0", 5); ("__wbg_has_bd26e8330abc96fb", 3);
   ("__wbg_instanceof_GpuAdapter_0e209d47dbec389c", 1); ("__wbg_features_06c1298a671dd8a3", 1);
   ("__wbg_limits_b183be320685ed8f", 1); ("__wbg_requestDevice_c5987173ae76ad9e", 2);
   ("__wbg_instanceof_GpuCanvasContext_e63ee96c5bd33b0b", 1);
   ("__wbg_getBindGroupLayout_40cd8989f50be5e8", 2); ("__wbg_setdepthbias_0b1e19c4eeb8bf9b", 2);
   ("__wbg_setdepthbiasclamp_a00c0504aa10e802", 2);
   ("__wbg_setdepthbiasslopescale_0c335ba5dd4159a6", 2);
   ("__wbg_setdepthcompare_379f582e7e2d6f8a", 2);
   ("__wbg_setdepthwriteenabled_72e1e785a5a5a262", 2); ("__wbg_setformat_a248be0e94937fd6", 2);
   ("__wbg_setstencilback_7430953411a74f5b", 2); ("__wbg_setstencilfront_643b00ca15f63df0", 2);
   ("__wbg_setstencilreadmask_417cc42a4ebcc6fd", 2);
   ("__wbg_setstencilwritemask_99630e6d9578db18", 2);
   ("__wbg_setentrypoint_5fc49eccf7a2a917", 3); ("__wbg_setmodule_b2a1ad7c5aa169a6", 2);
   ("__wbg_settargets_9b07a81a153bd198", 2); ("__wbg_setmiplevel_6fed1be31117eadb", 2);
   ("__wbg_setorigin_0ef9b6c92d971672", 2); ("__wbg_settexture_6fb992cdbb52b8a5", 2);
   ("__wbg_setentrypoint_cc0ef6995eb4ec8a", 3); ("__wbg_setmodule_9c6fb60dbbaf9ff6", 2);
   ("__wbg_setlabel_71035c60ff875bcb", 3); ("__wbg_setlayout_9de5ead36a343003", 2);
   ("__wbg_setdepthstencil_a6ca739cea762217", 2); ("__wbg_setfragment_a7b4d1d6e4173869", 2);
   ("__wbg_setmultisample_0ab87d309246882a", 2); ("__wbg_setprimitive_8e59242385aeefbd", 2);
   ("__wbg_setvertex_a2070ea015bc740c", 2); ("__wbg_settype_2eb0a1e4095d484d", 2);
   ("__wbg_seta_e614a7cab362a0f6", 2); ("__wbg_setb_6a3df80fce7389c4", 2);
   ("__wbg_setg_e2da37d4015a5cba", 2); ("__wbg_setr_323d10232d162bc5", 2);
   ("__wbg_setlabel_2da44266df5c13ed", 3); ("__wbg_dispatchWorkgroups_fad6ffff4d7bf751", 4);
   ("__wbg_dispatchWorkgroupsIndirect_a08a26c640f286e2", 3); ("__wbg_end_4afeb869c57e2895", 1);
   ("__wbg_setPipeline_87ad5324dddd196b", 2); ("__wbg_setBindGroup_ab1792567210b45e", 3);
   ("__wbg_setBindGroup_fc1389bb99633d8c", 7); ("__wbg_setlabel_288008e3764fd03d", 3);
   ("__wbg_setcount_83ad4bd80b61ff13", 2); ("__wbg_settype_fb280f77c5aea269", 2);
   ("__wbg_setlabel_b1dea0fd6b833499", 3); ("__wbg_setcolorattachments_9c00dda5b4a96cf3", 2);
   ("__wbg_setdepthstencilattachment_6a1d2ba719cd889a", 2);
   ("__wbg_settimestampwrites_f901bc9c89140525", 2);
   ("__wbg_setmultisampled_5bbeb86cec3c3b77", 2); ("__wbg_setsampletype_128e447eb57f81e0", 2);
   ("__wbg_setviewdimension_cba6f4f08621ab93", 2); ("__wbg_setlabel_8ebf2908004a93a8", 3);
   ("__wbg_setdimension_0c4c84631949b62b", 2); ("__wbg_setformat_6c986b1fbf5a8135", 2);
   ("__wbg_setmiplevelcount_5cdccf5992bb17da", 2); ("__wbg_setsamplecount_ba2d094c32b25f63", 2);
   ("__wbg_setsize_f475ae0c88ae5c1a", 2); ("__wbg_setusage_b974ee6a11b1c075", 2);
   ("__wbg_setviewformats_0e7d17b7af990229", 2); ("__wbg_error_91a90ac8fc4305b8", 1);
   ("__wbg_keys_18bd91b10ade706b", 1); ("__wbg_setlabel_2b771b9d670d425d", 3);
   ("__wbg_setentries_c4c1438ed3550798", 2); ("__wbg_setalpha_f5ce555a0b46c02f", 2);
   ("__wbg_setcolor_256b6f0175930e17", 2); ("__wbg_sethasdynamicoffset_cb46ff65a09728e7", 2);
   ("__wbg_setminbindingsize_e6ebb4f885a7e096", 2); ("__wbg_settype_586408d828cb05f9", 2);
   ("__wbg_setbytesperrow_38a272f24fa45c75", 2); ("__wbg_setoffset_03942acfc179b9e4", 2);
   ("__wbg_setrowsperimage_a5c86bbe579e7ff5", 2); ("__wbg_setlabel_0cc377044614a183", 3);
   ("__wbg_setcolorformats_edbfa0263edc4b45", 2);
   ("__wbg_setdepthstencilformat_798f0233342b8470", 2);
   ("__wbg_setsamplecount_4f091bac7244d29d", 2); ("__wbg_setdepthreadonly_bad56bbbff6f7708", 2);
   ("__wbg_setstencilreadonly_b9752d3b585a9e24", 2); ("__wbg_setlabel_f63950a596f3822e", 3);
   ("__wbg_setcode_0f3b7e02272be293", 3); ("__wbg_setcompare_11640e1237f574d1", 2);
   ("__wbg_setdepthfailop_875b03aacfe7f3d7", 2); ("__wbg_setfailop_b3aa7b676802d507", 2);
   ("__wbg_setpassop_3864d7967d0b755f", 2); ("__wbg_setbinding_d47488349a99da1f", 2);
   ("__wbg_setbuffer_6b2d0975dd5b4804", 2); ("__wbg_setsampler_907171f78b25e6a0", 2);
   ("__wbg_setstoragetexture_073162508208dde1", 2); ("__wbg_settexture_372c227c16e4476c", 2);
   ("__wbg_setvisibility_3f5ec62f823cc88e", 2); ("__wbg_setbuffer_8953e54ed1e614bf", 2);
   ("__wbg_setoffset_faa7816201305e71", 2); ("__wbg_setsize_26f6f424f8c7ad78", 2);
   ("__wbg_setlabel_a715a723e54be347", 3); ("__wbg_setrequiredfeatures_4aaba5b9bed02f6c", 2);
   ("__wbg_setdepthclearvalue_24a007bba21e50e4", 2);
   ("__wbg_setdepthloadop_694e998dee78f58e", 2); ("__wbg_setdepthreadonly_df26e44e0338852d", 2);
   ("__wbg_setdepthstoreop_04c091c28c8cb198", 2);
   ("__wbg_setstencilclearvalue_82445ec7d3bf6337", 2);
   ("__wbg_setstencilloadop_fd4992092c35e435", 2);
   ("__wbg_setstencilreadonly_b63e58c25fd519fa", 2);
   ("__wbg_setstencilstoreop_85e35c733e931690", 2); ("__wbg_setview_a25d3a35a9550c37", 2);
   ("__wbg_maxTextureDimension1D_f034b80a9155ce7a", 1);
   ("__wbg_maxTextureDimension2D_97d03cbc330a1de6", 1);
   ("__wbg_maxTextureDimension3D_9cb354a662c690a7", 1);
   ("__wbg_maxTextureArrayLayers_6ad2737805de682c", 1);
   ("__wbg_maxBindGroups_38117bf16c093492", 1);
   ("__wbg_maxBindingsPerBindGroup_4c83aa7d3b0f0bf9", 1);
   ("__wbg_maxDynamicUniformBuffersPerPipelineLayout_6532ba0f61691f92", 1);
   ("__wbg_maxDynamicStorageBuffersPerPipelineLayout_6f2531c8b3946fe7", 1);
   ("__wbg_maxSampledTexturesPerShaderStage_1e300c1893a44019", 1);
   ("__wbg_maxSamplersPerShaderStage_b2f4886a8bf432e9", 1);
   ("__wbg_maxStorageBuffersPerShaderStage_41c3a49271bb26d0", 1);
   ("__wbg_maxStorageTexturesPerShaderStage_090ef077886867b7", 1);
   ("__wbg_maxUniformBuffersPerShaderStage_77c6612a2878a56b", 1);
   ("__wbg_maxUniformBufferBindingSize_376fb4aa02284b9b", 1);
   ("__wbg_maxStorageBufferBindingSize_1664cce2578d8011", 1);
   ("__wbg_minUniformBufferOffsetAlignment_ed951280a2dc56cd", 1);
   ("__wbg_minStorageBufferOffsetAlignment_630d33ba02e6ace7", 1);
   ("__wbg_maxVertexBuffers_ddcf4555a965d888", 1); ("__wbg_maxBufferSize_0476342fcdb63944", 1);
   ("__wbg_maxVertexAttributes_0a768d9af99844e2", 1);
   ("__wbg_maxVertexBufferArrayStride_3c84c7f70e4ce587", 1);
   ("__wbg_maxColorAttachments_cdd33ae159d907c3", 1);
   ("__wbg_maxColorAttachmentBytesPerSample_dd065943c2c074c9", 1);
   ("__wbg_maxComputeWorkgroupStorageSize_1b473a4049c8b908", 1);
   ("__wbg_maxComputeInvocationsPerWorkgroup_f18a0e7cc360a4f2", 1);
   ("__wbg_maxComputeWorkgroupSizeX_c8a05f62d09395f4", 1);
   ("__wbg_maxComputeWorkgroupSizeY_749851b448366c6b", 1);
   ("__wbg_maxComputeWorkgroupSizeZ_c53cc29df955ae5a", 1);
   ("__wbg_maxComputeWorkgroupsPerDimension_9ff46dd341f1489f", 1);
   ("__wbg_instanceof_GpuValidationError_957f7b58d3996e29", 1);
   ("__wbg_setformat_4d274f92eb43af7e", 2); ("__wbg_setoffset_2a1ed8c605246680", 2);
   ("__wbg_setshaderlocation_d912fa16e1bafbf5", 2); ("__wbg_setarraystride_a81326f8d942e90a", 2);
   ("__wbg_setattributes_a8815b2a94cbbd5d", 2); ("__wbg_setstepmode_48ca51aca6c457d0", 2);
   ("__wbg_setentrypoint_7a48e2fd45ce5242", 3); ("__wbg_setmodule_6575b8b8b6395d5e", 2);
   ("__wbg_setbuffers_67cf19c4a2c975fe", 2); ("__wbg_gpu_9190c45d483af352", 1);
   ("__wbg_setdstfactor_f5aa0d40a8a46209", 2); ("__wbg_setoperation_b1320c8f97dc317a", 2);
   ("__wbg_setsrcfactor_c06f8886e8f9db36", 2); ("__wbg_setblend_5fff4fc1a8804e7b", 2);
   ("__wbg_setformat_4f4d8e1c3af29385", 2); ("__wbg_setwritemask_a015d982c216f05a", 2);
   ("__wbg_features_ea2949142684633e", 1); ("__wbg_limits_e57569af160aeddc", 1);
   ("__wbg_queue_d89a02421bda2b42", 1); ("__wbg_lost_42849e3dfd856dcf", 1);
   ("__wbg_setonuncapturederror_d483babbffc909ea", 2);
   ("__wbg_createBindGroup_799a4c63deccf40c", 2);
   ("__wbg_createBindGroupLayout_ccaa5d2aa2a2ae17", 2);
   ("__wbg_createBuffer_a19c4c09aa7e61c6", 2);
   ("__wbg_createCommandEncoder_3c9ad92fb9f1235d", 2);
   ("__wbg_createComputePipeline_5bc685ade9b4da65", 2);
   ("__wbg_createPipelineLayout_0718a3eb9884dcfb", 2);
   ("__wbg_createQuerySet_d6541ea3488cdff3", 2);
   ("__wbg_createRenderBundleEncoder_9791a47b62d9307c", 2);
   ("__wbg_createRenderPipeline_4429522c4a8eaaf8", 2);
   ("__wbg_createSampler_8f8704d5382370c3", 2); ("__wbg_createShaderModule_9e08b1b6ae277929", 2);
   ("__wbg_createTexture_96a508752fa02d41", 2); ("__wbg_destroy_c85f57bff04f76c0", 1);
   ("__wbg_popErrorScope_cbcf53d8c60ed58a", 1); ("__wbg_pushErrorScope_ebaa0c6ee35e17d1", 2);
   ("__wbg_setbytesperrow_f40ece00f6ad8093", 2); ("__wbg_setoffset_b2b5cabe142e1121", 2);
   ("__wbg_setrowsperimage_a20532b7306f8f04", 2); ("__wbg_setbuffer_b8d4b873f193738d", 2);
   ("__wbg_setbeginningofpasswriteindex_db074583a3fde2ff", 2);
   ("__wbg_setendofpasswriteindex_9df3c78cc7108787", 2);
   ("__wbg_setqueryset_1d4d053148acad3d", 2); ("__wbg_setlabel_4ad48f653ec65eb3", 3);
   ("__wbg_setaddressmodeu_f9c59da53d82b182", 2); ("__wbg_setaddressmodev_79f77a1d3b044c97", 2);
   ("__wbg_setaddressmodew_18409dbb4043703c", 2); ("__wbg_setcompare_63ca4199bc88569b", 2);
   ("__wbg_setlodmaxclamp_1887e84a3d06f898", 2); ("__wbg_setlodminclamp_cd3dd55fe2bb52d8", 2);
   ("__wbg_setmagfilter_52da4c654280e213", 2); ("__wbg_setmaxanisotropy_1ca629f4e25e12fd", 2);
   ("__wbg_setminfilter_58e87776cadcd1b3", 2); ("__wbg_setmipmapfilter_182e70118e958b7f", 2);
   ("__wbg_setlabel_ee195a522e4e446e", 3); ("__wbg_setentries_31f9d7a61735820c", 2);
   ("__wbg_setlayout_07cd9903ecafe648", 2); ("__wbg_setbinding_f935678f007077c3", 2);
   ("__wbg_setresource_da805678f095daba", 2); ("__wbg_size_f5fdd7af88b0b724", 1);
   ("__wbg_usage_ef79cc1301f4d456", 1); ("__wbg_destroy_828657127ee78c34", 1);
   ("__wbg_getMappedRange_6d2048e506f70687", 3); ("__wbg_mapAsync_6c6e4e801161924c", 4);
   ("__wbg_unmap_3996f949ebf6b9a4", 1); ("__wbg_label_1f84f92f09ba5b0a", 2);
   ("__wbg_beginComputePass_eb489d88a5327674", 2); ("__wbg_beginRenderPass_350345dc19419939", 2);
   ("__wbg_clearBuffer_227e90371e1229a9", 3); ("__wbg_clearBuffer_f624f44ffac88a65", 4);
   ("__wbg_copyBufferToBuffer_6fe483ce4a07f7c8", 6);
   ("__wbg_copyBufferToTexture_d594d5485ac49f52", 4);
   ("__wbg_copyTextureToBuffer_569bd20852d0378a", 4);
   ("__wbg_copyTextureToTexture_f6b42e055f9f6a97", 4); ("__wbg_finish_0169ed1c762f9db3", 1);
   ("__wbg_finish_10ad953096805038", 2); ("__wbg_resolveQuerySet_73c30ae026708ae3", 6);
   ("__wbg_setbeginningofpasswriteindex_bbb0050c1b81621d", 2);
   ("__wbg_setendofpasswriteindex_82d6d163d760be28", 2);
   ("__wbg_setqueryset_840dc8940d3be049", 2); ("__wbg_setaspect_8da0cc41e9c723ce", 2);
   ("__wbg_setmiplevel_6b898ddd34646f69", 2); ("__wbg_setorigin_c9a426d82a4cbb67", 2);
   ("__wbg_settexture_c85cb80ac44bcbae", 2); ("__wbg_setpremultipliedalpha_36161b868cbca098", 2);
   ("__wbg_setx_bed4341c6692c1fa", 2); ("__wbg_sety_d1def1c7baef049a", 2);
   ("__wbg_setz_a1e821c7a1a291c5", 2); ("__wbg_instanceof_Window_def73ea0955fc569", 1);
   ("__wbg_document_d249400bd7bd996d", 1); ("__wbg_navigator_1577371c070c8947", 1);
   ("__wbg_querySelectorAll_40998fd748f057ef", 3); ("__wbg_navigator_0a9bf1120e24fec2", 1);
   ("__wbg_get_e27dfaeb6f46bd45", 2); ("__wbg_getContext_e9cf379449413580", 3);
   ("__wbg_getContext_f65a0debd1e8f8e8", 3); ("__wbindgen_is_function", 1);
   ("__wbg_queueMicrotask_97d92b4fcc8a61c5", 1); ("__wbg_queueMicrotask_d3219def82552485", 1);
   ("__wbg_new_78feb108b6472713", 0); ("__wbg_push_737cfc8c1432c2c6", 2);
   ("__wbg_newnoargs_105ed471475aaf50", 2); ("__wbg_call_672a4d21634d4a24", 2);
   ("__wbg_next_6574e1a8a62d1055", 1); ("__wbg_done_769e5ede4b31c67b", 1);
   ("__wbg_value_cd1ffa7b1ab794f1", 1); ("__wbg_instanceof_Object_7f2dcef8f78644a4", 1);
   ("__wbg_new_405e22f390576ce2", 0); ("__wbg_valueOf_39a18758c25e8b95", 1);
   ("__wbg_resolve_4851785c9c5f573d", 1); ("__wbg_then_44b73946d2fb3e7d", 2);
   ("__wbg_then_48b406749878a531", 3); ("__wbg_static_accessor_GLOBAL_THIS_56578be7e9f832b0", 0);
   ("__wbg_static_accessor_SELF_37c5d418e4bf5819", 0);
   ("__wbg_static_accessor_WINDOW_5de37043a91a9c40", 0);
   ("__wbg_static_accessor_GLOBAL_88a902d13a557d07", 0); ("__wbg_new_a12002a7f91c75be", 1);
   ("__wbg_newwithbyteoffsetandlength_d97e637ebe145a9a", 3);
   ("__wbg_buffer_09165b52af8c5237", 1); ("__wbg_length_a446193dc22c12f8", 1);
   ("__wbg_set_65595bdd868b3009", 3); ("__wbg_set_bb8cecf6a62b9f46", 3);
   ("__wbg_buffer_609cc3eee51ed158", 1); ("__wbindgen_debug_string", 2); ("__wbindgen_throw", 2);
   ("__wbindgen_memory", 0); ("__wbindgen_closure_wrapper6684", 3);
   ("__wbindgen_closure_wrapper9471", 3); ("__wbindgen_init_externref_table", 0)].

(** Its exports that the adapters call. *)
Definition loopback_shims : list (string * nat) :=
  [("closure566_externref_shim", 3);
   ("closure583_externref_shim", 3)].

(** The imports of src/examples/spectrum/dist/frontend-beed6691b218adf_bg.wasm. *)
Definition spectrum_bg : list (string * nat) :=
  [("__wbindgen_cb_drop", 1); ("__wbindgen_string_new", 2); ("__wbindgen_is_string", 1);
   ("__wbg_new_8a6f238a6ece86ea", 0); ("__wbg_stack_0ed75d68575b0f3c", 2);
   ("__wbg_error_7534b8e9a36f1ab4", 2); ("__wbg_mermaidinit_8cfe82243f62aa26", 0);
   ("__wbg_getRandomValues_38097e921c2494c3", 2); ("__wbindgen_string_get", 2);
   ("__wbindgen_is_undefined", 1); ("__wbindgen_is_null", 1); ("__wbindgen_is_falsy", 1);
   ("__wbg_log_cb9e190acc5753fb", 2); ("__wbg_log_0cc1b7768397bcfe", 8);
   ("__wbg_mark_7438147ce31e9d4b", 2); ("__wbg_measure_fb7825c11612c823", 4);
   ("__wbg_fetch_a9bc66c159c18e19", 1);
   ("__wbg_instanceof_WebGl2RenderingContext_2b6045efeb76568d", 1);
   ("__wbg_bufferData_3261d3e1dd6fc903", 4); ("__wbg_bufferSubData_4e973eefe9236d04", 4);
   ("__wbg_texImage2D_114e77ca61ee2068", 11); ("__wbg_texSubImage2D_00e9fc34c22b598e", 11);
   ("__wbg_attachShader_3d4eb6af9e3e7bd1", 3); ("__wbg_bindBuffer_309c9a6c21826cf5", 3);
   ("__wbg_bindTexture_a6e795697f49ebd1", 3); ("__wbg_compileShader_0ad770bbdbb9de21", 2);
   ("__wbg_createBuffer_9886e84a67b68c89", 1); ("__wbg_createProgram_da203074cafb1038", 1);
   ("__wbg_createShader_983150fb1243ee56", 2); ("__wbg_createTexture_bfaa54c0cd22e367", 1);
   ("__wbg_drawArrays_6d29ea2ebc0c72a2", 4); ("__wbg_drawElements_65cb4b099bd7d4ac", 5);
   ("__wbg_enableVertexAttribArray_93c3d406a41ad6c7", 2);
   ("__wbg_getAttribLocation_959c0150cdd39cac", 4);
   ("__wbg_getUniformLocation_657a2b6d102bd126", 4); ("__wbg_linkProgram_067ee06739bdde81", 2);
   ("__wbg_shaderSource_72d3e8597ef85b67", 4); ("__wbg_texParameteri_8112b26b3c360b7e", 4);
   ("__wbg_uniform1f_dc009a0e7f7e5977", 3); ("__wbg_useProgram_9b2660f7bb210471", 2);
   ("__wbg_vertexAttribPointer_550dc34903e3d1ea", 7); ("__wbg_viewport_e615e98f676f2d39", 5);
   ("__wbg_instanceof_Window_def73ea0955fc569", 1); ("__wbg_document_d249400bd7bd996d", 1);
   ("__wbg_location_350d99456c2f3693", 1); ("__wbg_requestAnimationFrame_d7fd890aaefc3246", 2);
   ("__wbg_instanceof_Element_0af65443936d5154", 1); ("__wbg_clientWidth_ce67a04dc15fce39", 1);
   ("__wbg_clientHeight_216178c194000db4", 1); ("__wbg_setinnerHTML_31bde41f835786f7", 3);
   ("__wbg_setAttribute_2704501201f15687", 5); ("__wbg_remove_e2d2659f3128c045", 1);
   ("__wbg_body_942ea927546a04ba", 1); ("__wbg_createComment_8b540d4b9d22f212", 3);
   ("__wbg_createElement_8c9931a732ee2fea", 3); ("__wbg_createTextNode_42af1a9f21bb3360", 3);
   ("__wbg_parentNode_9de97a0e7973ea4e", 1); ("__wbg_setnodeValue_58cb1b2f6b6c33d2", 3);
   ("__wbg_cloneNode_e35b333b87d51340", 1); ("__wbg_insertBefore_c181fb91844cd959", 3);
   ("__wbg_instanceof_Response_f2cc20d9f7dfd644", 1); ("__wbg_text_7805bea50de2af49", 1);
   ("__wbg_remove_efb062ab554e1fbd", 1); ("__wbg_wasClean_605b4fd66d44354a", 1);
   ("__wbg_code_f4ec1e6e2e1b0417", 1); ("__wbg_reason_49f1cede8bcf23dd", 2);
   ("__wbg_newwitheventinitdict_502dbfa1b3d2fcbc", 3); ("__wbg_setcode_156060465a2f8f79", 2);
   ("__wbg_setreason_d29ac0402eeeb81a", 3); ("__wbg_url_8f9653b899456042", 2);
   ("__wbg_newwithstr_78e86e03c4ae814e", 2); ("__wbg_newwithstrandinit_06c535e0a867c635", 3);
   ("__wbg_instanceof_HtmlInputElement_12d71bf2d15dd19e", 1);
   ("__wbg_value_91cbf0dd3ab84c1e", 2); ("__wbg_setbinaryType_92fa1ffd873b327c", 2);
   ("__wbg_new_92c54fc74574ef55", 2); ("__wbg_close_2893b7d056a0627d", 1);
   ("__wbg_data_432d9c3df2630942", 1); ("__wbg_instanceof_ShadowRoot_726578bcd7fa418a", 1);
   ("__wbg_host_166cb082dae71d08", 1); ("__wbg_view_fd8a56e8983f448d", 1);
   ("__wbg_respond_1f279fa9f8edcb1c", 2); ("__wbg_close_304cc1fef3466669", 1);
   ("__wbg_enqueue_bb16ba72f537dc9e", 2); ("__wbg_log_c222819a41e063d3", 1);
   ("__wbg_setinnerText_b11978b8158639c4", 3); ("__wbg_setonce_0cb80aea26303a35", 2);
   ("__wbg_width_5dde457d606ba683", 1); ("__wbg_setwidth_c5fed9f5e7f0b406", 2);
   ("__wbg_height_838cee19ba8597db", 1); ("__wbg_setheight_da683a33fa99843c", 2);
   ("__wbg_getContext_e9cf379449413580", 3); ("__wbg_target_0a62d9d79a2a1ede", 1);
   ("__wbg_cancelBubble_2e66f509cdea4d7e", 1); ("__wbg_composedPath_977ce97a0ef39358", 1);
   ("__wbg_search_e0e79cfe010c5c23", 2); ("__wbg_setsearch_609451e9e712f3c6", 3);
   ("__wbg_new_9ffbe0a71eff35e3", 2); ("__wbg_new_80bf4ee74f41ff92", 0);
   ("__wbg_addEventListener_90e553fdce254421", 4);
   ("__wbg_addEventListener_84ae3eac6e15480a", 5); ("__wbg_dispatchEvent_9e259d7c1d603dfb", 2);
   ("__wbg_removeEventListener_056dfe8c3d6c58f9", 4); ("__wbg_new_018dcc2d6c8c2f6a", 0);
   ("__wbg_set_11cd83f45504cedf", 5); ("__wbg_origin_7c5d649acdace3ea", 2);
   ("__wbg_protocol_faa0494a9b2554cb", 2); ("__wbg_hostname_8d7204884eb7378b", 2);
   ("__wbg_setbody_5923b78a95eedf29", 2); ("__wbg_setheaders_834c0bdb6a8949ad", 2);
   ("__wbg_setmethod_3c5280fe5d890842", 3); ("__wbg_byobRequest_77d9adf63337edfb", 1);
   ("__wbg_close_5ce03e29be453811", 1); ("__wbg_queueMicrotask_97d92b4fcc8a61c5", 1);
   ("__wbg_queueMicrotask_d3219def82552485", 1); ("__wbindgen_is_function", 1);
   ("__wbg_get_b9b93047fe3cf45b", 2); ("__wbg_newnoargs_105ed471475aaf50", 2);
   ("__wbg_get_67b2ba62fc30de12", 2); ("__wbg_call_672a4d21634d4a24", 2);
   ("__wbg_new_405e22f390576ce2", 0); ("__wbg_instanceof_ArrayBuffer_e14585432e3737fc", 1);
   ("__wbg_instanceof_Error_4d54113b22d20306", 1); ("__wbg_new_c68d7209be747379", 2);
   ("__wbg_message_97a2af9b89d693a3", 1); ("__wbg_name_0b327d569f00ebee", 1);
   ("__wbg_toString_c813bbd34d063839", 1); ("__wbg_call_7cccdd69e0791ae2", 3);
   ("__wbg_toString_5285597960676b7b", 1); ("__wbg_new_23a2665fac83c611", 2);
   ("__wbg_resolve_4851785c9c5f573d", 1); ("__wbg_then_44b73946d2fb3e7d", 2);
   ("__wbg_then_48b406749878a531", 3); ("__wbg_static_accessor_GLOBAL_THIS_56578be7e9f832b0", 0);
   ("__wbg_static_accessor_SELF_37c5d418e4bf5819", 0);
   ("__wbg_static_accessor_WINDOW_5de37043a91a9c40", 0);
   ("__wbg_static_accessor_GLOBAL_88a902d13a557d07", 0); ("__wbg_buffer_609cc3eee51ed158", 1);
   ("__wbg_newwithbyteoffsetandlength_d97e637ebe145a9a", 3); ("__wbg_new_a12002a7f91c75be", 1);
   ("__wbg_set_65595bdd868b3009", 3); ("__wbg_length_a446193dc22c12f8", 1);
   ("__wbg_newwithbyteoffsetandlength_d4a86622320ea258", 3);
   ("__wbg_newwithbyteoffsetandlength_e6b7e69acd4c7354", 3);
   ("__wbg_buffer_09165b52af8c5237", 1); ("__wbg_byteLength_e674b853d9c77e1d", 1);
   ("__wbg_byteOffset_fd862df290ef848d", 1); ("__wbg_deleteProperty_96363d4a1d977c97", 2);
   ("__wbg_set_bb8cecf6a62b9f46", 3); ("__wbindgen_debug_string", 2); ("__wbindgen_throw", 2);
   ("__wbindgen_memory", 0); ("__wbindgen_closure_wrapper879", 3);
   ("__wbindgen_closure_wrapper1202", 3); ("__wbindgen_closure_wrapper1226", 3);
   ("__wbindgen_closure_wrapper1228", 3); ("__wbindgen_closure_wrapper1230", 3);
   ("__wbindgen_closure_wrapper1232", 3); ("__wbindgen_closure_wrapper3232", 3);
   ("__wbindgen_init_externref_table", 0)].

(** Its exports that the adapters call. *)
Definition spectrum_shims : list (string * nat) :=
  [("closure312_externref_shim", 3);
   ("_dyn_core__ops__function__FnMut_____Output___R_as_wasm_bindgen__closure__WasmClosure___describe__invoke__hd590aa25f8faeea3", 2);
   ("closure418_externref_shim", 3);
   ("_dyn_core__ops__function__FnMut_____Output___R_as_wasm_bindgen__closure__WasmClosure___describe__invoke__heea07e4c3b8fa3fa", 2);
   ("closure452_externref_shim", 3);
   ("closure474_externref_shim", 4)].

(** The imports of src/examples/wlan-swap/dist/frontend-26c19e7ec5c5840c_bg.wasm. *)
Definition wlanswap_bg : list (string * nat) :=
  [("__wbg_new_8a6f238a6ece86ea", 0); ("__wbg_stack_0ed75d68575b0f3c", 2);
   ("__wbg_error_7534b8e9a36f1ab4", 2); ("__wbg_mermaidinit_6a2099ed5b36d951", 0);
   ("__wbg_getRandomValues_38a1ff1ea09f6cc7", 2); ("__wbg_fetch_a9bc66c159c18e19", 1);
   ("__wbg_instanceof_WebGl2RenderingContext_0437ff340aef5ac7", 1);
   ("__wbg_bindBuffer_ca632d407a6cd394", 3); ("__wbg_useProgram_3e5c220728446c29", 2);
   ("__wbg_bindTexture_9d1255b2de6a3a20", 3); ("__wbg_linkProgram_4bf446d2d081aa07", 2);
   ("__wbg_attachShader_8bc6f118fa003360", 3); ("__wbg_createBuffer_6a92125855922b2e", 1);
   ("__wbg_createShader_8548d722c1327303", 2); ("__wbg_shaderSource_2ed8147ed144f6d6", 4);
   ("__wbg_compileShader_3ed42f9f82c060ea", 2); ("__wbg_createProgram_905f3efd8354e76c", 1);
   ("__wbg_createTexture_62494769edc22521", 1); ("__wbg_texParameteri_ebae520a31bfd243", 4);
   ("__wbg_getAttribLocation_0de296dd6831e7e2", 4); ("__wbg_drawElements_3acf8f6523f00d29", 5);
   ("__wbg_enableVertexAttribArray_17e09202dc56b410", 2);
   ("__wbg_vertexAttribPointer_3549d2703f29bf38", 7); ("__wbg_bufferData_a964c14d0eebdeb8", 4);
   ("__wbg_texSubImage2D_dd8a29936a691137", 11); ("__wbg_viewport_08854654c5c2bba6", 5);
   ("__wbg_texImage2D_11e007f284f49d98", 11); ("__wbg_instanceof_Window_12d20d558ef92592", 1);
   ("__wbg_requestAnimationFrame_ddc84a7def436784", 2); ("__wbg_setTimeout_2966518f28aef92e", 3);
   ("__wbg_setInterval_3ca6a76801aa276c", 3); ("__wbg_document_7d29d139bd619045", 1);
   ("__wbg_location_92d89c32ae076cab", 1); ("__wbg_instanceof_Element_162e4334c7d6f450", 1);
   ("__wbg_clientWidth_8a498b7a82cae772", 1); ("__wbg_clientHeight_59d075cde7dbe3c7", 1);
   ("__wbg_setAttribute_d1baf9023ad5696f", 5); ("__wbg_setinnerHTML_34e240d6b8e8260c", 3);
   ("__wbg_removeAttribute_cf35412842be6ae4", 3);
   ("__wbg_firstElementChild_27076cbfeed86254", 1); ("__wbg_remove_fec7bce376b31b32", 1);
   ("__wbg_createComment_08abf524559fd4d7", 3); ("__wbg_createElement_4909dfa2011f2abe", 3);
   ("__wbg_createTextNode_c71a51271fadf515", 3); ("__wbg_body_8822ca55cb3730d2", 1);
   ("__wbg_dispatchEvent_cb7e5ff30130cf80", 2); ("__wbg_addEventListener_775911544ac9d643", 4);
   ("__wbg_removeEventListener_6d5be9c2821a511e", 4);
   ("__wbg_addEventListener_d1c39a5c2329c624", 5); ("__wbg_new_e8b27dfd3785875f", 0);
   ("__wbg_newwithstr_1bc70be98f2e7425", 2); ("__wbg_newwithstrandinit_b5d168a29a3fd85f", 3);
   ("__wbg_url_79bd91c4e84e8270", 2); ("__wbg_instanceof_Response_50fde2cd696850bf", 1);
   ("__wbg_text_0f69a215637b9b34", 1); ("__wbg_setonmessage_5e486f326638a9da", 2);
   ("__wbg_setbinaryType_37f3cd35d7775a47", 2); ("__wbg_new_e213f63d18b0de01", 2);
   ("__wbg_close_6437264570d2d37f", 1); ("__wbg_setheight_4fce583024b2d088", 2);
   ("__wbg_getContext_4bfd08c32570ece4", 4); ("__wbg_width_c7a070ac56976582", 1);
   ("__wbg_height_228fe8a75d4d09d6", 1); ("__wbg_setwidth_40a6ed203b92839d", 2);
   ("__wbg_content_a26016a510c10d06", 1); ("__wbg_respond_6c2c4e20ef85138e", 2);
   ("__wbg_view_91cc97d57ab30530", 1); ("__wbg_reload_9fde301bc335e70d", 1);
   ("__wbg_hostname_e085cea10ffacfc6", 2); ("__wbg_host_484d55073e076054", 1);
   ("__wbg_instanceof_ShadowRoot_f3723967133597a3", 1); ("__wbg_value_89377c01d73b6102", 2);
   ("__wbg_newwitheventinitdict_fe21d8ccd6054401", 3); ("__wbg_code_177e3bed72688e58", 1);
   ("__wbg_reason_97efd955be6394bd", 2); ("__wbg_wasClean_ffb515fbcbcbdd3d", 1);
   ("__wbg_setmethod_9b504d5b855b329c", 3); ("__wbg_setheaders_0052283e2f3503d1", 2);
   ("__wbg_setbody_c8460bdf44147df8", 2); ("__wbg_remove_0cd5aff2ca3eb753", 1);
   ("__wbg_data_9ab529722bcc4e6c", 1); ("__wbg_cloneNode_79d46b18d5619863", 1);
   ("__wbg_parentNode_cc820baee7401ca3", 1); ("__wbg_insertBefore_30228206e8f1d3fb", 3);
   ("__wbg_setnodeValue_629799145cb84fd8", 3); ("__wbg_cloneNode_82bea7899ad17d25", 2);
   ("__wbg_cancelBubble_a4c48803e199b5e8", 1); ("__wbg_composedPath_e5b3f0b3e8415bb5", 1);
   ("__wbg_target_f2c963b447be6283", 1); ("__wbg_log_6c7b5f4f00b8ce3f", 1);
   ("__wbg_warn_e2ada06313f92f09", 1); ("__wbg_error_99981e16d476aa5c", 1);
   ("__wbg_setonce_5b860c1f79d40d3b", 2); ("__wbg_value_fdf54c7557edc2e8", 2);
   ("__wbg_instanceof_HtmlInputElement_486d1ca974d99353", 1);
   ("__wbg_setsearch_fbee2174e0389ccd", 3); ("__wbg_new_95e31b8bc5de31d6", 2);
   ("__wbg_search_3a02a8f2a1a2e604", 2); ("__wbg_new_f6e53210afea8e45", 0);
   ("__wbg_set_1c17f9738fac2718", 5); ("__wbg_enqueue_452bc2343d1c2ff9", 2);
   ("__wbg_close_d71a78219dc23e91", 1); ("__wbg_setinnerText_54e5a150fca6ee00", 3);
   ("__wbg_setreason_d56f0662fe6c410f", 3); ("__wbg_setcode_3d8eb30649405e81", 2);
   ("__wbg_queueMicrotask_4488407636f5bf24", 1); ("__wbg_queueMicrotask_25d0739ac89e8c88", 1);
   ("__wbg_new_19c25a3f2fa63a02", 0); ("__wbg_newnoargs_254190557c45b4ec", 2);
   ("__wbg_new_638ebfaedbf32a5e", 1); ("__wbg_byteLength_331a6b5545834024", 1);
   ("__wbg_byteOffset_49a5b5608000358b", 1); ("__wbg_length_6bb7e81f9d7713e4", 1);
   ("__wbg_prototypesetcall_3d4a26c1ed734349", 3);
   ("__wbg_newwithbyteoffsetandlength_e8f53910b4d42b45", 3);
   ("__wbg_buffer_8d40b1d762fb3c66", 1); ("__wbg_set_1353b2a5e96bc48c", 3);
   ("__wbg_instanceof_Error_76149ae9b431750e", 1);
   ("__wbg_instanceof_ArrayBuffer_67f3012529f6a2dd", 1); ("__wbg_get_0da715ceaecea5c8", 2);
   ("__wbg_new_da9dc54c5db29dfa", 2); ("__wbg_name_f733db82b3c2804d", 1);
   ("__wbg_message_125a1b2998b3552a", 1); ("__wbg_toString_d8f537919ef401d6", 1);
   ("__wbg_toString_78df35411a4fd40c", 1);
   ("__wbg_static_accessor_GLOBAL_THIS_f0a4409105898184", 0); ("__wbg_call_13410aac570ffff7", 2);
   ("__wbg_static_accessor_SELF_995b214ae681ff99", 0);
   ("__wbg_static_accessor_GLOBAL_8921f820c2ce3f12", 0);
   ("__wbg_static_accessor_WINDOW_cde3890479c675ea", 0); ("__wbg_new_2e3c58a15f39f5f9", 2);
   ("__wbg_then_e22500defe16819f", 2); ("__wbg_then_b33a773d723afa3e", 3);
   ("__wbg_resolve_4055c623acdd6a1b", 1); ("__wbg_call_a5400b25a865cfd8", 3);
   ("__wbg_get_458e874b43b18b25", 2); ("__wbg_deleteProperty_5fe99f4fd0f66ebe", 2);
   ("__wbg_set_453345bcda80b89a", 3); ("__wbg_wbindgenthrow_451ec1a8469d7eb6", 2);
   ("__wbg_wbindgencbdrop_eb10308566512b88", 1); ("__wbg_wbindgenisnull_f3037694abe4d97a", 1);
   ("__wbg_wbindgenisfalsy_03f4059e2ea4ee87", 1); ("__wbg_wbindgenisstring_d4fa939789f003b0", 1);
   ("__wbg_wbindgenstringget_0f16a6ddddef376f", 2);
   ("__wbg_wbindgenisfunction_8cee7dce3725ae74", 1);
   ("__wbg_wbindgenisundefined_c4b71d073b92f3c5", 1);
   ("__wbg_wbindgendebugstring_99ef257a3ddda34d", 2); ("__wbg_byobRequest_2c036bceca1e6037", 1);
   ("__wbg_close_cccada6053ee3a65", 1); ("__wbindgen_init_externref_table", 0);
   ("__wbindgen_cast_4b1c6ecbf5b749c2", 2); ("__wbindgen_cast_cd07b1914aa3d62c", 2);
   ("__wbindgen_cast_8cf60041ca45c6d3", 2); ("__wbindgen_cast_bbb4883c6389f1de", 2);
   ("__wbindgen_cast_0e01051ec6ae5085", 2); ("__wbindgen_cast_46a2f914673d6489", 2);
   ("__wbindgen_cast_b3b92d7b125797b8", 2); ("__wbindgen_cast_2241b6af4c4b2941", 2);
   ("__wbindgen_cast_bc731d2e03b107e4", 2); ("__wbindgen_cast_55a1e910854fa93a", 2)].

(** Its exports that the adapters call. *)
Definition wlanswap_shims : list (string * nat) :=
  [("closure491_externref_shim", 3);
   ("wasm_bindgen__convert__closures_____invoke__hc331aff52715f424", 2);
   ("wasm_bindgen__convert__closures_____invoke__h3a0ce2e28d0e7b37", 2);
   ("closure398_externref_shim", 3);
   ("closure465_externref_shim", 3);
   ("closure504_externref_shim", 4)].

(** The imports of src/crates/prophecy/dist/prophecy-e16c97ecc1556028_bg.wasm. *)
Definition prophecy_bg : list (string * nat) :=
  [("__wbg_new_8a6f238a6ece86ea", 0); ("__wbg_stack_0ed75d68575b0f3c", 2);
   ("__wbg_error_7534b8e9a36f1ab4", 2); ("__wbindgen_cb_drop", 1);
   ("__wbg_mermaidinit_8cfe82243f62aa26", 0); ("__wbindgen_string_new", 2);
   ("__wbindgen_is_undefined", 1); ("__wbindgen_is_null", 1); ("__wbindgen_is_falsy", 1);
   ("__wbindgen_string_get", 2); ("__wbg_fetch_a9bc66c159c18e19", 1);
   ("__wbg_instanceof_Window_def73ea0955fc569", 1); ("__wbg_document_d249400bd7bd996d", 1);
   ("__wbg_location_350d99456c2f3693", 1); ("__wbg_instanceof_Element_0af65443936d5154", 1);
   ("__wbg_setinnerHTML_31bde41f835786f7", 3); ("__wbg_setAttribute_2704501201f15687", 5);
   ("__wbg_remove_e2d2659f3128c045", 1); ("__wbg_body_942ea927546a04ba", 1);
   ("__wbg_createComment_8b540d4b9d22f212", 3); ("__wbg_createElement_8c9931a732ee2fea", 3);
   ("__wbg_createTextNode_42af1a9f21bb3360", 3); ("__wbg_parentNode_9de97a0e7973ea4e", 1);
   ("__wbg_setnodeValue_58cb1b2f6b6c33d2", 3); ("__wbg_cloneNode_e35b333b87d51340", 1);
   ("__wbg_insertBefore_c181fb91844cd959", 3); ("__wbg_instanceof_Response_f2cc20d9f7dfd644", 1);
   ("__wbg_text_7805bea50de2af49", 1); ("__wbg_remove_efb062ab554e1fbd", 1);
   ("__wbg_url_8f9653b899456042", 2); ("__wbg_newwithstr_78e86e03c4ae814e", 2);
   ("__wbg_newwithstrandinit_06c535e0a867c635", 3);
   ("__wbg_instanceof_ShadowRoot_726578bcd7fa418a", 1); ("__wbg_host_166cb082dae71d08", 1);
   ("__wbg_view_fd8a56e8983f448d", 1); ("__wbg_respond_1f279fa9f8edcb1c", 2);
   ("__wbg_close_304cc1fef3466669", 1); ("__wbg_enqueue_bb16ba72f537dc9e", 2);
   ("__wbg_warn_4ca3906c248c47c4", 1); ("__wbg_target_0a62d9d79a2a1ede", 1);
   ("__wbg_cancelBubble_2e66f509cdea4d7e", 1); ("__wbg_composedPath_977ce97a0ef39358", 1);
   ("__wbg_search_e0e79cfe010c5c23", 2); ("__wbg_setsearch_609451e9e712f3c6", 3);
   ("__wbg_new_9ffbe0a71eff35e3", 2); ("__wbg_new_80bf4ee74f41ff92", 0);
   ("__wbg_addEventListener_90e553fdce254421", 4);
   ("__wbg_removeEventListener_056dfe8c3d6c58f9", 4); ("__wbg_new_018dcc2d6c8c2f6a", 0);
   ("__wbg_origin_7c5d649acdace3ea", 2); ("__wbg_setheaders_834c0bdb6a8949ad", 2);
   ("__wbg_setmethod_3c5280fe5d890842", 3); ("__wbg_byobRequest_77d9adf63337edfb", 1);
   ("__wbg_close_5ce03e29be453811", 1); ("__wbg_queueMicrotask_97d92b4fcc8a61c5", 1);
   ("__wbg_queueMicrotask_d3219def82552485", 1); ("__wbindgen_is_function", 1);
   ("__wbg_get_b9b93047fe3cf45b", 2); ("__wbg_newnoargs_105ed471475aaf50", 2);
   ("__wbg_get_67b2ba62fc30de12", 2); ("__wbg_call_672a4d21634d4a24", 2);
   ("__wbg_new_405e22f390576ce2", 0); ("__wbg_instanceof_Error_4d54113b22d20306", 1);
   ("__wbg_new_c68d7209be747379", 2); ("__wbg_message_97a2af9b89d693a3", 1);
   ("__wbg_name_0b327d569f00ebee", 1); ("__wbg_toString_c813bbd34d063839", 1);
   ("__wbg_call_7cccdd69e0791ae2", 3); ("__wbg_toString_5285597960676b7b", 1);
   ("__wbg_new_23a2665fac83c611", 2); ("__wbg_resolve_4851785c9c5f573d", 1);
   ("__wbg_then_44b73946d2fb3e7d", 2); ("__wbg_then_48b406749878a531", 3);
   ("__wbg_static_accessor_GLOBAL_THIS_56578be7e9f832b0", 0);
   ("__wbg_static_accessor_SELF_37c5d418e4bf5819", 0);
   ("__wbg_static_accessor_WINDOW_5de37043a91a9c40", 0);
   ("__wbg_static_accessor_GLOBAL_88a902d13a557d07", 0); ("__wbg_buffer_609cc3eee51ed158", 1);
   ("__wbg_newwithbyteoffsetandlength_d97e637ebe145a9a", 3); ("__wbg_set_65595bdd868b3009", 3);
   ("__wbg_length_a446193dc22c12f8", 1); ("__wbg_buffer_09165b52af8c5237", 1);
   ("__wbg_byteLength_e674b853d9c77e1d", 1); ("__wbg_byteOffset_fd862df290ef848d", 1);
   ("__wbg_deleteProperty_96363d4a1d977c97", 2); ("__wbg_set_bb8cecf6a62b9f46", 3);
   ("__wbindgen_debug_string", 2); ("__wbindgen_throw", 2); ("__wbindgen_memory", 0);
   ("__wbindgen_closure_wrapper580", 3); ("__wbindgen_closure_wrapper2765", 3);
   ("__wbindgen_init_externref_table", 0)].

(** Its exports that the adapters call. *)
Definition prophecy_shims : list (string * nat) :=
  [("closure208_externref_shim", 3);
   ("closure284_externref_shim", 3);
   ("closure306_externref_shim", 4)].

(** The imports of src/examples/wlan/dist/frontend-886c4e58df3ed73f_bg.wasm. *)
Definition wlan_bg : list (string * nat) :=
  [("__wbg_new_8a6f238a6ece86ea", 0); ("__wbg_stack_0ed75d68575b0f3c", 2);
   ("__wbg_error_7534b8e9a36f1ab4", 2); ("__wbg_mermaidinit_6a2099ed5b36d951", 0);
   ("__wbg_getRandomValues_9c5c1b115e142bb8", 2); ("__wbg_fetch_a9bc66c159c18e19", 1);
   ("__wbg_instanceof_WebGl2RenderingContext_4a08a94517ed5240", 1);
   ("__wbg_bindBuffer_c9068e8712a034f5", 3); ("__wbg_useProgram_fe720ade4d3b6edb", 2);
   ("__wbg_bindTexture_b2b7b1726a83f93e", 3); ("__wbg_linkProgram_6600dd2c0863bbfd", 2);
   ("__wbg_attachShader_b36058e5c9eeaf54", 3); ("__wbg_createBuffer_26534c05e01b8559", 1);
   ("__wbg_createShader_e3ac08ed8c5b14b2", 2); ("__wbg_shaderSource_32425cfe6e5a1e52", 4);
   ("__wbg_compileShader_94718a93495d565d", 2); ("__wbg_createProgram_9b7710a1f2701c2c", 1);
   ("__wbg_createTexture_16d2c8a3d7d4a75a", 1); ("__wbg_texParameteri_0d45be2c88d6bad8", 4);
   ("__wbg_getAttribLocation_7321cf2d67e036f6", 4); ("__wbg_drawElements_ea2abffa9d1dc736", 5);
   ("__wbg_enableVertexAttribArray_475e06c31777296d", 2);
   ("__wbg_vertexAttribPointer_75f6ff47f6c9f8cb", 7); ("__wbg_bufferData_98f6c413a8f0f139", 4);
   ("__wbg_texSubImage2D_810be76d09a4203c", 11); ("__wbg_viewport_df236eac68bc7467", 5);
   ("__wbg_texImage2D_9113488cf68be946", 11); ("__wbg_instanceof_Window_ed49b2db8df90359", 1);
   ("__wbg_requestAnimationFrame_43682f8e1c5e5348", 2); ("__wbg_document_ee35a3d3ae34ef6c", 1);
   ("__wbg_createComment_b783f49934771bb3", 3); ("__wbg_createElement_49f60fdcaae809c8", 3);
   ("__wbg_createTextNode_55029686c9591bf3", 3); ("__wbg_createElementNS_ee00621496b30ec2", 5);
   ("__wbg_body_f67922363a220026", 1); ("__wbg_new_with_event_init_dict_7721feeda3e1e6fa", 3);
   ("__wbg_code_a552f1e91eda69b7", 1); ("__wbg_reason_35fce8e55dd90f31", 2);
   ("__wbg_wasClean_a9c77a7100d8534f", 1); ("__wbg_set_innerText_2f1502f2d0780499", 3);
   ("__wbg_set_height_f21f985387070100", 2); ("__wbg_getContext_b28d2db7bd648242", 4);
   ("__wbg_width_5f66bde2e810fbde", 1); ("__wbg_height_38750dc6de41ee75", 1);
   ("__wbg_set_width_d60bc4f2f20c56a4", 2); ("__wbg_respond_bf6ab10399ca8722", 2);
   ("__wbg_view_6c32e7184b8606ad", 1); ("__wbg_new_074b505417ada2d9", 0);
   ("__wbg_set_once_56ba1b87a9884c15", 2); ("__wbg_new_64284bd487f9d239", 0);
   ("__wbg_set_db769d02949a271d", 5); ("__wbg_set_binaryType_5bbf62e9f705dc1a", 2);
   ("__wbg_new_057993d5b5e07835", 2); ("__wbg_close_1d08eaf57ed325c0", 1);
   ("__wbg_remove_85daa9b3dddf4e6d", 1); ("__wbg_host_fb29f8be35c2517d", 1);
   ("__wbg_instanceof_ShadowRoot_5285adde3587c73e", 1);
   ("__wbg_cancelBubble_d93ec09e9c46cd6f", 1); ("__wbg_composedPath_9154ab2547c668d5", 1);
   ("__wbg_target_521be630ab05b11e", 1); ("__wbg_instanceof_Element_9e662f49ab6c6beb", 1);
   ("__wbg_clientWidth_dcf89c40d88df4a3", 1); ("__wbg_clientHeight_6432ff0d61ccfe7d", 1);
   ("__wbg_setAttribute_cc8e4c8a2a008508", 5); ("__wbg_set_innerHTML_edd39677e3460291", 3);
   ("__wbg_firstElementChild_f1c371cb2a4d5101", 1); ("__wbg_remove_31c39325eee968fc", 1);
   ("__wbg_tagName_0cf6d7b647352f04", 2); ("__wbg_set_method_c3e20375f5ae7fac", 3);
   ("__wbg_set_headers_cfc5f4b2c1f20549", 2); ("__wbg_set_body_9a7e00afe3cfe244", 2);
   ("__wbg_dispatchEvent_dc8dcc7ddca11378", 2); ("__wbg_addEventListener_3acb0aad4483804c", 4);
   ("__wbg_removeEventListener_e63328781a5b9af9", 4);
   ("__wbg_addEventListener_c917b5aafbcf493f", 5); ("__wbg_log_6b5ca2e6124b2808", 1);
   ("__wbg_warn_f7ae1b2e66ccb930", 1); ("__wbg_warn_81ab00e6e16e886d", 3);
   ("__wbg_enqueue_2c63f2044f257c3e", 2); ("__wbg_close_a79afee31de55b36", 1);
   ("__wbg_set_reason_4e11e27980c30a7f", 3); ("__wbg_set_code_86d60a9542684e59", 2);
   ("__wbg_byobRequest_80e594e6da4e1af7", 1); ("__wbg_close_06dfa0a815b9d71f", 1);
   ("__wbg_set_search_1d369b0f3868e132", 3); ("__wbg_new_c2f21774701ddac7", 2);
   ("__wbg_search_143f09a35047e800", 2); ("__wbg_data_5330da50312d0bc1", 1);
   ("__wbg_value_e506a07878790ca0", 2);
   ("__wbg_instanceof_HtmlInputElement_c10b7260b4e0710a", 1);
   ("__wbg_value_d402dce7dcb16251", 2); ("__wbg_content_681ebf067b179491", 1);
   ("__wbg_new_with_str_a7c7f835549b152a", 2);
   ("__wbg_new_with_str_and_init_a61cbc6bdef21614", 3); ("__wbg_url_36c39f6580d05409", 2);
   ("__wbg_instanceof_Response_ee1d54d79ae41977", 1); ("__wbg_text_083b8727c990c8c0", 1);
   ("__wbg_cloneNode_eaf4ea08ebf633a5", 1); ("__wbg_parentNode_d44bd5ec58601e45", 1);
   ("__wbg_insertBefore_1468142836e61a51", 3); ("__wbg_set_nodeValue_d947eb0a476b80d7", 3);
   ("__wbg_cloneNode_b85e9102a9a31b29", 2); ("__wbg_run_bcde7ea43ea6ed7c", 3);
   ("__wbg_createTask_deeb88a68fc97c9d", 2); ("__wbg_queueMicrotask_5bb536982f78a56f", 1);
   ("__wbg_queueMicrotask_0aa0a927f78f5d98", 1); ("__wbg_byteLength_3417f266f4bf562a", 1);
   ("__wbg_byteOffset_f88547ca47c86358", 1); ("__wbg_prototypesetcall_bdcdcc5842e4d77d", 3);
   ("__wbg_set_cc56eefd2dd91957", 3);
   ("__wbg_new_with_byte_offset_and_length_aa261d9c9da49eb1", 3);
   ("__wbg_new_dd2b680c8bf6ae29", 1); ("__wbg_buffer_26d0910f3a5bc899", 1);
   ("__wbg_length_32ed9a279acd054c", 1); ("__wbg_instanceof_Error_8573fe0b0b480f46", 1);
   ("__wbg_instanceof_ArrayBuffer_c367199e2fa2aa04", 1); ("__wbg_get_9b94d73e6221f75c", 2);
   ("__wbg_new_72b49615380db768", 2); ("__wbg_name_446e25ef2cfdab5a", 1);
   ("__wbg_message_9ddc4b9a62a7c379", 1); ("__wbg_toString_029ac24421fd7a24", 1);
   ("__wbg_new_361308b2356cecd0", 0); ("__wbg_toString_964ff7fe6eca8362", 1);
   ("__wbg_static_accessor_GLOBAL_THIS_e628e89ab3b1c95f", 0);
   ("__wbg_static_accessor_SELF_a621d3dfbb60d0ce", 0);
   ("__wbg_static_accessor_GLOBAL_12837167ad935116", 0);
   ("__wbg_static_accessor_WINDOW_f8727f0cf888e0bd", 0); ("__wbg_new_b5d9e2fb389fef91", 2);
   ("__wbg_then_b9e7b3b5f1a9e1b5", 2); ("__wbg_then_0d9fe2c7b1857d32", 3);
   ("__wbg_resolve_002c4b7d9d8f6b64", 1); ("__wbg_new_no_args_1c7c842f08d00ebb", 2);
   ("__wbg_call_389efe28435a9388", 2); ("__wbg_call_4708e0c13bdc8e95", 3);
   ("__wbg_deleteProperty_8c8a05da881fea59", 2); ("__wbg_get_b3ed3ad4be2bc8ac", 2);
   ("__wbg_set_6cb8631f80447a67", 3); ("__wbg__wbg_cb_unref_d9b87ff7982e3b21", 1);
   ("__wbg___wbindgen_throw_be289d5034ed271b", 2);
   ("__wbg___wbindgen_is_null_ac34f5003991759a", 1);
   ("__wbg___wbindgen_is_falsy_e623e5b815413d00", 1);
   ("__wbg___wbindgen_is_string_cd444516edc5b180", 1);
   ("__wbg___wbindgen_string_get_72fb696202c56729", 2);
   ("__wbg___wbindgen_is_function_0095a73b8b156f76", 1);
   ("__wbg___wbindgen_debug_string_0bc8482c6e3508ae", 2);
   ("__wbg___wbindgen_is_undefined_9e4d92534c42d778", 1); ("__wbindgen_init_externref_table", 0);
   ("__wbindgen_cast_0000000000000001", 2); ("__wbindgen_cast_0000000000000002", 2);
   ("__wbindgen_cast_0000000000000003", 2); ("__wbindgen_cast_0000000000000004", 2);
   ("__wbindgen_cast_0000000000000005", 2); ("__wbindgen_cast_0000000000000006", 2);
   ("__wbindgen_cast_0000000000000007", 2); ("__wbindgen_cast_0000000000000008", 2);
   ("__wbindgen_cast_0000000000000009", 2)].

(** Its exports that the adapters call. *)
Definition wlan_shims : list (string * nat) :=
  [("wasm_bindgen__convert__closures_____invoke__h65ce2db5fdf0eedf", 2);
   ("wasm_bindgen__convert__closures_____invoke__h71c1618cd439baed", 2);
   ("wasm_bindgen__convert__closures_____invoke__h705442ba5fd6af6f", 3);
   ("wasm_bindgen__convert__closures_____invoke__h6d25d05bc9ceff60", 3);
   ("wasm_bindgen__convert__closures_____invoke__hca206b6078dfbc56", 3);
   ("wasm_bindgen__convert__closures_____invoke__h4b2ba69449b74e62", 3);
   ("wasm_bindgen__convert__closures_____invoke__h1a6d232d156b5320", 3);
   ("wasm_bindgen__convert__closures_____invoke__h290b7a63b753574e", 4)].

(** The imports of src/examples/wlan_debug/dist/frontend-8a18c05eb146efa7_bg.wasm. *)
Definition wlandebug_bg : list (string * nat) :=
  [("__wbg_new_8a6f238a6ece86ea", 0); ("__wbg_stack_0ed75d68575b0f3c", 2);
   ("__wbg_error_7534b8e9a36f1ab4", 2); ("__wbg_mermaidinit_6a2099ed5b36d951", 0);
   ("__wbg_fetch_a9bc66c159c18e19", 1);
   ("__wbg_instanceof_WebGl2RenderingContext_4a08a94517ed5240", 1);
   ("__wbg_bindBuffer_c9068e8712a034f5", 3); ("__wbg_useProgram_fe720ade4d3b6edb", 2);
   ("__wbg_bindTexture_b2b7b1726a83f93e", 3); ("__wbg_linkProgram_6600dd2c0863bbfd", 2);
   ("__wbg_attachShader_b36058e5c9eeaf54", 3); ("__wbg_createBuffer_26534c05e01b8559", 1);
   ("__wbg_createShader_e3ac08ed8c5b14b2", 2); ("__wbg_shaderSource_32425cfe6e5a1e52", 4);
   ("__wbg_compileShader_94718a93495d565d", 2); ("__wbg_createProgram_9b7710a1f2701c2c", 1);
   ("__wbg_createTexture_16d2c8a3d7d4a75a", 1); ("__wbg_texParameteri_0d45be2c88d6bad8", 4);
   ("__wbg_getAttribLocation_7321cf2d67e036f6", 4); ("__wbg_drawElements_ea2abffa9d1dc736", 5);
   ("__wbg_enableVertexAttribArray_475e06c31777296d", 2);
   ("__wbg_vertexAttribPointer_75f6ff47f6c9f8cb", 7); ("__wbg_bufferData_98f6c413a8f0f139", 4);
   ("__wbg_texSubImage2D_810be76d09a4203c", 11); ("__wbg_viewport_df236eac68bc7467", 5);
   ("__wbg_texImage2D_9113488cf68be946", 11); ("__wbg_instanceof_Window_ed49b2db8df90359", 1);
   ("__wbg_requestAnimationFrame_43682f8e1c5e5348", 2); ("__wbg_document_ee35a3d3ae34ef6c", 1);
   ("__wbg_createComment_b783f49934771bb3", 3); ("__wbg_createElement_49f60fdcaae809c8", 3);
   ("__wbg_createTextNode_55029686c9591bf3", 3); ("__wbg_createElementNS_ee00621496b30ec2", 5);
   ("__wbg_body_f67922363a220026", 1); ("__wbg_new_with_event_init_dict_7721feeda3e1e6fa", 3);
   ("__wbg_code_a552f1e91eda69b7", 1); ("__wbg_reason_35fce8e55dd90f31", 2);
   ("__wbg_wasClean_a9c77a7100d8534f", 1); ("__wbg_set_innerText_2f1502f2d0780499", 3);
   ("__wbg_set_height_f21f985387070100", 2); ("__wbg_getContext_b28d2db7bd648242", 4);
   ("__wbg_width_5f66bde2e810fbde", 1); ("__wbg_height_38750dc6de41ee75", 1);
   ("__wbg_set_width_d60bc4f2f20c56a4", 2); ("__wbg_respond_bf6ab10399ca8722", 2);
   ("__wbg_view_6c32e7184b8606ad", 1); ("__wbg_new_074b505417ada2d9", 0);
   ("__wbg_set_once_56ba1b87a9884c15", 2); ("__wbg_new_64284bd487f9d239", 0);
   ("__wbg_set_db769d02949a271d", 5); ("__wbg_set_binaryType_5bbf62e9f705dc1a", 2);
   ("__wbg_new_057993d5b5e07835", 2); ("__wbg_close_1d08eaf57ed325c0", 1);
   ("__wbg_remove_85daa9b3dddf4e6d", 1); ("__wbg_host_fb29f8be35c2517d", 1);
   ("__wbg_instanceof_ShadowRoot_5285adde3587c73e", 1);
   ("__wbg_cancelBubble_d93ec09e9c46cd6f", 1); ("__wbg_composedPath_9154ab2547c668d5", 1);
   ("__wbg_target_521be630ab05b11e", 1); ("__wbg_instanceof_Element_9e662f49ab6c6beb", 1);
   ("__wbg_clientWidth_dcf89c40d88df4a3", 1); ("__wbg_clientHeight_6432ff0d61ccfe7d", 1);
   ("__wbg_setAttribute_cc8e4c8a2a008508", 5); ("__wbg_set_innerHTML_edd39677e3460291", 3);
   ("__wbg_firstElementChild_f1c371cb2a4d5101", 1); ("__wbg_remove_31c39325eee968fc", 1);
   ("__wbg_tagName_0cf6d7b647352f04", 2); ("__wbg_set_method_c3e20375f5ae7fac", 3);
   ("__wbg_set_headers_cfc5f4b2c1f20549", 2); ("__wbg_set_body_9a7e00afe3cfe244", 2);
   ("__wbg_dispatchEvent_dc8dcc7ddca11378", 2); ("__wbg_addEventListener_3acb0aad4483804c", 4);
   ("__wbg_removeEventListener_e63328781a5b9af9", 4);
   ("__wbg_addEventListener_c917b5aafbcf493f", 5); ("__wbg_log_6b5ca2e6124b2808", 1);
   ("__wbg_warn_f7ae1b2e66ccb930", 1); ("__wbg_warn_81ab00e6e16e886d", 3);
   ("__wbg_enqueue_2c63f2044f257c3e", 2); ("__wbg_close_a79afee31de55b36", 1);
   ("__wbg_set_reason_4e11e27980c30a7f", 3); ("__wbg_set_code_86d60a9542684e59", 2);
   ("__wbg_byobRequest_80e594e6da4e1af7", 1); ("__wbg_close_06dfa0a815b9d71f", 1);
   ("__wbg_set_search_1d369b0f3868e132", 3); ("__wbg_new_c2f21774701ddac7", 2);
   ("__wbg_search_143f09a35047e800", 2); ("__wbg_data_5330da50312d0bc1", 1);
   ("__wbg_value_e506a07878790ca0", 2);
   ("__wbg_instanceof_HtmlInputElement_c10b7260b4e0710a", 1);
   ("__wbg_value_d402dce7dcb16251", 2); ("__wbg_content_681ebf067b179491", 1);
   ("__wbg_new_with_str_a7c7f835549b152a", 2);
   ("__wbg_new_with_str_and_init_a61cbc6bdef21614", 3); ("__wbg_url_36c39f6580d05409", 2);
   ("__wbg_instanceof_Response_ee1d54d79ae41977", 1); ("__wbg_text_083b8727c990c8c0", 1);
   ("__wbg_cloneNode_eaf4ea08ebf633a5", 1); ("__wbg_parentNode_d44bd5ec58601e45", 1);
   ("__wbg_insertBefore_1468142836e61a51", 3); ("__wbg_set_nodeValue_d947eb0a476b80d7", 3);
   ("__wbg_cloneNode_b85e9102a9a31b29", 2); ("__wbg_run_bcde7ea43ea6ed7c", 3);
   ("__wbg_createTask_deeb88a68fc97c9d", 2); ("__wbg_queueMicrotask_5bb536982f78a56f", 1);
   ("__wbg_queueMicrotask_0aa0a927f78f5d98", 1); ("__wbg_byteLength_3417f266f4bf562a", 1);
   ("__wbg_byteOffset_f88547ca47c86358", 1); ("__wbg_prototypesetcall_bdcdcc5842e4d77d", 3);
   ("__wbg_set_cc56eefd2dd91957", 3);
   ("__wbg_new_with_byte_offset_and_length_aa261d9c9da49eb1", 3);
   ("__wbg_new_dd2b680c8bf6ae29", 1); ("__wbg_buffer_26d0910f3a5bc899", 1);
   ("__wbg_length_32ed9a279acd054c", 1); ("__wbg_instanceof_Error_8573fe0b0b480f46", 1);
   ("__wbg_instanceof_ArrayBuffer_c367199e2fa2aa04", 1); ("__wbg_get_9b94d73e6221f75c", 2);
   ("__wbg_new_72b49615380db768", 2); ("__wbg_name_446e25ef2cfdab5a", 1);
   ("__wbg_message_9ddc4b9a62a7c379", 1); ("__wbg_toString_029ac24421fd7a24", 1);
   ("__wbg_new_361308b2356cecd0", 0); ("__wbg_toString_964ff7fe6eca8362", 1);
   ("__wbg_static_accessor_GLOBAL_THIS_e628e89ab3b1c95f", 0);
   ("__wbg_static_accessor_SELF_a621d3dfbb60d0ce", 0);
   ("__wbg_static_accessor_GLOBAL_12837167ad935116", 0);
   ("__wbg_static_accessor_WINDOW_f8727f0cf888e0bd", 0); ("__wbg_new_b5d9e2fb389fef91", 2);
   ("__wbg_then_b9e7b3b5f1a9e1b5", 2); ("__wbg_then_0d9fe2c7b1857d32", 3);
   ("__wbg_resolve_002c4b7d9d8f6b64", 1); ("__wbg_new_no_args_1c7c842f08d00ebb", 2);
   ("__wbg_call_389efe28435a9388", 2); ("__wbg_call_4708e0c13bdc8e95", 3);
   ("__wbg_deleteProperty_8c8a05da881fea59", 2); ("__wbg_get_b3ed3ad4be2bc8ac", 2);
   ("__wbg_set_6cb8631f80447a67", 3); ("__wbg__wbg_cb_unref_d9b87ff7982e3b21", 1);
   ("__wbg___wbindgen_throw_be289d5034ed271b", 2);
   ("__wbg___wbindgen_is_null_ac34f5003991759a", 1);
   ("__wbg___wbindgen_is_falsy_e623e5b815413d00", 1);
   ("__wbg___wbindgen_is_string_cd444516edc5b180", 1);
   ("__wbg___wbindgen_string_get_72fb696202c56729", 2);
   ("__wbg___wbindgen_is_function_0095a73b8b156f76", 1);
   ("__wbg___wbindgen_debug_string_0bc8482c6e3508ae", 2);
   ("__wbg___wbindgen_is_undefined_9e4d92534c42d778", 1); ("__wbindgen_init_externref_table", 0);
   ("__wbindgen_cast_0000000000000001", 2); ("__wbindgen_cast_0000000000000002", 2);
   ("__wbindgen_cast_0000000000000003", 2); ("__wbindgen_cast_0000000000000004", 2);
   ("__wbindgen_cast_0000000000000005", 2); ("__wbindgen_cast_0000000000000006", 2);
   ("__wbindgen_cast_0000000000000007", 2); ("__wbindgen_cast_0000000000000008", 2);
   ("__wbindgen_cast_0000000000000009", 2)].

(** Its exports that the adapters call. *)
Definition wlandebug_shims : list (string * nat) :=
  [("wasm_bindgen__convert__closures_____invoke__h65ce2db5fdf0eedf", 2);
   ("wasm_bindgen__convert__closures_____invoke__h71c1618cd439baed", 2);
   ("wasm_bindgen__convert__closures_____invoke__h705442ba5fd6af6f", 3);
   ("wasm_bindgen__convert__closures_____invoke__h6d25d05bc9ceff60", 3);
   ("wasm_bindgen__convert__closures_____invoke__hca206b6078dfbc56", 3);
   ("wasm_bindgen__convert__closures_____invoke__h4b2ba69449b74e62", 3);
   ("wasm_bindgen__convert__closures_____invoke__h1a6d232d156b5320", 3);
   ("wasm_bindgen__convert__closures_____invoke__h290b7a63b753574e", 4)].

(** The imports of src/examples/rattlegram/worklet/wasm-decoder_bg.wasm. *)
Definition decoder_bg : list (string * nat) :=
  [("__wbindgen_string_new", 2); ("__wbg_new_abda76e883ba8a5f", 0);
   ("__wbg_stack_658279fe44541cf6", 2); ("__wbg_error_f851667af71bcfc6", 2);
   ("__wbg_debug_81bf1b6b83cc1a06", 1); ("__wbg_error_1f4e3e298a7c97f6", 1);
   ("__wbg_info_24b7c0f9d7eb6623", 1); ("__wbg_log_9dfb3879776dd797", 1);
   ("__wbg_warn_0e0204547af47087", 1); ("__wbindgen_throw", 2);
   ("__wbindgen_init_externref_table", 0)].

(** ** Linking *)

Section linking.
Context {S H : Type} `{!Host S H, !Exports S H, !Allocator S} {TC : TextCodec}.

(** The host's own functions, as those of the console, take any number of arguments. *)
Definition fits (a : option nat) (n : nat) : bool :=
  match a with Some k => k =? n | None => true end.

(** The object [t] has every function that the binary [bg] imports, with the parameters
    that the binary passes, and no name of [t] occurs twice. *)
Definition linked (t : list (string * import (S := S) (H := H))) (bg : list (string * nat)) : Prop :=
  NoDup (map fst t) ∧
  ∀ name n, (name, n) ∈ bg → ∃ i, (name, i) ∈ t ∧ fits (import_arity i) n = true.

(** The names of a table, with the arities. *)
Definition signature (t : list (string * import (S := S) (H := H))) : list (string * option nat) :=
  map (λ e, (e.1, import_arity e.2)) t.

(** The check, as a program. *)
Definition check (sig : list (string * option nat)) (bg : list (string * nat)) : bool :=
  bool_decide (NoDup (map fst sig)) &&
  forallb (λ e, existsb (λ e', String.eqb e.1 e'.1 && fits e'.2 e.2) sig) bg.

Lemma check_linked t bg : check (signature t) bg = true → linked t bg.
Proof.
  unfold check, signature. intros [Hd%bool_decide_eq_true_1 Hf]%andb_prop. split.
  - by rewrite map_map in Hd.
  - intros name n Hin. rewrite forallb_forall in Hf.
    specialize (Hf (name, n) (proj1 (list_elem_of_In _ _) Hin)).
    apply existsb_exists in Hf as ([name' a] & Hin' & [He Hfit]%andb_prop).
    apply in_map_iff in Hin' as ([x i] & [= <- <-] & Hi). simpl in *.
    apply String.eqb_eq in He as <-. exists i. split; [by apply list_elem_of_In|done].
Qed.

Context (hd : bool) (stack : nat).

Lemma loopback_linked : linked (Loopback.imports hd stack) loopback_bg.
Proof. apply check_linked. vm_compute. reflexivity. Qed.
Lemma spectrum_linked : linked (Spectrum.imports hd stack) spectrum_bg.
Proof. apply check_linked. vm_compute. reflexivity. Qed.
Lemma wlanswap_linked : linked (WlanSwap.imports hd stack) wlanswap_bg.
Proof. apply check_linked. vm_compute. reflexivity. Qed.
Lemma prophecy_linked : linked (Prophecy.imports hd stack) prophecy_bg.
Proof. apply check_linked. vm_compute. reflexivity. Qed.
Lemma wlan_linked : linked (Wlan.imports hd stack) wlan_bg.
Proof. apply check_linked. vm_compute. reflexivity. Qed.
Lemma wlandebug_linked : linked (WlanDebug.imports hd stack) wlandebug_bg.
Proof. apply check_linked. vm_compute. reflexivity. Qed.
End linking.

(** The adapters of each module. *)
Definition loopback_adapters : list adapter :=
  [Loopback.__wbg_adapter_30;
   Loopback.__wbg_adapter_33].
Definition spectrum_adapters : list adapter :=
  [Spectrum.__wbg_adapter_30;
   Spectrum.__wbg_adapter_33;
   Spectrum.__wbg_adapter_36;
   Spectrum.__wbg_adapter_41;
   Spectrum.__wbg_adapter_46;
   Spectrum.__wbg_adapter_289].
Definition wlanswap_adapters : list adapter :=
  [WlanSwap.__wbg_adapter_6;
   WlanSwap.__wbg_adapter_11;
   WlanSwap.__wbg_adapter_16;
   WlanSwap.__wbg_adapter_19;
   WlanSwap.__wbg_adapter_22;
   WlanSwap.__wbg_adapter_247].
Definition prophecy_adapters : list adapter :=
  [Prophecy.__wbg_adapter_28;
   Prophecy.__wbg_adapter_31;
   Prophecy.__wbg_adapter_156].
Definition wlan_adapters : list adapter :=
  [Wlan.wasm_bindgen__convert__closures_____invoke__h65ce2db5fdf0eedf;
   Wlan.wasm_bindgen__convert__closures_____invoke__h71c1618cd439baed;
   Wlan.wasm_bindgen__convert__closures_____invoke__h705442ba5fd6af6f;
   Wlan.wasm_bindgen__convert__closures_____invoke__h6d25d05bc9ceff60;
   Wlan.wasm_bindgen__convert__closures_____invoke__hca206b6078dfbc56;
   Wlan.wasm_bindgen__convert__closures_____invoke__h4b2ba69449b74e62;
   Wlan.wasm_bindgen__convert__closures_____invoke__h1a6d232d156b5320;
   Wlan.wasm_bindgen__convert__closures_____invoke__h290b7a63b753574e].
Definition wlandebug_adapters : list adapter :=
  [WlanDebug.wasm_bindgen__convert__closures_____invoke__h65ce2db5fdf0eedf;
   WlanDebug.wasm_bindgen__convert__closures_____invoke__h71c1618cd439baed;
   WlanDebug.wasm_bindgen__convert__closures_____invoke__h705442ba5fd6af6f;
   WlanDebug.wasm_bindgen__convert__closures_____invoke__h6d25d05bc9ceff60;
   WlanDebug.wasm_bindgen__convert__closures_____invoke__hca206b6078dfbc56;
   WlanDebug.wasm_bindgen__convert__closures_____invoke__h4b2ba69449b74e62;
   WlanDebug.wasm_bindgen__convert__closures_____invoke__h1a6d232d156b5320;
   WlanDebug.wasm_bindgen__convert__closures_____invoke__h290b7a63b753574e].

(** An adapter calls an export of the binary, with as many arguments as it takes. *)
Definition callable (shims : list (string * nat)) (f : adapter) : Prop :=
  (ad_export f, ad_params f) ∈ shims.

Lemma callable_all ads shims :
  forallb (λ f, existsb (λ e, String.eqb (ad_export f) e.1 && (ad_params f =? e.2)) shims) ads = true →
  Forall (callable shims) ads.
Proof.
  intros Hf. rewrite forallb_forall in Hf. apply list.Forall_forall. intros f Hin.
  specialize (Hf f (proj1 (list_elem_of_In _ _) Hin)).
  apply existsb_exists in Hf as ([n k] & Hin' & [Hn Hk]%andb_prop). simpl in *.
  unfold callable. apply String.eqb_eq in Hn as ->. apply Nat.eqb_eq in Hk as ->.
  by apply list_elem_of_In.
Qed.

(** ** The worklet's module *)

Lemma console_import_arity {S H} `{!Host S H} f (r r' : realm S H) i :
  console_import f r = Some (Ok i, r') → import_arity i = None.
Proof.
  unfold console_import. intros (c & r1 & _ & H1)%M_bind_inv.
  apply M_bind_inv in H1 as (g & r2 & _ & H2). by injection H2 as <- _.
Qed.

Lemma decoder_linked {S H} `{!Host S H, !Allocator S} {TC : TextCodec} (r r' : realm S H) t :
  get_imports r = Some (Ok t, r') → linked t decoder_bg.
Proof.
  unfold get_imports. intros (debug & r1 & H1 & Hr)%M_bind_inv.
  apply M_bind_inv in Hr as (error & r2 & H2 & Hr).
  apply M_bind_inv in Hr as (info & r3 & H3 & Hr).
  apply M_bind_inv in Hr as (log & r4 & H4 & Hr).
  apply M_bind_inv in Hr as (warn & r5 & H5 & Hr). injection Hr as <- _.
  apply check_linked. unfold signature. cbn [map fst snd].
  rewrite (console_import_arity _ _ _ _ H1), (console_import_arity _ _ _ _ H2),
    (console_import_arity _ _ _ _ H3), (console_import_arity _ _ _ _ H4),
    (console_import_arity _ _ _ _ H5).
  vm_compute. reflexivity.
Qed.

(** ** Properties *)

(** C15: each glue module fits the wasm binary beside it, seven times: the import object has
    every function that the binary imports, under a name that occurs once, and with as many
    parameters as the binary passes arguments; and the adapters call exports that the
    binary has, with as many arguments as these take.  (Three of the objects have one
    function more than their binaries need.) *)
Theorem imports_linked {St H} `{!Host St H, !Exports St H, !Allocator St} {TC : TextCodec}
    (hd : bool) (stack : nat) :
  Forall2 linked (front_ends (S := St) (H := H) hd stack)
    [loopback_bg; spectrum_bg; wlanswap_bg; prophecy_bg; wlan_bg; wlandebug_bg] ∧
  (∀ (r r' : realm St H) t, get_imports r = Some (Ok t, r') → linked t decoder_bg) ∧
  Forall2 (λ ads shims, Forall (callable shims) ads)
    [loopback_adapters; spectrum_adapters; wlanswap_adapters; prophecy_adapters; wlan_adapters;
     wlandebug_adapters]
    [loopback_shims; spectrum_shims; wlanswap_shims; prophecy_shims; wlan_shims;
     wlandebug_shims].
Proof.
  split_and!.
  - repeat apply Forall2_cons; auto using loopback_linked, spectrum_linked, wlanswap_linked,
      prophecy_linked, wlan_linked, wlandebug_linked.
  - intros r r' t. apply decoder_linked.
  - repeat apply Forall2_cons; try done; apply callable_all; vm_compute; reflexivity.
Qed.
