(* ===== verification/Worklet.v ===== *)
(** * The audio worklet of the rattlegram example

    src/examples/rattlegram/assets: decoder-node.js runs in the page, decoder-processor.js
    in the audio thread; they talk through the two directions of a MessagePort, which
    keeps the order of messages.  setup-decoder.js asks for the microphone and wires the
    nodes up.  What the processor calls is the glue of [Decoder]; the section [system] puts
    the two together. *)

From Stdlib Require Import String.
From S2P Require Import Prelude TextCodec Memory Closure Glue Decoder.

(** ** Messages *)

Inductive to_processor : Type :=
  | SendWasmModule (wasmBytes : nat)
  | InitDecoder (sampleRate : Z).

(** What the processor posts: the notification, or a result of [decoder.process]. *)
Inductive to_node : Type :=
  | WasmModuleLoaded
  | Result (s : jsstring).

(** ** State *)

Record worklet : Type := Worklet {
  (* decoder-node.js *)
  sampleRate : Z;                    (* [this.context.sampleRate] *)
  messages : list jsstring;          (* given to [messageSetter.message], oldest first *)
  (* the port *)
  inbox : list to_processor;         (* on its way to the processor *)
  outbox : list to_node;             (* on its way to the node *)
  (* decoder-processor.js and the glue it imports *)
  compiling : list nat;              (* calls of [init] under way *)
  wasm_set : bool;                   (* [wasm !== undefined] *)
  decoder : bool;                    (* [this.decoder !== null] *)
  failed : bool;                     (* [WasmDecoder.new()] threw: [wasm] is undefined *)
  stopped : bool                     (* [process] threw: it is not called again *)
}.

Definition start (rate : Z) : worklet := Worklet rate [] [] [] [] false false false false.

Definition set_inbox q w := Worklet (sampleRate w) (messages w) q (outbox w) (compiling w)
  (wasm_set w) (decoder w) (failed w) (stopped w).
Definition set_outbox q w := Worklet (sampleRate w) (messages w) (inbox w) q (compiling w)
  (wasm_set w) (decoder w) (failed w) (stopped w).
Definition set_messages m w := Worklet (sampleRate w) m (inbox w) (outbox w) (compiling w)
  (wasm_set w) (decoder w) (failed w) (stopped w).
Definition set_compiling c w := Worklet (sampleRate w) (messages w) (inbox w) (outbox w) c
  (wasm_set w) (decoder w) (failed w) (stopped w).
Definition set_wasm w := Worklet (sampleRate w) (messages w) (inbox w) (outbox w) (compiling w)
  true (decoder w) (failed w) (stopped w).
Definition set_decoder w := Worklet (sampleRate w) (messages w) (inbox w) (outbox w)
  (compiling w) (wasm_set w) true (failed w) (stopped w).
Definition set_failed w := Worklet (sampleRate w) (messages w) (inbox w) (outbox w)
  (compiling w) (wasm_set w) (decoder w) true (stopped w).
Definition set_stopped w := Worklet (sampleRate w) (messages w) (inbox w) (outbox w)
  (compiling w) (wasm_set w) (decoder w) (failed w) true.

(** ** Handlers *)

(** [DecoderNode.init(wasmBytes, messageSetter)] *)
Definition node_init (wasmBytes : nat) (w : worklet) : worklet :=
  set_inbox (inbox w ++ [SendWasmModule wasmBytes]) w.

(** [DecoderNode.onmessage]; the [type] of a string is [undefined]. *)
Definition node_onmessage (m : to_node) (w : worklet) : worklet :=
  match m with
  | WasmModuleLoaded => set_inbox (inbox w ++ [InitDecoder (sampleRate w)]) w
  | Result s => set_messages (messages w ++ [s]) w
  end.

(** [DecoderProcessor.onmessage]; the promise of [init] settles later. *)
Definition processor_onmessage (m : to_processor) (w : worklet) : worklet :=
  match m with
  | SendWasmModule b => set_compiling (compiling w ++ [b]) w
  | InitDecoder _ => if wasm_set w then set_decoder w else set_failed w
  end.

(** [.then(() => this.port.postMessage({ type: 'wasm-module-loaded' }))] *)
Definition init_then (w : worklet) : worklet :=
  set_outbox (outbox w ++ [WasmModuleLoaded]) (set_wasm w).

(** The audio of the inputs: for each input its channels, and for each of these the octets of
    its samples.  An input with nothing connected to it has no channels. *)
Abbreviation audio := (list (list (list Z))).

(** [inputs\[0\]\[0\]]: [undefined] ([None]) without a channel, a TypeError without an input. *)
Definition input_samples (inputs : audio) : outcome val (option (list Z)) :=
  match inputs with
  | inputChannels :: _ => Ok (head inputChannels)
  | [] => Throw (Native (JsErr TypeError))
  end.

(** [process(inputs, outputs)], given how a call of [decoder.process(inputSamples)] ends: it
    always asks to be called again, unless something throws. *)
Definition process (inputs : audio) (call : option (list Z) → outcome val jsstring) (w : worklet) :
    outcome val bool * worklet :=
  if decoder w then
    match input_samples inputs with
    | Throw e => (Throw e, w)
    | Ok inputSamples =>
        match call inputSamples with
        | Ok [] => (Ok true, w)
        | Ok result => (Ok true, set_outbox (outbox w ++ [Result result]) w)
        | Throw e => (Throw e, w)
        end
    end
  else (Ok true, w).

(** The audio thread's side of it: a processor whose [process] threw gets no more calls
    (and [onprocessorerror] only logs). *)
Definition quantum (inputs : audio) (call : option (list Z) → outcome val jsstring) (w : worklet) :
    worklet :=
  if stopped w then w
  else match process inputs call w with
       | (Ok _, w') => w'
       | (Throw _, w') => set_stopped w'
       end.

Inductive event : Type :=
  | Init (wasmBytes : nat)        (* the page calls [node.init] *)
  | AtProcessor | AtNode          (* a message arrives *)
  | Compiled (i : nat)            (* the [i]th [init] under way succeeds *)
  | NotCompiled (i : nat)         (* it fails: an unhandled rejection *)
  | Quantum (inputs : audio) (call : option (list Z) → outcome val jsstring).
                                  (* the audio thread calls [process] *)

Definition act (x : event) (w : worklet) : option worklet :=
  match x with
  | Init b => Some (node_init b w)
  | AtProcessor => match inbox w with
                   | m :: q => Some (processor_onmessage m (set_inbox q w))
                   | [] => None
                   end
  | AtNode => match outbox w with
              | m :: q => Some (node_onmessage m (set_outbox q w))
              | [] => None
              end
  | Compiled i => if bool_decide (i < length (compiling w))%nat
                  then Some (init_then (set_compiling (list_delete i (compiling w)) w))
                  else None
  | NotCompiled i => if bool_decide (i < length (compiling w))%nat
                     then Some (set_compiling (list_delete i (compiling w)) w)
                     else None
  | Quantum inputs call => Some (quantum inputs call w)
  end.

Fixpoint execute (xs : list event) (w : worklet) : option worklet :=
  match xs with [] => Some w | x :: xs => act x w ≫= execute xs end.

(** ** The processor and the glue it calls *)
Section system.
Context {S H : Type} `{!DecoderExports S H, !Allocator S} {TC : TextCodec}.

(** [this.decoder.process(inputSamples)] with a decoder at [this], where it ends with a string
    or throws. *)
Definition decode (this : Z) (inputSamples : option (list Z)) (r : realm S H) :
    option (outcome val jsstring * realm S H) :=
  match Decoder.process this inputSamples r with
  | Some (Ok (Str s), r') => Some (Ok s, r')
  | Some (Throw e, r') => Some (Throw e, r')
  | _ => None
  end.

(** A call of the processor by the audio thread, with the glue's state. *)
Definition audio_quantum (this : Z) (inputs : audio) (w : worklet) (r : realm S H) :
    option (worklet * realm S H) :=
  match input_samples inputs with
  | Ok inputSamples =>
      if decoder w && negb (stopped w)
      then '(o, r') ← decode this inputSamples r; Some (quantum inputs (λ _, o) w, r')
      else Some (w, r)
  | Throw _ => Some (quantum inputs (λ _, Ok []) w, r)
  end.
End system.

(** ** setup-decoder.js *)

Record err : Type := Err { name : string; message : string }.
Definition Error (message : string) : err := Err "Error" message.

(** What [getUserMedia] is asked for: a wish ([ideal]) or a condition ([exact]). *)
Inductive constraint (A : Type) : Type := Ideal (a : A) | Exact (a : A).
Arguments Ideal {A} a.
Arguments Exact {A} a.
Record constraints : Type := Constraints {
  echoCancellation : constraint bool;
  noiseSuppression : constraint bool;
  wanted_rate : constraint Z;
  video : bool
}.

(** In assets/setup-decoder.js, and in the copy of it the worklet is deployed with. *)
Definition asset_constraints : constraints :=
  Constraints (Ideal false) (Ideal false) (Exact 48000) false.
Definition deployed_constraints : constraints :=
  Constraints (Exact false) (Exact false) (Exact 48000) false.

(** What the browser answers to each step, in the order of the code. *)
Record platform : Type := Platform {
  mediaDevices : bool;
  getUserMedia : constraints → outcome err unit;
  newAudioContext : outcome err unit;
  createMediaStreamSource : outcome err unit;
  fetchModule : outcome err nat;      (* fetch and [arrayBuffer] of wasm-decoder_bg.wasm *)
  addModule : outcome err unit;       (* [audioWorklet.addModule("decoder-processor.js")] *)
  newDecoderNode : outcome err unit;
  nodeInit : outcome err unit;
  connectNodes : outcome err unit
}.


Section setup.
Context (wanted : constraints) (p : platform).

Definition getWebAudioMediaStream : run err unit :=
  if negb (mediaDevices p)
  then raise (Error "This browser does not support web audio or it is not enabled.")
  else run_catch
    (λ e,
      if String.eqb (name e) "NotAllowedError" then
        raise (Error ("A recording device was found but has been disallowed for this " ++
          "application. Enable the device in the browser settings."))
      else if String.eqb (name e) "NotFoundError" then
        raise (Error ("No recording device was found. Please attach a microphone and " ++
          "click Retry."))
      else raise e)
    (Some (getUserMedia p wanted)).

(** The inner [try] around [addModule]. *)
Definition load_worklet : run err unit :=
  run_catch
    (λ e, raise (Error ("Failed to load audio analyzer worklet at url: " ++
      "decoder-processor.js" ++ ". Further info: " ++ message e)))
    (Some (addModule p)).

(** [setupAudio]; the result stands for [{ context, node }]. *)
Definition setupAudio : run err unit :=
  mediaStream <~ getWebAudioMediaStream;
  context <~ Some (newAudioContext p);
  audioSource <~ Some (createMediaStreamSource p);
  run_catch
    (λ e, raise (Error ("Failed to load audio analyzer WASM module. Further info: " ++
      message e)))
    (wasmBytes <~ Some (fetchModule p);
     _u <~ load_worklet;
     node <~ Some (newDecoderNode p);
     _u <~ Some (nodeInit p);
     Some (connectNodes p)).
End setup.

(** The copy of setup-decoder.js that the worklet is deployed with. *)
Definition deployed_getWebAudioMediaStream : platform → run err unit :=
  getWebAudioMediaStream deployed_constraints.
Definition deployed_setupAudio : platform → run err unit := setupAudio deployed_constraints.

(** ** Facts about the protocol *)

Fixpoint results (q : list to_node) : list jsstring :=
  match q with
  | [] => []
  | Result s :: q => s :: results q
  | WasmModuleLoaded :: q => results q
  end.

Lemma results_app q1 q2 : results (q1 ++ q2) = results q1 ++ results q2.
Proof. induction q1 as [|[] q1 IH]; simpl; by rewrite ?IH. Qed.

(** The results the decoder produced during a run, in order; an empty one is not posted. *)
Definition produced1 (x : event) (w : worklet) : list jsstring :=
  match x with
  | Quantum (channels :: _) call =>
      match call (head channels) with
      | Ok (c :: s) => if negb (stopped w) && decoder w then [c :: s] else []
      | _ => []
      end
  | _ => []
  end.
Fixpoint produced (xs : list event) (w : worklet) : list jsstring :=
  match xs with
  | [] => []
  | x :: xs => produced1 x w ++ match act x w with Some w' => produced xs w' | None => [] end
  end.

(** A decoder, or a message that leads to one, exists only after the module is there. *)
Record safe (w : worklet) : Prop := Safe {
  safe_inbox rate : InitDecoder rate ∈ inbox w → wasm_set w = true;
  safe_outbox : WasmModuleLoaded ∈ outbox w → wasm_set w = true;
  safe_decoder : decoder w = true → wasm_set w = true;
  safe_failed : failed w = false
}.

Lemma safe_start rate : safe (start rate).
Proof. split; simpl; try done; by intros *; intros ?%not_elem_of_nil. Qed.

Lemma safe_act x w w' : safe w → act x w = Some w' → safe w'.
Proof.
  intros Hs. pose proof Hs as [Hi Ho Hd Hf]. destruct x as [b| | |i|i|inputs call]; simpl.
  - intros [= <-]. split; simpl; auto. intros rate [?|Hin]%elem_of_app; [eauto|].
    by apply list_elem_of_singleton in Hin.
  - destruct (inbox w) as [|[b|rate] q] eqn:E; [done|..]; intros [= <-].
    + split; simpl; auto. intros rate ?. apply (Hi rate). by right.
    + assert (Hw : wasm_set w = true) by (apply (Hi rate); by left).
      simpl. rewrite Hw. by split; simpl.
  - destruct (outbox w) as [|[|s] q] eqn:E; [done|..]; intros [= <-]; split; simpl; auto.
    + intros rate [?|Hin]%elem_of_app; [eauto|]. apply Ho. by left.
    + intros ?. apply Ho. by right.
    + intros ?. apply Ho. by right.
  - case_bool_decide; [|done]. intros [= <-]. by split.
  - case_bool_decide; [|done]. intros [= <-]. by split.
  - unfold quantum, process. intros [= <-]. destruct (stopped w); [done|].
    destruct (decoder w); [|done].
    destruct inputs as [|ch inputs]; simpl; [split; simpl; eauto|].
    destruct (call (head ch)) as [[|c s]|e]; [done|split; simpl; auto|split; simpl; eauto].
Qed.

Lemma messages_act x w w' :
  act x w = Some w' →
  messages w' ++ results (outbox w') = (messages w ++ results (outbox w)) ++ produced1 x w.
Proof.
  destruct x as [b| | |i|i|inputs call]; simpl; rewrite ?app_nil_r.
  - by intros [= <-].
  - destruct (inbox w) as [|[b|rate] q]; [done|..]; intros [= <-]; [done|].
    simpl. by destruct (wasm_set w).
  - destruct (outbox w) as [|[|s] q] eqn:E; [done|..]; intros [= <-]; simpl; [done|].
    by rewrite <- (assoc_L (++)).
  - case_bool_decide; [|done]. intros [= <-]. simpl. rewrite results_app. simpl.
    by rewrite app_nil_r.
  - case_bool_decide; [|done]. by intros [= <-].
  - unfold quantum, process. intros [= <-].
    destruct inputs as [|ch inputs]; simpl.
    { by destruct (stopped w), (decoder w); simpl; rewrite ?app_nil_r. }
    destruct (call (head ch)) as [[|c s]|e]; destruct (stopped w), (decoder w); simpl;
      rewrite ?app_nil_r; try done.
    rewrite results_app. simpl. by rewrite (assoc_L (++)).
Qed.

Lemma execute_safe xs w w' :
  safe w → execute xs w = Some w' →
  safe w' ∧ messages w' ++ results (outbox w') = (messages w ++ results (outbox w)) ++ produced xs w.
Proof.
  revert w. induction xs as [|x xs IH]; intros w Hs He; simpl in *.
  { injection He as <-. by rewrite app_nil_r. }
  destruct (act x w) as [w1|] eqn:E; [|done]. simpl in He.
  destruct (IH w1 (safe_act x w w1 Hs E) He) as [? Hm]. split; [done|].
  by rewrite Hm, (messages_act x w w1 E), <- (assoc_L (++)).
Qed.

(** A stopped processor stays so, and what the page gets is what was on its way. *)
Lemma execute_stopped xs w w' :
  stopped w = true → execute xs w = Some w' →
  stopped w' = true ∧ messages w' ++ results (outbox w') = messages w ++ results (outbox w).
Proof.
  revert w. induction xs as [|x xs IH]; intros w Hs He; simpl in He; [by simplify_eq|].
  destruct (act x w) as [w1|] eqn:E; [|done]. simpl in He.
  assert (Hs1 : stopped w1 = true).
  { destruct x as [b| | |i|i|inputs call]; simpl in E.
    - by injection E as <-.
    - destruct (inbox w) as [|[b|rate] q]; [done|..]; injection E as <-; simpl; [done|].
      by destruct (wasm_set w).
    - destruct (outbox w) as [|[|s] q]; [done|..]; by injection E as <-.
    - case_bool_decide; [|done]. by injection E as <-.
    - case_bool_decide; [|done]. by injection E as <-.
    - unfold quantum in E. rewrite Hs in E. by injection E as <-. }
  destruct (IH w1 Hs1 He) as [? Hm]. split; [done|].
  rewrite Hm, (messages_act x w w1 E). unfold produced1. rewrite Hs.
  destruct x as [| | | | |[|ch inputs] call]; rewrite ?app_nil_r; try done.
  destruct (call (head ch)) as [[]|]; by rewrite ?app_nil_r.
Qed.

(** Delivering all that is under way. *)
Lemma deliver_outbox w :
  ∃ w', execute (replicate (length (outbox w)) AtNode) w = Some w' ∧
    wasm_set w' = wasm_set w ∧
    (WasmModuleLoaded ∈ outbox w → InitDecoder (sampleRate w) ∈ inbox w') ∧
    (∀ m, m ∈ inbox w → m ∈ inbox w').
Proof.
  remember (outbox w) as q eqn:Eq. revert w Eq.
  induction q as [|m q IH]; intros w Eq.
  { exists w. split_and!; [done..| |done]. by intros ?%not_elem_of_nil. }
  cbn [length replicate execute act]. rewrite <- Eq. cbn [mbind option_bind].
  destruct (IH (node_onmessage m (set_outbox q w))) as (w' & Hw & Hs & Hi & Hk).
  { by destruct m. }
  exists w'. split; [done|]. split; [by rewrite Hs; destruct m|]. split.
  - intros [<-|?]%elem_of_cons.
    + apply Hk. simpl. apply elem_of_app. right. by apply list_elem_of_singleton.
    + destruct m; simpl in Hi; auto.
  - intros m' ?. apply Hk. destruct m; simpl; [apply elem_of_app; by left|done].
Qed.

Lemma deliver_inbox w rate :
  wasm_set w = true → InitDecoder rate ∈ inbox w ∨ decoder w = true →
  ∃ w', execute (replicate (length (inbox w)) AtProcessor) w = Some w' ∧ decoder w' = true.
Proof.
  remember (inbox w) as q eqn:Eq. revert w Eq.
  induction q as [|m q IH]; intros w Eq Hs Hd.
  { exists w. split; [done|]. destruct Hd as [Hd|]; [by apply not_elem_of_nil in Hd|done]. }
  cbn [length replicate execute act]. rewrite <- Eq. cbn [mbind option_bind].
  apply IH.
  - destruct m; simpl; [done|]. by rewrite Hs.
  - destruct m; simpl; [done|]. by rewrite Hs.
  - destruct m as [b|rate']; simpl; [|rewrite Hs; by right].
    destruct Hd as [[?|?]%elem_of_cons|?]; [done|by left|by right].
Qed.

(** ** Properties *)

(** C20: for any interleaving of the two threads, [WasmDecoder.new()] is never called before
    the wasm module is there, and what the page's message setter has got together with the
    results on their way is exactly what the decoder produced, in order: nothing is lost,
    doubled, reordered or invented by the protocol's own messages. *)
Theorem worklet_protocol (rate : Z) (xs : list event) (w : worklet) :
  execute xs (start rate) = Some w →
  failed w = false ∧ (decoder w = true → wasm_set w = true) ∧
  messages w ++ results (outbox w) = produced xs (start rate).
Proof.
  intros He. destruct (execute_safe xs _ _ (safe_start rate) He) as [[_ _ Hd Hf] Hm].
  by split_and!.
Qed.

Lemma worklet_protocol_witness :
  let q s := Quantum [[[0; 0; 0; 0]]] (λ _, Ok (lit s)) in
  let xs := [q "x"; Init 5; AtProcessor; Compiled 0; AtNode; AtProcessor; q "hello"; q "";
             AtNode; q "world"; Quantum [[]] (λ _, Throw (Native (JsErr TypeError)));
             q "late"]%string in
  let w := Worklet 48000 [lit "hello"] [] [Result (lit "world")] [] true true false true in
  execute xs (start 48000) = Some w ∧
  (failed w = false ∧ (decoder w = true → wasm_set w = true) ∧
   messages w ++ results (outbox w) = produced xs (start 48000)) ∧
  produced xs (start 48000) = [lit "hello"; lit "world"].
Proof.
  cbv zeta. split; [by vm_compute|]. split; [|by vm_compute].
  apply worklet_protocol. by vm_compute.
Defined.

(** C39: the handshake completes: in any reachable state in which the notification of the
    loaded module is on its way, delivering the messages under way, first those to the
    node and then those to the processor, leaves the processor with a decoder. *)
Theorem worklet_gets_decoder (rate : Z) (xs : list event) (w : worklet) :
  execute xs (start rate) = Some w → WasmModuleLoaded ∈ outbox w →
  ∃ w1 w2, execute (replicate (length (outbox w)) AtNode) w = Some w1 ∧
    execute (replicate (length (inbox w1)) AtProcessor) w1 = Some w2 ∧ decoder w2 = true.
Proof.
  intros He Hin. destruct (execute_safe xs _ _ (safe_start rate) He) as [Hs _].
  destruct (deliver_outbox w) as (w1 & H1 & Hw1 & Hi & _).
  destruct (deliver_inbox w1 (sampleRate w)) as (w2 & H2 & Hd).
  - rewrite Hw1. by apply (safe_outbox w Hs).
  - left. by apply Hi.
  - by exists w1, w2.
Qed.

Lemma worklet_gets_decoder_witness :
  ∃ w w1 w2, execute [Init 5; AtProcessor; Compiled 0] (start 48000) = Some w ∧
    execute (replicate (length (outbox w)) AtNode) w = Some w1 ∧
    execute (replicate (length (inbox w1)) AtProcessor) w1 = Some w2 ∧ decoder w2 = true.
Proof.
  eexists. destruct (worklet_gets_decoder 48000 [Init 5; AtProcessor; Compiled 0] 
    (Worklet 48000 [] [] [WasmModuleLoaded] [] true false false false)) as (w1 & w2 & ? & ? & ?);
    [reflexivity|by left|].
  exists w1, w2. split; [reflexivity|]. done.
Defined.

(** An audio quantum in which nothing is connected to the decoder's input ends the
    decoder for good: [inputs\[0\]] has no channel, the glue of the decoder throws a
    TypeError on the missing samples -- after it has given wasm's stack pointer back -- the
    processor is not called again, and whatever happens later the page's message setter gets
    only what was already on its way. *)
Theorem silent_input_stops_decoder {S H} `{!DecoderExports S H, !Allocator S}
    {TC : TextCodec} (sp : realm S H → Z) `{!StackLaws S H sp} (this : Z) (rest : audio)
    (w : worklet) (r : realm S H) :
  decoder w = true → stopped w = false →
  ∃ r', audio_quantum this ([] :: rest) w r = Some (set_stopped w, r') ∧ sp r' = sp r ∧
    ∀ xs w', execute xs (set_stopped w) = Some w' →
      stopped w' = true ∧ messages w' ++ results (outbox w') = messages w ++ results (outbox w).
Proof.
  intros Hd Hs. destruct (process_no_samples sp this r) as (r' & Hr & Hsp).
  exists r'. split; [|split; [done|]].
  - unfold audio_quantum, decode. simpl. rewrite Hd, Hs. simpl. rewrite Hr. simpl.
    unfold quantum, process. by rewrite Hs, Hd.
  - intros xs w' He. by apply (execute_stopped xs (set_stopped w)).
Qed.

Lemma silent_input_stops_decoder_witness :
  let w := Worklet 48000 [lit "hello"] [] [Result (lit "world")] [] true true false false in
  ∃ r', audio_quantum (TC := polyfill_codec) 64 [[]] w DecoderToy.realm1 = Some (set_stopped w, r') ∧
    host_of r' = host_of DecoderToy.realm1 ∧
    ∀ xs w', execute xs (set_stopped w) = Some w' →
      stopped w' = true ∧ messages w' ++ results (outbox w') = [lit "hello"; lit "world"].
Proof. intros w. by apply (silent_input_stops_decoder host_of 64 [] w DecoderToy.realm1). Defined.

#[local] Ltac failed := right; eexists; split; [reflexivity|right; split; [reflexivity|]].

(** [setupAudio] fails exactly if some step fails, and the error says which: without
    media devices or with a denied or missing microphone the texts for these cases; any
    other error of [getUserMedia] and those of the two constructors unchanged; everything
    later as a failure to load the WASM module, with the worklet's own text inside if
    [addModule] failed. *)
Theorem setup_errors (wanted : constraints) (p : platform) :
  let wasm m := ("Failed to load audio analyzer WASM module. Further info: " ++ m)%string in
  setupAudio wanted p = ret () ∧ getWebAudioMediaStream wanted p = ret () ∧ addModule p = Ok () ∨
  ∃ e, setupAudio wanted p = raise e ∧
    (getWebAudioMediaStream wanted p = raise e ∧
       (mediaDevices p = false ∧ name e = "Error" ∨
        ∃ e0, getUserMedia p wanted = Throw e0 ∧
          (if bool_decide (name e0 = "NotAllowedError" ∨ name e0 = "NotFoundError")
           then name e = "Error" else e = e0)) ∨
     getWebAudioMediaStream wanted p = ret () ∧
       (newAudioContext p = Throw e ∨
        newAudioContext p = Ok () ∧ createMediaStreamSource p = Throw e ∨
        ∃ e0, e = Error (wasm (message e0)) ∧
          (fetchModule p = Throw e0 ∨
           (∃ e1, addModule p = Throw e1 ∧
              e0 = Error ("Failed to load audio analyzer worklet at url: decoder-processor.js. " ++
                          "Further info: " ++ message e1)) ∨
           newDecoderNode p = Throw e0 ∨ nodeInit p = Throw e0 ∨ connectNodes p = Throw e0)))%string.
Proof.
  cbv zeta. unfold setupAudio.
  assert (Hg : getWebAudioMediaStream wanted p = ret () ∨ ∃ e, getWebAudioMediaStream wanted p = raise e ∧
    (mediaDevices p = false ∧ name e = "Error"%string ∨
     ∃ e0, getUserMedia p wanted = Throw e0 ∧
       (if bool_decide (name e0 = "NotAllowedError" ∨ name e0 = "NotFoundError")%string
        then name e = "Error"%string else e = e0))).
  { unfold getWebAudioMediaStream. destruct (mediaDevices p); simpl; [|right; eexists; split; [done|by left]].
    destruct (getUserMedia p wanted) as [[]|e0]; simpl; [by left|right].
    destruct (String.eqb_spec (name e0) "NotAllowedError") as [Hn|Hn1].
    { eexists. split; [done|]. right. exists e0. split; [done|]. rewrite bool_decide_true; auto. }
    destruct (String.eqb_spec (name e0) "NotFoundError") as [Hn|Hn2].
    { eexists. split; [done|]. right. exists e0. split; [done|]. rewrite bool_decide_true; auto. }
    exists e0. split; [done|]. right. exists e0. split; [done|]. rewrite bool_decide_false; tauto. }
  destruct Hg as [->|(e & -> & He)]; [|right; exists e; split; [done|by left]].
  simpl. destruct (newAudioContext p) as [[]|e]; simpl; [|failed; by left].
  destruct (createMediaStreamSource p) as [[]|e]; simpl; [|failed; by right; left].
  destruct (fetchModule p) as [n|e]; simpl; [|failed; eauto 8].
  unfold load_worklet. destruct (addModule p) as [[]|e]; simpl.
  2: { failed. right; right. eexists (Error _). split; [reflexivity|]. right; left. by eexists. }
  destruct (newDecoderNode p) as [[]|e]; simpl; [|failed; eauto 10].
  destruct (nodeInit p) as [[]|e]; simpl; [|failed; eauto 12].
  destruct (connectNodes p) as [[]|e]; simpl; [by left|failed; eauto 12].
Qed.
