(* ===== verification/Processor.v ===== *)
(** * The audio processor with the loading of its wasm module

    [Worklet] follows the two message queues and takes the settling of [init]'s promise as an
    event.  Here the processor runs the loading code of wasm-decoder.js ([Loader]): a call of
    [init] reads [wasm] when it is made, compiles, instantiates and finalizes when its promise
    settles; [WasmDecoder.new()] makes a decoder in the instance that [wasm] is at that time,
    and [this.decoder.process] hands its pointer to the instance [wasm] is by then.  The
    detailed system refines the protocol; and the decoder is used with its own instance as
    long as [init] is called once. *)

From Stdlib Require Import String.
From S2P Require Import Prelude TextCodec Memory Glue Loader Session Decoder Worklet.

(** A call of [init] under way: the octets it was given, and whether it found [wasm] set. *)
Record call : Type := Call { c_bytes : nat; c_already : bool }.

Record system : Type := System {
  protocol : worklet;
  control : glue_state;          (* the variables of wasm-decoder.js *)
  calls : list call;
  home : option nat              (* the instance [this.decoder] was made in *)
}.

Definition system0 (rate : Z) : system := System (start rate) fresh [] None.

Section processor.
Context (B : browser).

(** [init(WebAssembly.compile(wasmBytes))] up to its [await]: a promise is no string, Request
    or URL, so nothing is fetched. *)
Definition init_begins (wasmBytes : nat) (c : glue_state) : call * glue_state :=
  match begin (ld_parameters Decoder.loading) (ld_url Decoder.loading) (Source Other) c with
  | (Already _, c) => (Call wasmBytes true, c)
  | (Loading _, c) => (Call wasmBytes false, c)
  end.

(** The rest, when the promise of [WebAssembly.compile] has settled. *)
Definition init_ends (k : call) (c : glue_state) : bool * glue_state :=
  if c_already k then (true, c)
  else match compile B (c_bytes k) with
       | Throw _ => (false, c)
       | Ok m => match end_ B fallback_v1 (Module m) c with
                 | (Ok _, c) => (true, c)
                 | (Throw _, c) => (false, c)
                 end
       end.

(** [DecoderProcessor.onmessage] *)
Definition onmessage (m : to_processor) (s : system) : system :=
  match m with
  | SendWasmModule b =>
      let '(k, c) := init_begins b (control s) in
      System (set_compiling (compiling (protocol s) ++ [b]) (protocol s)) c (calls s ++ [k]) (home s)
  | InitDecoder _ =>
      match wasm (control s) with
      | Some n => System (set_decoder (protocol s)) (control s) (calls s) (Some n)
      | None => System (set_failed (protocol s)) (control s) (calls s) (home s)
      end
  end.

Inductive happening : Type :=
  | PageInit (wasmBytes : nat)
  | ToProcessor | ToNode
  | Settles (i : nat)             (* the promise of the [i]th call under way *)
  | Audio (inputs : audio) (call : option (list Z) → outcome val jsstring).

Definition step (x : happening) (s : system) : option system :=
  match x with
  | PageInit b => Some (System (node_init b (protocol s)) (control s) (calls s) (home s))
  | ToProcessor =>
      match inbox (protocol s) with
      | m :: q => Some (onmessage m (System (set_inbox q (protocol s)) (control s) (calls s) (home s)))
      | [] => None
      end
  | ToNode =>
      match outbox (protocol s) with
      | m :: q => Some (System (node_onmessage m (set_outbox q (protocol s))) (control s) (calls s) (home s))
      | [] => None
      end
  | Settles i =>
      k ← calls s !! i;
      let w := set_compiling (list_delete i (compiling (protocol s))) (protocol s) in
      let '(ok, c) := init_ends k (control s) in
      Some (System (if ok then init_then w else w) c (list_delete i (calls s)) (home s))
  | Audio inputs call =>
      Some (System (quantum inputs call (protocol s)) (control s) (calls s) (home s))
  end.

Fixpoint steps (xs : list happening) (s : system) : option system :=
  match xs with [] => Some s | x :: xs => step x s ≫= steps xs end.

(** ** Refinement of the protocol *)

(** The protocol's event for a step. *)
Inductive abstracts : happening → event → Prop :=
  | abs_init b : abstracts (PageInit b) (Init b)
  | abs_processor : abstracts ToProcessor AtProcessor
  | abs_node : abstracts ToNode AtNode
  | abs_compiled i : abstracts (Settles i) (Compiled i)
  | abs_rejected i : abstracts (Settles i) (NotCompiled i)
  | abs_audio inputs call : abstracts (Audio inputs call) (Quantum inputs call).

(** What relates the two: the calls under way, and what [wasm] is. *)
Record related (s : system) : Prop := Related {
  rel_calls : map c_bytes (calls s) = compiling (protocol s);
  rel_wasm : wasm_set (protocol s) = bool_decide (is_Some (wasm (control s)));
  rel_already k : k ∈ calls s → c_already k = true → is_Some (wasm (control s))
}.

Lemma related0 rate : related (system0 rate).
Proof. split; [done..|]. by intros k ?%not_elem_of_nil. Qed.

Lemma init_begins_spec b c :
  ∃ c', init_begins b c = (Call b (bool_decide (is_Some (wasm c))), c') ∧
        wasm c' = wasm c ∧ started c' = started c.
Proof.
  unfold init_begins, begin. destruct (wasm c) as [n|] eqn:E; simpl.
  - exists c. by rewrite E.
  - by eexists.
Qed.

(** A finished call: [wasm] is set, by this call or before. *)
Lemma init_ends_spec k c ok c' :
  init_ends k c = (ok, c') → (c_already k = true → is_Some (wasm c)) →
  (ok = true → is_Some (wasm c')) ∧
  (wasm c' = wasm c ∧ started c' = started c ∨
   c_already k = false ∧ ok = true ∧ ∃ n, wasm c' = Some n ∧ started c' = started c ++ [n]).
Proof.
  unfold init_ends. destruct (c_already k).
  { intros [= <- <-] Hk. split; [auto|by left]. }
  destruct (compile B (c_bytes k)) as [m|e]; [|intros [= <- <-] _; split; [done|by left]].
  unfold end_. intros Hr _. revert Hr.
  destruct (fetch_and_load B fallback_v1 (Module m) []) as [[[l|e] w]|]; intros [= <- <-].
  - split; [by eexists|]. right. split_and!; [done..|]. by exists (instance l).
  - split; [done|by left].
  - split; [done|by left].
Qed.

(** A load that nothing hinders. *)
Lemma init_ends_loads b m n c :
  compile B b = Ok m → instantiate_module B m = Ok n →
  init_ends (Call b false) c = (true, finalize_init (Loaded n m) (add_warnings [] c)).
Proof.
  intros Hc Hi. unfold init_ends. cbn [c_already c_bytes]. rewrite Hc.
  unfold end_, fetch_and_load, resolve, wbg_load, answer.
  cbv [mbind M_bind mret M_ret]. by rewrite Hi.
Qed.

Lemma step_settles i b m n s :
  calls s !! i = Some (Call b false) → compile B b = Ok m → instantiate_module B m = Ok n →
  step (Settles i) s =
    Some (System (init_then (set_compiling (list_delete i (compiling (protocol s))) (protocol s)))
                 (finalize_init (Loaded n m) (add_warnings [] (control s)))
                 (list_delete i (calls s)) (home s)).
Proof.
  intros Hk Hc Hi. cbn [step]. rewrite Hk. cbn [mbind option_bind].
  by rewrite (init_ends_loads b m n).
Qed.

Lemma steps_cons x xs s s1 r : step x s = Some s1 → steps xs s1 = r → steps (x :: xs) s = r.
Proof. intros Hx Hr. cbn [steps]. by rewrite Hx. Qed.

(** Audio changes but the results on their way. *)
Lemma quantum_same inputs call w :
  decoder (quantum inputs call w) = decoder w ∧ inbox (quantum inputs call w) = inbox w ∧
  compiling (quantum inputs call w) = compiling w ∧
  wasm_set (quantum inputs call w) = wasm_set w.
Proof.
  unfold quantum, process. destruct (stopped w); [done|]. destruct (decoder w) eqn:E; [|done].
  destruct (input_samples inputs); [|done]. by destruct (call _) as [[]|].
Qed.

Lemma step_refines x s s' :
  related s → step x s = Some s' →
  related s' ∧ ∃ y, abstracts x y ∧ act y (protocol s) = Some (protocol s').
Proof.
  intros [Hc Hw Ha]. destruct x as [b| | |i|inputs call]; simpl.
  - intros [= <-]. split; [by split|]. exists (Init b). split; [constructor|done].
  - destruct (inbox (protocol s)) as [|[b|rate] q] eqn:E; [done|..]; intros [= <-].
    + unfold onmessage. cbn [control]. destruct (init_begins_spec b (control s)) as (c' & -> & Hw' & _).
      split.
      * split; cbn [calls protocol control]; simpl.
        -- by rewrite map_app, Hc.
        -- by rewrite Hw'.
        -- rewrite Hw'. intros k [Hk| ->%list_elem_of_singleton]%elem_of_app; [by apply Ha|].
           simpl. by intros ?%bool_decide_eq_true.
      * exists AtProcessor. split; [constructor|]. simpl. by rewrite E.
    + unfold onmessage. cbn [control protocol]. destruct (wasm (control s)) as [n|] eqn:Ew;
        cbn [set_inbox]; (split; [split; simpl; rewrite ?Ew; done|]);
        exists AtProcessor; (split; [constructor|]); simpl; rewrite E; simpl; by rewrite Hw.
  - destruct (outbox (protocol s)) as [|m q] eqn:E; [done|]. intros [= <-]. split.
    + destruct m; by split.
    + exists AtNode. split; [constructor|]. simpl. by rewrite E.
  - destruct (calls s !! i) as [k|] eqn:Ek; [|done]. simpl.
    destruct (init_ends k (control s)) as [ok c] eqn:Ee. intros [= <-].
    assert (Hk : c_already k = true → is_Some (wasm (control s)))
      by (apply Ha; by eapply list_elem_of_lookup_2).
    destruct (init_ends_spec _ _ _ _ Ee Hk) as [Hok Hcase].
    assert (Hlt : (i < length (compiling (protocol s)))%nat)
      by (rewrite <- Hc, length_map; by eapply lookup_lt_Some).
    assert (Hmono : is_Some (wasm (control s)) → is_Some (wasm c))
      by (destruct Hcase as [[-> _]|(_ & _ & n & -> & _)]; [done|by eexists]).
    split.
    + split; cbn [calls protocol control].
      * assert (map c_bytes (list_delete i (calls s)) = list_delete i (map c_bytes (calls s))) as ->
          by apply (list_fmap_delete c_bytes (calls s) i). rewrite Hc. by destruct ok.
      * destruct ok; simpl.
        -- symmetry. apply bool_decide_eq_true. auto.
        -- destruct Hcase as [[-> _]|(_ & ? & _)]; [done|congruence].
      * intros k' Hk'%list_elem_of_delete_inv ?. eapply Hmono, Ha; done.
    + destruct ok; [exists (Compiled i)|exists (NotCompiled i)]; (split; [constructor|]); simpl;
        by rewrite bool_decide_eq_true_2.
  - intros [= <-]. destruct (quantum_same inputs call (protocol s)) as (_ & _ & Hq & Hqw). split.
    + split; cbn [calls protocol control]; [by rewrite Hq|by rewrite Hqw|done].
    + exists (Quantum inputs call). split; [constructor|done].
Qed.

Lemma steps_refine xs s s' :
  related s → steps xs s = Some s' →
  related s' ∧ ∃ ys, Forall2 abstracts xs ys ∧ execute ys (protocol s) = Some (protocol s').
Proof.
  revert s. induction xs as [|x xs IH]; intros s Hr Hs; simpl in Hs.
  { injection Hs as <-. split; [done|]. exists []. by split; [constructor|]. }
  destruct (step x s) as [s1|] eqn:E; [|done]. simpl in Hs.
  destruct (step_refines x s s1 Hr E) as [Hr1 (y & Hy & Ha)].
  destruct (IH s1 Hr1 Hs) as [? (ys & Hys & He)]. split; [done|].
  exists (y :: ys). split; [by constructor|]. simpl. by rewrite Ha.
Qed.

(** ** One call of [init], one instance *)

Definition is_send (m : to_processor) : bool :=
  match m with SendWasmModule _ => true | InitDecoder _ => false end.
Definition is_init (x : happening) : bool := match x with PageInit _ => true | _ => false end.

(** The instances there are or may still be started. *)
Definition loads (s : system) : nat :=
  (length (List.filter is_send (inbox (protocol s))) +
   length (List.filter (λ k, negb (c_already k)) (calls s)) + length (started (control s)))%nat.

(** [wasm] is the instance started last, and the decoder was made in one that was started. *)
Record homely (s : system) : Prop := Homely {
  home_wasm : wasm (control s) = list.last (started (control s));
  home_started n : home s = Some n → n ∈ started (control s);
  home_decoder : decoder (protocol s) = true → is_Some (home s)
}.

Lemma filter_delete {A} (f : A → bool) (l : list A) i a :
  l !! i = Some a →
  length (List.filter f l) =
    ((if f a then 1 else 0) + length (List.filter f (list_delete i l)))%nat.
Proof.
  revert i. induction l as [|b l IH]; intros [|i] Hi; simpl in *; simplify_eq.
  - by destruct (f a).
  - specialize (IH i Hi). change (delete i l) with (list_delete i l).
    destruct (f b); simpl; lia.
Qed.

Lemma step_homely x s s' :
  homely s → related s → step x s = Some s' →
  homely s' ∧ (loads s' ≤ loads s + if is_init x then 1 else 0)%nat.
Proof.
  intros [Hw Hs Hd] [_ _ Ha]. unfold loads. destruct x as [b| | |i|inputs call]; simpl.
  - intros [= <-]. split; [by split|]. simpl. rewrite List.filter_app, length_app. simpl. lia.
  - destruct (inbox (protocol s)) as [|[b|rate] q] eqn:E; [done|..]; intros [= <-].
    + unfold onmessage. cbn [control]. destruct (init_begins_spec b (control s)) as (c' & -> & Hw' & Hst).
      cbn [protocol calls control home]. rewrite Hst. split.
      * split; cbn [protocol control home]; [by rewrite Hw', Hst|by rewrite Hst|done].
      * simpl. rewrite List.filter_app, length_app. simpl. case_bool_decide; simpl; lia.
    + unfold onmessage. cbn [control protocol]. destruct (wasm (control s)) as [n|] eqn:Ew; simpl.
      * split; [|lia]. split; simpl; [by rewrite Ew| |by eexists].
        intros ? [= <-]. apply last_Some_elem_of. by rewrite <- Hw.
      * split; [|lia]. split; simpl; [by rewrite Ew|done|done].
  - destruct (outbox (protocol s)) as [|m q] eqn:E; [done|]. intros [= <-].
    destruct m; simpl; (split; [by split|]); rewrite ?List.filter_app, ?length_app; simpl; lia.
  - destruct (calls s !! i) as [k|] eqn:Ek; [|done]. simpl.
    destruct (init_ends k (control s)) as [ok c] eqn:Ee. intros [= <-].
    assert (Hk : c_already k = true → is_Some (wasm (control s)))
      by (apply Ha; by eapply list_elem_of_lookup_2).
    destruct (init_ends_spec _ _ _ _ Ee Hk) as [_ Hcase].
    rewrite (filter_delete (λ k, negb (c_already k)) (calls s) i k Ek).
    destruct Hcase as [[Hwc Hsc]|(Hfalse & -> & n & Hwc & Hsc)].
    + split; [destruct ok; split; simpl; rewrite ?Hwc, ?Hsc; auto|].
      destruct ok; simpl; rewrite Hsc; destruct (c_already k); simpl; lia.
    + split.
      * split; simpl; [by rewrite Hwc, Hsc, last_snoc| |done].
        intros n' Hn'. rewrite Hsc. apply elem_of_app. left. auto.
      * simpl. rewrite Hsc, length_app, Hfalse. simpl. lia.
  - intros [= <-]. destruct (quantum_same inputs call (protocol s)) as (Hq & Hqi & _).
    split; [split; cbn [protocol control home]; [done..|by rewrite Hq]|].
    cbn [protocol calls control]. rewrite Hqi. lia.
Qed.

Lemma steps_homely xs s s' :
  homely s → related s → steps xs s = Some s' →
  homely s' ∧ (loads s' ≤ loads s + length (List.filter is_init xs))%nat.
Proof.
  revert s. induction xs as [|x xs IH]; intros s Hh Hr Hs; simpl in Hs.
  { injection Hs as <-. split; [done|]. simpl. lia. }
  destruct (step x s) as [s1|] eqn:E; [|done]. simpl in Hs.
  destruct (step_homely x s s1 Hh Hr E) as [Hh1 Hl1].
  destruct (step_refines x s s1 Hr E) as [Hr1 _].
  destruct (IH s1 Hh1 Hr1 Hs) as [? Hl]. split; [done|]. simpl. destruct (is_init x); simpl; lia.
Qed.

Lemma homely0 rate : homely (system0 rate).
Proof. by split. Qed.
End processor.

Ltac evaluated :=
  match goal with |- steps _ _ ?s = _ => let s' := eval vm_compute in s in change s with s' end.

(** ** Properties *)

(** C22: The processor with its loading code refines the protocol: every run of the detailed
    system is, step by step, a run of the protocol with the same page calls, messages and audio,
    in which the promise of [init] settles as compiling, instantiating and the state of [wasm]
    decide; and the protocol's flag says whether [wasm] is set. *)
Theorem processor_refines_protocol (B : browser) (rate : Z) (xs : list happening) (s : system) :
  steps B xs (system0 rate) = Some s →
  ∃ ys, Forall2 abstracts xs ys ∧ execute ys (start rate) = Some (protocol s) ∧
    wasm_set (protocol s) = bool_decide (is_Some (wasm (control s))).
Proof.
  intros Hs. destruct (steps_refine B xs _ _ (related0 rate) Hs) as [[_ Hw _] (ys & ? & ?)].
  by exists ys.
Qed.

(** The handshake, then one quantum of audio. *)
Definition handshake : list happening :=
  [PageInit 5; ToProcessor; Settles 0; ToNode; ToProcessor;
   Audio [[[0; 0; 0; 0]]] (λ _, Ok (lit "hello"))].

Lemma processor_refines_protocol_witness :
  ∃ s, steps sample_browser handshake (system0 48000) = Some s ∧ decoder (protocol s) = true ∧
  ∃ ys, Forall2 abstracts handshake ys ∧ execute ys (start 48000) = Some (protocol s) ∧
    wasm_set (protocol s) = bool_decide (is_Some (wasm (control s))).
Proof.
  eexists. split; [vm_compute; reflexivity|]. split; [done|].
  eapply (processor_refines_protocol sample_browser). vm_compute; reflexivity.
Defined.

(** C21: As long as the page calls [node.init] at most once, the decoder is used in the wasm
    instance it was made in: at most one instance is started, it is what [wasm] is, and the
    decoder's pointer belongs to it. *)
Theorem decoder_stays_home (B : browser) (rate : Z) (xs : list happening) (s : system) :
  (length (List.filter is_init xs) ≤ 1)%nat → steps B xs (system0 rate) = Some s →
  (length (started (control s)) ≤ 1)%nat ∧
  (decoder (protocol s) = true → ∃ n, home s = Some n ∧ wasm (control s) = Some n).
Proof.
  intros Hi Hs. destruct (steps_homely B xs _ _ (homely0 rate) (related0 rate) Hs) as [[Hw Hst Hd] Hl].
  assert (length (started (control s)) ≤ 1)%nat as Hone
    by (unfold loads in Hl; simpl in Hl; lia).
  split; [done|]. intros [n Hn]%Hd. exists n. split; [done|]. specialize (Hst n Hn). rewrite Hw.
  destruct (started (control s)) as [|n' [|]]; [by apply not_elem_of_nil in Hst| |simpl in Hone; lia].
  by apply list_elem_of_singleton in Hst as ->.
Qed.

Lemma decoder_stays_home_witness :
  ∃ s, steps sample_browser handshake (system0 48000) = Some s ∧
  (length (started (control s)) ≤ 1)%nat ∧
  (decoder (protocol s) = true → ∃ n, home s = Some n ∧ wasm (control s) = Some n).
Proof.
  eexists. split; [vm_compute; reflexivity|].
  apply (decoder_stays_home sample_browser 48000 handshake); [by vm_compute; lia|].
  vm_compute; reflexivity.
Defined.

(** With two calls of [node.init] that overlap, it is not: when the second load ends after
    the decoder was made, [wasm] is the second instance, while the decoder's pointer is one into
    the first. *)
Theorem overlapping_inits_move_decoder (B : browser) (rate : Z) (b1 b2 m1 m2 n1 n2 : nat) :
  compile B b1 = Ok m1 → compile B b2 = Ok m2 →
  instantiate_module B m1 = Ok n1 → instantiate_module B m2 = Ok n2 →
  ∃ s, steps B [PageInit b1; PageInit b2; ToProcessor; ToProcessor; Settles 0; ToNode;
                ToProcessor; Settles 0] (system0 rate) = Some s ∧
    decoder (protocol s) = true ∧ failed (protocol s) = false ∧
    home s = Some n1 ∧ wasm (control s) = Some n2.
Proof.
  intros H1 H2 H3 H4. eexists. split.
  - do 4 (eapply steps_cons; [vm_compute; reflexivity|]).
    eapply steps_cons; [by apply (step_settles B 0 b1 m1 n1)|]. evaluated.
    do 2 (eapply steps_cons; [vm_compute; reflexivity|]).
    eapply steps_cons; [by apply (step_settles B 0 b2 m2 n2)|]. evaluated. reflexivity.
  - by split_and!.
Qed.

Lemma overlapping_inits_move_decoder_witness :
  let B := Browser true true true true (λ u, Throw NetworkError) (λ r, Throw OtherError)
             (λ r, Ok 0%nat) (λ b, Throw OtherError) (λ m, Ok (10 + m)%nat) (λ b, Ok b) in
  ∃ s, steps B [PageInit 1; PageInit 2; ToProcessor; ToProcessor; Settles 0; ToNode;
                ToProcessor; Settles 0] (system0 48000) = Some s ∧
    decoder (protocol s) = true ∧ failed (protocol s) = false ∧
    home s = Some 11%nat ∧ wasm (control s) = Some 12%nat.
Proof. intros B. by apply (overlapping_inits_move_decoder B 48000 1 2 1 2 11 12). Defined.
